(* ===== verification/_CoqProject ===== *)
-Q . S2P
Prelude.v
Machine.v
Libk.v
Screen.v
Terminal.v
Serial.v
Printf.v
Ends.v
Debug.v
Idt.v
Isr.v
Timer.v
Keyboard.v
Cmos.v
CmosUpdate.v
Boot.v
PageWalk.v
Mmap.v
Frames.v
Multiboot.v
Paging.v
HugePage.v
DebugBuild.v
PageEntry.v
Start.v
LongMode.v
Kernel.v
DebugKernel.v
Preempt.v
Stubs.v
System.v
Exceptions.v
Loader.v
