(* ===== verification/Prelude.v ===== *)
(** * Utero: a verification library for the utero-archive kernel

    utero-archive is a small x86-64 kernel.  A multiboot2 loader starts it, the
    assembly of asm/ switches to long mode and calls [kmain], which sets up the
    screen, the interrupt table, the timer, the serial port, the keyboard, the
    frame allocator and the clock, prints a prompt and idles; from then on only
    interrupt handlers run.  The library models all of its C code, src/ and
    src/include/, and the assembly around it, as functions over one machine
    state, and proves what makes the code correct, or, where the code does not
    do what it means to, what it does instead.

    ** The parts, their files and how they interact

    - Prelude.v (this file): machine integers, little-endian bytes, shared
      list and integer lemmas, tactics, the hint database [utero].
    - Machine.v: the state [kstate] (memory, the trace of port and CPU
      operations, the interrupt flag, cr3, and the file-scope variables of the
      C files), the monad [M] of C functions with its laws and [wp], loops,
      memory accesses, and src/core/ports.c.
    - Libk.v: src/libk: [strrev], [itoa], [ulltoa], [isdigitk], [memcpyk].
    - Screen.v: src/drivers/screen.c; uses the ports and [memcpyk].  Terminal.v:
      the abstract terminal it implements.
    - Serial.v: src/drivers/serial.c, but for [serial_printf].
    - Printf.v: src/libk/printfk.c and [serial_printf]; writes to the screen or
      to the serial port through the interface [CharDevice].  Ends.v: its
      termination on any input.  Debug.v: the [DEBUG] macro of
      include/core/debug.h.
    - Idt.v: src/core/idt.c and the table as the processor reads it.
    - Isr.v: src/core/isr.c and src/kernel/panic.c; calls registered handlers
      through the interface [Handlers].
    - Timer.v: src/core/timer.c.  Keyboard.v: src/drivers/keyboard.c.
      Both register a handler with Isr.v.
    - Cmos.v: src/core/cmos.c, against the interface [Rtc] of a clock at rest;
      CmosUpdate.v: against one that is updated meanwhile, [RtcUpdated].
    - Boot.v: src/core/boot.c, the boot information in memory as the code reads
      it.  Multiboot.v: the structures of include/core/boot.h, as a loader
      writes them.
    - PageWalk.v: the processor's page walk, and loads and stores through it.
    - Mmap.v: src/mmu/mmap.c, the frame allocator over the memory map tag, and
      the clearing of a frame.  Frames.v: sequences of allocations.
    - Paging.v: src/mmu/paging.c and src/mmu/mmu.c; page tables reached through
      the recursive entry, against the page walk.  HugePage.v:
      mapping inside a huge page.  PageEntry.v: the bit-fields of
      include/mmu/paging.h.
      DebugBuild.v: boot.c, mmap.c and paging.c with their [DEBUG] lines.
    - Start.v: asm/boot.asm, up to paging: it builds the tables the others rely
      on.  LongMode.v: its end, the segment table and the far jump through it,
      and asm/long_mode_init.asm.
    - Kernel.v: src/kernel/kmain.c and src/core/check.c; [kmain] composes all of
      the above, and [step]/[reach] are the machine after boot.
      DebugKernel.v: [kmain] in the debug build.  Preempt.v: [kmain] with
      interrupts between its statements.
    - Stubs.v: asm/interrupt.asm as instructions, and whole interrupts from the
      processor's pushes to [iretq], on a stack reached through the page walk.
    - System.v: the machine after [kmain]: interrupts through the table in memory,
      the stubs its gates lead to, and the C handlers.  Exceptions.v: the same for
      exceptions, and sequences of interrupts and breakpoints.
    - Loader.v: asm/multiboot_header.asm as a loader looks for it, and the machine
      from the loader's jump through [boot] (LongMode.v) and [kmain], interrupted
      between its statements as in Preempt.v, to the interrupts and allocations
      after it.

    Each file has the operations first, under the names of the C functions, then
    the abstract definitions its theorems refer to, the lemmas, and last the
    properties, numbered C1 to C40 over the whole library.

    ** How C is modelled

    - Integers are [Z]; every conversion or wrap-around of the source is written
      out ([u8] ... [u64], [s32]).  Signed overflow, an index outside a local
      array, a variable argument of the wrong type, an access through an absent
      page table entry, a store through a read-only one (boot.asm sets CR0.WP)
      and an instruction the processor refuses (a segment
      descriptor of the wrong kind) are [Fault]s, so a theorem that a call returns
      also says that none of them occurs.
    - A function on a caller's buffer is a function on the list of its bytes
      ([res]); any other is a function of the machine state ([M]) with three
      outcomes: it returns, it halts the machine ([kernel_panic], the [hlt] of
      the start-up code), or it faults.
    - Memory is physical, one byte per address.  The kernel's code and data lie
      in the first gigabyte, which asm/boot.asm maps to itself (C9), and their
      accesses are physical.  What may lie elsewhere goes through the page walk of
      PageWalk.v: the tables of paging.c, the frame [mmap_deallocate_frame] clears,
      and the stacks of interrupted programs.
    - Port writes are recorded in the trace, and the devices the kernel programs
      (CRT controller, UART, interrupt controllers, interval timer) are functions
      of that trace, written from their data sheets.  What a port read yields is
      the parameter [Env].  The addresses of the assembly stubs and the date of
      the build are the parameter [Build]; the answers of CPUID and the place of
      the tables are the parameters of Start.v; the place of the segment table is
      the parameter [Rodata] of LongMode.v; the program Crystal compiles, which
      calls [kmain], is the argument [main] of [boot]; what a C function leaves in the
      registers it may clobber, and the words it pushes on the stack for itself,
      are the parameter [Calls] of Stubs.v.
    - Interrupts run where the code waits for them, before each poll of
      [check_interrupts] (the parameter [Irqs]) and in the idle loop ([step] for
      the C handlers, [deliver] for the whole path); and, in Preempt.v, between
      the statements of [kmain] (the parameter [Schedule]).  Inside its statements
      they are not interleaved.
    - The model is the default build, in which [DEBUG] expands to nothing.  What
      one [DEBUG] does in the debug build is in Debug.v; DebugBuild.v has the
      functions of boot.c, mmap.c and paging.c as that build compiles them (C18,
      C19), with the macro as a parameter, and DebugKernel.v [kmain] (C20).  The one
      thing the lines can add is the overflow of an [int] at a number [2^31], which
      the expansion [checking] of the macro finds.

    ** Fuel

    Loops that are not counted take fuel and fault with [OutOfFuel] when it runs
    out; the theorems show that they do not.  The loops over a character array and
    over a format get one step more than it has characters, and every step uses
    one up (C15); [mmap_read] the size of the tag and of the region; the tag walks
    and [mmap_allocate_frame] an argument that any number above the list's length
    is enough for (the size in bytes, in C16, C17 and Loader.v); busy waits the [patience]
    of [Env], which the promises of the devices ([TxReady], [Rtc], [RtcUpdated])
    are stated against.

    ** What the theorems show

    - The whole machine: a loader accepts the kernel's header (C32); from what it
      hands over the machine boots to the idle loop, whatever interrupts come
      between the statements of [kmain], and serves interrupts and breakpoints from
      there (C1), with an allocator that gives away neither the
      kernel nor the boot information (C6).
    - Its parts: the start-up code builds the tables the kernel needs (C9) or
      reports what is missing (C31), and calls [main] in 64-bit code (C7);
      [kmain] boots with everything set up, the devices included (C2), or refuses
      a bad loader (C30), and neither interrupts between its statements disturb it
      (C3) nor the lines of the debug build (C20); from there any sequence of interrupts and breakpoints,
      with the processor, table and stubs around the C code, leaves the
      interrupted program alone (C4), every other exception stops the machine
      with its context on the screen (C5), which [get_stack] finds, or misses by a
      word (C8), and so does a line without a gate (C22).
    - Interrupts: the gates the processor sees (C21, C36), the controllers'
      acknowledgement (C23), the timer's rate (C39), the keyboard (C38).
    - Memory: the boot information is read back as it was written (C16, C17), the
      allocator's walk refines its abstract list of chunks (C12), one allocation
      settles on the first available chunk, and returns its number or the next
      (C11), a sequence of them is disjoint (C13), the page walk (C10),
      unmapping (C28), mapping on the booted kernel, which maps nothing
      (C27), assignments to the fields of an entry (C29), and all of it
      in the debug build (C18, C19).
    - Input and output: formats (C14) and their termination (C15), numerals (C34,
      C35), the screen as a terminal (C26) and the memory it stays in (C37), the serial port (C33)
      and what the debug build sends over it (C20), the clock, at rest (C24) and updated meanwhile (C25).
    - What the code does where it goes wrong: C40, and theorems without a number
      in Libk.v, Screen.v, Serial.v, Printf.v, Cmos.v, Mmap.v, Paging.v and Stubs.v.
      Other theorems without a number: the C handlers alone in the idle loop
      (Kernel.v), interrupts alone through the table (System.v), panics and the
      controllers' programming as C code (Isr.v), a stack that is not mapped
      (Stubs.v), printed text cell by cell (Screen.v).

    ** Not modelled

    The Crystal program src/kernel/main.cr, a call of [kmain] without its
    arguments, with its vendored standard library and musl: [main] is an argument
    and that it passes its registers on a hypothesis.  The linker script and build
    files: where things are placed are parameters.  Interrupts inside a statement of [kmain], other than in
    [check_interrupts].  Of the processor: the translation lookaside buffer (each
    access walks the tables as they are; [invlpg] is an event), double faults, and
    what it checks of a gate after its type and present bit.  Of the C functions
    an interrupt calls: what they read back from their own part of the stack.

    Of mapping, the tables [map_page_to_frame] would create below the top level:
    it links each new one at the wrong place (the theorem
    [next_table_create_misplaces] of Paging.v), so what the next level holds is
    whatever memory, if any, is there.

    ** What could be added

    Interrupts through the stubs, not only through [irq_handler], between the
    statements of [kmain]; interrupts between the accesses of a statement. *)

From stdpp Require Import base numbers list gmap strings.
From Stdlib Require Import ZArith Lia.

#[global] Open Scope Z_scope.
#[global] Set Default Goal Selector "!".

(** ** Machine integers

    A [w]-bit unsigned C value is a [Z] in [[0, 2^w)]; [u8] ... [u64] are the
    conversions C inserts on assignment to such a type.  [s32] is the
    conversion to [int] (implementation-defined in C, two's complement on
    x86-64). *)

Definition u8 (z : Z) : Z := z `mod` 2 ^ 8.
Definition u16 (z : Z) : Z := z `mod` 2 ^ 16.
Definition u32 (z : Z) : Z := z `mod` 2 ^ 32.
Definition u64 (z : Z) : Z := z `mod` 2 ^ 64.
Definition s32 (z : Z) : Z := (z + 2 ^ 31) `mod` 2 ^ 32 - 2 ^ 31.

(** Whether an [int] computation stays in range; C leaves the other case
    undefined. *)
Definition in_int (z : Z) : bool := (- 2 ^ 31 <=? z) && (z <? 2 ^ 31).

(** ** Characters and string literals: a [char] is its byte. *)

Definition chr (a : Ascii.ascii) : Z := Z.of_N (Ascii.N_of_ascii a).
Definition str (s : string) : list Z := chr <$> String.list_ascii_of_string s.

(** ** Little-endian byte sequences *)

Fixpoint le_bytes (n : nat) (z : Z) : list Z :=
  match n with
  | O => []
  | S n => z `mod` 256 :: le_bytes n (z / 256)
  end.

Fixpoint le_val (bs : list Z) : Z :=
  match bs with
  | [] => 0
  | b :: bs => b + 256 * le_val bs
  end.

Definition is_byte (b : Z) : Prop := 0 <= b < 256.

(** ** Tactics *)

Create HintDb utero.

(** Reduce the conversions to [Z.modulo] and decide by linear arithmetic. *)
Ltac words := unfold u8, u16, u32, u64, s32, is_byte in *.
Ltac word_lia := words; Z.div_mod_to_equations; lia.

(** Turn boolean integer tests in the context into linear facts. *)
Ltac bools :=
  repeat match goal with
  | H : (_ && _) = true |- _ => apply andb_true_iff in H as [? ?]
  | H : (_ || _) = false |- _ => apply orb_false_iff in H as [? ?]
  | H : (_ =? _) = true |- _ => apply Z.eqb_eq in H
  | H : (_ =? _) = false |- _ => apply Z.eqb_neq in H
  | H : (_ <? _) = true |- _ => apply Z.ltb_lt in H
  | H : (_ <? _) = false |- _ => apply Z.ltb_ge in H
  | H : (_ <=? _) = true |- _ => apply Z.leb_le in H
  | H : (_ <=? _) = false |- _ => apply Z.leb_gt in H
  end.

(** Case analysis on every integer test of the goal; contradictory cases are
    dropped as they arise. *)
Ltac split_tests :=
  repeat match goal with
  | |- context [?a =? ?b] => destruct (Z.eqb_spec a b); try (exfalso; lia)
  | |- context [?a <? ?b] => destruct (Z.ltb_spec a b); try (exfalso; lia)
  | |- context [?a <=? ?b] => destruct (Z.leb_spec a b); try (exfalso; lia)
  end.

(** ** Conversions *)

Lemma u8_range z : 0 <= u8 z < 256.
Proof. word_lia. Qed.

Lemma u16_range z : 0 <= u16 z < 2 ^ 16.
Proof. word_lia. Qed.

Lemma u32_range z : 0 <= u32 z < 2 ^ 32.
Proof. word_lia. Qed.

Lemma u64_range z : 0 <= u64 z < 2 ^ 64.
Proof. word_lia. Qed.

Lemma s32_range z : - 2 ^ 31 <= s32 z < 2 ^ 31.
Proof. word_lia. Qed.

Lemma u8_small z : 0 <= z < 256 -> u8 z = z.
Proof. intros. apply Z.mod_small. lia. Qed.

Lemma u16_small z : 0 <= z < 2 ^ 16 -> u16 z = z.
Proof. intros. apply Z.mod_small. lia. Qed.

Lemma u32_small z : 0 <= z < 2 ^ 32 -> u32 z = z.
Proof. intros. apply Z.mod_small. lia. Qed.

Lemma u64_small z : 0 <= z < 2 ^ 64 -> u64 z = z.
Proof. intros. apply Z.mod_small. lia. Qed.

Lemma s32_small z : - 2 ^ 31 <= z < 2 ^ 31 -> s32 z = z.
Proof. intros. unfold s32. rewrite Z.mod_small; lia. Qed.

Lemma in_int_true z : in_int z = true <-> - 2 ^ 31 <= z < 2 ^ 31.
Proof. unfold in_int. rewrite andb_true_iff, Z.leb_le, Z.ltb_lt. lia. Qed.

Lemma u64_u64 z : u64 (u64 z) = u64 z.
Proof. apply u64_small, u64_range. Qed.

#[export] Hint Resolve u8_range u16_range u32_range u64_range s32_range : utero.

(** ** Masks, shifts and unions of disjoint bit fields *)

(** A mask of the low [n] bits is a remainder. *)
Lemma land_low x m n : 0 <= n -> m = Z.ones n -> Z.land x m = x `mod` 2 ^ n.
Proof. intros Hn ->. by apply Z.land_ones. Qed.

(** A mask of [k] bits from bit [n] on cuts a field out in place. *)
Lemma land_field x n k :
  0 <= n -> 0 <= k -> Z.land x (Z.shiftl (Z.ones k) n) = (x / 2 ^ n) `mod` 2 ^ k * 2 ^ n.
Proof.
  intros Hn Hk. rewrite <- Z.land_ones, <- Z.shiftl_mul_pow2, <- Z.shiftr_div_pow2 by done.
  apply Z.bits_inj'. intros i Hi. rewrite !Z.land_spec, !Z.shiftl_spec by done.
  destruct (decide (i < n)) as [Hlt|Hge].
  - by rewrite !(Z.testbit_neg_r _ (i - n)), andb_false_r by lia.
  - rewrite Z.land_spec, Z.shiftr_spec by lia. by replace (i - n + n) with i by lia.
Qed.

(** Or-ing a value below [2^n] into a multiple of [2^n] is addition. *)
Lemma lor_disjoint a b n :
  0 <= n -> 0 <= b < 2 ^ n -> Z.lor (a * 2 ^ n) b = a * 2 ^ n + b.
Proof.
  intros Hn Hb.
  rewrite Z.add_nocarry_lxor, Z.lxor_lor; try done.
  all: apply Z.bits_inj'; intros i Hi; rewrite Z.land_spec, Z.bits_0.
  all: destruct (Z.ltb_spec i n);
    [by rewrite Z.mul_pow2_bits_low by lia|].
  all: rewrite <- (Z.mod_small b (2 ^ n)) by lia.
  all: by rewrite Z.mod_pow2_bits_high, andb_false_r by lia.
Qed.

(** ** Little-endian bytes *)

Lemma length_le_bytes n z : length (le_bytes n z) = n.
Proof. revert z; induction n; intros; simpl; auto. Qed.

Lemma le_bytes_byte n z : Forall is_byte (le_bytes n z).
Proof.
  revert z; induction n; intros z; simpl; constructor; auto.
  unfold is_byte. apply Z.mod_pos_bound. lia.
Qed.

Lemma le_val_bytes n z : le_val (le_bytes n z) = z `mod` 256 ^ Z.of_nat n.
Proof.
  revert z; induction n; intros z.
  - simpl. by rewrite Z.mod_1_r.
  - simpl le_bytes. simpl le_val. rewrite IHn, Nat2Z.inj_succ, Z.pow_succ_r by lia.
    rewrite Z.rem_mul_r; lia.
Qed.

Lemma le_val_range bs : Forall is_byte bs -> 0 <= le_val bs < 256 ^ Z.of_nat (length bs).
Proof.
  induction 1 as [|b bs Hb _ IH]; simpl; [lia|].
  unfold is_byte in Hb. rewrite Nat2Z.inj_succ, Z.pow_succ_r by lia. lia.
Qed.

#[export] Hint Resolve le_bytes_byte : utero.

(** ** Bytes by exhaustion: a decidable statement about one byte is checked on
    the 256 cases. *)

Lemma byte_forall (P : Z -> bool) :
  forallb P (seqZ 0 256) = true -> forall b, is_byte b -> P b = true.
Proof.
  intros H b Hb. apply forallb_forall with (x := b) in H; [done|].
  apply list_elem_of_In, elem_of_seqZ. unfold is_byte in Hb. lia.
Qed.

(** ** Lists *)

Lemma length_str s : length (str s) = String.length s.
Proof.
  unfold str. rewrite length_fmap.
  induction s; simpl; auto.
Qed.

Lemma lookup_total_nth {A} (d : A) (l : list A) i x :
  l !! i = Some x -> nth i l d = x.
Proof. revert i; induction l; intros [|i] ?; simplify_eq/=; auto. Qed.
