(* ===== verification/Machine.v ===== *)
(** * The machine the kernel runs on

    [kstate] is the whole state the kernel reads and writes: byte-addressed
    memory, the record of port and CPU operations, the interrupt flag, and the
    file-scope variables of every C file, one record per file.  [M] is the
    monad of C functions over it: a call returns, stops the machine
    ([kernel_panic]), or meets a fault, i.e. a situation C or the processor
    gives no meaning to.  The ports of src/core/ports.c are defined here, since
    every driver uses them.

    Devices are a parameter: [Env] says which byte a port yields after a given
    history of operations. *)

From stdpp Require Import base numbers list gmap strings.
From S2P Require Import Prelude.

(** ** What the kernel did to the outside world *)

Inductive event :=
  | Out8 (port data : Z)
  | In8 (port data : Z)
  | Out16 (port data : Z)
  | In16 (port data : Z)
  | Lidt (base length : Z)
  | Sti
  | Cli
  | Invlpg (addr : Z).

#[global] Instance event_eq_dec : EqDecision event.
Proof. solve_decision. Defined.

(** ** Data of the C files *)

(** Globals of src/drivers/screen.c. *)
Record screen_t := Screen {
  screen_scheme : Z;
  framebuffer : Z;
  screen_col : Z;
  screen_row : Z
}.

(** [struct opts] and [struct idt_gate] of src/include/core/idt.h. *)
Record opts_t := Opts {
  stack_OK : Z;
  ZEROS : Z;
  gate_type : Z;
  ONES : Z;
  ZERO : Z;
  DPL : Z;
  present : Z
}.

Record idt_gate_t := IdtGate {
  ptr_low : Z;
  selector : Z;
  opts : opts_t;
  ptr_mid : Z;
  ptr_high : Z;
  _1_reserved : Z;
  _type : Z;
  _2_reserved : Z
}.

Record idt_register_t := IdtRegister {
  length_ : Z;
  base : Z
}.

(** The values an [isr_t] function pointer takes in this kernel; [isr_null] is
    the null pointer. *)
Inductive isr_t :=
  | isr_null
  | isr_breakpoint_handler
  | isr_timer_callback
  | isr_keyboard_callback.

#[global] Instance isr_t_eq_dec : EqDecision isr_t.
Proof. solve_decision. Defined.

(** Globals of src/mmu/mmap.c. *)
Record mmap_t := Mmap {
  memory_area : Z;
  kernel_start : Z;
  kernel_end : Z;
  multiboot_start : Z;
  multiboot_end : Z;
  next_free_frame : Z
}.

Record kstate := K {
  mem : gmap Z Z;                      (* physical memory, one byte per address *)
  trace : list event;                  (* newest first *)
  iflag : bool;                        (* RFLAGS.IF *)
  cr3 : Z;                             (* physical address of the level 4 table *)
  scr : screen_t;
  idt : list idt_gate_t;
  idt_reg : idt_register_t;
  interrupt_handlers : list isr_t;
  tick : Z;
  mm : mmap_t
}.

Definition set_mem (f : gmap Z Z -> gmap Z Z) (s : kstate) : kstate :=
  K (f (mem s)) (trace s) (iflag s) (cr3 s) (scr s) (idt s) (idt_reg s)
    (interrupt_handlers s) (tick s) (mm s).
Definition set_trace (f : list event -> list event) (s : kstate) : kstate :=
  K (mem s) (f (trace s)) (iflag s) (cr3 s) (scr s) (idt s) (idt_reg s)
    (interrupt_handlers s) (tick s) (mm s).
Definition set_iflag (b : bool) (s : kstate) : kstate :=
  K (mem s) (trace s) b (cr3 s) (scr s) (idt s) (idt_reg s)
    (interrupt_handlers s) (tick s) (mm s).
Definition set_scr (f : screen_t -> screen_t) (s : kstate) : kstate :=
  K (mem s) (trace s) (iflag s) (cr3 s) (f (scr s)) (idt s) (idt_reg s)
    (interrupt_handlers s) (tick s) (mm s).
Definition set_idt_table (f : list idt_gate_t -> list idt_gate_t) (s : kstate) : kstate :=
  K (mem s) (trace s) (iflag s) (cr3 s) (scr s) (f (idt s)) (idt_reg s)
    (interrupt_handlers s) (tick s) (mm s).
Definition set_idt_reg (r : idt_register_t) (s : kstate) : kstate :=
  K (mem s) (trace s) (iflag s) (cr3 s) (scr s) (idt s) r
    (interrupt_handlers s) (tick s) (mm s).
Definition set_handlers (f : list isr_t -> list isr_t) (s : kstate) : kstate :=
  K (mem s) (trace s) (iflag s) (cr3 s) (scr s) (idt s) (idt_reg s)
    (f (interrupt_handlers s)) (tick s) (mm s).
Definition set_tick (t : Z) (s : kstate) : kstate :=
  K (mem s) (trace s) (iflag s) (cr3 s) (scr s) (idt s) (idt_reg s)
    (interrupt_handlers s) t (mm s).
Definition set_mm (f : mmap_t -> mmap_t) (s : kstate) : kstate :=
  K (mem s) (trace s) (iflag s) (cr3 s) (scr s) (idt s) (idt_reg s)
    (interrupt_handlers s) (tick s) (f (mm s)).

(** A machine with memory [m] and nothing done yet: the globals are zero, as C
    initialises them. *)
Definition null_gate : idt_gate_t := IdtGate 0 0 (Opts 0 0 0 0 0 0 0) 0 0 0 0 0.
Definition blank_state (m : gmap Z Z) : kstate :=
  K m [] false 0 (Screen 0 0 0 0) (replicate 256 null_gate) (IdtRegister 0 0)
    (replicate 256 isr_null) 0 (Mmap 0 0 0 0 0 0).

(** ** Faults and outcomes *)

Inductive fault :=
  | OutOfBounds        (* access outside an array *)
  | SignedOverflow     (* [int] arithmetic out of range *)
  | DivideByZero
  | BadVarArg          (* [va_arg] past the arguments or at another type *)
  | PageFault          (* access through an absent page table entry *)
  | ProtectionFault    (* a segment the processor refuses *)
  | OutOfFuel.         (* the loop did not end within the fuel *)

#[global] Instance fault_eq_dec : EqDecision fault.
Proof. solve_decision. Defined.

(** The result of a function on local buffers only. *)
Inductive res (A : Type) :=
  | Ok (a : A)
  | Err (f : fault).
Arguments Ok {A} a.
Arguments Err {A} f.

#[global] Instance res_ret : MRet res := fun A a => Ok a.
#[global] Instance res_bind : MBind res := fun A B k r =>
  match r with Ok a => k a | Err f => Err f end.

(** The result of a C function. *)
Inductive outcome (A : Type) :=
  | Ret (a : A) (s : kstate)
  | Halted (s : kstate)               (* the [while (1) ;] of kernel_panic *)
  | Fault (f : fault).
Arguments Ret {A} a s.
Arguments Halted {A} s.
Arguments Fault {A} f.

Definition M (A : Type) : Type := kstate -> outcome A.

#[global] Instance M_ret : MRet M := fun A a s => Ret a s.
#[global] Instance M_bind : MBind M := fun A B k m s =>
  match m s with
  | Ret a s' => k a s'
  | Halted s' => Halted s'
  | Fault f => Fault f
  end.

Definition gets {A} (f : kstate -> A) : M A := fun s => Ret (f s) s.
Definition modify (f : kstate -> kstate) : M unit := fun s => Ret tt (f s).
Definition throw {A} (f : fault) : M A := fun _ => Fault f.
Definition lift {A} (r : res A) : M A := fun s =>
  match r with Ok a => Ret a s | Err f => Fault f end.

(** An [int] result: undefined when it does not fit. *)
Definition int (z : Z) : M Z := if in_int z then mret z else throw SignedOverflow.

(** ** Loops *)

(** [for (i = lo; n iterations; i++) body(i)]. *)
Fixpoint for_from (lo : Z) (n : nat) (body : Z -> M unit) : M unit :=
  match n with
  | O => mret tt
  | S n => body lo ;; for_from (lo + 1) n body
  end.

(** The same loop as a function on a value. *)
Fixpoint fold_from {A} (f : Z -> A -> A) (lo : Z) (n : nat) (a : A) : A :=
  match n with
  | O => a
  | S n => fold_from f (lo + 1) n (f lo a)
  end.

(** [while (cond) ;], the busy wait. *)
Fixpoint spin_while (fuel : nat) (cond : M bool) : M unit :=
  match fuel with
  | O => throw OutOfFuel
  | S fuel => b ← cond; if (b : bool) then spin_while fuel cond else mret tt
  end.

(** Run [f] on each element in order. *)
Fixpoint iterM {A} (f : A -> M unit) (l : list A) : M unit :=
  match l with
  | [] => mret tt
  | x :: l => f x ;; iterM f l
  end.

(** ** Memory *)

Definition mem_get (m : gmap Z Z) (a : Z) : Z := default 0 (m !! a).

Fixpoint read_bytes (m : gmap Z Z) (a : Z) (n : nat) : list Z :=
  match n with
  | O => []
  | S n => mem_get m a :: read_bytes m (a + 1) n
  end.

Fixpoint write_bytes (m : gmap Z Z) (a : Z) (bs : list Z) : gmap Z Z :=
  match bs with
  | [] => m
  | b :: bs => write_bytes (<[a := b]> m) (a + 1) bs
  end.

Definition load8 (a : Z) : M Z := gets (fun s => mem_get (mem s) a).
Definition load32 (a : Z) : M Z := gets (fun s => le_val (read_bytes (mem s) a 4)).
Definition load64 (a : Z) : M Z := gets (fun s => le_val (read_bytes (mem s) a 8)).
Definition store8 (a v : Z) : M unit := modify (set_mem (fun m => <[a := u8 v]> m)).
Definition store64 (a v : Z) : M unit :=
  modify (set_mem (fun m => write_bytes m a (le_bytes 8 v))).

(** ** Ports and privileged instructions *)

(** The devices: the byte (or word) a port gives after a history of
    operations, newest first.  [patience] bounds the polls of a busy wait: a
    wait that needs more is reported as [OutOfFuel]. *)
Class Env := {
  dev_in : list event -> Z -> Z;
  patience : nat
}.

Definition log (e : event) : M unit := modify (set_trace (cons e)).

Section Ports.
Context {E : Env}.

Definition port_byte_in (port : Z) : M Z :=
  b ← gets (fun s => u8 (dev_in (trace s) (u16 port)));
  log (In8 (u16 port) b) ;;
  mret b.

Definition port_byte_out (port data : Z) : M unit := log (Out8 (u16 port) (u8 data)).

Definition port_word_in (port : Z) : M Z :=
  w ← gets (fun s => u16 (dev_in (trace s) (u16 port)));
  log (In16 (u16 port) w) ;;
  mret w.

Definition port_word_out (port data : Z) : M unit := log (Out16 (u16 port) (u16 data)).

End Ports.

(** ** Equality of computations: same outcome from every state *)

#[global] Instance M_equiv A : Equiv (M A) := fun m1 m2 => forall s, m1 s = m2 s.

#[global] Instance M_equivalence A : Equivalence (@equiv (M A) _).
Proof.
  split.
  - by intros m s.
  - by intros m1 m2 H s.
  - intros m1 m2 m3 H1 H2 s. by rewrite H1, H2.
Qed.

#[global] Instance M_bind_proper A B :
  Proper (pointwise_relation A (≡) ==> (≡) ==> (≡)) (@mbind M M_bind A B).
Proof.
  intros k1 k2 Hk m1 m2 Hm s. unfold mbind, M_bind. rewrite Hm.
  destruct (m2 s); try done. apply Hk.
Qed.

(** ** Total correctness: [m] returns from [s], in a state where [Q] holds. *)

Definition wp {A} (m : M A) (Q : A -> kstate -> Prop) (s : kstate) : Prop :=
  match m s with Ret a s' => Q a s' | _ => False end.

Section Laws.
Context {A B : Type}.

Lemma bind_ret (m : M A) (k : A -> M B) s a s' :
  m s = Ret a s' -> (m ≫= k) s = k a s'.
Proof. intros H. unfold mbind, M_bind. by rewrite H. Qed.

Lemma bind_fault (m : M A) (k : A -> M B) s f :
  m s = Fault f -> (m ≫= k) s = Fault f.
Proof. intros H. unfold mbind, M_bind. by rewrite H. Qed.

Lemma bind_halted (m : M A) (k : A -> M B) s s' :
  m s = Halted s' -> (m ≫= k) s = Halted s'.
Proof. intros H. unfold mbind, M_bind. by rewrite H. Qed.

Lemma bind_assoc {C} (m : M A) (k : A -> M B) (h : B -> M C) :
  (m ≫= k) ≫= h ≡ m ≫= (fun a => k a ≫= h).
Proof. intros s. unfold mbind, M_bind. by destruct (m s). Qed.

Lemma ret_bind (a : A) (k : A -> M B) : mret a ≫= k ≡ k a.
Proof. by intros s. Qed.

Lemma bind_mret (m : M A) : m ≫= mret ≡ m.
Proof. intros s. unfold mbind, M_bind. by destruct (m s). Qed.

Lemma wp_ret (a : A) (Q : A -> kstate -> Prop) s : Q a s -> wp (mret a) Q s.
Proof. done. Qed.

Lemma wp_bind (m : M A) (k : A -> M B) Q s :
  wp m (fun a s' => wp (k a) Q s') s -> wp (m ≫= k) Q s.
Proof. unfold wp, mbind, M_bind. by destruct (m s). Qed.

Lemma wp_mono (m : M A) (P Q : A -> kstate -> Prop) s :
  wp m P s -> (forall a s', P a s' -> Q a s') -> wp m Q s.
Proof. unfold wp. destruct (m s); naive_solver. Qed.

Lemma wp_run (m : M A) (Q : A -> kstate -> Prop) s a s' :
  m s = Ret a s' -> Q a s' -> wp m Q s.
Proof. intros H ?. unfold wp. by rewrite H. Qed.

Lemma wp_inv (m : M A) (Q : A -> kstate -> Prop) s :
  wp m Q s -> exists a s', m s = Ret a s' /\ Q a s'.
Proof. unfold wp. destruct (m s); naive_solver. Qed.

End Laws.

Lemma iterM_app {A} (f : A -> M unit) l1 l2 :
  iterM f (l1 ++ l2) ≡ (iterM f l1 ;; iterM f l2).
Proof.
  induction l1 as [|x l1 IH]; simpl.
  - by rewrite ret_bind.
  - rewrite bind_assoc. apply M_bind_proper; [|done]. by intros [].
Qed.

(** An invariant of the body is one of the whole loop. *)
Lemma wp_iterM {A} (f : A -> M unit) (I : list A -> kstate -> Prop) l s :
  (forall x r s, I (x :: r) s -> wp (f x) (fun _ => I r) s) ->
  I l s -> wp (iterM f l) (fun _ => I []) s.
Proof.
  intros Hf. revert s; induction l as [|x l IH]; intros s HI; [done|].
  simpl. apply wp_bind. eapply wp_mono; [by apply Hf|]. intros ? s'. apply IH.
Qed.

Lemma wp_for_from body (I : Z -> kstate -> Prop) lo n s :
  (forall i s, lo <= i < lo + Z.of_nat n -> I i s -> wp (body i) (fun _ => I (i + 1)) s) ->
  I lo s -> wp (for_from lo n body) (fun _ => I (lo + Z.of_nat n)) s.
Proof.
  revert lo s; induction n as [|n IH]; intros lo s Hb HI; simpl.
  - by rewrite Z.add_0_r.
  - apply wp_bind. eapply wp_mono; [apply Hb; [lia|done]|]. intros [] s' HI'.
    replace (lo + Z.of_nat (S n)) with (lo + 1 + Z.of_nat n) by lia.
    apply IH; [|done]. intros; apply Hb; [lia|done].
Qed.

(** A busy wait that ends after [n] polls ends with any fuel above [n]. *)
Lemma spin_while_done fuel cond s s' :
  cond s = Ret false s' -> spin_while (S fuel) cond s = Ret tt s'.
Proof. intros H. simpl. by rewrite (bind_ret _ _ _ _ _ H). Qed.

Lemma spin_while_again fuel cond s s' :
  cond s = Ret true s' -> spin_while (S fuel) cond s = spin_while fuel cond s'.
Proof. intros H. simpl. by rewrite (bind_ret _ _ _ _ _ H). Qed.

(** ** Memory laws *)

Lemma mem_get_insert m a b x :
  mem_get (<[a := x]> m) b = if bool_decide (a = b) then x else mem_get m b.
Proof.
  unfold mem_get. case_bool_decide; subst.
  - by rewrite lookup_insert_eq.
  - by rewrite lookup_insert_ne.
Qed.

Lemma length_read_bytes m a n : length (read_bytes m a n) = n.
Proof. revert a; induction n; intros; simpl; auto. Qed.

Lemma mem_get_write_out m a bs b :
  b < a \/ a + Z.of_nat (length bs) <= b -> mem_get (write_bytes m a bs) b = mem_get m b.
Proof.
  revert m a; induction bs as [|x bs IH]; intros m a H; simpl in *; [done|].
  rewrite IH by lia. rewrite mem_get_insert. case_bool_decide; [lia|done].
Qed.

Lemma mem_get_write_in m a bs (i : nat) x :
  bs !! i = Some x -> mem_get (write_bytes m a bs) (a + Z.of_nat i) = x.
Proof.
  revert m a i; induction bs as [|y bs IH]; intros m a i H; [done|].
  destruct i as [|i]; simplify_eq/=.
  - rewrite mem_get_write_out by lia. rewrite Z.add_0_r, mem_get_insert.
    by rewrite bool_decide_true.
  - rewrite <- (IH (<[a := y]> m) (a + 1) i H). f_equal. lia.
Qed.

Lemma read_bytes_ext m1 m2 a n :
  (forall b, a <= b < a + Z.of_nat n -> mem_get m1 b = mem_get m2 b) ->
  read_bytes m1 a n = read_bytes m2 a n.
Proof.
  revert a; induction n as [|n IH]; intros a H; simpl; [done|].
  f_equal; [apply H; lia|]. apply IH. intros; apply H; lia.
Qed.

Lemma read_write_same m a bs : read_bytes (write_bytes m a bs) a (length bs) = bs.
Proof.
  revert m a; induction bs as [|x bs IH]; intros m a; simpl; [done|]. f_equal.
  - rewrite mem_get_write_out by lia. by rewrite mem_get_insert, bool_decide_true.
  - apply IH.
Qed.

Lemma read_write_out m a bs b n :
  b + Z.of_nat n <= a \/ a + Z.of_nat (length bs) <= b ->
  read_bytes (write_bytes m a bs) b n = read_bytes m b n.
Proof. intros H. apply read_bytes_ext. intros. apply mem_get_write_out. lia. Qed.

Lemma load_store64 m a v :
  0 <= v < 2 ^ 64 ->
  le_val (read_bytes (write_bytes m a (le_bytes 8 v)) a 8) = v.
Proof.
  intros Hv. pose proof (read_write_same m a (le_bytes 8 v)) as H.
  rewrite length_le_bytes in H. rewrite H, le_val_bytes. apply Z.mod_small.
  change (256 ^ Z.of_nat 8) with (2 ^ 64). done.
Qed.

Lemma lookup_write_bytes m a bs b :
  write_bytes m a bs !! b =
    if bool_decide (a <= b < a + Z.of_nat (length bs)) then bs !! Z.to_nat (b - a) else m !! b.
Proof.
  revert m a; induction bs as [|x bs IH]; intros m a; cbn [write_bytes length].
  - by rewrite bool_decide_false by lia.
  - rewrite IH. destruct (decide (a = b)) as [->|Hne].
    + rewrite bool_decide_false, bool_decide_true by lia. rewrite Z.sub_diag. apply lookup_insert_eq.
    + destruct (decide (a <= b < a + Z.of_nat (S (length bs)))) as [Hin|Hout].
      * rewrite !bool_decide_true by lia. replace (Z.to_nat (b - a)) with (S (Z.to_nat (b - (a + 1)))) by lia.
        done.
      * rewrite !bool_decide_false by lia. by apply lookup_insert_ne.
Qed.

(** A second write to the same place hides the first. *)
Lemma write_write_bytes m a bs1 bs2 :
  length bs1 = length bs2 -> write_bytes (write_bytes m a bs1) a bs2 = write_bytes m a bs2.
Proof.
  intros Hl. apply map_eq. intros b. rewrite !lookup_write_bytes, Hl. by case_bool_decide.
Qed.

(** ** Updates of the same part of the state compose *)

Lemma set_mem_set_mem f g s : set_mem f (set_mem g s) = set_mem (fun m => f (g m)) s.
Proof. done. Qed.

Lemma set_mem_ext f g s : f (mem s) = g (mem s) -> set_mem f s = set_mem g s.
Proof. unfold set_mem. by intros ->. Qed.

Lemma set_mem_id s : set_mem (fun m => m) s = s.
Proof. by destruct s. Qed.

Lemma fold_from_S {A} (f : Z -> A -> A) lo n a :
  fold_from f lo (S n) a = fold_from f (lo + 1) n (f lo a).
Proof. done. Qed.

(** A loop whose body only changes memory only changes memory; [P] is what the
    body may rely on about the rest of the state. *)
Lemma for_from_mem_if (P : kstate -> Prop) body f lo n s :
  (forall g s, P s -> P (set_mem g s)) ->
  (forall i s, P s -> lo <= i < lo + Z.of_nat n -> body i s = Ret tt (set_mem (f i) s)) ->
  P s -> for_from lo n body s = Ret tt (set_mem (fold_from f lo n) s).
Proof.
  intros HP. revert lo s; induction n as [|n IH]; intros lo s Hb Hs; simpl.
  - by rewrite set_mem_id.
  - rewrite (bind_ret _ _ _ tt (set_mem (f lo) s)) by (apply Hb; [done|lia]).
    rewrite IH, set_mem_set_mem; [done| |by apply HP]. intros; apply Hb; [done|lia].
Qed.

Lemma for_from_mem body f lo n s :
  (forall i s, lo <= i < lo + Z.of_nat n -> body i s = Ret tt (set_mem (f i) s)) ->
  for_from lo n body s = Ret tt (set_mem (fold_from f lo n) s).
Proof. intros Hb. by apply (for_from_mem_if (fun _ => True)); auto. Qed.

Lemma set_trace_set_trace f g s : set_trace f (set_trace g s) = set_trace (fun t => f (g t)) s.
Proof. done. Qed.

(** ** Running code step by step *)

Lemma int_run z s : - 2 ^ 31 <= z < 2 ^ 31 -> int z s = Ret z s.
Proof. intros H. unfold int. by rewrite (proj2 (in_int_true z) H). Qed.

(** Read parts of an updated state. *)
Ltac simpl_state :=
  cbn [mem trace iflag cr3 scr idt idt_reg interrupt_handlers tick mm
       set_mem set_trace set_iflag set_scr set_idt_table set_idt_reg set_handlers set_tick set_mm
       screen_scheme framebuffer screen_col screen_row
       memory_area kernel_start kernel_end multiboot_start multiboot_end next_free_frame].

(** Two states built by updates that agree part by part. *)
Ltac state_eq :=
  unfold modify, set_mem, set_trace, set_iflag, set_scr, set_idt_table, set_idt_reg,
    set_handlers, set_tick, set_mm; simpl_state; reflexivity.

(** [step] runs the first command of a sequence; [int] results are shown to be
    in range by [lia]. *)
Ltac step :=
  erewrite bind_ret; [|first [reflexivity | apply int_run; simpl_state; lia]]; cbn beta.
Ltac steps := repeat step.

(** Stored bytes written through [store8] *)
Lemma store8_run a v s : store8 a v s = Ret tt (set_mem (fun m => <[a := u8 v]> m) s).
Proof. done. Qed.

Lemma for_from_store n v lo a s :
  for_from lo n (fun i => store8 (a + i) v) s =
    Ret tt (set_mem (fun m => write_bytes m (a + lo) (replicate n (u8 v))) s).
Proof.
  revert lo s; induction n as [|n IH]; intros lo s; [by destruct s|].
  simpl. step. rewrite IH. by rewrite !Z.add_assoc.
Qed.
