(* ===== verification/Libk.v ===== *)
(** * The kernel's C library: src/libk

    [strrev], [itoa], [ulltoa], [isdigitk] and [memcpyk].  The first three work
    on a caller's character array, here a [list Z] of its bytes; every access
    is checked against the array's length, so a result [Ok] also says that the
    code stayed inside the array.  [memcpyk] works on kernel memory.  [strlen]
    is the C standard library's. *)

From stdpp Require Import base numbers list gmap strings.
From S2P Require Import Prelude Machine.

(** ** Character arrays *)

Definition buf_get (s : list Z) (i : Z) : res Z :=
  if (0 <=? i) && (i <? Z.of_nat (length s)) then Ok (nth (Z.to_nat i) s 0)
  else Err OutOfBounds.

Definition buf_set (s : list Z) (i v : Z) : res (list Z) :=
  if (0 <=? i) && (i <? Z.of_nat (length s)) then Ok (<[Z.to_nat i := v]> s)
  else Err OutOfBounds.

(** [strlen]: reads up to and including the first NUL. *)
Fixpoint strlen (s : list Z) : res Z :=
  match s with
  | [] => Err OutOfBounds
  | c :: s => if c =? 0 then Ok 0 else n ← strlen s; Ok (n + 1)
  end.

(** The C string an array holds: its characters before the first NUL. *)
Fixpoint cstring (s : list Z) : list Z :=
  match s with
  | [] => []
  | c :: s => if c =? 0 then [] else c :: cstring s
  end.

(** ** strrev.c *)

Fixpoint strrev_loop (fuel : nat) (s : list Z) (i j : Z) : res (list Z) :=
  match fuel with
  | O => Err OutOfFuel
  | S fuel =>
      if i <? j then
        c ← buf_get s i;
        x ← buf_get s j;
        s ← buf_set s i x;
        s ← buf_set s j c;
        strrev_loop fuel s (u64 (i + 1)) (u64 (j - 1))
      else Ok s
  end.

Definition strrev (s : list Z) : res (list Z) :=
  n ← strlen s;
  strrev_loop (S (length s)) s 0 (u64 (n - 1)).

(** ** itoa.c *)

(** [(r < 10) ? r + '0' : r + 'a' - 10], stored in a [char]. *)
Definition digit_char (r : Z) : Z := u8 (if r <? 10 then r + 48 else r + 97 - 10).

(** The [do ... while] loop; C's [%] and [/] truncate towards zero. *)
Fixpoint itoa_loop (fuel : nat) (n base i : Z) (s : list Z) : res (Z * list Z) :=
  match fuel with
  | O => Err OutOfFuel
  | S fuel =>
      if base =? 0 then Err DivideByZero else
      if negb (in_int (Z.quot n base)) then Err SignedOverflow else
      s ← buf_set s i (digit_char (Z.rem n base));
      if 0 <? Z.quot n base then itoa_loop fuel (Z.quot n base) base (i + 1) s
      else Ok (i + 1, s)
  end.

Definition itoa (n : Z) (str : list Z) (base : Z) : res (list Z) :=
  if n =? 0 then
    str ← buf_set str 0 48;
    buf_set str 1 0
  else
    let sign := n in
    n ← (if (sign <? 0) && (base =? 10)
         then (if in_int (- n) then Ok (- n) else Err SignedOverflow)
         else Ok n);
    '(i, str) ← itoa_loop (S (length str)) n base 0 str;
    '(i, str) ← (if (sign <? 0) && (base =? 10)
                 then str ← buf_set str i 45; Ok (i + 1, str)
                 else Ok (i, str));
    str ← buf_set str i 0;
    strrev str.

(** ** ulltoa.c *)

(** [n % base] and [n / base] are unsigned: [base] converts to [uint64_t]. *)
Fixpoint ulltoa_loop (fuel : nat) (n base i : Z) (s : list Z) : res (Z * list Z) :=
  match fuel with
  | O => Err OutOfFuel
  | S fuel =>
      if u64 base =? 0 then Err DivideByZero else
      s ← buf_set s i (digit_char (s32 (n `mod` u64 base)));
      if 0 <? n / u64 base then ulltoa_loop fuel (n / u64 base) base (i + 1) s
      else Ok (i + 1, s)
  end.

Definition ulltoa (n : Z) (str : list Z) (base : Z) : res (list Z) :=
  if n =? 0 then
    str ← buf_set str 0 48;
    buf_set str 1 0
  else
    let sign := s32 n in
    let n := if (sign <? 0) && (base =? 10) then u64 (- n) else n in
    '(i, str) ← ulltoa_loop (S (length str)) n base 0 str;
    '(i, str) ← (if (sign <? 0) && (base =? 10)
                 then str ← buf_set str i 45; Ok (i + 1, str)
                 else Ok (i, str));
    str ← buf_set str i 0;
    strrev str.

(** ** ctype.c *)

Definition isdigitk (c : Z) : bool := (0 <=? c) && (c <=? 9).

(** ** mem.c *)

Definition memcpyk (src dest bytes : Z) : M unit :=
  for_from 0 (Z.to_nat bytes) (fun i =>
    b ← load8 (src + i);
    store8 (dest + i) b).

(** ** Numerals: the reference the conversions are compared with *)

(** Digits of [n] in [base], least significant first. *)
Fixpoint lsd (fuel : nat) (base n : Z) : list Z :=
  match fuel with
  | O => []
  | S fuel => n `mod` base :: (if 0 <? n / base then lsd fuel base (n / base) else [])
  end.

Definition numeral (base n : Z) : list Z :=
  reverse (digit_char <$> lsd (S (Z.to_nat (Z.log2 n))) base n).

Definition print_int (n : Z) : list Z :=
  if n <? 0 then 45 :: numeral 10 (- n) else numeral 10 n.

(** Reading a numeral back. *)
Definition digit_val (c : Z) : option Z :=
  if (48 <=? c) && (c <=? 57) then Some (c - 48)
  else if (97 <=? c) && (c <=? 102) then Some (c - 87)
  else None.

Fixpoint parse_digits (base acc : Z) (s : list Z) : option Z :=
  match s with
  | [] => Some acc
  | c :: s =>
      d ← digit_val c;
      if d <? base then parse_digits base (acc * base + d) s else None
  end.

Definition parse_nat (base : Z) (s : list Z) : option Z :=
  match s with [] => None | _ => parse_digits base 0 s end.

Definition parse_int (s : list Z) : option Z :=
  match s with
  | 45 :: s => Z.opp <$> parse_nat 10 s
  | _ => parse_nat 10 s
  end.

(** The digit loop both conversions perform, on the mathematical digits. *)
Fixpoint put_digits (fuel : nat) (n base i : Z) (s : list Z) : res (Z * list Z) :=
  match fuel with
  | O => Err OutOfFuel
  | S fuel =>
      s ← buf_set s i (digit_char (n `mod` base));
      if 0 <? n / base then put_digits fuel (n / base) base (i + 1) s
      else Ok (i + 1, s)
  end.

(** The part common to [itoa] and [ulltoa] after the digits: an optional sign,
    NUL, reversal. *)
Definition finish (neg : bool) (r : res (Z * list Z)) : res (list Z) :=
  '(i, str) ← r;
  '(i, str) ← (if (neg : bool) then str ← buf_set str i 45; Ok (i + 1, str) else Ok (i, str));
  str ← buf_set str i 0;
  strrev str.

Definition sign_prefix (neg : bool) : list Z := if neg then [45] else [].

(** What [memcpyk] does to memory. *)
Fixpoint copy_bytes (n : nat) (m : gmap Z Z) (src dest : Z) : gmap Z Z :=
  match n with
  | O => m
  | S n => copy_bytes n (<[dest := u8 (mem_get m src)]> m) (src + 1) (dest + 1)
  end.

(** The value of digits, least significant first. *)
Fixpoint digits_val (base : Z) (ds : list Z) : Z :=
  match ds with
  | [] => 0
  | d :: ds => d + base * digits_val base ds
  end.

Definition nonzero (c : Z) : Prop := c <> 0.

(** ** Arrays *)

Lemma res_bind_ok {A B} (r : res A) (k : A -> res B) a : r = Ok a -> (r ≫= k) = k a.
Proof. by intros ->. Qed.

Lemma buf_get_app pre x rest :
  buf_get (pre ++ x :: rest) (Z.of_nat (length pre)) = Ok x.
Proof.
  unfold buf_get. rewrite length_app; simpl.
  destruct (Z.ltb_spec (Z.of_nat (length pre)) (Z.of_nat (length pre + S (length rest)))); [|lia].
  rewrite (proj2 (Z.leb_le _ _)) by lia. simpl. f_equal.
  apply lookup_total_nth. by rewrite Nat2Z.id, list_lookup_middle.
Qed.

Lemma buf_set_app pre x rest v :
  buf_set (pre ++ x :: rest) (Z.of_nat (length pre)) v = Ok (pre ++ v :: rest).
Proof.
  unfold buf_set. rewrite length_app; simpl.
  destruct (Z.ltb_spec (Z.of_nat (length pre)) (Z.of_nat (length pre + S (length rest)))); [|lia].
  rewrite (proj2 (Z.leb_le _ _)) by lia. simpl. f_equal.
  by rewrite Nat2Z.id, insert_app_r_alt, Nat.sub_diag by lia.
Qed.

Lemma buf_set_oob s i v : Z.of_nat (length s) <= i -> buf_set s i v = Err OutOfBounds.
Proof.
  intros. unfold buf_set. destruct (Z.ltb_spec i (Z.of_nat (length s))); [lia|].
  by rewrite andb_false_r.
Qed.

Lemma strlen_nul s r : Forall nonzero s -> strlen (s ++ 0 :: r) = Ok (Z.of_nat (length s)).
Proof.
  induction 1 as [|c s Hc _ IH]; simpl; [done|].
  destruct (Z.eqb_spec c 0); [done|]. rewrite (res_bind_ok _ _ _ IH). f_equal. lia.
Qed.

Lemma cstring_nul s r : Forall nonzero s -> cstring (s ++ 0 :: r) = s.
Proof.
  induction 1 as [|c s Hc _ IH]; simpl; [done|].
  destruct (Z.eqb_spec c 0); [done|]. by rewrite IH.
Qed.

(** ** strrev reverses in place *)

Lemma strrev_swap a x m y b fuel :
  let j := Z.of_nat (length (a ++ x :: m)) in
  strrev_loop (S fuel) (a ++ x :: m ++ y :: b) (Z.of_nat (length a)) j =
  strrev_loop fuel ((a ++ [y]) ++ m ++ x :: b) (u64 (Z.of_nat (length a) + 1)) (u64 (j - 1)).
Proof.
  intros j. simpl.
  destruct (Z.ltb_spec (Z.of_nat (length a)) j) as [_|H];
    [|unfold j in H; rewrite length_app in H; simpl in H; lia].
  rewrite (res_bind_ok _ _ _ (buf_get_app _ _ _)).
  assert (Happ : forall c d, a ++ c :: m ++ d :: b = (a ++ c :: m) ++ d :: b)
    by (intros; by rewrite <- app_assoc).
  assert (Hget : buf_get (a ++ x :: m ++ y :: b) j = Ok y)
    by (rewrite Happ; apply buf_get_app).
  assert (Hset : buf_set (a ++ y :: m ++ y :: b) j x = Ok ((a ++ [y]) ++ m ++ x :: b)).
  { rewrite Happ. replace j with (Z.of_nat (length (a ++ y :: m)))
      by (unfold j; by rewrite !length_app).
    by rewrite buf_set_app, <- !app_assoc. }
  by rewrite (res_bind_ok _ _ _ Hget), (res_bind_ok _ _ _ (buf_set_app _ _ _ _)),
    (res_bind_ok _ _ _ Hset).
Qed.

Lemma strrev_loop_spec m : forall fuel a b,
  (length m < fuel)%nat -> (m = [] -> a <> []) ->
  Z.of_nat (length a + length m) < 2 ^ 63 ->
  strrev_loop fuel (a ++ m ++ b) (Z.of_nat (length a))
    (Z.of_nat (length a) + Z.of_nat (length m) - 1) = Ok (a ++ reverse m ++ b).
Proof.
  induction m as [m IH] using (Wf_nat.induction_ltof1 _ (@length Z)); unfold Wf_nat.ltof in IH.
  intros [|fuel] a b Hf Hne Hlen; [lia|].
  destruct m as [|x m].
  { simpl. by rewrite (proj2 (Z.ltb_ge _ _)) by lia. }
  destruct (decide (m = [])) as [->|Hm].
  { simpl. by rewrite (proj2 (Z.ltb_ge _ _)) by lia. }
  destruct (exists_last Hm) as (m' & y & ->).
  simpl length in *. rewrite length_app in *; simpl length in *.
  replace (Z.of_nat (length a) + Z.of_nat (S (length m' + 1)) - 1)
    with (Z.of_nat (length (a ++ x :: m'))) by (rewrite length_app; simpl; lia).
  replace ((x :: m' ++ [y]) ++ b) with (x :: m' ++ y :: b) by (simpl; by rewrite <- app_assoc).
  rewrite strrev_swap, length_app; simpl length. rewrite !u64_small by lia.
  replace (Z.of_nat (length a) + 1) with (Z.of_nat (length (a ++ [y])))
    by (rewrite length_app; simpl; lia).
  replace (Z.of_nat (length a + S (length m')) - 1)
    with (Z.of_nat (length (a ++ [y])) + Z.of_nat (length m') - 1)
    by (rewrite length_app; simpl; lia).
  rewrite IH; rewrite ?length_app; simpl; try lia.
  - f_equal. by rewrite reverse_cons, reverse_app, <- !app_assoc.
  - by destruct a.
Qed.

Lemma strrev_spec s r :
  s <> [] -> Forall nonzero s -> Z.of_nat (length s) < 2 ^ 63 ->
  strrev (s ++ 0 :: r) = Ok (reverse s ++ 0 :: r).
Proof.
  intros Hne Hnz Hlen. unfold strrev. rewrite (res_bind_ok _ _ _ (strlen_nul _ _ Hnz)).
  assert (length s <> O) by (by destruct s).
  rewrite u64_small by lia.
  apply (strrev_loop_spec s _ [] (0 :: r)); rewrite ?length_app; simpl; naive_solver lia.
Qed.

(** ** The digit loops *)

Lemma itoa_loop_digits fuel n base i s :
  0 <= n < 2 ^ 31 -> 2 <= base ->
  itoa_loop fuel n base i s = put_digits fuel n base i s.
Proof.
  intros Hn Hb. revert n i s Hn; induction fuel as [|fuel IH]; intros n i s Hn; simpl; [done|].
  destruct (Z.eqb_spec base 0); [lia|].
  rewrite Z.quot_div_nonneg, Z.rem_mod_nonneg by lia.
  assert (0 <= n / base <= n) by (split; [apply Z.div_pos; lia|apply Z.div_le_upper_bound; nia]).
  rewrite (proj2 (in_int_true _)) by lia. simpl.
  destruct (buf_set s i _); simpl; [|done].
  destruct (0 <? n / base); [|done]. apply IH. lia.
Qed.

Lemma ulltoa_loop_digits fuel n base i s :
  0 <= n -> 2 <= base < 2 ^ 31 ->
  ulltoa_loop fuel n base i s = put_digits fuel n base i s.
Proof.
  intros Hn Hb. revert n i s Hn; induction fuel as [|fuel IH]; intros n i s Hn; simpl; [done|].
  rewrite u64_small by lia. destruct (Z.eqb_spec base 0); [lia|].
  pose proof (Z.mod_pos_bound n base). rewrite s32_small by lia.
  destruct (buf_set s i _); simpl; [|done].
  destruct (0 <? n / base); [|done]. apply IH. apply Z.div_pos; lia.
Qed.

Lemma lsd_nonempty fuel base n : lsd (S fuel) base n <> [].
Proof. done. Qed.

Lemma put_digits_spec fuel n base pre rest :
  let ds := digit_char <$> lsd fuel base n in
  2 <= base -> 0 <= n < base ^ Z.of_nat fuel -> fuel <> O ->
  (length ds <= length rest)%nat ->
  put_digits fuel n base (Z.of_nat (length pre)) (pre ++ rest) =
    Ok (Z.of_nat (length (pre ++ ds)), (pre ++ ds) ++ drop (length ds) rest).
Proof.
  revert n pre rest; induction fuel as [|fuel IH]; intros n pre rest ds Hb Hn Hf Hlen; [done|].
  destruct rest as [|c rest]; [simpl in Hlen; lia|]. simpl.
  rewrite (res_bind_ok _ _ _ (buf_set_app _ _ _ _)). subst ds; simpl in *.
  rewrite Nat2Z.inj_succ, Z.pow_succ_r in Hn by lia.
  assert (0 <= n / base < base ^ Z.of_nat fuel)
    by (split; [apply Z.div_pos; lia|apply Z.div_lt_upper_bound; lia]).
  revert Hlen; destruct (Z.ltb_spec 0 (n / base)) as [Hpos|Hpos]; intros Hlen; simpl in Hlen.
  - replace (Z.of_nat (length pre) + 1)
      with (Z.of_nat (length (pre ++ [digit_char (n `mod` base)])))
      by (rewrite length_app; simpl; lia).
    replace (pre ++ digit_char (n `mod` base) :: rest)
      with ((pre ++ [digit_char (n `mod` base)]) ++ rest) by (by rewrite <- app_assoc).
    rewrite IH; try done.
    + f_equal. by rewrite <- !app_assoc.
    + destruct fuel; [simpl in *; lia|done].
    + exact (le_S_n _ _ Hlen).
  - simpl. rewrite !length_app; simpl. f_equal. f_equal; [lia|by rewrite <- app_assoc].
Qed.

(** ** Digits, their characters and their value *)

Lemma lsd_range fuel base n :
  0 < base -> Forall (fun d => 0 <= d < base) (lsd fuel base n).
Proof.
  intros Hb. revert n; induction fuel as [|fuel IH]; intros n; simpl; constructor.
  - by apply Z.mod_pos_bound.
  - by destruct (0 <? n / base).
Qed.

Lemma lsd_val fuel base n :
  2 <= base -> 0 <= n < base ^ Z.of_nat fuel -> digits_val base (lsd fuel base n) = n.
Proof.
  intros Hb. revert n; induction fuel as [|fuel IH]; intros n Hn; [simpl in *; lia|].
  rewrite Nat2Z.inj_succ, Z.pow_succ_r in Hn by lia. simpl.
  assert (0 <= n / base < base ^ Z.of_nat fuel)
    by (split; [apply Z.div_pos; lia|apply Z.div_lt_upper_bound; lia]).
  pose proof (Z.div_mod n base). destruct (Z.ltb_spec 0 (n / base)); [rewrite IH by done|simpl]; lia.
Qed.

Lemma lsd_length fuel base n k :
  2 <= base -> 0 <= n < base ^ Z.of_nat k -> (0 < k)%nat -> (length (lsd fuel base n) <= k)%nat.
Proof.
  intros Hb. revert n k; induction fuel as [|fuel IH]; intros n k Hn Hk; simpl; [lia|].
  destruct (Z.ltb_spec 0 (n / base)) as [Hpos|]; [|simpl; lia].
  destruct k as [|k]; [lia|]. rewrite Nat2Z.inj_succ, Z.pow_succ_r in Hn by lia.
  assert (0 <= n / base < base ^ Z.of_nat k)
    by (split; [lia|apply Z.div_lt_upper_bound; lia]).
  apply le_n_S, IH; [done|]. destruct k; [simpl in *; lia|lia].
Qed.

(** Enough fuel is enough. *)
Lemma lsd_fuel f1 f2 base n :
  2 <= base -> 0 <= n < base ^ Z.of_nat f1 -> n < base ^ Z.of_nat f2 ->
  (0 < f1)%nat -> (0 < f2)%nat -> lsd f1 base n = lsd f2 base n.
Proof.
  intros Hb. revert f2 n; induction f1 as [|f1 IH]; intros f2 n Hn Hn2 H1 H2; [lia|].
  destruct f2 as [|f2]; [lia|]. simpl. f_equal.
  rewrite Nat2Z.inj_succ, Z.pow_succ_r in Hn, Hn2 by lia.
  destruct (Z.ltb_spec 0 (n / base)) as [Hpos|]; [|done].
  assert (forall k, n < base * base ^ k -> n / base < base ^ k)
    by (intros; apply Z.div_lt_upper_bound; lia).
  apply IH; [auto with lia|auto| |].
  - destruct f1; [specialize (H 0); simpl in *; lia|lia].
  - destruct f2; [specialize (H 0); simpl in *; lia|lia].
Qed.

Lemma numeral_lsd fuel base n :
  2 <= base -> 0 <= n < base ^ Z.of_nat fuel -> (0 < fuel)%nat ->
  numeral base n = reverse (digit_char <$> lsd fuel base n).
Proof.
  intros Hb Hn Hf. unfold numeral. do 2 f_equal. apply lsd_fuel; try lia.
  split; [lia|]. destruct (decide (n = 0)) as [->|]; [apply Z.pow_pos_nonneg; lia|].
  pose proof (Z.log2_spec n ltac:(lia)) as [_ H]. pose proof (Z.log2_nonneg n).
  rewrite Nat2Z.inj_succ, Z2Nat.id by lia.
  eapply Z.lt_le_trans; [exact H|]. apply Z.pow_le_mono_l. lia.
Qed.

Lemma digit_val_char d : 0 <= d < 16 -> digit_val (digit_char d) = Some d.
Proof.
  intros. assert (H16 : forallb (fun d => bool_decide (digit_val (digit_char d) = Some d)) (seqZ 0 16) = true)
    by reflexivity.
  rewrite forallb_forall in H16. apply (bool_decide_eq_true_1 (digit_val (digit_char d) = Some d)), H16.
  apply list_elem_of_In, elem_of_seqZ. lia.
Qed.

Lemma digit_char_nonzero d : 0 <= d < 16 -> nonzero (digit_char d).
Proof. intros H E. pose proof (digit_val_char d H) as Hd. by rewrite E in Hd. Qed.

Lemma digit_chars_nonzero ds base :
  base <= 16 -> Forall (fun d => 0 <= d < base) ds -> Forall nonzero (digit_char <$> ds).
Proof.
  intros Hb H. apply Forall_fmap. eapply Forall_impl; [exact H|].
  intros d Hd; simpl in Hd. apply digit_char_nonzero. lia.
Qed.

Lemma numeral_nonzero base n :
  2 <= base <= 16 -> Forall nonzero (numeral base n).
Proof.
  intros Hb. apply Forall_reverse, (digit_chars_nonzero _ base); [lia|]. apply lsd_range. lia.
Qed.

Lemma parse_digits_app base acc s1 s2 :
  parse_digits base acc (s1 ++ s2) = parse_digits base acc s1 ≫= fun a => parse_digits base a s2.
Proof.
  revert acc; induction s1 as [|c s1 IH]; intros acc; simpl; [done|].
  destruct (digit_val c); simpl; [|done]. by destruct (_ <? _).
Qed.

Lemma parse_digits_reverse base acc ds :
  base <= 16 -> Forall (fun d => 0 <= d < base) ds ->
  parse_digits base acc (reverse (digit_char <$> ds)) =
    Some (acc * base ^ Z.of_nat (length ds) + digits_val base ds).
Proof.
  intros Hb H. revert acc; induction H as [|d ds Hd _ IH]; intros acc.
  - simpl. f_equal. lia.
  - rewrite fmap_cons, reverse_cons, parse_digits_app, IH. cbn -[Z.pow Z.of_nat length].
    rewrite digit_val_char by lia. cbn -[Z.pow Z.of_nat length].
    rewrite (proj2 (Z.ltb_lt _ _)) by lia. f_equal.
    change (length (d :: ds)) with (S (length ds)).
    rewrite Nat2Z.inj_succ, Z.pow_succ_r by lia. ring.
Qed.

(** Numerals read back to the number they were made from. *)
Lemma parse_numeral base n :
  2 <= base <= 16 -> 0 <= n -> parse_nat base (numeral base n) = Some n.
Proof.
  intros Hb Hn. set (fuel := S (Z.to_nat n)).
  assert (n < base ^ Z.of_nat fuel).
  { unfold fuel. rewrite Nat2Z.inj_succ, Z2Nat.id by lia.
    apply Z.lt_le_trans with (2 ^ Z.succ n);
      [apply Z.lt_trans with (Z.succ n); [lia|apply Z.pow_gt_lin_r; lia]|apply Z.pow_le_mono_l; lia]. }
  rewrite (numeral_lsd fuel) by (try lia; unfold fuel; lia).
  pose proof (parse_digits_reverse base 0 (lsd fuel base n) ltac:(lia) (lsd_range fuel base n ltac:(lia))) as Hp.
  rewrite lsd_val in Hp by lia. unfold parse_nat.
  destruct (reverse (digit_char <$> lsd fuel base n)) eqn:E; [|by rewrite Hp].
  apply (f_equal length) in E. by rewrite length_reverse, length_fmap in E.
Qed.

Lemma numeral_length base n k :
  2 <= base -> 0 <= n < base ^ Z.of_nat k -> (0 < k)%nat -> (length (numeral base n) <= k)%nat.
Proof.
  intros. unfold numeral. rewrite length_reverse, length_fmap. by apply lsd_length.
Qed.

Lemma numeral_nonempty base n : numeral base n <> [].
Proof.
  intros E. apply (f_equal length) in E. unfold numeral in E.
  by rewrite length_reverse, length_fmap in E.
Qed.

(** ** The conversions *)

Lemma finish_digits (neg : bool) n base (s : list Z) k :
  2 <= base <= 16 -> 0 <= n < base ^ Z.of_nat k -> (0 < k)%nat ->
  (k + (if neg then 2 else 1) <= length s)%nat -> Z.of_nat (length s) < 2 ^ 62 ->
  exists rest,
    finish neg (put_digits (S (length s)) n base 0 s) =
      Ok (sign_prefix neg ++ numeral base n ++ 0 :: rest)
    /\ length (sign_prefix neg ++ numeral base n ++ 0 :: rest) = length s.
Proof.
  intros Hb Hn Hk Hlen Hmax.
  set (fuel := S (length s)).
  assert (Hn' : 0 <= n < base ^ Z.of_nat fuel).
  { split; [lia|]. eapply Z.lt_le_trans; [apply Hn|].
    apply Z.pow_le_mono_r; [lia|]. unfold fuel. destruct neg; lia. }
  set (ds := digit_char <$> lsd fuel base n).
  assert (Hds : (length ds <= k)%nat) by (unfold ds; rewrite length_fmap; apply lsd_length; lia).
  assert (Hdne : ds <> []) by done.
  pose proof (put_digits_spec fuel n base [] s) as Hput.
  cbn zeta in Hput. fold ds in Hput. cbn [app length] in Hput. change (Z.of_nat 0) with 0 in Hput.
  rewrite Hput by (try done; destruct neg; lia). clear Hput.
  assert (Hnum : numeral base n = reverse ds)
    by (unfold ds; apply numeral_lsd; try lia; unfold fuel; lia).
  assert (Hnz : Forall nonzero ds)
    by (apply (digit_chars_nonzero _ base); [lia|apply lsd_range; lia]).
  rewrite Hnum. destruct (drop (length ds) s) as [|c1 r1] eqn:Hdrop.
  { apply (f_equal length) in Hdrop. rewrite length_drop in Hdrop.
    cbn [length] in Hdrop. destruct neg; lia. }
  assert (Hs : length s = (length ds + S (length r1))%nat).
  { apply (f_equal length) in Hdrop. rewrite length_drop in Hdrop.
    cbn [length] in Hdrop. lia. }
  unfold finish, mbind, res_bind. cbn [app]. destruct neg; cbn [sign_prefix].
  - destruct r1 as [|c2 r2]; [simpl in *; lia|].
    rewrite buf_set_app. cbn beta iota.
    replace (Z.of_nat (length ds) + 1) with (Z.of_nat (length (ds ++ [45])))
      by (rewrite length_app; simpl; lia).
    replace (ds ++ 45 :: c2 :: r2) with ((ds ++ [45]) ++ c2 :: r2) by (by rewrite <- app_assoc).
    rewrite buf_set_app. cbn beta iota. exists r2. split.
    + rewrite strrev_spec.
      * by rewrite reverse_app.
      * by destruct ds.
      * apply Forall_app; split; [done|]. by repeat constructor.
      * rewrite length_app. simpl in *. lia.
    + rewrite !length_app, length_reverse. simpl in *. lia.
  - rewrite buf_set_app. cbn beta iota. exists r1. split.
    + rewrite strrev_spec; [done|done|done|lia].
    + rewrite !length_app, length_reverse. simpl in *. lia.
Qed.

Lemma numeral_zero base : 2 <= base -> numeral base 0 = [48].
Proof.
  intros. unfold numeral. simpl. by rewrite ?Z.mod_0_l, ?Z.div_0_l by lia.
Qed.

(** Both conversions treat zero apart. *)
Lemma write_zero (s : list Z) :
  (2 <= length s)%nat ->
  exists rest, (str ← buf_set s 0 48; buf_set str 1 0) = Ok ([48] ++ 0 :: rest)
    /\ length ([48] ++ 0 :: rest) = length s.
Proof.
  intros H. destruct s as [|a [|b rest]]; simpl in *; try lia. exists rest. split; [|done].
  transitivity (buf_set (48 :: b :: rest) 1 0); [done|]. apply (buf_set_app [48] b rest 0).
Qed.

Lemma itoa_decimal n (s : list Z) :
  - 2 ^ 31 < n < 2 ^ 31 -> (12 <= length s)%nat -> Z.of_nat (length s) < 2 ^ 62 ->
  exists rest, itoa n s 10 = Ok (print_int n ++ 0 :: rest)
    /\ length (print_int n ++ 0 :: rest) = length s.
Proof.
  intros Hn Hlen Hmax. unfold itoa, print_int.
  destruct (Z.eqb_spec n 0) as [->|Hne].
  { rewrite numeral_zero by lia. apply write_zero. lia. }
  rewrite andb_true_r. destruct (Z.ltb_spec n 0).
  - rewrite (proj2 (in_int_true _)) by lia. rewrite (res_bind_ok _ _ (- n)) by done.
    rewrite itoa_loop_digits by lia. fold (finish true (put_digits (S (length s)) (- n) 10 0 s)).
    apply (finish_digits true (- n) 10 s 10); lia.
  - rewrite (res_bind_ok _ _ n) by done.
    rewrite itoa_loop_digits by lia. fold (finish false (put_digits (S (length s)) n 10 0 s)).
    apply (finish_digits false n 10 s 10); lia.
Qed.

Lemma itoa_hex n (s : list Z) :
  0 <= n < 2 ^ 31 -> (9 <= length s)%nat -> Z.of_nat (length s) < 2 ^ 62 ->
  exists rest, itoa n s 16 = Ok (numeral 16 n ++ 0 :: rest)
    /\ length (numeral 16 n ++ 0 :: rest) = length s.
Proof.
  intros Hn Hlen Hmax. unfold itoa.
  destruct (Z.eqb_spec n 0) as [->|Hne].
  { rewrite numeral_zero by lia. apply write_zero. lia. }
  rewrite andb_false_r. rewrite (res_bind_ok _ _ n) by done.
  rewrite itoa_loop_digits by lia. fold (finish false (put_digits (S (length s)) n 16 0 s)).
  apply (finish_digits false n 16 s 8); lia.
Qed.

Lemma digit_char_rem_nonzero n : n < 0 -> nonzero (digit_char (Z.rem n 16)).
Proof.
  intros Hn. assert (-16 < Z.rem n 16 <= 0).
  { rewrite <- (Z.opp_involutive n), Z.rem_opp_l, Z.rem_mod_nonneg by lia.
    Z.div_mod_to_equations. lia. }
  unfold nonzero, digit_char. rewrite (proj2 (Z.ltb_lt _ _)) by lia. word_lia.
Qed.

(** A negative number in base 16 leaves the digit loop after one step. *)
Lemma itoa_hex_negative n a b (s : list Z) :
  - 2 ^ 31 <= n < 0 -> Z.of_nat (length s) < 2 ^ 62 ->
  itoa n (a :: b :: s) 16 = Ok (digit_char (Z.rem n 16) :: 0 :: s).
Proof.
  intros Hn Hlen. unfold itoa. destruct (Z.eqb_spec n 0); [lia|].
  rewrite andb_false_r. rewrite (res_bind_ok _ _ n) by done.
  assert (Hq : - 2 ^ 31 <= Z.quot n 16 <= 0).
  { rewrite <- (Z.opp_involutive n), Z.quot_opp_l, Z.quot_div_nonneg by lia.
    Z.div_mod_to_equations. lia. }
  pose proof (digit_char_rem_nonzero n ltac:(lia)) as Hc.
  assert (Hl : itoa_loop (S (length (a :: b :: s))) n 16 0 (a :: b :: s) =
    Ok (1, digit_char (Z.rem n 16) :: b :: s)).
  { simpl itoa_loop. rewrite (proj2 (in_int_true _)) by lia. simpl negb. cbn iota.
    change (buf_set (a :: b :: s) 0 (digit_char (Z.rem n 16)))
      with (Ok (digit_char (Z.rem n 16) :: b :: s)).
    cbn [mbind res_bind]. by rewrite (proj2 (Z.ltb_ge _ _)) by lia. }
  rewrite (res_bind_ok _ _ _ Hl).
  assert (Hnul : buf_set (digit_char (Z.rem n 16) :: b :: s) 1 0 =
    Ok (digit_char (Z.rem n 16) :: 0 :: s)) by apply (buf_set_app [_] b s 0).
  cbn [mbind res_bind]. rewrite Hnul.
  apply (strrev_spec [digit_char (Z.rem n 16)] s); [done|by constructor|simpl; lia].
Qed.

Lemma ulltoa_finish n (s : list Z) base :
  n <> 0 -> 0 <= n < 2 ^ 64 -> 2 <= base < 2 ^ 31 ->
  let neg := (s32 n <? 0) && (base =? 10) in
  ulltoa n s base = finish neg (put_digits (S (length s)) (if neg then u64 (- n) else n) base 0 s).
Proof.
  intros Hne Hn Hb neg. unfold ulltoa. destruct (Z.eqb_spec n 0); [done|].
  fold neg. rewrite ulltoa_loop_digits; [done| |lia].
  destruct neg; [apply u64_range|lia].
Qed.

Lemma ulltoa_hex n (s : list Z) :
  0 <= n < 2 ^ 64 -> (17 <= length s)%nat -> Z.of_nat (length s) < 2 ^ 62 ->
  exists rest, ulltoa n s 16 = Ok (numeral 16 n ++ 0 :: rest)
    /\ length (numeral 16 n ++ 0 :: rest) = length s.
Proof.
  intros Hn Hlen Hmax. destruct (Z.eq_dec n 0) as [->|Hne].
  { rewrite numeral_zero by lia. unfold ulltoa. apply write_zero. lia. }
  rewrite ulltoa_finish by lia. rewrite andb_false_r.
  apply (finish_digits false n 16 s 16); lia.
Qed.

Lemma ulltoa_decimal n (s : list Z) :
  0 <= n < 10 ^ 19 -> n `mod` 2 ^ 32 < 2 ^ 31 ->
  (20 <= length s)%nat -> Z.of_nat (length s) < 2 ^ 62 ->
  exists rest, ulltoa n s 10 = Ok (numeral 10 n ++ 0 :: rest)
    /\ length (numeral 10 n ++ 0 :: rest) = length s.
Proof.
  intros Hn Hbit Hlen Hmax. destruct (Z.eq_dec n 0) as [->|Hne].
  { rewrite numeral_zero by lia. unfold ulltoa. apply write_zero. lia. }
  rewrite ulltoa_finish by lia.
  assert (0 <= s32 n) by word_lia.
  rewrite (proj2 (Z.ltb_ge _ _)) by lia. apply (finish_digits false n 10 s 19); lia.
Qed.

Lemma lsd_length_ge fuel base n k :
  2 <= base -> base ^ Z.of_nat k <= n -> (k < fuel)%nat -> (S k <= length (lsd fuel base n))%nat.
Proof.
  intros Hb. revert n k; induction fuel as [|fuel IH]; intros n k Hn Hk; simpl; [lia|].
  destruct k as [|k]; [lia|]. rewrite Nat2Z.inj_succ, Z.pow_succ_r in Hn by lia.
  assert (base ^ Z.of_nat k <= n / base) by (apply Z.div_le_lower_bound; lia).
  pose proof (Z.pow_pos_nonneg base (Z.of_nat k)).
  rewrite (proj2 (Z.ltb_lt _ _)) by lia. apply le_n_S, IH; [done|lia].
Qed.

(** The sign test of [ulltoa] looks at bit 31 of a 64-bit number; from there
    the decimal form needs 22 characters. *)
Lemma ulltoa_decimal_overflow n (s : list Z) :
  2 ^ 31 <= n < 2 ^ 32 -> length s = 20%nat -> ulltoa n s 10 = Err OutOfBounds.
Proof.
  intros Hn Hlen. rewrite ulltoa_finish by lia. cbn zeta.
  assert (s32 n < 0) by word_lia. rewrite (proj2 (Z.ltb_lt (s32 n) 0)) by lia.
  change (true && (10 =? 10)) with true. cbn iota.
  assert (Hu : u64 (- n) = 2 ^ 64 - n) by word_lia. rewrite Hu.
  set (ds := digit_char <$> lsd (S (length s)) 10 (2 ^ 64 - n)).
  assert (Hds : length ds = 20%nat).
  { unfold ds. rewrite length_fmap. apply Nat.le_antisymm.
    - apply lsd_length; lia.
    - apply lsd_length_ge; lia. }
  pose proof (put_digits_spec (S (length s)) (2 ^ 64 - n) 10 [] s) as Hput.
  cbn zeta in Hput. fold ds in Hput. cbn [app length] in Hput. change (Z.of_nat 0) with 0 in Hput.
  rewrite Hput by (rewrite ?Hlen; lia).
  unfold finish, mbind, res_bind. cbn beta iota.
  by rewrite buf_set_oob by (rewrite length_app, length_drop; lia).
Qed.

(** ** memcpyk copies forward *)

Lemma for_from_copy n src dest lo s :
  for_from lo n (fun i => b ← load8 (src + i); store8 (dest + i) b) s =
    Ret tt (set_mem (fun m => copy_bytes n m (src + lo) (dest + lo)) s).
Proof.
  revert lo s; induction n as [|n IH]; intros lo s; [by destruct s|].
  simpl. erewrite bind_ret; [|reflexivity]. rewrite IH.
  by rewrite !Z.add_assoc.
Qed.

Lemma memcpyk_run src dest bytes s :
  memcpyk src dest bytes s = Ret tt (set_mem (fun m => copy_bytes (Z.to_nat bytes) m src dest) s).
Proof. unfold memcpyk. by rewrite for_from_copy, !Z.add_0_r. Qed.

Lemma copy_bytes_get n m src dest b :
  dest <= src \/ src + Z.of_nat n <= dest ->
  mem_get (copy_bytes n m src dest) b =
    if (dest <=? b) && (b <? dest + Z.of_nat n) then u8 (mem_get m (src + (b - dest)))
    else mem_get m b.
Proof.
  revert m src dest; induction n as [|n IH]; intros m src dest Hov.
  { simpl. split_tests; simpl; (done || lia). }
  cbn [copy_bytes]. rewrite IH, !mem_get_insert by lia.
  destruct (decide (b = dest)) as [->|Hne].
  - split_tests; try lia; cbn [andb]; by rewrite bool_decide_true, Z.sub_diag, Z.add_0_r.
  - rewrite (bool_decide_false (dest = b)) by congruence.
    replace (dest + Z.of_nat (S n)) with (dest + 1 + Z.of_nat n) by lia.
    destruct (Z.ltb_spec b (dest + 1 + Z.of_nat n)); [|by rewrite !andb_false_r].
    destruct (Z.leb_spec (dest + 1) b), (Z.leb_spec dest b); try lia; cbn [andb].
    + rewrite bool_decide_false by lia. do 2 f_equal. lia.
    + done.
Qed.

(** ** Properties *)

Lemma parse_print_int n : parse_int (print_int n) = Some n.
Proof.
  unfold print_int. destruct (Z.ltb_spec n 0).
  - simpl. rewrite parse_numeral by lia. simpl. f_equal. lia.
  - pose proof (parse_numeral 10 n ltac:(lia) ltac:(lia)) as Hp. unfold parse_int.
    destruct (numeral 10 n) as [|c l] eqn:E; [done|].
    destruct (decide (c = 45)) as [->|]; [|by destruct c as [|[]|]; repeat case_match].
    by simpl in Hp.
Qed.

Lemma print_int_nonzero n : Forall nonzero (print_int n).
Proof.
  unfold print_int. destruct (n <? 0); [constructor; [done|]|]; apply numeral_nonzero; lia.
Qed.

(** C34: for every [int] except the least one, [itoa] in base 10 into an array
    of at least 12 bytes stays inside the array, leaves a NUL-terminated
    string, and that string is the decimal numeral of [n]: it reads back to
    [n]. *)
Theorem itoa_decimal_roundtrip n (s : list Z) :
  - 2 ^ 31 < n < 2 ^ 31 -> (12 <= length s)%nat -> Z.of_nat (length s) < 2 ^ 62 ->
  exists s', itoa n s 10 = Ok s' /\ length s' = length s
    /\ cstring s' = print_int n /\ parse_int (cstring s') = Some n.
Proof.
  intros Hn Hlen Hmax. destruct (itoa_decimal n s Hn Hlen Hmax) as (rest & Hr & Hl).
  eexists. split; [exact Hr|]. split; [exact Hl|].
  rewrite cstring_nul by apply print_int_nonzero. split; [done|]. apply parse_print_int.
Qed.

Lemma itoa_decimal_roundtrip_witness :
  exists s', itoa (-2147483647) (replicate 20 7) 10 = Ok s' /\ length s' = 20%nat
    /\ cstring s' = print_int (-2147483647) /\ parse_int (cstring s') = Some (-2147483647).
Proof.
  apply (itoa_decimal_roundtrip (-2147483647) (replicate 20 7)); simpl; lia.
Defined.

(** C35: [ulltoa] in base 16 into an array of at least 17 bytes writes, for every
    64-bit number, its hexadecimal numeral: it reads back to the number. *)
Theorem ulltoa_hex_roundtrip n (s : list Z) :
  0 <= n < 2 ^ 64 -> (17 <= length s)%nat -> Z.of_nat (length s) < 2 ^ 62 ->
  exists s', ulltoa n s 16 = Ok s' /\ length s' = length s
    /\ cstring s' = numeral 16 n /\ parse_nat 16 (cstring s') = Some n.
Proof.
  intros Hn Hlen Hmax. destruct (ulltoa_hex n s Hn Hlen Hmax) as (rest & Hr & Hl).
  eexists. split; [exact Hr|]. split; [exact Hl|].
  rewrite cstring_nul by (apply numeral_nonzero; lia). split; [done|]. apply parse_numeral; lia.
Qed.

Lemma ulltoa_hex_roundtrip_witness :
  exists s', ulltoa (2 ^ 64 - 1) (replicate 20 7) 16 = Ok s' /\ length s' = 20%nat
    /\ cstring s' = numeral 16 (2 ^ 64 - 1) /\ parse_nat 16 (cstring s') = Some (2 ^ 64 - 1).
Proof.
  apply (ulltoa_hex_roundtrip (2 ^ 64 - 1) (replicate 20 7)); simpl; lia.
Defined.

(** [ulltoa] in base 10 overruns the 20-byte array [vprintfk] gives it for
    every number from [2^31] to [2^32 - 1]: bit 31 is taken for a sign, and
    the sign, twenty digits and NUL do not fit. *)
Theorem ulltoa_decimal_overruns n (s : list Z) :
  2 ^ 31 <= n < 2 ^ 32 -> length s = 20%nat -> ulltoa n s 10 = Err OutOfBounds.
Proof. apply ulltoa_decimal_overflow. Qed.

(** [strrev] reverses a non-empty C string in place, keeps its terminator
    and every byte after it, and terminates; on the empty string it indexes
    the array at [SIZE_MAX]. *)
Theorem strrev_reverses (s rest : list Z) :
  Forall nonzero s -> Z.of_nat (length s) < 2 ^ 63 -> Z.of_nat (length rest) < 2 ^ 63 ->
  strrev (s ++ 0 :: rest) =
    if decide (s = []) then Err OutOfBounds else Ok (reverse s ++ 0 :: rest).
Proof.
  intros Hnz Hlen Hrest. case_decide as Hs; [|by apply strrev_spec].
  subst s. unfold strrev, mbind, res_bind. simpl. unfold buf_get.
  by rewrite (proj2 (Z.ltb_ge (u64 (0 - 1)) _)) by (change (u64 (0 - 1)) with (2 ^ 64 - 1); simpl; lia).
Qed.

(** [memcpyk] copies [bytes] bytes from [src] to [dest], also when the
    areas overlap with the destination below the source (as in scrolling), and
    changes no other byte of memory nor anything else. *)
Theorem memcpyk_copies src dest bytes s :
  0 <= bytes -> dest <= src \/ src + bytes <= dest ->
  exists m', memcpyk src dest bytes s = Ret tt (set_mem (fun _ => m') s)
    /\ forall b, mem_get m' b =
         if (dest <=? b) && (b <? dest + bytes) then u8 (mem_get (mem s) (src + (b - dest)))
         else mem_get (mem s) b.
Proof.
  intros Hb Hov. eexists. split; [apply memcpyk_run|]. intros b.
  rewrite copy_bytes_get by (rewrite Z2Nat.id; lia). by rewrite Z2Nat.id by lia.
Qed.

