(* ===== verification/Screen.v ===== *)
(** * The VGA text screen: src/drivers/screen.c

    The screen is the memory from [VIDEO_ADDRESS], two bytes (character and
    colour) per cell, 80 cells per row.  The state is the four file-scope
    variables in [scr]; the hardware cursor is what the writes to the two CRT
    controller ports leave in its registers ([crtc]). *)

From stdpp Require Import base numbers list gmap strings.
From S2P Require Import Prelude Machine Libk.

Definition FB_COMMAND_PORT : Z := 0x3D4.
Definition FB_DATA_PORT : Z := 0x3D5.
Definition FB_HIGH_BYTE_COMMAND : Z := 14.
Definition FB_LOW_BYTE_COMMAND : Z := 15.

Definition VIDEO_ADDRESS : Z := 0xB8000.
Definition SCREEN_WIDTH : Z := 80.
Definition SCREEN_HEIGHT : Z := 24.
Definition COLOR_BLACK : Z := 0.
Definition COLOR_LIGHT_GREY : Z := 7.

Definition set_col (c : Z) : M unit :=
  modify (set_scr (fun r => Screen (screen_scheme r) (framebuffer r) c (screen_row r))).
Definition set_row (y : Z) : M unit :=
  modify (set_scr (fun r => Screen (screen_scheme r) (framebuffer r) (screen_col r) y)).
Definition get_scr {A} (f : screen_t -> A) : M A := gets (fun s => f (scr s)).

Definition color_scheme (fg bg : Z) : Z := u8 (Z.lor fg (Z.shiftl bg 4)).

Definition screen_init : M unit :=
  modify (set_scr (fun _ =>
    Screen (color_scheme COLOR_LIGHT_GREY COLOR_BLACK) VIDEO_ADDRESS 0 0)).

Definition screen_write_at (c scheme x y : Z) : M unit :=
  row ← int (y * SCREEN_WIDTH);
  cell ← int (row + x);
  offset ← int (2 * cell);
  fb ← get_scr framebuffer;
  store8 (fb + offset) c ;;
  store8 (fb + (offset + 1)) scheme ;;
  if SCREEN_HEIGHT * SCREEN_WIDTH * 2 <? offset then
    for_from 1 (Z.to_nat (SCREEN_HEIGHT - 1)) (fun i =>
      memcpyk (VIDEO_ADDRESS + 2 * i * SCREEN_WIDTH)
              (VIDEO_ADDRESS + 2 * (i - 1) * SCREEN_WIDTH)
              (2 * SCREEN_WIDTH)) ;;
    (let last_line := 2 * SCREEN_HEIGHT * SCREEN_WIDTH + VIDEO_ADDRESS in
     for_from 0 (Z.to_nat (SCREEN_WIDTH * 2)) (fun i => store8 (last_line + i) 0)) ;;
    row ← get_scr screen_row;
    row ← int (row - 1);
    set_row row
  else mret tt.

Definition screen_clear : M unit :=
  for_from 0 (Z.to_nat SCREEN_HEIGHT) (fun y =>
    for_from 0 (Z.to_nat SCREEN_WIDTH) (fun x =>
      scheme ← get_scr screen_scheme;
      screen_write_at 32 scheme x y)).

Definition move_cursor (pos : Z) : M unit :=
  port_byte_out FB_COMMAND_PORT FB_HIGH_BYTE_COMMAND ;;
  port_byte_out FB_DATA_PORT (Z.land (Z.shiftr pos 8) 0x00FF) ;;
  port_byte_out FB_COMMAND_PORT FB_LOW_BYTE_COMMAND ;;
  port_byte_out FB_DATA_PORT (Z.land pos 0x00FF).

Definition next_row : M unit :=
  row ← get_scr screen_row;
  row ← int (row + 1);
  set_row row.

(** The four control characters, then any other. *)
Definition screen_write (c : Z) : M unit :=
  col ← get_scr screen_col;
  (if c =? 10 then
     set_col 0 ;;
     next_row
   else if (c =? 8) && (0 <? col) then
     col ← int (col - 1);
     set_col col ;;
     scheme ← get_scr screen_scheme;
     row ← get_scr screen_row;
     screen_write_at 0 scheme col row
   else if c =? 9 then
     a ← int (col + 8);
     col ← int (a - Z.rem col 8);
     set_col col
   else if c =? 13 then
     set_col 0
   else
     scheme ← get_scr screen_scheme;
     row ← get_scr screen_row;
     screen_write_at c scheme col row ;;
     col ← get_scr screen_col;
     col ← int (col + 1);
     set_col col ;;
     if col =? SCREEN_WIDTH then
       set_col 0 ;;
       next_row
     else mret tt) ;;
  row ← get_scr screen_row;
  col ← get_scr screen_col;
  a ← int (row * SCREEN_WIDTH);
  pos ← int (a + col);
  move_cursor (u16 pos).

(** [str] is the C string's characters, without the NUL. *)
Definition screen_print (str : list Z) : M unit := iterM screen_write str.

(** ** What the hardware shows *)

(** The CRT controller: an index register selected through the command port,
    and the two cursor registers. *)
Record crtc_t := Crtc { crtc_index : Z; crtc_high : Z; crtc_low : Z }.

Definition crtc_step (e : event) (c : crtc_t) : crtc_t :=
  match e with
  | Out8 p d =>
      if p =? FB_COMMAND_PORT then Crtc d (crtc_high c) (crtc_low c)
      else if p =? FB_DATA_PORT then
        if crtc_index c =? FB_HIGH_BYTE_COMMAND then Crtc (crtc_index c) d (crtc_low c)
        else if crtc_index c =? FB_LOW_BYTE_COMMAND then Crtc (crtc_index c) (crtc_high c) d
        else c
      else c
  | _ => c
  end.

(** The controller after a trace (newest event first). *)
Definition crtc (tr : list event) : crtc_t := foldr crtc_step (Crtc 0 0 0) tr.
Definition cursor (tr : list event) : Z := 256 * crtc_high (crtc tr) + crtc_low (crtc tr).

(** The cell at linear position [p]: character and colour. *)
Definition cell (m : gmap Z Z) (p : Z) : Z * Z :=
  (mem_get m (VIDEO_ADDRESS + 2 * p), mem_get m (VIDEO_ADDRESS + 2 * p + 1)).

(** ** The effect of the operations as functions on memory and trace *)

Definition put_cell (fb offset c scheme : Z) (m : gmap Z Z) : gmap Z Z :=
  <[fb + (offset + 1) := u8 scheme]> (<[fb + offset := u8 c]> m).

Definition scroll_row (i : Z) (m : gmap Z Z) : gmap Z Z :=
  copy_bytes (Z.to_nat (2 * SCREEN_WIDTH)) m
    (VIDEO_ADDRESS + 2 * i * SCREEN_WIDTH) (VIDEO_ADDRESS + 2 * (i - 1) * SCREEN_WIDTH).

Definition scroll (m : gmap Z Z) : gmap Z Z :=
  write_bytes (fold_from scroll_row 1 (Z.to_nat (SCREEN_HEIGHT - 1)) m)
    (2 * SCREEN_HEIGHT * SCREEN_WIDTH + VIDEO_ADDRESS + 0)
    (replicate (Z.to_nat (SCREEN_WIDTH * 2)) (u8 0)).

Definition cursor_events (pos : Z) : list event :=
  [Out8 FB_DATA_PORT (pos `mod` 256); Out8 FB_COMMAND_PORT FB_LOW_BYTE_COMMAND;
   Out8 FB_DATA_PORT (pos / 256); Out8 FB_COMMAND_PORT FB_HIGH_BYTE_COMMAND].

(** A character the screen shows rather than obeys. *)
Definition printable (c : Z) : Prop :=
  is_byte c /\ c <> 8 /\ c <> 9 /\ c <> 10 /\ c <> 13.

(** The next character goes to linear position [p]. *)
Definition screen_at (p : Z) (s : kstate) : Prop :=
  framebuffer (scr s) = VIDEO_ADDRESS
  /\ screen_row (scr s) = p / SCREEN_WIDTH
  /\ screen_col (scr s) = p `mod` SCREEN_WIDTH.

(** Everything but memory, trace and the screen variables is the same. *)
Definition same_kernel (s s' : kstate) : Prop :=
  iflag s' = iflag s /\ cr3 s' = cr3 s /\ idt s' = idt s /\ idt_reg s' = idt_reg s
  /\ interrupt_handlers s' = interrupt_handlers s /\ tick s' = tick s /\ mm s' = mm s.

(** ** Cursor *)

Lemma move_cursor_run pos s :
  0 <= pos < 2 ^ 16 ->
  move_cursor pos s = Ret tt (set_trace (app (cursor_events pos)) s).
Proof.
  intros Hp. unfold move_cursor. steps. unfold port_byte_out, log, modify, set_trace. simpl.
  unfold cursor_events. rewrite (land_low pos 255 8) by (done || lia).
  rewrite (land_low (Z.shiftr pos 8) 255 8) by (done || lia).
  rewrite Z.shiftr_div_pow2 by lia. change (2 ^ 8) with 256.
  rewrite (Z.mod_small (pos / 256)) by (Z.div_mod_to_equations; lia).
  by rewrite (u8_small (pos `mod` 256)), (u8_small (pos / 256)) by (Z.div_mod_to_equations; lia).
Qed.

Lemma cursor_cursor_events pos tr : cursor (cursor_events pos ++ tr) = pos.
Proof. unfold cursor. simpl. Z.div_mod_to_equations. lia. Qed.

(** ** Writing one cell *)

(** In the range of [int], writing a cell stores two bytes; past linear
    position 1920 it then scrolls and moves the row up by one. *)
Lemma screen_write_at_run c scheme x y s :
  let offset := 2 * (80 * y + x) in
  - 2 ^ 23 <= y < 2 ^ 23 -> - 2 ^ 23 <= x < 2 ^ 23 ->
  - 2 ^ 23 < screen_row (scr s) < 2 ^ 23 ->
  screen_write_at c scheme x y s =
    if 3840 <? offset
    then Ret tt (set_scr (fun r => Screen (screen_scheme r) (framebuffer r) (screen_col r) (screen_row r - 1))
                  (set_mem (fun m => scroll (put_cell (framebuffer (scr s)) offset c scheme m)) s))
    else Ret tt (set_mem (put_cell (framebuffer (scr s)) offset c scheme) s).
Proof.
  intros offset Hy Hx Hr. unfold screen_write_at.
  do 3 (erewrite bind_ret; [|apply int_run; unfold SCREEN_WIDTH; lia]). cbn beta.
  replace (2 * (y * SCREEN_WIDTH + x)) with offset by (unfold offset, SCREEN_WIDTH; lia).
  do 3 step. change (SCREEN_HEIGHT * SCREEN_WIDTH * 2) with 3840.
  destruct (3840 <? offset); [|done].
  erewrite bind_ret; [|apply (for_from_mem _ scroll_row); intros; apply memcpyk_run].
  erewrite bind_ret; [|apply for_from_store].
  do 2 step. unfold set_row, store8, get_scr, scroll, put_cell. state_eq.
Qed.

(** ** Scrolling *)

Lemma scroll_row_get i m b :
  mem_get (scroll_row i m) b =
    if (VIDEO_ADDRESS + 160 * (i - 1) <=? b) && (b <? VIDEO_ADDRESS + 160 * i)
    then u8 (mem_get m (b + 160)) else mem_get m b.
Proof.
  unfold scroll_row. rewrite copy_bytes_get by (unfold SCREEN_WIDTH; lia).
  unfold SCREEN_WIDTH. rewrite Z2Nat.id by lia.
  split_tests; simpl; try lia; try done; f_equal; f_equal; lia.
Qed.

Lemma scroll_rows_get n i m b :
  mem_get (fold_from scroll_row i n m) b =
    if (VIDEO_ADDRESS + 160 * (i - 1) <=? b) && (b <? VIDEO_ADDRESS + 160 * (i - 1 + Z.of_nat n))
    then u8 (mem_get m (b + 160)) else mem_get m b.
Proof.
  revert i m; induction n as [|n IH]; intros i m.
  { cbn [fold_from]. split_tests; simpl; (done || lia). }
  rewrite fold_from_S, IH, !scroll_row_get.
  split_tests; simpl; try lia; try done.
Qed.

(** Rows 0 to 22 take the text of rows 1 to 23, row 23 is left as it was, row
    24 is blanked, and no other memory changes. *)
Lemma scroll_get m b :
  mem_get (scroll m) b =
    if (VIDEO_ADDRESS <=? b) && (b <? VIDEO_ADDRESS + 3680) then u8 (mem_get m (b + 160))
    else if (VIDEO_ADDRESS + 3840 <=? b) && (b <? VIDEO_ADDRESS + 4000) then 0
    else mem_get m b.
Proof.
  unfold scroll. change (2 * SCREEN_HEIGHT * SCREEN_WIDTH + VIDEO_ADDRESS + 0) with (VIDEO_ADDRESS + 3840).
  set (w := Z.to_nat (SCREEN_WIDTH * 2)). assert (Hw : Z.of_nat w = 160) by (unfold w, SCREEN_WIDTH; lia).
  clearbody w. destruct (decide (VIDEO_ADDRESS + 3840 <= b < VIDEO_ADDRESS + 4000)) as [Hb|Hb].
  - replace b with (VIDEO_ADDRESS + 3840 + Z.of_nat (Z.to_nat (b - VIDEO_ADDRESS - 3840))) at 1 by lia.
    rewrite (mem_get_write_in _ _ _ _ 0) by (apply lookup_replicate_2; lia).
    split_tests; simpl; (done || lia).
  - rewrite mem_get_write_out by (rewrite length_replicate; lia).
    rewrite scroll_rows_get. unfold SCREEN_HEIGHT. rewrite Z2Nat.id by lia.
    split_tests; simpl; (done || lia).
Qed.

Lemma put_cell_get fb off c scheme m b :
  mem_get (put_cell fb off c scheme m) b =
    if b =? fb + off then u8 c else if b =? fb + off + 1 then u8 scheme else mem_get m b.
Proof.
  unfold put_cell. rewrite !mem_get_insert. split_tests; repeat case_bool_decide; (done || lia).
Qed.

(** ** Characters *)

(** The state after the cursor is placed at linear position [pos]. *)
Definition at_cursor (col row : Z) (s : kstate) : kstate :=
  set_trace (app (cursor_events (u16 (80 * row + col))))
    (set_scr (fun r => Screen (screen_scheme r) (framebuffer r) col row) s).

Lemma place_cursor row col s :
  - 2 ^ 23 <= row < 2 ^ 23 -> - 2 ^ 23 <= col < 2 ^ 23 ->
  screen_row (scr s) = row -> screen_col (scr s) = col ->
  (row ← get_scr screen_row;
   col ← get_scr screen_col;
   a ← int (row * SCREEN_WIDTH);
   pos ← int (a + col);
   move_cursor (u16 pos)) s = Ret tt (at_cursor col row s).
Proof.
  intros Hr Hc Er Ec. unfold SCREEN_WIDTH. do 2 step. rewrite Er, Ec. do 2 step.
  rewrite move_cursor_run by apply u16_range. unfold at_cursor, set_trace, set_scr.
  rewrite <- Er, <- Ec. rewrite (Z.mul_comm _ 80). by destruct s as [? ? ? ? [] ? ? ? ? ?].
Qed.

Lemma next_row_run s :
  - 2 ^ 23 <= screen_row (scr s) < 2 ^ 23 ->
  next_row s = Ret tt (set_scr (fun r =>
    Screen (screen_scheme r) (framebuffer r) (screen_col r) (screen_row r + 1)) s).
Proof. intros. unfold next_row. do 2 step. done. Qed.

(** What storing a cell does to memory and to the row, scrolling included. *)
Definition cell_mem (s : kstate) (offset c : Z) (m : gmap Z Z) : gmap Z Z :=
  let m := put_cell (framebuffer (scr s)) offset c (screen_scheme (scr s)) m in
  if 3840 <? offset then scroll m else m.
Definition cell_row (s : kstate) (offset : Z) : Z :=
  if 3840 <? offset then screen_row (scr s) - 1 else screen_row (scr s).

(** The offset of the cell under the cursor. *)
Definition char_offset (s : kstate) : Z := 2 * (80 * screen_row (scr s) + screen_col (scr s)).

Definition in_range (s : kstate) : Prop :=
  - 2 ^ 22 <= screen_row (scr s) < 2 ^ 22 /\ - 2 ^ 22 <= screen_col (scr s) < 2 ^ 22.

(** A printable character goes to the cursor's cell, the text area scrolls if
    that cell is past position 1920, and the cursor moves on, to the next row
    exactly when the column becomes 80. *)
Lemma screen_write_other c s :
  c <> 9 -> c <> 10 -> c <> 13 -> (c <> 8 \/ screen_col (scr s) <= 0) -> in_range s ->
  let wrap := screen_col (scr s) + 1 =? 80 in
  screen_write c s =
    Ret tt (at_cursor (if wrap then 0 else screen_col (scr s) + 1)
                      (if wrap then cell_row s (char_offset s) + 1 else cell_row s (char_offset s))
                      (set_mem (cell_mem s (char_offset s) c) s)).
Proof.
  intros H9 H10 H13 H8 [Hr Hc] wrap. unfold screen_write. step.
  assert (E8 : (c =? 8) && (0 <? screen_col (scr s)) = false) by (split_tests; simpl; (done || lia)).
  rewrite E8, !(proj2 (Z.eqb_neq c _)) by done. cbn iota.
  erewrite (bind_ret _ _ s tt (set_scr (fun r => Screen (screen_scheme r) (framebuffer r)
    (if wrap then 0 else screen_col (scr s) + 1) (if wrap then cell_row s (char_offset s) + 1 else cell_row s (char_offset s)))
    (set_mem (cell_mem s (char_offset s) c) s))).
  - rewrite (place_cursor (if wrap then cell_row s (char_offset s) + 1 else cell_row s (char_offset s))
      (if wrap then 0 else screen_col (scr s) + 1)); try done.
    all: unfold cell_row; destruct wrap; try destruct (3840 <? _); lia.
  - do 2 step.
    pose proof (screen_write_at_run c (screen_scheme (scr s)) (screen_col (scr s))
      (screen_row (scr s)) s ltac:(lia) ltac:(lia) ltac:(lia)) as Hw. cbn zeta in Hw.
    fold (char_offset s) in Hw. unfold cell_mem, cell_row, SCREEN_WIDTH.
    destruct (3840 <? char_offset s); erewrite (bind_ret _ _ _ _ _ Hw).
    all: do 3 step; simpl_state; fold wrap; destruct wrap; [step; rewrite next_row_run by (simpl_state; lia)|].
    all: unfold set_col; state_eq.
Qed.

Lemma screen_write_char c s :
  printable c -> in_range s ->
  let wrap := screen_col (scr s) + 1 =? 80 in
  screen_write c s =
    Ret tt (at_cursor (if wrap then 0 else screen_col (scr s) + 1)
                      (if wrap then cell_row s (char_offset s) + 1 else cell_row s (char_offset s))
                      (set_mem (cell_mem s (char_offset s) c) s)).
Proof. intros (_ & H8 & H9 & H10 & H13) Hin. apply screen_write_other; auto. Qed.

(** ** Control characters *)

Lemma screen_write_newline s :
  in_range s -> screen_write 10 s = Ret tt (at_cursor 0 (screen_row (scr s) + 1) s).
Proof.
  intros [Hr Hc]. unfold screen_write. step. change (10 =? 10) with true. cbn iota.
  erewrite bind_ret; [|step; apply next_row_run; simpl_state; lia].
  rewrite (place_cursor (screen_row (scr s) + 1) 0); (done || lia).
Qed.

Lemma screen_write_return s :
  in_range s -> screen_write 13 s = Ret tt (at_cursor 0 (screen_row (scr s)) s).
Proof.
  intros [Hr Hc]. unfold screen_write. step. change (13 =? 10) with false.
  change (13 =? 8) with false. change (13 =? 9) with false. change (13 =? 13) with true. cbn [andb].
  step. rewrite (place_cursor (screen_row (scr s)) 0); (done || lia).
Qed.

Lemma screen_write_tab s :
  in_range s ->
  screen_write 9 s =
    Ret tt (at_cursor (screen_col (scr s) + 8 - Z.rem (screen_col (scr s)) 8) (screen_row (scr s)) s).
Proof.
  intros [Hr Hc]. unfold screen_write. step. change (9 =? 10) with false.
  change (9 =? 8) with false. change (9 =? 9) with true. cbn [andb].
  assert (-8 < Z.rem (screen_col (scr s)) 8 < 8).
  { pose proof (Z.rem_bound_abs (screen_col (scr s)) 8). lia. }
  erewrite bind_ret; [|do 2 step; reflexivity]. cbn beta.
  rewrite (place_cursor (screen_row (scr s))
    (screen_col (scr s) + 8 - Z.rem (screen_col (scr s)) 8)); (done || lia).
Qed.

(** Backspace goes one column back and blanks the cell there. *)
Lemma screen_write_backspace s :
  in_range s -> 0 < screen_col (scr s) ->
  screen_write 8 s =
    Ret tt (at_cursor (screen_col (scr s) - 1) (cell_row s (char_offset s - 2))
      (set_mem (cell_mem s (char_offset s - 2) 0) s)).
Proof.
  intros [Hr Hc] Hpos. unfold screen_write. step. change (8 =? 10) with false.
  rewrite (proj2 (Z.ltb_lt 0 _)) by lia. change (8 =? 8) with true. cbn [andb].
  erewrite (bind_ret _ _ s tt (set_scr (fun r => Screen (screen_scheme r) (framebuffer r)
    (screen_col (scr s) - 1) (cell_row s (char_offset s - 2)))
    (set_mem (cell_mem s (char_offset s - 2) 0) s))).
  - rewrite (place_cursor (cell_row s (char_offset s - 2)) (screen_col (scr s) - 1)); try done.
    all: unfold cell_row; try destruct (3840 <? _); lia.
  - do 4 step. rewrite screen_write_at_run by (simpl_state; lia). simpl_state.
    unfold cell_mem, cell_row, char_offset.
    replace (2 * (80 * screen_row (scr s) + (screen_col (scr s) - 1)))
      with (2 * (80 * screen_row (scr s) + screen_col (scr s)) - 2) by lia.
    destruct (3840 <? _); state_eq.
Qed.

(** ** Text at a linear position *)

Lemma screen_at_offset p s : screen_at p s -> char_offset s = 2 * p.
Proof.
  intros (_ & Hr & Hc). unfold char_offset. rewrite Hr, Hc. unfold SCREEN_WIDTH.
  Z.div_mod_to_equations. lia.
Qed.

Lemma screen_at_in_range p s : screen_at p s -> 0 <= p < 2 ^ 22 -> in_range s.
Proof.
  intros (_ & Hr & Hc) Hp. unfold in_range. rewrite Hr, Hc. unfold SCREEN_WIDTH.
  Z.div_mod_to_equations. lia.
Qed.

Lemma screen_write_pos p c s :
  screen_at p s -> 0 <= p <= 1920 -> printable c ->
  screen_write c s =
    Ret tt (at_cursor ((p + 1) `mod` 80) ((p + 1) / 80)
      (set_mem (put_cell VIDEO_ADDRESS (2 * p) c (screen_scheme (scr s))) s)).
Proof.
  intros Hat Hp Hc. rewrite screen_write_char; [|done|by apply (screen_at_in_range p); [|lia]].
  pose proof (screen_at_offset p s Hat) as Hoff. destruct Hat as (Hfb & Hr & Hcol).
  unfold SCREEN_WIDTH in *. unfold cell_mem, cell_row. rewrite Hoff, Hfb.
  rewrite (proj2 (Z.ltb_ge 3840 (2 * p))) by lia. rewrite Hr, Hcol.
  destruct (Z.eqb_spec (p `mod` 80 + 1) 80) as [E|E]; do 2 f_equal.
  all: try (Z.div_mod_to_equations; lia).
Qed.

Lemma screen_print_pos str p s :
  screen_at p s -> 0 <= p -> p + Z.of_nat (length str) <= 1921 -> Forall printable str ->
  exists s', screen_print str s = Ret tt s'
    /\ screen_at (p + Z.of_nat (length str)) s'
    /\ (forall i c, str !! i = Some c -> cell (mem s') (p + Z.of_nat i) = (c, u8 (screen_scheme (scr s))))
    /\ (forall b, b < VIDEO_ADDRESS + 2 * p \/ VIDEO_ADDRESS + 2 * (p + Z.of_nat (length str)) <= b ->
          mem_get (mem s') b = mem_get (mem s) b)
    /\ screen_scheme (scr s') = screen_scheme (scr s)
    /\ same_kernel s s'
    /\ (str <> [] -> cursor (trace s') = p + Z.of_nat (length str)).
Proof.
  intros Hat Hp Hlen Hpr. revert p s Hat Hp Hlen.
  induction Hpr as [|c str Hc Hpr IH]; intros p s Hat Hp Hlen.
  { exists s. cbn [length]. rewrite Z.add_0_r. split; [done|]. split; [done|].
    split; [by intros i c H; rewrite lookup_nil in H|]. by repeat split. }
  cbn [length] in *. set (s1 := at_cursor ((p + 1) `mod` 80) ((p + 1) / 80)
      (set_mem (put_cell VIDEO_ADDRESS (2 * p) c (screen_scheme (scr s))) s)).
  destruct (IH (p + 1) s1) as (s' & Hrun & Hat' & Hcells & Hmem & Hsch & Hk & Hcur); try lia.
  { unfold screen_at, s1, at_cursor. simpl_state. by destruct Hat. }
  exists s'. replace (p + Z.of_nat (S (length str))) with (p + 1 + Z.of_nat (length str)) by lia.
  repeat split; try (apply Hat' || apply Hk).
  - unfold screen_print. cbn [iterM]. rewrite (bind_ret _ _ _ tt s1); [done|].
    apply screen_write_pos; (done || lia).
  - intros [|i] x Hx; simplify_eq/=.
    + rewrite Z.add_0_r. unfold cell. destruct Hc as [Hb _].
      rewrite !Hmem by lia. unfold s1, at_cursor. simpl_state. rewrite !put_cell_get.
      split_tests; try lia. by rewrite u8_small.
    + replace (p + Z.of_nat (S i)) with (p + 1 + Z.of_nat i) by lia. by rewrite (Hcells i x).
  - intros b Hb. rewrite Hmem by lia. unfold s1, at_cursor. simpl_state. rewrite put_cell_get.
    split_tests; (done || lia).
  - done.
  - intros _. destruct str as [|c' str]; [|by apply Hcur].
    unfold screen_print in Hrun. cbn [iterM] in Hrun. injection Hrun as <-.
    unfold s1, at_cursor. simpl_state. rewrite cursor_cursor_events.
    cbn [length] in *. rewrite u16_small; Z.div_mod_to_equations; lia.
Qed.

(** ** Clearing *)

Definition blank_cell (scheme y x : Z) : gmap Z Z -> gmap Z Z :=
  put_cell VIDEO_ADDRESS (2 * (80 * y + x)) 32 scheme.

Lemma blank_row_get scheme y n lo m b :
  mem_get (fold_from (blank_cell scheme y) lo n m) b =
    let d := b - VIDEO_ADDRESS - 160 * y in
    if (2 * lo <=? d) && (d <? 2 * (lo + Z.of_nat n))
    then (if d `mod` 2 =? 0 then 32 else u8 scheme) else mem_get m b.
Proof.
  cbn zeta. revert lo m; induction n as [|n IH]; intros lo m.
  { cbn [fold_from]. split_tests; simpl; (done || lia). }
  rewrite fold_from_S, IH. unfold blank_cell. rewrite !put_cell_get.
  split_tests; simpl; try lia; try done; Z.div_mod_to_equations; lia.
Qed.

Definition blank_rows (scheme : Z) : gmap Z Z -> gmap Z Z :=
  fold_from (fun y => fold_from (blank_cell scheme y) 0 (Z.to_nat SCREEN_WIDTH)) 0
    (Z.to_nat SCREEN_HEIGHT).

Lemma blank_rows_get scheme m b :
  mem_get (blank_rows scheme m) b =
    let d := b - VIDEO_ADDRESS in
    if (0 <=? d) && (d <? 3840) then (if d `mod` 2 =? 0 then 32 else u8 scheme) else mem_get m b.
Proof.
  enough (H : forall n lo m, mem_get (fold_from (fun y =>
      fold_from (blank_cell scheme y) 0 (Z.to_nat SCREEN_WIDTH)) lo n m) b =
    let d := b - VIDEO_ADDRESS in
    if (160 * lo <=? d) && (d <? 160 * (lo + Z.of_nat n))
    then (if d `mod` 2 =? 0 then 32 else u8 scheme) else mem_get m b).
  { unfold blank_rows. rewrite H. unfold SCREEN_HEIGHT. by rewrite Z2Nat.id by lia. }
  cbn zeta. clear m. induction n as [|n IH]; intros lo m.
  { cbn [fold_from]. split_tests; simpl; (done || lia). }
  rewrite fold_from_S, IH, blank_row_get. unfold SCREEN_WIDTH. rewrite Z2Nat.id by lia.
  replace (b - VIDEO_ADDRESS - 160 * lo) with (b - VIDEO_ADDRESS + (- 80 * lo) * 2) by lia.
  rewrite Z_mod_plus_full. split_tests; simpl; try lia; done.
Qed.

Lemma screen_clear_run s :
  framebuffer (scr s) = VIDEO_ADDRESS -> in_range s ->
  screen_clear s = Ret tt (set_mem (blank_rows (screen_scheme (scr s))) s).
Proof.
  intros Hfb Hin. unfold screen_clear, blank_rows.
  apply (for_from_mem_if (fun s' => scr s' = scr s)); [done| |done].
  intros y s1 H1 Hy. apply (for_from_mem_if (fun s' => scr s' = scr s)); [done| |done].
  intros x s2 H2 Hx. unfold SCREEN_WIDTH, SCREEN_HEIGHT in *. rewrite Z2Nat.id in * by lia.
  step. rewrite H2. rewrite screen_write_at_run by (rewrite ?H2; unfold in_range in Hin; lia).
  rewrite H2, Hfb. by rewrite (proj2 (Z.ltb_ge _ _)) by lia.
Qed.

(** ** Only the text page is written *)

(** The cursor is on one of the 25 rows the hardware shows. *)
Definition screen_ok (s : kstate) : Prop :=
  framebuffer (scr s) = VIDEO_ADDRESS
  /\ 0 <= screen_col (scr s) < SCREEN_WIDTH /\ 0 <= screen_row (scr s) <= SCREEN_HEIGHT.

Lemma screen_ok_in_range s : screen_ok s -> in_range s.
Proof. unfold screen_ok, in_range, SCREEN_WIDTH, SCREEN_HEIGHT. lia. Qed.

Lemma cell_mem_confined s offset c m b :
  framebuffer (scr s) = VIDEO_ADDRESS -> 0 <= offset < 4000 -> offset `mod` 2 = 0 ->
  b < VIDEO_ADDRESS \/ VIDEO_ADDRESS + 4000 <= b ->
  mem_get (cell_mem s offset c m) b = mem_get m b.
Proof.
  intros Hfb Hoff Hev Hb. unfold cell_mem. rewrite Hfb.
  assert (Hput : forall x, mem_get (put_cell VIDEO_ADDRESS offset c x m) b = mem_get m b).
  { intros x. rewrite put_cell_get. split_tests; try lia. Z.div_mod_to_equations. lia. }
  destruct (3840 <? offset); [rewrite scroll_get|]; rewrite ?Hput; [|done].
  split_tests; simpl; (done || lia).
Qed.

(** ** Past the right edge *)

Lemma screen_print_past_edge str s :
  80 <= screen_col (scr s) -> 0 <= screen_row (scr s) -> Forall printable str ->
  char_offset s + 2 * Z.of_nat (length str) <= 3842 ->
  exists s', screen_print str s = Ret tt s'
    /\ screen_col (scr s') = screen_col (scr s) + Z.of_nat (length str)
    /\ screen_row (scr s') = screen_row (scr s).
Proof.
  intros Hc Hr Hpr. revert s Hc Hr. induction Hpr as [|c str Hchar _ IH]; intros s Hc Hr Hoff.
  { exists s. split; [done|]. cbn [length]. lia. }
  cbn [length] in *. unfold screen_print. cbn [iterM].
  assert (Hin : in_range s) by (unfold in_range; unfold char_offset in Hoff; lia).
  assert (Hb : exists s1, screen_write c s = Ret tt s1 /\ screen_col (scr s1) = screen_col (scr s) + 1
    /\ screen_row (scr s1) = screen_row (scr s)).
  { eexists. split; [by apply screen_write_char|]. cbn zeta.
    rewrite (proj2 (Z.eqb_neq _ 80)) by lia. unfold cell_row, at_cursor. simpl_state.
    by rewrite (proj2 (Z.ltb_ge _ _)) by lia. }
  destruct Hb as (s1 & Hrun & Hc1 & Hr1). rewrite (bind_ret _ _ _ _ _ Hrun).
  destruct (IH s1) as (s' & ? & ? & ?); [lia|lia| |].
  { unfold char_offset in *. rewrite Hc1, Hr1. lia. }
  exists s'. split; [done|]. lia.
Qed.

(** ** Any text

    What every print does: it returns, touches only the screen's variables,
    memory and the two ports of the cursor. *)

Definition crtc_out (e : event) : Prop :=
  match e with Out8 p _ => p = FB_COMMAND_PORT \/ p = FB_DATA_PORT | _ => False end.

Definition console_step (s s' : kstate) : Prop :=
  same_kernel s s' /\ framebuffer (scr s') = framebuffer (scr s)
  /\ screen_scheme (scr s') = screen_scheme (scr s)
  /\ exists evs, trace s' = evs ++ trace s /\ Forall crtc_out evs.

#[global] Instance console_step_preorder : PreOrder console_step.
Proof.
  split.
  - intros s. repeat split. by exists [].
  - intros s1 s2 s3 (K1 & F1 & C1 & e1 & T1 & O1) (K2 & F2 & C2 & e2 & T2 & O2).
    unfold same_kernel in *. repeat split; try intuition congruence.
    exists (e2 ++ e1). rewrite T2, T1, app_assoc. split; [done|]. by apply Forall_app.
Qed.

Lemma at_cursor_console col row f s : console_step s (at_cursor col row (set_mem f s)).
Proof.
  repeat split. eexists. split; [reflexivity|]. unfold cursor_events.
  repeat (apply Forall_cons; split; [first [by left | by right]|]). done.
Qed.

Lemma at_cursor_move col row s : console_step s (at_cursor col row s).
Proof. rewrite <- (set_mem_id s) at 2. apply at_cursor_console. Qed.

(** A distance from the origin that [n] more characters cannot take out of
    [int]'s range. *)
Definition screen_within (k : Z) (s : kstate) : Prop :=
  Z.abs (screen_row (scr s)) <= k /\ Z.abs (screen_col (scr s)) <= 8 * k.

Lemma screen_write_total c s k :
  screen_within k s -> 80 <= k < 2 ^ 19 ->
  exists s', screen_write c s = Ret tt s' /\ console_step s s' /\ screen_within (k + 1) s'.
Proof.
  intros [Hr Hc] Hk. assert (Hin : in_range s) by (unfold in_range; lia).
  destruct (Z.eq_dec c 10) as [->|]; [|destruct (Z.eq_dec c 13) as [->|];
    [|destruct (Z.eq_dec c 9) as [->|]]].
  - eexists. split; [by apply screen_write_newline|].
    split; [apply at_cursor_move|].
    unfold screen_within; simpl; lia.
  - eexists. split; [by apply screen_write_return|].
    split; [apply at_cursor_move|].
    unfold screen_within; simpl; lia.
  - eexists. split; [by apply screen_write_tab|].
    split; [apply at_cursor_move|].
    pose proof (Z.rem_bound_abs (screen_col (scr s)) 8).
    pose proof (Z.quot_rem' (screen_col (scr s)) 8).
    unfold screen_within; cbn [at_cursor set_trace set_scr scr screen_row screen_col]. lia.
  - destruct (decide (c = 8 /\ 0 < screen_col (scr s))) as [[-> Hpos]|Hn].
    + eexists. split; [by apply screen_write_backspace|]. split; [apply at_cursor_console|].
      unfold screen_within, cell_row; simpl. destruct (3840 <? _); lia.
    + eexists. split; [apply screen_write_other; (done || lia)|].
      split; [apply at_cursor_console|].
      unfold screen_within, cell_row; simpl.
      destruct (_ =? 80), (3840 <? _); lia.
Qed.

Lemma screen_print_total str : forall s k,
  screen_within k s -> 80 <= k -> k + Z.of_nat (length str) < 2 ^ 19 ->
  exists s', screen_print str s = Ret tt s' /\ console_step s s'
    /\ screen_within (k + Z.of_nat (length str)) s'.
Proof.
  induction str as [|c str IH]; intros s k Hw Hk Hlen; cbn [length] in *.
  - exists s. rewrite Z.add_0_r. by split.
  - destruct (screen_write_total c s k) as (s1 & H1 & C1 & W1); [done|lia|].
    destruct (IH s1 (k + 1)) as (s2 & H2 & C2 & W2); [done|lia|lia|].
    exists s2. unfold screen_print in *. cbn [iterM]. rewrite (bind_ret _ _ _ _ _ H1).
    split; [done|]. split; [by etransitivity|]. by rewrite Nat2Z.inj_succ, <- Z.add_1_l, Z.add_assoc.
Qed.

(** Where text without tabs and backspaces leaves the cursor. *)
Fixpoint advance (p : Z) (str : list Z) : Z :=
  match str with
  | [] => p
  | c :: str => advance (if c =? 10 then (p / SCREEN_WIDTH + 1) * SCREEN_WIDTH else p + 1) str
  end.

Definition plain (c : Z) : Prop := c = 10 \/ printable c.

(** Memory is the same outside the text page. *)
Definition same_outside_page (s s' : kstate) : Prop :=
  forall b, b < VIDEO_ADDRESS \/ VIDEO_ADDRESS + 4000 <= b ->
    mem_get (mem s') b = mem_get (mem s) b.

#[global] Instance same_outside_page_preorder : PreOrder same_outside_page.
Proof. split; [by intros s b|]. intros s1 s2 s3 H1 H2 b Hb. by rewrite H2, H1. Qed.

Lemma advance_mono str : forall p, p <= advance p str.
Proof.
  induction str as [|c str IH]; intros p; simpl; [lia|].
  etransitivity; [|apply IH]. destruct (c =? 10); [|lia].
  unfold SCREEN_WIDTH. Z.div_mod_to_equations. lia.
Qed.

Lemma advance_app p s1 s2 : advance p (s1 ++ s2) = advance (advance p s1) s2.
Proof. revert p; induction s1; intros; simpl; auto. Qed.

Lemma advance_printable str : forall p,
  Forall printable str -> advance p str = p + Z.of_nat (length str).
Proof.
  induction str as [|c str IH]; intros p; simpl; [lia|].
  intros [(_ & _ & _ & H10 & _) Hs]%Forall_cons. rewrite IH by done.
  rewrite (proj2 (Z.eqb_neq c 10)) by done. lia.
Qed.

Lemma screen_print_page str : forall p s,
  screen_at p s -> 0 <= p -> advance p str <= 1920 -> Forall plain str ->
  exists s', screen_print str s = Ret tt s' /\ screen_at (advance p str) s'
    /\ same_outside_page s s' /\ console_step s s'.
Proof.
  induction str as [|c str IH]; intros p s Hat Hp Hadv Hpl.
  { by exists s. }
  apply Forall_cons in Hpl as [Hc Hpl]. simpl in Hadv. pose proof (advance_mono str) as Hmono.
  assert (Hstep : exists s1, screen_write c s = Ret tt s1
    /\ screen_at (if c =? 10 then (p / SCREEN_WIDTH + 1) * SCREEN_WIDTH else p + 1) s1
    /\ same_outside_page s s1 /\ console_step s s1).
  { destruct Hc as [->|Hc].
    - change (10 =? 10) with true in *. cbn iota in *.
      specialize (Hmono ((p / SCREEN_WIDTH + 1) * SCREEN_WIDTH)).
      eexists. split; [apply screen_write_newline, (screen_at_in_range p); (done || lia || idtac);
        unfold SCREEN_WIDTH in *; Z.div_mod_to_equations; lia|].
      split; [|split; [done|apply at_cursor_move]].
      destruct Hat as (Hfb & Hr & Hcol). unfold screen_at, SCREEN_WIDTH in *. simpl.
      rewrite Hr. repeat split; [done|Z.div_mod_to_equations; lia..].
    - rewrite (proj2 (Z.eqb_neq c 10)) in * by apply Hc. specialize (Hmono (p + 1)).
      eexists. split; [apply (screen_write_pos p); (done || lia)|].
      split; [by destruct Hat|]. split; [|apply at_cursor_console].
      intros b Hb. simpl. rewrite put_cell_get. split_tests; (done || lia). }
  destruct Hstep as (s1 & Hw & Hat1 & Hm1 & Hc1).
  destruct (IH _ s1 Hat1) as (s' & Hrun & Hat' & Hm' & Hc'); [|done|done|].
  { destruct (c =? 10); [unfold SCREEN_WIDTH; Z.div_mod_to_equations|]; lia. }
  exists s'. unfold screen_print in *. cbn [iterM]. rewrite (bind_ret _ _ _ _ _ Hw).
  split; [done|]. split; [done|]. by split; etransitivity.
Qed.

(** A line that does not reach the right edge stays on the page, wherever it
    starts; on the last row it scrolls, so that the row after it is on the page
    again. *)
Lemma screen_print_row str : forall s,
  framebuffer (scr s) = VIDEO_ADDRESS -> 0 <= screen_row (scr s) <= 24 -> 0 <= screen_col (scr s) ->
  screen_col (scr s) + Z.of_nat (length str) < 80 -> Forall printable str ->
  exists s', screen_print str s = Ret tt s'
    /\ screen_col (scr s') = screen_col (scr s) + Z.of_nat (length str)
    /\ 0 <= screen_row (scr s') <= 24
    /\ (screen_row (scr s) <= 23 -> screen_row (scr s') <= 23)
    /\ (str <> [] -> 2 <= screen_col (scr s) + Z.of_nat (length str) -> screen_row (scr s') <= 23)
    /\ same_outside_page s s' /\ console_step s s'.
Proof.
  induction str as [|c str IH]; intros s Hfb Hr Hc Hlen Hpr; cbn [length] in *.
  { exists s. rewrite Z.add_0_r. split; [done|]. split; [done|]. split; [done|]. by split. }
  apply Forall_cons in Hpr as [Hpc Hpr].
  assert (Hw : screen_write c s = Ret tt (at_cursor (screen_col (scr s) + 1) (cell_row s (char_offset s))
    (set_mem (cell_mem s (char_offset s) c) s))).
  { rewrite screen_write_char; [|done|unfold in_range; lia].
    by rewrite (proj2 (Z.eqb_neq _ 80)) by lia. }
  set (s1 := at_cursor _ _ _) in Hw.
  assert (Hrow : cell_row s (char_offset s) =
    if (screen_row (scr s) =? 24) && (1 <=? screen_col (scr s)) then 23 else screen_row (scr s)).
  { unfold cell_row, char_offset. split_tests; cbn [andb]; lia. }
  destruct (IH s1) as (s' & Hrun & Hcol' & Hr' & Hk' & Hlast & Hm' & Hc').
  - done.
  - unfold s1. simpl. rewrite Hrow. split_tests; cbn [andb]; lia.
  - unfold s1. simpl. lia.
  - unfold s1. simpl. lia.
  - done.
  - exists s'. unfold screen_print in *. cbn [iterM]. rewrite (bind_ret _ _ _ _ _ Hw).
    assert (E1 : screen_col (scr s1) = screen_col (scr s) + 1) by done.
    assert (E2 : screen_row (scr s1) = cell_row s (char_offset s)) by done.
    rewrite E1 in *. rewrite E2, Hrow in *. split; [done|]. split; [lia|]. split; [done|].
    split; [intros; apply Hk'; split_tests; cbn [andb]; lia|]. split.
    + intros _ H2. destruct str as [|c' str]; [|apply Hlast; [done|cbn [length] in *; lia]].
      apply Hk'. cbn [length] in *. split_tests; cbn [andb]; lia.
    + split; [|etransitivity; [apply at_cursor_console|exact Hc']].
      etransitivity; [|exact Hm']. intros b Hb. simpl. apply cell_mem_confined; try done.
      all: unfold char_offset; Z.div_mod_to_equations; lia.
Qed.

(** A whole line, newline included. *)
Lemma screen_print_line str s :
  framebuffer (scr s) = VIDEO_ADDRESS -> 0 <= screen_row (scr s) <= 24 -> 0 <= screen_col (scr s) ->
  2 <= Z.of_nat (length str) -> screen_col (scr s) + Z.of_nat (length str) < 80 -> Forall printable str ->
  exists s', screen_print (str ++ [10]) s = Ret tt s' /\ screen_col (scr s') = 0
    /\ 0 <= screen_row (scr s') <= 24 /\ same_outside_page s s' /\ console_step s s'.
Proof.
  intros Hfb Hr Hc H2 Hlen Hpr.
  destruct (screen_print_row str s Hfb Hr Hc Hlen Hpr) as (s1 & Hrun & Hcol & Hr1 & _ & Hlast & Hm & Hs).
  assert (Hin : in_range s1) by (unfold in_range; lia).
  exists (at_cursor 0 (screen_row (scr s1) + 1) s1). unfold screen_print in *.
  rewrite (iterM_app screen_write str [10] s), (bind_ret _ _ _ _ _ Hrun). cbn [iterM].
  rewrite (bind_ret _ _ _ _ _ (screen_write_newline s1 Hin)). split; [done|]. split; [done|].
  assert (screen_row (scr s1) <= 23) by (apply Hlast; [by destruct str|lia]).
  split; [simpl; lia|]. split; [exact Hm|]. etransitivity; [exact Hs|apply at_cursor_move].
Qed.

(** ** Properties *)

(** The machine as [screen_init] leaves it, for the concrete instances. *)
Definition fresh_screen (col row : Z) : kstate :=
  set_scr (fun _ => Screen 7 VIDEO_ADDRESS col row) (blank_state ∅).

Lemma str_printable l :
  forallb (fun c => (0 <=? c) && (c <? 256) && negb (c =? 8) && negb (c =? 9)
                    && negb (c =? 10) && negb (c =? 13)) l = true -> Forall printable l.
Proof.
  intros H. apply Forall_forall. intros c Hc. rewrite forallb_forall in H.
  specialize (H c (proj1 (list_elem_of_In _ _) Hc)). unfold printable, is_byte.
  repeat (apply andb_true_iff in H as [H ?]).
  repeat match goal with H : negb _ = true |- _ => apply negb_true_iff in H end. bools. lia.
Qed.

(** Printing printable text that fits before position 1921 puts its
    characters, in order and in the current colours, into consecutive cells
    from the cursor, wrapping at column 80; it changes no other memory and no
    other kernel state, and leaves the cursor variables and the hardware
    cursor just after the text. *)
Theorem screen_print_shows_text str p s :
  screen_at p s -> 0 <= p -> p + Z.of_nat (length str) <= 1921 -> Forall printable str ->
  exists s', screen_print str s = Ret tt s'
    /\ screen_at (p + Z.of_nat (length str)) s'
    /\ (forall i c, str !! i = Some c -> cell (mem s') (p + Z.of_nat i) = (c, u8 (screen_scheme (scr s))))
    /\ (forall b, b < VIDEO_ADDRESS + 2 * p \/ VIDEO_ADDRESS + 2 * (p + Z.of_nat (length str)) <= b ->
          mem_get (mem s') b = mem_get (mem s) b)
    /\ screen_scheme (scr s') = screen_scheme (scr s)
    /\ same_kernel s s'
    /\ (str <> [] -> cursor (trace s') = p + Z.of_nat (length str)).
Proof. apply screen_print_pos. Qed.

Lemma screen_print_shows_text_witness :
  exists s', screen_print (str "Utero OS") (fresh_screen 76 3) = Ret tt s'
    /\ screen_at 324 s' /\ cell (mem s') 319 = (114, 7) /\ cursor (trace s') = 324.
Proof.
  destruct (screen_print_shows_text (str "Utero OS") 316 (fresh_screen 76 3))
    as (s' & Hrun & Hat & Hcell & _ & _ & _ & Hcur).
  - repeat split.
  - lia.
  - vm_compute. discriminate.
  - apply str_printable. reflexivity.
  - exists s'. split; [exact Hrun|]. split; [exact Hat|].
    split; [exact (Hcell 3%nat 114 eq_refl)|]. apply Hcur. discriminate.
Defined.

(** On the last row, past its first column, a printable character scrolls
    the text area; rows 0 to 22 move up, but row 23 keeps its text, and row 24,
    with the characters just written to it, is blanked: the line being written
    disappears, and the cursor stays in its column on row 23, over the old
    text. *)
Theorem screen_scroll_loses_line c s :
  screen_ok s -> screen_row (scr s) = SCREEN_HEIGHT -> 1 <= screen_col (scr s) < 79 -> printable c ->
  exists s', screen_write c s = Ret tt s'
    /\ screen_row (scr s') = 23 /\ screen_col (scr s') = screen_col (scr s) + 1
    /\ (forall x, 0 <= x < 80 -> cell (mem s') (24 * 80 + x) = (0, 0))
    /\ (forall x, 0 <= x < 80 -> cell (mem s') (23 * 80 + x) = cell (mem s) (23 * 80 + x))
    /\ (forall b, VIDEO_ADDRESS <= b < VIDEO_ADDRESS + 23 * 160 ->
          mem_get (mem s') b = u8 (mem_get (mem s) (b + 160))).
Proof.
  intros Hok Hrow Hcol Hc. pose proof (screen_ok_in_range s Hok) as Hin.
  destruct Hok as (Hfb & _ & _). eexists. split; [by apply screen_write_char|].
  cbn zeta. rewrite (proj2 (Z.eqb_neq _ 80)) by lia. unfold cell_mem, cell_row, at_cursor.
  assert (Hoff : char_offset s = 3840 + 2 * screen_col (scr s))
    by (unfold char_offset; rewrite Hrow; unfold SCREEN_HEIGHT; lia).
  rewrite Hoff, (proj2 (Z.ltb_lt 3840 _)) by lia. simpl_state. rewrite Hrow, Hfb.
  split; [done|]. split; [done|]. unfold cell.
  split; [|split]; intros x Hx; rewrite ?scroll_get, ?put_cell_get.
  - split_tests; simpl; (done || lia).
  - f_equal; split_tests; simpl; (done || lia).
  - split_tests; simpl; (done || lia).
Qed.

(** Whatever byte is written, the write returns and the hardware cursor
    then stands at the cell of the cursor variables, [80 * row + column]
    modulo [2^16]. *)
Theorem screen_write_moves_cursor c s :
  is_byte c -> in_range s ->
  exists s', screen_write c s = Ret tt s'
    /\ cursor (trace s') = u16 (80 * screen_row (scr s') + screen_col (scr s')).
Proof.
  intros Hb Hin.
  assert (H : exists col row f, screen_write c s = Ret tt (at_cursor col row (set_mem f s))).
  { destruct (Z.eq_dec c 10) as [->|]; [|destruct (Z.eq_dec c 13) as [->|];
      [|destruct (Z.eq_dec c 9) as [->|]]].
    - exists 0, (screen_row (scr s) + 1), (fun m => m). rewrite set_mem_id. by apply screen_write_newline.
    - exists 0, (screen_row (scr s)), (fun m => m). rewrite set_mem_id. by apply screen_write_return.
    - eexists _, _, (fun m => m). rewrite set_mem_id. by apply screen_write_tab.
    - destruct (Z.eq_dec c 8) as [->|]; [destruct (Z.ltb_spec 0 (screen_col (scr s)))|].
      + do 3 eexists. by apply screen_write_backspace.
      + do 3 eexists. apply screen_write_other; (done || lia).
      + do 3 eexists. by apply screen_write_char. }
  destruct H as (col & row & f & Hrun). eexists. split; [exact Hrun|].
  unfold at_cursor. simpl_state. apply cursor_cursor_events.
Qed.

(** After a tab in columns 72 to 79 the column is 80, the test
    [screen_col == SCREEN_WIDTH] no longer meets it, and the text that follows
    is never wrapped: the column grows by one per character and the row stays. *)
Theorem screen_tab_stops_wrapping str s :
  72 <= screen_col (scr s) < 80 -> 0 <= screen_row (scr s) -> Forall printable str ->
  80 * screen_row (scr s) + 80 + Z.of_nat (length str) <= 1921 ->
  exists s', screen_print (9 :: str) s = Ret tt s'
    /\ screen_col (scr s') = 80 + Z.of_nat (length str)
    /\ screen_row (scr s') = screen_row (scr s).
Proof.
  intros Hcol Hrow Hpr Hlen. unfold screen_print. cbn [iterM].
  assert (Hin : in_range s) by (unfold in_range; lia).
  rewrite (bind_ret _ _ _ _ _ (screen_write_tab s Hin)).
  assert (Hc : screen_col (scr s) + 8 - Z.rem (screen_col (scr s)) 8 = 80).
  { rewrite Z.rem_mod_nonneg by lia. Z.div_mod_to_equations. lia. }
  rewrite Hc. set (s1 := at_cursor 80 (screen_row (scr s)) s).
  destruct (screen_print_past_edge str s1) as (s' & Hrun & Hc' & Hr'); unfold s1, at_cursor in *;
    unfold char_offset; simpl_state; try (done || lia).
  exists s'. done.
Qed.

(** A newline on the last row leaves the cursor below the display, and the next
    character is stored past the 4000 bytes of the page before the text scrolls. *)
Theorem screen_newline_leaves_page c s :
  framebuffer (scr s) = VIDEO_ADDRESS -> screen_row (scr s) = 24 -> 0 <= screen_col (scr s) < 80 -> printable c ->
  exists s', screen_print [10; c] s = Ret tt s' /\ mem_get (mem s') (VIDEO_ADDRESS + 4000) = u8 c.
Proof.
  intros Hfb Hrow Hcol Hc. unfold screen_print. cbn [iterM].
  rewrite (bind_ret _ _ _ _ _ (screen_write_newline s ltac:(unfold in_range; lia))).
  set (s1 := at_cursor _ _ _).
  assert (E1 : screen_row (scr s1) = screen_row (scr s) + 1 /\ screen_col (scr s1) = 0) by done.
  assert (Ho : char_offset s1 = 4000) by (unfold char_offset; lia).
  assert (Hin : in_range s1) by (unfold in_range; lia).
  rewrite (bind_ret _ _ _ _ _ (screen_write_char c s1 Hc Hin)), Ho. eexists. split; [reflexivity|].
  change (mem_get (cell_mem s1 4000 c (mem s)) (VIDEO_ADDRESS + 4000) = u8 c).
  unfold cell_mem. change (framebuffer (scr s1)) with (framebuffer (scr s)). rewrite Hfb. change (3840 <? 4000) with true. cbv iota.
  rewrite scroll_get, !put_cell_get. split_tests; cbn [andb]; (done || lia).
Qed.

(** [screen_clear] writes a blank in the current colours to each of the
    1920 cells of the first 24 rows and changes nothing else. *)
Theorem screen_clear_blanks s :
  framebuffer (scr s) = VIDEO_ADDRESS -> in_range s ->
  exists m', screen_clear s = Ret tt (set_mem (fun _ => m') s)
    /\ (forall p, 0 <= p < 1920 -> cell m' p = (32, u8 (screen_scheme (scr s))))
    /\ (forall b, b < VIDEO_ADDRESS \/ VIDEO_ADDRESS + 3840 <= b ->
          mem_get m' b = mem_get (mem s) b).
Proof.
  intros Hfb Hin. exists (blank_rows (screen_scheme (scr s)) (mem s)).
  split; [by apply screen_clear_run|]. split.
  - intros p Hp. unfold cell. rewrite !blank_rows_get. cbn zeta.
    f_equal; split_tests; cbn [andb]; try done; Z.div_mod_to_equations; lia.
  - intros b Hb. rewrite blank_rows_get. cbn zeta. split_tests; simpl; (done || lia).
Qed.

(** C37: with the cursor in rows 0 to 24 and columns 0 to 79 of the display
    ([screen_ok]), writing any byte, control characters and scrolling included,
    changes memory only inside the 4000-byte text page and leaves the rest of the
    kernel's state alone.  The byte may move the cursor off the display, a
    newline to row 25 and a tab to column 80, where the next byte is no longer
    confined ([screen_newline_leaves_page]). *)
Theorem screen_write_confined c s :
  is_byte c -> screen_ok s ->
  exists s', screen_write c s = Ret tt s'
    /\ (forall b, b < VIDEO_ADDRESS \/ VIDEO_ADDRESS + 4000 <= b ->
          mem_get (mem s') b = mem_get (mem s) b)
    /\ same_kernel s s'.
Proof.
  intros Hb Hok. pose proof (screen_ok_in_range s Hok) as Hin.
  assert (Hoff : 0 <= char_offset s < 4000 /\ char_offset s `mod` 2 = 0
    /\ (0 < screen_col (scr s) -> 0 <= char_offset s - 2 < 4000 /\ (char_offset s - 2) `mod` 2 = 0)).
  { unfold char_offset. unfold screen_ok, SCREEN_WIDTH, SCREEN_HEIGHT in Hok.
    Z.div_mod_to_equations. lia. }
  destruct Hoff as (Ho & He & Hback). destruct Hok as (Hfb & Hc & Hr).
  destruct (Z.eq_dec c 10) as [->|]; [|destruct (Z.eq_dec c 13) as [->|];
    [|destruct (Z.eq_dec c 9) as [->|]]].
  - eexists. split; [by apply screen_write_newline|]. by repeat split.
  - eexists. split; [by apply screen_write_return|]. by repeat split.
  - eexists. split; [by apply screen_write_tab|]. by repeat split.
  - destruct (decide (c = 8 /\ 0 < screen_col (scr s))) as [[-> Hpos]|Hn].
    + eexists. split; [by apply screen_write_backspace|]. destruct (Hback Hpos).
      split; [intros; by apply cell_mem_confined|by repeat split].
    + eexists. split; [apply screen_write_other; (done || lia)|].
      split; [intros; by apply cell_mem_confined|by repeat split].
Qed.

Lemma screen_write_confined_witness :
  exists s', screen_write 65 (fresh_screen 5 24) = Ret tt s'
    /\ (forall b, b < VIDEO_ADDRESS \/ VIDEO_ADDRESS + 4000 <= b ->
          mem_get (mem s') b = mem_get ∅ b)
    /\ same_kernel (fresh_screen 5 24) s'.
Proof.
  apply (screen_write_confined 65 (fresh_screen 5 24)); [unfold is_byte; lia|].
  unfold screen_ok, SCREEN_WIDTH, SCREEN_HEIGHT; simpl; lia.
Defined.
