(* ===== verification/Terminal.v ===== *)
(** * The screen as a terminal

    An abstract terminal: the cells of the display as a list, a cursor, and what
    each character does to them.  [screen_print] of Screen.v, with its frame
    buffer in memory, its copies of rows and its cursor ports, refines it. *)

From stdpp Require Import base numbers list gmap strings.
From S2P Require Import Prelude Machine Libk Screen.

(** ** The terminal *)

(** 25 rows of 80 cells, each a character and its attribute; the cursor; the
    attribute of new text. *)
Record terminal := Terminal {
  t_cells : list (Z * Z);
  t_row : Z;
  t_col : Z;
  t_attr : Z
}.

(** Row [i] of the display, and rows [i] to [j]. *)
Definition rows (i j : Z) (cells : list (Z * Z)) : list (Z * Z) :=
  take (Z.to_nat (80 * (j - i))) (drop (Z.to_nat (80 * i)) cells).

(** The text moves up a row, but the next to last row keeps a copy and the last
    one is blanked. *)
Definition scrolled (cells : list (Z * Z)) : list (Z * Z) :=
  rows 1 24 cells ++ rows 23 24 cells ++ replicate (Z.to_nat 80) (0, 0).

(** A character put at a position.  Past the first cell of the last row the
    display scrolls, the cell included, and the cursor with it; past the display
    nothing is seen of it. *)
Definition put (c pos : Z) (t : terminal) : terminal :=
  let cells := <[Z.to_nat pos := (u8 c, t_attr t)]> (t_cells t) in
  if 1920 <? pos then Terminal (scrolled cells) (t_row t - 1) (t_col t) (t_attr t)
  else Terminal cells (t_row t) (t_col t) (t_attr t).

Definition move (row col : Z) (t : terminal) : terminal := Terminal (t_cells t) row col (t_attr t).

Definition position (t : terminal) : Z := 80 * t_row t + t_col t.

(** What a character does: newline, return, backspace, any other but the tab. *)
Definition type_char (t : terminal) (c : Z) : terminal :=
  if c =? 10 then move (t_row t + 1) 0 t
  else if c =? 13 then move (t_row t) 0 t
  else if (c =? 8) && (0 <? t_col t) then
    let t := put 0 (position t - 1) t in move (t_row t) (t_col t - 1) t
  else
    let t := put c (position t) t in
    if t_col t + 1 =? 80 then move (t_row t + 1) 0 t else move (t_row t) (t_col t + 1) t.

Definition type_text (t : terminal) (text : list Z) : terminal := foldl type_char t text.

(** ** What the frame buffer shows *)

Definition shown (m : gmap Z Z) (k : nat) : Z * Z :=
  (u8 (mem_get m (VIDEO_ADDRESS + 2 * Z.of_nat k)), u8 (mem_get m (VIDEO_ADDRESS + 2 * Z.of_nat k + 1))).

Definition display (m : gmap Z Z) : list (Z * Z) := shown m <$> seq 0 (Z.to_nat 2000).

Definition terminal_of (s : kstate) : terminal :=
  Terminal (display (mem s)) (screen_row (scr s)) (screen_col (scr s)) (u8 (screen_scheme (scr s))).

(** ** Lemmas: the display after a store and after scrolling *)

Lemma display_lookup m k : (k < Z.to_nat 2000)%nat -> display m !! k = Some (shown m k).
Proof.
  intros Hk. unfold display. rewrite list_lookup_fmap, lookup_seq_lt by done. reflexivity.
Qed.

Lemma length_display m : length (display m) = Z.to_nat 2000.
Proof. unfold display. by rewrite length_fmap, length_seq. Qed.

(** Two lists of 2000 cells that agree on each. *)
Lemma cells_eq (l : list (Z * Z)) m :
  length l = Z.to_nat 2000 -> (forall k, (k < Z.to_nat 2000)%nat -> l !! k = Some (shown m k)) -> display m = l.
Proof.
  intros Hl Hk. apply list_eq. intros k. destruct (decide (k < Z.to_nat 2000)%nat) as [H|H].
  - by rewrite display_lookup, Hk.
  - rewrite !lookup_ge_None_2; [done|lia|rewrite length_display; lia].
Qed.

Lemma u8_u8 z : u8 (u8 z) = u8 z.
Proof. apply u8_small, u8_range. Qed.

Lemma display_put m pos c attr :
  0 <= pos -> display (put_cell VIDEO_ADDRESS (2 * pos) c attr m)
    = <[Z.to_nat pos := (u8 c, u8 attr)]> (display m).
Proof.
  intros Hp. apply cells_eq; [by rewrite length_insert, length_display|]. intros k Hk.
  unfold shown. rewrite !put_cell_get. destruct (decide (k = Z.to_nat pos)) as [->|Hne].
  - rewrite list_lookup_insert_eq by (by rewrite length_display). split_tests; try lia. by rewrite !u8_u8.
  - rewrite list_lookup_insert_ne, display_lookup by done. unfold shown. split_tests; try lia; done.
Qed.

Lemma rows_lookup m i j k :
  0 <= i -> j <= 25 -> (k < Z.to_nat (80 * (j - i)))%nat ->
  rows i j (display m) !! k = Some (shown m (Z.to_nat (80 * i) + k)).
Proof.
  intros Hi Hj Hk. unfold rows. rewrite lookup_take_lt by done. rewrite lookup_drop. apply display_lookup. lia.
Qed.

Lemma length_rows m i j : 0 <= i <= j -> j <= 25 -> length (rows i j (display m)) = Z.to_nat (80 * (j - i)).
Proof. intros Hi Hj. unfold rows. rewrite length_take, length_drop, length_display. lia. Qed.

Lemma display_scroll m : display (scroll m) = scrolled (display m).
Proof.
  unfold scrolled. apply cells_eq.
  { rewrite !length_app, !length_rows, length_replicate by lia. lia. }
  intros k Hk. pose proof (length_rows m 1 24 ltac:(lia) ltac:(lia)) as L1.
  pose proof (length_rows m 23 24 ltac:(lia) ltac:(lia)) as L2.
  assert (Hcell : shown (scroll m) k = if decide (k < Z.to_nat 1840)%nat then shown m (80 + k)
                                      else if decide (k < Z.to_nat 1920)%nat then shown m k else (0, 0)).
  { unfold shown. rewrite !scroll_get.
    destruct (decide _); [|destruct (decide _)]; split_tests; cbn [andb]; try lia; rewrite ?u8_u8; f_equal; f_equal; f_equal; lia. }
  rewrite Hcell. destruct (decide (k < Z.to_nat 1840)%nat).
  - rewrite lookup_app_l by lia. rewrite rows_lookup by lia. do 2 f_equal.
  - rewrite lookup_app_r by lia. rewrite L1. destruct (decide (k < Z.to_nat 1920)%nat).
    + rewrite lookup_app_l by lia. rewrite rows_lookup by lia. do 2 f_equal. lia.
    + rewrite lookup_app_r by lia. rewrite lookup_replicate. split; [done|lia].
Qed.

(** ** Lemmas: one character *)

Lemma terminal_at_cursor col row s : terminal_of (at_cursor col row s) = move row col (terminal_of s).
Proof. reflexivity. Qed.

(** A cell stored through the frame buffer. *)
Lemma terminal_put s c pos :
  framebuffer (scr s) = VIDEO_ADDRESS -> 0 <= pos ->
  put c pos (terminal_of s)
    = Terminal (display (cell_mem s (2 * pos) c (mem s))) (cell_row s (2 * pos)) (screen_col (scr s))
        (u8 (screen_scheme (scr s))).
Proof.
  intros Hfb Hp. unfold put, terminal_of, cell_mem, cell_row. cbn [t_cells t_row t_col t_attr]. rewrite Hfb.
  rewrite <- display_put by done.
  replace (3840 <? 2 * pos) with (1920 <? pos) by (split_tests; lia).
  destruct (1920 <? pos); [by rewrite display_scroll|done].
Qed.

(** The cursor where text without tabs leaves it. *)
Definition on_lines (k : Z) (s : kstate) : Prop :=
  framebuffer (scr s) = VIDEO_ADDRESS /\ 0 <= screen_row (scr s) <= k /\ 0 <= screen_col (scr s) < 80.

Lemma screen_write_types c s k :
  on_lines k s -> k < 2 ^ 20 -> c <> 9 ->
  exists col row f, screen_write c s = Ret tt (at_cursor col row (set_mem f s))
    /\ 0 <= row <= k + 1 /\ 0 <= col < 80
    /\ type_char (terminal_of s) c = Terminal (display (f (mem s))) row col (u8 (screen_scheme (scr s))).
Proof.
  intros (Hfb & Hr & Hc) Hk H9. assert (Hin : in_range s) by (unfold in_range; lia).
  pose proof (fun b pos => terminal_put s b pos Hfb) as Hput.
  set (row := screen_row (scr s)) in *. set (col := screen_col (scr s)) in *.
  assert (Hrow : forall pos, 0 <= pos < 80 * row + 80 -> 0 <= cell_row s (2 * pos) <= row).
  { intros pos Hp. unfold cell_row. fold row. split_tests; lia. }
  assert (Hpos : char_offset s = 2 * (80 * row + col)) by reflexivity.
  unfold type_char, position. change (t_row (terminal_of s)) with row. change (t_col (terminal_of s)) with col.
  destruct (Z.eqb_spec c 10) as [->|H10]; [|destruct (Z.eqb_spec c 13) as [->|H13]].
  - exists 0, (row + 1), (fun m => m). rewrite (set_mem_id s). split; [by apply screen_write_newline|]. split; [lia|done].
  - exists 0, row, (fun m => m). rewrite (set_mem_id s). split; [by apply screen_write_return|]. split; [lia|done].
  - destruct ((c =? 8) && (0 <? col)) eqn:E8.
    + bools. subst c. exists (col - 1), (cell_row s (2 * (80 * row + col - 1))), (cell_mem s (2 * (80 * row + col - 1)) 0).
      rewrite Hput by lia. replace (2 * (80 * row + col - 1)) with (char_offset s - 2) by lia.
      split; [by apply screen_write_backspace|]. specialize (Hrow (80 * row + col - 1)).
      replace (2 * (80 * row + col - 1)) with (char_offset s - 2) in Hrow by lia. split; [lia|]. split; [lia|done].
    + assert (H8 : c <> 8 \/ col <= 0) by (apply andb_false_iff in E8 as [E8|E8]; bools; auto).
      pose proof (screen_write_other c s H9 H10 H13 H8 Hin) as Hw. cbv zeta in Hw. fold row col in Hw.
      rewrite Hput by lia. rewrite Hpos in Hw. specialize (Hrow (80 * row + col) ltac:(lia)). eexists _, _, _.
      split; [exact Hw|]. cbn [t_col t_row]. fold row col. destruct (Z.eqb_spec (col + 1) 80); split; try lia; split; (done || lia).
Qed.

Lemma screen_print_types text : forall s k,
  on_lines k s -> k + Z.of_nat (length text) < 2 ^ 20 -> 9 ∉ text ->
  exists s', screen_print text s = Ret tt s' /\ on_lines (k + Z.of_nat (length text)) s'
    /\ terminal_of s' = type_text (terminal_of s) text /\ console_step s s'
    /\ (text <> [] -> cursor (trace s') = u16 (position (terminal_of s'))).
Proof.
  unfold screen_print. induction text as [|c text IH]; intros s k Hs Hk H9; cbn [length iterM] in *.
  { exists s. by rewrite Z.add_0_r. }
  apply not_elem_of_cons in H9 as [Hc9 H9].
  destruct (screen_write_types c s k Hs ltac:(lia) ltac:(done)) as (col & row & f & Hw & Hr & Hc & Ht).
  set (s1 := at_cursor col row (set_mem f s)) in *.
  destruct (IH s1 (k + 1)) as (s' & Hrun & Hs' & Ht' & Hk' & Hcur).
  - split; [apply Hs|]. by split.
  - lia.
  - done.
  - exists s'. rewrite (bind_ret _ _ _ _ _ Hw). split; [done|]. split; [by replace (k + _) with (k + 1 + Z.of_nat (length text)) by lia|].
    split; [rewrite Ht'; cbn [type_text foldl]; rewrite Ht; reflexivity|].
    split; [etransitivity; [apply at_cursor_console|exact Hk']|]. intros _.
    destruct text as [|c' text]; [|by apply Hcur]. cbn [iterM] in Hrun. injection Hrun as <-.
    apply cursor_cursor_events.
Qed.

(** ** Properties *)

(** C26: the screen driver implements the terminal.  Printing any characters but
    tabs, newlines, returns, backspaces and scrolling included, from a cursor on any
    row and a column of the display, returns; afterwards the frame buffer shows
    and the cursor's variables say what the terminal comes to, the hardware
    cursor is where they say, and no other variable of the kernel has changed. *)
Theorem screen_print_refines text s :
  framebuffer (scr s) = VIDEO_ADDRESS -> 0 <= screen_row (scr s) -> 0 <= screen_col (scr s) < 80 ->
  screen_row (scr s) + Z.of_nat (length text) < 2 ^ 20 -> 9 ∉ text ->
  exists s', screen_print text s = Ret tt s'
    /\ terminal_of s' = type_text (terminal_of s) text
    /\ (text <> [] -> cursor (trace s') = u16 (position (terminal_of s')))
    /\ same_kernel s s'.
Proof.
  intros Hfb Hr Hc Hl H9.
  destruct (screen_print_types text s (screen_row (scr s))) as (s' & Hrun & _ & Ht & Hk & Hcur); [by split|done|done|].
  exists s'. split; [exact Hrun|]. split; [exact Ht|]. split; [exact Hcur|apply Hk].
Qed.

(** A prompt typed over, on the last row but one. *)
Lemma screen_print_refines_witness :
  exists s', screen_print [36; 32; 8; 8; 62; 10; 36] (fresh_screen 0 23) = Ret tt s'
    /\ t_row (terminal_of s') = 24 /\ t_col (terminal_of s') = 1
    /\ t_cells (terminal_of s') !! Z.to_nat 1840 = Some (62, 7).
Proof.
  destruct (screen_print_refines [36; 32; 8; 8; 62; 10; 36] (fresh_screen 0 23)) as (s' & Hrun & Ht & _).
  - reflexivity.
  - cbn. lia.
  - cbn. lia.
  - cbn. lia.
  - set_solver by lia.
  - exists s'. split; [exact Hrun|]. rewrite Ht. split; [vm_compute; reflexivity|]. split; vm_compute; reflexivity.
Defined.
