(* ===== verification/Serial.v ===== *)
(** * The serial port: src/drivers/serial.c

    All ports are relative to the data port [com].  [uart] is the device, a
    16550: while the divisor latch bit of the line control register is set, the
    data port and the port after it are the low and the high byte of the speed
    divisor; otherwise bytes sent to the data port are transmitted.  The comment
    in include/drivers/serial.h describes another protocol, both bytes through
    the data port, highest first, and [serial_init] follows the comment. *)

From stdpp Require Import base numbers list gmap strings.
From S2P Require Import Prelude Machine.

Definition SERIAL_COM1 : Z := 0x3F8.
Definition SERIAL_DATA_PORT (base : Z) : Z := base.
Definition SERIAL_FIFO_COMMAND_PORT (base : Z) : Z := base + 2.
Definition SERIAL_LINE_COMMAND_PORT (base : Z) : Z := base + 3.
Definition SERIAL_MODEM_COMMAND_PORT (base : Z) : Z := base + 4.
Definition SERIAL_LINE_STATUS_PORT (base : Z) : Z := base + 5.
Definition SERIAL_LINE_ENABLE_DLAB : Z := 0x80.
Definition SERIAL_SPEED_115200 : Z := 1.

Definition serial_init (com divisor : Z) : M unit :=
  port_byte_out (SERIAL_LINE_COMMAND_PORT com) SERIAL_LINE_ENABLE_DLAB ;;
  port_byte_out (SERIAL_DATA_PORT com) (Z.land (Z.shiftr divisor 8) 0x00FF) ;;
  port_byte_out (SERIAL_DATA_PORT com) (Z.land divisor 0x00FF) ;;
  port_byte_out (SERIAL_LINE_COMMAND_PORT com) 0x03 ;;
  port_byte_out (SERIAL_FIFO_COMMAND_PORT com) 0xC7 ;;
  port_byte_out (SERIAL_MODEM_COMMAND_PORT com) 0x0B.

Section Serial.
Context {E : Env}.

(** A C [bool] from an integer: whether it is not zero. *)
Definition serial_is_transmit_fifo_empty (com : Z) : M bool :=
  b ← port_byte_in (SERIAL_LINE_STATUS_PORT com);
  mret (negb (Z.land b 0x20 =? 0)).

Definition serial_received (com : Z) : M bool :=
  b ← port_byte_in (SERIAL_LINE_STATUS_PORT com);
  mret (negb (Z.land b 1 =? 0)).

Definition serial_read (com : Z) : M Z :=
  spin_while patience (r ← serial_received com; mret (negb r)) ;;
  port_byte_in com.

Definition serial_write (com c : Z) : M unit :=
  spin_while patience (r ← serial_is_transmit_fifo_empty com; mret (negb r)) ;;
  port_byte_out com c.

Definition serial_print (com : Z) (str : list Z) : M unit := iterM (serial_write com) str.

(** ** Polling *)

(** The trace after [n] reads of [port]. *)
Fixpoint polls (n : nat) (port : Z) (tr : list event) : list event :=
  match n with
  | O => tr
  | S n => polls n port (In8 port (u8 (dev_in tr port)) :: tr)
  end.

(** Bit [mask] of [port] is clear for [n] reads and set at the next one. *)
Fixpoint ready_after (n : nat) (mask port : Z) (tr : list event) : Prop :=
  match n with
  | O => Z.land (u8 (dev_in tr port)) mask <> 0
  | S n => Z.land (u8 (dev_in tr port)) mask = 0
           /\ ready_after n mask port (In8 port (u8 (dev_in tr port)) :: tr)
  end.

End Serial.

(** ** The device

    A 16550: with DLAB set, the data port is the low divisor latch and the port
    after it the high one. *)

Record uart_t := Uart {
  uart_lcr : Z;            (* line control register; bit 7 is DLAB *)
  uart_dlm : Z;            (* high byte of the speed divisor *)
  uart_dll : Z;            (* low byte *)
  uart_tx : list Z         (* bytes transmitted, newest first *)
}.

Definition uart_dlab (u : uart_t) : bool := Z.testbit (uart_lcr u) 7.
Definition uart_div (u : uart_t) : Z := 256 * uart_dlm u + uart_dll u.

Definition uart_step (com : Z) (e : event) (u : uart_t) : uart_t :=
  match e with
  | Out8 p d =>
      if p =? com + 3 then Uart d (uart_dlm u) (uart_dll u) (uart_tx u)
      else if p =? com then
        if uart_dlab u then Uart (uart_lcr u) (uart_dlm u) d (uart_tx u)
        else Uart (uart_lcr u) (uart_dlm u) (uart_dll u) (d :: uart_tx u)
      else if (p =? com + 1) && uart_dlab u then Uart (uart_lcr u) d (uart_dll u) (uart_tx u)
      else u
  | _ => u
  end.

Definition uart (com : Z) (tr : list event) : uart_t :=
  foldr (uart_step com) (Uart 0 0 0 []) tr.

(** What writing characters leaves in the trace: reads of the line status, and
    the bytes. *)
Definition serial_event (com : Z) (e : event) : bool :=
  match e with In8 p _ => p =? com + 5 | Out8 p _ => p =? com | _ => false end.
Definition written (com : Z) (evs : list event) : list Z :=
  omap (fun e => match e with Out8 p d => if p =? com then Some d else None | _ => None end) evs.

(** The port after [bytes], newest first, too. *)
Definition sent (bytes : list Z) (u : uart_t) : uart_t :=
  Uart (uart_lcr u) (uart_dlm u) (uart_dll u) (bytes ++ uart_tx u).

(** A base whose six ports do not wrap. *)
Definition com_ok (com : Z) : Prop := 0 <= com < 2 ^ 16 - 8.

(** What a transmitter promises: at any time its FIFO is empty again after
    fewer than [patience] polls. *)
Class TxReady (E : Env) := {
  tx_ready : forall tr port, exists n, (n < patience)%nat /\ ready_after n 0x20 port tr
}.

(** ** Lemmas *)

Lemma uart_line com d tr :
  uart com (Out8 (com + 3) d :: tr) = Uart d (uart_dlm (uart com tr)) (uart_dll (uart com tr)) (uart_tx (uart com tr)).
Proof. unfold uart. cbn [foldr uart_step]. by rewrite Z.eqb_refl. Qed.

Lemma uart_data com d tr :
  uart com (Out8 com d :: tr) =
    let u := uart com tr in
    if uart_dlab u then Uart (uart_lcr u) (uart_dlm u) d (uart_tx u)
    else Uart (uart_lcr u) (uart_dlm u) (uart_dll u) (d :: uart_tx u).
Proof.
  unfold uart. cbn [foldr uart_step]. rewrite Z.eqb_refl. by rewrite (proj2 (Z.eqb_neq com _)) by lia.
Qed.

Lemma uart_skip com p d tr :
  p <> com -> p <> com + 1 -> p <> com + 3 -> uart com (Out8 p d :: tr) = uart com tr.
Proof. intros. unfold uart. cbn [foldr uart_step]. by rewrite !(proj2 (Z.eqb_neq p _)) by done. Qed.

(** Such events on a port whose latch is closed. *)
Lemma uart_sends com u evs tr :
  Forall (fun e => serial_event com e = true) evs -> uart_dlab (foldr (uart_step com) u tr) = false ->
  foldr (uart_step com) u (evs ++ tr) = sent (written com evs) (foldr (uart_step com) u tr).
Proof.
  rewrite foldr_app. generalize (foldr (uart_step com) u tr). intros u0 He Hd.
  induction He as [|e evs He _ IH]; cbn [foldr]; [by destruct u0|]. rewrite IH.
  destruct e as [p d|p d| | | | | | ]; try done. cbn in He. apply Z.eqb_eq in He as ->.
  unfold uart_step at 1, written. rewrite (proj2 (Z.eqb_neq com _)), Z.eqb_refl by lia.
  cbn [omap list_omap]. rewrite Z.eqb_refl. unfold sent, uart_dlab in *. cbn [uart_lcr] in *. by rewrite Hd.
Qed.

Section Lemmas.
Context {E : Env}.

Lemma polls_events com n : forall tr,
  exists evs, polls n (com + 5) tr = evs ++ tr
    /\ Forall (fun e => serial_event com e = true) evs /\ written com evs = [].
Proof.
  induction n as [|n IH]; intros tr; [by exists []|]. cbn [polls].
  destruct (IH (In8 (com + 5) (u8 (dev_in tr (com + 5))) :: tr)) as (evs & Hp & He & Hn).
  exists (evs ++ [In8 (com + 5) (u8 (dev_in tr (com + 5)))]). rewrite Hp, <- app_assoc. split; [done|]. split.
  - apply Forall_app. split; [done|]. apply Forall_singleton. apply Z.eqb_refl.
  - unfold written in *. by rewrite omap_app, Hn.
Qed.

Lemma set_trace_const f s : set_trace f s = set_trace (fun _ => f (trace s)) s.
Proof. done. Qed.

Lemma spin_ready n mask com s fuel (bit : Z -> bool) :
  (forall b, bit b = negb (Z.land b mask =? 0)) ->
  com_ok com -> (n < fuel)%nat -> ready_after n mask (com + 5) (trace s) ->
  spin_while fuel
    (r ← (b ← port_byte_in (SERIAL_LINE_STATUS_PORT com); mret (bit b)); mret (negb r)) s =
  Ret tt (set_trace (polls (S n) (com + 5)) s).
Proof.
  intros Hbit Hcom Hf. unfold com_ok in Hcom.
  assert (Hport : u16 (SERIAL_LINE_STATUS_PORT com) = com + 5)
    by (apply u16_small; unfold SERIAL_LINE_STATUS_PORT; lia).
  revert fuel s Hf; induction n as [|n IH]; intros [|fuel] s Hf Hr; try lia; cbn [ready_after] in Hr.
  - erewrite spin_while_done; [reflexivity|].
    unfold port_byte_in. rewrite Hport. steps. rewrite Hbit. unfold mret, M_ret.
    by rewrite (proj2 (Z.eqb_neq _ 0)).
  - destruct Hr as [Hz Hr].
    rewrite (spin_while_again _ _ _
      (set_trace (cons (In8 (com + 5) (u8 (dev_in (trace s) (com + 5))))) s));
      [rewrite IH; [done|lia|done]|].
    unfold port_byte_in. rewrite Hport. steps. rewrite Hbit. unfold mret, M_ret. by rewrite Hz.
Qed.

Context {T : TxReady E}.

(** One character: some polls of the line status, then the byte on the data
    port. *)
Lemma serial_write_run com c s :
  com_ok com ->
  exists n, serial_write com c s =
    Ret tt (set_trace (fun tr => Out8 com (u8 c) :: polls (S n) (com + 5) tr) s).
Proof.
  intros Hcom. destruct (tx_ready (trace s) (com + 5)) as (n & Hn & Hr). exists n.
  unfold serial_write, serial_is_transmit_fifo_empty.
  erewrite bind_ret; [|by apply (spin_ready n 0x20)].
  unfold port_byte_out. rewrite (u16_small com) by (unfold com_ok in Hcom; lia). done.
Qed.

Lemma serial_write_sends com c s :
  com_ok com ->
  exists evs, serial_write com c s = Ret tt (set_trace (app evs) s)
    /\ Forall (fun e => serial_event com e = true) evs /\ written com evs = [u8 c].
Proof.
  intros Hcom. destruct (serial_write_run com c s Hcom) as (n & Hw).
  destruct (polls_events com (S n) (trace s)) as (evs & Hp & He & Hn).
  exists (Out8 com (u8 c) :: evs). split; [|split].
  - rewrite Hw, set_trace_const. by rewrite Hp.
  - apply Forall_cons. split; [apply Z.eqb_refl|done].
  - unfold written in *. cbn [omap list_omap]. by rewrite Z.eqb_refl, Hn.
Qed.

Lemma serial_print_sends com str : forall s,
  com_ok com ->
  exists evs, serial_print com str s = Ret tt (set_trace (app evs) s)
    /\ Forall (fun e => serial_event com e = true) evs /\ written com evs = reverse (u8 <$> str).
Proof.
  induction str as [|c str IH]; intros s Hcom.
  { exists []. split; [by destruct s|]. by split. }
  destruct (serial_write_sends com c s Hcom) as (evs & Hw & He & Hn).
  destruct (IH (set_trace (app evs) s) Hcom) as (evs' & Hp & He' & Hn').
  exists (evs' ++ evs). split; [|split].
  - unfold serial_print in *. cbn [iterM]. rewrite (bind_ret _ _ _ _ _ Hw), Hp. f_equal.
    destruct s. unfold set_trace. cbn. by rewrite app_assoc.
  - by apply Forall_app.
  - unfold written in *. rewrite omap_app, Hn, Hn'. by rewrite fmap_cons, reverse_cons.
Qed.

Lemma serial_print_run com str s :
  com_ok com -> uart_dlab (uart com (trace s)) = false ->
  exists tr', serial_print com str s = Ret tt (set_trace (fun _ => tr') s)
    /\ uart com tr' = sent (reverse (u8 <$> str)) (uart com (trace s)).
Proof.
  intros Hcom Hd. destruct (serial_print_sends com str s Hcom) as (evs & Hp & He & Hn).
  exists (evs ++ trace s). split; [rewrite Hp; by rewrite set_trace_const|].
  unfold uart in *. by rewrite uart_sends, Hn.
Qed.

End Lemmas.

(** ** Properties *)

(** An environment whose transmitter is always ready, for the instances. *)
#[global] Instance ready_env : Env := {| dev_in := fun _ _ => 0x21; patience := 1 |}.
#[global] Instance ready_env_tx : TxReady ready_env.
Proof. split. intros tr port. exists 0%nat. split; [by constructor|]. done. Qed.

(** [serial_init] leaves the port with the divisor latch closed and 8N1
    framing ([0x03]) and transmits nothing while doing so.  Of the divisor only
    the low byte arrives: the high byte is written to the same latch first and
    overwritten, and the high latch keeps its old value.  So the speed is the
    requested one for divisors below 256, as 115200 baud needs, on a port whose
    high latch is 0. *)
Theorem serial_init_programs com divisor s :
  com_ok com -> 0 <= divisor < 2 ^ 16 ->
  exists tr', serial_init com divisor s = Ret tt (set_trace (fun _ => tr') s)
    /\ uart_div (uart com tr') = 256 * uart_dlm (uart com (trace s)) + divisor `mod` 256
    /\ uart_lcr (uart com tr') = 3 /\ uart_dlab (uart com tr') = false
    /\ uart_tx (uart com tr') = uart_tx (uart com (trace s)).
Proof.
  intros Hcom Hd. unfold com_ok in Hcom. eexists. split; [unfold serial_init; steps; reflexivity|].
  simpl_state. unfold SERIAL_LINE_COMMAND_PORT, SERIAL_DATA_PORT, SERIAL_FIFO_COMMAND_PORT,
    SERIAL_MODEM_COMMAND_PORT.
  rewrite !u16_small, (land_low divisor 255 8), (land_low (Z.shiftr divisor 8) 255 8) by (done || lia).
  rewrite !(uart_skip com (com + _)), uart_line, !uart_data, uart_line by lia.
  assert (Hl : forall a b t, uart_dlab (Uart (u8 SERIAL_LINE_ENABLE_DLAB) a b t) = true) by done.
  cbn zeta. repeat (rewrite !Hl; cbn [uart_dlm uart_dll uart_lcr uart_tx]). unfold uart_div.
  cbn [uart_dlm uart_dll]. repeat split. f_equal. word_lia.
Qed.

(** [serial_read] waits for a byte and returns it: if the receiver has one after
    [n] polls, it returns what the data port then gives and has done nothing but
    poll and read. *)
Theorem serial_read_receives {E : Env} com n s :
  com_ok com -> (n < patience)%nat -> ready_after n 1 (com + 5) (trace s) ->
  let tr := polls (S n) (com + 5) (trace s) in
  serial_read com s = Ret (u8 (dev_in tr com)) (set_trace (fun _ => In8 com (u8 (dev_in tr com)) :: tr) s).
Proof.
  intros Hcom Hn Hr tr. unfold serial_read, serial_received.
  erewrite bind_ret; [|by apply (spin_ready n 1)].
  unfold port_byte_in. rewrite (u16_small com) by (unfold com_ok in Hcom; lia). reflexivity.
Qed.

Lemma serial_read_receives_witness : exists s, serial_read SERIAL_COM1 (blank_state ∅) = Ret 0x21 s.
Proof.
  eexists. rewrite (serial_read_receives SERIAL_COM1 0 (blank_state ∅)); [reflexivity|split; [discriminate|reflexivity]|exact Nat.lt_0_1|].
  vm_compute. discriminate.
Defined.

(** C33: once the divisor latch is closed, and with a transmitter that always becomes
    ready, [serial_print] returns and the bytes of the string, all of them, in
    order and only they, are transmitted; nothing but the trace changes. *)
Theorem serial_print_transmits {E : Env} {T : TxReady E} com str s :
  com_ok com -> uart_dlab (uart com (trace s)) = false ->
  exists tr', serial_print com str s = Ret tt (set_trace (fun _ => tr') s)
    /\ reverse (uart_tx (uart com tr')) = reverse (uart_tx (uart com (trace s))) ++ (u8 <$> str)
    /\ uart_dlab (uart com tr') = false /\ uart_div (uart com tr') = uart_div (uart com (trace s)).
Proof.
  intros Hcom Hd. destruct (serial_print_run com str s Hcom Hd) as (tr' & Hp & Hu).
  exists tr'. split; [exact Hp|]. rewrite Hu. unfold uart_div, sent. cbn [uart_tx uart_dlm uart_dll]. split; [|done].
  by rewrite reverse_app, reverse_involutive.
Qed.

Lemma serial_print_transmits_witness :
  exists tr', serial_print SERIAL_COM1 (str "ok") (blank_state ∅)
      = Ret tt (set_trace (fun _ => tr') (blank_state ∅))
    /\ reverse (uart_tx (uart SERIAL_COM1 tr')) = [] ++ (u8 <$> str "ok")
    /\ uart_dlab (uart SERIAL_COM1 tr') = false /\ uart_div (uart SERIAL_COM1 tr') = 0.
Proof.
  apply (serial_print_transmits SERIAL_COM1 (str "ok") (blank_state ∅));
    [unfold com_ok, SERIAL_COM1; lia|reflexivity].
Defined.
