(* ===== verification/Printf.v ===== *)
(** * Formatted output: src/libk/printfk.c

    [vprintfk] interprets a format string and writes to a device: the screen
    (device 0) or the serial port at the given base.  A variable argument is a
    64-bit slot, as the x86-64 calling convention passes integers, or a pointer
    to a C string; [va_arg] at another type, or past the last argument, is a
    fault.  [render] is the meaning of a format as a function from arguments to
    text, and [vprintfk] is shown to print it. *)

From stdpp Require Import base numbers list gmap strings.
From S2P Require Import Prelude Machine Libk Screen Serial.

Definition DEVICE_SCREEN : Z := 0.

Inductive vararg :=
  | VWord (w : Z)
  | VStr (s : list Z).

(** [va_arg(arg, T)]: the value at type [T] and the remaining arguments. *)
Definition va_word (arg : list vararg) : M (Z * list vararg) :=
  match arg with VWord w :: arg => mret (w, arg) | _ => throw BadVarArg end.
Definition va_str (arg : list vararg) : M (list Z * list vararg) :=
  match arg with VStr s :: arg => mret (s, arg) | _ => throw BadVarArg end.

(** What the drivers promise to the formatter: writing a string is writing its
    characters one after the other. *)
Class CharDevice (putc : Z -> M unit) (puts : list Z -> M unit) := {
  puts_putc : forall l, puts l ≡ iterM putc l
}.

Section Printf.
Context {E : Env}.

Definition putchark (device c : Z) : M unit :=
  if DEVICE_SCREEN <? device then serial_write (u16 device) c else screen_write c.

Definition putsk (device : Z) (s : list Z) : M unit :=
  if DEVICE_SCREEN <? device then serial_print (u16 device) s else screen_print s.

(** [while ((leftpad - (uint8_t) strlen(s_val)) > 0) { putchark('0'); leftpad--; }] *)
Fixpoint pad_loop (fuel : nat) (device leftpad len : Z) : M unit :=
  match fuel with
  | O => throw OutOfFuel
  | S fuel =>
      if 0 <? leftpad - len then
        putchark device 48 ;;
        pad_loop fuel device (u8 (leftpad - 1)) len
      else mret tt
  end.

(** The [switch] on the conversion character. *)
Definition vprintfk_conv (device conv leftpad : Z) (arg : list vararg) (s_val : list Z)
    : M (list vararg * list Z) :=
  if conv =? 37 (* '%' *) then
    putchark device 37 ;;
    mret (arg, s_val)
  else if conv =? 99 (* 'c' *) then
    '(w, arg) ← va_word arg;
    putchark device (u8 w) ;;
    mret (arg, s_val)
  else if conv =? 100 (* 'd' *) then
    '(w, arg) ← va_word arg;
    let i_val := s32 w in
    s_val ← lift (itoa i_val s_val 10);
    len ← lift (strlen s_val);
    pad_loop (S (Z.to_nat leftpad)) device leftpad (u8 len) ;;
    putsk device (cstring s_val) ;;
    mret (arg, s_val)
  else if (conv =? 117) || (conv =? 120) (* 'u', 'x' *) then
    '(w, arg) ← va_word arg;
    let u_val := u32 w in
    s_val ← lift (itoa (s32 u_val) s_val (if conv =? 120 then 16 else 10));
    putsk device (cstring s_val) ;;
    mret (arg, s_val)
  else if (conv =? 76) || (conv =? 88) (* 'L', 'X' *) then
    '(w, arg) ← va_word arg;
    let l_val := u64 w in
    s_val ← lift (ulltoa l_val s_val (if conv =? 88 then 16 else 10));
    putsk device (cstring s_val) ;;
    mret (arg, s_val)
  else if conv =? 115 (* 's' *) then
    '(s, arg) ← va_str arg;
    putsk device s ;;
    mret (arg, s_val)
  else mret (arg, s_val).

(** [format[i]]; the terminating NUL is part of the array. *)
Definition format_at (format : list Z) (i : Z) : M Z := lift (buf_get (format ++ [0]) i).

(** The [for] loop over the format; [i] is an [unsigned int]. *)
Fixpoint vprintfk_loop (fuel : nat) (device : Z) (format : list Z) (i : Z)
    (arg : list vararg) (s_val : list Z) : M unit :=
  match fuel with
  | O => throw OutOfFuel
  | S fuel =>
      if i <? Z.of_nat (length format) then
        c ← format_at format i;
        if c =? 37 then
          d ← format_at format (u32 (i + 1));
          let leftpad := u8 (d - 48) in
          let '(i, leftpad) :=
            if isdigitk leftpad then (u32 (i + 1), leftpad) else (i, 0) in
          conv ← format_at format (u32 (i + 1));
          '(arg, s_val) ← vprintfk_conv device conv leftpad arg s_val;
          vprintfk_loop fuel device format (u32 (u32 (i + 1) + 1)) arg s_val
        else
          putchark device c ;;
          vprintfk_loop fuel device format (u32 (i + 1)) arg s_val
      else mret tt
  end.

(** [char s_val[20]]; its contents are written before they are read. *)
Definition vprintfk (device : Z) (format : list Z) (arg : list vararg) : M unit :=
  vprintfk_loop (S (length format)) device format 0 arg (replicate 20 0).

Definition printfk (format : list Z) (arg : list vararg) : M unit :=
  vprintfk DEVICE_SCREEN format arg.

(** Src/drivers/serial.c, [serial_printf]. *)
Definition serial_printf (com : Z) (format : list Z) (arg : list vararg) : M unit :=
  vprintfk com format arg.

End Printf.

(** ** The meaning of a format *)

Inductive directive :=
  | DLit (c : Z)
  | DConv (conv leftpad : Z).

Definition is_digit_char (d : Z) : bool := (48 <=? d) && (d <=? 57).

(** Literal characters, and conversions with an optional one-digit width; an
    unfinished conversion at the end means nothing. *)
Fixpoint parse_format (f : list Z) : list directive :=
  match f with
  | [] => []
  | c :: f =>
      if c =? 37 then
        match f with
        | [] => []
        | d :: f =>
            if is_digit_char d then
              match f with
              | [] => []
              | e :: f => DConv e (d - 48) :: parse_format f
              end
            else DConv d 0 :: parse_format f
        end
      else DLit c :: parse_format f
  end.

(** The text of one conversion and the arguments left.  [None] where the
    conversion has no meaning: no argument of its type, or a number outside the
    range the kernel's number printers handle. *)
Definition render_conv (conv leftpad : Z) (arg : list vararg) : option (list Z * list vararg) :=
  if conv =? 37 then Some ([37], arg)
  else if conv =? 99 then
    match arg with VWord w :: arg => Some ([u8 w], arg) | _ => None end
  else if conv =? 100 then
    match arg with
    | VWord w :: arg =>
        if s32 w =? - 2 ^ 31 then None else
        let text := print_int (s32 w) in
        Some (replicate (Z.to_nat leftpad - length text) 48 ++ text, arg)
    | _ => None
    end
  else if (conv =? 117) || (conv =? 120) then
    match arg with
    | VWord w :: arg =>
        if u32 w <? 2 ^ 31 then Some (numeral (if conv =? 120 then 16 else 10) (u32 w), arg) else None
    | _ => None
    end
  else if conv =? 76 then
    match arg with
    | VWord w :: arg =>
        if (u64 w <? 10 ^ 19) && (u64 w `mod` 2 ^ 32 <? 2 ^ 31)
        then Some (numeral 10 (u64 w), arg) else None
    | _ => None
    end
  else if conv =? 88 then
    match arg with VWord w :: arg => Some (numeral 16 (u64 w), arg) | _ => None end
  else if conv =? 115 then
    match arg with VStr s :: arg => Some (s, arg) | _ => None end
  else Some ([], arg).

Fixpoint render_all (ds : list directive) (arg : list vararg) : option (list Z) :=
  match ds with
  | [] => Some []
  | DLit c :: ds => cons c <$> render_all ds arg
  | DConv conv pad :: ds =>
      '(text, arg) ← render_conv conv pad arg;
      app text <$> render_all ds arg
  end.

Definition render (format : list Z) (arg : list vararg) : option (list Z) :=
  render_all (parse_format format) arg.

(** ** Numbers are printable *)

Lemma digit_char_printable d : 0 <= d < 16 -> printable (digit_char d).
Proof.
  intros Hd. assert (H : Forall printable (digit_char <$> seqZ 0 16)).
  { apply str_printable. vm_compute. reflexivity. }
  rewrite Forall_fmap, Forall_forall in H. apply H, elem_of_seqZ. lia.
Qed.

Lemma numeral_printable base n : 2 <= base <= 16 -> Forall printable (numeral base n).
Proof.
  intros Hb. unfold numeral. apply Forall_reverse, Forall_fmap.
  eapply Forall_impl; [apply (lsd_range _ base); lia|]. intros d Hd. apply digit_char_printable. simpl in Hd. lia.
Qed.

Lemma print_int_printable n : Forall printable (print_int n).
Proof.
  unfold print_int. destruct (Z.ltb_spec n 0).
  - apply Forall_cons. split; [|apply numeral_printable; lia]. unfold printable, is_byte. lia.
  - apply numeral_printable; lia.
Qed.

(** ** Rendering *)

Lemma render_literal (l : list Z) :
  forallb (fun c => negb (c =? 37)) l = true -> render l [] = Some l.
Proof.
  induction l as [|c l IH]; intros H; [done|]. cbn [forallb] in H. apply andb_true_iff in H as [Hc H].
  apply negb_true_iff in Hc. unfold render in *. cbn [parse_format]. rewrite Hc. cbn [render_all].
  by rewrite (IH H).
Qed.

Lemma render_conv_d w arg :
  - 2 ^ 31 < w < 2 ^ 31 -> render_conv 100 0 (VWord w :: arg) = Some (print_int w, arg).
Proof.
  intros Hw. unfold render_conv. cbn [Z.eqb Pos.eqb orb]. rewrite s32_small by lia.
  by rewrite (proj2 (Z.eqb_neq w _)) by lia.
Qed.

Lemma render_conv_X w arg :
  render_conv 88 0 (VWord w :: arg) = Some (numeral 16 (u64 w), arg).
Proof. done. Qed.

(** Evaluate a closed format over symbolic arguments: parse it, then take the
    conversions from left to right. *)
Ltac rendering :=
  unfold render;
  match goal with
  | |- context [parse_format ?f] =>
      let ds := eval vm_compute in (parse_format f) in
      replace (parse_format f) with ds by (vm_compute; reflexivity)
  end;
  cbn [render_all];
  repeat (first
    [ rewrite render_conv_d by lia
    | rewrite render_conv_X
    | match goal with |- context [render_conv 115 0 (VStr ?s :: ?a)] =>
        change (render_conv 115 0 (VStr s :: a)) with (Some (s, a)) end ];
    cbn [mbind option_bind]).

(** ** The devices implement the interface *)

Section Facts.
Context {E : Env}.

#[global] Instance screen_char_device : CharDevice screen_write screen_print.
Proof. by split. Qed.

#[global] Instance serial_char_device com : CharDevice (serial_write com) (serial_print com).
Proof. by split. Qed.

#[global] Instance console_char_device device : CharDevice (putchark device) (putsk device).
Proof. split. intros l. unfold putchark, putsk. destruct (_ <? _); by rewrite puts_putc. Qed.

(** ** Conversions print their text *)

Lemma lift_ok {A B} (r : res A) (a : A) (k : A -> M B) : r = Ok a -> (lift r ≫= k) ≡ k a.
Proof. by intros -> s. Qed.

Lemma bind_unit_r {A} (m : M unit) (a : A) (k : A -> M unit) :
  (m ;; mret a) ≫= k ≡ (m ;; k a).
Proof. by rewrite bind_assoc. Qed.

Lemma pad_loop_spec device leftpad len fuel :
  0 <= leftpad < 256 -> 0 <= len -> (Z.to_nat leftpad < fuel)%nat ->
  pad_loop fuel device leftpad len ≡
    iterM (putchark device) (replicate (Z.to_nat (leftpad - len)) 48).
Proof.
  revert leftpad; induction fuel as [|fuel IH]; intros leftpad Hl Hlen Hf; [lia|].
  cbn [pad_loop]. destruct (Z.ltb_spec 0 (leftpad - len)).
  - replace (Z.to_nat (leftpad - len)) with (S (Z.to_nat (leftpad - 1 - len))) by lia.
    cbn [replicate iterM]. apply M_bind_proper; [|done]. intros _.
    rewrite u8_small by lia. apply IH; lia.
  - by replace (Z.to_nat (leftpad - len)) with 0%nat by lia.
Qed.

Lemma print_int_length n : - 2 ^ 31 < n < 2 ^ 31 -> (length (print_int n) <= 11)%nat.
Proof.
  intros Hn. unfold print_int. destruct (Z.ltb_spec n 0); cbn [length].
  - apply le_n_S, numeral_length; lia.
  - etransitivity; [apply (numeral_length 10 n 10)|]; lia.
Qed.

(** A conversion whose text is [text] prints it and leaves a buffer of the
    same size. *)
Definition prints (device : Z) (m : M (list vararg * list Z)) (text : list Z) (arg : list vararg) : Prop :=
  exists s_val, length s_val = 20%nat /\ m ≡ (iterM (putchark device) text ;; mret (arg, s_val)).

Lemma puts_number device text rest arg :
  Forall nonzero text -> length (text ++ 0 :: rest) = 20%nat ->
  prints device (putsk device (cstring (text ++ 0 :: rest)) ;; mret (arg, text ++ 0 :: rest)) text arg.
Proof.
  intros Hnz Hlen. exists (text ++ 0 :: rest). split; [done|].
  rewrite cstring_nul by done. by rewrite puts_putc.
Qed.

Lemma prints_equiv device m m' text arg :
  m ≡ m' -> prints device m' text arg -> prints device m text arg.
Proof. intros Hm (s_val & Hl & H). exists s_val. split; [done|]. by rewrite Hm. Qed.

Lemma conv_decimal device leftpad w arg (s_val : list Z) :
  length s_val = 20%nat -> 0 <= leftpad < 256 -> s32 w <> - 2 ^ 31 ->
  prints device
    (s_val ← lift (itoa (s32 w) s_val 10);
     len ← lift (strlen s_val);
     pad_loop (S (Z.to_nat leftpad)) device leftpad (u8 len) ;;
     putsk device (cstring s_val) ;;
     mret (arg, s_val))
    (replicate (Z.to_nat leftpad - length (print_int (s32 w))) 48 ++ print_int (s32 w)) arg.
Proof.
  intros Hs Hp Hw. pose proof (s32_range w) as Hr.
  assert (Hn : - 2 ^ 31 < s32 w < 2 ^ 31) by lia.
  destruct (itoa_decimal (s32 w) s_val Hn ltac:(lia) ltac:(lia)) as (rest & Hi & Hlen).
  pose proof (print_int_length (s32 w) Hn). pose proof (print_int_nonzero (s32 w)) as Hnz.
  eapply prints_equiv.
  { rewrite (lift_ok _ _ _ Hi), (lift_ok _ _ _ (strlen_nul _ _ Hnz)). reflexivity. }
  exists (print_int (s32 w) ++ 0 :: rest). split; [lia|].
  rewrite pad_loop_spec by (pose proof (u8_range (Z.of_nat (length (print_int (s32 w))))); lia).
  rewrite u8_small, cstring_nul, iterM_app, bind_assoc by (done || lia).
  replace (Z.to_nat (leftpad - Z.of_nat (length (print_int (s32 w)))))
    with (Z.to_nat leftpad - length (print_int (s32 w)))%nat by lia.
  apply M_bind_proper; [|done]. intros _. by rewrite puts_putc.
Qed.

Lemma conv_number device base n arg (s_val : list Z) (r : res (list Z)) :
  2 <= base <= 16 ->
  (exists rest, r = Ok (numeral base n ++ 0 :: rest)
     /\ length (numeral base n ++ 0 :: rest) = length s_val) ->
  length s_val = 20%nat ->
  prints device (s_val ← lift r; putsk device (cstring s_val) ;; mret (arg, s_val)) (numeral base n) arg.
Proof.
  intros Hb (rest & -> & Hlen) Hs. eapply prints_equiv; [by rewrite (lift_ok _ _ _ eq_refl)|].
  apply puts_number; [by apply numeral_nonzero|lia].
Qed.

Lemma conv_unsigned device base w arg (s_val : list Z) :
  (base = 10 \/ base = 16) -> u32 w < 2 ^ 31 -> length s_val = 20%nat ->
  prints device (s_val ← lift (itoa (s32 (u32 w)) s_val base); putsk device (cstring s_val) ;; mret (arg, s_val))
    (numeral base (u32 w)) arg.
Proof.
  intros Hb Hw Hs. pose proof (u32_range w). rewrite s32_small by lia.
  apply (conv_number _ _ _ _ s_val); [lia| |done]. destruct Hb as [->| ->]; [|apply itoa_hex; lia].
  destruct (itoa_decimal (u32 w) s_val) as (rest & Hr & Hl); [lia..|]. unfold print_int in *.
  rewrite (proj2 (Z.ltb_ge _ 0)) in Hr, Hl by lia. by exists rest.
Qed.

Lemma vprintfk_conv_renders device conv leftpad arg (s_val : list Z) text arg' :
  length s_val = 20%nat -> 0 <= leftpad < 256 ->
  render_conv conv leftpad arg = Some (text, arg') ->
  prints device (vprintfk_conv device conv leftpad arg s_val) text arg'.
Proof.
  intros Hs Hp. unfold render_conv, vprintfk_conv.
  destruct (Z.eqb_spec conv 37); [|destruct (Z.eqb_spec conv 99)]; [intros [= <- <-]| |].
  { exists s_val. split; [done|]. cbn [iterM]. by rewrite bind_assoc. }
  { destruct arg as [|[w|]]; try done. intros [= <- <-]. exists s_val. split; [done|].
    cbn [iterM]. by rewrite !bind_assoc. }
  destruct (Z.eqb_spec conv 100).
  { destruct arg as [|[w|]]; try done. destruct (Z.eqb_spec (s32 w) (- 2 ^ 31)); [done|].
    intros [= <- <-]. by apply conv_decimal. }
  destruct ((conv =? 117) || (conv =? 120)).
  { destruct arg as [|[w|]]; try done. destruct (Z.ltb_spec (u32 w) (2 ^ 31)); [|done].
    intros [= <- <-]. apply conv_unsigned; [destruct (conv =? 120); auto|done|done]. }
  pose proof (fun w => u64_range w) as Hu.
  destruct (Z.eqb_spec conv 76) as [->|].
  { destruct arg as [|[w|]]; try done. destruct (_ && _) eqn:Hb; [|done]. bools.
    intros [= <- <-]. apply (conv_number _ 10 _ _ s_val); [lia| |done]. specialize (Hu w). apply ulltoa_decimal; (done || lia). }
  destruct (Z.eqb_spec conv 88) as [->|].
  { destruct arg as [|[w|]]; try done. intros [= <- <-].
    apply (conv_number _ 16 _ _ s_val); [lia| |done]. apply ulltoa_hex; (apply Hu || lia). }
  cbn [orb]. destruct (conv =? 115).
  - destruct arg as [|[|str]]; try done. intros [= <- <-]. exists s_val. split; [done|].
    cbn [va_str]. rewrite ret_bind. by rewrite puts_putc.
  - intros [= <- <-]. by exists s_val.
Qed.

(** ** The loop follows the parsed format *)

Lemma format_at_bind {B} (format : list Z) pre c rest (k : Z -> M B) i :
  format ++ [0] = pre ++ c :: rest -> i = Z.of_nat (length pre) -> (format_at format i ≫= k) ≡ k c.
Proof.
  intros Hf ->. unfold format_at. rewrite Hf. by rewrite (lift_ok _ _ _ (buf_get_app _ _ _)).
Qed.

Lemma length_format (format pre rest : list Z) :
  format ++ [0] = pre ++ rest -> Z.of_nat (length format) + 1 = Z.of_nat (length pre) + Z.of_nat (length rest).
Proof. intros H. apply (f_equal length) in H. rewrite !length_app in H. cbn [length] in H. lia. Qed.

Lemma isdigitk_char d : is_byte d -> isdigitk (u8 (d - 48)) = is_digit_char d.
Proof.
  intros Hd. apply eq_true_iff_eq. unfold isdigitk, is_digit_char.
  rewrite !andb_true_iff, !Z.leb_le. word_lia.
Qed.

Lemma loop_end fuel device (format : list Z) i arg s_val :
  Z.of_nat (length format) <= i -> vprintfk_loop (S fuel) device format i arg s_val ≡ mret tt.
Proof. intros. cbn [vprintfk_loop]. by rewrite (proj2 (Z.ltb_ge _ _)). Qed.

Lemma loop_lit fuel device (format pre rest : list Z) c arg s_val :
  format = pre ++ c :: rest -> Z.of_nat (length format) < 2 ^ 31 -> c <> 37 ->
  vprintfk_loop (S fuel) device format (Z.of_nat (length pre)) arg s_val ≡
    (putchark device c ;;
     vprintfk_loop fuel device format (Z.of_nat (length (pre ++ [c]))) arg s_val).
Proof.
  intros Hf Hlen Hc.
  assert (Hf0 : format ++ [0] = pre ++ c :: (rest ++ [0])) by (by rewrite Hf, <- app_assoc).
  pose proof (length_format _ _ _ Hf0) as Hl. cbn [length] in Hl. rewrite length_app in Hl.
  cbn [length] in Hl. cbn [vprintfk_loop]. rewrite (proj2 (Z.ltb_lt _ _)) by lia.
  rewrite (format_at_bind format pre c _ _ _ Hf0), (proj2 (Z.eqb_neq c 37)) by done.
  rewrite u32_small by lia. rewrite length_app; cbn [length].
  by replace (Z.of_nat (length pre) + 1) with (Z.of_nat (length pre + 1)) by lia.
Qed.

(** A conversion without and with a width; its last character may be the NUL
    that ends the format. *)
Lemma loop_conv fuel device (format pre rest : list Z) d arg s_val :
  format ++ [0] = pre ++ 37 :: d :: rest -> Z.of_nat (length format) < 2 ^ 31 ->
  is_byte d -> is_digit_char d = false ->
  vprintfk_loop (S fuel) device format (Z.of_nat (length pre)) arg s_val ≡
    ('(arg, s_val) ← vprintfk_conv device d 0 arg s_val;
     vprintfk_loop fuel device format (Z.of_nat (length (pre ++ [37; d]))) arg s_val).
Proof.
  intros Hf Hlen Hb Hd. pose proof (length_format _ _ _ Hf) as Hl. cbn [length] in Hl.
  cbn [vprintfk_loop]. rewrite (proj2 (Z.ltb_lt _ _)) by lia.
  rewrite (format_at_bind format pre 37 (d :: rest)) by done. rewrite Z.eqb_refl.
  assert (Hi : u32 (Z.of_nat (length pre) + 1) = Z.of_nat (length (pre ++ [37])))
    by (rewrite u32_small, length_app; cbn [length]; lia).
  assert (Hf2 : format ++ [0] = (pre ++ [37]) ++ d :: rest) by (by rewrite Hf, <- app_assoc).
  rewrite (format_at_bind format _ d rest) by done.
  rewrite isdigitk_char, Hd by done. cbn iota.
  rewrite (format_at_bind format _ d rest) by done. apply M_bind_proper; [|done].
  intros [a v]. f_equiv.
  by replace (u32 (u32 (Z.of_nat (length pre) + 1) + 1)) with (Z.of_nat (length (pre ++ [37; d])))
    by (rewrite Hi, u32_small; rewrite !length_app; cbn [length]; lia).
Qed.

Lemma loop_conv_pad fuel device (format pre rest : list Z) d e arg s_val :
  format ++ [0] = pre ++ 37 :: d :: e :: rest -> Z.of_nat (length format) < 2 ^ 31 ->
  is_byte d -> is_digit_char d = true ->
  vprintfk_loop (S fuel) device format (Z.of_nat (length pre)) arg s_val ≡
    ('(arg, s_val) ← vprintfk_conv device e (d - 48) arg s_val;
     vprintfk_loop fuel device format (Z.of_nat (length (pre ++ [37; d; e]))) arg s_val).
Proof.
  intros Hf Hlen Hb Hd. pose proof (length_format _ _ _ Hf) as Hl. cbn [length] in Hl.
  cbn [vprintfk_loop]. rewrite (proj2 (Z.ltb_lt _ _)) by lia.
  rewrite (format_at_bind format pre 37 (d :: e :: rest)) by done. rewrite Z.eqb_refl.
  assert (Hi : u32 (Z.of_nat (length pre) + 1) = Z.of_nat (length (pre ++ [37])))
    by (rewrite u32_small, length_app; cbn [length]; lia).
  assert (Hi2 : u32 (u32 (Z.of_nat (length pre) + 1) + 1) = Z.of_nat (length (pre ++ [37; d])))
    by (rewrite Hi, u32_small; rewrite !length_app; cbn [length]; lia).
  rewrite (format_at_bind format (pre ++ [37]) d (e :: rest)) by (done || by rewrite Hf, <- app_assoc).
  rewrite isdigitk_char, Hd by done. cbn iota.
  rewrite (format_at_bind format (pre ++ [37; d]) e rest) by (done || by rewrite Hf, <- app_assoc).
  assert (Hpad : u8 (d - 48) = d - 48)
    by (unfold is_digit_char in Hd; bools; apply u8_small; lia).
  rewrite Hpad. apply M_bind_proper; [|done]. intros [a v]. f_equiv.
  by replace (u32 (u32 (u32 (Z.of_nat (length pre) + 1) + 1) + 1)) with (Z.of_nat (length (pre ++ [37; d; e])))
    by (rewrite Hi2, u32_small; rewrite !length_app; cbn [length]; lia).
Qed.

Lemma after_conv fuel device (format : list Z) m text out arg' i :
  prints device m text arg' ->
  (forall s_val, length s_val = 20%nat ->
     vprintfk_loop fuel device format i arg' s_val ≡ iterM (putchark device) out) ->
  ('(arg, s_val) ← m; vprintfk_loop fuel device format i arg s_val) ≡
    iterM (putchark device) (text ++ out).
Proof.
  intros (s_val & Hs & Hm) Hk. rewrite Hm, bind_assoc, iterM_app.
  apply M_bind_proper; [|done]. intros []. rewrite ret_bind. by apply Hk.
Qed.

Lemma loop_renders device (format : list Z) :
  Forall is_byte format -> Z.of_nat (length format) < 2 ^ 31 ->
  forall rest pre fuel arg (s_val : list Z) out,
    format = pre ++ rest -> (length rest < fuel)%nat -> length s_val = 20%nat ->
    render_all (parse_format rest) arg = Some out ->
    vprintfk_loop fuel device format (Z.of_nat (length pre)) arg s_val ≡
      iterM (putchark device) out.
Proof.
  intros Hbytes Hlen rest.
  induction rest as [rest IH] using (Wf_nat.induction_ltof1 _ (@length Z)); unfold Wf_nat.ltof in IH.
  intros pre [|fuel] arg s_val out Hf Hfuel Hs Hr; [lia|].
  destruct rest as [|c rest]; cbn [length] in *.
  { injection Hr as <-. apply loop_end. rewrite Hf, app_nil_r. lia. }
  assert (Hb : forall x, x ∈ c :: rest -> is_byte x).
  { intros x Hx. rewrite Forall_forall in Hbytes. apply Hbytes. rewrite Hf. apply elem_of_app. by right. }
  cbn [parse_format] in Hr. destruct (Z.eqb_spec c 37) as [->|Hc].
  2: { cbn [render_all] in Hr. destruct (render_all _ arg) as [o|] eqn:Ho; [|done].
    injection Hr as <-. rewrite (loop_lit _ _ format pre rest) by done. cbn [iterM].
    apply M_bind_proper; [|done]. intros []. apply (IH rest); (done || lia || by rewrite Hf, <- app_assoc). }
  destruct rest as [|d rest].
  { injection Hr as <-. rewrite (loop_conv _ _ format pre [] 0) by (done || by rewrite Hf, <- app_assoc).
    destruct fuel; [cbn [length] in *; lia|].
    apply (after_conv _ _ _ _ [] [] arg); [by apply vprintfk_conv_renders|].
    intros v Hv. apply loop_end. rewrite Hf, !length_app. cbn [length]. lia. }
  destruct (is_digit_char d) eqn:Hd.
  2: { cbn [render_all] in Hr. destruct (render_conv d 0 arg) as [[text arg']|] eqn:Ho; [|done].
    cbn in Hr. destruct (render_all _ arg') as [o|] eqn:Ho'; [|done]. injection Hr as <-.
    rewrite (loop_conv _ _ format pre (rest ++ [0]) d)
      by (done || (apply Hb; set_solver) || by rewrite Hf, <- app_assoc).
    eapply after_conv; [apply vprintfk_conv_renders; (done || lia)|].
    intros v Hv. cbn [length] in *. apply (IH rest); (done || lia || by rewrite Hf, <- app_assoc). }
  destruct rest as [|e rest].
  { injection Hr as <-. rewrite (loop_conv_pad _ _ format pre [] d 0)
      by (done || (apply Hb; set_solver) || by rewrite Hf, <- app_assoc).
    unfold is_digit_char in Hd. bools. destruct fuel; [cbn [length] in *; lia|].
    apply (after_conv _ _ _ _ [] [] arg); [apply vprintfk_conv_renders; (done || lia)|].
    intros v Hv. apply loop_end. rewrite Hf, !length_app. cbn [length]. lia. }
  cbn [render_all] in Hr. destruct (render_conv e (d - 48) arg) as [[text arg']|] eqn:Ho; [|done].
  cbn in Hr. destruct (render_all _ arg') as [o|] eqn:Ho'; [|done]. injection Hr as <-.
  rewrite (loop_conv_pad _ _ format pre (rest ++ [0]) d)
    by (done || (apply Hb; set_solver) || by rewrite Hf, <- app_assoc).
  unfold is_digit_char in Hd. bools.
  eapply after_conv; [apply vprintfk_conv_renders; (done || lia)|].
  intros v Hv. cbn [length] in *. apply (IH rest); (done || lia || by rewrite Hf, <- app_assoc).
Qed.

Lemma forallb_bytes l :
  forallb (fun c => (0 <=? c) && (c <? 256)) l = true -> Forall is_byte l.
Proof.
  intros H. apply Forall_forall. intros c Hc. rewrite forallb_forall in H.
  specialize (H c (proj1 (list_elem_of_In _ _) Hc)). bools. unfold is_byte. lia.
Qed.

(** What clients of [printfk] use: a format that means [out] prints [out]. *)
Lemma vprintfk_screen (format : list Z) arg out :
  Forall is_byte format -> Z.of_nat (length format) < 2 ^ 31 ->
  render format arg = Some out -> vprintfk DEVICE_SCREEN format arg ≡ screen_print out.
Proof.
  intros Hb Hlen Hr s. unfold vprintfk.
  apply (loop_renders DEVICE_SCREEN format Hb Hlen format []); (done || lia).
Qed.

Lemma printfk_total (format : list Z) arg out s k :
  Forall is_byte format -> Z.of_nat (length format) < 2 ^ 31 ->
  render format arg = Some out ->
  screen_within k s -> 80 <= k -> k + Z.of_nat (length out) < 2 ^ 19 ->
  exists s', printfk format arg s = Ret tt s' /\ screen_print out s = Ret tt s'
    /\ console_step s s' /\ screen_within (k + Z.of_nat (length out)) s'.
Proof.
  intros Hb Hlen Hr Hw Hk Ho.
  destruct (screen_print_total out s k Hw Hk Ho) as (s' & Hrun & Hc & Hw').
  exists s'. split; [|done]. rewrite <- Hrun. by apply vprintfk_screen.
Qed.

(** Text that stays on the page, on the way down the screen. *)
Lemma printfk_page (format : list Z) arg out p s :
  Forall is_byte format -> Z.of_nat (length format) < 2 ^ 31 ->
  render format arg = Some out ->
  screen_at p s -> 0 <= p -> advance p out <= 1920 -> Forall plain out ->
  exists s', printfk format arg s = Ret tt s' /\ screen_at (advance p out) s'
    /\ same_outside_page s s' /\ console_step s s'.
Proof.
  intros Hb Hlen Hr Hat Hp Ha Hpl.
  destruct (screen_print_page out p s Hat Hp Ha Hpl) as (s' & Hrun & H').
  exists s'. split; [|done]. rewrite <- Hrun. by apply vprintfk_screen.
Qed.

End Facts.

(** ** Properties *)

(** C14: for every format and arguments that have a meaning, [vprintfk] writes to
    its device exactly the text the format means, character by character, and
    does nothing else: it never reads past the format's NUL, never overruns
    its number buffer, and ends. *)
Theorem vprintfk_renders {E : Env} device (format : list Z) arg out :
  Forall is_byte format -> Z.of_nat (length format) < 2 ^ 31 ->
  render format arg = Some out ->
  vprintfk device format arg ≡ iterM (putchark device) out.
Proof.
  intros Hb Hlen Hr. unfold vprintfk.
  apply (loop_renders device format Hb Hlen format []); (done || lia).
Qed.

Lemma vprintfk_renders_witness :
  vprintfk SERIAL_COM1 (str "%2d/%d 0x%X%%") [VWord 7; VWord (-12); VWord 48879] ≡
    iterM (putchark SERIAL_COM1) (str "07/-12 0xbeef%").
Proof.
  apply (vprintfk_renders SERIAL_COM1); [apply forallb_bytes; reflexivity|vm_compute; reflexivity|reflexivity].
Defined.

(** Text printed with [printfk] is on the screen: if the format means [out],
    and [out] is printable and fits before position 1921, then the cells from
    the cursor on hold [out] and the cursor stands after it. *)
Theorem printfk_shows_text {E : Env} (format : list Z) arg out p s :
  Forall is_byte format -> Z.of_nat (length format) < 2 ^ 31 ->
  render format arg = Some out -> Forall printable out ->
  screen_at p s -> 0 <= p -> p + Z.of_nat (length out) <= 1921 ->
  exists s', printfk format arg s = Ret tt s'
    /\ screen_at (p + Z.of_nat (length out)) s'
    /\ (forall i c, out !! i = Some c -> cell (mem s') (p + Z.of_nat i) = (c, u8 (screen_scheme (scr s))))
    /\ same_kernel s s'.
Proof.
  intros Hb Hlen Hr Hpr Hat Hp Hfit.
  destruct (screen_print_pos out p s Hat Hp Hfit Hpr) as (s' & Hrun & Hat' & Hcell & _ & _ & Hk & _).
  exists s'. split; [|done]. rewrite <- Hrun. unfold printfk, vprintfk.
  apply (loop_renders DEVICE_SCREEN format Hb Hlen format []); (done || lia).
Qed.

(** [%x] of a number from [2^31] on prints one character, not the eight
    digits of the number: the value is passed to [itoa] as a negative [int],
    whose digit loop stops after one step with a negative remainder. *)
Theorem printfk_hex_truncates {E : Env} device w :
  2 ^ 31 <= u32 w ->
  vprintfk device (str "%x") [VWord w] ≡ putchark device (digit_char (Z.rem (u32 w - 2 ^ 32) 16)).
Proof.
  intros Hw. pose proof (u32_range w) as Hr. unfold vprintfk.
  pose proof (loop_conv (length (str "%x")) device (str "%x") [] [0] 120 [VWord w] (replicate 20 0)) as Hloop.
  cbn [length app Z.of_nat] in Hloop. change (Z.of_nat 0) with 0 in Hloop.
  rewrite Hloop; [|done|vm_compute; done|unfold is_byte; lia|done]. clear Hloop.
  assert (Hs : s32 (u32 w) = u32 w - 2 ^ 32) by word_lia.
  assert (Hi : itoa (s32 (u32 w)) (replicate 20 0) 16 =
    Ok (digit_char (Z.rem (u32 w - 2 ^ 32) 16) :: 0 :: replicate 18 0)).
  { rewrite Hs. apply (itoa_hex_negative _ 0 0 (replicate 18 0)); [lia|vm_compute; done]. }
  pose proof (digit_char_rem_nonzero (u32 w - 2 ^ 32) ltac:(lia)) as Hc.
  assert (Hconv : vprintfk_conv device 120 0 [VWord w] (replicate 20 0) ≡
    (putchark device (digit_char (Z.rem (u32 w - 2 ^ 32) 16)) ;;
     mret ([], digit_char (Z.rem (u32 w - 2 ^ 32) 16) :: 0 :: replicate 18 0))).
  { unfold vprintfk_conv. cbn [Z.eqb Pos.eqb orb va_word]. rewrite ret_bind.
    rewrite (lift_ok _ _ _ Hi). rewrite puts_putc. cbn [cstring].
    rewrite (proj2 (Z.eqb_neq _ 0)) by exact Hc. cbn [iterM Z.eqb].
    rewrite bind_assoc. done. }
  rewrite Hconv, bind_assoc. rewrite <- (bind_mret (putchark device _)) at 2.
  apply M_bind_proper; [|done]. intros []. rewrite ret_bind. by apply loop_end.
Qed.

