(* ===== verification/Ends.v ===== *)
(** * Formatted output always ends

    C14 says what [vprintfk] prints for arguments with a meaning.  This file has
    no such condition: whatever the format and the arguments, every loop under
    [vprintfk] (over the format, the padding, the digits, the reversal of the
    digits) stops by itself, so the call returns or runs into one of the faults
    of C; it neither loops nor halts the machine. *)

From stdpp Require Import base numbers list gmap strings.
From S2P Require Import Prelude Machine Libk Screen Serial Printf.

(** From every state [m] returns, or meets one of C's faults: it never runs out of
    fuel and never halts. *)
Definition ends {A} (m : M A) : Prop := forall s,
  match m s with
  | Ret _ _ => True
  | Halted _ => False
  | Fault f => f <> OutOfFuel
  end.

(** The same for a function on buffers. *)
Definition res_ends {A} (r : res A) : Prop := r <> Err OutOfFuel.

(** ** The monad *)

Section Monad.
Context {A B : Type}.

Lemma ends_ret (a : A) : ends (mret a).
Proof. by intros s. Qed.

Lemma ends_bind (m : M A) (k : A -> M B) : ends m -> (forall a, ends (k a)) -> ends (m ≫= k).
Proof.
  intros Hm Hk s. specialize (Hm s). unfold mbind, M_bind. destruct (m s) as [a s'|s'|f]; [apply Hk|done|done].
Qed.

Lemma ends_gets (f : kstate -> A) : ends (gets f).
Proof. by intros s. Qed.

Lemma ends_throw f : f <> OutOfFuel -> ends (@throw A f).
Proof. by intros H s. Qed.

Lemma ends_lift (r : res A) : res_ends r -> ends (lift r).
Proof. intros H s. unfold lift. destruct r; [done|]. intros ->. by apply H. Qed.

Lemma ends_if (b : bool) (m n : M A) : ends m -> ends n -> ends (if b then m else n).
Proof. by destruct b. Qed.

Lemma res_bind_ends (r : res A) (k : A -> res B) :
  res_ends r -> (forall a, r = Ok a -> res_ends (k a)) -> res_ends (r ≫= k).
Proof. unfold res_ends. destruct r as [a|f]; intros Hr Hk; [by apply Hk|]. cbn. congruence. Qed.

End Monad.

Lemma ends_modify f : ends (modify f).
Proof. by intros s. Qed.

Lemma ends_int z : ends (int z).
Proof. intros s. unfold int. by destruct (in_int z). Qed.

Lemma ends_for_from body n : forall lo, (forall i, ends (body i)) -> ends (for_from lo n body).
Proof.
  induction n as [|n IH]; intros lo Hb; [apply ends_ret|]. cbn [for_from]. apply ends_bind; [apply Hb|].
  intros _. by apply IH.
Qed.

Lemma ends_iterM {A} (f : A -> M unit) l : (forall x, ends (f x)) -> ends (iterM f l).
Proof.
  intros Hf. induction l as [|x l IH]; [apply ends_ret|]. cbn [iterM]. apply ends_bind; [apply Hf|]. by intros _.
Qed.

#[export] Hint Resolve ends_ret ends_gets ends_modify ends_int ends_for_from ends_iterM : utero.

(** Follow the code: every command of it ends. *)
Ltac follow :=
  repeat first
    [ progress intros
    | match goal with
      | |- ends (mbind _ _) => apply ends_bind
      | |- ends (if _ then _ else _) => apply ends_if
      | |- ends (for_from _ _ _) => apply ends_for_from
      | |- ends (let '(_, _) := ?p in _) => destruct p
      end
    | solve [auto with utero] ].

(** ** The devices *)

Lemma screen_write_ends {E : Env} c : ends (screen_write c).
Proof.
  unfold screen_write, set_col, set_row, next_row, screen_write_at, memcpyk, get_scr, store8, load8, move_cursor,
    port_byte_out, log, set_row. follow.
Qed.

Lemma serial_write_ends {E : Env} {T : TxReady E} com c : com_ok com -> ends (serial_write com c).
Proof. intros Hc s. by destruct (serial_write_run com c s Hc) as (n & ->). Qed.

(** ** Digits *)

Lemma buf_get_ends s i : res_ends (buf_get s i).
Proof. unfold res_ends, buf_get. by destruct (_ && _). Qed.

Lemma buf_set_ends s i v : res_ends (buf_set s i v).
Proof. unfold res_ends, buf_set. by destruct (_ && _). Qed.

Lemma buf_set_ok s i v s' :
  buf_set s i v = Ok s' -> 0 <= i < Z.of_nat (length s) /\ length s' = length s.
Proof.
  unfold buf_set. destruct (_ && _) eqn:Hb; [|done]. intros [= <-]. bools. rewrite length_insert. split; [lia|done].
Qed.

Lemma buf_get_ok s i c : buf_get s i = Ok c -> 0 <= i < Z.of_nat (length s).
Proof. unfold buf_get. destruct (_ && _) eqn:Hb; [|done]. intros _. bools. lia. Qed.

Lemma strlen_ends s : res_ends (strlen s).
Proof.
  induction s as [|c s IH]; [done|]. cbn [strlen]. destruct (c =? 0); [done|].
  apply res_bind_ends; [done|]. done.
Qed.

(** Two steps closer each time, and outside the array it stops at once. *)
Lemma strrev_loop_ends fuel : forall s i j,
  0 <= i -> 0 <= j < 2 ^ 64 -> Z.of_nat (length s) < 2 ^ 64 -> (1 <= fuel)%nat ->
  (j < Z.of_nat (length s) -> j - i < Z.of_nat fuel) ->
  res_ends (strrev_loop fuel s i j).
Proof.
  induction fuel as [|fuel IH]; intros s i j Hi Hj Hl H1 Hf; [lia|]. cbn [strrev_loop].
  destruct (Z.ltb_spec i j); [|done].
  apply res_bind_ends; [apply buf_get_ends|]. intros c _.
  apply res_bind_ends; [apply buf_get_ends|]. intros x Hx. apply buf_get_ok in Hx.
  apply res_bind_ends; [apply buf_set_ends|]. intros s1 [_ L1]%buf_set_ok.
  apply res_bind_ends; [apply buf_set_ends|]. intros s2 [_ L2]%buf_set_ok.
  specialize (Hf ltac:(lia)). rewrite u64_small by lia. rewrite u64_small by lia.
  apply IH; rewrite ?L2, ?L1; lia.
Qed.

Lemma strrev_ends s : Z.of_nat (length s) < 2 ^ 64 -> res_ends (strrev s).
Proof.
  intros Hl. unfold strrev. apply res_bind_ends; [apply strlen_ends|]. intros n _.
  apply strrev_loop_ends; [lia|apply u64_range|done|lia|lia].
Qed.

(** Each digit takes one more place of the array. *)
Lemma itoa_loop_ends fuel : forall n base i s,
  0 <= i <= Z.of_nat (length s) -> Z.of_nat (length s) - i < Z.of_nat fuel ->
  res_ends (itoa_loop fuel n base i s).
Proof.
  induction fuel as [|fuel IH]; intros n base i s Hi Hf; [lia|]. cbn [itoa_loop].
  destruct (base =? 0); [done|]. destruct (negb _); [done|].
  apply res_bind_ends; [apply buf_set_ends|]. intros s' [H1 H2]%buf_set_ok.
  destruct (0 <? _); [|done]. apply IH; rewrite H2; lia.
Qed.

Lemma ulltoa_loop_ends fuel : forall n base i s,
  0 <= i <= Z.of_nat (length s) -> Z.of_nat (length s) - i < Z.of_nat fuel ->
  res_ends (ulltoa_loop fuel n base i s).
Proof.
  induction fuel as [|fuel IH]; intros n base i s Hi Hf; [lia|]. cbn [ulltoa_loop].
  destruct (u64 base =? 0); [done|].
  apply res_bind_ends; [apply buf_set_ends|]. intros s' [H1 H2]%buf_set_ok.
  destruct (0 <? _); [|done]. apply IH; rewrite H2; lia.
Qed.

(** The loops keep the array's length. *)
Lemma itoa_loop_length fuel : forall n base i s j s',
  itoa_loop fuel n base i s = Ok (j, s') -> length s' = length s.
Proof.
  induction fuel as [|fuel IH]; intros n base i s j s' H; [done|]. cbn [itoa_loop] in H.
  destruct (base =? 0); [done|]. destruct (negb _); [done|].
  destruct (buf_set s i _) as [s1|] eqn:Hs; [|done]. apply buf_set_ok in Hs as [_ <-]. cbn in H.
  destruct (0 <? _); [by eapply IH|]. by injection H as _ ->.
Qed.

Lemma ulltoa_loop_length fuel : forall n base i s j s',
  ulltoa_loop fuel n base i s = Ok (j, s') -> length s' = length s.
Proof.
  induction fuel as [|fuel IH]; intros n base i s j s' H; [done|]. cbn [ulltoa_loop] in H.
  destruct (u64 base =? 0); [done|].
  destruct (buf_set s i _) as [s1|] eqn:Hs; [|done]. apply buf_set_ok in Hs as [_ <-]. cbn in H.
  destruct (0 <? _); [by eapply IH|]. by injection H as _ ->.
Qed.

Lemma strrev_loop_length fuel : forall s i j s', strrev_loop fuel s i j = Ok s' -> length s' = length s.
Proof.
  induction fuel as [|fuel IH]; intros s i j s' H; [done|]. cbn [strrev_loop] in H.
  destruct (i <? j); [|by injection H as ->].
  destruct (buf_get s i); [|done]. cbn in H. destruct (buf_get s j); [|done]. cbn in H.
  destruct (buf_set s i _) as [s1|] eqn:H1; [|done]. cbn in H.
  destruct (buf_set s1 j _) as [s2|] eqn:H2; [|done]. cbn in H.
  apply buf_set_ok in H1 as [_ <-], H2 as [_ <-]. by eapply IH.
Qed.

Lemma strrev_length s s' : strrev s = Ok s' -> length s' = length s.
Proof. unfold strrev. destruct (strlen s); [|done]. apply strrev_loop_length. Qed.

(** What both conversions do after their loop: the sign, the NUL, the reversal. *)
Definition finish (negative : bool) (i : Z) (str : list Z) : res (list Z) :=
  '(i, str) ← (if negative then str ← buf_set str i 45; Ok (i + 1, str) else Ok (i, str));
  str ← buf_set str i 0;
  strrev str.

Lemma finish_ends negative i str : Z.of_nat (length str) < 2 ^ 64 -> res_ends (finish negative i str).
Proof.
  intros Hl. unfold finish. apply res_bind_ends.
  - destruct negative; [|done]. apply res_bind_ends; [apply buf_set_ends|done].
  - intros [j s1] H. apply res_bind_ends; [apply buf_set_ends|]. intros s2 [_ H2]%buf_set_ok.
    apply strrev_ends. rewrite H2. destruct negative; [|by injection H as _ <-].
    destruct (buf_set str i 45) as [s3|] eqn:H3; [|done]. apply buf_set_ok in H3 as [_ H3].
    injection H as _ <-. by rewrite H3.
Qed.

Lemma finish_length negative i str s' : finish negative i str = Ok s' -> length s' = length str.
Proof.
  unfold finish. intros H. destruct negative.
  - destruct (buf_set str i 45) as [s1|] eqn:H1; [|done]. cbn in H.
    destruct (buf_set s1 (i + 1) 0) as [s2|] eqn:H2; [|done]. cbn in H.
    apply strrev_length in H as ->. apply buf_set_ok in H1 as [_ <-]. by apply buf_set_ok in H2 as [_ <-].
  - cbn in H. destruct (buf_set str i 0) as [s2|] eqn:H2; [|done]. cbn in H.
    apply strrev_length in H as ->. by apply buf_set_ok in H2 as [_ <-].
Qed.

Lemma zero_ends str : res_ends (str ← buf_set str 0 48; buf_set str 1 0).
Proof. apply res_bind_ends; [apply buf_set_ends|]. intros s _. apply buf_set_ends. Qed.

Lemma zero_length str s' : (str ← buf_set str 0 48; buf_set str 1 0) = Ok s' -> length s' = length str.
Proof.
  destruct (buf_set str 0 48) as [s1|] eqn:H1; [|done]. cbn. intros [_ ->]%buf_set_ok.
  by apply buf_set_ok in H1 as [_ <-].
Qed.

Lemma itoa_ends n str base : Z.of_nat (length str) < 2 ^ 64 -> res_ends (itoa n str base).
Proof.
  intros Hl. unfold itoa. destruct (n =? 0); [apply zero_ends|]. cbn zeta. apply res_bind_ends.
  - destruct (_ && _); [|done]. by destruct (in_int _).
  - intros k _. apply res_bind_ends; [apply itoa_loop_ends; lia|]. intros [i s1] H%itoa_loop_length.
    apply (finish_ends ((n <? 0) && (base =? 10)) i s1). by rewrite H.
Qed.

Lemma itoa_length n str base s' : itoa n str base = Ok s' -> length s' = length str.
Proof.
  unfold itoa. destruct (n =? 0); [apply zero_length|]. cbn zeta.
  destruct (if _ : bool then _ else _) as [k|]; [|done]. cbn [mbind res_bind].
  destruct (itoa_loop _ k base 0 str) as [[i s1]|] eqn:H; [|done]. apply itoa_loop_length in H as <-.
  apply (finish_length ((n <? 0) && (base =? 10)) i s1).
Qed.

Lemma ulltoa_ends n str base : Z.of_nat (length str) < 2 ^ 64 -> res_ends (ulltoa n str base).
Proof.
  intros Hl. unfold ulltoa. destruct (n =? 0); [apply zero_ends|]. cbn zeta.
  apply res_bind_ends; [apply ulltoa_loop_ends; lia|]. intros [i s1] H%ulltoa_loop_length.
  apply (finish_ends ((s32 n <? 0) && (base =? 10)) i s1). by rewrite H.
Qed.

Lemma ulltoa_length n str base s' : ulltoa n str base = Ok s' -> length s' = length str.
Proof.
  unfold ulltoa. destruct (n =? 0); [apply zero_length|]. cbn zeta.
  destruct (ulltoa_loop _ _ base 0 str) as [[i s1]|] eqn:H; [|done]. apply ulltoa_loop_length in H as <-.
  apply (finish_length ((s32 n <? 0) && (base =? 10)) i s1).
Qed.

(** ** The formatter *)

Section Formatter.
Context {E : Env} (device : Z) (D : forall c, ends (putchark device c)).

Lemma putsk_ends s : ends (putsk device s).
Proof using D.
  assert (Hd : putsk device s ≡ iterM (putchark device) s) by apply puts_putc.
  intros st. rewrite (Hd st). by apply ends_iterM.
Qed.

Lemma pad_loop_ends fuel : forall leftpad len,
  0 <= leftpad < 256 -> 0 <= len -> leftpad < Z.of_nat fuel -> ends (pad_loop fuel device leftpad len).
Proof using D.
  induction fuel as [|fuel IH]; intros leftpad len Hp Hl Hf; [lia|]. cbn [pad_loop].
  destruct (Z.ltb_spec 0 (leftpad - len)); [|apply ends_ret]. apply ends_bind; [apply D|]. intros _.
  rewrite u8_small by lia. apply IH; lia.
Qed.

(** A conversion ends, and the buffer keeps its size. *)
Definition conv_ends (m : M (list vararg * list Z)) (n : nat) : Prop :=
  forall s, match m s with
            | Ret (_, s_val) _ => length s_val = n
            | Halted _ => False
            | Fault f => f <> OutOfFuel
            end.

Lemma conv_ends_bind {A} (m : M A) k n : ends m -> (forall a, conv_ends (k a) n) -> conv_ends (m ≫= k) n.
Proof using.
  intros Hm Hk s. specialize (Hm s). unfold mbind, M_bind. destruct (m s) as [a s'|s'|f]; [apply Hk|done|done].
Qed.

Lemma conv_ends_lift {A} (r : res A) k n :
  res_ends r -> (forall a, r = Ok a -> conv_ends (k a) n) -> conv_ends (lift r ≫= k) n.
Proof using.
  intros Hr Hk s. unfold mbind, M_bind, lift. destruct r as [a|f]; [by apply Hk|]. intros ->. by apply Hr.
Qed.

Lemma conv_ends_ret arg (s_val : list Z) n : length s_val = n -> conv_ends (mret (arg, s_val)) n.
Proof using. by intros H s. Qed.

Lemma va_word_ends arg : ends (va_word arg).
Proof using. destruct arg as [|[] ?]; by intros st. Qed.

Lemma va_str_ends arg : ends (va_str arg).
Proof using. destruct arg as [|[] ?]; by intros st. Qed.

Ltac conv_step :=
  lazymatch goal with
  | |- conv_ends (mret _) _ => apply conv_ends_ret; try done
  | |- conv_ends (lift _ ≫= _) _ => apply conv_ends_lift
  | |- conv_ends (_ ≫= _) _ => apply conv_ends_bind
  | |- conv_ends (let '(_, _) := ?p in _) _ => destruct p
  | |- conv_ends (if ?b then _ else _) _ => destruct b
  | |- ends (va_word _) => apply va_word_ends
  | |- ends (va_str _) => apply va_str_ends
  | |- ends (putsk _ _) => apply putsk_ends
  | |- ends (putchark _ _) => apply D
  | |- res_ends (itoa _ _ _) => apply itoa_ends; lia
  | |- res_ends (ulltoa _ _ _) => apply ulltoa_ends; lia
  | |- res_ends (strlen _) => apply strlen_ends
  | |- forall _, _ => intros ?
  end.

Lemma vprintfk_conv_ends conv leftpad arg s_val :
  0 <= leftpad < 256 -> Z.of_nat (length s_val) < 2 ^ 64 ->
  conv_ends (vprintfk_conv device conv leftpad arg s_val) (length s_val).
Proof using D.
  intros Hp Hl. unfold vprintfk_conv. cbn zeta.
  repeat conv_step; try (by eapply itoa_length); try (by eapply ulltoa_length).
  apply pad_loop_ends; [done|apply u8_range|lia].
Qed.

Lemma format_at_ends format i : ends (format_at format i).
Proof using. apply ends_lift, buf_get_ends. Qed.

Lemma vprintfk_loop_ends fuel : forall format i arg s_val,
  Z.of_nat (length format) < 2 ^ 32 - 2 -> Z.of_nat (length s_val) < 2 ^ 64 ->
  0 <= i < 2 ^ 32 -> Z.of_nat (length format) - i < Z.of_nat fuel -> (1 <= fuel)%nat ->
  ends (vprintfk_loop fuel device format i arg s_val).
Proof using D.
  induction fuel as [|fuel IH]; intros format i arg s_val Hlen Hl Hi Hf H1; [lia|]. cbn [vprintfk_loop].
  destruct (Z.ltb_spec i (Z.of_nat (length format))); [|apply ends_ret].
  apply ends_bind; [apply format_at_ends|]. intros c. destruct (c =? 37).
  - apply ends_bind; [apply format_at_ends|]. intros d. cbn zeta.
    assert (Hgo : forall i' leftpad, i <= i' -> i' <= i + 1 -> 0 <= leftpad < 256 ->
      ends (conv ← format_at format (u32 (i' + 1));
            '(arg, s_val) ← vprintfk_conv device conv leftpad arg s_val;
            vprintfk_loop fuel device format (u32 (u32 (i' + 1) + 1)) arg s_val)).
    { intros i' leftpad H2 H3 Hp. apply ends_bind; [apply format_at_ends|]. intros conv s.
      pose proof (vprintfk_conv_ends conv leftpad arg s_val Hp Hl s) as Hc. unfold mbind, M_bind.
      destruct (vprintfk_conv _ _ _ _ _ s) as [[arg' s_val'] s'|s'|f]; [|done|done].
      rewrite (u32_small (i' + 1)) by lia. destruct (Z.le_gt_cases (2 ^ 32) (i' + 1 + 1)).
      - lia.
      - rewrite u32_small by lia. apply IH; rewrite ?Hc; lia. }
    destruct (isdigitk _); apply Hgo; try (rewrite u32_small by lia); try apply u8_range; lia.
  - apply ends_bind; [apply D|]. intros _. rewrite u32_small by lia. apply IH; lia.
Qed.

End Formatter.

(** ** Properties *)

(** C15: every call of [vprintfk] ends, for any format that fits an [unsigned int]
    index and any arguments, on the screen in any state or on a serial port
    whose transmitter becomes ready: it returns or meets one of C's faults, and
    neither loops nor halts. *)
Theorem vprintfk_ends {E : Env} {T : TxReady E} device format arg :
  Z.of_nat (length format) < 2 ^ 32 - 2 -> (0 < device -> com_ok (u16 device)) ->
  ends (vprintfk device format arg).
Proof.
  intros Hlen Hdev.
  assert (D : forall c, ends (putchark device c)).
  { intros c. unfold putchark, DEVICE_SCREEN. destruct (Z.ltb_spec 0 device);
      [by apply serial_write_ends, Hdev|apply screen_write_ends]. }
  unfold vprintfk. apply vprintfk_loop_ends; [done|done|by rewrite length_replicate|lia|lia|lia].
Qed.

(** A number that %L prints wrongly, and a missing argument. *)
Lemma vprintfk_ends_witness : ends (vprintfk SERIAL_COM1 (str "%L left of %s") [VWord (2 ^ 31)]).
Proof.
  apply (vprintfk_ends SERIAL_COM1 (str "%L left of %s") [VWord (2 ^ 31)]).
  - vm_compute. reflexivity.
  - intros _. vm_compute. split; [discriminate|reflexivity].
Defined.
