(* ===== verification/Debug.v ===== *)
(** * Debug output: src/include/core/debug.h

    [DEBUG] expands to nothing in the default build, the one the other files
    model.  With ENABLE_KERNEL_DEBUG it is a [serial_printf] on the first serial
    port, whose format the preprocessor pastes together.  This file has that
    expansion and shows that it is harmless where it is used with sound
    arguments: only the line, complete, goes over the wire, unless a number [2^31]
    meets [%d] or [%u].  The functions with [DEBUG] lines are in DebugBuild.v. *)

From stdpp Require Import base numbers list gmap strings.
From S2P Require Import Prelude Machine Libk Screen Serial Printf.

Section Debug.
Context {E : Env}.

Definition debug_prefix : list Z := str "DEBUG: %s:%d:%s(): ".

(** [file], [line] and [func] are [__FILE__], [__LINE__] and [__func__]. *)
Definition DEBUG (file : list Z) (line : Z) (func : list Z) (format : list Z) (args : list vararg) : M unit :=
  serial_printf SERIAL_COM1 (debug_prefix ++ format ++ [10])
    (VStr file :: VWord line :: VStr func :: args).

(** ** What a line looks like *)

Definition debug_line (file : list Z) (line : Z) (func text : list Z) : list Z :=
  str "DEBUG: " ++ file ++ str ":" ++ print_int line ++ str ":" ++ func ++ str "(): " ++ text.

Lemma debug_render file line func format args text :
  0 <= line < 2 ^ 31 -> render (format ++ [10]) args = Some text ->
  render (debug_prefix ++ format ++ [10]) (VStr file :: VWord line :: VStr func :: args) =
    Some (debug_line file line func text).
Proof using.
  intros Hl Hr. unfold render in *. set (f := format ++ [10]) in *.
  assert (Hp : parse_format (debug_prefix ++ f) =
    (DLit <$> str "DEBUG: ") ++ [DConv 115 0; DLit 58; DConv 100 0; DLit 58; DConv 115 0]
    ++ (DLit <$> str "(): ") ++ parse_format f) by reflexivity.
  assert (Hlit : forall l ds a t, render_all ds a = Some t -> render_all ((DLit <$> l) ++ ds) a = Some (l ++ t)).
  { induction l as [|c l IH]; intros ds a t H; [done|]. cbn. by rewrite (IH _ _ _ H). }
  rewrite Hp. unfold debug_line. apply Hlit. cbn [app render_all].
  assert (Hs : forall s a, render_conv 115 0 (VStr s :: a) = Some (s, a)) by done.
  rewrite Hs. cbn [mbind option_bind]. rewrite render_conv_d by lia. cbn [mbind option_bind].
  rewrite Hs. cbn [mbind option_bind]. by rewrite (Hlit _ _ _ _ Hr).
Qed.

(** A [DEBUG] is the [serial_print] of its line. *)
Lemma DEBUG_run file line func (format : list Z) args text s :
  Forall is_byte format -> Z.of_nat (length format) < 2 ^ 31 - 32 -> 0 <= line < 2 ^ 31 ->
  render (format ++ [10]) args = Some text ->
  DEBUG file line func format args s = serial_print SERIAL_COM1 (debug_line file line func text) s.
Proof using.
  intros Hb Hlen Hl Hr.
  assert (Hb' : Forall is_byte (debug_prefix ++ format ++ [10])).
  { rewrite !Forall_app. split; [by apply forallb_bytes|]. split; [done|]. by repeat constructor. }
  assert (Hlen' : Z.of_nat (length (debug_prefix ++ format ++ [10])) < 2 ^ 31).
  { rewrite !length_app. change (length debug_prefix) with 19%nat. cbn [length]. lia. }
  unfold DEBUG, serial_printf, vprintfk.
  rewrite (loop_renders SERIAL_COM1 _ Hb' Hlen' (debug_prefix ++ format ++ [10]) [] _ _ _
    (debug_line file line func text) eq_refl (Nat.lt_succ_diag_r _) (length_replicate 20 0)
    (debug_render file line func format args text Hl Hr) s).
  reflexivity.
Qed.

End Debug.

(** ** The macro and its expansions

    The functions of the debug build take the macro as a parameter.  Beside the
    real expansion there is one that sends nothing and only checks the numbers:
    it faults exactly at a number [2^31] printed with [%d] or [%u], which [itoa]
    would have to negate as an [int]. *)
Class DebugMacro := debug : list Z -> Z -> list Z -> list Z -> list vararg -> M unit.

(** The arguments a conversion takes, and which are left. *)
Definition conv_accepts (conv : Z) (arg : list vararg) : option (list vararg) :=
  if conv =? 37 then Some arg
  else if (conv =? 99) || (conv =? 100) || (conv =? 117) || (conv =? 120) || (conv =? 88) then
    match arg with VWord _ :: arg => Some arg | _ => None end
  else if conv =? 76 then
    match arg with
    | VWord w :: arg => if (u64 w <? 10 ^ 19) && (u64 w `mod` 2 ^ 32 <? 2 ^ 31) then Some arg else None
    | _ => None
    end
  else if conv =? 115 then
    match arg with VStr _ :: arg => Some arg | _ => None end
  else Some arg.

Fixpoint accepts (ds : list directive) (arg : list vararg) : bool :=
  match ds with
  | [] => true
  | DLit _ :: ds => accepts ds arg
  | DConv conv _ :: ds => match conv_accepts conv arg with Some arg => accepts ds arg | None => false end
  end.

(** The number [2^31], and a conversion that cannot print it. *)
Definition unprintable (w : Z) : bool := u32 w =? 2 ^ 31.

Definition conv_overflows (conv : Z) (arg : list vararg) : bool :=
  ((conv =? 100) || (conv =? 117)) && match arg with VWord w :: _ => unprintable w | _ => false end.

Fixpoint overflows (ds : list directive) (arg : list vararg) : bool :=
  match ds with
  | [] => false
  | DLit _ :: ds => overflows ds arg
  | DConv conv _ :: ds =>
      conv_overflows conv arg || match conv_accepts conv arg with Some arg => overflows ds arg | None => false end
  end.

Definition sending {E : Env} : DebugMacro := DEBUG.
Definition checking : DebugMacro := fun file line func format args =>
  if overflows (parse_format (debug_prefix ++ format ++ [10])) (VStr file :: VWord line :: VStr func :: args)
  then throw SignedOverflow else mret tt.

Section Quiet.
Context {E : Env}.

(** [quiet m Q]: [m] returns a value with [Q] after writing to the serial port,
    with nothing else changed. *)
Definition on_port (e : event) : Prop := serial_event SERIAL_COM1 e = true.

Definition quiet {A} (m : M A) (Q : A -> Prop) : Prop := forall s,
  exists a evs, m s = Ret a (set_trace (app evs) s) /\ Forall on_port evs /\ Q a.

(** [outcome b m Q]: overflow when [b], quiet otherwise. *)
Definition outcome {A} (b : bool) (m : M A) (Q : A -> Prop) : Prop :=
  if b then forall s, m s = Fault SignedOverflow else quiet m Q.

(** ** Lemmas: quiet commands *)

Lemma quiet_ret {A} (a : A) (Q : A -> Prop) : Q a -> quiet (mret a) Q.
Proof using. intros Ha s. exists a, []. by destruct s. Qed.

Lemma quiet_bind {A B} (m : M A) (k : A -> M B) Q R :
  quiet m Q -> (forall a, Q a -> quiet (k a) R) -> quiet (m ≫= k) R.
Proof using.
  intros Hm Hk s. destruct (Hm s) as (a & evs & Hr & He & Ha).
  rewrite (bind_ret _ _ _ _ _ Hr). destruct (Hk a Ha (set_trace (app evs) s)) as (b & evs' & Hr' & He' & Hb).
  exists b, (evs' ++ evs). rewrite Hr'. split; [|split; [by apply Forall_app|done]].
  f_equal. destruct s. unfold set_trace. cbn. by rewrite app_assoc.
Qed.

Lemma quiet_equiv {A} (m m' : M A) Q : m ≡ m' -> quiet m' Q -> quiet m Q.
Proof using. intros He Hm s. rewrite (He s). apply Hm. Qed.

Lemma quiet_iterM {A} (f : A -> M unit) l : (forall x, quiet (f x) (fun _ => True)) -> quiet (iterM f l) (fun _ => True).
Proof using.
  intros Hf. induction l as [|x l IH]; [by apply quiet_ret|]. cbn [iterM].
  eapply quiet_bind; [apply Hf|]. by intros _ _.
Qed.

Lemma outcome_equiv {A} b (m m' : M A) Q : m ≡ m' -> outcome b m' Q -> outcome b m Q.
Proof using. destruct b; [intros He Hm s; rewrite (He s); apply Hm|apply quiet_equiv]. Qed.

Lemma outcome_bind {A B} b c (m : M A) (k : A -> M B) Q R :
  outcome b m Q -> (forall a, Q a -> outcome c (k a) R) -> outcome (b || c) (m ≫= k) R.
Proof using.
  destruct b; cbn [orb outcome]; intros Hm Hk; [intros s; by apply bind_fault|].
  destruct c; cbn [outcome] in *; [|by eapply quiet_bind].
  intros s. destruct (Hm s) as (a & evs & Hr & _ & Ha). rewrite (bind_ret _ _ _ _ _ Hr). by apply Hk.
Qed.

(** ** Lemmas: the formatter is quiet *)

Context {T : TxReady E}.

Lemma putchark_quiet c : quiet (putchark SERIAL_COM1 c) (fun _ => True).
Proof using T.
  intros s. unfold putchark. change (DEVICE_SCREEN <? SERIAL_COM1) with true. cbn iota.
  change (u16 SERIAL_COM1) with SERIAL_COM1.
  destruct (serial_write_sends SERIAL_COM1 c s) as (evs & -> & He & _); [vm_compute; split; [discriminate|reflexivity]|].
  by exists tt, evs.
Qed.

(** The arguments left, and a buffer of the same size. *)
Definition leaves (arg : list vararg) (r : list vararg * list Z) : Prop := r.1 = arg /\ length r.2 = 20%nat.

Lemma prints_quiet m text arg :
  prints SERIAL_COM1 m text arg -> quiet m (leaves arg).
Proof using T.
  intros (v & Hv & Hm). apply (quiet_equiv _ _ _ Hm).
  eapply quiet_bind; [apply quiet_iterM, putchark_quiet|]. intros _ _. by apply quiet_ret.
Qed.

Lemma signed_number_quiet n arg (s_val : list Z) :
  length s_val = 20%nat -> - 2 ^ 31 < n < 2 ^ 31 ->
  quiet (s_val ← lift (itoa n s_val 10); putsk SERIAL_COM1 (cstring s_val) ;; mret (arg, s_val))
    (leaves arg).
Proof using T.
  intros Hs Hn. destruct (itoa_decimal n s_val) as (rest & Hi & Hl); [lia..|].
  eapply quiet_equiv; [by rewrite (lift_ok _ _ _ Hi)|].
  apply (prints_quiet _ (print_int n)). apply puts_number; [apply print_int_nonzero|lia].
Qed.

Lemma unprintable_least w : unprintable w = true <-> s32 w = - 2 ^ 31.
Proof using. unfold unprintable. rewrite Z.eqb_eq. split; intros He; word_lia. Qed.

(** The one number [itoa] cannot negate. *)
Lemma conv_overflow conv pad arg (s_val : list Z) s :
  conv_overflows conv arg = true -> vprintfk_conv SERIAL_COM1 conv pad arg s_val s = Fault SignedOverflow.
Proof using.
  unfold conv_overflows. intros [Hc Hw]%andb_true_iff. destruct arg as [|[w|] arg]; try done.
  apply unprintable_least in Hw. apply orb_true_iff in Hc as [->%Z.eqb_eq| ->%Z.eqb_eq];
    unfold vprintfk_conv; cbn [Z.eqb Pos.eqb orb]; rewrite (ret_bind (w, arg) _ s); cbv beta iota zeta.
  - by rewrite Hw.
  - replace (s32 (u32 w)) with (- 2 ^ 31) by word_lia. reflexivity.
Qed.

Lemma conv_outcome conv pad arg arg' (s_val : list Z) :
  length s_val = 20%nat -> 0 <= pad < 256 -> conv_accepts conv arg = Some arg' ->
  outcome (conv_overflows conv arg) (vprintfk_conv SERIAL_COM1 conv pad arg s_val) (leaves arg').
Proof using T.
  intros Hs Hp Ha. destruct (conv_overflows conv arg) eqn:Ho; [intros s; by apply conv_overflow|].
  destruct (render_conv conv pad arg) as [[text rest]|] eqn:Hr.
  { assert (rest = arg') as ->.
    { revert Ha Hr. unfold conv_accepts, render_conv. clear Ho.
      destruct (conv =? 37), (conv =? 99), (conv =? 100), (conv =? 117), (conv =? 120), (conv =? 76), (conv =? 88),
        (conv =? 115); cbn [orb]; destruct arg as [|[] ?]; try congruence;
        repeat (case_match; try congruence). }
    by eapply prints_quiet, vprintfk_conv_renders. }
  revert Ha Hr. cbn [outcome]. unfold conv_accepts, render_conv, vprintfk_conv.
  destruct (Z.eqb_spec conv 37); [done|]. destruct (Z.eqb_spec conv 99) as [->|].
  { destruct arg as [|[]]; done. }
  unfold conv_overflows in Ho. destruct (Z.eqb_spec conv 100) as [->|].
  { cbn [orb andb] in *. destruct arg as [|[w|]]; try done. intros [= <-].
    destruct (Z.eqb_spec (s32 w) (- 2 ^ 31)) as [E1|]; [|done].
    apply unprintable_least in E1. by rewrite E1 in Ho. }
  pose proof (fun w => s32_range w) as Hrange.
  destruct (Z.eqb_spec conv 117) as [->|].
  { cbn [orb andb] in *. destruct arg as [|[w|]]; try done. intros [= <-]. intros _.
    eapply quiet_equiv; [apply ret_bind|]. cbv beta iota zeta.
    apply signed_number_quiet; [done|]. specialize (Hrange (u32 w)).
    assert (s32 w <> - 2 ^ 31) by (intros E1%unprintable_least; by rewrite E1 in Ho).
    assert (s32 (u32 w) = s32 w) by word_lia. lia. }
  destruct (Z.eqb_spec conv 120) as [->|].
  { cbn [orb]. destruct arg as [|[w|]]; try done. intros [= <-]. destruct (Z.ltb_spec (u32 w) (2 ^ 31)); [done|].
    intros _. eapply quiet_equiv; [apply ret_bind|]. cbv beta iota zeta.
    pose proof (u32_range w). destruct s_val as [|x [|y s_val]]; [done|done|]. cbn [length] in Hs.
    assert (Hneg : - 2 ^ 31 <= s32 (u32 w) < 0) by word_lia.
    eapply quiet_equiv; [rewrite (lift_ok _ _ _ (itoa_hex_negative _ x y s_val Hneg ltac:(lia))); reflexivity|].
    apply (prints_quiet _ [digit_char (Z.rem (s32 (u32 w)) 16)]).
    apply (puts_number SERIAL_COM1 [_] s_val); [|done].
    apply Forall_cons. split; [|by apply Forall_nil]. apply digit_char_rem_nonzero. lia. }
  clear Ho. cbn [orb]. destruct (Z.eqb_spec conv 88) as [->|]; [by destruct arg as [|[]]|]. cbn [orb].
  destruct (conv =? 76); [destruct arg as [|[w|]]; try done; by destruct (_ && _)|].
  by destruct (conv =? 115), arg as [|[]].
Qed.

Lemma loop_outcome (format : list Z) :
  Forall is_byte format -> Z.of_nat (length format) < 2 ^ 31 ->
  forall rest pre fuel arg (s_val : list Z),
    format = pre ++ rest -> (length rest < fuel)%nat -> length s_val = 20%nat ->
    accepts (parse_format rest) arg = true ->
    outcome (overflows (parse_format rest) arg)
      (vprintfk_loop fuel SERIAL_COM1 format (Z.of_nat (length pre)) arg s_val) (fun _ => True).
Proof using T.
  intros Hbytes Hlen rest.
  induction rest as [rest IH] using (Wf_nat.induction_ltof1 _ (@length Z)); unfold Wf_nat.ltof in IH.
  intros pre [|fuel] arg s_val Hf Hfuel Hs Ha; [lia|].
  assert (Hend : forall fuel i arg (v : list Z), Z.of_nat (length format) <= i ->
    quiet (vprintfk_loop (S fuel) SERIAL_COM1 format i arg v) (fun _ => True)).
  { intros f i a v Hi. eapply quiet_equiv; [by apply loop_end|]. by apply quiet_ret. }
  destruct rest as [|c rest]; cbn [length] in *; [apply Hend; rewrite Hf, app_nil_r; lia|].
  assert (Hb : forall x, x ∈ c :: rest -> is_byte x).
  { intros x Hx. rewrite Forall_forall in Hbytes. apply Hbytes. rewrite Hf. apply elem_of_app. by right. }
  (* One conversion and the rest. *)
  assert (Hconv : forall conv pad i more, 0 <= pad < 256 -> accepts (DConv conv pad :: parse_format more) arg = true ->
    (forall arg' (v : list Z), length v = 20%nat -> accepts (parse_format more) arg' = true ->
       outcome (overflows (parse_format more) arg') (vprintfk_loop fuel SERIAL_COM1 format i arg' v) (fun _ => True)) ->
    outcome (overflows (DConv conv pad :: parse_format more) arg)
      ('(arg, s_val) ← vprintfk_conv SERIAL_COM1 conv pad arg s_val;
       vprintfk_loop fuel SERIAL_COM1 format i arg s_val) (fun _ => True)).
  { intros conv pad i more Hp Hm Hk. cbn [accepts overflows] in *.
    destruct (conv_accepts conv arg) as [arg'|] eqn:E1; [|done].
    eapply outcome_bind; [by apply conv_outcome|]. intros [a v] [Ea Hv]. cbn in Ea, Hv. subst a. by apply Hk. }
  cbn [parse_format] in *. destruct (Z.eqb_spec c 37) as [->|Hc].
  2: { eapply outcome_equiv; [by apply (loop_lit _ _ format pre rest)|]. cbn [overflows accepts] in *.
    apply (outcome_bind false _ _ _ (fun _ => True)); [apply putchark_quiet|]. intros _ _.
    apply (IH rest); (done || lia || by rewrite Hf, <- app_assoc). }
  destruct rest as [|d rest].
  { eapply outcome_equiv; [by apply (loop_conv _ _ format pre [] 0); (done || by rewrite Hf, <- app_assoc)|].
    destruct fuel; [cbn [length] in *; lia|]. apply (Hconv 0 0 _ []); [lia|done|].
    intros a v _ _. apply Hend. rewrite Hf, !length_app. cbn [length]. lia. }
  destruct (is_digit_char d) eqn:Hd.
  2: { eapply outcome_equiv; [apply (loop_conv _ _ format pre (rest ++ [0]) d);
      (done || (apply Hb; set_solver) || by rewrite Hf, <- app_assoc)|].
    apply (Hconv d 0 _ rest); [lia|exact Ha|]. intros a v Hv Hacc. cbn [length] in *.
    apply (IH rest); (done || lia || by rewrite Hf, <- app_assoc). }
  destruct rest as [|e rest].
  { eapply outcome_equiv; [apply (loop_conv_pad _ _ format pre [] d 0);
      (done || (apply Hb; set_solver) || by rewrite Hf, <- app_assoc)|].
    unfold is_digit_char in Hd. bools. destruct fuel; [cbn [length] in *; lia|].
    apply (Hconv 0 (d - 48) _ []); [lia|done|].
    intros a v _ _. apply Hend. rewrite Hf, !length_app. cbn [length]. lia. }
  eapply outcome_equiv; [apply (loop_conv_pad _ _ format pre (rest ++ [0]) d);
    (done || (apply Hb; set_solver) || by rewrite Hf, <- app_assoc)|].
  unfold is_digit_char in Hd. bools. apply (Hconv e (d - 48) _ rest); [lia|exact Ha|].
  intros a v Hv Hacc. cbn [length] in *. apply (IH rest); (done || lia || by rewrite Hf, <- app_assoc).
Qed.

(** What the real line does, by what the checking one does: overflow, or output. *)
Definition line_checked (d dc : M unit) : Prop :=
  exists b : bool, outcome b d (fun _ => True) /\ dc = if b then throw SignedOverflow else mret tt.

(** A [DEBUG] whose arguments have the types its format says. *)
Lemma DEBUG_checked file line func (format : list Z) args :
  forallb (fun c => (0 <=? c) && (c <? 256)) format = true -> Z.of_nat (length format) < 2 ^ 31 - 32 ->
  accepts (parse_format (debug_prefix ++ format ++ [10])) (VStr file :: VWord line :: VStr func :: args) = true ->
  line_checked (sending file line func format args) (checking file line func format args).
Proof using T.
  intros Hb Hl Ha. eexists. split; [|reflexivity]. unfold sending, DEBUG, serial_printf, vprintfk.
  refine (loop_outcome (debug_prefix ++ format ++ [10]) _ _ (debug_prefix ++ format ++ [10]) [] _ _ _ eq_refl _ _ Ha).
  - rewrite !Forall_app. split; [by apply forallb_bytes|]. split; [by apply forallb_bytes|].
    by repeat constructor.
  - rewrite !length_app. change (length debug_prefix) with 19%nat. cbn [length]. lia.
  - lia.
  - by rewrite length_replicate.
Qed.

End Quiet.

(** ** Properties *)

(** In the debug build, with the port set up and a transmitter that always
    becomes ready, a [DEBUG] whose format and arguments have a meaning returns,
    transmits exactly "DEBUG: file:line:function(): " and its text, and changes
    nothing else of the machine, so the kernel computes what it computes in the
    default build. *)
Theorem DEBUG_transmits {E : Env} {T : TxReady E} file line func (format : list Z) args text s :
  Forall is_byte format -> Z.of_nat (length format) < 2 ^ 31 - 32 -> 0 <= line < 2 ^ 31 ->
  render (format ++ [10]) args = Some text ->
  uart_dlab (uart SERIAL_COM1 (trace s)) = false ->
  exists tr', DEBUG file line func format args s = Ret tt (set_trace (fun _ => tr') s)
    /\ reverse (uart_tx (uart SERIAL_COM1 tr')) =
         reverse (uart_tx (uart SERIAL_COM1 (trace s))) ++ (u8 <$> debug_line file line func text)
    /\ uart_dlab (uart SERIAL_COM1 tr') = false.
Proof.
  intros Hb Hlen Hl Hr Hd.
  pose proof (DEBUG_run file line func format args text s Hb Hlen Hl Hr) as Hrun.
  destruct (serial_print_run SERIAL_COM1 (debug_line file line func text) s) as (tr' & Hp & Hu);
    [vm_compute; split; [discriminate|reflexivity]|done|].
  exists tr'. rewrite Hrun. split; [exact Hp|]. rewrite Hu. unfold sent. cbn [uart_tx].
  by rewrite reverse_app, reverse_involutive.
Qed.

Lemma DEBUG_transmits_witness :
  exists tr', DEBUG (str "src/mmu/mmap.c") 84 (str "mmap_allocate_frame") (str "current_addr = 0x%x")
      [VWord 0x5000] (blank_state ∅) = Ret tt (set_trace (fun _ => tr') (blank_state ∅))
    /\ reverse (uart_tx (uart SERIAL_COM1 tr')) =
         [] ++ (u8 <$> str "DEBUG: src/mmu/mmap.c:84:mmap_allocate_frame(): current_addr = 0x5000" ++ [10]).
Proof.
  destruct (DEBUG_transmits (str "src/mmu/mmap.c") 84 (str "mmap_allocate_frame")
    (str "current_addr = 0x%x") [VWord 0x5000] (str "current_addr = 0x5000" ++ [10]) (blank_state ∅))
    as (tr' & Hr & Ht & _).
  - by apply forallb_bytes.
  - vm_compute. reflexivity.
  - lia.
  - vm_compute. reflexivity.
  - reflexivity.
  - exists tr'. split; [exact Hr|exact Ht].
Defined.
