(* ===== verification/Idt.v ===== *)
(** * The interrupt descriptor table: src/core/idt.c

    [set_idt_gate] and [set_idt], and the table as the processor reads it: the
    structs of include/core/idt.h are laid out in bytes, bit fields low bit
    first, and [hw_gate] decodes sixteen of those bytes the way the AMD64
    manual describes a long-mode gate descriptor. *)

From stdpp Require Import base numbers list gmap.
From S2P Require Import Prelude Machine.

Definition IDT_ENTRIES : Z := 256.

(** What the linker and the compiler decide: where the table and the entry
    stubs of asm/interrupt.asm are, and the line [__LINE__] stands for in the
    many-line call of [PANIC] in isr_handler, and the build's date and time. *)
Class Build := {
  idt_addr : Z;
  isr_stub : Z -> Z;
  irq_stub : Z -> Z;
  isr_panic_line : Z;
  build_date : list Z;
  build_time : list Z
}.

(** Assignment to a bit field of [w] bits. *)
Definition bitfield (w v : Z) : Z := v `mod` 2 ^ w.

Definition set_idt_gate (n handler : Z) : M unit :=
  let n := u16 n in
  if n <? IDT_ENTRIES then
    modify (set_idt_table (fun idt => <[Z.to_nat n :=
      IdtGate (u16 handler) (u16 0x08)
        (Opts (bitfield 3 0) (bitfield 5 0) (bitfield 1 0x01) (bitfield 3 0x07)
              (bitfield 1 0) (bitfield 2 3) (bitfield 1 1))
        (u16 (Z.shiftr handler 16)) (u32 (Z.shiftr handler 32))
        (bitfield 8 0) (bitfield 5 0) (bitfield 19 0)]> idt))
  else throw OutOfBounds.

(** [sizeof(idt_gate_t)]. *)
Definition sizeof_idt_gate_t : Z := 16.

Definition set_idt `{Build} : M unit :=
  modify (set_idt_reg (IdtRegister (u16 (IDT_ENTRIES * sizeof_idt_gate_t - 1)) (u64 idt_addr))) ;;
  r ← gets idt_reg;
  log (Lidt (base r) (length_ r)).

(** ** The table in bytes *)

Definition opts_bytes (o : opts_t) : list Z :=
  [stack_OK o + 8 * ZEROS o;
   gate_type o + 2 * ONES o + 16 * ZERO o + 32 * DPL o + 128 * present o].

Definition gate_bytes (g : idt_gate_t) : list Z :=
  le_bytes 2 (ptr_low g) ++ le_bytes 2 (selector g) ++ opts_bytes (opts g)
  ++ le_bytes 2 (ptr_mid g) ++ le_bytes 4 (ptr_high g)
  ++ le_bytes 4 (_1_reserved g + 256 * _type g + 2 ^ 13 * _2_reserved g).

Definition idt_bytes (gates : list idt_gate_t) : list Z := concat (gate_bytes <$> gates).

(** ** A gate as the processor understands it *)

Record hw_gate_t := HwGate {
  hw_present : bool;
  hw_offset : Z;
  hw_selector : Z;
  hw_ist : Z;
  hw_type : Z;           (* with the S bit: 0x0E interrupt gate, 0x0F trap gate *)
  hw_dpl : Z
}.

Definition byte_at (bs : list Z) (i : nat) : Z := nth i bs 0.

Definition decode_gate (bs : list Z) : hw_gate_t :=
  HwGate (Z.testbit (byte_at bs 5) 7)
    (le_val (take 2 bs) + 2 ^ 16 * le_val (take 2 (drop 6 bs)) + 2 ^ 32 * le_val (take 4 (drop 8 bs)))
    (le_val (take 2 (drop 2 bs)))
    (byte_at bs 4 `mod` 8)
    (byte_at bs 5 `mod` 32)
    ((byte_at bs 5 / 32) `mod` 4).

(** The descriptor the processor fetches for a vector: none when it lies
    beyond the limit loaded by [lidt]. *)
Definition hw_gate (s : kstate) (v : Z) : option hw_gate_t :=
  if 16 * v + 15 <=? length_ (idt_reg s) then
    Some (decode_gate (take 16 (drop (Z.to_nat (16 * v)) (idt_bytes (idt s)))))
  else None.

(** What the kernel means to install. *)
Definition kernel_gate (handler : Z) : hw_gate_t := HwGate true handler 0x08 0 0x0F 3.

(** ** Lemmas *)

Lemma length_gate_bytes g : length (gate_bytes g) = 16%nat.
Proof. done. Qed.

Lemma idt_bytes_lookup gates (v : nat) g :
  gates !! v = Some g -> take 16 (drop (16 * v) (idt_bytes gates)) = gate_bytes g.
Proof.
  revert v; induction gates as [|g' gates IH]; intros v Hv; [done|].
  unfold idt_bytes. cbn [fmap list_fmap concat]. destruct v as [|v].
  - injection Hv as ->. rewrite Nat.mul_0_r, drop_0. by rewrite take_app_length'.
  - rewrite drop_app_ge by (rewrite length_gate_bytes; lia).
    rewrite length_gate_bytes. replace (16 * S v - 16)%nat with (16 * v)%nat by lia.
    by apply IH.
Qed.

Lemma hw_gate_lookup s (v : nat) g :
  idt s !! v = Some g -> 16 * Z.of_nat v + 15 <= length_ (idt_reg s) ->
  hw_gate s (Z.of_nat v) = Some (decode_gate (gate_bytes g)).
Proof.
  intros Hg Hv. unfold hw_gate. rewrite (proj2 (Z.leb_le _ _)) by done.
  replace (Z.to_nat (16 * Z.of_nat v)) with (16 * v)%nat by lia.
  by rewrite (idt_bytes_lookup _ _ _ Hg).
Qed.

Definition new_gate (handler : Z) : idt_gate_t :=
  IdtGate (u16 handler) 8 (Opts 0 0 1 7 0 3 1) (u16 (Z.shiftr handler 16))
    (u32 (Z.shiftr handler 32)) 0 0 0.

Lemma set_idt_gate_run n handler s :
  0 <= n < IDT_ENTRIES ->
  set_idt_gate n handler s = Ret tt (set_idt_table (<[Z.to_nat n := new_gate handler]>) s).
Proof.
  unfold IDT_ENTRIES. intros Hn. unfold set_idt_gate. cbn zeta. rewrite u16_small by lia.
  by rewrite (proj2 (Z.ltb_lt n _)) by (unfold IDT_ENTRIES; lia).
Qed.

Lemma decode_new_gate handler :
  decode_gate (gate_bytes (new_gate handler)) = kernel_gate (u64 handler).
Proof.
  unfold decode_gate, kernel_gate. f_equal.
  unfold gate_bytes, new_gate. cbn -[Z.modulo Z.div Z.add Z.mul Z.pow u16 u32 u64 Z.shiftr].
  rewrite !Z.shiftr_div_pow2 by lia. word_lia.
Qed.

Lemma decode_null_gate : hw_present (decode_gate (gate_bytes null_gate)) = false.
Proof. reflexivity. Qed.

Lemma set_idt_run `{Build} s :
  set_idt s = Ret tt (set_trace (cons (Lidt (u64 idt_addr) 4095))
    (set_idt_reg (IdtRegister 4095 (u64 idt_addr)) s)).
Proof. done. Qed.

(** ** Properties *)

(** C36: the processor finds in the table what [set_idt_gate] was told: with the
    register loaded, vector [n] is a present gate to the full 64-bit handler
    address in the kernel's code segment, callable from ring 3, without stack
    switch, and no other vector changes.  The gate is a trap gate (type
    [0xF]), although the comment at the assignment says [1 = interrupt]. *)
Theorem set_idt_gate_decodes n handler s :
  0 <= n < IDT_ENTRIES -> 0 <= handler < 2 ^ 64 ->
  length (idt s) = 256%nat -> length_ (idt_reg s) = 4095 ->
  exists s', set_idt_gate n handler s = Ret tt s'
    /\ hw_gate s' n = Some (kernel_gate handler)
    /\ forall m, 0 <= m -> m <> n -> hw_gate s' m = hw_gate s m.
Proof.
  intros Hn Hh Hlen Hreg. unfold IDT_ENTRIES in Hn. eexists. split; [by apply set_idt_gate_run|]. split.
  - rewrite <- (Z2Nat.id n) at 2 by lia. rewrite (hw_gate_lookup _ _ (new_gate handler)).
    + by rewrite decode_new_gate, u64_small.
    + simpl_state. apply list_lookup_insert_eq. lia.
    + simpl_state. lia.
  - intros m Hm Hne. destruct (decide (m < 256)) as [Hlt|Hge].
    + destruct (lookup_lt_is_Some_2 (idt s) (Z.to_nat m)) as [g Hg]; [lia|].
      rewrite <- (Z2Nat.id m) by lia. rewrite !(hw_gate_lookup _ _ g); simpl_state; try (done || lia).
      by rewrite list_lookup_insert_ne by lia.
    + unfold hw_gate. simpl_state. rewrite Hreg. by rewrite (proj2 (Z.leb_gt _ _)) by lia.
Qed.

Lemma set_idt_gate_decodes_witness :
  exists s', set_idt_gate 14 0xFFFF800012345678
      (set_idt_reg (IdtRegister 4095 0x1000) (blank_state ∅)) = Ret tt s'
    /\ hw_gate s' 14 = Some (kernel_gate 0xFFFF800012345678).
Proof.
  destruct (set_idt_gate_decodes 14 0xFFFF800012345678
    (set_idt_reg (IdtRegister 4095 0x1000) (blank_state ∅))) as (s' & Hrun & Hgate & _).
  - unfold IDT_ENTRIES; lia.
  - lia.
  - reflexivity.
  - reflexivity.
  - exists s'. split; [exact Hrun|exact Hgate].
Defined.
