(* ===== verification/Isr.v ===== *)
(** * Interrupts and panic: src/core/isr.c, src/kernel/panic.c

    Programming of the two interrupt controllers, the gates, the table of
    registered handlers and the two C entry points the stubs of
    asm/interrupt.asm call.  A registered handler is called through
    [call_isr], the meaning of a function pointer, which Kernel.v defines from
    the handlers of the other components.

    The 8259A controllers are modelled from the writes in the trace ([pic]),
    and the stack an interrupt leaves from the pushes of the processor and of
    the stub ([interrupt_frame]). *)

From stdpp Require Import base numbers list gmap strings.
From S2P Require Import Prelude Machine Libk Screen Printf Idt.

Definition PIC1 : Z := 0x20.
Definition PIC2 : Z := 0xA0.
Definition PIC1_DATA : Z := PIC1 + 1.
Definition PIC2_DATA : Z := PIC2 + 1.
Definition PIC_EOI : Z := 0x20.
Definition IRQ_BASE : Z := 0x20.
Definition EXCEPTION_BP : Z := 3.
Definition IRQ0 : Z := 32.
Definition IRQ1 : Z := 33.
Definition IRQ2 : Z := 34.
Definition IRQ3 : Z := 35.
Definition IRQ4 : Z := 36.
Definition NB_REGISTERS_PUSHED_BEFORE_CALL : Z := 15.

Definition exception_messages : list (list Z) :=
  str <$>
  ["Division By Zero"; "Debug"; "Non Maskable Interrupt"; "Breakpoint";
   "Into Detected Overflow"; "Out of Bounds"; "Invalid Opcode"; "No Coprocessor";
   "Double Fault"; "Coprocessor Segment Overrun"; "Bad TSS"; "Segment Not Present";
   "Stack Fault"; "General Protection Fault"; "Page Fault"; "Unknown Interrupt";
   "Coprocessor Fault"; "Alignment Check"; "Machine Check"; "Reserved";
   "Reserved"; "Reserved"; "Reserved"; "Reserved";
   "Reserved"; "Reserved"; "Reserved"; "Reserved";
   "Reserved"; "Reserved"; "Reserved"; "Reserved"]%string.

(** ** sti and cli *)

Definition irq_init : M unit := log Sti ;; modify (set_iflag true).
Definition irq_disable : M unit := log Cli ;; modify (set_iflag false).

(** ** The table of handlers *)

Definition register_interrupt_handler (id : Z) (handler : isr_t) : M unit :=
  if u64 id <? 256 then modify (set_handlers (<[Z.to_nat (u64 id) := handler]>))
  else throw OutOfBounds.

(** [interrupt_handlers[id]] *)
Definition get_handler (id : Z) : M isr_t :=
  hs ← gets interrupt_handlers;
  match hs !! Z.to_nat id with Some h => mret h | None => throw OutOfBounds end.

(** ** The saved context *)

(** The address of the [stack_t] the processor pushed. *)
Definition get_stack (id stack_addr : Z) : Z :=
  let stack_addr :=
    if (id =? 8) || (id =? 10) || (id =? 11) || (id =? 12) || (id =? 13) || (id =? 14) || (id =? 17)
    then u64 (stack_addr + 8) else stack_addr in
  u64 (stack_addr + NB_REGISTERS_PUSHED_BEFORE_CALL * 8).

(** The five fields of [stack_t], in the order the messages print them. *)
Definition load_stack (stack : Z) : M (list vararg) :=
  instruction_pointer ← load64 stack;
  code_segment ← load64 (stack + 8);
  cpu_flags ← load64 (stack + 16);
  stack_pointer ← load64 (stack + 24);
  stack_segment ← load64 (stack + 32);
  mret [VWord instruction_pointer; VWord code_segment; VWord cpu_flags;
        VWord stack_pointer; VWord stack_segment].

(** ** Entry points *)

Class Handlers := call_isr : isr_t -> Z -> M unit.

Definition nl : list Z := [10].

Section Isr.
Context {E : Env} {B : Build}.

(** [while (1) ;] *)
Definition halt : M unit := fun s => Halted s.

Definition kernel_panic (format : list Z) (arg : list vararg) : M unit :=
  vprintfk DEVICE_SCREEN format arg ;;
  printfk (nl ++ str "System halted!" ++ nl) [] ;;
  irq_disable ;;
  halt.

(** [PANIC(format, args)] with the [__FILE__], [__LINE__] and [__func__] of its
    place. *)
Definition PANIC (file : list Z) (line : Z) (func format : list Z) (arg : list vararg) : M unit :=
  kernel_panic (nl ++ str "PANIC in %s:%d:%s(): " ++ format ++ nl ++ str "%s")
    ([VStr file; VWord line; VStr func] ++ arg ++ [VStr []]).

Definition breakpoint_format : list Z :=
  str "Exception: BREAKPOINT" ++ nl
  ++ str "  instruction_pointer = 0x%X" ++ nl
  ++ str "  code_segment        = 0x%X" ++ nl
  ++ str "  cpu_flags           = 0x%X" ++ nl
  ++ str "  stack_pointer       = 0x%X" ++ nl
  ++ str "  stack_segment       = 0x%X" ++ nl.

Definition breakpoint_handler (stack : Z) : M unit :=
  fields ← load_stack stack;
  printfk breakpoint_format fields.

Definition isr_init : M unit :=
  port_byte_out PIC1 0x11 ;;
  port_byte_out PIC2 0x11 ;;
  port_byte_out PIC1_DATA IRQ_BASE ;;
  port_byte_out PIC2_DATA (IRQ_BASE + 8) ;;
  port_byte_out PIC1_DATA 0x04 ;;
  port_byte_out PIC2_DATA 0x02 ;;
  port_byte_out PIC1_DATA 0x01 ;;
  port_byte_out PIC2_DATA 0x01 ;;
  port_byte_out PIC1_DATA 0x00 ;;
  port_byte_out PIC2_DATA 0x00 ;;
  iterM (fun n => set_idt_gate n (u64 (isr_stub n)))
    [0; 1; 2; 3; 4; 5; 6; 7; 8; 9; 10; 11; 12; 13; 14; 15;
     16; 17; 18; 19; 20; 21; 22; 23; 24; 25; 26; 27; 28; 29; 30; 31] ;;
  iterM (fun n => set_idt_gate n (u64 (irq_stub (n - IRQ0)))) [IRQ0; IRQ1; IRQ2; IRQ3; IRQ4] ;;
  register_interrupt_handler EXCEPTION_BP isr_breakpoint_handler ;;
  set_idt.

Context {H : Handlers}.

Definition isr_format : list Z :=
  str "Received interrupt: %d - %s" ++ nl ++ nl
  ++ str "  instruction_pointer = 0x%X" ++ nl
  ++ str "  code_segment        = 0x%X" ++ nl
  ++ str "  cpu_flags           = 0x%X" ++ nl
  ++ str "  stack_pointer       = 0x%X" ++ nl
  ++ str "  stack_segment       = 0x%X".

Definition isr_handler (id stack_addr : Z) : M unit :=
  let stack := get_stack id stack_addr in
  h ← get_handler id;
  match h with
  | isr_null =>
      match exception_messages !! Z.to_nat id with
      | Some message =>
          fields ← load_stack stack;
          PANIC (str "src/core/isr.c") isr_panic_line (str "isr_handler") isr_format
            (VWord id :: VStr message :: fields)
      | None => throw OutOfBounds
      end
  | h => call_isr h (get_stack id stack_addr)
  end.

Definition irq_handler (id stack_addr : Z) : M unit :=
  (if 40 <=? id then port_byte_out PIC2 PIC_EOI else mret tt) ;;
  port_byte_out PIC1 PIC_EOI ;;
  h ← get_handler id;
  match h with
  | isr_null => mret tt
  | h => call_isr h (get_stack id stack_addr)
  end.

End Isr.

(** ** The interrupt controllers *)

(** An 8259A: the initialisation word it expects next on its data port (0 when
    it is initialised), what the words set, the mask, and the lines in service,
    highest priority first. *)
Record pic_t := Pic {
  pic_icw1 : Z;
  pic_next : Z;
  pic_base : Z;
  pic_cascade : Z;
  pic_mode : Z;
  pic_mask : Z;
  pic_isr : list Z
}.

Definition pic_command (d : Z) (p : pic_t) : pic_t :=
  if Z.testbit d 4 then Pic d 2 (pic_base p) (pic_cascade p) (pic_mode p) 0 []
  else if d =? 0x20 then
    Pic (pic_icw1 p) (pic_next p) (pic_base p) (pic_cascade p) (pic_mode p) (pic_mask p) (tail (pic_isr p))
  else p.

Definition pic_data (d : Z) (p : pic_t) : pic_t :=
  let after3 := if Z.testbit (pic_icw1 p) 0 then 4 else 0 in
  let after2 := if Z.testbit (pic_icw1 p) 1 then after3 else 3 in
  if pic_next p =? 2 then
    Pic (pic_icw1 p) after2 (Z.land d 0xF8) (pic_cascade p) (pic_mode p) (pic_mask p) (pic_isr p)
  else if pic_next p =? 3 then
    Pic (pic_icw1 p) after3 (pic_base p) d (pic_mode p) (pic_mask p) (pic_isr p)
  else if pic_next p =? 4 then
    Pic (pic_icw1 p) 0 (pic_base p) (pic_cascade p) d (pic_mask p) (pic_isr p)
  else
    Pic (pic_icw1 p) (pic_next p) (pic_base p) (pic_cascade p) (pic_mode p) d (pic_isr p).

Definition pic_step (port : Z) (e : event) (p : pic_t) : pic_t :=
  match e with
  | Out8 q d => if q =? port then pic_command d p else if q =? port + 1 then pic_data d p else p
  | _ => p
  end.

(** The controller after more events, newest first. *)
Definition pic_after (port : Z) (p : pic_t) (evs : list event) : pic_t :=
  foldr (pic_step port) p evs.

(** ** The stack at an interrupt *)

Definition push64 (v : Z) (st : gmap Z Z * Z) : gmap Z Z * Z :=
  (write_bytes st.1 (st.2 - 8) (le_bytes 8 v), st.2 - 8).

(** The exceptions with which the processor pushes an error code, as the
    manuals list them; the last three came with newer processors: control
    protection, VMM communication and security. *)
Definition error_code_vectors : list Z := [8; 10; 11; 12; 13; 14; 17; 21; 29; 30].

(** Those [get_stack] does not know. *)
Definition missed_vectors : list Z := [21; 29; 30].

(** The processor aligns the stack and pushes five words and perhaps an error
    code; the stub pushes the fifteen registers [regs], and passes the stack
    pointer to C. *)
Definition interrupt_pushes (id rip cs flags rsp ss err : Z) (regs : list Z) : list Z :=
  [ss; rsp; flags; cs; rip] ++ (if bool_decide (id ∈ error_code_vectors) then [err] else []) ++ regs.

Definition interrupt_frame (id rip cs flags rsp ss err : Z) (regs : list Z) (m : gmap Z Z)
  : gmap Z Z * Z :=
  foldl (fun st v => push64 v st) (m, rsp - rsp `mod` 16)
    (interrupt_pushes id rip cs flags rsp ss err regs).

(** ** Lemmas: pushes *)

Lemma pushes_sp l : forall st,
  (foldl (fun st v => push64 v st) st l).2 = st.2 - 8 * Z.of_nat (length l).
Proof. induction l as [|v l IH]; intros st; cbn [foldl length]; [lia|]. rewrite IH. simpl. lia. Qed.

Lemma pushes_above l : forall st b n,
  st.2 <= b -> read_bytes (foldl (fun st v => push64 v st) st l).1 b n = read_bytes st.1 b n.
Proof.
  induction l as [|v l IH]; intros st b n Hb; cbn [foldl]; [done|].
  rewrite IH by (simpl; lia). apply read_write_out. rewrite length_le_bytes. lia.
Qed.

Lemma pushes_lookup l : forall st (i : nat) v,
  l !! i = Some v ->
  le_val (read_bytes (foldl (fun st v => push64 v st) st l).1 (st.2 - 8 * (Z.of_nat i + 1)) 8) = u64 v.
Proof.
  induction l as [|x l IH]; intros st i v Hi; [done|]. cbn [foldl]. destruct i as [|i].
  - injection Hi as ->. rewrite pushes_above by (cbn [push64 snd]; lia). cbn [push64 fst].
    pose proof (read_write_same st.1 (st.2 - 8) (le_bytes 8 v)) as Hr.
    rewrite length_le_bytes in Hr. change (st.2 - 8 * (Z.of_nat 0 + 1)) with (st.2 - 8).
    by rewrite Hr, le_val_bytes.
  - specialize (IH (push64 x st) i v Hi). rewrite <- IH. do 2 f_equal. cbn [push64 snd]. lia.
Qed.

(** The words [get_stack] skips, and those on the stack. *)
Lemma get_stack_skips id sp :
  get_stack id sp = u64 (if bool_decide (id ∈ error_code_vectors) && negb (bool_decide (id ∈ missed_vectors))
                         then u64 (sp + 8) + 120 else sp + 120).
Proof.
  unfold get_stack, NB_REGISTERS_PUSHED_BEFORE_CALL. cbv zeta.
  assert (E : (id =? 8) || (id =? 10) || (id =? 11) || (id =? 12) || (id =? 13) || (id =? 14) || (id =? 17)
    = bool_decide (id ∈ error_code_vectors) && negb (bool_decide (id ∈ missed_vectors))).
  { unfold error_code_vectors, missed_vectors.
    repeat case_bool_decide; split_tests; subst; try reflexivity; exfalso;
      rewrite ?elem_of_cons, ?elem_of_nil in *; lia. }
  rewrite E. by destruct (_ && _).
Qed.

Lemma missed_pushes id : id ∈ missed_vectors -> id ∈ error_code_vectors.
Proof. unfold missed_vectors, error_code_vectors. rewrite !elem_of_cons, !elem_of_nil. tauto. Qed.

(** ** Lemmas: gates *)

Lemma set_gates_run (f : Z -> Z) vs s :
  Forall (fun v => 0 <= v < 256) vs ->
  iterM (fun n => set_idt_gate n (f n)) vs s =
    Ret tt (set_idt_table (fun t => foldl (fun t v => <[Z.to_nat v := new_gate (f v)]> t) t vs) s).
Proof.
  intros Hvs. revert s; induction Hvs as [|v vs Hv _ IH]; intros s; [by destruct s|].
  cbn [iterM]. erewrite bind_ret; [|by apply set_idt_gate_run]. rewrite IH. done.
Qed.

Lemma gates_length (f : Z -> Z) vs (t : list idt_gate_t) :
  length (foldl (fun t v => <[Z.to_nat v := new_gate (f v)]> t) t vs) = length t.
Proof. revert t; induction vs; intros; simpl; [done|]. by rewrite IHvs, length_insert. Qed.

Lemma gates_other (f : Z -> Z) vs (t : list idt_gate_t) (i : nat) :
  Forall (fun v => Z.to_nat v <> i) vs ->
  foldl (fun t v => <[Z.to_nat v := new_gate (f v)]> t) t vs !! i = t !! i.
Proof.
  intros H. revert t; induction H as [|v vs Hv _ IH]; intros t; simpl; [done|].
  by rewrite IH, list_lookup_insert_ne.
Qed.

Lemma gates_lookup (f : Z -> Z) vs (t : list idt_gate_t) v :
  v ∈ vs -> Forall (fun v => 0 <= v) vs -> (Z.to_nat v < length t)%nat ->
  foldl (fun t v => <[Z.to_nat v := new_gate (f v)]> t) t vs !! Z.to_nat v = Some (new_gate (f v)).
Proof.
  intros Hin Hpos. revert t; induction vs as [|x vs IH]; intros t Hlen; [by apply elem_of_nil in Hin|].
  cbn [foldl]. apply Forall_cons in Hpos as [Hx Hpos].
  destruct (decide (v ∈ vs)) as [Hvs|Hvs].
  - apply IH; [done..|]. by rewrite length_insert.
  - apply elem_of_cons in Hin as [->|]; [|done]. rewrite gates_other.
    + by apply list_lookup_insert_eq.
    + apply Forall_forall. intros y Hy Heq. rewrite Forall_forall in Hpos.
      specialize (Hpos y Hy). apply Hvs. by replace x with y by lia.
Qed.

Definition exception_vectors : list Z := seqZ 0 32.
Definition irq_vectors : list Z := seqZ 32 5.

Lemma elem_of_exception_vectors v : v ∈ exception_vectors <-> 0 <= v < 32.
Proof. unfold exception_vectors. rewrite elem_of_seqZ. lia. Qed.
Lemma elem_of_irq_vectors v : v ∈ irq_vectors <-> 32 <= v < 37.
Proof. unfold irq_vectors. rewrite elem_of_seqZ. lia. Qed.

Definition pic_init_events : list event :=
  [Out8 PIC2_DATA 0; Out8 PIC1_DATA 0; Out8 PIC2_DATA 1; Out8 PIC1_DATA 1;
   Out8 PIC2_DATA 2; Out8 PIC1_DATA 4; Out8 PIC2_DATA 0x28; Out8 PIC1_DATA 0x20;
   Out8 PIC2 0x11; Out8 PIC1 0x11].

Section Init.
Context {B : Build}.

(** The table [isr_init] builds over an old one. *)
Definition installed (t : list idt_gate_t) : list idt_gate_t :=
  foldl (fun t v => <[Z.to_nat v := new_gate (u64 (irq_stub (v - IRQ0)))]> t)
    (foldl (fun t v => <[Z.to_nat v := new_gate (u64 (isr_stub v))]> t) t exception_vectors)
    irq_vectors.

Lemma isr_init_run s :
  isr_init s = Ret tt
    (set_trace (fun tr => Lidt (u64 idt_addr) 4095 :: pic_init_events ++ tr)
      (set_idt_reg (IdtRegister 4095 (u64 idt_addr))
        (set_handlers (<[3%nat := isr_breakpoint_handler]>) (set_idt_table installed s)))).
Proof.
  unfold isr_init. do 10 (erewrite bind_ret; [|reflexivity]). rewrite !set_trace_set_trace.
  erewrite bind_ret; [|apply (set_gates_run (fun n => u64 (isr_stub n)) exception_vectors)].
  2: { apply Forall_forall. intros v. rewrite elem_of_exception_vectors. lia. }
  erewrite bind_ret; [|apply (set_gates_run (fun n => u64 (irq_stub (n - IRQ0))) irq_vectors)].
  2: { apply Forall_forall. intros v. rewrite elem_of_irq_vectors. lia. }
  erewrite bind_ret; [|reflexivity]. by rewrite set_idt_run.
Qed.

Lemma installed_gate t v :
  length t = 256%nat -> 0 <= v < 256 ->
  installed t !! Z.to_nat v =
    if v <? 32 then Some (new_gate (u64 (isr_stub v)))
    else if v <? 37 then Some (new_gate (u64 (irq_stub (v - 32)))) else t !! Z.to_nat v.
Proof.
  intros Hlen Hv. unfold installed.
  assert (Hirq : forall w, w ∈ irq_vectors -> 32 <= w < 37) by (intros w; by rewrite elem_of_irq_vectors).
  assert (Hexc : forall w, w ∈ exception_vectors -> 0 <= w < 32)
    by (intros w; by rewrite elem_of_exception_vectors).
  split_tests.
  - rewrite gates_other by (apply Forall_forall; intros w Hw; specialize (Hirq w Hw); lia).
    apply (gates_lookup (fun v => u64 (isr_stub v))); [apply elem_of_exception_vectors; lia| |lia].
    apply Forall_forall. intros w Hw. specialize (Hexc w Hw). lia.
  - apply (gates_lookup (fun v => u64 (irq_stub (v - IRQ0)))).
    + apply elem_of_irq_vectors. lia.
    + apply Forall_forall. intros w Hw. specialize (Hirq w Hw). lia.
    + rewrite gates_length. lia.
  - rewrite gates_other by (apply Forall_forall; intros w Hw; specialize (Hirq w Hw); lia).
    apply gates_other, Forall_forall. intros w Hw. specialize (Hexc w Hw). lia.
Qed.

End Init.

(** ** Lemmas: panic *)

Definition halted_text : list Z := nl ++ str "System halted!" ++ nl.

(** Interrupts off and the machine stopped, in the state a print left. *)
Definition stopped (s : kstate) : kstate := set_iflag false (set_trace (cons Cli) s).

Lemma kernel_panic_run {E : Env} (format : list Z) arg out s k :
  Forall is_byte format -> Z.of_nat (length format) < 2 ^ 31 ->
  render format arg = Some out ->
  screen_within k s -> 80 <= k -> k + Z.of_nat (length out) + 16 < 2 ^ 19 ->
  exists s', kernel_panic format arg s = Halted (stopped s')
    /\ screen_print (out ++ halted_text) s = Ret tt s' /\ console_step s s'.
Proof.
  intros Hb Hlen Hr Hw Hk Ho.
  destruct (printfk_total format arg out s k) as (s1 & H1 & P1 & C1 & W1); try (done || lia).
  destruct (printfk_total halted_text [] halted_text s1 (k + Z.of_nat (length out)))
    as (s2 & H2 & P2 & C2 & W2); try (done || lia || by apply forallb_bytes || (change (length halted_text) with 16%nat; lia)).
  exists s2. split; [|split; [|by etransitivity]].
  - unfold kernel_panic. unfold printfk in H1. rewrite (bind_ret _ _ _ _ _ H1).
    by rewrite (bind_ret _ _ _ _ _ H2).
  - unfold screen_print in *. rewrite (iterM_app screen_write out halted_text s).
    by rewrite (bind_ret _ _ _ _ _ P1).
Qed.

(** The text of a panic: place, message, newline. *)
Definition panic_text (file : list Z) (line : Z) (func message : list Z) : list Z :=
  nl ++ str "PANIC in " ++ file ++ str ":" ++ print_int line ++ str ":" ++ func ++ str "(): "
  ++ message ++ nl.

(** The 64-bit word at an address. *)
Definition word (s : kstate) (a : Z) : Z := u64 (le_val (read_bytes (mem s) a 8)).

(** The [stack_t] at an address, as both messages print it. *)
Definition stack_text (s : kstate) (stack : Z) : list Z :=
  str "  instruction_pointer = 0x" ++ numeral 16 (word s stack) ++ nl
  ++ str "  code_segment        = 0x" ++ numeral 16 (word s (stack + 8)) ++ nl
  ++ str "  cpu_flags           = 0x" ++ numeral 16 (word s (stack + 16)) ++ nl
  ++ str "  stack_pointer       = 0x" ++ numeral 16 (word s (stack + 24)) ++ nl
  ++ str "  stack_segment       = 0x" ++ numeral 16 (word s (stack + 32)).

Definition isr_text (id : Z) (s : kstate) (stack : Z) : list Z :=
  str "Received interrupt: " ++ print_int id ++ str " - "
  ++ nth (Z.to_nat id) exception_messages [] ++ nl ++ nl ++ stack_text s stack.

Lemma isr_panic_renders (file : list Z) line (func : list Z) id s stack fields :
  0 <= line < 2 ^ 31 -> 0 <= id < 2 ^ 31 -> load_stack stack s = Ret fields s ->
  render (nl ++ str "PANIC in %s:%d:%s(): " ++ isr_format ++ nl ++ str "%s")
    ([VStr file; VWord line; VStr func]
     ++ (VWord id :: VStr (nth (Z.to_nat id) exception_messages []) :: fields) ++ [VStr []])
  = Some (panic_text file line func (isr_text id s stack)).
Proof.
  intros Hl Hid [= <-]. cbn [app]. rendering.
  unfold panic_text, isr_text, stack_text. rewrite <- !app_assoc. reflexivity.
Qed.

Lemma numeral_word_length s a : (length (numeral 16 (word s a)) <= 16)%nat.
Proof.
  apply (numeral_length 16 _ 16); [lia| |lia].
  pose proof (u64_range (le_val (read_bytes (mem s) a 8))). unfold word. lia.
Qed.

Lemma message_length id : (length (nth id exception_messages []) <= 27)%nat.
Proof.
  assert (H : Forall (fun m => length m <= 27)%nat exception_messages).
  { apply Forall_forall. intros m Hm. apply Nat.leb_le.
    assert (Hb : forallb (fun m => length m <=? 27)%nat exception_messages = true) by reflexivity.
    rewrite forallb_forall in Hb. apply Hb. by apply list_elem_of_In. }
  destruct (nth_in_or_default id exception_messages []) as [Hin| ->]; [|simpl; lia].
  rewrite Forall_forall in H. apply H. by apply list_elem_of_In.
Qed.

Lemma isr_text_length id s stack :
  0 <= id < 2 ^ 31 -> (length (isr_text id s stack) < 400)%nat.
Proof.
  intros Hid. unfold isr_text, stack_text. rewrite !length_app, !length_str. cbn [length String.length nl].
  pose proof (print_int_length id ltac:(lia)). pose proof (message_length (Z.to_nat id)).
  pose proof (numeral_word_length s stack). pose proof (numeral_word_length s (stack + 8)).
  pose proof (numeral_word_length s (stack + 16)). pose proof (numeral_word_length s (stack + 24)).
  pose proof (numeral_word_length s (stack + 32)). lia.
Qed.

(** ** Lemmas: acknowledging *)

Definition eoi_events (id : Z) : list event :=
  if 40 <=? id then [Out8 PIC1 PIC_EOI; Out8 PIC2 PIC_EOI] else [Out8 PIC1 PIC_EOI].

Lemma irq_handler_run {E : Env} {H : Handlers} id stack_addr s h :
  interrupt_handlers s !! Z.to_nat id = Some h ->
  irq_handler id stack_addr s =
    (if decide (h = isr_null) then mret tt else call_isr h (get_stack id stack_addr))
      (set_trace (app (eoi_events id)) s).
Proof.
  intros Hh. unfold irq_handler, eoi_events. destruct (40 <=? id).
  all: steps; erewrite bind_ret; [|unfold get_handler; step; simpl_state; rewrite Hh; reflexivity].
  all: by destruct h; case_decide.
Qed.

(** The processor's view of the installed table. *)
Lemma installed_gates {B : Build} t s :
  length t = 256%nat -> idt s = installed t -> length_ (idt_reg s) = 4095 ->
  (forall v, 0 <= v < 32 -> hw_gate s v = Some (kernel_gate (u64 (isr_stub v))))
  /\ (forall i, 0 <= i < 5 -> hw_gate s (32 + i) = Some (kernel_gate (u64 (irq_stub i))))
  /\ (forall v g, 37 <= v < 256 -> t !! Z.to_nat v = Some g -> hw_gate s v = Some (decode_gate (gate_bytes g))).
Proof.
  intros Hlen Hi Hr.
  assert (Hgate : forall v g, 0 <= v < 256 -> installed t !! Z.to_nat v = Some g ->
    hw_gate s v = Some (decode_gate (gate_bytes g))).
  { intros v g Hv Hg. rewrite <- (Z2Nat.id v) by lia. apply hw_gate_lookup; [by rewrite Hi|rewrite Hr; lia]. }
  repeat split.
  - intros v Hv. erewrite Hgate; [|lia|rewrite installed_gate by (done || lia); split_tests; reflexivity].
    by rewrite decode_new_gate, u64_u64.
  - intros i Hb. erewrite Hgate; [|lia|rewrite installed_gate by (done || lia); split_tests; reflexivity].
    rewrite decode_new_gate, u64_u64. do 4 f_equal. lia.
  - intros v g Hv Hg. apply Hgate; [lia|]. rewrite installed_gate by (done || lia). by split_tests.
Qed.

(** An exception without a handler ends in [kernel_panic]. *)
Lemma isr_handler_halts {E : Env} {B : Build} {H : Handlers} id stack_addr s k :
  0 <= id < 32 -> interrupt_handlers s !! Z.to_nat id = Some isr_null ->
  0 <= isr_panic_line < 2 ^ 31 -> screen_within k s -> 80 <= k < 2 ^ 18 ->
  exists s', isr_handler id stack_addr s = Halted (stopped s')
    /\ screen_print (panic_text (str "src/core/isr.c") isr_panic_line (str "isr_handler")
                       (isr_text id s (get_stack id stack_addr)) ++ halted_text) s = Ret tt s'
    /\ console_step s s' /\ iflag (stopped s') = false.
Proof.
  intros Hid Hnull Hline Hw Hk.
  assert (Hmsg : exception_messages !! Z.to_nat id = Some (nth (Z.to_nat id) exception_messages [])).
  { destruct (lookup_lt_is_Some_2 exception_messages (Z.to_nat id)) as [m Hm].
    - change (length exception_messages) with 32%nat. lia.
    - by rewrite (lookup_total_nth [] _ _ _ Hm). }
  destruct (load_stack (get_stack id stack_addr) s) as [fields s0| |] eqn:Hf; try done.
  assert (s0 = s) as -> by (by injection Hf).
  pose proof (isr_text_length id s (get_stack id stack_addr) ltac:(lia)) as Hlen.
  assert (Hlen' : (length (print_int isr_panic_line) <= 11)%nat) by (apply print_int_length; lia).
  edestruct (kernel_panic_run (nl ++ str "PANIC in %s:%d:%s(): " ++ isr_format ++ nl ++ str "%s"))
    as (s' & Hp & Hs & Hc);
    [..|apply (isr_panic_renders (str "src/core/isr.c") isr_panic_line (str "isr_handler") id s
          (get_stack id stack_addr) fields Hline ltac:(lia) Hf)
     |exact Hw|lia| |].
  - by apply forallb_bytes.
  - vm_compute. done.
  - unfold panic_text. rewrite !length_app, !length_str. cbn [length String.length nl]. lia.
  - exists s'. split; [|by split; [|split]]. unfold isr_handler. cbn zeta.
    erewrite bind_ret; [|unfold get_handler; step; rewrite Hnull; reflexivity].
    rewrite Hmsg. cbn beta iota. rewrite (bind_ret _ _ _ _ _ Hf). exact Hp.
Qed.

(** ** Properties *)

(** C21: [isr_init] installs what it should: afterwards the processor has the
    table's address and limit, sees for each exception a present gate to its
    stub and for IRQ 0 to 4 a gate to theirs, and sees the old entry for every
    other vector; breakpoints, and no other interrupt, get a C handler. *)
Theorem isr_init_installs {B : Build} s :
  length (idt s) = 256%nat ->
  exists s', isr_init s = Ret tt s'
    /\ trace s' = Lidt (u64 idt_addr) 4095 :: pic_init_events ++ trace s
    /\ (forall v, 0 <= v < 32 -> hw_gate s' v = Some (kernel_gate (u64 (isr_stub v))))
    /\ (forall i, 0 <= i < 5 -> hw_gate s' (32 + i) = Some (kernel_gate (u64 (irq_stub i))))
    /\ (forall v g, 37 <= v < 256 -> idt s !! Z.to_nat v = Some g ->
          hw_gate s' v = Some (decode_gate (gate_bytes g)))
    /\ interrupt_handlers s' = <[3%nat := isr_breakpoint_handler]> (interrupt_handlers s).
Proof.
  intros Hlen. eexists. split; [apply isr_init_run|]. split; [done|].
  destruct (installed_gates (idt s) (set_trace (fun tr => Lidt (u64 idt_addr) 4095 :: pic_init_events ++ tr)
      (set_idt_reg (IdtRegister 4095 (u64 idt_addr))
        (set_handlers (<[3%nat := isr_breakpoint_handler]>) (set_idt_table installed s)))))
    as (Hexc & Hirq & Hrest); done.
Qed.

(** The stubs one after the other, for the concrete instances. *)
#[global] Instance test_build : Build := {|
  idt_addr := 0x110000; isr_stub := fun v => 0x101000 + 16 * v; irq_stub := fun i => 0x102000 + 16 * i;
  isr_panic_line := 141; build_date := str "Jan  1 2018"; build_time := str "12:00:00" |}.

Lemma isr_init_installs_witness :
  exists s', isr_init (blank_state ∅) = Ret tt s'
    /\ hw_gate s' 14 = Some (kernel_gate 0x1010E0)
    /\ hw_gate s' 33 = Some (kernel_gate 0x102010).
Proof.
  destruct (isr_init_installs (blank_state ∅)) as (s' & Hrun & _ & Hexc & Hirq & _).
  - reflexivity.
  - exists s'. split; [exact Hrun|]. split; [exact (Hexc 14 ltac:(lia))|exact (Hirq 1 ltac:(lia))].
Defined.

(** The writes of [isr_init] bring both interrupt controllers, whatever
    state they were in, through their whole initialisation: base vectors 32
    and 40, slave on line 2, 8086 mode.  They leave every line enabled (mask
    0), where the comment says all are masked; and for IRQ 5 to 15, vectors 37
    to 47, the table has no present gate, so such an interrupt is a further
    fault instead of being handled. *)
Theorem isr_init_programs_pics {B : Build} s p1 p2 :
  idt s = replicate 256 null_gate ->
  exists s' evs, isr_init s = Ret tt s' /\ trace s' = evs ++ trace s
    /\ pic_after PIC1 p1 evs = Pic 0x11 0 32 4 1 0 []
    /\ pic_after PIC2 p2 evs = Pic 0x11 0 40 2 1 0 []
    /\ forall v, 37 <= v < 48 -> hw_present <$> hw_gate s' v = Some false.
Proof.
  intros Hidt. exists (set_trace (fun tr => Lidt (u64 idt_addr) 4095 :: pic_init_events ++ tr)
      (set_idt_reg (IdtRegister 4095 (u64 idt_addr))
        (set_handlers (<[3%nat := isr_breakpoint_handler]>) (set_idt_table installed s)))),
    (Lidt (u64 idt_addr) 4095 :: pic_init_events).
  split; [apply isr_init_run|]. split; [done|]. split; [done|]. split; [done|].
  intros v Hv. rewrite <- (Z2Nat.id v) by lia. rewrite (hw_gate_lookup _ _ null_gate); [done| |].
  - simpl_state. rewrite installed_gate by (rewrite ?Hidt; (done || lia)). split_tests.
    rewrite Hidt. apply lookup_replicate. split; [done|lia].
  - simpl_state. cbn [length_]. lia.
Qed.

Lemma isr_init_programs_pics_witness :
  exists s' evs, isr_init (blank_state ∅) = Ret tt s' /\ trace s' = evs ++ []
    /\ pic_after PIC1 (Pic 0 0 8 0 0 255 [3]) evs = Pic 0x11 0 32 4 1 0 []
    /\ pic_after PIC2 (Pic 0 0 0x70 0 0 255 []) evs = Pic 0x11 0 40 2 1 0 []
    /\ forall v, 37 <= v < 48 -> hw_present <$> hw_gate s' v = Some false.
Proof.
  apply (isr_init_programs_pics (blank_state ∅) (Pic 0 0 8 0 0 255 [3]) (Pic 0 0 0x70 0 0 255 [])).
  reflexivity.
Defined.

(** C8: whatever the exception, with or without error code, but for the three whose
    error code it does not know, [get_stack] applied to the stack pointer the
    stub passes finds the context the processor saved: reading the [stack_t]
    there gives the interrupted [rip], [cs], flags, [rsp] and [ss].  For the
    three it is one word too low: the error code is taken for [rip], and so on.
    (The stack is at its physical address, as the kernel's own is.) *)
Theorem get_stack_finds_frame id rip cs flags rsp ss err regs s :
  length regs = 15%nat -> 176 <= rsp - rsp `mod` 16 < 2 ^ 64 ->
  let '(m, sp) := interrupt_frame id rip cs flags rsp ss err regs (mem s) in
  let s := set_mem (fun _ => m) s in
  load_stack (get_stack id sp) s =
    Ret (VWord ∘ u64 <$> if bool_decide (id ∈ missed_vectors) then [err; rip; cs; flags; rsp]
                         else [rip; cs; flags; rsp; ss]) s.
Proof.
  intros Hregs Hrsp. unfold interrupt_frame.
  pose proof (pushes_sp (interrupt_pushes id rip cs flags rsp ss err regs) (mem s, rsp - rsp `mod` 16)) as Hsp.
  pose proof (fun i v => pushes_lookup (interrupt_pushes id rip cs flags rsp ss err regs)
    (mem s, rsp - rsp `mod` 16) i v) as Hlook.
  destruct (foldl _ _ _) as [m sp]. cbn [fst snd] in *. cbn zeta.
  set (top := rsp - rsp `mod` 16) in *. rewrite get_stack_skips. unfold interrupt_pushes in *.
  assert (Hload : forall a, u64 a = a -> load_stack (u64 a) (set_mem (fun _ => m) s) =
    Ret (VWord ∘ (fun k => le_val (read_bytes m (a + 8 * k) 8)) <$> [0; 1; 2; 3; 4]) (set_mem (fun _ => m) s)).
  { intros a ->. unfold load_stack, load64, gets, mbind, M_bind. cbn [mem set_mem fmap list_fmap compose].
    by rewrite Z.mul_0_r, Z.add_0_r. }
  rewrite !length_app, Hregs in Hsp.
  destruct (bool_decide_reflect (id ∈ missed_vectors)) as [Hmi|Hmi].
  - rewrite (bool_decide_true _ (missed_pushes _ Hmi)) in *. cbn [andb negb length Nat.add] in *.
    rewrite Hload by (apply u64_small; lia). cbn [fmap list_fmap compose].
    rewrite <- (Hlook 5%nat err), <- (Hlook 4%nat rip), <- (Hlook 3%nat cs), <- (Hlook 2%nat flags), <- (Hlook 1%nat rsp) by done.
    rewrite Hsp. repeat (f_equal; try lia).
  - rewrite andb_true_r. assert (Ha : u64 (if bool_decide (id ∈ error_code_vectors) then u64 (sp + 8) + 120 else sp + 120)
      = u64 (top - 40)).
    { case_bool_decide; cbn [length Nat.add] in Hsp; rewrite ?(u64_small (sp + 8)) by lia; f_equal; lia. }
    rewrite Ha, Hload by (apply u64_small; lia). cbn [fmap list_fmap compose].
    rewrite <- (Hlook 4%nat rip), <- (Hlook 3%nat cs), <- (Hlook 2%nat flags), <- (Hlook 1%nat rsp), <- (Hlook 0%nat ss) by done.
    repeat (f_equal; try lia).
Qed.

Lemma get_stack_finds_frame_witness :
  let '(m, sp) := interrupt_frame 14 0x101234 8 0x202 0x90008 0 2 (replicate 15 7) ∅ in
  let s := set_mem (fun _ => m) (blank_state ∅) in
  load_stack (get_stack 14 sp) s =
    Ret [VWord (u64 0x101234); VWord (u64 8); VWord (u64 0x202); VWord (u64 0x90008); VWord (u64 0)] s.
Proof.
  apply (get_stack_finds_frame 14 0x101234 8 0x202 0x90008 0 2 (replicate 15 7) (blank_state ∅)).
  - reflexivity.
  - vm_compute. split; [discriminate|reflexivity].
Defined.

(** An exception nobody handles stops the machine, whichever it is:
    [isr_handler] neither returns nor faults; it prints the panic with the
    exception's number, name and the saved registers, then that the system is
    halted, turns interrupts off and stays there. *)
Theorem isr_handler_panics {E : Env} {B : Build} {H : Handlers} id stack_addr s k :
  0 <= id < 32 -> interrupt_handlers s !! Z.to_nat id = Some isr_null ->
  0 <= isr_panic_line < 2 ^ 31 -> screen_within k s -> 80 <= k < 2 ^ 18 ->
  exists s', isr_handler id stack_addr s = Halted (stopped s')
    /\ screen_print (panic_text (str "src/core/isr.c") isr_panic_line (str "isr_handler")
                       (isr_text id s (get_stack id stack_addr)) ++ halted_text) s = Ret tt s'
    /\ console_step s s' /\ iflag (stopped s') = false.
Proof. apply isr_handler_halts. Qed.

(** No handler is ever called in the instances below. *)
#[local] Instance no_handlers : Handlers := fun _ _ => mret tt.

Lemma isr_handler_panics_witness :
  exists s', isr_handler 13 0x80000 (fresh_screen 0 12) = Halted (stopped s')
    /\ iflag (stopped s') = false.
Proof.
  destruct (isr_handler_panics 13 0x80000 (fresh_screen 0 12) 80) as (s' & Hh & _ & _ & Hi).
  - lia.
  - reflexivity.
  - vm_compute. split; [discriminate|reflexivity].
  - vm_compute. split; discriminate.
  - lia.
  - exists s'. split; [exact Hh|exact Hi].
Defined.

(** C23: [irq_handler] acknowledges the interrupt before the handler runs, to
    the slave as well exactly when the line is one of its eight: the
    controllers that have the line in service retire their highest-priority
    line, the other is not touched, and then the handler of the line, if one
    is registered, runs on the interrupted context. *)
Theorem irq_handler_acknowledges {E : Env} {H : Handlers} id stack_addr s h :
  32 <= id < 48 -> interrupt_handlers s !! Z.to_nat id = Some h ->
  exists evs,
    irq_handler id stack_addr s =
      (if decide (h = isr_null) then mret tt else call_isr h (get_stack id stack_addr))
        (set_trace (app evs) s)
    /\ (forall p, pic_isr (pic_after PIC1 p evs) = tail (pic_isr p))
    /\ (forall p, pic_isr (pic_after PIC2 p evs) = if 40 <=? id then tail (pic_isr p) else pic_isr p)
    /\ (forall p, pic_mask (pic_after PIC1 p evs) = pic_mask p /\ pic_mask (pic_after PIC2 p evs) = pic_mask p).
Proof.
  intros Hid Hh. exists (eoi_events id). split; [by apply irq_handler_run|].
  unfold eoi_events. by destruct (40 <=? id).
Qed.

Lemma irq_handler_acknowledges_witness :
  exists evs,
    irq_handler 44 0x80000 (blank_state ∅) = Ret tt (set_trace (app evs) (blank_state ∅))
    /\ pic_isr (pic_after PIC1 (Pic 0x11 0 32 4 1 0 [2]) evs) = []
    /\ pic_isr (pic_after PIC2 (Pic 0x11 0 40 2 1 0 [4]) evs) = [].
Proof.
  destruct (irq_handler_acknowledges 44 0x80000 (blank_state ∅) isr_null) as (evs & Hrun & H1 & H2 & _).
  - lia.
  - reflexivity.
  - exists evs. split; [exact Hrun|]. split; [exact (H1 (Pic 0x11 0 32 4 1 0 [2]))|].
    exact (H2 (Pic 0x11 0 40 2 1 0 [4])).
Defined.
