(* ===== verification/Timer.v ===== *)
(** * The timer: src/core/timer.c

    The interval timer is modelled from the writes in the trace ([pit]):
    channel 0, loaded low byte first. *)

From stdpp Require Import base numbers list gmap.
From S2P Require Import Prelude Machine Idt Isr.

(** [tick++]; [UNUSED] reads nothing. *)
Definition timer_callback (stack : Z) : M unit :=
  t ← gets tick;
  modify (set_tick (u32 (t + 1))).

Definition timer_tick : M Z := gets tick.

Definition timer_init (freq : Z) : M unit :=
  register_interrupt_handler IRQ0 isr_timer_callback ;;
  if freq =? 0 then throw DivideByZero else
  let divisor := Z.quot 1193180 freq in
  port_byte_out 0x43 0x36 ;;
  port_byte_out 0x40 (Z.land divisor 0xff) ;;
  port_byte_out 0x40 (Z.shiftr divisor 8).

(** ** The interval timer *)

(** Channel 0 of an 8253: the control word, the low byte once it is written,
    and the reload value. *)
Record pit_t := Pit {
  pit_control : Z;
  pit_low : option Z;
  pit_reload : Z
}.

Definition pit_step (e : event) (p : pit_t) : pit_t :=
  match e with
  | Out8 q d =>
      if q =? 0x43 then Pit d None (pit_reload p)
      else if q =? 0x40 then
        match pit_low p with
        | None => Pit (pit_control p) (Some d) (pit_reload p)
        | Some lo => Pit (pit_control p) None (256 * d + lo)
        end
      else p
  | _ => p
  end.

Definition pit_after (p : pit_t) (evs : list event) : pit_t := foldr pit_step p evs.

(** The input clock is 1193180 Hz; a reload of 0 counts 65536. *)
Definition pit_period (p : pit_t) : Z := if pit_reload p =? 0 then 65536 else pit_reload p.

(** ** Lemmas *)

Definition timer_events (freq : Z) : list event :=
  [Out8 0x40 (u8 (Z.shiftr (1193180 / freq) 8)); Out8 0x40 (u8 (Z.land (1193180 / freq) 0xff));
   Out8 0x43 0x36].

Lemma timer_init_run freq s :
  0 < freq ->
  timer_init freq s = Ret tt (set_trace (app (timer_events freq))
    (set_handlers (<[32%nat := isr_timer_callback]>) s)).
Proof.
  intros Hf. unfold timer_init. erewrite bind_ret; [|reflexivity].
  rewrite (proj2 (Z.eqb_neq freq 0)) by lia. cbn zeta. rewrite Z.quot_div_nonneg by lia.
  steps. reflexivity.
Qed.

Lemma timer_events_pit freq p :
  0 < freq -> pit_after p (timer_events freq) = Pit 0x36 None (u16 (1193180 / freq)).
Proof.
  intros Hf. unfold pit_after, timer_events. cbn [foldr pit_step Z.eqb Pos.eqb pit_low pit_control].
  f_equal. rewrite (land_low _ 255 8), Z.shiftr_div_pow2 by (done || lia). word_lia.
Qed.

Lemma timer_callback_run stack s :
  timer_callback stack s = Ret tt (set_tick (u32 (tick s + 1)) s).
Proof. done. Qed.

(** ** Properties *)

(** C39: [timer_init] programs channel 0 as a square wave with the reload value
    [1193180 / freq] and connects the tick handler to IRQ 0.  For every
    frequency from 19 Hz to 1193180 Hz, the 50 Hz of the kernel included, the
    period fits the 16-bit counter, and the timer then runs at [freq] or
    faster, by less than one step of the counter. *)
Theorem timer_init_programs freq s p :
  19 <= freq <= 1193180 ->
  exists s' evs, timer_init freq s = Ret tt s' /\ trace s' = evs ++ trace s
    /\ interrupt_handlers s' = <[32%nat := isr_timer_callback]> (interrupt_handlers s)
    /\ pit_control (pit_after p evs) = 0x36
    /\ pit_period (pit_after p evs) * freq <= 1193180 < (pit_period (pit_after p evs) + 1) * freq.
Proof.
  intros Hf. eexists _, (timer_events freq). split; [apply timer_init_run; lia|].
  rewrite timer_events_pit by lia. repeat split; unfold pit_period; cbn [pit_reload].
  all: rewrite u16_small by (Z.div_mod_to_equations; nia).
  all: rewrite (proj2 (Z.eqb_neq _ 0)) by (Z.div_mod_to_equations; nia).
  all: Z.div_mod_to_equations; nia.
Qed.

Lemma timer_init_programs_witness :
  exists s' evs, timer_init 50 (blank_state ∅) = Ret tt s' /\ trace s' = evs ++ []
    /\ pit_period (pit_after (Pit 0 None 0) evs) * 50 <= 1193180.
Proof.
  destruct (timer_init_programs 50 (blank_state ∅) (Pit 0 None 0)) as (s' & evs & Hrun & Htr & _ & _ & Hp & _).
  - lia.
  - exists s', evs. split; [exact Hrun|]. split; [exact Htr|exact Hp].
Defined.
