(* ===== verification/Keyboard.v ===== *)
(** * The keyboard: src/drivers/keyboard.c *)

From stdpp Require Import base numbers list gmap strings.
From S2P Require Import Prelude Machine Libk Screen Serial Printf Idt Isr.

Definition KEYBOARD_DATA_PORT : Z := 0x60.
Definition SCANCODE_MAX : Z := 57.

Section Keyboard.
Context {E : Env}.

Definition keyboard_callback (stack : Z) : M unit :=
  scancode ← port_byte_in KEYBOARD_DATA_PORT;
  if SCANCODE_MAX <? scancode then mret tt
  else printfk (str "Received scancode: %d" ++ nl) [VWord scancode].

Definition keyboard_init : M unit := register_interrupt_handler IRQ1 isr_keyboard_callback.

(** The byte the keyboard would give in a state. *)
Definition scancode (s : kstate) : Z := u8 (dev_in (trace s) KEYBOARD_DATA_PORT).

Definition scancode_text (c : Z) : list Z := str "Received scancode: " ++ print_int c ++ nl.

Lemma scancode_renders c :
  0 <= c < 256 -> render (str "Received scancode: %d" ++ nl) [VWord c] = Some (scancode_text c).
Proof. intros Hc. rendering. reflexivity. Qed.

Lemma scancode_text_length c : 0 <= c < 256 -> (length (scancode_text c) <= 31)%nat.
Proof.
  intros Hc. unfold scancode_text. rewrite !length_app, length_str. cbn [length String.length nl].
  pose proof (print_int_length c ltac:(lia)). lia.
Qed.

(** What a key does, for every scancode. *)
Lemma keyboard_callback_run stack s k :
  screen_within k s -> 80 <= k < 2 ^ 18 ->
  let s0 := set_trace (cons (In8 KEYBOARD_DATA_PORT (scancode s))) s in
  exists s', keyboard_callback stack s = Ret tt s'
    /\ (if SCANCODE_MAX <? scancode s then s' = s0
        else screen_print (scancode_text (scancode s)) s0 = Ret tt s')
    /\ console_step s0 s' /\ screen_within (k + 31) s'.
Proof.
  intros Hw Hk s0. pose proof (u8_range (dev_in (trace s) KEYBOARD_DATA_PORT)) as Hr.
  fold (scancode s) in Hr. pose proof (scancode_text_length (scancode s) Hr) as Hlen.
  assert (Hin : port_byte_in KEYBOARD_DATA_PORT s = Ret (scancode s) s0) by done.
  unfold keyboard_callback. rewrite (bind_ret _ _ _ _ _ Hin).
  destruct (SCANCODE_MAX <? scancode s).
  - exists s0. repeat split; try done; unfold s0; simpl_state; unfold screen_within in Hw; try lia.
    by exists [].
  - destruct (printfk_total (str "Received scancode: %d" ++ nl) [VWord (scancode s)]
      (scancode_text (scancode s)) s0 k) as (s' & Hp & Hs & Hc & Hw');
      [by apply forallb_bytes|done|by apply scancode_renders|exact Hw|lia|lia|].
    exists s'. split; [exact Hp|]. split; [exact Hs|]. split; [exact Hc|].
    unfold screen_within in *. lia.
Qed.

End Keyboard.

(** ** Properties *)

(** C38: the keyboard handler reads one byte and always returns.  A code above
    57 (key releases among them) has no further effect; for any other the line
    with its decimal number is printed, and nothing else of the kernel
    changes. *)
Theorem keyboard_callback_reports {E : Env} stack s k :
  screen_within k s -> 80 <= k < 2 ^ 18 ->
  let s0 := set_trace (cons (In8 KEYBOARD_DATA_PORT (scancode s))) s in
  exists s', keyboard_callback stack s = Ret tt s'
    /\ (if SCANCODE_MAX <? scancode s then s' = s0
        else screen_print (scancode_text (scancode s)) s0 = Ret tt s')
    /\ same_kernel s s'.
Proof.
  intros Hw Hk s0. destruct (keyboard_callback_run stack s k Hw Hk) as (s' & Hrun & Hs & Hc & _).
  exists s'. split; [done|]. split; [done|]. by destruct Hc.
Qed.

Lemma keyboard_callback_reports_witness :
  exists s', keyboard_callback 0 (fresh_screen 2 14) = Ret tt s'
    /\ screen_print (scancode_text 33)
         (set_trace (cons (In8 KEYBOARD_DATA_PORT 33)) (fresh_screen 2 14)) = Ret tt s'.
Proof.
  destruct (keyboard_callback_reports 0 (fresh_screen 2 14) 80) as (s' & Hrun & Hs & _).
  - vm_compute. split; discriminate.
  - lia.
  - exists s'. split; [exact Hrun|exact Hs].
Defined.
