(* ===== verification/Cmos.v ===== *)
(** * The real-time clock: src/core/cmos.c

    [cmos_read_rtc] reads the clock's registers until two readings agree and
    converts them.  [Rtc] is a clock whose registers hold given bytes, and
    [encode] how such a clock represents a time in its four formats. *)

From stdpp Require Import base numbers list gmap.
From S2P Require Import Prelude Machine.

Definition CMOS_COMMAND_PORT : Z := 0x70.
Definition CMOS_DATA_PORT : Z := 0x71.
Definition CMOS_REG_SECONDS : Z := 0x00.
Definition CMOS_REG_MINUTES : Z := 0x02.
Definition CMOS_REG_HOURS : Z := 0x04.
Definition CMOS_REG_WEEKDAYS : Z := 0x06.
Definition CMOS_REG_DAY : Z := 0x07.
Definition CMOS_REG_MONTH : Z := 0x08.
Definition CMOS_REG_YEAR : Z := 0x09.
Definition CMOS_REG_CENTURY : Z := 0x32.
Definition CMOS_REG_STATUS_A : Z := 0x0A.
Definition CMOS_REG_STATUS_B : Z := 0x0B.

Record cmos_rtc_t := CmosRtc {
  seconds : Z;
  minutes : Z;
  hours : Z;
  weekdays : Z;
  day : Z;
  month : Z;
  year : Z;
  century : Z
}.

Section Cmos.
Context {E : Env}.

Definition update_in_progress : M bool :=
  port_byte_out CMOS_COMMAND_PORT CMOS_REG_STATUS_A ;;
  b ← port_byte_in CMOS_DATA_PORT;
  mret (negb (Z.land b 0x80 =? 0)).

Definition read_register (reg : Z) : M Z :=
  port_byte_out CMOS_COMMAND_PORT (Z.lor (Z.shiftl 1 7) reg) ;;
  port_byte_in CMOS_DATA_PORT.

Definition rtc_values_are_not_equal (c1 c2 : cmos_rtc_t) : bool :=
  negb (seconds c1 =? seconds c2) || negb (minutes c1 =? minutes c2)
  || negb (hours c1 =? hours c2) || negb (weekdays c1 =? weekdays c2)
  || negb (day c1 =? day c2) || negb (month c1 =? month c2)
  || negb (year c1 =? year c2) || negb (century c1 =? century c2).

(** The eight reads, in the order both readings make them. *)
Definition read_rtc_registers : M cmos_rtc_t :=
  seconds ← read_register CMOS_REG_SECONDS;
  minutes ← read_register CMOS_REG_MINUTES;
  hours ← read_register CMOS_REG_HOURS;
  weekdays ← read_register CMOS_REG_WEEKDAYS;
  day ← read_register CMOS_REG_DAY;
  month ← read_register CMOS_REG_MONTH;
  year ← read_register CMOS_REG_YEAR;
  century ← read_register CMOS_REG_CENTURY;
  mret (CmosRtc seconds minutes hours weekdays day month year century).

(** [do { last = rtc; ...; rtc = registers } while (rtc != last)] *)
Fixpoint rtc_loop (fuel : nat) (rtc : cmos_rtc_t) : M cmos_rtc_t :=
  match fuel with
  | O => throw OutOfFuel
  | S fuel =>
      let last := rtc in
      spin_while patience update_in_progress ;;
      rtc ← read_rtc_registers;
      if rtc_values_are_not_equal rtc last then rtc_loop fuel rtc else mret rtc
  end.

Definition from_bcd (v : Z) : Z := u8 (Z.land v 0x0F + v / 16 * 10).

Definition rtc_from_bcd (rtc : cmos_rtc_t) : cmos_rtc_t :=
  CmosRtc (from_bcd (seconds rtc)) (from_bcd (minutes rtc))
    (u8 (Z.lor (Z.land (hours rtc) 0x0F + Z.land (hours rtc) 0x70 / 16 * 10) (Z.land (hours rtc) 0x80)))
    (from_bcd (weekdays rtc)) (from_bcd (day rtc)) (from_bcd (month rtc))
    (u16 (Z.land (year rtc) 0x0F + year rtc / 16 * 10)) (from_bcd (century rtc)).

(** From the registers and status register B to the time. *)
Definition rtc_convert (reg_b : Z) (rtc : cmos_rtc_t) : cmos_rtc_t :=
  let rtc := if Z.land reg_b 0x04 =? 0 then rtc_from_bcd rtc else rtc in
  let rtc :=
    if (Z.land reg_b 0x02 =? 0) && negb (Z.land (hours rtc) 0x80 =? 0) then
      CmosRtc (seconds rtc) (minutes rtc) (u8 ((Z.land (hours rtc) 0x7F + 12) `mod` 24))
        (weekdays rtc) (day rtc) (month rtc) (year rtc) (century rtc)
    else rtc in
  CmosRtc (seconds rtc) (minutes rtc) (hours rtc) (weekdays rtc) (day rtc) (month rtc)
    (u16 (year rtc + century rtc * 100)) (century rtc).

Definition cmos_read_rtc : M cmos_rtc_t :=
  spin_while patience update_in_progress ;;
  rtc ← read_rtc_registers;
  rtc ← rtc_loop patience rtc;
  reg_b ← read_register CMOS_REG_STATUS_B;
  mret (rtc_convert reg_b rtc).

(** ** A clock *)

(** A clock that is not being updated: selecting a register, with or without
    the NMI bit, makes its byte readable, and the update flag is clear. *)
Class Rtc (reg : Z -> Z) := {
  rtc_patience : (0 < patience)%nat;
  rtc_byte : forall r, is_byte (reg r);
  rtc_read : forall r tr, 0 <= r < 128 ->
    dev_in (Out8 CMOS_COMMAND_PORT (128 + r) :: tr) CMOS_DATA_PORT = reg r;
  rtc_status : forall tr, dev_in (Out8 CMOS_COMMAND_PORT CMOS_REG_STATUS_A :: tr) CMOS_DATA_PORT
    = reg CMOS_REG_STATUS_A;
  rtc_idle : Z.land (reg CMOS_REG_STATUS_A) 0x80 = 0
}.

(** ** Reading such a clock *)

Definition registers (reg : Z -> Z) : cmos_rtc_t :=
  CmosRtc (reg CMOS_REG_SECONDS) (reg CMOS_REG_MINUTES) (reg CMOS_REG_HOURS)
    (reg CMOS_REG_WEEKDAYS) (reg CMOS_REG_DAY) (reg CMOS_REG_MONTH) (reg CMOS_REG_YEAR)
    (reg CMOS_REG_CENTURY).

Definition cmos_access (e : event) : Prop :=
  match e with
  | Out8 p _ => p = CMOS_COMMAND_PORT
  | In8 p _ => p = CMOS_DATA_PORT
  | _ => False
  end.

Section Reading.
Context {reg : Z -> Z} {R : Rtc reg}.

(** The computation returns [a] and only accesses the clock's two ports. *)
Definition reads {A} (m : M A) (a : A) : Prop :=
  forall s, exists evs, m s = Ret a (set_trace (app evs) s) /\ Forall cmos_access evs.

Lemma reads_ret {A} (a : A) : reads (mret a) a.
Proof. intros s. exists []. split; [by destruct s|constructor]. Qed.

Lemma reads_bind {A C} (m : M A) (k : A -> M C) a c :
  reads m a -> reads (k a) c -> reads (m ≫= k) c.
Proof.
  intros Hm Hk s. destruct (Hm s) as [e1 [H1 F1]]. destruct (Hk (set_trace (app e1) s)) as [e2 [H2 F2]].
  exists (e2 ++ e1). split; [|by apply Forall_app]. rewrite (bind_ret _ _ _ _ _ H1), H2. f_equal. rewrite set_trace_set_trace.
  unfold set_trace. f_equal. by rewrite app_assoc.
Qed.

Lemma reads_register r : 0 <= r < 128 -> reads (read_register r) (reg r).
Proof.
  intros Hr s. eexists [In8 CMOS_DATA_PORT (reg r); Out8 CMOS_COMMAND_PORT (128 + r)].
  split; [|by repeat constructor].
  assert (Hsel : u8 (Z.lor (Z.shiftl 1 7) r) = 128 + r).
  { change (Z.shiftl 1 7) with (1 * 2 ^ 7). rewrite lor_disjoint by lia. apply u8_small. lia. }
  unfold read_register, port_byte_out. rewrite Hsel. step. unfold port_byte_in. steps. simpl_state.
  change (u16 CMOS_DATA_PORT) with CMOS_DATA_PORT. change (u16 CMOS_COMMAND_PORT) with CMOS_COMMAND_PORT.
  rewrite rtc_read by done. rewrite u8_small by apply rtc_byte. done.
Qed.

Lemma reads_wait : reads (spin_while patience update_in_progress) tt.
Proof.
  intros s. exists [In8 CMOS_DATA_PORT (reg CMOS_REG_STATUS_A); Out8 CMOS_COMMAND_PORT CMOS_REG_STATUS_A].
  split; [|by repeat constructor].
  pose proof rtc_patience as Hp. destruct patience as [|n]; [lia|]. apply spin_while_done.
  unfold update_in_progress, port_byte_out. step. unfold port_byte_in. steps. simpl_state.
  change (u16 CMOS_DATA_PORT) with CMOS_DATA_PORT. change (u16 CMOS_COMMAND_PORT) with CMOS_COMMAND_PORT.
  change (u8 CMOS_REG_STATUS_A) with CMOS_REG_STATUS_A.
  rewrite rtc_status, u8_small, rtc_idle by apply rtc_byte. done.
Qed.

Lemma reads_registers : reads read_rtc_registers (registers reg).
Proof.
  unfold read_rtc_registers.
  do 8 (eapply reads_bind; [apply reads_register; done|]). apply reads_ret.
Qed.

Lemma rtc_equal_refl c : rtc_values_are_not_equal c c = false.
Proof. unfold rtc_values_are_not_equal. by rewrite !Z.eqb_refl. Qed.

Lemma reads_loop : reads (rtc_loop patience (registers reg)) (registers reg).
Proof.
  pose proof rtc_patience as Hp. destruct patience as [|n] eqn:En; [lia|]. cbn [rtc_loop].
  eapply reads_bind; [apply reads_wait|]. eapply reads_bind; [apply reads_registers|].
  rewrite rtc_equal_refl. apply reads_ret.
Qed.

Lemma reads_rtc : reads cmos_read_rtc (rtc_convert (reg CMOS_REG_STATUS_B) (registers reg)).
Proof.
  unfold cmos_read_rtc. eapply reads_bind; [apply reads_wait|].
  eapply reads_bind; [apply reads_registers|]. eapply reads_bind; [apply reads_loop|].
  eapply reads_bind; [by apply reads_register|]. apply reads_ret.
Qed.

End Reading.
End Cmos.

(** ** Times and their four formats *)

Record clock_t := Clock {
  clk_second : Z;
  clk_minute : Z;
  clk_hour : Z;
  clk_weekday : Z;
  clk_day : Z;
  clk_month : Z;
  clk_year : Z
}.

Definition clock_ok (c : clock_t) : Prop :=
  0 <= clk_second c < 60 /\ 0 <= clk_minute c < 60 /\ 0 <= clk_hour c < 24
  /\ 1 <= clk_weekday c <= 7 /\ 1 <= clk_day c <= 31 /\ 1 <= clk_month c <= 12
  /\ 0 <= clk_year c <= 9999.

Definition encode_num (binary : bool) (n : Z) : Z := if binary then n else 16 * (n / 10) + n `mod` 10.

(** Twelve-hour clocks count 12, 1, ..., 11 and set bit 7 in the afternoon. *)
Definition encode_hour (binary h24 : bool) (h : Z) : Z :=
  if h24 then encode_num binary h
  else encode_num binary (if h `mod` 12 =? 0 then 12 else h `mod` 12) + (if 12 <=? h then 128 else 0).

Definition encode (binary h24 : bool) (c : clock_t) (r : Z) : Z :=
  if r =? CMOS_REG_SECONDS then encode_num binary (clk_second c)
  else if r =? CMOS_REG_MINUTES then encode_num binary (clk_minute c)
  else if r =? CMOS_REG_HOURS then encode_hour binary h24 (clk_hour c)
  else if r =? CMOS_REG_WEEKDAYS then encode_num binary (clk_weekday c)
  else if r =? CMOS_REG_DAY then encode_num binary (clk_day c)
  else if r =? CMOS_REG_MONTH then encode_num binary (clk_month c)
  else if r =? CMOS_REG_YEAR then encode_num binary (clk_year c `mod` 100)
  else if r =? CMOS_REG_CENTURY then encode_num binary (clk_year c / 100)
  else if r =? CMOS_REG_STATUS_B then (if binary then 4 else 0) + (if h24 then 2 else 0)
  else 0.

(** The time the kernel computes, with [h] for the hour. *)
Definition rtc_of (c : clock_t) (h : Z) : cmos_rtc_t :=
  CmosRtc (clk_second c) (clk_minute c) h (clk_weekday c) (clk_day c) (clk_month c)
    (clk_year c) (clk_year c / 100).

Lemma from_bcd_encode n : 0 <= n < 100 -> from_bcd (encode_num false n) = n.
Proof.
  intros Hn. unfold from_bcd, encode_num. rewrite (land_low _ 15 4) by (done || lia). word_lia.
Qed.

Lemma year_encode n :
  0 <= n < 100 -> u16 (Z.land (encode_num false n) 0x0F + encode_num false n / 16 * 10) = n.
Proof. intros Hn. unfold encode_num. rewrite (land_low _ 15 4) by (done || lia). word_lia. Qed.

(** The conversion of the hour alone. *)
Definition convert_hour (binary h24 : bool) (v : Z) : Z :=
  let v := if binary then v
           else u8 (Z.lor (Z.land v 0x0F + Z.land v 0x70 / 16 * 10) (Z.land v 0x80)) in
  if negb h24 && negb (Z.land v 0x80 =? 0) then u8 ((Z.land v 0x7F + 12) `mod` 24) else v.

Lemma convert_hour_24 binary h : 0 <= h < 24 -> convert_hour binary true (encode_hour binary true h) = h.
Proof.
  intros Hh. apply Z.eqb_eq. revert h Hh.
  assert (H : forallb (fun h => convert_hour binary true (encode_hour binary true h) =? h) (seqZ 0 24) = true)
    by (destruct binary; reflexivity).
  intros h Hh. rewrite forallb_forall in H. apply H, list_elem_of_In, elem_of_seqZ. lia.
Qed.

Lemma convert_hour_12 binary h :
  0 <= h < 24 ->
  convert_hour binary false (encode_hour binary false h) = if h `mod` 12 =? 0 then 12 - h else h.
Proof.
  intros Hh. apply Z.eqb_eq.
  assert (H : forallb (fun h => convert_hour binary false (encode_hour binary false h)
      =? if h `mod` 12 =? 0 then 12 - h else h) (seqZ 0 24) = true)
    by (destruct binary; reflexivity).
  rewrite forallb_forall in H. apply H, list_elem_of_In, elem_of_seqZ. lia.
Qed.

Lemma convert_encode binary h24 c :
  clock_ok c ->
  rtc_convert (encode binary h24 c CMOS_REG_STATUS_B) (registers (encode binary h24 c))
    = rtc_of c (convert_hour binary h24 (encode_hour binary h24 (clk_hour c))).
Proof.
  intros (Hs & Hm & Hh & Hw & Hd & Hmo & Hy).
  assert (H4 : (Z.land (encode binary h24 c CMOS_REG_STATUS_B) 0x04 =? 0) = negb binary)
    by (destruct binary, h24; reflexivity).
  assert (H2 : (Z.land (encode binary h24 c CMOS_REG_STATUS_B) 0x02 =? 0) = negb h24)
    by (destruct binary, h24; reflexivity).
  assert (Hy100 : 0 <= clk_year c `mod` 100 < 100 /\ 0 <= clk_year c / 100 < 100)
    by (Z.div_mod_to_equations; lia).
  unfold rtc_convert. rewrite H4, H2. unfold registers, encode.
  cbn [Z.eqb Pos.eqb CMOS_REG_SECONDS CMOS_REG_MINUTES CMOS_REG_HOURS CMOS_REG_WEEKDAYS
       CMOS_REG_DAY CMOS_REG_MONTH CMOS_REG_YEAR CMOS_REG_CENTURY].
  unfold rtc_of, convert_hour. destruct binary; cbn [negb].
  - cbn [seconds minutes hours weekdays day month year century].
    destruct (negb h24 && _); cbn [seconds minutes hours weekdays day month year century];
      unfold encode_num; f_equal; word_lia.
  - unfold rtc_from_bcd. cbn [seconds minutes hours weekdays day month year century].
    rewrite !from_bcd_encode, year_encode by lia.
    destruct (negb h24 && _); cbn [seconds minutes hours weekdays day month year century];
      f_equal; word_lia.
Qed.

(** ** Properties *)

(** C24: from a clock in 24-hour mode, in binary or in BCD, [cmos_read_rtc]
    returns the time the clock shows, every field of it, and the full year;
    apart from accesses to the clock's two ports nothing happens. *)
Theorem cmos_read_rtc_24h {E : Env} binary c {R : Rtc (encode binary true c)} s :
  clock_ok c ->
  exists evs, cmos_read_rtc s = Ret (rtc_of c (clk_hour c)) (set_trace (app evs) s)
    /\ Forall cmos_access evs.
Proof.
  intros Hc. destruct (reads_rtc s) as [evs [Hrun Ha]]. exists evs. rewrite Hrun.
  rewrite convert_encode, convert_hour_24; [done|by apply Hc|done].
Qed.

(** A clock at a fixed time, for the instances. *)
Definition rtc_env (reg : Z -> Z) : Env := {|
  dev_in := fun tr _ => match tr with Out8 _ d :: _ => reg (d `mod` 128) | _ => 0 end;
  patience := 1 |}.

Lemma rtc_env_rtc reg :
  (forall r, is_byte (reg r)) -> Z.land (reg CMOS_REG_STATUS_A) 0x80 = 0 -> @Rtc (rtc_env reg) reg.
Proof.
  intros Hb Hi. split; [cbn; lia|done| |done|done].
  intros r tr Hr. cbn. f_equal. Z.div_mod_to_equations. lia.
Defined.

Lemma encode_byte binary h24 c r : clock_ok c -> is_byte (encode binary h24 c r).
Proof.
  intros (Hs & Hm & Hh & Hw & Hd & Hmo & Hy). unfold encode, encode_hour, encode_num, is_byte.
  destruct binary, h24; split_tests; Z.div_mod_to_equations; lia.
Defined.

Lemma cmos_read_rtc_24h_witness :
  let c := Clock 58 30 23 4 31 12 2018 in
  exists evs, @cmos_read_rtc (rtc_env (encode false true c)) (blank_state ∅)
    = Ret (CmosRtc 58 30 23 4 31 12 2018 20) (set_trace (app evs) (blank_state ∅)) /\ Forall cmos_access evs.
Proof.
  set (c := Clock 58 30 23 4 31 12 2018).
  assert (Hc : clock_ok c) by (unfold clock_ok, c; simpl; lia).
  apply (@cmos_read_rtc_24h (rtc_env (encode false true c)) false c
    (rtc_env_rtc _ (fun r => encode_byte false true c r Hc) eq_refl) (blank_state ∅) Hc).
Defined.

(** From a clock in 12-hour mode every hour is converted correctly except
    the two twelves: at midnight (12 AM) the kernel says 12, at noon (12 PM)
    it says 0. *)
Theorem cmos_read_rtc_12h {E : Env} binary c {R : Rtc (encode binary false c)} s :
  clock_ok c ->
  exists evs, cmos_read_rtc s =
    Ret (rtc_of c (if clk_hour c `mod` 12 =? 0 then 12 - clk_hour c else clk_hour c))
      (set_trace (app evs) s).
Proof.
  intros Hc. destruct (reads_rtc s) as [evs [Hrun _]]. exists evs. rewrite Hrun.
  rewrite convert_encode, convert_hour_12; [done|by apply Hc|done].
Qed.

Lemma cmos_read_rtc_12h_witness :
  let c := Clock 0 15 12 4 31 12 2018 in
  exists evs, @cmos_read_rtc (rtc_env (encode false false c)) (blank_state ∅)
    = Ret (CmosRtc 0 15 0 4 31 12 2018 20) (set_trace (app evs) (blank_state ∅)).
Proof.
  set (c := Clock 0 15 12 4 31 12 2018).
  assert (Hc : clock_ok c) by (unfold clock_ok, c; simpl; lia).
  apply (@cmos_read_rtc_12h (rtc_env (encode false false c)) false c
    (rtc_env_rtc _ (fun r => encode_byte false false c r Hc) eq_refl) (blank_state ∅) Hc).
Defined.
