(* ===== verification/CmosUpdate.v ===== *)
(** * A clock that ticks while it is read: src/core/cmos.c

    The clock changes its registers once a second; while it does, it shows that
    an update is in progress and what its time registers give is undefined.
    [cmos_read_rtc] waits for the end of an update and reads until two readings
    agree.  [RtcUpdated] is a clock that is updated once at some time while it is
    read, from any port access to any later one: its registers give the old
    bytes, then anything, then the new bytes.  A single reading can be made of
    all three; the loop's result cannot. *)

From stdpp Require Import base numbers list gmap.
From S2P Require Import Prelude Machine Cmos.

Section Settles.
Context {E : Env}.

(** The update flag is set for [n] polls and clear at the next one. *)
Fixpoint settles (n : nat) (tr : list event) : Prop :=
  let tr := Out8 CMOS_COMMAND_PORT CMOS_REG_STATUS_A :: tr in
  let b := u8 (dev_in tr CMOS_DATA_PORT) in
  match n with
  | O => Z.land b 0x80 = 0
  | S n => Z.land b 0x80 <> 0 /\ settles n (In8 CMOS_DATA_PORT b :: tr)
  end.

End Settles.

(** The registers an update changes; the status registers can be read at any
    time. *)
Definition time_registers : list Z :=
  [CMOS_REG_SECONDS; CMOS_REG_MINUTES; CMOS_REG_HOURS; CMOS_REG_WEEKDAYS; CMOS_REG_DAY; CMOS_REG_MONTH;
   CMOS_REG_YEAR; CMOS_REG_CENTURY].

Lemma time_register_range r : r ∈ time_registers -> 0 <= r < 128.
Proof.
  intros Hr. unfold time_registers in Hr. rewrite !elem_of_cons, elem_of_nil in Hr.
  decompose [or] Hr; subst; try done; vm_compute; split; (discriminate || reflexivity).
Qed.

(** The update has started, or ended, when the accesses so far are these. *)
Class RtcUpdated (E : Env) (reg0 reg1 : Z -> Z) (started ended : list event -> bool) := {
  updated_patience : (3 <= patience)%nat;
  updated_byte : forall r, is_byte (reg0 r) /\ is_byte (reg1 r);
  updated_started : forall e tr, started tr = true -> started (e :: tr) = true;
  updated_ended : forall e tr, ended tr = true -> ended (e :: tr) = true;
  updated_old : forall r tr, r ∈ time_registers ->
    let tr := Out8 CMOS_COMMAND_PORT (128 + r) :: tr in
    started tr = false -> dev_in tr CMOS_DATA_PORT = reg0 r;
  updated_new : forall r tr, r ∈ time_registers ->
    let tr := Out8 CMOS_COMMAND_PORT (128 + r) :: tr in
    ended tr = true -> dev_in tr CMOS_DATA_PORT = reg1 r;
  updated_status : forall tr,
    dev_in (Out8 CMOS_COMMAND_PORT (128 + CMOS_REG_STATUS_B) :: tr) CMOS_DATA_PORT = reg0 CMOS_REG_STATUS_B;
  updated_flag : forall tr,
    let tr := Out8 CMOS_COMMAND_PORT CMOS_REG_STATUS_A :: tr in
    started tr = true -> ended tr = false -> Z.land (u8 (dev_in tr CMOS_DATA_PORT)) 0x80 <> 0;
  updated_settles : forall tr, exists n, (n < patience)%nat /\ settles n tr
}.

(** ** Runs that only access ports *)

Definition accesses (s s' : kstate) : Prop := exists evs, s' = set_trace (app evs) s.

#[global] Instance accesses_preorder : PreOrder accesses.
Proof.
  split.
  - intros s. exists []. by destruct s.
  - intros s1 s2 s3 [e1 ->] [e2 ->]. exists (e2 ++ e1). rewrite set_trace_set_trace.
    unfold set_trace. by rewrite app_assoc.
Qed.

Section Updated.
Context {E : Env} {reg0 reg1 : Z -> Z} {started ended : list event -> bool} {T : RtcUpdated E reg0 reg1 started ended}.

Definition has_started (s : kstate) : Prop := started (trace s) = true.
Definition has_ended (s : kstate) : Prop := ended (trace s) = true.

Lemma has_started_mono s s' : accesses s s' -> has_started s -> has_started s'.
Proof.
  intros [evs ->] H. unfold has_started in *. simpl_state.
  induction evs as [|e evs IH]; [done|]. by apply updated_started.
Qed.

Lemma has_ended_mono s s' : accesses s s' -> has_ended s -> has_ended s'.
Proof.
  intros [evs ->] H. unfold has_ended in *. simpl_state.
  induction evs as [|e evs IH]; [done|]. by apply updated_ended.
Qed.

(** [m] returns from [s], accesses only ports, and its value satisfies [old]
    if the update has not started by the end and [new] if it had ended at the
    start. *)
Definition glimpse {A} (m : M A) (old new : A -> Prop) : Prop :=
  forall s, exists a s', m s = Ret a s' /\ accesses s s'
    /\ (~ has_started s' -> old a) /\ (has_ended s -> new a).

Lemma glimpse_ret {A} (a : A) (old new : A -> Prop) : old a -> new a -> glimpse (mret a) old new.
Proof. intros Ho Hn s. by exists a, s. Qed.

Lemma glimpse_bind {A B} (m : M A) (k : A -> M B) (a0 a1 : A) (old new : B -> Prop) :
  glimpse m (eq a0) (eq a1) ->
  (forall a, glimpse (k a) (fun b => a = a0 -> old b) (fun b => a = a1 -> new b)) ->
  glimpse (m ≫= k) old new.
Proof.
  intros Hm Hk s. destruct (Hm s) as (a & s1 & H1 & A1 & O1 & N1).
  destruct (Hk a s1) as (b & s2 & H2 & A2 & O2 & N2).
  exists b, s2. rewrite (bind_ret _ _ _ _ _ H1). split; [done|]. split; [by transitivity s1|]. split.
  - intros Ht. apply O2; [done|]. symmetry. apply O1. intros Hs. by apply Ht, (has_started_mono s1).
  - intros Ht. apply N2; [by apply (has_ended_mono s)|]. symmetry. by apply N1.
Qed.

Lemma register_run r s :
  0 <= r < 128 ->
  let tr := Out8 CMOS_COMMAND_PORT (128 + r) :: trace s in
  let v := u8 (dev_in tr CMOS_DATA_PORT) in
  read_register r s = Ret v (set_trace (app [In8 CMOS_DATA_PORT v; Out8 CMOS_COMMAND_PORT (128 + r)]) s).
Proof.
  intros Hr tr v. assert (Hsel : u8 (Z.lor (Z.shiftl 1 7) r) = 128 + r).
  { change (Z.shiftl 1 7) with (1 * 2 ^ 7). rewrite lor_disjoint by lia. apply u8_small. lia. }
  unfold read_register, port_byte_out. rewrite Hsel. step. unfold port_byte_in. steps. simpl_state.
  change (u16 CMOS_DATA_PORT) with CMOS_DATA_PORT. by change (u16 CMOS_COMMAND_PORT) with CMOS_COMMAND_PORT.
Qed.

Lemma glimpse_register r : r ∈ time_registers -> glimpse (read_register r) (eq (reg0 r)) (eq (reg1 r)).
Proof.
  intros Hr s. pose proof (time_register_range r Hr) as Hr'.
  eexists _, _. split; [by apply register_run|]. split; [by eexists|].
  pose proof (updated_byte r) as [B0 B1]. split.
  - intros Hn. rewrite updated_old; [by rewrite u8_small|done|]. destruct (started _) eqn:Hst; [|done].
    destruct Hn. unfold has_started. simpl_state. cbn [app]. by apply updated_started.
  - intros Hs. rewrite updated_new; [by rewrite u8_small|done|]. by apply updated_ended.
Qed.

(** Waiting: if the update had started, it has ended afterwards. *)
Lemma wait_settles n : forall fuel s, (n < fuel)%nat -> settles n (trace s) ->
  exists s', spin_while fuel update_in_progress s = Ret tt s' /\ accesses s s' /\ (has_started s -> has_ended s').
Proof.
  induction n as [|n IH]; intros [|fuel] s Hf Hs; try lia; cbn [settles] in Hs;
    set (tr := Out8 CMOS_COMMAND_PORT CMOS_REG_STATUS_A :: trace s) in *;
    set (b := u8 (dev_in tr CMOS_DATA_PORT)) in *;
    set (s1 := set_trace (app [In8 CMOS_DATA_PORT b; Out8 CMOS_COMMAND_PORT CMOS_REG_STATUS_A]) s);
    assert (H : update_in_progress s = Ret (negb (Z.land b 0x80 =? 0)) s1) by done.
  - rewrite Hs in H. exists s1. split; [by apply spin_while_done|]. split; [by eexists|]. intros Hst.
    destruct (ended tr) eqn:He; [unfold has_ended; by apply updated_ended|].
    by destruct (updated_flag (trace s) (updated_started _ _ Hst) He).
  - destruct Hs as [Hb Hs]. rewrite (proj2 (Z.eqb_neq _ _) Hb) in H.
    rewrite (spin_while_again _ _ _ _ H). destruct (IH fuel s1) as (s' & Hr & Ha & He); [lia|done|].
    assert (A1 : accesses s s1) by by eexists.
    exists s'. split; [done|]. split; [by transitivity s1|]. intros Hst. by apply He, (has_started_mono s).
Qed.

Lemma wait_run s : exists s', spin_while patience update_in_progress s = Ret tt s' /\ accesses s s'
  /\ (has_started s -> has_ended s').
Proof. destruct (updated_settles (trace s)) as (n & Hn & Hs). by apply (wait_settles n patience s). Qed.

Lemma glimpse_registers :
  glimpse read_rtc_registers (eq (registers reg0)) (eq (registers reg1)).
Proof.
  unfold read_rtc_registers, registers.
  do 8 (eapply glimpse_bind; [apply glimpse_register; by apply (bool_decide_unpack _)|intros ?]).
  apply glimpse_ret; by intros ; subst.
Qed.

Lemma rtc_equal_eq c1 c2 : rtc_values_are_not_equal c1 c2 = false -> c1 = c2.
Proof.
  unfold rtc_values_are_not_equal. destruct c1, c2. cbn. rewrite !orb_false_iff, !negb_false_iff, !Z.eqb_eq.
  intros H. by decompose [and] H; subst.
Qed.

(** One round of the loop: it returns the last reading or goes on with a new one. *)
Lemma loop_round fuel last s :
  exists c s', accesses s s' /\ (~ has_started s' -> c = registers reg0) /\ (has_started s -> c = registers reg1)
    /\ rtc_loop (S fuel) last s = (if rtc_values_are_not_equal c last then rtc_loop fuel c s' else Ret c s').
Proof.
  destruct (wait_run s) as (s1 & H1 & A1 & E1).
  destruct (glimpse_registers s1) as (c & s2 & H2 & A2 & O2 & N2).
  exists c, s2. split; [by transitivity s1|]. split; [intros H; symmetry; by apply O2|]. split.
  - intros H. symmetry. by apply N2, E1.
  - cbn [rtc_loop]. rewrite (bind_ret _ _ _ _ _ H1), (bind_ret _ _ _ _ _ H2). by case_match.
Qed.

Definition snapshot (c : cmos_rtc_t) : Prop := c = registers reg0 \/ c = registers reg1.

Lemma loop_new fuel last s :
  has_started s -> (last = registers reg1 /\ (1 <= fuel)%nat) \/ (2 <= fuel)%nat ->
  exists s', rtc_loop fuel last s = Ret (registers reg1) s' /\ accesses s s'.
Proof.
  assert (Hlast : forall n s, has_started s ->
    exists s', rtc_loop (S n) (registers reg1) s = Ret (registers reg1) s' /\ accesses s s').
  { intros n s0 Ht. destruct (loop_round n (registers reg1) s0) as (c & s' & Ha & _ & Hn & Hr).
    rewrite (Hn Ht), rtc_equal_refl in Hr. by exists s'. }
  intros Ht [[-> Hf]|Hf]; destruct fuel as [|[|fuel]]; try lia; try by apply Hlast.
  destruct (loop_round (S fuel) last s) as (c & s1 & Ha & _ & Hn & Hr). rewrite (Hn Ht) in Hr.
  destruct (rtc_values_are_not_equal (registers reg1) last).
  - destruct (Hlast fuel s1) as (s' & Hr' & Ha'); [by apply (has_started_mono s)|].
    exists s'. rewrite Hr. split; [done|by transitivity s1].
  - exists s1. by rewrite Hr.
Qed.

Lemma loop_snapshot fuel last s :
  (~ has_started s -> last = registers reg0) -> (3 <= fuel)%nat ->
  exists c s', rtc_loop fuel last s = Ret c s' /\ accesses s s' /\ snapshot c.
Proof.
  intros Hlast Hf. destruct (started (trace s)) eqn:Ht.
  { destruct (loop_new fuel last s Ht) as (s' & Hr & Ha); [right; lia|].
    exists (registers reg1), s'. split; [done|]. split; [done|by right]. }
  assert (Hn : ~ has_started s) by (unfold has_started; by rewrite Ht). rewrite (Hlast Hn).
  destruct fuel as [|fuel]; [lia|].
  destruct (loop_round fuel (registers reg0) s) as (c & s1 & Ha & Ho & _ & Hr). rewrite Hr.
  destruct (rtc_values_are_not_equal c (registers reg0)) eqn:Hc.
  - destruct (started (trace s1)) eqn:Ht1; [|rewrite Ho, rtc_equal_refl in Hc; [done|]; unfold has_started; by rewrite Ht1].
    destruct (loop_new fuel c s1 Ht1) as (s' & Hr' & Ha'); [right; lia|].
    exists (registers reg1), s'. split; [done|]. split; [by transitivity s1|by right].
  - apply rtc_equal_eq in Hc as ->. exists (registers reg0), s1. split; [done|]. split; [done|by left].
Qed.

Lemma read_rtc_snapshot s :
  exists c s', cmos_read_rtc s = Ret (rtc_convert (reg0 CMOS_REG_STATUS_B) c) s'
    /\ accesses s s' /\ snapshot c.
Proof.
  destruct (wait_run s) as (s1 & H1 & A1 & _).
  destruct (glimpse_registers s1) as (c0 & s2 & H2 & A2 & O2 & _).
  destruct (loop_snapshot patience c0 s2) as (c & s3 & H3 & A3 & Hc);
    [intros H; symmetry; by apply O2|apply updated_patience|].
  pose proof (register_run CMOS_REG_STATUS_B s3 ltac:(done)) as H4. cbv zeta in H4.
  rewrite updated_status, u8_small in H4 by apply updated_byte. exists c. eexists. split.
  - unfold cmos_read_rtc. rewrite (bind_ret _ _ _ _ _ H1), (bind_ret _ _ _ _ _ H2),
      (bind_ret _ _ _ _ _ H3), (bind_ret _ _ _ _ _ H4). reflexivity.
  - split; [|done]. transitivity s1; [done|]. transitivity s2; [done|]. transitivity s3; [done|]. by eexists.
Qed.

End Updated.

(** ** Properties *)

(** C25: the time read is a time the clock showed, even when the clock is updated
    while it is read.  If a clock in 24-hour mode shows [c0] first, then for a
    while has its update flag set and gives any bytes, and from some moment of
    the call on shows [c1], the result is [c0] or [c1] in every field, never
    another; the loop ends after at most three more readings, and only ports are
    accessed. *)
Theorem cmos_read_rtc_untorn {E : Env} binary c0 c1 started ended
    {T : RtcUpdated E (encode binary true c0) (encode binary true c1) started ended} s :
  clock_ok c0 -> clock_ok c1 ->
  exists t s', cmos_read_rtc s = Ret t s' /\ accesses s s'
    /\ (t = rtc_of c0 (clk_hour c0) \/ t = rtc_of c1 (clk_hour c1)).
Proof.
  intros H0 H1. destruct (read_rtc_snapshot s) as (c & s' & Hr & Ha & Hc).
  eexists _, s'. split; [exact Hr|]. split; [done|].
  destruct Hc as [-> | ->]; [left|right]; [|change (encode binary true c0 CMOS_REG_STATUS_B)
    with (encode binary true c1 CMOS_REG_STATUS_B)];
    rewrite convert_encode, convert_hour_24; done || apply H0 || apply H1.
Qed.

(** A clock that goes from [c0] to [c1] in the [n]th to the [n + 3]rd access, with
    the update flag set and 0xFF in its time registers meanwhile. *)
Definition updating (n : nat) (tr : list event) : bool := (n <=? length tr)%nat && (length tr <=? n + 3)%nat.

Definition updated_env (binary : bool) (c0 c1 : clock_t) (n : nat) : Env := {|
  dev_in := fun tr _ =>
    match tr with
    | Out8 _ d :: _ =>
        if d =? CMOS_REG_STATUS_A then if updating n tr then 0x80 else 0
        else if updating n tr && bool_decide (d `mod` 128 ∈ time_registers) then 0xFF
        else encode binary true (if (n <=? length tr)%nat then c1 else c0) (d `mod` 128)
    | _ => 0
    end;
  patience := 5
|}.

Lemma updated_env_settles binary c0 c1 n tr :
  exists k, (k < 5)%nat /\ @settles (updated_env binary c0 c1 n) k tr.
Proof.
  assert (Hflag : forall tr, u8 (@dev_in (updated_env binary c0 c1 n)
      (Out8 CMOS_COMMAND_PORT CMOS_REG_STATUS_A :: tr) CMOS_DATA_PORT)
    = if decide (n <= S (length tr) <= n + 3)%nat then 0x80 else 0).
  { intros tr'. cbn [dev_in updated_env]. rewrite Z.eqb_refl. unfold updating. cbn [length].
    destruct (Nat.leb_spec n (S (length tr'))), (Nat.leb_spec (S (length tr')) (n + 3));
      case_decide; done || lia. }
  destruct (decide (n <= S (length tr) <= n + 3)%nat) as [Hin|Hout].
  - destruct (decide (n + 2 <= S (length tr))%nat) as [H2|H2].
    + exists 1%nat. split; [lia|]. cbn [settles]. rewrite !Hflag. cbn [length].
      rewrite decide_True by lia. rewrite decide_False by lia. done.
    + exists 2%nat. split; [lia|]. cbn [settles]. rewrite !Hflag. cbn [length].
      rewrite !decide_True by lia. rewrite decide_False by lia. done.
  - exists 0%nat. split; [lia|]. cbn [settles]. rewrite Hflag. by rewrite decide_False.
Defined.

Lemma updated_env_reads binary c0 c1 n r tr :
  0 <= r < 128 ->
  @dev_in (updated_env binary c0 c1 n) (Out8 CMOS_COMMAND_PORT (128 + r) :: tr) CMOS_DATA_PORT =
    if updating n (Out8 CMOS_COMMAND_PORT (128 + r) :: tr) && bool_decide (r ∈ time_registers) then 0xFF
    else encode binary true (if (n <=? S (length tr))%nat then c1 else c0) r.
Proof.
  intros Hr. cbn [dev_in updated_env length].
  rewrite (proj2 (Z.eqb_neq (128 + r) CMOS_REG_STATUS_A)) by (unfold CMOS_REG_STATUS_A; lia).
  by replace ((128 + r) `mod` 128) with r by (Z.div_mod_to_equations; lia).
Defined.

Lemma updated_env_updated binary c0 c1 n :
  clock_ok c0 -> clock_ok c1 ->
  RtcUpdated (updated_env binary c0 c1 n) (encode binary true c0) (encode binary true c1)
    (fun tr => (n <=? length tr)%nat) (fun tr => (n + 4 <=? length tr)%nat).
Proof.
  intros H0 H1. split.
  - cbn. lia.
  - intros r. split; by apply encode_byte.
  - intros e tr. cbn [length]. rewrite !Nat.leb_le. lia.
  - intros e tr. cbn [length]. rewrite !Nat.leb_le. lia.
  - intros r tr Hr. cbv zeta. intros Hs. rewrite updated_env_reads by by apply time_register_range.
    unfold updating. cbn [length] in *. by rewrite Hs.
  - intros r tr Hr. cbv zeta. intros Hs. rewrite updated_env_reads by by apply time_register_range.
    unfold updating. cbn [length] in *. rewrite Nat.leb_le in Hs.
    rewrite (proj2 (Nat.leb_gt _ (n + 3))), andb_false_r by lia. cbn [andb]. by rewrite (proj2 (Nat.leb_le n _)) by lia.
  - intros tr. rewrite updated_env_reads by (vm_compute; split; (discriminate || reflexivity)).
    rewrite andb_false_r. by destruct (n <=? _)%nat.
  - intros tr. cbv zeta. intros Hs He. cbn [dev_in updated_env]. rewrite Z.eqb_refl. unfold updating.
    cbn [length] in *. rewrite Hs. apply Nat.leb_gt in He. by rewrite (proj2 (Nat.leb_le _ (n + 3))) by lia.
  - apply updated_env_settles.
Defined.

(** New year's eve: the update comes while the first reading is at the hours. *)
Lemma cmos_read_rtc_untorn_witness :
  let c0 := Clock 59 59 23 4 31 12 2018 in
  let c1 := Clock 0 0 0 5 1 1 2019 in
  exists t s', @cmos_read_rtc (updated_env false c0 c1 7) (blank_state ∅) = Ret t s'
    /\ accesses (blank_state ∅) s'
    /\ (t = CmosRtc 59 59 23 4 31 12 2018 20 \/ t = CmosRtc 0 0 0 5 1 1 2019 20).
Proof.
  set (c0 := Clock 59 59 23 4 31 12 2018). set (c1 := Clock 0 0 0 5 1 1 2019).
  assert (H0 : clock_ok c0) by (unfold clock_ok, c0; simpl; lia).
  assert (H1 : clock_ok c1) by (unfold clock_ok, c1; simpl; lia).
  exact (@cmos_read_rtc_untorn _ false c0 c1 _ _ (updated_env_updated false c0 c1 7 H0 H1) (blank_state ∅) H0 H1).
Defined.
