(* ===== verification/Boot.v ===== *)
(** * The boot information: src/core/boot.c

    The loader leaves in memory a list of tags, each with its type and size in
    its first eight bytes and aligned to eight.  The operations walk that list
    with byte addresses; [tags_at] describes a well-formed list abstractly and
    the walks are shown to compute on the abstract list.  A walk has fuel: any
    number above the tags, memory map entries and sections of the list.  The
    model is the default build, in which [DEBUG] expands to nothing. *)

From stdpp Require Import base numbers list gmap strings.
From S2P Require Import Prelude Machine Libk Screen Serial Printf.

Definition MULTIBOOT2_MAGIC_VALUE : Z := 0x36d76289.
Definition MULTIBOOT_TAG_TYPE_END : Z := 0.
Definition MULTIBOOT_TAG_TYPE_MMAP : Z := 6.
Definition MULTIBOOT_TAG_TYPE_ELF_SECTIONS : Z := 9.
Definition MULTIBOOT_ELF_SECTION_TYPE_NULL : Z := 0.

Record reserved_areas_t := ReservedAreas {
  ra_kernel_start : Z;
  ra_kernel_end : Z;
  ra_multiboot_start : Z;
  ra_multiboot_end : Z
}.

Definition multiboot_is_valid {E : Env} (magic addr : Z) : M bool :=
  if negb (u64 magic =? MULTIBOOT2_MAGIC_VALUE) then
    printfk (str "Invalid magic value: 0x%x") [VWord (u64 magic)] ;; mret false
  else if negb (Z.land (u64 addr) 7 =? 0) then
    printfk (str "Unaligned MBI: 0x%x") [VWord (u64 addr)] ;; mret false
  else mret true.

(** [(tag->size + 7) & ~7], in 32 bits. *)
Definition tag_stride (size : Z) : Z := Z.land (u32 (size + 7)) (u32 (Z.lnot 7)).

(** [(multiboot_tag_t * ) ((uint8_t * ) tag + ((tag->size + 7) & ~7))] *)
Definition next_tag (tag : Z) : M Z :=
  size ← load32 (tag + 4);
  mret (u64 (tag + tag_stride size)).

Fixpoint find_multiboot_tag (fuel : nat) (tag type : Z) : M Z :=
  match fuel with
  | O => throw OutOfFuel
  | S fuel =>
      t ← load32 tag;
      if t =? MULTIBOOT_TAG_TYPE_END then mret 0
      else if t =? u16 type then mret tag
      else tag ← next_tag tag; find_multiboot_tag fuel tag type
  end.

(** The loop over the entries of a memory map tag; its body is a [DEBUG]. *)
Fixpoint mmap_entries_loop (fuel : nat) (tag mmap : Z) : M unit :=
  match fuel with
  | O => throw OutOfFuel
  | S fuel =>
      size ← load32 (tag + 4);
      if mmap <? tag + size then
        entry_size ← load32 (tag + 8);
        mmap_entries_loop fuel tag (u64 (mmap + entry_size))
      else mret tt
  end.

(** One section widens the kernel's area. *)
Definition add_section (addr size : Z) (r : reserved_areas_t) : reserved_areas_t :=
  ReservedAreas
    (if addr <? ra_kernel_start r then addr else ra_kernel_start r)
    (if ra_kernel_end r <? u64 (addr + size) then u64 (addr + size) else ra_kernel_end r)
    (ra_multiboot_start r) (ra_multiboot_end r).

Fixpoint elf_sections_loop (fuel : nat) (tag i elf : Z) (reserved : reserved_areas_t)
  : M reserved_areas_t :=
  match fuel with
  | O => throw OutOfFuel
  | S fuel =>
      num ← load32 (tag + 8);
      if i <? num then
        type ← load32 (elf + 4);
        reserved ←
          (if type =? MULTIBOOT_ELF_SECTION_TYPE_NULL then mret reserved
           else
             addr ← load64 (elf + 16);
             size ← load64 (elf + 32);
             mret (add_section addr size reserved));
        section_size ← load32 (tag + 12);
        elf_sections_loop fuel tag (u32 (i + 1)) (u64 (elf + section_size)) reserved
      else mret reserved
  end.

(** The loop over the tags; it returns the end tag and the areas. *)
Fixpoint multiboot_tags_loop (fuel : nat) (tag : Z) (reserved : reserved_areas_t)
  : M (Z * reserved_areas_t) :=
  match fuel with
  | O => throw OutOfFuel
  | S fuel' =>
      type ← load32 tag;
      if type =? MULTIBOOT_TAG_TYPE_END then mret (tag, reserved)
      else
        reserved ←
          (if type =? MULTIBOOT_TAG_TYPE_MMAP then
             mmap_entries_loop fuel tag (tag + 16) ;; mret reserved
           else if type =? MULTIBOOT_TAG_TYPE_ELF_SECTIONS then
             elf_sections_loop fuel tag 0 (tag + 20) reserved
           else mret reserved);
        tag ← next_tag tag;
        multiboot_tags_loop fuel' tag reserved
  end.

Definition read_multiboot_info (fuel : nat) (mbi : Z) : M reserved_areas_t :=
  '(tag, r) ← multiboot_tags_loop fuel (mbi + 8) (ReservedAreas (u64 (-1)) 0 (u64 mbi) 0);
  tag ← next_tag tag;
  mret (ReservedAreas (ra_kernel_start r) (ra_kernel_end r) (ra_multiboot_start r) tag).

(** ** The abstract list *)

Record section_t := Section_ { sec_type : Z; sec_addr : Z; sec_size : Z }.

Inductive tag_t :=
  | TMmap (entry_size : Z) (entries : nat)
  | TElf (section_size : Z) (sections : list section_t)
  | TOther (type size : Z).

Definition tag_type (t : tag_t) : Z :=
  match t with
  | TMmap _ _ => MULTIBOOT_TAG_TYPE_MMAP
  | TElf _ _ => MULTIBOOT_TAG_TYPE_ELF_SECTIONS
  | TOther type _ => type
  end.

Definition tag_size (t : tag_t) : Z :=
  match t with
  | TMmap es n => 16 + es * Z.of_nat n
  | TElf ss secs => 20 + ss * Z.of_nat (length secs)
  | TOther _ size => size
  end.

(** The address of the tag after one of this size. *)
Definition align8 (n : Z) : Z := (n + 7) / 8 * 8.

Definition m32 (m : gmap Z Z) (a : Z) : Z := le_val (read_bytes m a 4).
Definition m64 (m : gmap Z Z) (a : Z) : Z := le_val (read_bytes m a 8).

Fixpoint sections_at (m : gmap Z Z) (a ss : Z) (secs : list section_t) : Prop :=
  match secs with
  | [] => True
  | c :: secs =>
      m32 m (a + 4) = sec_type c /\ m64 m (a + 16) = sec_addr c /\ m64 m (a + 32) = sec_size c
      /\ sections_at m (a + ss) ss secs
  end.

Definition tag_at (m : gmap Z Z) (a : Z) (t : tag_t) : Prop :=
  m32 m a = tag_type t /\ m32 m (a + 4) = tag_size t /\ 8 <= tag_size t < 2 ^ 31
  /\ match t with
     | TMmap es n => 0 < es /\ m32 m (a + 8) = es
     | TElf ss secs =>
         40 <= ss /\ m32 m (a + 8) = Z.of_nat (length secs) /\ m32 m (a + 12) = ss
         /\ sections_at m (a + 20) ss secs
     | TOther type _ =>
         type <> MULTIBOOT_TAG_TYPE_END /\ type <> MULTIBOOT_TAG_TYPE_MMAP
         /\ type <> MULTIBOOT_TAG_TYPE_ELF_SECTIONS
     end.

(** The tags of [ts] from address [a] on, then the end tag. *)
Fixpoint tags_at (m : gmap Z Z) (a : Z) (ts : list tag_t) : Prop :=
  0 <= a < 2 ^ 63 /\
  match ts with
  | [] => m32 m a = MULTIBOOT_TAG_TYPE_END /\ m32 m (a + 4) = 8
  | t :: ts => tag_at m a t /\ tags_at m (a + align8 (tag_size t)) ts
  end.

(** Steps of the walk, at most. *)
Definition tag_steps (t : tag_t) : nat :=
  match t with TMmap _ n => n | TElf _ secs => length secs | TOther _ _ => 0 end.
Fixpoint steps_of (ts : list tag_t) : nat :=
  match ts with [] => 0 | t :: ts => S (tag_steps t + steps_of ts) end.

(** The address of the first tag of a type, 0 when there is none. *)
Fixpoint first_tag (a : Z) (ts : list tag_t) (type : Z) : Z :=
  match ts with
  | [] => 0
  | t :: ts => if tag_type t =? type then a else first_tag (a + align8 (tag_size t)) ts type
  end.

(** Where the end tag is. *)
Fixpoint end_tag (a : Z) (ts : list tag_t) : Z :=
  match ts with [] => a | t :: ts => end_tag (a + align8 (tag_size t)) ts end.

(** The sections that occupy memory, over all tags. *)
Definition loaded (ts : list tag_t) : list section_t :=
  filter (fun c => sec_type c <> MULTIBOOT_ELF_SECTION_TYPE_NULL)
    (ts ≫= fun t => match t with TElf _ secs => secs | _ => [] end).

Definition add_sections (secs : list section_t) (r : reserved_areas_t) : reserved_areas_t :=
  foldl (fun r c => add_section (sec_addr c) (sec_size c) r) r secs.

(** ** Lemmas *)

Lemma tag_stride_align8 size : 0 <= size < 2 ^ 31 -> tag_stride size = align8 size.
Proof.
  intros Hs. unfold tag_stride, align8. change (u32 (Z.lnot 7)) with (Z.shiftl (Z.ones 29) 3).
  rewrite land_field by lia. rewrite u32_small by lia. change (2 ^ 3) with 8.
  rewrite (Z.mod_small _ (2 ^ 29)); [done|]. Z.div_mod_to_equations. lia.
Qed.

Lemma align8_bounds n : n <= align8 n < n + 8.
Proof. unfold align8. Z.div_mod_to_equations. lia. Qed.

Lemma load32_bind {A} a (k : Z -> M A) s : (load32 a ≫= k) s = k (m32 (mem s) a) s.
Proof. done. Qed.
Lemma load64_bind {A} a (k : Z -> M A) s : (load64 a ≫= k) s = k (m64 (mem s) a) s.
Proof. done. Qed.

Lemma next_tag_run a size s :
  m32 (mem s) (a + 4) = size -> 0 <= a < 2 ^ 63 -> 0 <= size < 2 ^ 31 ->
  next_tag a s = Ret (a + align8 size) s.
Proof.
  intros Hs Ha Hb. unfold next_tag. rewrite load32_bind, Hs, tag_stride_align8 by done.
  pose proof (align8_bounds size). unfold mret, M_ret. f_equal. apply u64_small. lia.
Qed.

Lemma tag_type_not_end m a t : tag_at m a t -> tag_type t <> MULTIBOOT_TAG_TYPE_END.
Proof. intros (_ & _ & _ & H). destruct t; [done..|]. apply H. Qed.

Lemma find_run ts : forall a fuel type s,
  tags_at (mem s) a ts -> (length ts < fuel)%nat ->
  find_multiboot_tag fuel a type s = Ret (first_tag a ts (u16 type)) s.
Proof.
  induction ts as [|t ts IH]; intros a [|fuel] type s [Ha Hts] Hf; cbn [length] in *; try lia.
  - cbn [find_multiboot_tag]. rewrite load32_bind. by destruct Hts as [-> _].
  - destruct Hts as [Ht Hts]. cbn [find_multiboot_tag first_tag]. rewrite load32_bind.
    destruct Ht as (Hty & Hsz & Hbd & Hrest) eqn:E. rewrite Hty.
    rewrite (proj2 (Z.eqb_neq _ MULTIBOOT_TAG_TYPE_END)) by (by apply (tag_type_not_end (mem s) a)).
    destruct (tag_type t =? u16 type); [done|].
    rewrite (bind_ret _ _ _ _ _ (next_tag_run a _ s Hsz Ha ltac:(lia))). apply IH; [done|lia].
Qed.

Lemma mmap_entries_run n : forall fuel tag mmap es s,
  m32 (mem s) (tag + 8) = es -> 0 < es -> 0 <= mmap ->
  tag + m32 (mem s) (tag + 4) = mmap + es * Z.of_nat n -> mmap + es * Z.of_nat n < 2 ^ 64 ->
  (n < fuel)%nat -> mmap_entries_loop fuel tag mmap s = Ret tt s.
Proof.
  induction n as [|n IH]; intros [|fuel] tag mmap es s Hes Hpos Hm Hend Hbd Hf; try lia;
    cbn [mmap_entries_loop]; rewrite load32_bind.
  - by rewrite (proj2 (Z.ltb_ge _ _)) by lia.
  - rewrite (proj2 (Z.ltb_lt _ _)) by lia. rewrite load32_bind, Hes, u64_small by lia.
    apply (IH _ _ _ es); (done || lia).
Qed.

Lemma elf_sections_run secs : forall fuel tag i elf ss r s,
  m32 (mem s) (tag + 12) = ss -> 0 < ss -> 0 <= elf -> 0 <= i ->
  m32 (mem s) (tag + 8) = i + Z.of_nat (length secs) -> i + Z.of_nat (length secs) < 2 ^ 31 ->
  elf + ss * Z.of_nat (length secs) < 2 ^ 64 ->
  sections_at (mem s) elf ss secs -> (length secs < fuel)%nat ->
  elf_sections_loop fuel tag i elf r s =
    Ret (add_sections (filter (fun c => sec_type c <> MULTIBOOT_ELF_SECTION_TYPE_NULL) secs) r) s.
Proof.
  induction secs as [|c secs IH]; intros [|fuel] tag i elf ss r s Hss Hpos He Hi Hnum Hib Hb Hat Hf;
    cbn [length] in *; try lia; cbn [elf_sections_loop]; rewrite load32_bind.
  - by rewrite (proj2 (Z.ltb_ge _ _)) by lia.
  - rewrite (proj2 (Z.ltb_lt i _)) by lia. destruct Hat as (Hty & Had & Hsz & Hat).
    rewrite load32_bind, Hty. rewrite filter_cons.
    destruct (Z.eqb_spec (sec_type c) MULTIBOOT_ELF_SECTION_TYPE_NULL) as [Hn|Hn].
    + rewrite decide_False by (intros ?; done). erewrite bind_ret; [|reflexivity].
      rewrite load32_bind, Hss, u32_small, u64_small by lia. apply (IH _ _ _ _ ss); (done || lia).
    + rewrite decide_True by done.
      erewrite bind_ret; [|rewrite load64_bind, load64_bind, Had, Hsz; reflexivity].
      rewrite load32_bind, Hss, u32_small, u64_small by lia. cbn [add_sections foldl].
      apply (IH _ _ _ _ ss); (done || lia).
Qed.

Lemma add_sections_app l1 l2 r : add_sections (l1 ++ l2) r = add_sections l2 (add_sections l1 r).
Proof. apply foldl_app. Qed.

Lemma loaded_cons t ts : loaded (t :: ts) = loaded [t] ++ loaded ts.
Proof. unfold loaded. rewrite <- filter_app. by rewrite <- bind_app. Qed.

(** What one tag does to the areas. *)
Lemma tag_body_run t : forall fuel a r s,
  tag_at (mem s) a t -> 0 <= a < 2 ^ 63 -> (tag_steps t < fuel)%nat ->
  (if tag_type t =? MULTIBOOT_TAG_TYPE_MMAP then
     mmap_entries_loop fuel a (a + 16) ;; mret r
   else if tag_type t =? MULTIBOOT_TAG_TYPE_ELF_SECTIONS then
     elf_sections_loop fuel a 0 (a + 20) r
   else mret r) s = Ret (add_sections (loaded [t]) r) s.
Proof.
  intros fuel a r s (Hty & Hsz & Hbd & Hrest) Ha Hf. destruct t as [es n|ss secs|type size]; simpl in *.
  - destruct Hrest as [Hpos Hes].
    erewrite bind_ret; [|apply (mmap_entries_run n fuel a (a + 16) es); (done || lia)]. done.
  - destruct Hrest as (Hpos & Hnum & Hss & Hat).
    rewrite (elf_sections_run secs fuel a 0 (a + 20) ss); try (done || nia).
    unfold loaded. cbn [mbind list_bind]. by rewrite app_nil_r.
  - destruct Hrest as (H0 & H6 & H9).
    rewrite (proj2 (Z.eqb_neq type MULTIBOOT_TAG_TYPE_MMAP)) by done.
    by rewrite (proj2 (Z.eqb_neq type MULTIBOOT_TAG_TYPE_ELF_SECTIONS)) by done.
Qed.

Lemma tags_loop_run ts : forall fuel a r s,
  tags_at (mem s) a ts -> (steps_of ts < fuel)%nat ->
  multiboot_tags_loop fuel a r s = Ret (end_tag a ts, add_sections (loaded ts) r) s.
Proof.
  induction ts as [|t ts IH]; intros [|fuel] a r s [Ha Hts] Hf; cbn [steps_of] in *; try lia;
    cbn [multiboot_tags_loop]; rewrite load32_bind.
  - by destruct Hts as [-> _].
  - destruct Hts as [Ht Hts]. pose proof Ht as (Hty & Hsz & Hbd & _). rewrite Hty.
    rewrite (proj2 (Z.eqb_neq _ MULTIBOOT_TAG_TYPE_END)) by (by apply (tag_type_not_end (mem s) a)).
    rewrite (bind_ret _ _ _ _ _ (tag_body_run t (S fuel) a r s Ht Ha ltac:(lia))).
    rewrite (bind_ret _ _ _ _ _ (next_tag_run a _ s Hsz Ha ltac:(lia))).
    rewrite IH by (done || lia). by rewrite <- add_sections_app, <- loaded_cons.
Qed.

Lemma end_tag_at ts : forall m a, tags_at m a ts ->
  0 <= end_tag a ts < 2 ^ 63 /\ m32 m (end_tag a ts + 4) = 8.
Proof.
  induction ts as [|t ts IH]; intros m a [Ha Hts]; simpl; [by destruct Hts|]. apply IH, Hts.
Qed.

Lemma read_info_run fuel mbi ts s :
  0 <= mbi -> tags_at (mem s) (mbi + 8) ts -> (steps_of ts < fuel)%nat ->
  read_multiboot_info fuel mbi s =
    let r := add_sections (loaded ts) (ReservedAreas (2 ^ 64 - 1) 0 mbi 0) in
    Ret (ReservedAreas (ra_kernel_start r) (ra_kernel_end r) (ra_multiboot_start r)
      (end_tag (mbi + 8) ts + 8)) s.
Proof.
  intros Hm Hts Hf. destruct (end_tag_at ts _ _ Hts) as [He H8].
  assert (Hb : 0 <= mbi + 8 < 2 ^ 63) by (by destruct ts, Hts).
  unfold read_multiboot_info. rewrite (u64_small mbi) by lia.
  erewrite bind_ret; [|by apply tags_loop_run]. cbn beta iota.
  erewrite bind_ret; [|by apply next_tag_run; [exact H8| |]]. done.
Qed.

Lemma add_sections_bounds secs : forall r,
  Forall (fun c => 0 <= sec_addr c + sec_size c < 2 ^ 64) secs ->
  let r' := add_sections secs r in
  ra_kernel_start r' <= ra_kernel_start r /\ ra_kernel_end r <= ra_kernel_end r'
  /\ ra_multiboot_start r' = ra_multiboot_start r
  /\ (forall c, c ∈ secs -> ra_kernel_start r' <= sec_addr c /\ sec_addr c + sec_size c <= ra_kernel_end r')
  /\ (ra_kernel_start r' = ra_kernel_start r \/ exists c, c ∈ secs /\ ra_kernel_start r' = sec_addr c)
  /\ (ra_kernel_end r' = ra_kernel_end r \/ exists c, c ∈ secs /\ ra_kernel_end r' = sec_addr c + sec_size c).
Proof.
  induction secs as [|c secs IH]; intros r Hok; cbn zeta.
  { repeat split; try (done || lia || by left). all: by apply not_elem_of_nil in H. }
  apply Forall_cons in Hok as [Hc Hok]. cbn [add_sections foldl].
  destruct (IH (add_section (sec_addr c) (sec_size c) r) Hok) as (Hs & He & Hm & Hall & Hmin & Hmax).
  cbn zeta in *. unfold add_sections in *. set (r' := foldl _ _ _) in *.
  unfold add_section in Hs, He, Hm, Hmin, Hmax.
  cbn [ra_kernel_start ra_kernel_end ra_multiboot_start] in *.
  rewrite (u64_small (sec_addr c + sec_size c)) in * by lia.
  destruct (Z.ltb_spec (sec_addr c) (ra_kernel_start r)), (Z.ltb_spec (ra_kernel_end r) (sec_addr c + sec_size c)).
  all: split; [lia|]; split; [lia|]; split; [done|]; split.
  all: try (intros d [->|Hd]%elem_of_cons; [lia|by apply Hall]).
  all: split; [destruct Hmin as [Hmin|(d & Hd & Hmin)]|destruct Hmax as [Hmax|(d & Hd & Hmax)]].
  all: try (left; lia).
  all: right; first [exists d; split; [apply elem_of_cons; by right|done]
                    |exists c; split; [apply elem_of_cons; by left|lia]].
Qed.

(** The formats of the two messages: literal text and one [%x]. *)
Lemma render_hex (l : list Z) w :
  u32 w < 2 ^ 31 -> forallb (fun c => negb (c =? 37)) l = true ->
  render (l ++ [37; 120]) [VWord w] = Some (l ++ numeral 16 (u32 w)).
Proof.
  intros Hw. induction l as [|c l IH]; intros Hl.
  - unfold render. cbn [app parse_format Z.eqb Pos.eqb is_digit_char Z.leb Z.compare Pos.compare Pos.compare_cont andb].
    cbn [render_all]. unfold render_conv. cbn [Z.eqb Pos.eqb orb].
    rewrite (proj2 (Z.ltb_lt _ _)) by done. cbn. by rewrite app_nil_r.
  - cbn [forallb] in Hl. apply andb_true_iff in Hl as [Hc Hl]. apply negb_true_iff in Hc.
    unfold render in *. cbn [app parse_format]. rewrite Hc. cbn [render_all]. by rewrite (IH Hl).
Qed.

Lemma is_valid_run {E : Env} magic addr s k :
  0 <= magic < 2 ^ 64 -> 0 <= addr < 2 ^ 64 ->
  u32 magic < 2 ^ 31 -> u32 addr < 2 ^ 31 -> screen_within k s -> 80 <= k < 2 ^ 18 ->
  exists s', multiboot_is_valid magic addr s =
      Ret ((magic =? MULTIBOOT2_MAGIC_VALUE) && (addr `mod` 8 =? 0)) s'
    /\ console_step s s'
    /\ screen_print
         (if magic =? MULTIBOOT2_MAGIC_VALUE then
            if addr `mod` 8 =? 0 then [] else str "Unaligned MBI: 0x" ++ numeral 16 (u32 addr)
          else str "Invalid magic value: 0x" ++ numeral 16 (u32 magic)) s = Ret tt s'.
Proof.
  intros Hm Ha Hm32 Ha32 Hw Hk. unfold multiboot_is_valid.
  rewrite !u64_small, (land_low _ 7 3) by (done || lia). change (2 ^ 3) with 8.
  assert (Hprint : forall f w out, Forall is_byte f -> Z.of_nat (length f) < 2 ^ 31 ->
    render f [VWord w] = Some (out ++ numeral 16 (u32 w)) -> (length out <= 40)%nat ->
    exists s', (printfk f [VWord w] ;; mret false) s = Ret false s' /\ console_step s s'
      /\ screen_print (out ++ numeral 16 (u32 w)) s = Ret tt s').
  { intros f w out Hb Hl Hr Ho. assert (length (numeral 16 (u32 w)) <= 8)%nat.
    { apply (numeral_length 16 _ 8); [lia| |lia]. apply u32_range. }
    destruct (printfk_total f [VWord w] _ s k Hb Hl Hr) as (s' & Hp & Hs & Hc & _);
      [done|lia|rewrite length_app; lia|].
    exists s'. by rewrite (bind_ret _ _ _ _ _ Hp). }
  destruct (Z.eqb_spec magic MULTIBOOT2_MAGIC_VALUE); cbn [negb andb]; [|].
  - destruct (Z.eqb_spec (addr `mod` 8) 0); cbn [negb].
    + by exists s.
    + apply Hprint; [by apply forallb_bytes|done| |vm_compute; lia].
      by apply (render_hex (str "Unaligned MBI: 0x")).
  - apply Hprint; [by apply forallb_bytes|done| |vm_compute; lia].
    by apply (render_hex (str "Invalid magic value: 0x")).
Qed.

(** ** Lemmas: the list survives changes elsewhere *)

Lemma m32_ext m m' a : (forall b, a <= b < a + 4 -> mem_get m' b = mem_get m b) -> m32 m' a = m32 m a.
Proof. intros H. unfold m32. f_equal. by apply read_bytes_ext. Qed.
Lemma m64_ext m m' a : (forall b, a <= b < a + 8 -> mem_get m' b = mem_get m b) -> m64 m' a = m64 m a.
Proof. intros H. unfold m64. f_equal. by apply read_bytes_ext. Qed.

Lemma sections_at_ext m m' ss secs : forall a,
  40 <= ss -> (forall b, a <= b < a + ss * Z.of_nat (length secs) -> mem_get m' b = mem_get m b) ->
  sections_at m a ss secs -> sections_at m' a ss secs.
Proof.
  induction secs as [|c secs IH]; intros a Hss Hm Hat; [done|]. cbn [length] in Hm.
  rewrite Nat2Z.inj_succ, Z.mul_succ_r in Hm. destruct Hat as (H1 & H2 & H3 & H4).
  assert (0 <= ss * Z.of_nat (length secs)) by nia. cbn [sections_at].
  rewrite (m32_ext m m'), !(m64_ext m m') by (intros; apply Hm; lia).
  repeat split; try done. apply IH; [done| |done]. intros; apply Hm; lia.
Qed.

Lemma end_tag_after ts : forall m a, tags_at m a ts -> a <= end_tag a ts.
Proof.
  induction ts as [|t ts IH]; intros m a [Ha Hts]; cbn [end_tag]; [lia|]. destruct Hts as [Ht Hts].
  apply IH in Hts. destruct Ht as (_ & _ & Hsz & _). pose proof (align8_bounds (tag_size t)). lia.
Qed.

Lemma tag_at_ext m m' a t :
  (forall b, a <= b < a + tag_size t -> mem_get m' b = mem_get m b) -> tag_at m a t -> tag_at m' a t.
Proof.
  intros Hm (Hty & Hsz & Hbd & Hrest). unfold tag_at.
  rewrite (m32_ext m m' a), (m32_ext m m' (a + 4)) by (intros; apply Hm; lia).
  split; [done|]. split; [done|]. split; [done|].
  destruct t as [es n|ss secs|ty sz]; cbn [tag_size] in *; [| |done].
  - destruct Hrest as [He Hes]. split; [done|]. rewrite (m32_ext m m'); [done|]. intros; apply Hm. nia.
  - destruct Hrest as (Hss & Hnum & Hs & Hat). assert (0 <= ss * Z.of_nat (length secs)) by nia.
    rewrite !(m32_ext m m') by (intros; apply Hm; lia). repeat split; try done.
    apply (sections_at_ext m); [done| |done]. intros; apply Hm; lia.
Qed.

Lemma tags_at_ext ts : forall m m' a,
  tags_at m a ts -> (forall b, a <= b < end_tag a ts + 8 -> mem_get m' b = mem_get m b) ->
  tags_at m' a ts.
Proof.
  induction ts as [|t ts IH]; intros m m' a [Ha Hts] Hm; cbn [end_tag tags_at] in *; (split; [done|]).
  - by rewrite !(m32_ext m m') by (intros; apply Hm; lia).
  - destruct Hts as [Ht Hts]. pose proof Ht as (_ & _ & Hsz & _).
    pose proof (align8_bounds (tag_size t)). pose proof (end_tag_after _ _ _ Hts). split.
    + apply (tag_at_ext m); [intros; apply Hm; lia|done].
    + apply (IH m); [done|]. intros; apply Hm; lia.
Qed.

(** [read_multiboot_info] finds the reserved areas of a well-formed boot
    information: the boot information's own area ends right after its end tag,
    and the kernel's area is the smallest interval around all sections that
    are not null, over every section tag; nothing is modified, and fuel above
    the number of tags, entries and sections is enough. *)
Lemma read_info_covers fuel mbi ts s :
  0 <= mbi -> tags_at (mem s) (mbi + 8) ts -> (steps_of ts < fuel)%nat ->
  Forall (fun c => 0 <= sec_addr c < 2 ^ 64 /\ 0 <= sec_addr c + sec_size c < 2 ^ 64) (loaded ts) ->
  exists r, read_multiboot_info fuel mbi s = Ret r s
    /\ ra_multiboot_start r = mbi /\ ra_multiboot_end r = end_tag (mbi + 8) ts + 8
    /\ (forall c, c ∈ loaded ts ->
          ra_kernel_start r <= sec_addr c /\ sec_addr c + sec_size c <= ra_kernel_end r)
    /\ (loaded ts <> [] ->
          (exists c, c ∈ loaded ts /\ ra_kernel_start r = sec_addr c)
          /\ exists c, c ∈ loaded ts /\ ra_kernel_end r = sec_addr c + sec_size c).
Proof.
  intros Hm Hts Hf Hok. eexists. split; [by rewrite (read_info_run _ _ ts)|].
  destruct (add_sections_bounds (loaded ts) (ReservedAreas (2 ^ 64 - 1) 0 mbi 0))
    as (_ & _ & Hst & Hall & Hmin & Hmax); [by eapply Forall_impl; [exact Hok|intros c [_ ?]]|].
  cbn zeta in *. cbn [ra_kernel_start ra_kernel_end ra_multiboot_start ra_multiboot_end] in *.
  repeat split; try done; try (by apply Hall).
  all: destruct (loaded ts) as [|c l] eqn:E; [done|]; rewrite Forall_forall in Hok.
  all: assert (Hin : c ∈ c :: l) by (apply elem_of_cons; by left).
  all: destruct (Hall c Hin) as [H1 H2]; destruct (Hok c Hin) as [H3 H4].
  - destruct Hmin as [Hmin|?]; [|done]. exists c. split; [done|]. lia.
  - destruct Hmax as [Hmax|?]; [|done]. exists c. split; [done|]. lia.
Qed.

(** ** Properties *)

(** On a well-formed tag list [find_multiboot_tag] returns the address of
    the first tag of the type, or 0 when there is none, and reads only; any
    fuel above the number of tags is enough. *)
Theorem find_multiboot_tag_first ts fuel a type s :
  tags_at (mem s) a ts -> (length ts < fuel)%nat ->
  find_multiboot_tag fuel a type s = Ret (first_tag a ts (u16 type)) s.
Proof. apply find_run. Qed.

(** A boot information of three tags, for the instances: a command line of five
    bytes, the section headers of a kernel of two sections after the null one,
    and a memory map with one entry. *)
Definition elf_entry (type addr size : Z) : list Z :=
  le_bytes 4 0 ++ le_bytes 4 type ++ le_bytes 8 0 ++ le_bytes 8 addr ++ le_bytes 8 0
  ++ le_bytes 8 size ++ le_bytes 8 0 ++ le_bytes 8 0 ++ le_bytes 8 0.
Definition test_mbi_bytes : list Z :=
  le_bytes 4 296 ++ le_bytes 4 0
  ++ le_bytes 4 1 ++ le_bytes 4 13 ++ str "quiet" ++ [0; 0; 0]
  ++ le_bytes 4 9 ++ le_bytes 4 212 ++ le_bytes 4 3 ++ le_bytes 4 64 ++ le_bytes 4 0
  ++ elf_entry 0 0 0 ++ elf_entry 1 0x100000 0x4000 ++ elf_entry 1 0x104000 0x2345 ++ le_bytes 4 0
  ++ le_bytes 4 6 ++ le_bytes 4 40 ++ le_bytes 4 24 ++ le_bytes 4 0
  ++ le_bytes 8 0x100000 ++ le_bytes 8 0x7F00000 ++ le_bytes 4 1 ++ le_bytes 4 0
  ++ le_bytes 4 0 ++ le_bytes 4 8.
Definition test_mbi : kstate := blank_state (write_bytes ∅ 0x90000 test_mbi_bytes).
Definition test_sections : list section_t :=
  [Section_ 0 0 0; Section_ 1 0x100000 0x4000; Section_ 1 0x104000 0x2345].
Definition test_tags : list tag_t := [TOther 1 13; TElf 64 test_sections; TMmap 24 1].

Lemma test_tags_at : tags_at (mem test_mbi) 0x90008 test_tags.
Proof.
  unfold test_tags. repeat split; try (vm_compute; (reflexivity || discriminate)).
Defined.

(** [multiboot_is_valid] accepts exactly the right magic number with an
    8-aligned address, without any effect; otherwise it says so on the screen
    and returns false.  (For the message the printed number must be below
    [2^31], where [%x] works.) *)
Theorem multiboot_is_valid_checks {E : Env} magic addr s k :
  0 <= magic < 2 ^ 64 -> 0 <= addr < 2 ^ 64 ->
  u32 magic < 2 ^ 31 -> u32 addr < 2 ^ 31 -> screen_within k s -> 80 <= k < 2 ^ 18 ->
  exists s', multiboot_is_valid magic addr s =
      Ret ((magic =? MULTIBOOT2_MAGIC_VALUE) && (addr `mod` 8 =? 0)) s'
    /\ console_step s s'
    /\ screen_print
         (if magic =? MULTIBOOT2_MAGIC_VALUE then
            if addr `mod` 8 =? 0 then [] else str "Unaligned MBI: 0x" ++ numeral 16 (u32 addr)
          else str "Invalid magic value: 0x" ++ numeral 16 (u32 magic)) s = Ret tt s'.
Proof. apply is_valid_run. Qed.

