(* ===== verification/PageWalk.v ===== *)
(** * The processor's translation

    What an access through a virtual address does: the walk of four levels of
    tables, with pages of 4 KiB, 2 MiB and 1 GiB, and the tests of the present
    bits and, for a store, of the writable bits (asm/boot.asm sets CR0.WP, so
    they hold for the kernel too).  An access that fails one is a [PageFault].
    Translations are not cached: an entry takes effect when it is stored.

    The code of mmu/ and the stacks of the interrupt stubs are accessed this way
    ([vload64], [vstore64]).  The rest of the kernel runs in the first gigabyte,
    which asm/boot.asm maps to itself, and accesses physical memory directly. *)

From stdpp Require Import base numbers list gmap.
From S2P Require Import Prelude Machine Boot.

(** ** The walk *)

Definition entry_present (e : Z) : bool := Z.testbit e 0.
Definition entry_writable (e : Z) : bool := Z.testbit e 1.
Definition entry_huge (e : Z) : bool := Z.testbit e 7.
Definition entry_addr (e : Z) : Z := Z.land e 0x000ffffffffff000.

(** Entry [i] of the table at a physical address. *)
Definition entry_at (m : gmap Z Z) (table i : Z) : Z := m64 m (table + 8 * i).

(** The index a virtual address has at a level, 3 for the level 4 table. *)
Definition va_index (va level : Z) : Z := (va / 2 ^ (12 + 9 * level)) `mod` 512.

(** The physical address and the size of its page. *)
Definition page_walk (m : gmap Z Z) (cr3 va : Z) : option (Z * Z) :=
  let e4 := entry_at m cr3 (va_index va 3) in
  if negb (entry_present e4) || entry_huge e4 then None else
  let e3 := entry_at m (entry_addr e4) (va_index va 2) in
  if negb (entry_present e3) then None else
  if entry_huge e3 then Some (entry_addr e3 / 2 ^ 30 * 2 ^ 30 + va `mod` 2 ^ 30, 2 ^ 30) else
  let e2 := entry_at m (entry_addr e3) (va_index va 1) in
  if negb (entry_present e2) then None else
  if entry_huge e2 then Some (entry_addr e2 / 2 ^ 21 * 2 ^ 21 + va `mod` 2 ^ 21, 2 ^ 21) else
  let e1 := entry_at m (entry_addr e2) (va_index va 0) in
  if negb (entry_present e1) then None else
  Some (entry_addr e1 + va `mod` 2 ^ 12, 2 ^ 12).

(** The entries on the way all allow stores. *)
Definition page_writable (m : gmap Z Z) (cr3 va : Z) : bool :=
  let e4 := entry_at m cr3 (va_index va 3) in
  let e3 := entry_at m (entry_addr e4) (va_index va 2) in
  let e2 := entry_at m (entry_addr e3) (va_index va 1) in
  let e1 := entry_at m (entry_addr e2) (va_index va 0) in
  entry_writable e4 && entry_writable e3
  && (entry_huge e3 || (entry_writable e2 && (entry_huge e2 || entry_writable e1))).

Definition translate_va (va : Z) : M Z := fun s =>
  match page_walk (mem s) (cr3 s) va with
  | Some (pa, _) => Ret pa s
  | None => Fault PageFault
  end.

Definition translate_store (va : Z) : M Z :=
  pa ← translate_va va;
  w ← gets (fun s => page_writable (mem s) (cr3 s) va);
  if (w : bool) then mret pa else throw PageFault.

Definition vload64 (va : Z) : M Z := pa ← translate_va va; load64 pa.
Definition vstore64 (va v : Z) : M unit := pa ← translate_store va; store64 pa v.

(** ** Lemmas: accesses *)

Lemma vload64_run va pa n s :
  page_walk (mem s) (cr3 s) va = Some (pa, n) -> vload64 va s = Ret (m64 (mem s) pa) s.
Proof. intros Hw. unfold vload64, mbind, M_bind, translate_va. by rewrite Hw. Qed.

Lemma vstore64_run va pa n v s :
  page_walk (mem s) (cr3 s) va = Some (pa, n) -> page_writable (mem s) (cr3 s) va = true ->
  vstore64 va v s = Ret tt (set_mem (fun m => write_bytes m pa (le_bytes 8 v)) s).
Proof.
  intros Hw Hr. unfold vstore64, translate_store. unfold mbind at 1, M_bind at 1.
  unfold mbind at 1, M_bind at 1. unfold translate_va. rewrite Hw. step. rewrite Hr. done.
Qed.

(** A store through an absent or a read-only entry faults. *)
Lemma vstore64_faults va v s :
  page_walk (mem s) (cr3 s) va = None \/ page_writable (mem s) (cr3 s) va = false ->
  vstore64 va v s = Fault PageFault.
Proof.
  intros H. unfold vstore64, translate_store. unfold mbind at 1, M_bind at 1.
  unfold mbind at 1, M_bind at 1. unfold translate_va.
  destruct (page_walk _ _ _) as [[pa n]|]; [|done]. step. destruct H as [H|H]; [done|]. by rewrite H.
Qed.

(** ** Ranges mapped to themselves *)

(** The addresses from [lo] to [hi] are mapped to themselves and writable,
    whatever is in them and in the bytes of [free]: no table is there. *)
Definition self_mapped (m : gmap Z Z) (c lo hi : Z) (free : Z -> Prop) : Prop := forall m' a,
  (forall b, ~ lo <= b < hi -> ~ free b -> mem_get m' b = mem_get m b) -> lo <= a < hi ->
  exists n, page_walk m' c a = Some (a, n) /\ page_writable m' c a = true.

Definition no_bytes (b : Z) : Prop := False.

Lemma self_mapped_ext m m' c lo hi free :
  (forall b, ~ lo <= b < hi -> ~ free b -> mem_get m' b = mem_get m b) ->
  self_mapped m c lo hi free -> self_mapped m' c lo hi free.
Proof. intros He H m2 a Hm Ha. apply H; [|done]. intros b H1 H2. by rewrite Hm, He. Qed.

Lemma self_mapped_part m c lo hi lo' hi' (free free' : Z -> Prop) :
  lo <= lo' -> hi' <= hi -> (forall b, free' b -> free b) ->
  self_mapped m c lo hi free -> self_mapped m c lo' hi' free'.
Proof.
  intros Hlo Hhi Hf H m2 a Hm Ha. apply H; [|lia]. intros b H1 H2. apply Hm; [lia|]. by intros ?%Hf.
Qed.

Lemma self_mapped_write m c lo hi free a v :
  lo <= a -> a + 8 <= hi -> self_mapped m c lo hi free ->
  self_mapped (write_bytes m a (le_bytes 8 v)) c lo hi free.
Proof.
  intros H1 H2. apply self_mapped_ext. intros b Hb _. apply mem_get_write_out. rewrite length_le_bytes. lia.
Qed.

Lemma self_load a lo hi free s :
  self_mapped (mem s) (cr3 s) lo hi free -> lo <= a < hi -> vload64 a s = Ret (m64 (mem s) a) s.
Proof. intros H Ha. destruct (H (mem s) a) as (n & Hw & _); [done..|]. exact (vload64_run _ _ _ _ Hw). Qed.

Lemma self_store a v lo hi free s :
  self_mapped (mem s) (cr3 s) lo hi free -> lo <= a < hi ->
  vstore64 a v s = Ret tt (set_mem (fun m => write_bytes m a (le_bytes 8 v)) s).
Proof. intros H Ha. destruct (H (mem s) a) as (n & Hw & Hr); [done..|]. exact (vstore64_run _ _ _ _ _ Hw Hr). Qed.
