(* ===== verification/Mmap.v ===== *)
(** * The frame allocator: src/mmu/mmap.c

    The allocator numbers the 4 KiB chunks of the loader's memory map in order
    and hands them out by increasing number.  [mmap_read] walks the map in
    memory; [scan] is the same walk over the abstract list of chunks, and
    [first_free] and [chunk_number] say what it finds.

    Fuel: the loop over the map's entries cannot take more rounds than the tag
    has bytes, the loop over a region's chunks not more than the region has;
    [mmap_allocate_frame] recurses once per reserved chunk and takes its fuel
    as an argument. *)

From stdpp Require Import base numbers list gmap.
From Stdlib Require Import Sorted.
From S2P Require Import Prelude Machine Libk Boot PageWalk.

Definition PAGE_SIZE : Z := 4096.
Definition MMAP_GET_NUM : Z := 0.
Definition MMAP_GET_ADDR : Z := 1.
Definition MULTIBOOT_MEMORY_RESERVED : Z := 2.

Definition mmap_init (mmap : Z) (reserved : reserved_areas_t) : M unit :=
  modify (set_mm (fun _ =>
    Mmap mmap (ra_kernel_start reserved) (ra_kernel_end reserved)
      (ra_multiboot_start reserved) (ra_multiboot_end reserved) 1)).

(** What a walk over chunks comes to: a value to return, or the request and
    the count to go on with. *)
Inductive scan_t :=
  | Found (v : Z)
  | More (request cur_num : Z).

(** The loop over the chunks of one entry. *)
Fixpoint chunk_loop (fuel : nat) (mode type i entry_end request cur_num : Z) : res scan_t :=
  match fuel with
  | O => Err OutOfFuel
  | S fuel =>
      if u64 (i + PAGE_SIZE) <? entry_end then
        if (mode =? MMAP_GET_NUM) && (i <=? request) && (request <=? u64 (i + PAGE_SIZE)) then
          Ok (Found (u32 (cur_num + 1)))
        else if type =? MULTIBOOT_MEMORY_RESERVED then
          chunk_loop fuel mode type (u64 (i + PAGE_SIZE)) entry_end
            (if (mode =? MMAP_GET_ADDR) && (cur_num =? request) then u32 (request + 1) else request)
            (u32 (cur_num + 1))
        else if (mode =? MMAP_GET_ADDR) && (cur_num =? request) then Ok (Found i)
        else chunk_loop fuel mode type (u64 (i + PAGE_SIZE)) entry_end request (u32 (cur_num + 1))
      else Ok (More request cur_num)
  end.

(** The loop over the entries of the memory map. *)
Fixpoint entry_loop (fuel : nat) (mode entry request cur_num : Z) : M Z :=
  match fuel with
  | O => throw OutOfFuel
  | S fuel =>
      area ← gets (fun s => memory_area (mm s));
      size ← load32 (area + 4);
      if entry <? area + size then
        addr ← load64 entry;
        len ← load64 (entry + 8);
        type ← load32 (entry + 16);
        let entry_end := u64 (addr + len) in
        r ← lift (chunk_loop (S (Z.to_nat (u64 len / PAGE_SIZE))) mode type addr entry_end request cur_num);
        match r with
        | Found v => mret v
        | More request cur_num =>
            entry_size ← load32 (area + 8);
            entry_loop fuel mode (u64 (entry + entry_size)) request cur_num
        end
      else mret 0
  end.

Definition mmap_read (request mode : Z) : M Z :=
  if negb (mode =? MMAP_GET_NUM) && negb (mode =? MMAP_GET_ADDR) then mret 0 else
  area ← gets (fun s => memory_area (mm s));
  size ← load32 (area + 4);
  entry_loop (S (Z.to_nat size)) mode (area + 16) (u32 request) 0.

Definition set_next_free_frame (f : Z) : M unit :=
  modify (set_mm (fun m => Mmap (memory_area m) (kernel_start m) (kernel_end m)
    (multiboot_start m) (multiboot_end m) f)).

Fixpoint mmap_allocate_frame (fuel : nat) : M Z :=
  match fuel with
  | O => throw OutOfFuel
  | S fuel =>
      next ← gets (fun s => next_free_frame (mm s));
      current_addr ← mmap_read next MMAP_GET_ADDR;
      m ← gets mm;
      if ((multiboot_start m <=? current_addr) && (current_addr <=? multiboot_end m))
         || ((kernel_start m <=? current_addr) && (current_addr <=? kernel_end m)) then
        set_next_free_frame (u32 (next + 1)) ;;
        mmap_allocate_frame fuel
      else
        num ← mmap_read current_addr MMAP_GET_NUM;
        let current_frame_num := u32 num in
        set_next_free_frame (u32 (current_frame_num + 1)) ;;
        mret current_frame_num
  end.

Definition frame_containing_address (addr : Z) : Z := u32 (addr / PAGE_SIZE).

(** [frame * PAGE_SIZE] is a 32-bit product. *)
Definition frame_starting_address (frame : Z) : Z := u32 (frame * PAGE_SIZE).

(** The frame's address is used as a pointer. *)
Definition mmap_deallocate_frame (frame : Z) : M unit :=
  let addr := frame_starting_address frame in
  for_from 0 (Z.to_nat PAGE_SIZE) (fun i => vstore64 (addr + 8 * i) 0).

(** ** The abstract memory map *)

Record region_t := Region { reg_addr : Z; reg_len : Z; reg_type : Z }.

(** A chunk is a pair: its address, and whether its region is reserved. *)

Fixpoint chunks_from (n : nat) (a : Z) (reserved : bool) : list (Z * bool) :=
  match n with
  | O => []
  | S n => (a, reserved) :: chunks_from n (a + PAGE_SIZE) reserved
  end.

(** The chunks of a region: the walk stops one chunk early, so the last whole
    page of a region is never counted. *)
Definition region_chunks (r : region_t) : list (Z * bool) :=
  chunks_from (Z.to_nat ((reg_len r - 1) / PAGE_SIZE)) (reg_addr r)
    (reg_type r =? MULTIBOOT_MEMORY_RESERVED).

Definition chunks (rs : list region_t) : list (Z * bool) := rs ≫= region_chunks.

(** The walk over abstract chunks. *)
Fixpoint scan (mode : Z) (cs : list (Z * bool)) (request cur_num : Z) : scan_t :=
  match cs with
  | [] => More request cur_num
  | (i, reserved) :: cs =>
      if (mode =? MMAP_GET_NUM) && (i <=? request) && (request <=? i + PAGE_SIZE) then Found (cur_num + 1)
      else if (reserved : bool) then
        scan mode cs (if (mode =? MMAP_GET_ADDR) && (cur_num =? request) then request + 1 else request)
          (cur_num + 1)
      else if (mode =? MMAP_GET_ADDR) && (cur_num =? request) then Found i
      else scan mode cs request (cur_num + 1)
  end.

(** The chunk that a request for an address finds: the first one from the
    requested number on that is not reserved. *)
Definition first_free (k : nat) (cs : list (Z * bool)) : option Z :=
  fst <$> head (filter (fun c => c.2 = false) (drop k cs)).

(** The number that a request for a chunk number finds: one more than the index
    of the first chunk whose closed interval holds the address. *)
Definition chunk_number (a : Z) (cs : list (Z * bool)) : Z :=
  match list_find (fun c => c.1 <= a <= c.1 + PAGE_SIZE) cs with
  | Some (k, _) => Z.of_nat k + 1
  | None => 0
  end.

Fixpoint regions_at (m : gmap Z Z) (a es : Z) (rs : list region_t) : Prop :=
  match rs with
  | [] => True
  | r :: rs =>
      m64 m a = reg_addr r /\ m64 m (a + 8) = reg_len r /\ m32 m (a + 16) = reg_type r
      /\ regions_at m (a + es) es rs
  end.

Definition region_ok (r : region_t) : Prop :=
  0 <= reg_addr r /\ 0 <= reg_len r /\ reg_addr r + reg_len r < 2 ^ 64 - PAGE_SIZE.

(** The memory map the allocator uses is [rs]. *)
Definition mmap_ok (rs : list region_t) (s : kstate) : Prop :=
  let a := memory_area (mm s) in
  let es := m32 (mem s) (a + 8) in
  0 <= a < 2 ^ 63 /\ 0 < es
  /\ m32 (mem s) (a + 4) = 16 + es * Z.of_nat (length rs) /\ 16 + es * Z.of_nat (length rs) < 2 ^ 32
  /\ regions_at (mem s) (a + 16) es rs /\ Forall region_ok rs
  /\ Z.of_nat (length (chunks rs)) < 2 ^ 32.

(** ** Lemmas: the walk in memory is the abstract walk *)

Definition scan_value (r : scan_t) : Z := match r with Found v => v | More _ _ => 0 end.

Lemma scan_app mode c1 c2 : forall request cur,
  scan mode (c1 ++ c2) request cur =
    match scan mode c1 request cur with
    | Found v => Found v
    | More request cur => scan mode c2 request cur
    end.
Proof.
  induction c1 as [|[i b] c1 IH]; intros request cur; [done|]. cbn [app scan].
  destruct (_ && _ && _); [done|]. destruct b; [apply IH|]. by destruct (_ && _).
Qed.

Lemma scan_more mode cs : forall request cur r n,
  scan mode cs request cur = More r n ->
  n = cur + Z.of_nat (length cs) /\ (0 <= request -> 0 <= r).
Proof.
  induction cs as [|[i b] cs IH]; intros request cur r n H; cbn [scan length] in *.
  - injection H as <- <-. split; [lia|done].
  - destruct (_ && _ && _); [done|]. destruct b.
    + apply IH in H as [-> H]. split; [lia|]. intros Hp. apply H. destruct (_ && _); lia.
    + destruct (_ && _); [done|]. apply IH in H as [-> H]. split; [lia|done].
Qed.

Lemma length_chunks_from n a b : length (chunks_from n a b) = n.
Proof. revert a; induction n; intros; simpl; auto. Qed.

Lemma chunk_loop_scan mode type n : forall fuel i e request cur,
  0 <= i -> i + PAGE_SIZE * Z.of_nat n < e \/ n = 0%nat -> e <= i + PAGE_SIZE * (Z.of_nat n + 1) ->
  i <= e -> e < 2 ^ 64 - PAGE_SIZE -> (n < fuel)%nat -> 0 <= cur -> cur + Z.of_nat n < 2 ^ 32 ->
  chunk_loop fuel mode type i e request cur =
    Ok (scan mode (chunks_from n i (type =? MULTIBOOT_MEMORY_RESERVED)) request cur).
Proof.
  unfold PAGE_SIZE. induction n as [|n IH]; intros [|fuel] i e request cur Hi Hlt Hle Hie He Hf Hc Hn;
    try lia; cbn [chunk_loop]; unfold PAGE_SIZE; rewrite (u64_small (i + 4096)) by lia.
  - by rewrite (proj2 (Z.ltb_ge _ _)) by lia.
  - rewrite (proj2 (Z.ltb_lt _ _)) by lia. rewrite (u32_small (cur + 1)) by lia.
    cbn [chunks_from scan]. unfold PAGE_SIZE. destruct (_ && _ && _); [done|].
    assert (Hreq : (if (mode =? MMAP_GET_ADDR) && (cur =? request) then u32 (request + 1) else request)
      = if (mode =? MMAP_GET_ADDR) && (cur =? request) then request + 1 else request).
    { destruct (Z.eqb_spec cur request); [|by rewrite andb_false_r]. subst. by rewrite u32_small by lia. }
    rewrite Hreq. destruct (type =? MULTIBOOT_MEMORY_RESERVED); [apply IH; lia|].
    destruct (_ && _); [done|apply IH; lia].
Qed.

Lemma region_loop_scan mode r request cur :
  region_ok r -> 0 <= cur -> cur + Z.of_nat (length (region_chunks r)) < 2 ^ 32 ->
  chunk_loop (S (Z.to_nat (u64 (reg_len r) / PAGE_SIZE))) mode (reg_type r) (reg_addr r)
    (u64 (reg_addr r + reg_len r)) request cur = Ok (scan mode (region_chunks r) request cur).
Proof.
  unfold region_ok, region_chunks, PAGE_SIZE. rewrite length_chunks_from. intros (Ha & Hl & He) Hc Hn.
  rewrite !u64_small by lia.
  apply chunk_loop_scan; unfold PAGE_SIZE; Z.div_mod_to_equations; lia.
Qed.

Lemma chunks_cons r rs : chunks (r :: rs) = region_chunks r ++ chunks rs.
Proof. done. Qed.

Lemma entry_loop_scan mode rs : forall fuel entry request cur s,
  let a := memory_area (mm s) in
  let es := m32 (mem s) (a + 8) in
  0 < es -> 0 <= entry ->
  a + m32 (mem s) (a + 4) = entry + es * Z.of_nat (length rs) ->
  entry + es * Z.of_nat (length rs) < 2 ^ 64 ->
  regions_at (mem s) entry es rs -> Forall region_ok rs ->
  0 <= cur -> cur + Z.of_nat (length (chunks rs)) < 2 ^ 32 -> (length rs < fuel)%nat ->
  entry_loop fuel mode entry request cur s = Ret (scan_value (scan mode (chunks rs) request cur)) s.
Proof.
  induction rs as [|r rs IH]; intros [|fuel] entry request cur s a es Hes He Hend Hb Hat Hok Hc Hn Hf;
    cbn [length] in *; try lia; cbn [entry_loop]; step; rewrite load32_bind; fold a.
  - by rewrite (proj2 (Z.ltb_ge _ _)) by lia.
  - rewrite (proj2 (Z.ltb_lt _ _)) by lia. destruct Hat as (Had & Hln & Hty & Hat).
    apply Forall_cons in Hok as [Hr Hok]. rewrite chunks_cons, length_app in Hn.
    rewrite !load64_bind, load32_bind, Had, Hln, Hty.
    erewrite bind_ret; [|unfold lift; rewrite region_loop_scan by (done || lia); reflexivity].
    rewrite chunks_cons, scan_app. destruct (scan mode (region_chunks r) request cur) as [v|r' n] eqn:E; [done|].
    apply scan_more in E as [-> _]. rewrite load32_bind. fold a es.
    rewrite Nat2Z.inj_succ, Z.mul_succ_r in Hend, Hb. rewrite u64_small by lia.
    apply IH; fold a; fold es; (done || lia).
Qed.

Lemma mmap_read_scan rs s request mode :
  mmap_ok rs s -> mode = MMAP_GET_NUM \/ mode = MMAP_GET_ADDR ->
  mmap_read request mode s = Ret (scan_value (scan mode (chunks rs) (u32 request) 0)) s.
Proof.
  intros (Ha & Hes & Hsz & Hb & Hat & Hok & Hn) Hmode. cbn zeta in *. unfold mmap_read.
  assert (E : negb (mode =? MMAP_GET_NUM) && negb (mode =? MMAP_GET_ADDR) = false)
    by (destruct Hmode as [-> | ->]; done).
  rewrite E. step. rewrite load32_bind. set (a := memory_area (mm s)) in *.
  set (es := m32 (mem s) (a + 8)) in *.
  assert (Z.of_nat (length rs) <= es * Z.of_nat (length rs)) by nia.
  apply entry_loop_scan; fold a; fold es; (done || lia).
Qed.

(** ** Lemmas: what the abstract walk finds *)

Lemma scan_addr cs : forall k cur,
  scan_value (scan MMAP_GET_ADDR cs (cur + Z.of_nat k) cur) = default 0 (first_free k cs).
Proof.
  induction cs as [|[i b] cs IH]; intros k cur; [by destruct k|]. cbn [scan].
  change (MMAP_GET_ADDR =? MMAP_GET_NUM) with false. change (MMAP_GET_ADDR =? MMAP_GET_ADDR) with true.
  cbn [andb]. destruct k as [|k].
  - rewrite (proj2 (Z.eqb_eq cur _)) by lia. unfold first_free. rewrite drop_0.
    destruct b; rewrite filter_cons; cbn [snd].
    + rewrite decide_False by done.
      replace (cur + Z.of_nat 0 + 1) with (cur + 1 + Z.of_nat 0) by lia. apply IH.
    + by rewrite decide_True.
  - rewrite (proj2 (Z.eqb_neq cur _)) by lia. unfold first_free. cbn [drop].
    replace (cur + Z.of_nat (S k)) with (cur + 1 + Z.of_nat k) by lia.
    destruct b; apply IH.
Qed.

Lemma scan_num cs a : forall cur,
  scan_value (scan MMAP_GET_NUM cs a cur) =
    match list_find (fun c : Z * bool => c.1 <= a <= c.1 + PAGE_SIZE) cs with
    | Some (k, _) => cur + Z.of_nat k + 1
    | None => 0
    end.
Proof.
  induction cs as [|[i b] cs IH]; intros cur; [done|]. cbn [scan list_find fst].
  change (MMAP_GET_NUM =? MMAP_GET_NUM) with true. change (MMAP_GET_NUM =? MMAP_GET_ADDR) with false.
  cbn [andb]. destruct (decide (i <= a <= i + PAGE_SIZE)) as [Hd|Hd].
  - rewrite !(proj2 (Z.leb_le _ _)) by lia. cbn [andb scan_value]. lia.
  - assert (E : (i <=? a) && (a <=? i + PAGE_SIZE) = false) by (split_tests; simpl; (done || lia)).
    rewrite E. destruct b; rewrite IH; destruct (list_find _ cs) as [[k c]|]; cbn; (done || lia).
Qed.

Lemma mmap_read_addr rs s k :
  mmap_ok rs s -> 0 <= k < 2 ^ 32 ->
  mmap_read k MMAP_GET_ADDR s = Ret (default 0 (first_free (Z.to_nat k) (chunks rs))) s.
Proof.
  intros Hok Hk. rewrite (mmap_read_scan rs) by (done || by right).
  rewrite <- (scan_addr (chunks rs) (Z.to_nat k) 0), u32_small by lia. do 3 f_equal. lia.
Qed.

Lemma mmap_read_num rs s a :
  mmap_ok rs s -> mmap_read a MMAP_GET_NUM s = Ret (chunk_number (u32 a) (chunks rs)) s.
Proof.
  intros Hok. rewrite (mmap_read_scan rs) by (done || by left). rewrite scan_num. unfold chunk_number.
  by destruct (list_find _ _) as [[k c]|]; rewrite ?Z.add_0_l.
Qed.

(** The first free chunk from [k] on: no chunk between is free. *)
Lemma first_free_spec cs : forall k a,
  first_free k cs = Some a -> exists j, (k <= j)%nat /\ cs !! j = Some (a, false)
    /\ forall i b, (k <= i < j)%nat -> cs !! i <> Some (b, false).
Proof.
  induction cs as [|[x r] cs IH]; intros k a H; [by destruct k|]. destruct k as [|k].
  - unfold first_free in H. rewrite drop_0, filter_cons in H. cbn [snd] in H. destruct r.
    + rewrite decide_False in H by done. change (first_free 0 cs = Some a) in H.
      destruct (IH 0%nat a H) as (j & _ & Hj & Hno). exists (S j). split; [lia|]. split; [done|].
      intros [|i] b Hi; [done|]. apply Hno. lia.
    + rewrite decide_True in H by done. injection H as ->. exists 0%nat. split; [done|]. split; [done|]. lia.
  - destruct (IH k a H) as (j & Hk & Hj & Hno). exists (S j). split; [lia|]. split; [done|].
    intros [|i] b Hi; [lia|]. apply Hno. lia.
Qed.

(** If some chunk from [k] on is free, the request finds one no later. *)
Lemma first_free_exists cs : forall k j a,
  (k <= j)%nat -> cs !! j = Some (a, false) ->
  exists j' a', (k <= j' <= j)%nat /\ cs !! j' = Some (a', false) /\ first_free k cs = Some a'
    /\ forall i b, (k <= i < j')%nat -> cs !! i <> Some (b, false).
Proof.
  intros k j a Hkj Hj. destruct (first_free k cs) as [a'|] eqn:E.
  - destruct (first_free_spec _ _ _ E) as (j' & Hk & Hj' & Hno). exists j', a'. split; [|done].
    split; [done|]. destruct (decide (j' <= j)%nat) as [|Hgt]; [done|]. destruct (Hno j a); [lia|done].
  - unfold first_free in E. apply fmap_None in E. exfalso.
    assert (Hin : (a, false) ∈ filter (fun c : Z * bool => c.2 = false) (drop k cs)).
    { apply list_elem_of_filter. split; [done|]. apply list_elem_of_lookup. exists (j - k)%nat.
      rewrite lookup_drop. by replace (k + (j - k))%nat with j by lia. }
    destruct (filter _ _); [by apply elem_of_nil in Hin|done].
Qed.

Lemma first_free_here cs k a : cs !! k = Some (a, false) -> first_free k cs = Some a.
Proof.
  intros Hk. destruct (first_free_exists cs k k a) as (j & a' & Hj & Hja & Hff & _); [lia|done|].
  assert (j = k) as -> by lia. rewrite Hff. congruence.
Qed.

Lemma first_free_none cs k :
  (forall j a, (k <= j)%nat -> cs !! j <> Some (a, false)) -> first_free k cs = None.
Proof.
  intros H. destruct (first_free k cs) as [a|] eqn:E; [|done].
  destruct (first_free_spec _ _ _ E) as (j & Hk & Hj & _). by destruct (H j a Hk).
Qed.

(** Chunks in increasing order, without overlap. *)
Definition chunks_sorted (cs : list (Z * bool)) : Prop :=
  forall i j c d, (i < j)%nat -> cs !! i = Some c -> cs !! j = Some d -> c.1 + PAGE_SIZE <= d.1.

Definition regions_sorted (rs : list region_t) : Prop :=
  StronglySorted (fun r r' => reg_addr r + reg_len r <= reg_addr r') rs.

Lemma chunks_from_lookup n : forall a b i c,
  chunks_from n a b !! i = Some c -> c = (a + PAGE_SIZE * Z.of_nat i, b) /\ (i < n)%nat.
Proof.
  induction n as [|n IH]; intros a b i c H; [done|]. destruct i as [|i]; cbn in H.
  - injection H as <-. split; [|lia]. f_equal. lia.
  - apply IH in H as [-> H]. split; [|lia]. f_equal. lia.
Qed.

Lemma region_chunks_lookup r i c :
  region_chunks r !! i = Some c ->
  c.1 = reg_addr r + PAGE_SIZE * Z.of_nat i /\ c.2 = (reg_type r =? MULTIBOOT_MEMORY_RESERVED)
  /\ c.1 + PAGE_SIZE < reg_addr r + reg_len r.
Proof.
  intros H. apply chunks_from_lookup in H as [-> H]. cbn [fst snd]. split; [done|]. split; [done|].
  unfold PAGE_SIZE in *. Z.div_mod_to_equations. lia.
Qed.

Lemma chunks_bound rs lo i c :
  Forall (fun r => lo <= reg_addr r) rs -> chunks rs !! i = Some c -> lo <= c.1.
Proof.
  intros H. revert i; induction H as [|r rs Hr _ IH]; intros i Hi; [done|].
  rewrite chunks_cons in Hi. apply lookup_app_Some in Hi as [Hi|[_ Hi]]; [|by eapply IH].
  apply region_chunks_lookup in Hi as (-> & _ & _). unfold PAGE_SIZE. lia.
Qed.

Lemma chunks_sorted_regions rs : regions_sorted rs -> chunks_sorted (chunks rs).
Proof.
  induction 1 as [|r rs _ IH Hr]; intros i j c d Hij Hi Hj; [done|].
  rewrite chunks_cons in Hi, Hj.
  apply lookup_app_Some in Hi as [Hi|[Hil Hi]]; apply lookup_app_Some in Hj as [Hj|[Hjl Hj]].
  - apply region_chunks_lookup in Hi as (-> & _). apply region_chunks_lookup in Hj as (-> & _).
    unfold PAGE_SIZE. nia.
  - apply region_chunks_lookup in Hi as (_ & _ & Hi).
    pose proof (chunks_bound rs _ _ _ Hr Hj). lia.
  - apply lookup_lt_Some in Hj. lia.
  - eapply IH; [|done..]. lia.
Qed.

(** Another chunk ends where this one starts. *)
Definition preceded (cs : list (Z * bool)) (j : nat) : bool :=
  match j with
  | O => false
  | S k => match cs !! k, cs !! j with Some p, Some c => p.1 + PAGE_SIZE =? c.1 | _, _ => false end
  end.

(** A run of chunks starts where a region does. *)
Lemma run_start rs : forall j c,
  chunks rs !! j = Some c -> preceded (chunks rs) j = false -> exists r, r ∈ rs /\ c.1 = reg_addr r.
Proof.
  induction rs as [|r rs IH]; intros j c Hj Hp; [done|]. rewrite chunks_cons in *.
  apply lookup_app_Some in Hj as [Hj|[Hlen Hj]].
  - destruct j as [|k].
    + apply region_chunks_lookup in Hj as (Ha & _). exists r. split; [by left|]. lia.
    + exfalso. destruct (lookup_lt_is_Some_2 (region_chunks r) k) as [p Hk]; [apply lookup_lt_Some in Hj; lia|].
      cbn [preceded] in Hp. rewrite (lookup_app_l_Some _ _ _ _ Hj), (lookup_app_l_Some _ _ _ _ Hk) in Hp.
      apply region_chunks_lookup in Hj as (Ha & _). apply region_chunks_lookup in Hk as (Hb & _).
      apply Z.eqb_neq in Hp. unfold PAGE_SIZE in *. lia.
  - destruct (IH (j - length (region_chunks r))%nat c Hj) as (r' & Hr & Ha).
    + destruct (j - length (region_chunks r))%nat as [|k] eqn:E; [done|].
      assert (j = S (length (region_chunks r) + k)) as -> by lia. cbn [preceded] in Hp |- *.
      rewrite !lookup_app_r in Hp by lia.
      replace (length (region_chunks r) + k - length (region_chunks r))%nat with k in Hp by lia.
      replace (S (length (region_chunks r) + k) - length (region_chunks r))%nat with (S k) in Hp by lia. exact Hp.
    + exists r'. split; [by right|done].
Qed.

(** The number a request with a chunk's own address gets: its index if another
    chunk ends there, whose interval holds the address too; otherwise one more. *)
Definition own_number (cs : list (Z * bool)) (j : nat) : Z :=
  if preceded cs j then Z.of_nat j else Z.of_nat j + 1.

Lemma chunk_number_own cs j c :
  chunks_sorted cs -> cs !! j = Some c -> chunk_number c.1 cs = own_number cs j.
Proof.
  intros Hs Hj. unfold chunk_number, own_number.
  match goal with |- context [@list_find ?A ?P ?D cs] => destruct (@list_find A P D cs) as [[k d]|] eqn:E end.
  - apply list_find_Some in E as (Hk & Hd & Hfirst).
    destruct (decide (k = j)) as [->|Hne].
    + replace (preceded cs j) with false; [done|]. destruct j as [|j]; [done|]. unfold preceded.
      destruct (lookup_lt_is_Some_2 cs j) as [p Hp]; [apply lookup_lt_Some in Hj; lia|]. rewrite Hp, Hj.
      symmetry. apply Z.eqb_neq. intros Heq. apply (Hfirst j p Hp); [lia|]. unfold PAGE_SIZE in *. lia.
    + assert (k < j)%nat.
      { destruct (decide (j < k)%nat) as [Hlt|]; [|lia]. destruct (Hfirst j c Hj Hlt).
        unfold PAGE_SIZE. lia. }
      assert (S k = j) as <-.
      { destruct (decide (S k = j)) as [|Hgap]; [done|].
        destruct (lookup_lt_is_Some_2 cs (S k)) as [e He]; [apply lookup_lt_Some in Hj; lia|].
        pose proof (Hs k (S k) d e ltac:(lia) Hk He). pose proof (Hs (S k) j e c ltac:(lia) He Hj).
        unfold PAGE_SIZE in *. lia. }
      unfold preceded. rewrite Hk, Hj. pose proof (Hs k (S k) d c ltac:(lia) Hk Hj).
      rewrite (proj2 (Z.eqb_eq _ _)) by lia. lia.
  - apply list_find_None in E. rewrite Forall_lookup in E. destruct (E j c Hj). unfold PAGE_SIZE. lia.
Qed.

Lemma own_number_bounds cs j : Z.of_nat j <= own_number cs j <= Z.of_nat j + 1.
Proof. unfold own_number. destruct (preceded _ _); lia. Qed.

(** ** Lemmas: allocation *)

Definition in_reserved (m : mmap_t) (a : Z) : Prop :=
  multiboot_start m <= a <= multiboot_end m \/ kernel_start m <= a <= kernel_end m.

#[global] Instance in_reserved_dec m a : Decision (in_reserved m a).
Proof. unfold in_reserved. apply _. Defined.

Lemma in_reserved_test m a :
  ((multiboot_start m <=? a) && (a <=? multiboot_end m))
  || ((kernel_start m <=? a) && (a <=? kernel_end m)) = true <-> in_reserved m a.
Proof. unfold in_reserved. rewrite orb_true_iff, !andb_true_iff, !Z.leb_le. done. Qed.

(** The allocator's state with another next frame. *)
Definition with_next (f : Z) (s : kstate) : kstate :=
  set_mm (fun m => Mmap (memory_area m) (kernel_start m) (kernel_end m)
    (multiboot_start m) (multiboot_end m) f) s.

Lemma mmap_ok_with_next rs f s : mmap_ok rs (with_next f s) <-> mmap_ok rs s.
Proof. done. Qed.

Lemma with_next_with_next f g s : with_next f (with_next g s) = with_next f s.
Proof. done. Qed.

(** The first chunk from [k] on that allocation accepts. *)
Definition first_available (m : mmap_t) (cs : list (Z * bool)) (k : Z) (j : nat) (a : Z) : Prop :=
  k <= Z.of_nat j /\ cs !! j = Some (a, false) /\ ~ in_reserved m a
  /\ forall i b, k <= Z.of_nat i -> (i < j)%nat -> cs !! i = Some (b, false) -> in_reserved m b.

Lemma allocate_here fuel rs s j a :
  mmap_ok rs s -> chunks_sorted (chunks rs) -> 0 <= next_free_frame (mm s) < 2 ^ 32 ->
  first_free (Z.to_nat (next_free_frame (mm s))) (chunks rs) = Some a ->
  chunks rs !! j = Some (a, false) -> 0 <= a < 2 ^ 32 -> ~ in_reserved (mm s) a ->
  Z.of_nat j + 2 < 2 ^ 32 ->
  mmap_allocate_frame (S fuel) s =
    Ret (own_number (chunks rs) j) (with_next (own_number (chunks rs) j + 1) s).
Proof.
  intros Hok Hs Hn Hff Hj Ha Hres Hj32. pose proof (chunk_number_own _ _ _ Hs Hj) as Hnum. cbn [fst] in Hnum.
  pose proof (own_number_bounds (chunks rs) j) as Hb. cbn [mmap_allocate_frame]. step.
  rewrite (bind_ret _ _ _ _ _ (mmap_read_addr rs s _ Hok Hn)), Hff. change (default 0 (Some a)) with a.
  step. destruct (_ || _) eqn:E; [by apply in_reserved_test in E|].
  rewrite (bind_ret _ _ _ _ _ (mmap_read_num rs s a Hok)).
  rewrite (u32_small a), Hnum by done. cbn zeta. rewrite !u32_small by (rewrite ?u32_small; lia).
  done.
Qed.

Lemma allocate_skip fuel rs s a :
  mmap_ok rs s -> 0 <= next_free_frame (mm s) -> next_free_frame (mm s) + 1 < 2 ^ 32 ->
  first_free (Z.to_nat (next_free_frame (mm s))) (chunks rs) = Some a -> in_reserved (mm s) a ->
  mmap_allocate_frame (S fuel) s = mmap_allocate_frame fuel (with_next (next_free_frame (mm s) + 1) s).
Proof.
  intros Hok Hn Hn' Hff Hres. cbn [mmap_allocate_frame]. step.
  rewrite (bind_ret _ _ _ _ _ (mmap_read_addr rs s (next_free_frame (mm s)) Hok ltac:(lia))), Hff. change (default 0 (Some a)) with a.
  step. rewrite (proj2 (in_reserved_test _ _) Hres). rewrite u32_small by lia. done.
Qed.

Lemma allocate_run rs : forall d fuel s g b,
  mmap_ok rs s -> chunks_sorted (chunks rs) -> 0 <= next_free_frame (mm s) ->
  Forall (fun c : Z * bool => 0 <= c.1 < 2 ^ 32) (chunks rs) -> Z.of_nat (length (chunks rs)) + 2 < 2 ^ 32 ->
  chunks rs !! g = Some (b, false) -> ~ in_reserved (mm s) b ->
  Z.of_nat g = next_free_frame (mm s) + Z.of_nat d -> (d < fuel)%nat ->
  exists j a, first_available (mm s) (chunks rs) (next_free_frame (mm s)) j a
    /\ mmap_allocate_frame fuel s =
         Ret (own_number (chunks rs) j) (with_next (own_number (chunks rs) j + 1) s).
Proof.
  induction d as [|d IH]; intros [|fuel] s g b Hok Hs Hn Hbd Hlen Hg Hfree Hgd Hf; try lia.
  all: pose proof (lookup_lt_Some _ _ _ Hg) as Hgl.
  all: destruct (first_free_exists (chunks rs) (Z.to_nat (next_free_frame (mm s))) g b)
    as (j & a & Hj & Hja & Hff & Hno); [lia|done|].
  all: assert (Ha : 0 <= a < 2 ^ 32) by (rewrite Forall_lookup in Hbd; apply (Hbd j (a, false) Hja)).
  all: destruct (decide (in_reserved (mm s) a)) as [Hres|Hres].
  2, 4: exists j, a; split; [split; [lia|]; split; [done|]; split; [done|]; intros i c Hi Hij Hc;
    by destruct (Hno i c); [lia|]|apply (allocate_here fuel rs s j a); (done || lia)].
  - exfalso. apply Hfree. assert (j = g) as -> by lia. rewrite Hg in Hja. by injection Hja as ->.
  - rewrite (allocate_skip fuel rs s a) by (done || lia).
    assert (g <> j) by (intros ->; apply Hfree; rewrite Hg in Hja; by injection Hja as ->).
    destruct (IH fuel (with_next (next_free_frame (mm s) + 1) s) g b)
      as (j' & a' & (Hj' & Hja' & Hres' & Hbtw) & Hrun); try (done || (simpl; lia)).
    exists j', a'. simpl in Hj'. rewrite Hrun, with_next_with_next. split; [|done].
    split; [lia|]. split; [done|]. split; [done|]. intros i c Hi Hij Hc.
    destruct (decide (Z.of_nat i = next_free_frame (mm s))) as [Ei|]; [|apply (Hbtw i c); [simpl; lia|done..]].
    apply first_free_here in Hc. replace (Z.to_nat (next_free_frame (mm s))) with i in Hff by lia.
    rewrite Hff in Hc. by injection Hc as <-.
Qed.

(** ** Lemmas: clearing *)

Lemma clear_words_get a n : forall lo m b,
  mem_get (fold_from (fun i m => write_bytes m (a + 8 * i) (le_bytes 8 0)) lo n m) b =
    if (a + 8 * lo <=? b) && (b <? a + 8 * (lo + Z.of_nat n)) then 0 else mem_get m b.
Proof.
  induction n as [|n IH]; intros lo m b.
  - cbn [fold_from]. destruct ((_ <=? _) && _) eqn:E; [bools; lia|done].
  - rewrite fold_from_S, IH. destruct (decide (a + 8 * lo <= b < a + 8 * lo + 8)) as [Hin|Hout].
    + rewrite (proj2 (Z.leb_gt _ b)) by lia. cbn [andb].
      rewrite (proj2 (Z.leb_le _ b)), (proj2 (Z.ltb_lt b _)) by lia. cbn [andb].
      replace b with (a + 8 * lo + Z.of_nat (Z.to_nat (b - (a + 8 * lo)))) at 1 by lia.
      apply mem_get_write_in. change (le_bytes 8 0) with (replicate 8 0).
      apply lookup_replicate. split; [done|lia].
    + rewrite mem_get_write_out by (rewrite length_le_bytes; lia).
      destruct ((a + 8 * (lo + 1) <=? b) && (b <? a + 8 * (lo + 1 + Z.of_nat n))) eqn:E.
      * bools. by rewrite (proj2 (Z.leb_le _ b)), (proj2 (Z.ltb_lt b _)) by lia.
      * destruct ((a + 8 * lo <=? b) && (b <? a + 8 * (lo + Z.of_nat (S n)))) eqn:E'; [|done].
        bools. rewrite (proj2 (Z.leb_le _ b)), (proj2 (Z.ltb_lt b _)) in E by lia. done.
Qed.

Lemma clear_words_run a lo hi free n : forall i s,
  self_mapped (mem s) (cr3 s) lo hi free -> lo <= a + 8 * i -> a + 8 * (i + Z.of_nat n) <= hi ->
  for_from i n (fun i => vstore64 (a + 8 * i) 0) s =
    Ret tt (set_mem (fold_from (fun i m => write_bytes m (a + 8 * i) (le_bytes 8 0)) i n) s).
Proof.
  induction n as [|n IH]; intros i s H Hlo Hhi; cbn [for_from].
  - by destruct s.
  - rewrite (bind_ret _ _ _ _ _ (self_store (a + 8 * i) 0 lo hi free s H ltac:(lia))).
    rewrite IH, set_mem_set_mem; [done| |lia..]. apply self_mapped_write; [lia..|done].
Qed.

(** The 32 KiB the loop covers, mapped to themselves and writable. *)
Definition frame_mapped (m : gmap Z Z) (c frame : Z) (free : Z -> Prop) : Prop :=
  self_mapped m c (frame_starting_address frame) (frame_starting_address frame + 8 * PAGE_SIZE) free.

Lemma deallocate_run frame free s :
  frame_mapped (mem s) (cr3 s) frame free ->
  exists m, mmap_deallocate_frame frame s = Ret tt (set_mem (fun _ => m) s)
    /\ forall b, mem_get m b =
         if (frame_starting_address frame <=? b) && (b <? frame_starting_address frame + 8 * PAGE_SIZE)
         then 0 else mem_get (mem s) b.
Proof.
  intros H. eexists. split.
  - unfold mmap_deallocate_frame. cbn zeta.
    rewrite (clear_words_run _ _ _ free _ _ _ H); [|lia|].
    { unfold set_mem. reflexivity. }
    rewrite Z2Nat.id by done. lia.
  - intros b. rewrite clear_words_get. rewrite Z.mul_0_r, Z.add_0_r, Z.add_0_l, Z2Nat.id by done. done.
Qed.

(** Where the frame's address is not mapped, or read-only, the first store faults. *)
Lemma deallocate_faults frame s :
  page_walk (mem s) (cr3 s) (frame_starting_address frame) = None
  \/ page_writable (mem s) (cr3 s) (frame_starting_address frame) = false ->
  mmap_deallocate_frame frame s = Fault PageFault.
Proof.
  intros H. unfold mmap_deallocate_frame. cbn zeta.
  destruct (Z.to_nat PAGE_SIZE) as [|n] eqn:E; [unfold PAGE_SIZE in E; lia|]. cbn [for_from].
  apply bind_fault, vstore64_faults. by rewrite Z.mul_0_r, Z.add_0_r.
Qed.

(** ** Properties *)

(** C12: [mmap_read] on a memory map in memory computes what the abstract list of
    chunks says: an address request finds the first chunk from that number on
    outside reserved regions, a number request one more than the index of the
    first chunk whose interval, both ends included, holds the address, and 0
    stands for nothing found and for an invalid mode.  It modifies nothing and
    always ends. *)
Theorem mmap_read_refines rs s k mode :
  mmap_ok rs s -> 0 <= k < 2 ^ 32 ->
  mmap_read k mode s =
    Ret (if mode =? MMAP_GET_ADDR then default 0 (first_free (Z.to_nat k) (chunks rs))
         else if mode =? MMAP_GET_NUM then chunk_number k (chunks rs) else 0) s.
Proof.
  intros Hok Hk. destruct (Z.eqb_spec mode MMAP_GET_ADDR) as [->|]; [by apply mmap_read_addr|].
  destruct (Z.eqb_spec mode MMAP_GET_NUM) as [->|].
  - rewrite (mmap_read_num rs) by done. by rewrite u32_small.
  - unfold mmap_read. by rewrite !(proj2 (Z.eqb_neq mode _)) by done.
Qed.

(** The usual memory map of a PC with a little memory above 1 MiB, for the
    instances: usable memory up to 0x9FC00, the reserved BIOS area, usable
    memory from 1 MiB on. *)
Definition pc_regions : list region_t :=
  [Region 0 0x9FC00 1; Region 0xF0000 0x10000 2; Region 0x100000 0x10000 1].
Definition pc_mmap_bytes : list Z :=
  le_bytes 4 6 ++ le_bytes 4 88 ++ le_bytes 4 24 ++ le_bytes 4 0
  ++ (pc_regions ≫= fun r =>
        le_bytes 8 (reg_addr r) ++ le_bytes 8 (reg_len r) ++ le_bytes 4 (reg_type r) ++ le_bytes 4 0).
(** The machine with this map at 0x91000, the boot information at 0x90000, a
    kernel of 13 pages at 1 MiB, and [next] the next frame. *)
Definition pc_state (next : Z) : kstate :=
  set_mm (fun _ => Mmap 0x91000 0x100000 0x10CFFF 0x90000 0x91FFF next)
    (blank_state (write_bytes ∅ 0x91000 pc_mmap_bytes)).

Lemma pc_mmap_ok next : mmap_ok pc_regions (pc_state next).
Proof.
  unfold mmap_ok. cbn zeta. change (memory_area (mm (pc_state next))) with 0x91000.
  change (mem (pc_state next)) with (write_bytes ∅ 0x91000 pc_mmap_bytes).
  split; [lia|]. split; [vm_compute; reflexivity|]. split; [vm_compute; reflexivity|].
  split; [vm_compute; reflexivity|]. split; [vm_compute; repeat split|].
  split; [|vm_compute; reflexivity].
  repeat constructor; simpl; unfold PAGE_SIZE; lia.
Defined.

Lemma mmap_read_refines_witness :
  mmap_read 160 MMAP_GET_ADDR (pc_state 1) = Ret 0x100000 (pc_state 1)
  /\ mmap_read 0x2000 MMAP_GET_NUM (pc_state 1) = Ret 2 (pc_state 1).
Proof.
  split.
  - apply (mmap_read_refines pc_regions (pc_state 1) 160 MMAP_GET_ADDR (pc_mmap_ok 1)). lia.
  - apply (mmap_read_refines pc_regions (pc_state 1) 0x2000 MMAP_GET_NUM (pc_mmap_ok 1)). lia.
Defined.


Lemma pc_regions_sorted : regions_sorted pc_regions.
Proof. repeat constructor; simpl; lia. Defined.


(** When no free chunk is left, allocation does not fail: if, as on a PC,
    the first chunk is at address 0 and address 0 is in no reserved area, it
    returns frame 1, whoever owns it, and starts over from frame 2. *)
Theorem mmap_allocate_frame_exhausted rs s b cs fuel :
  mmap_ok rs s -> 0 <= next_free_frame (mm s) < 2 ^ 32 ->
  (forall j a, next_free_frame (mm s) <= Z.of_nat j -> chunks rs !! j <> Some (a, false)) ->
  chunks rs = (0, b) :: cs -> ~ in_reserved (mm s) 0 ->
  mmap_allocate_frame (S fuel) s = Ret 1 (with_next 2 s).
Proof.
  intros Hok Hn Hnone Hcs Hres. cbn [mmap_allocate_frame]. step.
  rewrite (bind_ret _ _ _ _ _ (mmap_read_addr rs s (next_free_frame (mm s)) Hok Hn)).
  rewrite first_free_none by (intros j a Hj; apply Hnone; lia). change (default 0 None) with 0.
  step. destruct (_ || _) eqn:E; [by apply in_reserved_test in E|].
  rewrite (bind_ret _ _ _ _ _ (mmap_read_num rs s 0 Hok)), Hcs. done.
Qed.

Lemma mmap_allocate_frame_exhausted_witness :
  mmap_allocate_frame 1 (pc_state 189) = Ret 1 (with_next 2 (pc_state 189)).
Proof.
  apply (mmap_allocate_frame_exhausted pc_regions (pc_state 189) false (tail (chunks pc_regions)) 0).
  - exact (pc_mmap_ok 189).
  - simpl. lia.
  - intros j a Hj Hl. apply lookup_lt_Some in Hl.
    assert (length (chunks pc_regions) = 189%nat) by (vm_compute; reflexivity). simpl in Hj. lia.
  - vm_compute. reflexivity.
  - unfold in_reserved. simpl. lia.
Defined.

(** The allocator's frame numbers count chunks of the memory map and skip
    its holes, so they are not physical frame numbers: above 1 MiB on a PC the
    frame returned has one address for [mmap_read] and another, in the video
    memory, for [frame_starting_address]. *)
Theorem mmap_frame_numbers_skip_holes :
  mmap_allocate_frame 20 (pc_state 174) = Ret 187 (with_next 188 (pc_state 174))
  /\ mmap_read 187 MMAP_GET_ADDR (pc_state 188) = Ret 0x10D000 (pc_state 188)
  /\ frame_starting_address 187 = 0xBB000.
Proof. repeat split; vm_compute; reflexivity. Qed.

(** [mmap_deallocate_frame] clears eight frames, not one: the 4096 words it
    zeroes are 32 KiB, the frame's own page and the seven pages after it,
    allocated or not; nothing else changes.  It needs all of it mapped to itself:
    where the frame's address is not mapped, it faults. *)
Theorem mmap_deallocate_frame_clears frame s :
  (frame_mapped (mem s) (cr3 s) frame no_bytes ->
   exists m, mmap_deallocate_frame frame s = Ret tt (set_mem (fun _ => m) s)
     /\ forall b, mem_get m b =
          if (frame_starting_address frame <=? b) && (b <? frame_starting_address frame + 8 * PAGE_SIZE)
          then 0 else mem_get (mem s) b)
  /\ (page_walk (mem s) (cr3 s) (frame_starting_address frame) = None ->
      mmap_deallocate_frame frame s = Fault PageFault).
Proof. split; [apply deallocate_run|]. intros H. apply deallocate_faults. by left. Qed.

(** A frame's number is recovered from its starting address below 4 GiB
    only: the address is computed in 32 bits, so from frame [2^20] on the top
    twelve bits of the number are lost. *)
Theorem frame_address_roundtrip frame :
  0 <= frame < 2 ^ 32 ->
  frame_containing_address (frame_starting_address frame) = frame `mod` 2 ^ 20.
Proof.
  intros Hf. unfold frame_containing_address, frame_starting_address, PAGE_SIZE. word_lia.
Qed.

(** Only the address of a chunk's first byte is compared with the areas to
    avoid, so the chunk the boot information starts inside is given away: when
    it is the next one the allocator takes it, although its upper part is the
    boot information. *)
Theorem mmap_allocate_frame_overlaps rs s j a fuel :
  mmap_ok rs s -> regions_sorted rs -> chunks rs !! j = Some (a, false) ->
  next_free_frame (mm s) = Z.of_nat j -> Z.of_nat j + 2 < 2 ^ 32 -> 0 <= a < 2 ^ 32 ->
  a < multiboot_start (mm s) < a + PAGE_SIZE -> ~ kernel_start (mm s) <= a <= kernel_end (mm s) ->
  exists f, mmap_allocate_frame (S fuel) s = Ret f (with_next (f + 1) s)
    /\ (preceded (chunks rs) j = true -> f = Z.of_nat j).
Proof.
  intros Hok Hs Hj Hn Hj32 Ha Hm Hk. exists (own_number (chunks rs) j). split.
  - apply (allocate_here fuel rs s j a); try done.
    + by apply chunks_sorted_regions.
    + lia.
    + by rewrite Hn, Nat2Z.id, (first_free_here _ _ _ Hj).
    + unfold in_reserved. lia.
  - intros Hp. unfold own_number. by rewrite Hp.
Qed.

Lemma mmap_allocate_frame_overlaps_witness :
  exists f, mmap_allocate_frame 1 (set_mm (fun m => Mmap (memory_area m) (kernel_start m) (kernel_end m) 0x5010 0x5100 5)
      (pc_state 5)) = Ret f (with_next (f + 1) (set_mm (fun m => Mmap (memory_area m) (kernel_start m) (kernel_end m)
        0x5010 0x5100 5) (pc_state 5))).
Proof.
  set (s := set_mm _ _).
  destruct (mmap_allocate_frame_overlaps pc_regions s 5 0x5000 0) as (f & Hf & _).
  - exact (pc_mmap_ok 5).
  - exact pc_regions_sorted.
  - vm_compute. reflexivity.
  - reflexivity.
  - lia.
  - lia.
  - unfold PAGE_SIZE. simpl. lia.
  - simpl. lia.
  - exists f. exact Hf.
Defined.

(** At the start of a run of chunks the chunk given away is the one after the
    one compared: the allocator hands out a chunk of the kernel's area if that
    area starts right after the run's first chunk. *)
Theorem mmap_allocate_frame_unchecked rs s j a b fuel :
  mmap_ok rs s -> regions_sorted rs -> next_free_frame (mm s) = Z.of_nat j -> Z.of_nat j + 2 < 2 ^ 32 ->
  chunks rs !! j = Some (a, false) -> 0 <= a < 2 ^ 32 -> ~ in_reserved (mm s) a ->
  preceded (chunks rs) j = false -> chunks rs !! S j = Some (b, false) ->
  exists f, mmap_allocate_frame (S fuel) s = Ret f (with_next (f + 1) s)
    /\ mmap_read f MMAP_GET_ADDR (with_next (f + 1) s) = Ret b (with_next (f + 1) s).
Proof.
  intros Hok Hs Hn Hj32 Hj Ha Hres Hp Hb. exists (own_number (chunks rs) j).
  split; [|unfold own_number; rewrite Hp; rewrite (mmap_read_addr rs) by (done || lia)].
  - apply (allocate_here fuel rs s j a); try done.
    + by apply chunks_sorted_regions.
    + lia.
    + by rewrite Hn, Nat2Z.id, (first_free_here _ _ _ Hj).
  - replace (Z.to_nat (Z.of_nat j + 1)) with (S j) by lia. by rewrite (first_free_here _ _ _ Hb).
Qed.

(** The kernel one page above 1 MiB. *)
Definition shifted_state : kstate :=
  set_mm (fun m => Mmap (memory_area m) 0x101000 (kernel_end m) (multiboot_start m) (multiboot_end m) 174) (pc_state 174).

Lemma mmap_allocate_frame_unchecked_witness :
  exists f, mmap_allocate_frame 1 shifted_state = Ret f (with_next (f + 1) shifted_state)
    /\ mmap_read f MMAP_GET_ADDR (with_next (f + 1) shifted_state) = Ret 0x101000 (with_next (f + 1) shifted_state)
    /\ in_reserved (mm shifted_state) 0x101000.
Proof.
  destruct (mmap_allocate_frame_unchecked pc_regions shifted_state 174 0x100000 0x101000 0)
    as (f & Hf & Hr).
  - exact (pc_mmap_ok 174).
  - exact pc_regions_sorted.
  - reflexivity.
  - lia.
  - vm_compute. reflexivity.
  - lia.
  - unfold in_reserved. simpl. lia.
  - vm_compute. reflexivity.
  - vm_compute. reflexivity.
  - exists f. split; [exact Hf|]. split; [exact Hr|]. unfold in_reserved. simpl. lia.
Defined.
