(* ===== verification/Frames.v ===== *)
(** * Sequences of allocations: src/mmu/mmap.c

    What a client of the allocator relies on over many calls: until the last
    free chunk is given away, every call of [mmap_allocate_frame] returns, with
    a frame number and a chunk of memory that no call before it had. *)

From stdpp Require Import base numbers list gmap sorting.
From S2P Require Import Prelude Machine Boot Mmap.

(** [n] allocations one after the other. *)
Fixpoint allocate_frames (fuel n : nat) : M (list Z) :=
  match n with
  | O => mret []
  | S n =>
      frame ← mmap_allocate_frame fuel;
      frames ← allocate_frames fuel n;
      mret (frame :: frames)
  end.

(** A chunk allocation may accept. *)
Definition available (rs : list region_t) (m : mmap_t) (j : nat) (a : Z) : Prop :=
  chunks rs !! j = Some (a, false) /\ ~ in_reserved m a.

(** Frame number [p.1], [lo] at least, is the number of the chunk at address
    [p.2], in no reserved region and not in the kernel's or the boot
    information's area. *)
Definition granted (rs : list region_t) (m : mmap_t) (lo : Z) (p : Z * Z) : Prop :=
  lo <= p.1 /\ available rs m (Z.to_nat p.1) p.2.

(** Where a run of chunks starts with one that allocation accepts, the next
    chunk, which it gives away unseen, is as good. *)
Definition runs_ok (rs : list region_t) (m : mmap_t) (lo : Z) : Prop := forall j a,
  lo <= Z.of_nat j -> available rs m j a -> preceded (chunks rs) j = false ->
  exists b, available rs m (S j) b.

Lemma available_ext rs m m' j a :
  (forall a, in_reserved m a <-> in_reserved m' a) -> available rs m j a <-> available rs m' j a.
Proof. intros H. unfold available. by rewrite H. Qed.

Lemma runs_ok_ext rs m m' lo :
  (forall a, in_reserved m a <-> in_reserved m' a) -> runs_ok rs m lo -> runs_ok rs m' lo.
Proof.
  intros H Hr j a Hj Ha Hp. rewrite <- (available_ext rs m m') in Ha by done.
  destruct (Hr j a Hj Ha Hp) as (b & Hb). exists b. by apply (available_ext rs m m').
Qed.

(** One grant before another, without overlap. *)
Definition before (p q : Z * Z) : Prop := p.1 < q.1 /\ p.2 + PAGE_SIZE <= q.2.

Section Sequence.
Context (rs : list region_t) (fuel : nat).
Hypothesis Hsorted : regions_sorted rs.
Hypothesis Hbound : Forall (fun c : Z * bool => 0 <= c.1 < 2 ^ 32) (chunks rs).
Hypothesis Hlength : Z.of_nat (length (chunks rs)) + 2 < 2 ^ 32.
Hypothesis Hfuel : (length (chunks rs) < fuel)%nat.

Lemma granted_before m p q lo :
  0 <= lo -> granted rs m lo p -> granted rs m (p.1 + 1) q -> before p q.
Proof using Hsorted.
  clear Hbound Hlength Hfuel. intros H0 (Hlo & Hj & _) (Hlq & Hk & _). split; [lia|].
  exact (chunks_sorted_regions _ Hsorted (Z.to_nat p.1) (Z.to_nat q.1) _ _ ltac:(lia) Hj Hk).
Qed.

Lemma granted_mono m lo lo' p : lo' <= lo -> granted rs m lo p -> granted rs m lo' p.
Proof using. clear Hbound Hlength Hfuel. intros Hlo [? ?]. split; [lia|done]. Qed.

(** What one allocation gives: the number [f] of an available chunk, and no
    available chunk was passed over but the start of a run. *)
Lemma allocate_grants s g b :
  mmap_ok rs s -> 0 <= next_free_frame (mm s) -> runs_ok rs (mm s) (next_free_frame (mm s)) ->
  available rs (mm s) g b -> next_free_frame (mm s) <= Z.of_nat g ->
  exists f a, mmap_allocate_frame fuel s = Ret f (with_next (f + 1) s)
    /\ granted rs (mm s) (next_free_frame (mm s)) (f, a)
    /\ forall j c, next_free_frame (mm s) <= Z.of_nat j <= f -> available rs (mm s) j c ->
         preceded (chunks rs) j = true -> (Z.of_nat j, c) = (f, a).
Proof using Hsorted Hbound Hlength Hfuel.
  intros Hok Hn Hruns [Hg Hfree] Hng. pose proof (lookup_lt_Some _ _ _ Hg) as Hgl.
  destruct (allocate_run rs (Z.to_nat (Z.of_nat g - next_free_frame (mm s))) fuel s g b)
    as (j & a & (Hj & Hja & Hres & Hbtw) & Hrun); try (done || lia).
  { by apply chunks_sorted_regions. }
  exists (own_number (chunks rs) j). unfold own_number in *. destruct (preceded (chunks rs) j) eqn:Ep.
  - exists a. split; [exact Hrun|]. split; [split; cbn [fst snd]; [lia|by rewrite Nat2Z.id]|].
    intros i c Hi [Hc Hcres] _. destruct (decide (i = j)) as [->|Hne]; [congruence|].
    destruct Hcres. apply (Hbtw i c); [lia..|done].
  - destruct (Hruns j a Hj (conj Hja Hres) Ep) as (a' & Hb & Hbres). exists a'. split; [exact Hrun|].
    replace (Z.to_nat (Z.of_nat j + 1)) with (S j) in * by lia.
    split; [split; cbn [fst snd]; [lia|by replace (Z.to_nat (Z.of_nat j + 1)) with (S j) by lia]|].
    intros i c Hi [Hc Hcres] Hp. destruct (decide (i = S j)) as [->|Hne]; [|].
    + rewrite Hb in Hc. injection Hc as ->. f_equal. lia.
    + destruct (decide (i = j)) as [->|]; [congruence|]. destruct Hcres. apply (Hbtw i c); [lia..|done].
Qed.

(** The available chunks from [lo] to [g] but the starts of runs are all given. *)
Definition all_given (m : mmap_t) (lo : Z) (g : nat) (ps : list (Z * Z)) : Prop := forall j c,
  lo <= Z.of_nat j -> (j <= g)%nat -> available rs m j c -> preceded (chunks rs) j = true -> (Z.of_nat j, c) ∈ ps.

Lemma allocate_frames_run d : forall s g b,
  mmap_ok rs s -> 0 <= next_free_frame (mm s) -> runs_ok rs (mm s) (next_free_frame (mm s)) ->
  available rs (mm s) g b ->
  Z.of_nat g < next_free_frame (mm s) + Z.of_nat d ->
  exists ps next,
    allocate_frames fuel (length ps) s = Ret (fst <$> ps) (with_next next s)
    /\ Z.of_nat g < next /\ (length ps <= d)%nat
    /\ Forall (granted rs (mm s) (next_free_frame (mm s))) ps /\ StronglySorted before ps
    /\ all_given (mm s) (next_free_frame (mm s)) g ps.
Proof using Hsorted Hbound Hlength Hfuel.
  assert (Hnil : forall s g, Z.of_nat g < next_free_frame (mm s) -> exists ps next,
    allocate_frames fuel (length ps) s = Ret (fst <$> ps) (with_next next s) /\ Z.of_nat g < next
    /\ (length ps <= 0)%nat /\ Forall (granted rs (mm s) (next_free_frame (mm s))) ps
    /\ StronglySorted before ps /\ all_given (mm s) (next_free_frame (mm s)) g ps).
  { intros s g Hg. exists [], (next_free_frame (mm s)). repeat split; try constructor; try done.
    - by destruct s as [????????? []].
    - intros j c Hj Hjg. lia. }
  induction d as [|d IH]; intros s g b Hok Hn Hruns Hav Hd; [apply Hnil; lia|].
  destruct (decide (Z.of_nat g < next_free_frame (mm s))) as [Hpast|Hin].
  { destruct (Hnil s g Hpast) as (ps & next & ? & ? & ? & ? & ? & ?). exists ps, next. repeat split; try done. lia. }
  destruct (allocate_grants s g b Hok Hn Hruns Hav ltac:(lia)) as (f & a & Hrun & Hnew & Hall).
  pose proof Hnew as [Hf _]. cbn [fst] in Hf.
  destruct (IH (with_next (f + 1) s) g b) as (ps & next & Hps & Hgn & Hlen & Hgr & Hso & Hgiven);
    [done|simpl; lia| |done|simpl; lia|].
  { intros j c Hj. apply Hruns. simpl in Hj. lia. }
  change (next_free_frame (mm (with_next (f + 1) s))) with (f + 1) in *.
  change (Forall (granted rs (mm s) (f + 1)) ps) in Hgr. exists ((f, a) :: ps), next. split.
  { cbn [allocate_frames length fmap list_fmap]. rewrite (bind_ret _ _ _ _ _ Hrun), (bind_ret _ _ _ _ _ Hps).
    by rewrite with_next_with_next. }
  split; [done|]. split; [simpl; lia|]. split; [|split].
  - constructor; [done|]. eapply Forall_impl; [exact Hgr|]. intros p. apply granted_mono. lia.
  - constructor; [done|]. eapply Forall_impl; [exact Hgr|]. intros p Hp.
    exact (granted_before (mm s) (f, a) p _ Hn Hnew Hp).
  - intros j c Hj Hjg Hc Hp. destruct (decide (Z.of_nat j <= f)).
    + rewrite (Hall j c) by done. by left.
    + right. apply Hgiven; [lia|done..].
Qed.

(** What [mmap_read] makes of a granted number. *)
Lemma granted_read m lo s p :
  mmap_ok rs s -> 0 <= lo -> granted rs m lo p -> mmap_read p.1 MMAP_GET_ADDR s = Ret p.2 s.
Proof using Hlength.
  clear Hsorted Hbound Hfuel. intros Hok H0 (Hlo & Hp & _). pose proof (lookup_lt_Some _ _ _ Hp).
  rewrite (mmap_read_addr rs) by (done || lia). by rewrite (first_free_here _ _ _ Hp).
Qed.

End Sequence.

(** ** Properties *)


(** The PC of Mmap.v: its kernel starts the run of chunks above 1 MiB. *)
Lemma pc_runs_ok : runs_ok pc_regions (mm (pc_state 1)) 1.
Proof.
  intros j a Hj [Ha Hres] Hp. pose proof (lookup_lt_Some _ _ _ Ha) as Hl.
  assert (H : forallb (fun j => preceded (chunks pc_regions) j
      || match chunks pc_regions !! j with Some (a, false) => bool_decide (in_reserved (mm (pc_state 1)) a) | _ => true end)
    (seq 1 (length (chunks pc_regions))) = true) by (vm_compute; reflexivity).
  rewrite forallb_forall in H. specialize (H j (proj2 (in_seq (length (chunks pc_regions)) 1 j) ltac:(lia))).
  rewrite Hp, Ha in H. by apply bool_decide_eq_true in H.
Defined.

