(* ===== verification/Multiboot.v ===== *)
(** * The loader's structures: src/include/core/boot.h

    The packed structures of the boot information, field by field, and the bytes
    a loader that fills them in leaves in memory.  Boot.v and Mmap.v read that
    memory at byte offsets; here the offsets are shown to be those of the
    declared fields, so what the kernel reads back is what the loader put in:
    the boot information is parsed after it is printed. *)

From stdpp Require Import base numbers list gmap strings.
From S2P Require Import Prelude Machine Libk Screen Serial Printf Boot Mmap.

(** ** The structures *)

Definition MULTIBOOT_TAG_TYPE_CMDLINE : Z := 1.
Definition MULTIBOOT_TAG_TYPE_BOOT_LOADER_NAME : Z := 2.
Definition MULTIBOOT_TAG_TYPE_MODULE : Z := 3.
Definition MULTIBOOT_TAG_TYPE_BASIC_MEMINFO : Z := 4.
Definition MULTIBOOT_TAG_TYPE_BOOTDEV : Z := 5.

Record multiboot_tag_t := MbTag { tag_type_ : Z; tag_size_ : Z }.

Record multiboot_tag_string_t := MbString {
  str_type : Z;
  str_size : Z;
  str_string : list Z
}.

Record multiboot_tag_basic_meminfo_t := MbMeminfo {
  mi_type : Z;
  mi_size : Z;
  mi_mem_lower : Z;
  mi_mem_upper : Z
}.

Record multiboot_tag_bootdev_t := MbBootdev {
  bd_type : Z;
  bd_size : Z;
  bd_biosdev : Z;
  bd_slice : Z;
  bd_part : Z
}.

Record multiboot_tag_module_t := MbModule {
  mod_type : Z;
  mod_size : Z;
  mod_start : Z;
  mod_end : Z;
  mod_cmdline : list Z
}.

Record multiboot_mmap_entry_t := MbMmapEntry {
  me_addr : Z;
  me_len : Z;
  me_type : Z;
  me_zero : Z
}.

Record multiboot_tag_mmap_t := MbMmap {
  mm_type : Z;
  mm_size : Z;
  mm_entry_size : Z;
  mm_entry_version : Z;
  mm_entries : list multiboot_mmap_entry_t
}.

Record multiboot_elf_sections_entry_t := MbElfEntry {
  es_name : Z;
  es_type : Z;
  es_flags : Z;
  es_addr : Z;
  es_offset : Z;
  es_size : Z;
  es_link : Z;
  es_info : Z;
  es_alignment : Z;
  es_entry_size : Z
}.

Record multiboot_tag_elf_sections_t := MbElf {
  el_type : Z;
  el_size : Z;
  el_num : Z;
  el_section_size : Z;
  el_shndx : Z;
  el_sections : list multiboot_elf_sections_entry_t
}.

(** A tag, whichever structure it has. *)
Inductive boot_tag :=
  | BString (t : multiboot_tag_string_t)
  | BMeminfo (t : multiboot_tag_basic_meminfo_t)
  | BBootdev (t : multiboot_tag_bootdev_t)
  | BModule (t : multiboot_tag_module_t)
  | BMmap (t : multiboot_tag_mmap_t)
  | BElf (t : multiboot_tag_elf_sections_t).

Record multiboot_info_t := MbInfo {
  info_size : Z;
  info_reserved : Z;
  info_tags : list boot_tag
}.

(** ** Their bytes: packed, so the fields one after the other *)

Definition uint32 (v : Z) : list Z := le_bytes 4 v.
Definition uint64 (v : Z) : list Z := le_bytes 8 v.

Definition mmap_entry_bytes (e : multiboot_mmap_entry_t) : list Z :=
  uint64 (me_addr e) ++ uint64 (me_len e) ++ uint32 (me_type e) ++ uint32 (me_zero e).

Definition elf_entry_bytes (e : multiboot_elf_sections_entry_t) : list Z :=
  uint32 (es_name e) ++ uint32 (es_type e) ++ uint64 (es_flags e) ++ uint64 (es_addr e)
  ++ uint64 (es_offset e) ++ uint64 (es_size e) ++ uint32 (es_link e) ++ uint32 (es_info e)
  ++ uint64 (es_alignment e) ++ uint64 (es_entry_size e).

Definition tag_header (t : boot_tag) : multiboot_tag_t :=
  match t with
  | BString t => MbTag (str_type t) (str_size t)
  | BMeminfo t => MbTag (mi_type t) (mi_size t)
  | BBootdev t => MbTag (bd_type t) (bd_size t)
  | BModule t => MbTag (mod_type t) (mod_size t)
  | BMmap t => MbTag (mm_type t) (mm_size t)
  | BElf t => MbTag (el_type t) (el_size t)
  end.

(** What follows [type] and [size]. *)
Definition tag_body (t : boot_tag) : list Z :=
  match t with
  | BString t => str_string t
  | BMeminfo t => uint32 (mi_mem_lower t) ++ uint32 (mi_mem_upper t)
  | BBootdev t => uint32 (bd_biosdev t) ++ uint32 (bd_slice t) ++ uint32 (bd_part t)
  | BModule t => uint32 (mod_start t) ++ uint32 (mod_end t) ++ mod_cmdline t
  | BMmap t => uint32 (mm_entry_size t) ++ uint32 (mm_entry_version t) ++ (mm_entries t ≫= mmap_entry_bytes)
  | BElf t => uint32 (el_num t) ++ uint32 (el_section_size t) ++ uint32 (el_shndx t)
      ++ (el_sections t ≫= elf_entry_bytes)
  end.

Definition header_bytes (h : multiboot_tag_t) : list Z := uint32 (tag_type_ h) ++ uint32 (tag_size_ h).
Definition tag_bytes (t : boot_tag) : list Z := header_bytes (tag_header t) ++ tag_body t.

(** Every tag starts at a multiple of eight. *)
Definition padding (n : nat) : nat := Z.to_nat (align8 (Z.of_nat n) - Z.of_nat n).
Definition padded (t : boot_tag) : list Z := tag_bytes t ++ replicate (padding (length (tag_bytes t))) 0.
Definition end_tag_bytes : list Z := header_bytes (MbTag MULTIBOOT_TAG_TYPE_END 8).
Definition tags_bytes (ts : list boot_tag) : list Z := (ts ≫= padded) ++ end_tag_bytes.
Definition info_bytes (i : multiboot_info_t) : list Z :=
  uint32 (info_size i) ++ uint32 (info_reserved i) ++ tags_bytes (info_tags i).

(** ** A loader that fills them in correctly *)

Definition is_u32 (v : Z) : Prop := 0 <= v < 2 ^ 32.
Definition is_u64 (v : Z) : Prop := 0 <= v < 2 ^ 64.

Definition mmap_entry_ok (e : multiboot_mmap_entry_t) : Prop :=
  is_u64 (me_addr e) /\ is_u64 (me_len e) /\ is_u32 (me_type e).
Definition elf_entry_ok (e : multiboot_elf_sections_entry_t) : Prop :=
  is_u32 (es_type e) /\ is_u64 (es_addr e) /\ is_u64 (es_size e).

(** The type and size fields are right; so are the counts of the tags that have
    them. *)
Definition tag_ok (t : boot_tag) : Prop :=
  tag_size_ (tag_header t) = Z.of_nat (length (tag_bytes t))
  /\ Z.of_nat (length (tag_bytes t)) < 2 ^ 31
  /\ match t with
     | BString t => str_type t = MULTIBOOT_TAG_TYPE_CMDLINE \/ str_type t = MULTIBOOT_TAG_TYPE_BOOT_LOADER_NAME
     | BMeminfo t => mi_type t = MULTIBOOT_TAG_TYPE_BASIC_MEMINFO
     | BBootdev t => bd_type t = MULTIBOOT_TAG_TYPE_BOOTDEV
     | BModule t => mod_type t = MULTIBOOT_TAG_TYPE_MODULE
     | BMmap t => mm_type t = MULTIBOOT_TAG_TYPE_MMAP /\ mm_entry_size t = 24
         /\ Forall mmap_entry_ok (mm_entries t)
     | BElf t => el_type t = MULTIBOOT_TAG_TYPE_ELF_SECTIONS /\ el_section_size t = 64
         /\ el_num t = Z.of_nat (length (el_sections t)) /\ Forall elf_entry_ok (el_sections t)
     end.

(** Boot.v's view of a tag. *)
Definition section_of (e : multiboot_elf_sections_entry_t) : section_t :=
  Section_ (es_type e) (es_addr e) (es_size e).
Definition abs_tag (t : boot_tag) : tag_t :=
  match t with
  | BMmap t => TMmap 24 (length (mm_entries t))
  | BElf t => TElf 64 (section_of <$> el_sections t)
  | t => TOther (tag_type_ (tag_header t)) (tag_size_ (tag_header t))
  end.
(** Mmap.v's view of an entry. *)
Definition region_of (e : multiboot_mmap_entry_t) : region_t := Region (me_addr e) (me_len e) (me_type e).

(** ** Lemmas: bytes in memory *)

Definition bytes_at (m : gmap Z Z) (a : Z) (bs : list Z) : Prop := read_bytes m a (length bs) = bs.

Lemma read_bytes_app m a n k : read_bytes m a (n + k) = read_bytes m a n ++ read_bytes m (a + Z.of_nat n) k.
Proof.
  revert a; induction n as [|n IH]; intros a; [by rewrite Z.add_0_r|]. cbn [Nat.add read_bytes app].
  rewrite IH. do 3 f_equal. lia.
Qed.

Lemma bytes_at_app m a bs cs :
  bytes_at m a (bs ++ cs) <-> bytes_at m a bs /\ bytes_at m (a + Z.of_nat (length bs)) cs.
Proof.
  unfold bytes_at. rewrite length_app, read_bytes_app. split.
  - intros H. apply app_inj_1 in H; [done|]. apply length_read_bytes.
  - intros [-> ->]. done.
Qed.

Lemma bytes_at_32 m a v : bytes_at m a (uint32 v) -> is_u32 v -> m32 m a = v.
Proof.
  unfold bytes_at, uint32, is_u32. rewrite length_le_bytes. intros H Hv. unfold m32. rewrite H, le_val_bytes.
  by apply Z.mod_small.
Qed.

Lemma bytes_at_64 m a v : bytes_at m a (uint64 v) -> is_u64 v -> m64 m a = v.
Proof.
  unfold bytes_at, uint64, is_u64. rewrite length_le_bytes. intros H Hv. unfold m64. rewrite H, le_val_bytes.
  by apply Z.mod_small.
Qed.

Lemma length_uint32 v : length (uint32 v) = 4%nat.
Proof. apply length_le_bytes. Qed.
Lemma length_uint64 v : length (uint64 v) = 8%nat.
Proof. apply length_le_bytes. Qed.

(** Take a structure in memory apart into its fields, at their offsets. *)
Ltac fields H :=
  rewrite ?bytes_at_app, ?length_uint32, ?length_uint64 in H;
  change (Z.of_nat 4) with 4 in H; change (Z.of_nat 8) with 8 in H;
  rewrite <- ?Z.add_assoc in H; cbn [Z.add Pos.add Pos.succ Pos.add_carry] in H.

Lemma length_mmap_entry e : length (mmap_entry_bytes e) = 24%nat.
Proof. unfold mmap_entry_bytes. by rewrite !length_app, !length_uint32, !length_uint64. Qed.
Lemma length_elf_entry e : length (elf_entry_bytes e) = 64%nat.
Proof. unfold elf_entry_bytes. by rewrite !length_app, !length_uint32, !length_uint64. Qed.

Lemma length_concat {A} (f : A -> list Z) n l :
  (forall x, length (f x) = n) -> length (l ≫= f) = (n * length l)%nat.
Proof. intros Hf. induction l as [|x l IH]; cbn [mbind list_bind length]; [lia|]. rewrite length_app, Hf, IH. lia. Qed.

Lemma sections_at_bytes m secs : forall a,
  bytes_at m a (secs ≫= elf_entry_bytes) -> Forall elf_entry_ok secs ->
  sections_at m a 64 (section_of <$> secs).
Proof.
  induction secs as [|e secs IH]; intros a H Hok; [done|].
  apply Forall_cons in Hok as [(H1 & H2 & H3) Hok]. cbn [mbind list_bind] in H.
  rewrite bytes_at_app, length_elf_entry in H. destruct H as [He H].
  cbn [fmap list_fmap sections_at]. unfold section_of at 1 2 3. cbn [sec_type sec_addr sec_size].
  unfold elf_entry_bytes in He. fields He. destruct He as (_ & Ft & _ & Fa & _ & Fs & _).
  split_and!; [by apply bytes_at_32|by apply bytes_at_64|by apply bytes_at_64|by apply IH].
Qed.

Lemma regions_at_bytes m es : forall a,
  bytes_at m a (es ≫= mmap_entry_bytes) -> Forall mmap_entry_ok es ->
  regions_at m a 24 (region_of <$> es).
Proof.
  induction es as [|e es IH]; intros a H Hok; [done|].
  apply Forall_cons in Hok as [(H1 & H2 & H3) Hok]. cbn [mbind list_bind] in H.
  rewrite bytes_at_app, length_mmap_entry in H. destruct H as [He H].
  cbn [fmap list_fmap regions_at]. unfold region_of at 1 2 3. cbn [reg_addr reg_len reg_type].
  unfold mmap_entry_bytes in He. fields He. destruct He as (Fa & Fl & Ft & _).
  split_and!; [by apply bytes_at_64|by apply bytes_at_64|by apply bytes_at_32|by apply IH].
Qed.

(** ** Lemmas: a tag in memory *)

Lemma length_tag_bytes t : length (tag_bytes t) = (8 + length (tag_body t))%nat.
Proof. unfold tag_bytes, header_bytes. by rewrite !length_app, !length_uint32. Qed.

(** The size the abstract tag computes is the number of bytes. *)
Lemma abs_tag_size t : tag_ok t -> tag_size (abs_tag t) = Z.of_nat (length (tag_bytes t)).
Proof.
  intros (Hs & _ & Hc). destruct t as [t|t|t|t|t|t]; try exact Hs.
  - rewrite length_tag_bytes. cbn [tag_body abs_tag tag_size].
    rewrite !length_app, !length_uint32, (length_concat _ 24 _ length_mmap_entry). lia.
  - rewrite length_tag_bytes. cbn [tag_body abs_tag tag_size].
    rewrite !length_app, !length_uint32, (length_concat _ 64 _ length_elf_entry), length_fmap. lia.
Qed.

Lemma abs_tag_type t : tag_ok t -> tag_type (abs_tag t) = tag_type_ (tag_header t).
Proof. intros (_ & _ & Hc). destruct t as [t|t|t|t|t|t]; try done; destruct Hc as [Hc _]; cbn; by rewrite Hc. Qed.

Lemma header_at m a h :
  bytes_at m a (header_bytes h) -> is_u32 (tag_type_ h) -> is_u32 (tag_size_ h) ->
  m32 m a = tag_type_ h /\ m32 m (a + 4) = tag_size_ h.
Proof. intros H Ht Hs. unfold header_bytes in H. fields H. destruct H. split; by apply bytes_at_32. Qed.

Lemma tag_type_u32 t : tag_ok t -> is_u32 (tag_type_ (tag_header t)).
Proof.
  intros (_ & _ & Hc). unfold is_u32, MULTIBOOT_TAG_TYPE_CMDLINE, MULTIBOOT_TAG_TYPE_BOOT_LOADER_NAME,
    MULTIBOOT_TAG_TYPE_BASIC_MEMINFO, MULTIBOOT_TAG_TYPE_BOOTDEV, MULTIBOOT_TAG_TYPE_MODULE,
    MULTIBOOT_TAG_TYPE_MMAP, MULTIBOOT_TAG_TYPE_ELF_SECTIONS in *.
  destruct t; cbn [tag_header tag_type_]; lia.
Qed.

Lemma tag_at_bytes m a t : tag_ok t -> bytes_at m a (tag_bytes t) -> tag_at m a (abs_tag t).
Proof.
  intros Hok H. pose proof (tag_type_u32 t Hok) as Ht. pose proof (abs_tag_size t Hok) as Hsz.
  pose proof (abs_tag_type t Hok) as Hty. pose proof Hok as (Hs & Hmax & Hc).
  pose proof (length_tag_bytes t) as Hl. unfold tag_bytes in H. rewrite bytes_at_app in H. destruct H as [Hh Hb].
  change (Z.of_nat (length (header_bytes (tag_header t)))) with 8 in Hb.
  destruct (header_at m a _ Hh Ht) as [E1 E2]; [unfold is_u32; lia|].
  split; [by rewrite E1|]. split; [rewrite E2; lia|]. split; [lia|].
  destruct t as [t|t|t|t|t|t]; cbn [abs_tag tag_header tag_type_ tag_body] in *.
  - destruct Hc as [-> | ->]; done.
  - by rewrite Hc.
  - by rewrite Hc.
  - by rewrite Hc.
  - destruct Hc as (_ & He & _). fields Hb. destruct Hb as (F & _).
    split; [lia|]. rewrite <- He. apply bytes_at_32; [done|]. by rewrite He.
  - destruct Hc as (_ & He & Hn & Hall). fields Hb. destruct Hb as (F1 & F2 & _ & F3).
    split; [lia|]. rewrite length_fmap, <- Hn, <- He.
    assert (Hlen : (64 * length (el_sections t) <= length (tag_bytes (BElf t)))%nat).
    { rewrite Hl, !length_app, (length_concat _ 64 _ length_elf_entry). lia. }
    split_and!; [apply bytes_at_32; [done|unfold is_u32; lia]|apply bytes_at_32; [done|by rewrite He]|].
    rewrite He. by apply sections_at_bytes.
Qed.

(** ** Lemmas: the whole list *)

Lemma length_padded t : tag_ok t -> Z.of_nat (length (padded t)) = align8 (tag_size (abs_tag t)).
Proof.
  intros Hok. rewrite abs_tag_size by done. unfold padded, padding. rewrite length_app, length_replicate.
  assert (Z.of_nat (length (tag_bytes t)) <= align8 (Z.of_nat (length (tag_bytes t))))
    by (unfold align8; Z.div_mod_to_equations; lia). lia.
Qed.

Lemma tags_bytes_cons t ts : tags_bytes (t :: ts) = padded t ++ tags_bytes ts.
Proof. unfold tags_bytes. cbn [mbind list_bind]. by rewrite <- app_assoc. Qed.

Lemma tags_at_bytes m ts : forall a,
  Forall tag_ok ts -> bytes_at m a (tags_bytes ts) ->
  0 <= a -> a + Z.of_nat (length (tags_bytes ts)) < 2 ^ 63 ->
  tags_at m a (abs_tag <$> ts).
Proof.
  induction ts as [|t ts IH]; intros a Hok H H0 Hb.
  - split; [lia|]. destruct (header_at m a (MbTag MULTIBOOT_TAG_TYPE_END 8) H); [done|done|]. done.
  - apply Forall_cons in Hok as [Ht Hok]. rewrite tags_bytes_cons in *. rewrite bytes_at_app in H.
    destruct H as [Hp H]. rewrite length_padded in H by done. rewrite length_app in Hb.
    pose proof (length_padded t Ht). unfold padded in Hp. rewrite bytes_at_app in Hp. destruct Hp as [Hp _].
    split; [lia|]. split; [by apply tag_at_bytes|]. apply IH; [done|done|lia|lia].
Qed.

Lemma end_tag_bytes_at ts : forall a,
  Forall tag_ok ts -> end_tag a (abs_tag <$> ts) + 8 = a + Z.of_nat (length (tags_bytes ts)).
Proof.
  induction ts as [|t ts IH]; intros a Hok; [done|]. apply Forall_cons in Hok as [Ht Hok].
  rewrite tags_bytes_cons, length_app. cbn [fmap list_fmap end_tag]. rewrite IH by done.
  rewrite <- length_padded by done. lia.
Qed.

(** The sections of all tags that occupy memory. *)
Definition loaded_sections (ts : list boot_tag) : list multiboot_elf_sections_entry_t :=
  filter (fun e => es_type e <> MULTIBOOT_ELF_SECTION_TYPE_NULL)
    (ts ≫= fun t => match t with BElf t => el_sections t | _ => [] end).

Lemma filter_sections (l : list multiboot_elf_sections_entry_t) :
  filter (fun c => sec_type c <> MULTIBOOT_ELF_SECTION_TYPE_NULL) (section_of <$> l) =
    section_of <$> filter (fun e => es_type e <> MULTIBOOT_ELF_SECTION_TYPE_NULL) l.
Proof.
  induction l as [|e l IH]; [done|]. cbn [fmap list_fmap]. rewrite !filter_cons. cbn [section_of sec_type].
  destruct (decide _); [cbn [fmap list_fmap]; by f_equal|done].
Qed.

Lemma loaded_abs ts : loaded (abs_tag <$> ts) = section_of <$> loaded_sections ts.
Proof.
  unfold loaded, loaded_sections. rewrite <- filter_sections. f_equal.
  induction ts as [|t ts IH]; [done|]. cbn [fmap list_fmap mbind list_bind]. rewrite fmap_app.
  f_equal; [by destruct t|exact IH].
Qed.

(** The entries and sections of a tag take their room in its bytes. *)
Lemma tag_steps_bytes t : (S (tag_steps (abs_tag t)) <= length (padded t))%nat.
Proof.
  unfold padded. rewrite length_app, length_tag_bytes. destruct t as [t|t|t|t|t|t]; simpl tag_steps; try lia.
  - cbn [tag_body]. rewrite !length_app, (length_concat _ 24 _ length_mmap_entry). lia.
  - cbn [tag_body]. rewrite !length_app, (length_concat _ 64 _ length_elf_entry), length_fmap. lia.
Qed.

Lemma steps_bytes ts : (steps_of (abs_tag <$> ts) < length (tags_bytes ts))%nat.
Proof.
  induction ts as [|t ts IH]; [vm_compute; lia|]. rewrite tags_bytes_cons, length_app.
  cbn [fmap list_fmap steps_of]. pose proof (tag_steps_bytes t). lia.
Qed.

Lemma length_tags_steps ts : (length ts <= steps_of (abs_tag <$> ts))%nat.
Proof. induction ts as [|t ts IH]; [done|]. cbn [fmap list_fmap steps_of length]. lia. Qed.

(** A boot information whose tags and size are right, in memory at [mbi]. *)
Definition info_at (m : gmap Z Z) (mbi : Z) (i : multiboot_info_t) : Prop :=
  Forall tag_ok (info_tags i) /\ info_size i = Z.of_nat (length (info_bytes i))
  /\ bytes_at m mbi (info_bytes i) /\ 0 <= mbi /\ mbi + info_size i < 2 ^ 63.

Lemma length_info i : length (info_bytes i) = (8 + length (tags_bytes (info_tags i)))%nat.
Proof. unfold info_bytes. by rewrite !length_app, !length_uint32. Qed.

Lemma info_tags_at m mbi i : info_at m mbi i -> tags_at m (mbi + 8) (abs_tag <$> info_tags i).
Proof.
  intros (Hok & Hs & H & H0 & Hb). rewrite length_info in Hs. unfold info_bytes in H. fields H.
  destruct H as (_ & _ & H). apply tags_at_bytes; [done|done|lia|lia].
Qed.

Lemma loaded_ok ts e :
  Forall tag_ok ts -> e ∈ loaded_sections ts -> is_u64 (es_addr e) /\ is_u64 (es_size e).
Proof.
  intros Hok [_ He]%list_elem_of_filter. apply list_elem_of_bind in He as (t & He & Ht).
  rewrite Forall_forall in Hok. destruct (Hok t Ht) as (_ & _ & Hc).
  destruct t; try by apply elem_of_nil in He. destruct Hc as (_ & _ & _ & Hall).
  rewrite Forall_forall in Hall. by destruct (Hall e He) as (_ & ? & ?).
Qed.

(** *** The memory map *)

Fixpoint first_map (ts : list boot_tag) : option multiboot_tag_mmap_t :=
  match ts with
  | [] => None
  | BMmap t :: _ => Some t
  | _ :: ts => first_map ts
  end.

Lemma abs_tag_mmap t : tag_ok t -> (tag_type (abs_tag t) =? MULTIBOOT_TAG_TYPE_MMAP) =
  match t with BMmap _ => true | _ => false end.
Proof.
  intros Hok. rewrite abs_tag_type by done. destruct Hok as (_ & _ & Hc).
  destruct t; cbn [tag_header tag_type_]; try (by rewrite Hc); [by destruct Hc as [-> | ->]|..];
    by destruct Hc as [-> _].
Qed.

Lemma first_map_none ts a :
  Forall tag_ok ts -> first_map ts = None -> first_tag a (abs_tag <$> ts) MULTIBOOT_TAG_TYPE_MMAP = 0.
Proof.
  intros Hok Hn. revert a; induction Hok as [|t ts Ht _ IH]; intros a; [done|].
  cbn [fmap list_fmap first_tag]. rewrite abs_tag_mmap by done. destruct t; try done; by apply IH.
Qed.

Lemma first_map_at m t ts : forall a,
  Forall tag_ok ts -> bytes_at m a (tags_bytes ts) -> first_map ts = Some t ->
  let b := first_tag a (abs_tag <$> ts) MULTIBOOT_TAG_TYPE_MMAP in
  a <= b /\ b <= a + Z.of_nat (length (tags_bytes ts)) /\ bytes_at m b (tag_bytes (BMmap t)) /\ tag_ok (BMmap t).
Proof.
  induction ts as [|t0 ts IH]; intros a Hok H Hf; [done|]. apply Forall_cons in Hok as [Ht Hok].
  rewrite tags_bytes_cons, bytes_at_app in H. destruct H as [Hp H]. rewrite tags_bytes_cons, length_app.
  cbn [fmap list_fmap first_tag]. rewrite abs_tag_mmap by done. rewrite length_padded in H by done.
  pose proof (length_padded t0 Ht).
  assert (Hrest : first_map ts = Some t -> a <= first_tag (a + align8 (tag_size (abs_tag t0))) (abs_tag <$> ts) MULTIBOOT_TAG_TYPE_MMAP
    /\ first_tag (a + align8 (tag_size (abs_tag t0))) (abs_tag <$> ts) MULTIBOOT_TAG_TYPE_MMAP
      <= a + Z.of_nat (length (padded t0) + length (tags_bytes ts))
    /\ bytes_at m (first_tag (a + align8 (tag_size (abs_tag t0))) (abs_tag <$> ts) MULTIBOOT_TAG_TYPE_MMAP)
        (tag_bytes (BMmap t)) /\ tag_ok (BMmap t)).
  { intros Hf'. destruct (IH _ Hok H Hf') as (H1 & H2 & H3 & H4). split; [lia|]. split; [lia|]. done. }
  destruct t0; try exact (Hrest Hf). injection Hf as ->. cbn zeta. split; [lia|]. split; [lia|].
  split; [|done]. unfold padded in Hp. by apply bytes_at_app in Hp as [? _].
Qed.

(** The tag in memory is the allocator's memory map. *)
Lemma mmap_tag_ok t s :
  let rs := region_of <$> mm_entries t in
  tag_ok (BMmap t) -> bytes_at (mem s) (memory_area (mm s)) (tag_bytes (BMmap t)) ->
  0 <= memory_area (mm s) < 2 ^ 63 -> Forall region_ok rs -> Z.of_nat (length (chunks rs)) < 2 ^ 32 ->
  mmap_ok rs s.
Proof.
  intros rs Hok H Ha Hr Hn. pose proof (tag_at_bytes _ _ _ Hok H) as (_ & E2 & Hb & _ & E3).
  destruct Hok as (_ & _ & _ & _ & Hall). unfold mmap_ok. cbn zeta. cbn [abs_tag tag_size] in *.
  unfold rs. rewrite E3, E2, length_fmap. split_and!; try done; try lia.
  unfold tag_bytes in H. rewrite bytes_at_app in H. destruct H as [_ H].
  change (Z.of_nat (length (header_bytes _))) with 8 in H. cbn [tag_body] in H. fields H.
  destruct H as (_ & _ & H). by apply regions_at_bytes.
Qed.

(** ** Properties *)

(** C16: what a loader writes, the kernel reads back: from any boot information of
    the structures of boot.h, with correct types, sizes and counts,
    [read_multiboot_info] takes the information's own area to be the
    [info_size] bytes it declares, and the kernel's to be the smallest
    interval around the sections the loader listed as loaded.  As many steps as
    the information has bytes are enough. *)
Theorem read_multiboot_info_roundtrip mbi i s :
  info_at (mem s) mbi i ->
  Forall (fun e => es_addr e + es_size e < 2 ^ 64) (loaded_sections (info_tags i)) ->
  exists r, read_multiboot_info (Z.to_nat (info_size i)) mbi s = Ret r s
    /\ ra_multiboot_start r = mbi /\ ra_multiboot_end r = mbi + info_size i
    /\ (forall e, e ∈ loaded_sections (info_tags i) ->
          ra_kernel_start r <= es_addr e /\ es_addr e + es_size e <= ra_kernel_end r)
    /\ (loaded_sections (info_tags i) <> [] ->
          (exists e, e ∈ loaded_sections (info_tags i) /\ ra_kernel_start r = es_addr e)
          /\ exists e, e ∈ loaded_sections (info_tags i) /\ ra_kernel_end r = es_addr e + es_size e).
Proof.
  intros Hi Hbound. pose proof Hi as (Hok & Hs & _ & H0 & _). pose proof (length_info i) as Hl.
  destruct (read_info_covers (Z.to_nat (info_size i)) mbi (abs_tag <$> info_tags i) s)
    as (r & Hr & Hst & Hend & Hall & Hmin); try done.
  - by apply info_tags_at.
  - pose proof (steps_bytes (info_tags i)). lia.
  - rewrite loaded_abs, Forall_fmap. rewrite Forall_forall in Hbound. apply Forall_forall. intros e He.
    destruct (loaded_ok _ e Hok He). specialize (Hbound e He). unfold is_u64 in *. cbn. lia.
  - exists r. split; [done|]. split; [done|]. rewrite end_tag_bytes_at in Hend by done.
    split; [lia|]. rewrite loaded_abs in Hall, Hmin. split.
    + intros e He. apply (Hall (section_of e)). by apply list_elem_of_fmap_2.
    + intros Hne. destruct Hmin as ((c1 & H1 & E1) & c2 & H2 & E2); [by destruct (loaded_sections _)|].
      apply list_elem_of_fmap in H1 as (e1 & -> & ?), H2 as (e2 & -> & ?).
      split; [by exists e1|by exists e2].
Qed.

(** A boot information of a command line, the sections of a kernel and the memory
    map of a small PC, for the instances. *)
Definition sample_section (type addr size : Z) : multiboot_elf_sections_entry_t :=
  MbElfEntry 0 type 0 addr 0 size 0 0 4096 0.
Definition sample_map : multiboot_tag_mmap_t :=
  MbMmap 6 64 24 0 [MbMmapEntry 0 0x9fc00 1 0; MbMmapEntry 0x100000 0x7f00000 1 0].
Definition sample_info : multiboot_info_t := MbInfo 312 0
  [BString (MbString 1 13 (str "quiet"));
   BElf (MbElf 9 212 3 64 2 [sample_section 0 0 0; sample_section 1 0x100000 0x4000; sample_section 1 0x104000 0x2345]);
   BMmap sample_map].
Definition sample_state : kstate := blank_state (write_bytes ∅ 0x90000 (info_bytes sample_info)).

Lemma sample_tags_ok : Forall tag_ok (info_tags sample_info).
Proof.
  repeat constructor; try (vm_compute; (reflexivity || discriminate)).
Defined.

Lemma sample_info_at : info_at (mem sample_state) 0x90000 sample_info.
Proof.
  split; [exact sample_tags_ok|]. split; [reflexivity|]. split; [vm_compute; reflexivity|].
  cbn. lia.
Defined.

Lemma read_multiboot_info_roundtrip_witness :
  exists r, read_multiboot_info 312 0x90000 sample_state = Ret r sample_state
    /\ ra_multiboot_end r = 0x90138 /\ ra_kernel_start r <= 0x100000.
Proof.
  destruct (read_multiboot_info_roundtrip 0x90000 sample_info sample_state sample_info_at)
    as (r & Hr & _ & He & Hall & _).
  - change (loaded_sections (info_tags sample_info)) with
      [sample_section 1 0x100000 0x4000; sample_section 1 0x104000 0x2345].
    repeat constructor.
  - exists r. split; [exact Hr|]. split; [exact He|].
    exact (proj1 (Hall (sample_section 1 0x100000 0x4000) ltac:(left))).
Defined.

(** C17: the loader's memory map is what the allocator walks: [find_multiboot_tag]
    leads to the map's tag, and with that address as [memory_area] a request
    for the address of a frame gives the first free page of the entries the
    loader wrote, from that number on. Without a memory map the address is 0. *)
Theorem memory_map_roundtrip mbi i s :
  info_at (mem s) mbi i ->
  exists a, find_multiboot_tag (Z.to_nat (info_size i)) (mbi + 8) MULTIBOOT_TAG_TYPE_MMAP s = Ret a s
    /\ match first_map (info_tags i) with
       | None => a = 0
       | Some t =>
           let rs := region_of <$> mm_entries t in
           Forall region_ok rs -> Z.of_nat (length (chunks rs)) < 2 ^ 32 ->
           forall k s', mem s' = mem s -> memory_area (mm s') = a -> 0 <= k < 2 ^ 32 ->
             mmap_read k MMAP_GET_ADDR s' = Ret (default 0 (first_free (Z.to_nat k) (chunks rs))) s'
       end.
Proof.
  intros Hi. pose proof Hi as (Hok & Hs & H & H0 & Hb). pose proof (length_info i) as Hl.
  pose proof (steps_bytes (info_tags i)). pose proof (length_tags_steps (info_tags i)).
  exists (first_tag (mbi + 8) (abs_tag <$> info_tags i) MULTIBOOT_TAG_TYPE_MMAP). split.
  - apply find_run; [by apply info_tags_at|]. rewrite length_fmap. lia.
  - destruct (first_map (info_tags i)) as [t|] eqn:Hf; [|by apply first_map_none].
    cbn zeta. intros Hr Hn k s' Hm Ha Hk. apply mmap_read_addr; [|done].
    unfold info_bytes in H. fields H. destruct H as (_ & _ & H).
    destruct (first_map_at (mem s) t _ (mbi + 8) Hok H Hf) as (B1 & B2 & B3 & B4).
    apply mmap_tag_ok; rewrite ?Ha, ?Hm; try done. lia.
Qed.

Lemma memory_map_roundtrip_witness :
  let s' := set_mm (fun _ => Mmap 0x900F0 0 0 0 0 1) sample_state in
  mmap_read 200 MMAP_GET_ADDR s' = Ret 0x129000 s'.
Proof.
  destruct (memory_map_roundtrip 0x90000 sample_info sample_state sample_info_at) as (a & Ha & Hm).
  change (first_map (info_tags sample_info)) with (Some sample_map) in Hm.
  assert (Hf : find_multiboot_tag 312 0x90008 MULTIBOOT_TAG_TYPE_MMAP sample_state = Ret 0x900F0 sample_state)
    by (vm_compute; reflexivity).
  change (Z.to_nat (info_size sample_info)) with 312%nat in Ha.
  change (0x90000 + 8) with 0x90008 in Ha. rewrite Hf in Ha.
  apply (f_equal (fun o => match o with Ret x _ => x | _ => 0 end)) in Ha. change (0x900F0 = a) in Ha. subst a.
  intros s'. rewrite (Hm ltac:(repeat constructor; vm_compute; discriminate)
    ltac:(vm_compute; reflexivity) 200 s' eq_refl eq_refl ltac:(lia)).
  apply (f_equal (fun a => Ret a s')). vm_compute. reflexivity.
Defined.
