(* ===== verification/Paging.v ===== *)
(** * Page tables: src/mmu/paging.c

    paging.c reaches the page tables through the recursive entry 511 of the
    level 4 table, at virtual addresses the processor translates with those
    same tables; the code's accesses go through the walk of PageWalk.v
    ([vload64], [vstore64]). *)

From stdpp Require Import base numbers list gmap.
From S2P Require Import Prelude Machine Boot PageWalk Mmap.

(** ** The code *)

Definition P4_TABLE : Z := 0xfffffffffffff000.

(** [&table[index]] *)
Definition entry_ptr (table index : Z) : Z := u64 (table + 8 * index).

Definition page_containing_address (addr : Z) : Z := addr / PAGE_SIZE.
Definition page_starting_address (page : Z) : Z := u64 (page * PAGE_SIZE).

(** The parameter is a [frame_t], 32 bits wide. *)
Definition p4_index (frame : Z) : Z := Z.land (Z.shiftr (u32 frame) 27) 511.
Definition p3_index (frame : Z) : Z := Z.land (Z.shiftr (u32 frame) 18) 511.
Definition p2_index (frame : Z) : Z := Z.land (Z.shiftr (u32 frame) 9) 511.
Definition p1_index (frame : Z) : Z := Z.land (Z.shiftr (u32 frame) 0) 511.

Definition pointed_frame (entry : Z) : Z :=
  if entry_present entry then frame_containing_address (Z.land entry 0x000ffffffffff000) else 0.

Definition set_addr_mask (entry addr : Z) : M unit :=
  let mask := 0xfff0000000000fff in
  e ← vload64 entry;
  vstore64 entry (Z.land e mask) ;;
  e ← vload64 entry;
  vstore64 entry (Z.lor e (u64 (addr * PAGE_SIZE))).

(** Assignments to the one-bit fields [present] (0) and [writable] (1). *)
Definition set_entry_bit (entry bit : Z) : M unit :=
  e ← vload64 entry;
  vstore64 entry (Z.lor e (Z.shiftl 1 bit)).
Definition clear_entry_bit (entry bit : Z) : M unit :=
  e ← vload64 entry;
  vstore64 entry (Z.ldiff e (Z.shiftl 1 bit)).

Definition next_table_address (table index : Z) : M Z :=
  let index := u32 index in
  e ← vload64 (entry_ptr table index);
  if entry_present e && negb (entry_huge e) then
    mret (Z.lor (u64 (Z.shiftl table 9)) (u32 (Z.shiftl index 12)))
  else mret 0.

Definition next_table_create (fuel : nat) (table index : Z) : M Z :=
  location ← vload64 (entry_ptr table index);
  (if negb (entry_present location) then
     frame ← mmap_allocate_frame fuel;
     addr ← mmap_read frame MMAP_GET_ADDR;
     set_addr_mask (entry_ptr table index) addr ;;
     set_entry_bit (entry_ptr table index) 0 ;;
     set_entry_bit (entry_ptr table index) 1
   else mret tt) ;;
  next_table_address table index.

Definition translate_page (page : Z) : M Z :=
  p3 ← next_table_address P4_TABLE (p4_index page);
  if p3 =? 0 then mret 0 else
  p2 ← next_table_address p3 (p3_index page);
  if p2 =? 0 then mret 0 else
  p1 ← next_table_address p2 (p2_index page);
  if p1 =? 0 then mret 0 else
  entry ← vload64 (entry_ptr p1 (p1_index page));
  mret (pointed_frame entry).

Definition translate (addr : Z) : M Z :=
  let virt := page_containing_address addr in
  let offset := virt `mod` PAGE_SIZE in
  frame ← translate_page virt;
  mret (u64 (page_starting_address frame + offset)).

Definition map_page_to_frame (fuel : nat) (page frame flags : Z) : M unit :=
  p3 ← next_table_create fuel P4_TABLE (p4_index page);
  p2 ← next_table_create fuel p3 (p3_index page);
  p1 ← next_table_create fuel p2 (p2_index page);
  set_addr_mask (entry_ptr p1 (p1_index page)) frame ;;
  vstore64 (entry_ptr p1 (p1_index page)) (u8 flags) ;;
  set_entry_bit (entry_ptr p1 (p1_index page)) 0.

Definition identity_map (fuel : nat) (frame flags : Z) : M unit :=
  let page := page_containing_address (frame_starting_address frame) in
  map_page_to_frame fuel page frame flags.

Definition map (fuel : nat) (page flags : Z) : M unit :=
  frame ← mmap_allocate_frame fuel;
  map_page_to_frame fuel page frame flags.

Definition unmap (page : Z) : M unit :=
  p3 ← next_table_address P4_TABLE (p4_index page);
  p2 ← next_table_address p3 (p3_index page);
  p1 ← next_table_address p2 (p2_index page);
  entry ← vload64 (entry_ptr p1 (p1_index page));
  if negb (entry_present entry) then mret tt
  else
    clear_entry_bit (entry_ptr p1 (p1_index page)) 0 ;;
    mmap_deallocate_frame (pointed_frame entry) ;;
    log (Invlpg (page_starting_address page)).

Definition paging_init : M unit := mret tt.

(** Src/mmu/mmu.c *)
Definition mmu_init (mmap : Z) (reserved : reserved_areas_t) : M unit :=
  mmap_init mmap reserved ;;
  paging_init.

(** ** The recursive mapping *)

(** Entry 511 of the level 4 table leads back to it, as asm/boot.asm sets it. *)
Definition recursive (m : gmap Z Z) (cr3 : Z) : Prop :=
  let e := entry_at m cr3 511 in
  entry_present e = true /\ entry_huge e = false /\ entry_addr e = cr3.

(** It allows stores too. *)
Definition recursive_writable (m : gmap Z Z) (cr3 : Z) : Prop :=
  recursive m cr3 /\ entry_writable (entry_at m cr3 511) = true.

(** The addresses at which the tables for given indices appear. *)
Definition p4_addr : Z := 2 ^ 64 - 2 ^ 12.
Definition p3_addr (i4 : Z) : Z := 2 ^ 64 - 2 ^ 21 + i4 * 2 ^ 12.
Definition p2_addr (i4 i3 : Z) : Z := 2 ^ 64 - 2 ^ 30 + i4 * 2 ^ 21 + i3 * 2 ^ 12.
Definition p1_addr (i4 i3 i2 : Z) : Z := 2 ^ 64 - 2 ^ 39 + i4 * 2 ^ 30 + i3 * 2 ^ 21 + i2 * 2 ^ 12.

(** An entry that leads to a next table. *)
Definition links (e : Z) : bool := entry_present e && negb (entry_huge e).

Definition index_ok (i : Z) : Prop := 0 <= i < 512.

(** ** Lemmas: addresses *)

(** A canonical address in the upper half from its indices and offset. *)
Definition va_of (a b c d o : Z) : Z :=
  2 ^ 64 - 2 ^ 48 + a * 2 ^ 39 + b * 2 ^ 30 + c * 2 ^ 21 + d * 2 ^ 12 + o.

Lemma va_index_of a b c d o :
  index_ok a -> index_ok b -> index_ok c -> index_ok d -> 0 <= o < 4096 ->
  va_index (va_of a b c d o) 3 = a /\ va_index (va_of a b c d o) 2 = b
  /\ va_index (va_of a b c d o) 1 = c /\ va_index (va_of a b c d o) 0 = d
  /\ va_of a b c d o `mod` 2 ^ 12 = o.
Proof.
  unfold index_ok, va_index, va_of. intros Ha Hb Hc Hd Ho.
  change (12 + 9 * 3) with 39. change (12 + 9 * 2) with 30. change (12 + 9 * 1) with 21.
  change (12 + 9 * 0) with 12. repeat split; Z.div_mod_to_equations; lia.
Qed.

(** The walk of such an address in terms of its indices. *)
Lemma page_walk_of m cr3 a b c d o :
  index_ok a -> index_ok b -> index_ok c -> index_ok d -> 0 <= o < 4096 ->
  let e4 := entry_at m cr3 a in
  let e3 := entry_at m (entry_addr e4) b in
  let e2 := entry_at m (entry_addr e3) c in
  let e1 := entry_at m (entry_addr e2) d in
  links e4 = true -> links e3 = true -> links e2 = true -> entry_present e1 = true ->
  page_walk m cr3 (va_of a b c d o) = Some (entry_addr e1 + o, 2 ^ 12).
Proof.
  intros Ha Hb Hc Hd Ho e4 e3 e2 e1 H4 H3 H2 H1.
  destruct (va_index_of a b c d o Ha Hb Hc Hd Ho) as (I3 & I2 & I1 & I0 & Io).
  unfold links in *. apply andb_true_iff in H4 as [P4 N4], H3 as [P3 N3], H2 as [P2 N2].
  apply negb_true_iff in N4, N3, N2. unfold page_walk. rewrite I3, I2, I1, I0, Io.
  fold e4. rewrite P4, N4. cbn [negb orb]. fold e3. rewrite P3, N3. cbn [negb].
  fold e2. rewrite P2, N2. cbn [negb]. fold e1. by rewrite H1.
Qed.

(** Four entries that allow stores. *)
Lemma page_writable_of m cr3 a b c d o :
  index_ok a -> index_ok b -> index_ok c -> index_ok d -> 0 <= o < 4096 ->
  let e4 := entry_at m cr3 a in
  let e3 := entry_at m (entry_addr e4) b in
  let e2 := entry_at m (entry_addr e3) c in
  let e1 := entry_at m (entry_addr e2) d in
  entry_writable e4 = true -> entry_writable e3 = true -> entry_writable e2 = true -> entry_writable e1 = true ->
  page_writable m cr3 (va_of a b c d o) = true.
Proof.
  intros Ha Hb Hc Hd Ho e4 e3 e2 e1 W4 W3 W2 W1.
  destruct (va_index_of a b c d o Ha Hb Hc Hd Ho) as (I3 & I2 & I1 & I0 & _).
  unfold page_writable. rewrite I3, I2, I1, I0. fold e4. fold e3. fold e2. fold e1.
  rewrite W4, W3, W2, W1. by rewrite !orb_true_r.
Qed.

Lemma next_addr T q i :
  index_ok i -> u64 (T * 512) = q * 2 ^ 21 ->
  Z.lor (u64 (Z.shiftl T 9)) (u32 (Z.shiftl i 12)) = q * 2 ^ 21 + i * 2 ^ 12.
Proof.
  unfold index_ok. intros Hi Hq. rewrite !Z.shiftl_mul_pow2 by lia. change (2 ^ 9) with 512.
  rewrite Hq, u32_small by lia. apply lor_disjoint; lia.
Qed.

Lemma next_p4 i4 :
  index_ok i4 -> Z.lor (u64 (Z.shiftl P4_TABLE 9)) (u32 (Z.shiftl i4 12)) = p3_addr i4.
Proof.
  intros Hi. rewrite (next_addr _ (2 ^ 43 - 1)); [|done|reflexivity]. unfold p3_addr. lia.
Qed.

Lemma next_p3 i4 i3 :
  index_ok i4 -> index_ok i3 ->
  Z.lor (u64 (Z.shiftl (p3_addr i4) 9)) (u32 (Z.shiftl i3 12)) = p2_addr i4 i3.
Proof.
  unfold index_ok. intros H4 H3.
  rewrite (next_addr _ (2 ^ 43 - 2 ^ 9 + i4)); [unfold p2_addr; lia|done|].
  unfold p3_addr. word_lia.
Qed.

Lemma next_p2 i4 i3 i2 :
  index_ok i4 -> index_ok i3 -> index_ok i2 ->
  Z.lor (u64 (Z.shiftl (p2_addr i4 i3) 9)) (u32 (Z.shiftl i2 12)) = p1_addr i4 i3 i2.
Proof.
  unfold index_ok. intros H4 H3 H2.
  rewrite (next_addr _ (2 ^ 43 - 2 ^ 18 + i4 * 2 ^ 9 + i3)); [unfold p1_addr; lia|done|].
  unfold p2_addr. word_lia.
Qed.

(** ** Lemmas: the tables through the recursive entry *)

Lemma recursive_links m c : recursive m c -> links (entry_at m c 511) = true /\ entry_addr (entry_at m c 511) = c.
Proof. intros (P & N & A). unfold links. by rewrite P, N. Qed.

Lemma index_511 : index_ok 511.
Proof. unfold index_ok. lia. Qed.

Lemma offset_ok i : index_ok i -> 0 <= 8 * i < 4096.
Proof. unfold index_ok. lia. Qed.

(** The entries on the way to a page. *)
Definition ent4 (m : gmap Z Z) (c i4 : Z) : Z := entry_at m c i4.
Definition ent3 (m : gmap Z Z) (c i4 i3 : Z) : Z := entry_at m (entry_addr (ent4 m c i4)) i3.
Definition ent2 (m : gmap Z Z) (c i4 i3 i2 : Z) : Z := entry_at m (entry_addr (ent3 m c i4 i3)) i2.
Definition ent1 (m : gmap Z Z) (c i4 i3 i2 i1 : Z) : Z := entry_at m (entry_addr (ent2 m c i4 i3 i2)) i1.

(** Solve a walk through the recursive entry by the general lemma. *)
Ltac recursive_walk R va :=
  let L := fresh "L" in let A := fresh "A" in
  destruct (recursive_links _ _ R) as [L A];
  match goal with |- _ _ _ ?x = _ =>
    replace x with va by (unfold p4_addr, p3_addr, p2_addr, p1_addr, va_of; lia) end;
  pose proof index_511;
  first [rewrite page_walk_of | rewrite page_writable_of]; rewrite ?A; first [done | by apply offset_ok | idtac].

Section Recursive.
Context (m : gmap Z Z) (c : Z) (R : recursive m c).

Lemma walk_p4 i : index_ok i -> page_walk m c (p4_addr + 8 * i) = Some (c + 8 * i, 2 ^ 12).
Proof using R. intros H. recursive_walk R (va_of 511 511 511 511 (8 * i)). by destruct R. Qed.

Lemma walk_p3 i4 i :
  index_ok i4 -> index_ok i -> entry_present (ent4 m c i4) = true ->
  page_walk m c (p3_addr i4 + 8 * i) = Some (entry_addr (ent4 m c i4) + 8 * i, 2 ^ 12).
Proof using R. intros H4 H P. recursive_walk R (va_of 511 511 511 i4 (8 * i)). Qed.

Lemma walk_p2 i4 i3 i :
  index_ok i4 -> index_ok i3 -> index_ok i ->
  links (ent4 m c i4) = true -> entry_present (ent3 m c i4 i3) = true ->
  page_walk m c (p2_addr i4 i3 + 8 * i) = Some (entry_addr (ent3 m c i4 i3) + 8 * i, 2 ^ 12).
Proof using R. intros H4 H3 H L4 P. recursive_walk R (va_of 511 511 i4 i3 (8 * i)). Qed.

Lemma walk_p1 i4 i3 i2 i :
  index_ok i4 -> index_ok i3 -> index_ok i2 -> index_ok i ->
  links (ent4 m c i4) = true -> links (ent3 m c i4 i3) = true ->
  entry_present (ent2 m c i4 i3 i2) = true ->
  page_walk m c (p1_addr i4 i3 i2 + 8 * i) = Some (entry_addr (ent2 m c i4 i3 i2) + 8 * i, 2 ^ 12).
Proof using R. intros H4 H3 H2 H L4 L3 P. recursive_walk R (va_of 511 i4 i3 i2 (8 * i)). Qed.

Context (W : entry_writable (entry_at m c 511) = true).

Lemma writable_p4 i : index_ok i -> page_writable m c (p4_addr + 8 * i) = true.
Proof using R W. intros H. recursive_walk R (va_of 511 511 511 511 (8 * i)). Qed.

Lemma writable_p1 i4 i3 i2 i :
  index_ok i4 -> index_ok i3 -> index_ok i2 -> index_ok i ->
  entry_writable (ent4 m c i4) = true -> entry_writable (ent3 m c i4 i3) = true ->
  entry_writable (ent2 m c i4 i3 i2) = true -> page_writable m c (p1_addr i4 i3 i2 + 8 * i) = true.
Proof using R W. intros H4 H3 H2 H W4 W3 W2. recursive_walk R (va_of 511 i4 i3 i2 (8 * i)). Qed.

End Recursive.

Ltac no_wrap := intros; unfold entry_ptr, P4_TABLE, p4_addr, p3_addr, p2_addr, p1_addr, index_ok in *;
  apply u64_small; lia.

Lemma entry_ptr_p4 i : index_ok i -> entry_ptr P4_TABLE i = p4_addr + 8 * i.
Proof. no_wrap. Qed.
Lemma entry_ptr_p3 i4 i : index_ok i4 -> index_ok i -> entry_ptr (p3_addr i4) i = p3_addr i4 + 8 * i.
Proof. no_wrap. Qed.
Lemma entry_ptr_p2 i4 i3 i :
  index_ok i4 -> index_ok i3 -> index_ok i -> entry_ptr (p2_addr i4 i3) i = p2_addr i4 i3 + 8 * i.
Proof. no_wrap. Qed.
Lemma entry_ptr_p1 i4 i3 i2 i :
  index_ok i4 -> index_ok i3 -> index_ok i2 -> index_ok i ->
  entry_ptr (p1_addr i4 i3 i2) i = p1_addr i4 i3 i2 + 8 * i.
Proof. no_wrap. Qed.

(** ** Lemmas: walking the tables in C *)

(** [next_table_address] on a table whose entries can be read. *)
Lemma next_table_run table i pa next s :
  index_ok i -> page_walk (mem s) (cr3 s) (entry_ptr table i) = Some (pa, 2 ^ 12) ->
  Z.lor (u64 (Z.shiftl table 9)) (u32 (Z.shiftl i 12)) = next ->
  next_table_address table i s = Ret (if links (m64 (mem s) pa) then next else 0) s.
Proof.
  intros Hi Hw Hn. unfold next_table_address. cbn zeta. unfold index_ok in Hi.
  rewrite (u32_small i) by lia. rewrite (bind_ret _ _ _ _ _ (vload64_run _ _ _ _ Hw)), Hn.
  unfold links. by destruct (_ && _).
Qed.

Section Tables.
Context (s : kstate) (R : recursive (mem s) (cr3 s)).

Lemma next_table_p4 i4 :
  index_ok i4 ->
  next_table_address P4_TABLE i4 s = Ret (if links (ent4 (mem s) (cr3 s) i4) then p3_addr i4 else 0) s.
Proof using R.
  intros H4. apply (next_table_run _ _ (cr3 s + 8 * i4)); [done| |by apply next_p4].
  rewrite entry_ptr_p4 by done. by apply walk_p4.
Qed.

Lemma next_table_p3 i4 i3 :
  index_ok i4 -> index_ok i3 -> entry_present (ent4 (mem s) (cr3 s) i4) = true ->
  next_table_address (p3_addr i4) i3 s =
    Ret (if links (ent3 (mem s) (cr3 s) i4 i3) then p2_addr i4 i3 else 0) s.
Proof using R.
  intros H4 H3 P. apply (next_table_run _ _ (entry_addr (ent4 (mem s) (cr3 s) i4) + 8 * i3));
    [done| |by apply next_p3].
  rewrite entry_ptr_p3 by done. by apply walk_p3.
Qed.

Lemma next_table_p2 i4 i3 i2 :
  index_ok i4 -> index_ok i3 -> index_ok i2 ->
  links (ent4 (mem s) (cr3 s) i4) = true -> entry_present (ent3 (mem s) (cr3 s) i4 i3) = true ->
  next_table_address (p2_addr i4 i3) i2 s =
    Ret (if links (ent2 (mem s) (cr3 s) i4 i3 i2) then p1_addr i4 i3 i2 else 0) s.
Proof using R.
  intros H4 H3 H2 L P. apply (next_table_run _ _ (entry_addr (ent3 (mem s) (cr3 s) i4 i3) + 8 * i2));
    [done| |by apply next_p2].
  rewrite entry_ptr_p2 by done. by apply walk_p2.
Qed.

End Tables.

Lemma links_present e : links e = true -> entry_present e = true.
Proof. unfold links. by intros [? _]%andb_true_iff. Qed.

Lemma table_addr_nonzero i4 i3 i2 :
  index_ok i4 -> index_ok i3 -> index_ok i2 ->
  (p3_addr i4 =? 0) = false /\ (p2_addr i4 i3 =? 0) = false /\ (p1_addr i4 i3 i2 =? 0) = false.
Proof.
  unfold index_ok, p3_addr, p2_addr, p1_addr. intros. repeat split; apply Z.eqb_neq; lia.
Qed.

Lemma index_bits x n : 0 <= n -> Z.land (Z.shiftr x n) 511 = (x / 2 ^ n) `mod` 512.
Proof. intros Hn. by rewrite (land_low _ 511 9), Z.shiftr_div_pow2 by (done || lia). Qed.

Lemma page_indices page :
  index_ok (p4_index page) /\ index_ok (p3_index page) /\ index_ok (p2_index page) /\ index_ok (p1_index page).
Proof.
  unfold p4_index, p3_index, p2_index, p1_index, index_ok. rewrite !index_bits by lia.
  repeat split; Z.div_mod_to_equations; lia.
Qed.

Lemma translate_page_run page s :
  recursive (mem s) (cr3 s) ->
  let i4 := p4_index page in let i3 := p3_index page in
  let i2 := p2_index page in let i1 := p1_index page in
  let m := mem s in let c := cr3 s in
  translate_page page s =
    Ret (if links (ent4 m c i4) && links (ent3 m c i4 i3) && links (ent2 m c i4 i3 i2)
         then pointed_frame (ent1 m c i4 i3 i2 i1) else 0) s.
Proof.
  intros R i4 i3 i2 i1 m c. destruct (page_indices page) as (H4 & H3 & H2 & H1).
  fold i4 i3 i2 i1 in H4, H3, H2, H1. destruct (table_addr_nonzero i4 i3 i2 H4 H3 H2) as (N3 & N2 & N1).
  unfold translate_page. fold i4 i3 i2 i1. erewrite bind_ret; [|by apply next_table_p4]. fold m c.
  destruct (links (ent4 m c i4)) eqn:L4; [|done]. rewrite N3. cbn [andb].
  erewrite bind_ret; [|by apply next_table_p3; [| | |apply links_present]]. fold m c.
  destruct (links (ent3 m c i4 i3)) eqn:L3; [|done]. rewrite N2. cbn [andb].
  erewrite bind_ret; [|by apply next_table_p2; [| | | | |apply links_present]]. fold m c.
  destruct (links (ent2 m c i4 i3 i2)) eqn:L2; [|done]. rewrite N1.
  erewrite bind_ret; [|eapply vload64_run; rewrite entry_ptr_p1 by done;
    by apply walk_p1; [| | | | | | |apply links_present]].
  done.
Qed.

(** The processor's indices of a page below [2^32] are those of the code. *)
Lemma page_va_index page o :
  0 <= page < 2 ^ 32 -> 0 <= o < 4096 ->
  let va := page * PAGE_SIZE + o in
  va_index va 3 = p4_index page /\ va_index va 2 = p3_index page
  /\ va_index va 1 = p2_index page /\ va_index va 0 = p1_index page /\ va `mod` 2 ^ 12 = o.
Proof.
  intros Hp Ho va. unfold va, PAGE_SIZE, va_index, p4_index, p3_index, p2_index, p1_index.
  rewrite !index_bits, u32_small by lia.
  change (12 + 9 * 3) with 39. change (12 + 9 * 2) with 30. change (12 + 9 * 1) with 21.
  change (12 + 9 * 0) with 12. repeat split; Z.div_mod_to_equations; lia.
Qed.

(** What the code computes from the entries is what the processor would. *)
Lemma page_walk_frame m c page o :
  0 <= page < 2 ^ 32 -> 0 <= o < 4096 ->
  let i4 := p4_index page in let i3 := p3_index page in
  let i2 := p2_index page in let i1 := p1_index page in
  match page_walk m c (page * PAGE_SIZE + o) with
  | Some (pa, n) => if n =? PAGE_SIZE then Some pa else None
  | None => None
  end =
  if links (ent4 m c i4) && links (ent3 m c i4 i3) && links (ent2 m c i4 i3 i2)
     && entry_present (ent1 m c i4 i3 i2 i1)
  then Some (entry_addr (ent1 m c i4 i3 i2 i1) + o) else None.
Proof.
  intros Hp Ho i4 i3 i2 i1. destruct (page_va_index page o Hp Ho) as (I3 & I2 & I1 & I0 & Io).
  unfold page_walk. rewrite I3, I2, I1, I0, Io. fold i4 i3 i2 i1.
  change (entry_at m c i4) with (ent4 m c i4). unfold links.
  destruct (entry_present (ent4 m c i4)), (entry_huge (ent4 m c i4)); cbn [negb orb andb]; try done.
  change (entry_at m (entry_addr (ent4 m c i4)) i3) with (ent3 m c i4 i3).
  destruct (entry_present (ent3 m c i4 i3)), (entry_huge (ent3 m c i4 i3)); cbn [negb orb andb]; try done.
  change (entry_at m (entry_addr (ent3 m c i4 i3)) i2) with (ent2 m c i4 i3 i2).
  destruct (entry_present (ent2 m c i4 i3 i2)), (entry_huge (ent2 m c i4 i3 i2)); cbn [negb orb andb]; try done.
  change (entry_at m (entry_addr (ent2 m c i4 i3 i2)) i1) with (ent1 m c i4 i3 i2 i1).
  by destruct (entry_present (ent1 m c i4 i3 i2 i1)).
Qed.

Lemma entry_addr_field e : entry_addr e = (e / 2 ^ 12) `mod` 2 ^ 40 * 2 ^ 12.
Proof. unfold entry_addr. change 0x000ffffffffff000 with (Z.shiftl (Z.ones 40) 12). by apply land_field. Qed.

(** ** Lemmas: changing an entry *)

Lemma m64_write_same m a v : m64 (write_bytes m a (le_bytes 8 v)) a = u64 v.
Proof.
  pose proof (read_write_same m a (le_bytes 8 v)) as H. rewrite length_le_bytes in H.
  unfold m64. by rewrite H, le_val_bytes.
Qed.

Lemma m64_write_out m a b v :
  b + 8 <= a \/ a + 8 <= b -> m64 (write_bytes m a (le_bytes 8 v)) b = m64 m b.
Proof. intros Hb. unfold m64. rewrite read_write_out; [done|]. rewrite length_le_bytes. lia. Qed.

(** Entries of different tables, or of different indices, do not overlap. *)
Lemma entry_at_write m t i u j v :
  t `mod` 4096 = 0 -> u `mod` 4096 = 0 -> index_ok i -> index_ok j -> t <> u ->
  entry_at (write_bytes m (u + 8 * j) (le_bytes 8 v)) t i = entry_at m t i.
Proof.
  unfold index_ok. intros Ht Hu Hi Hj Hne. apply m64_write_out. Z.div_mod_to_equations. lia.
Qed.

Lemma entry_addr_aligned e : entry_addr e `mod` 4096 = 0.
Proof. rewrite entry_addr_field. change (2 ^ 12) with 4096. by rewrite Z.mod_mul. Qed.

(** The tables for a page exist, stores to them are allowed, and its level 1
    table is not one of the others. *)
Record mapped_tables (m : gmap Z Z) (c i4 i3 i2 : Z) : Prop := {
  mt_rec : recursive_writable m c;
  mt_l4 : links (ent4 m c i4) = true;
  mt_l3 : links (ent3 m c i4 i3) = true;
  mt_l2 : links (ent2 m c i4 i3 i2) = true;
  mt_writable : entry_writable (ent4 m c i4) = true /\ entry_writable (ent3 m c i4 i3) = true
    /\ entry_writable (ent2 m c i4 i3 i2) = true;
  mt_d4 : entry_addr (ent2 m c i4 i3 i2) <> c;
  mt_d3 : entry_addr (ent2 m c i4 i3 i2) <> entry_addr (ent4 m c i4);
  mt_d2 : entry_addr (ent2 m c i4 i3 i2) <> entry_addr (ent3 m c i4 i3)
}.

(** The physical address of the page's entry. *)
Definition entry_place (m : gmap Z Z) (c page : Z) : Z :=
  entry_addr (ent2 m c (p4_index page) (p3_index page) (p2_index page)) + 8 * p1_index page.

Section Stores.
Context (m : gmap Z Z) (c page : Z).
Notation i4 := (p4_index page).
Notation i3 := (p3_index page).
Notation i2 := (p2_index page).
Notation i1 := (p1_index page).
Context (T : mapped_tables m c i4 i3 i2).

(** The tables after the page's entry is written. *)
Lemma tables_after_write v :
  let m' := write_bytes m (entry_place m c page) (le_bytes 8 v) in
  mapped_tables m' c i4 i3 i2 /\ entry_place m' c page = entry_place m c page
  /\ ent2 m' c i4 i3 i2 = ent2 m c i4 i3 i2.
Proof using T.
  destruct T as [R L4 L3 L2 Wr D4 D3 D2]. intros m'. destruct (page_indices page) as (H4 & H3 & H2 & H1).
  pose proof entry_addr_aligned as Al. pose proof index_511 as H511.
  assert (Hc : c `mod` 4096 = 0) by (destruct R as ((_ & _ & <-) & _); apply Al).
  assert (Hw : forall t i, t `mod` 4096 = 0 -> index_ok i -> t <> entry_addr (ent2 m c i4 i3 i2) ->
    entry_at m' t i = entry_at m t i) by (intros; by apply entry_at_write).
  assert (E4 : ent4 m' c i4 = ent4 m c i4) by (apply Hw; auto).
  assert (E3 : ent3 m' c i4 i3 = ent3 m c i4 i3) by (unfold ent3; rewrite E4; apply Hw; auto).
  assert (E2 : ent2 m' c i4 i3 i2 = ent2 m c i4 i3 i2) by (unfold ent2; rewrite E3; apply Hw; auto).
  split; [|split; [unfold entry_place; by rewrite E2|done]].
  constructor; rewrite ?E4, ?E3, ?E2; try done.
  unfold recursive_writable, recursive in *. by rewrite Hw by auto.
Qed.

Lemma walk_entry :
  page_walk m c (entry_ptr (p1_addr i4 i3 i2) i1) = Some (entry_place m c page, 2 ^ 12)
  /\ page_writable m c (entry_ptr (p1_addr i4 i3 i2) i1) = true.
Proof using T.
  destruct (page_indices page) as (H4 & H3 & H2 & H1). destruct T as [[R W] L4 L3 L2 (W4 & W3 & W2) _ _ _].
  rewrite entry_ptr_p1 by done. split; [by apply walk_p1; [| | | | | | |apply links_present]|by apply writable_p1].
Qed.

End Stores.

(** The machine with the page's entry set to [v]. *)
Definition with_entry (page v : Z) (s : kstate) : kstate :=
  set_mem (fun m => write_bytes m (entry_place m (cr3 s) page) (le_bytes 8 v)) s.

Definition page_tables (page : Z) (s : kstate) : Prop :=
  mapped_tables (mem s) (cr3 s) (p4_index page) (p3_index page) (p2_index page).

Definition entry_va (page : Z) : Z :=
  entry_ptr (p1_addr (p4_index page) (p3_index page) (p2_index page)) (p1_index page).

Definition page_entry (page : Z) (s : kstate) : Z := m64 (mem s) (entry_place (mem s) (cr3 s) page).

Lemma with_entry_tables page v s : page_tables page s -> page_tables page (with_entry page v s).
Proof. intros T. by apply (tables_after_write (mem s) (cr3 s) page T v). Qed.

Lemma with_entry_again page v w s :
  page_tables page s -> with_entry page w (with_entry page v s) = with_entry page w s.
Proof.
  intros T. destruct (tables_after_write (mem s) (cr3 s) page T v) as (_ & E & _).
  unfold with_entry. rewrite set_mem_set_mem. apply set_mem_ext. simpl_state. rewrite E.
  by apply write_write_bytes.
Qed.

Lemma page_entry_with page v s :
  page_tables page s -> page_entry page (with_entry page v s) = u64 v.
Proof.
  intros T. destruct (tables_after_write (mem s) (cr3 s) page T v) as (_ & E & _).
  unfold page_entry, with_entry. simpl_state. rewrite E. apply m64_write_same.
Qed.

Lemma load_entry page s : page_tables page s -> vload64 (entry_va page) s = Ret (page_entry page s) s.
Proof. intros T. exact (vload64_run _ _ _ _ (proj1 (walk_entry (mem s) (cr3 s) page T))). Qed.

Lemma store_entry page v s : page_tables page s -> vstore64 (entry_va page) v s = Ret tt (with_entry page v s).
Proof. intros T. destruct (walk_entry (mem s) (cr3 s) page T) as [Hw Hr]. exact (vstore64_run _ _ _ _ _ Hw Hr). Qed.

Lemma set_entry_bit_run page bit s :
  page_tables page s ->
  set_entry_bit (entry_va page) bit s =
    Ret tt (with_entry page (Z.lor (page_entry page s) (Z.shiftl 1 bit)) s).
Proof. intros T. unfold set_entry_bit. rewrite (bind_ret _ _ _ _ _ (load_entry page s T)). by apply store_entry. Qed.

Lemma set_addr_mask_run page addr s :
  page_tables page s ->
  exists v, set_addr_mask (entry_va page) addr s = Ret tt (with_entry page v s).
Proof.
  intros T. unfold set_addr_mask. cbn zeta. eexists.
  rewrite (bind_ret _ _ _ _ _ (load_entry page s T)), (bind_ret _ _ _ _ _ (store_entry page _ s T)).
  pose proof (with_entry_tables page (Z.land (page_entry page s) 0xfff0000000000fff) s T) as T'.
  rewrite (bind_ret _ _ _ _ _ (load_entry page _ T')), (store_entry page _ _ T').
  rewrite with_entry_again by done. reflexivity.
Qed.

Lemma create_existing fuel table index e next s :
  vload64 (entry_ptr table index) s = Ret e s -> entry_present e = true ->
  next_table_address table index s = Ret next s ->
  next_table_create fuel table index s = Ret next s.
Proof.
  intros Hl Hp Hn. unfold next_table_create. rewrite (bind_ret _ _ _ _ _ Hl), Hp. cbn [negb].
  by rewrite (bind_ret _ _ _ tt s).
Qed.

(** On existing tables the way down in [map_page_to_frame] changes nothing. *)
Lemma create_tables fuel page s :
  page_tables page s ->
  let i4 := p4_index page in let i3 := p3_index page in let i2 := p2_index page in
  next_table_create fuel P4_TABLE i4 s = Ret (p3_addr i4) s
  /\ next_table_create fuel (p3_addr i4) i3 s = Ret (p2_addr i4 i3) s
  /\ next_table_create fuel (p2_addr i4 i3) i2 s = Ret (p1_addr i4 i3 i2) s.
Proof.
  intros [[R _] L4 L3 L2 _ _ _ _] i4 i3 i2. destruct (page_indices page) as (H4 & H3 & H2 & H1).
  fold i4 i3 i2 in H4, H3, H2, L4, L3, L2. pose proof (links_present _ L4). pose proof (links_present _ L3).
  pose proof (links_present _ L2). repeat split.
  - eapply create_existing; [eapply vload64_run; rewrite entry_ptr_p4 by done; by apply walk_p4|done|].
    rewrite next_table_p4 by done. by rewrite L4.
  - eapply create_existing; [eapply vload64_run; rewrite entry_ptr_p3 by done; by apply walk_p3|done|].
    rewrite next_table_p3 by done. by rewrite L3.
  - eapply create_existing; [eapply vload64_run; rewrite entry_ptr_p2 by done; by apply walk_p2|done|].
    rewrite next_table_p2 by done. by rewrite L2.
Qed.

Lemma map_run fuel page frame flags s :
  page_tables page s ->
  map_page_to_frame fuel page frame flags s = Ret tt (with_entry page (Z.lor (u8 flags) 1) s).
Proof.
  intros T. destruct (create_tables fuel page s T) as (C4 & C3 & C2).
  unfold map_page_to_frame. rewrite (bind_ret _ _ _ _ _ C4), (bind_ret _ _ _ _ _ C3), (bind_ret _ _ _ _ _ C2).
  fold (entry_va page). destruct (set_addr_mask_run page frame s T) as [v Hv].
  rewrite (bind_ret _ _ _ _ _ Hv). pose proof (with_entry_tables page v s T) as T1.
  rewrite (bind_ret _ _ _ _ _ (store_entry page _ _ T1)), with_entry_again by done.
  pose proof (with_entry_tables page (u8 flags) s T) as T2.
  rewrite set_entry_bit_run by done. pose proof (u8_range flags).
  rewrite page_entry_with, with_entry_again, u64_small by (done || lia). done.
Qed.

Lemma clear_present_run page s :
  page_tables page s ->
  clear_entry_bit (entry_va page) 0 s = Ret tt (with_entry page (Z.ldiff (page_entry page s) 1) s).
Proof.
  intros T. unfold clear_entry_bit. rewrite (bind_ret _ _ _ _ _ (load_entry page s T)).
  by apply store_entry.
Qed.

(** ** Lemmas: cleared memory *)

Lemma m64_zero m a : (forall b, a <= b < a + 8 -> mem_get m b = 0) -> m64 m a = 0.
Proof.
  intros H. unfold m64. replace (read_bytes m a 8) with (replicate 8 0); [done|].
  cbn [read_bytes replicate]. by rewrite !H by lia.
Qed.

(** A cleared stretch of whole pages clears whole entries. *)
Lemma entry_at_cleared m m' lo hi t i :
  lo `mod` 4096 = 0 -> hi `mod` 4096 = 0 -> t `mod` 4096 = 0 -> index_ok i ->
  (forall b, mem_get m' b = if (lo <=? b) && (b <? hi) then 0 else mem_get m b) ->
  entry_at m' t i = 0 \/ entry_at m' t i = entry_at m t i.
Proof.
  unfold index_ok. intros Hlo Hhi Ht Hi Hm. destruct (decide (lo <= t < hi)) as [Hin|Hout].
  - left. apply m64_zero. intros b Hb. rewrite Hm.
    rewrite (proj2 (Z.leb_le _ _)), (proj2 (Z.ltb_lt _ _)); [done|Z.div_mod_to_equations; lia|lia].
  - right. unfold entry_at, m64. f_equal. apply read_bytes_ext. intros b Hb. rewrite Hm.
    destruct ((lo <=? b) && (b <? hi)) eqn:E; [|done]. bools. exfalso. apply Hout.
    Z.div_mod_to_equations. lia.
Qed.

(** A page whose entries were cleared or kept, and whose own entry is not
    present, is not mapped. *)
Lemma page_walk_none m m' c page :
  mapped_tables m c (p4_index page) (p3_index page) (p2_index page) -> 0 <= page < 2 ^ 32 ->
  entry_present (m64 m (entry_place m c page)) = false ->
  (forall t i, t `mod` 4096 = 0 -> index_ok i -> entry_at m' t i = 0 \/ entry_at m' t i = entry_at m t i) ->
  page_walk m' c (page * PAGE_SIZE) = None.
Proof.
  intros [[R _] L4 L3 L2 _ _ _ _] Hp Habs Hm. destruct (page_indices page) as (H4 & H3 & H2 & H1).
  destruct (page_va_index page 0 Hp ltac:(lia)) as (I3 & I2 & I1 & I0 & _). rewrite Z.add_0_r in *.
  pose proof entry_addr_aligned as Al.
  assert (Hc : c `mod` 4096 = 0) by (destruct R as (_ & _ & <-); apply Al).
  unfold links in *. apply andb_true_iff in L4 as [P4 N4], L3 as [P3 N3], L2 as [P2 N2].
  apply negb_true_iff in N4, N3, N2. unfold page_walk. rewrite I3, I2, I1, I0.
  destruct (Hm c (p4_index page) Hc H4) as [-> | ->]; [done|].
  change (entry_at m c (p4_index page)) with (ent4 m c (p4_index page)). rewrite P4, N4. cbn [negb orb].
  destruct (Hm _ (p3_index page) (Al (ent4 m c (p4_index page))) H3) as [-> | ->]; [done|].
  change (entry_at m (entry_addr (ent4 m c (p4_index page))) (p3_index page))
    with (ent3 m c (p4_index page) (p3_index page)). rewrite P3, N3. cbn [negb].
  destruct (Hm _ (p2_index page) (Al (ent3 m c (p4_index page) (p3_index page))) H2) as [-> | ->]; [done|].
  change (entry_at m (entry_addr (ent3 m c (p4_index page) (p3_index page))) (p2_index page))
    with (ent2 m c (p4_index page) (p3_index page) (p2_index page)). rewrite P2, N2. cbn [negb].
  destruct (Hm _ (p1_index page) (Al (ent2 m c (p4_index page) (p3_index page) (p2_index page))) H1)
    as [-> | ->]; [done|].
  change (entry_at m (entry_addr (ent2 m c (p4_index page) (p3_index page) (p2_index page))) (p1_index page))
    with (m64 m (entry_place m c page)). by rewrite Habs.
Qed.

Lemma frame_start_aligned frame : frame_starting_address frame `mod` 4096 = 0.
Proof. unfold frame_starting_address, PAGE_SIZE. word_lia. Qed.

Lemma walk_down page s :
  page_tables page s ->
  let i4 := p4_index page in let i3 := p3_index page in let i2 := p2_index page in
  next_table_address P4_TABLE i4 s = Ret (p3_addr i4) s
  /\ next_table_address (p3_addr i4) i3 s = Ret (p2_addr i4 i3) s
  /\ next_table_address (p2_addr i4 i3) i2 s = Ret (p1_addr i4 i3 i2) s.
Proof.
  intros [[R _] L4 L3 L2 _ _ _ _] i4 i3 i2. destruct (page_indices page) as (H4 & H3 & H2 & H1).
  fold i4 i3 i2 in H4, H3, H2, L4, L3, L2. pose proof (links_present _ L4). pose proof (links_present _ L3).
  repeat split.
  - rewrite next_table_p4 by done. by rewrite L4.
  - rewrite next_table_p3 by done. by rewrite L3.
  - rewrite next_table_p2 by done. by rewrite L2.
Qed.

Lemma ldiff_present e : entry_present (u64 (Z.ldiff e 1)) = false.
Proof.
  unfold entry_present, u64. rewrite Z.mod_pow2_bits_low by lia. by rewrite Z.ldiff_spec, andb_false_r.
Qed.

(** The bytes of the page's entry. *)
Definition entry_bytes (page : Z) (s : kstate) (b : Z) : Prop :=
  entry_place (mem s) (cr3 s) page <= b < entry_place (mem s) (cr3 s) page + 8.

(** The machine when [unmap] has cleared the present bit. *)
Definition absent (page : Z) (s : kstate) : kstate := with_entry page (Z.ldiff (page_entry page s) 1) s.

Lemma absent_outside page s b : ~ entry_bytes page s b -> mem_get (mem (absent page s)) b = mem_get (mem s) b.
Proof. unfold entry_bytes. intros Hb. apply mem_get_write_out. rewrite length_le_bytes. lia. Qed.

(** The way of [unmap] down to the entry of a mapped page. *)
Lemma unmap_down page s :
  page_tables page s -> 0 <= page < 2 ^ 32 -> entry_present (page_entry page s) = true ->
  unmap page s = (mmap_deallocate_frame (pointed_frame (page_entry page s)) ;;
                  log (Invlpg (page * PAGE_SIZE))) (absent page s).
Proof.
  intros T Hp Hpres. destruct (walk_down page s T) as (W4 & W3 & W2). unfold unmap.
  rewrite (bind_ret _ _ _ _ _ W4), (bind_ret _ _ _ _ _ W3), (bind_ret _ _ _ _ _ W2).
  fold (entry_va page). rewrite (bind_ret _ _ _ _ _ (load_entry page s T)), Hpres. cbn [negb].
  rewrite (bind_ret _ _ _ _ _ (clear_present_run page s T)). unfold page_starting_address.
  by rewrite u64_small by (unfold PAGE_SIZE; lia).
Qed.

Lemma unmap_run page s :
  page_tables page s -> 0 <= page < 2 ^ 32 -> entry_present (page_entry page s) = true ->
  frame_mapped (mem s) (cr3 s) (pointed_frame (page_entry page s)) (entry_bytes page s) ->
  let lo := frame_starting_address (pointed_frame (page_entry page s)) in
  exists m, unmap page s = Ret tt (set_trace (cons (Invlpg (page * PAGE_SIZE))) (set_mem (fun _ => m) s))
    /\ (forall b, mem_get m b =
          if (lo <=? b) && (b <? lo + 8 * PAGE_SIZE) then 0 else mem_get (mem (absent page s)) b)
    /\ page_walk m (cr3 s) (page * PAGE_SIZE) = None.
Proof.
  intros T Hp Hpres Hfr lo. set (s1 := absent page s).
  assert (Hfr1 : frame_mapped (mem s1) (cr3 s1) (pointed_frame (page_entry page s)) (entry_bytes page s)).
  { eapply self_mapped_ext; [|exact Hfr]. intros b _ Hb. by apply absent_outside. }
  destruct (deallocate_run (pointed_frame (page_entry page s)) _ s1 Hfr1) as (m & Hd & Hm).
  exists m. split; [|split; [exact Hm|]].
  - rewrite unmap_down by done. fold s1. rewrite (bind_ret _ _ _ _ _ Hd). reflexivity.
  - apply (page_walk_none (mem s1)); [exact (with_entry_tables page _ s T)|exact Hp| |].
    + pose proof (page_entry_with page (Z.ldiff (page_entry page s) 1) s T) as E.
      fold (absent page s) in E. fold s1 in E. unfold page_entry at 1 in E. change (cr3 s1) with (cr3 s) in E.
      rewrite E. apply ldiff_present.
    + intros t i Ht Hi. eapply (entry_at_cleared (mem s1) m); [| |done|done|exact Hm].
      * apply frame_start_aligned.
      * pose proof (frame_start_aligned (pointed_frame (page_entry page s))).
        unfold PAGE_SIZE. Z.div_mod_to_equations. lia.
Qed.

(** ** Lemmas: a new table *)

(** An unused entry of the level 4 table, other than the recursive one, can be
    read and written where it is. *)
Definition with_ent4 (i v : Z) (s : kstate) : kstate :=
  set_mem (fun m => write_bytes m (cr3 s + 8 * i) (le_bytes 8 v)) s.

Section NewTable.
Context (i : Z) (Hi : index_ok i) (Hne : i <> 511).

Lemma with_ent4_recursive v s :
  recursive_writable (mem s) (cr3 s) -> recursive_writable (mem (with_ent4 i v s)) (cr3 (with_ent4 i v s)).
Proof using Hi Hne.
  unfold recursive_writable, recursive, entry_at, with_ent4. simpl_state. intros R. unfold index_ok in Hi.
  rewrite m64_write_out by lia. exact R.
Qed.

Lemma with_ent4_again v w s : with_ent4 i w (with_ent4 i v s) = with_ent4 i w s.
Proof using. unfold with_ent4. rewrite set_mem_set_mem. apply set_mem_ext. by apply write_write_bytes. Qed.

Lemma ent4_with v s : ent4 (mem (with_ent4 i v s)) (cr3 s) i = u64 v.
Proof using. apply m64_write_same. Qed.

Lemma load_ent4 s :
  recursive (mem s) (cr3 s) -> vload64 (entry_ptr P4_TABLE i) s = Ret (ent4 (mem s) (cr3 s) i) s.
Proof using Hi.
  intros R. rewrite entry_ptr_p4 by done. exact (vload64_run _ _ _ _ (walk_p4 _ _ R i Hi)).
Qed.

Lemma store_ent4 v s :
  recursive_writable (mem s) (cr3 s) -> vstore64 (entry_ptr P4_TABLE i) v s = Ret tt (with_ent4 i v s).
Proof using Hi.
  intros [R W]. rewrite entry_ptr_p4 by done.
  exact (vstore64_run _ _ _ _ _ (walk_p4 _ _ R i Hi) (writable_p4 _ _ R W i Hi)).
Qed.

Lemma set_bit_ent4 v bit s :
  recursive_writable (mem s) (cr3 s) -> 0 <= v < 2 ^ 64 ->
  set_entry_bit (entry_ptr P4_TABLE i) bit (with_ent4 i v s) =
    Ret tt (with_ent4 i (Z.lor v (Z.shiftl 1 bit)) s).
Proof using Hi Hne.
  intros R Hv. pose proof (with_ent4_recursive v s R) as R'. unfold set_entry_bit.
  rewrite (bind_ret _ _ _ _ _ (load_ent4 _ (proj1 R'))), (store_ent4 _ _ R').
  change (cr3 (with_ent4 i v s)) with (cr3 s). by rewrite ent4_with, u64_small, with_ent4_again.
Qed.

Lemma set_addr_mask_ent4 addr s :
  recursive_writable (mem s) (cr3 s) -> ent4 (mem s) (cr3 s) i = 0 -> 0 <= addr < 2 ^ 40 ->
  set_addr_mask (entry_ptr P4_TABLE i) addr s = Ret tt (with_ent4 i (addr * PAGE_SIZE) s).
Proof using Hi Hne.
  intros R H0 Ha. unfold set_addr_mask. cbn zeta.
  rewrite (bind_ret _ _ _ _ _ (load_ent4 _ (proj1 R))), H0, (bind_ret _ _ _ _ _ (store_ent4 _ _ R)).
  pose proof (with_ent4_recursive (Z.land 0 0xfff0000000000fff) s R) as R'.
  rewrite (bind_ret _ _ _ _ _ (load_ent4 _ (proj1 R'))), (store_ent4 _ _ R').
  change (cr3 (with_ent4 i (Z.land 0 0xfff0000000000fff) s)) with (cr3 s).
  rewrite ent4_with, with_ent4_again, (u64_small (addr * PAGE_SIZE)) by (unfold PAGE_SIZE; lia).
  change (u64 (Z.land 0 0xfff0000000000fff)) with 0. by rewrite Z.lor_0_l.
Qed.

End NewTable.

(** ** Lemmas: entry bits *)

Lemma byte_or_one flags :
  0 <= Z.lor (u8 flags) 1 < 2 ^ 64 /\ entry_addr (Z.lor (u8 flags) 1) = 0.
Proof.
  pose proof (u8_range flags) as Hr.
  assert (H : forallb (fun b => (0 <=? Z.lor b 1) && (Z.lor b 1 <? 2 ^ 64) && (entry_addr (Z.lor b 1) =? 0))
    (seqZ 0 256) = true) by (vm_compute; reflexivity).
  pose proof (byte_forall _ H (u8 flags) Hr) as Hb. cbn beta in Hb. bools. lia.
Qed.

Lemma new_entry_links addr : 0 <= addr -> links (addr * PAGE_SIZE + 3) = true.
Proof.
  intros Ha. unfold links, entry_present, entry_huge.
  change PAGE_SIZE with (2 ^ 12). rewrite <- (lor_disjoint addr 3 12), !Z.lor_spec by lia.
  by rewrite !Z.mul_pow2_bits_low by lia.
Qed.

(** ** Properties *)

(** C10: [translate_page] agrees with the processor: through the recursive
    mapping it finds, for every page number below [2^32], the number, cut to the
    32 bits of a [frame_t], of the physical frame the processor would use, when
    the page is mapped as a 4 KiB page, and 0 otherwise, without a fault and
    without any change.  (A [page_t] has 64 bits, but the index functions cut it
    to 32: [translate_page_aliases] has what happens from [2^32] on.) *)
Theorem translate_page_walks page s :
  recursive (mem s) (cr3 s) -> 0 <= page < 2 ^ 32 ->
  translate_page page s =
    Ret (match page_walk (mem s) (cr3 s) (page * PAGE_SIZE) with
         | Some (pa, size) => if size =? PAGE_SIZE then u32 (pa / PAGE_SIZE) else 0
         | None => 0
         end) s.
Proof.
  intros R Hp. rewrite translate_page_run by done. f_equal.
  pose proof (page_walk_frame (mem s) (cr3 s) page 0 Hp ltac:(lia)) as Hw. cbn zeta in Hw.
  rewrite Z.add_0_r in Hw. destruct (page_walk _ _ _) as [[pa n]|]; [destruct (n =? PAGE_SIZE)|].
  all: destruct (links _ && links _ && links _); try done; unfold pointed_frame; cbn [andb] in Hw.
  all: destruct (entry_present _); try done.
  injection Hw as ->. by rewrite Z.add_0_r.
Qed.

(** Tables at 0x1000 to 0x4000 for the instances: page 5 is mapped to frame 9,
    and the second gigabyte to itself as one page. *)
Definition test_tables : gmap Z Z :=
  let word a v m := write_bytes m a (le_bytes 8 v) in
  word (0x1000 + 8 * 511) 0x1003 (word 0x1000 0x2003 (word 0x2000 0x3003
    (word 0x3000 0x4003 (word (0x4000 + 8 * 5) 0x9003 (word (0x2000 + 8) 0x40000083 ∅))))).
Definition paging_state : kstate :=
  let s := blank_state test_tables in
  K (mem s) (trace s) (iflag s) 0x1000 (scr s) (idt s) (idt_reg s) (interrupt_handlers s) (tick s)
    (Mmap 0 0 0 0 0 1).

Lemma paging_state_recursive : recursive (mem paging_state) (cr3 paging_state).
Proof. repeat split; vm_compute; reflexivity. Defined.

Lemma paging_state_tables : page_tables 5 paging_state.
Proof.
  constructor; [split; [exact paging_state_recursive|]|..]; vm_compute; (reflexivity || discriminate || by repeat split).
Defined.

Lemma translate_page_walks_witness :
  translate_page 5 paging_state = Ret 9 paging_state
  /\ translate_page 0x40000 paging_state = Ret 0 paging_state.
Proof.
  split.
  - apply (translate_page_walks 5 paging_state paging_state_recursive). lia.
  - apply (translate_page_walks 0x40000 paging_state paging_state_recursive). lia.
Defined.

(** Page numbers are cut to 32 bits on the way to the indices, so pages
    [2^32] apart, which have different level 4 entries, are confused. *)
Theorem translate_page_aliases page : translate_page page ≡ translate_page (page + 2 ^ 32).
Proof.
  assert (E : u32 (page + 2 ^ 32) = u32 page) by word_lia.
  unfold translate_page, p4_index, p3_index, p2_index, p1_index. by rewrite E.
Qed.

(** [translate] adds the wrong offset: not the address's offset in its page
    but the low bits of the page number. *)
Theorem translate_adds_page_number addr pa s :
  recursive (mem s) (cr3 s) -> 0 <= addr < 2 ^ 44 ->
  page_walk (mem s) (cr3 s) addr = Some (pa, PAGE_SIZE) -> 0 <= pa < 2 ^ 44 ->
  translate addr s =
    Ret (pa - addr `mod` PAGE_SIZE + (addr / PAGE_SIZE) `mod` PAGE_SIZE) s.
Proof.
  intros R Ha Hw Hpa.
  assert (Hp : 0 <= addr / PAGE_SIZE < 2 ^ 32) by (unfold PAGE_SIZE; Z.div_mod_to_equations; lia).
  assert (Ho : 0 <= addr `mod` PAGE_SIZE < 4096) by (unfold PAGE_SIZE; Z.div_mod_to_equations; lia).
  pose proof (page_walk_frame (mem s) (cr3 s) _ _ Hp Ho) as Hf. cbn zeta in Hf.
  replace (addr / PAGE_SIZE * PAGE_SIZE + addr `mod` PAGE_SIZE) with addr in Hf
    by (unfold PAGE_SIZE; Z.div_mod_to_equations; lia).
  rewrite Hw, Z.eqb_refl in Hf.
  unfold translate, page_containing_address. rewrite (bind_ret _ _ _ _ _ (translate_page_run _ _ R)).
  cbn zeta. destruct (links _ && links _ && links _); [|done]. unfold pointed_frame. cbn [andb] in Hf.
  destruct (entry_present _); [|done]. injection Hf as ->.
  unfold mret, M_ret. f_equal. fold (entry_addr (ent1 (mem s) (cr3 s) (p4_index (addr / PAGE_SIZE))
    (p3_index (addr / PAGE_SIZE)) (p2_index (addr / PAGE_SIZE)) (p1_index (addr / PAGE_SIZE)))).
  set (e := entry_addr _) in *. assert (e `mod` 4096 = 0) by apply entry_addr_aligned.
  unfold page_starting_address, frame_containing_address, PAGE_SIZE in *.
  rewrite (u32_small (e / 4096)) by (Z.div_mod_to_equations; lia).
  rewrite (u64_small (e / 4096 * 4096)) by (Z.div_mod_to_equations; lia).
  rewrite u64_small by (Z.div_mod_to_equations; lia). Z.div_mod_to_equations. lia.
Qed.




(** Page 5 mapped to frame 0x40000, in the second gigabyte. *)
Definition unmap_state : kstate :=
  set_mem (fun m => write_bytes m (0x4000 + 8 * 5) (le_bytes 8 0x40000003)) paging_state.

Lemma unmap_state_tables : page_tables 5 unmap_state.
Proof. constructor; [split|..]; vm_compute; (reflexivity || discriminate || by repeat split). Defined.

Lemma second_gigabyte lo hi (free : Z -> Prop) :
  2 ^ 30 <= lo -> hi <= 2 ^ 31 -> (forall b, free b -> 0x3000 <= b) ->
  self_mapped (mem unmap_state) 0x1000 lo hi free.
Proof.
  intros Hlo Hhi Hf m' a Hm Ha. exists (2 ^ 30).
  assert (Hw : forall b, 0x1000 <= b < 0x3000 - 8 -> m64 m' b = m64 (mem unmap_state) b)
    by (intros b Hb; apply m64_ext; intros c Hc; apply Hm; [lia|]; intros Hc'%Hf; lia).
  assert (I : va_index a 3 = 0 /\ va_index a 2 = 1 /\ 2 ^ 30 + a `mod` 2 ^ 30 = a).
  { unfold va_index. change (12 + 9 * 3) with 39. change (12 + 9 * 2) with 30. Z.div_mod_to_equations. lia. }
  destruct I as (I3 & I2 & I1). unfold page_walk, page_writable, entry_at. rewrite I3, I2.
  change (0x1000 + 8 * 0) with 0x1000. rewrite (Hw 0x1000) by lia.
  replace (m64 (mem unmap_state) 0x1000) with 0x2003 by (vm_compute; reflexivity).
  change (entry_addr 0x2003 + 8 * 1) with 0x2008. rewrite (Hw 0x2008) by lia.
  replace (m64 (mem unmap_state) 0x2008) with 0x40000083 by (vm_compute; reflexivity).
  split; [|reflexivity]. transitivity (Some (2 ^ 30 + a `mod` 2 ^ 30, 2 ^ 30)); [reflexivity|by rewrite I1].
Defined.


(** Where the frame's own address is not mapped, or no longer is because it was
    the page's, [unmap] ends in a page fault with the present bit cleared and
    nothing flushed. *)
Theorem unmap_faults page s :
  page_tables page s -> 0 <= page < 2 ^ 32 -> entry_present (page_entry page s) = true ->
  page_walk (mem (absent page s)) (cr3 s) (frame_starting_address (pointed_frame (page_entry page s))) = None ->
  unmap page s = Fault PageFault.
Proof.
  intros T Hp Hpres Hw. rewrite unmap_down by done. apply bind_fault, deallocate_faults. by left.
Qed.

Lemma unmap_faults_witness : unmap 5 paging_state = Fault PageFault.
Proof.
  apply (unmap_faults 5 paging_state paging_state_tables); [lia|..]; vm_compute; reflexivity.
Defined.

(** A table that [next_table_create] makes in an unused entry of the level 4
    table is not where it was allocated: the physical address [addr] of the
    new frame is multiplied by the page size once more, so the processor takes
    the table to be at [addr * 4096]. *)
Theorem next_table_create_misplaces fuel i frame addr next s :
  recursive_writable (mem s) (cr3 s) -> index_ok i -> i <> 511 -> ent4 (mem s) (cr3 s) i = 0 ->
  mmap_allocate_frame fuel s = Ret frame (with_next next s) ->
  mmap_read frame MMAP_GET_ADDR (with_next next s) = Ret addr (with_next next s) ->
  0 <= addr < 2 ^ 40 ->
  exists s', next_table_create fuel P4_TABLE i s = Ret (p3_addr i) s'
    /\ entry_addr (ent4 (mem s') (cr3 s') i) = addr * PAGE_SIZE.
Proof.
  intros R Hi Hne H0 Hal Hrd Ha. set (s1 := with_next next s) in *.
  assert (R1 : recursive_writable (mem s1) (cr3 s1)) by exact R.
  assert (Hv : Z.lor (Z.lor (addr * PAGE_SIZE) (Z.shiftl 1 0)) (Z.shiftl 1 1) = addr * PAGE_SIZE + 3).
  { rewrite <- Z.lor_assoc. change (Z.lor (Z.shiftl 1 0) (Z.shiftl 1 1)) with 3.
    change PAGE_SIZE with (2 ^ 12). apply lor_disjoint; lia. }
  assert (Hv1 : Z.lor (addr * PAGE_SIZE) (Z.shiftl 1 0) = addr * PAGE_SIZE + 1).
  { change (Z.shiftl 1 0) with 1. change PAGE_SIZE with (2 ^ 12). apply lor_disjoint; lia. }
  pose proof (with_ent4_recursive i Hi Hne (addr * PAGE_SIZE + 3) s1 R1) as R2.
  set (s2 := with_ent4 i (addr * PAGE_SIZE + 3) s1) in *.
  assert (He : ent4 (mem s2) (cr3 s2) i = addr * PAGE_SIZE + 3).
  { change (cr3 s2) with (cr3 s1). unfold s2. rewrite ent4_with. apply u64_small. unfold PAGE_SIZE. lia. }
  exists s2. split.
  2: { rewrite He, entry_addr_field. unfold PAGE_SIZE.
    replace ((addr * 4096 + 3) / 2 ^ 12) with addr by (Z.div_mod_to_equations; lia).
    by rewrite Z.mod_small. }
  unfold next_table_create. rewrite (bind_ret _ _ _ _ _ (load_ent4 i Hi s (proj1 R))), H0.
  change (negb (entry_present 0)) with true. cbn iota.
  rewrite (bind_ret _ _ s tt s2).
  - rewrite next_table_p4, He by (apply R2 || done).
    assert (Hl : links (addr * PAGE_SIZE + 3) = true) by (apply new_entry_links; lia). by rewrite Hl.
  - rewrite (bind_ret _ _ _ _ _ Hal), (bind_ret _ _ _ _ _ Hrd).
    rewrite (bind_ret _ _ _ _ _ (set_addr_mask_ent4 i Hi Hne addr s1 R1 H0 Ha)).
    rewrite (bind_ret _ _ _ _ _ (set_bit_ent4 i Hi Hne (addr * PAGE_SIZE) 0 s1 R1 ltac:(unfold PAGE_SIZE; lia))).
    rewrite (set_bit_ent4 i Hi Hne _ 1 s1 R1) by (rewrite Hv1; unfold PAGE_SIZE; lia). by rewrite Hv.
Qed.

(** These tables on the PC of Mmap.v, frame 6 being the next free one. *)
Definition paging_pc_state : kstate :=
  let s := set_mem (fun _ => write_bytes test_tables 0x91000 pc_mmap_bytes) paging_state in
  set_mm (fun _ => mm (pc_state 6)) s.

Lemma next_table_create_misplaces_witness :
  exists s', next_table_create 1 P4_TABLE 3 paging_pc_state = Ret (p3_addr 3) s'
    /\ entry_addr (ent4 (mem s') (cr3 s') 3) = 0x6000 * PAGE_SIZE.
Proof.
  apply (next_table_create_misplaces 1 3 6 0x6000 7 paging_pc_state).
  - repeat split; vm_compute; reflexivity.
  - unfold index_ok. lia.
  - lia.
  - vm_compute. reflexivity.
  - vm_compute. reflexivity.
  - vm_compute. reflexivity.
  - lia.
Defined.

(** [unmap] does not test the tables on its way: from an absent level 4 entry on
    it takes address 0 for a table.  Where low memory is mapped to itself, as the
    start-up code leaves it, and the words it meets there lead no further, it
    takes another for the page's entry; if its first bit is set, that bit is
    cleared and a frame nobody mapped is wiped. *)
Theorem unmap_takes_low_memory page s :
  recursive (mem s) (cr3 s) -> 0 <= page < 2 ^ 32 ->
  self_mapped (mem s) (cr3 s) 0 4096 no_bytes ->
  links (ent4 (mem s) (cr3 s) (p4_index page)) = false ->
  links (entry_at (mem s) 0 (p3_index page)) = false -> links (entry_at (mem s) 0 (p2_index page)) = false ->
  entry_present (entry_at (mem s) 0 (p1_index page)) = true ->
  frame_mapped (mem s) (cr3 s) (pointed_frame (entry_at (mem s) 0 (p1_index page))) (fun b => 0 <= b < 4096) ->
  exists m, unmap page s = Ret tt (set_trace (cons (Invlpg (page * PAGE_SIZE))) (set_mem (fun _ => m) s))
    /\ entry_present (entry_at m 0 (p1_index page)) = false.
Proof.
  intros R Hp Hid L4 L3 L2 Hpres Hfr. destruct (page_indices page) as (H4 & H3 & H2 & H1).
  assert (Hptr : forall i, index_ok i -> entry_ptr 0 i = 8 * i)
    by (intros i Hi; unfold entry_ptr, index_ok in *; rewrite u64_small; lia).
  assert (Hat : forall i, index_ok i -> vload64 (entry_ptr 0 i) s = Ret (entry_at (mem s) 0 i) s)
    by (intros i Hi; rewrite Hptr by done; apply (self_load _ _ _ _ _ Hid); unfold index_ok in Hi; lia).
  assert (Hdown : forall i, index_ok i -> links (entry_at (mem s) 0 i) = false ->
    next_table_address 0 i s = Ret 0 s).
  { intros i Hi Hl. unfold next_table_address. cbv zeta. rewrite (u32_small i) by (unfold index_ok in Hi; lia).
    rewrite (bind_ret _ _ _ _ _ (Hat i Hi)). unfold links in Hl. by rewrite Hl. }
  set (e := entry_at (mem s) 0 (p1_index page)) in *.
  assert (Hload : vload64 (entry_ptr 0 (p1_index page)) s = Ret e s) by by apply Hat.
  set (s1 := set_mem (fun m => write_bytes m (8 * p1_index page) (le_bytes 8 (Z.ldiff e 1))) s).
  assert (Hclear : clear_entry_bit (entry_ptr 0 (p1_index page)) 0 s = Ret tt s1).
  { unfold clear_entry_bit. rewrite (bind_ret _ _ _ _ _ Hload), Hptr by done.
    apply (self_store _ _ _ _ _ _ Hid). unfold index_ok in H1. lia. }
  assert (Hfr1 : frame_mapped (mem s1) (cr3 s1) (pointed_frame e) (fun b => 0 <= b < 4096)).
  { eapply self_mapped_ext; [|exact Hfr]. intros b _ Hb. apply mem_get_write_out. rewrite length_le_bytes.
    unfold index_ok in H1. lia. }
  destruct (deallocate_run (pointed_frame e) _ s1 Hfr1) as (m & Hd & Hm). exists m. split.
  - unfold unmap. rewrite (bind_ret _ _ _ _ _ (next_table_p4 s R _ H4)), L4.
    rewrite (bind_ret _ _ _ _ _ (Hdown _ H3 L3)), (bind_ret _ _ _ _ _ (Hdown _ H2 L2)).
    rewrite (bind_ret _ _ _ _ _ Hload), Hpres. cbn [negb].
    rewrite (bind_ret _ _ _ _ _ Hclear), (bind_ret _ _ _ _ _ Hd). unfold page_starting_address.
    rewrite u64_small by (unfold PAGE_SIZE; lia). reflexivity.
  - destruct (entry_at_cleared (mem s1) m _ _ 0 (p1_index page) (frame_start_aligned _)
      ltac:(change (8 * PAGE_SIZE) with (8 * 4096); rewrite Z_mod_plus_full; apply frame_start_aligned) eq_refl H1 Hm) as [->| ->]; [done|].
    unfold entry_at. rewrite Z.add_0_l. change (mem s1) with (write_bytes (mem s) (8 * p1_index page) (le_bytes 8 (Z.ldiff e 1))).
    rewrite m64_write_same. apply ldiff_present.
Qed.

(** The first two megabytes mapped to themselves, and a word at address 40. *)
Definition low_state : kstate :=
  let word a v m := write_bytes m a (le_bytes 8 v) in
  set_mem (fun _ => word (0x1000 + 8 * 511) 0x1003 (word 0x1000 0x2003 (word 0x2000 0x3003
    (word 0x3000 0x83 (word 40 0x9001 ∅))))) paging_state.

(** The first two megabytes are mapped to themselves but for the tables. *)
Lemma first_megabytes m lo hi (free : Z -> Prop) :
  (forall b, 0x1000 <= b < 0x5000 -> mem_get m b = mem_get (mem low_state) b) ->
  0 <= lo -> hi <= 2 ^ 21 -> hi <= 0x1000 \/ 0x4000 <= lo -> (forall b, free b -> ~ 0x1000 <= b < 0x4000) ->
  self_mapped m 0x1000 lo hi free.
Proof.
  intros Hl Hlo Hhi Hout Hf m' a Hm Ha. exists (2 ^ 21).
  assert (Hw : forall b, 0x1000 <= b < 0x4000 - 8 -> m64 m' b = m64 (mem low_state) b).
  { intros b Hb. apply m64_ext. intros c Hc. rewrite Hm; [apply Hl; lia|lia|]. intros Hc'%Hf. lia. }
  assert (I : va_index a 3 = 0 /\ va_index a 2 = 0 /\ va_index a 1 = 0 /\ a `mod` 2 ^ 21 = a).
  { unfold va_index. change (12 + 9 * 3) with 39. change (12 + 9 * 2) with 30. change (12 + 9 * 1) with 21.
    Z.div_mod_to_equations. lia. }
  destruct I as (I3 & I2 & I1 & I0). unfold page_walk, page_writable, entry_at. rewrite I3, I2, I1, I0.
  change (0x1000 + 8 * 0) with 0x1000. rewrite (Hw 0x1000) by lia.
  replace (m64 (mem low_state) 0x1000) with 0x2003 by (vm_compute; reflexivity).
  change (entry_addr 0x2003 + 8 * 0) with 0x2000. rewrite (Hw 0x2000) by lia.
  replace (m64 (mem low_state) 0x2000) with 0x3003 by (vm_compute; reflexivity).
  change (entry_addr 0x3003 + 8 * 0) with 0x3000. rewrite (Hw 0x3000) by lia.
  replace (m64 (mem low_state) 0x3000) with 0x83 by (vm_compute; reflexivity). split; reflexivity.
Defined.

Lemma unmap_takes_low_memory_witness :
  exists m, unmap (2 ^ 27 + 5) low_state
      = Ret tt (set_trace (cons (Invlpg ((2 ^ 27 + 5) * PAGE_SIZE))) (set_mem (fun _ => m) low_state))
    /\ entry_present (entry_at m 0 5) = false.
Proof.
  apply (unmap_takes_low_memory (2 ^ 27 + 5) low_state).
  - repeat split; vm_compute; reflexivity.
  - lia.
  - apply first_megabytes; [done|lia|lia|lia|]. intros b [].
  - vm_compute. reflexivity.
  - vm_compute. reflexivity.
  - vm_compute. reflexivity.
  - vm_compute. reflexivity.
  - unfold frame_mapped. replace (pointed_frame (entry_at (mem low_state) 0 (p1_index (2 ^ 27 + 5)))) with 9 by (vm_compute; reflexivity).
    apply first_megabytes; [done|vm_compute; discriminate..|right; vm_compute; discriminate|lia].
Defined.
