(* ===== verification/HugePage.v ===== *)
(** * Mapping a page inside a huge page

    asm/boot.asm maps the first gigabyte with pages of 2 MiB.  paging.c takes the
    huge bit for the absence of a table: [next_table_address] returns 0, which
    [map_page_to_frame] does not test, so it writes the page's entry into the
    table at address 0.  This file has what that leaves in memory; Loader.v
    applies it to the booted kernel. *)

From stdpp Require Import base numbers list gmap.
From S2P Require Import Prelude Machine Boot PageWalk Mmap Paging.

(** The first page is mapped to itself and writable, whatever is in it. *)
Definition low_page (m : gmap Z Z) (c : Z) : Prop := self_mapped m c 0 4096 no_bytes.

(** The machine with the [i]-th word of memory set to [v]. *)
Definition with_word (i v : Z) (s : kstate) : kstate :=
  set_mem (fun m => write_bytes m (8 * i) (le_bytes 8 v)) s.

Section Word.
Context (i : Z) (Hi : index_ok i).

Lemma with_word_low v s : low_page (mem s) (cr3 s) -> low_page (mem (with_word i v s)) (cr3 (with_word i v s)).
Proof using Hi. unfold index_ok in Hi. intros L. apply self_mapped_write; [lia..|exact L]. Qed.

Lemma with_word_again v w s : with_word i w (with_word i v s) = with_word i w s.
Proof using. unfold with_word. rewrite set_mem_set_mem. apply set_mem_ext. by apply write_write_bytes. Qed.

Lemma word_ptr : entry_ptr 0 i = 8 * i.
Proof using Hi. unfold index_ok in Hi. unfold entry_ptr. rewrite Z.add_0_l, u64_small; lia. Qed.

Lemma load_word s : low_page (mem s) (cr3 s) -> vload64 (entry_ptr 0 i) s = Ret (m64 (mem s) (8 * i)) s.
Proof using Hi. intros L. rewrite word_ptr. apply (self_load _ _ _ _ _ L). unfold index_ok in Hi. lia. Qed.

Lemma store_word v s : low_page (mem s) (cr3 s) -> vstore64 (entry_ptr 0 i) v s = Ret tt (with_word i v s).
Proof using Hi. intros L. rewrite word_ptr. apply (self_store _ _ _ _ _ _ L). unfold index_ok in Hi. lia. Qed.

(** The three assignments of [map_page_to_frame] to the entry. *)
Lemma store_entry_word frame flags s :
  low_page (mem s) (cr3 s) ->
  (set_addr_mask (entry_ptr 0 i) frame ;;
   vstore64 (entry_ptr 0 i) (u8 flags) ;;
   set_entry_bit (entry_ptr 0 i) 0) s = Ret tt (with_word i (Z.lor (u8 flags) 1) s).
Proof using Hi.
  intros L. assert (Ha : exists v, set_addr_mask (entry_ptr 0 i) frame s = Ret tt (with_word i v s)).
  { unfold set_addr_mask. cbv zeta. eexists.
    rewrite (bind_ret _ _ _ _ _ (load_word s L)), (bind_ret _ _ _ _ _ (store_word _ s L)).
    match goal with |- context [with_word i ?v s] => pose proof (with_word_low v s L) as L1 end.
    rewrite (bind_ret _ _ _ _ _ (load_word _ L1)), (store_word _ _ L1), with_word_again. reflexivity. }
  destruct Ha as [v Ha]. pose proof (with_word_low v s L) as L1. pose proof (with_word_low (u8 flags) s L) as L2.
  rewrite (bind_ret _ _ _ _ _ Ha), (bind_ret _ _ _ _ _ (store_word _ _ L1)), with_word_again.
  unfold set_entry_bit. rewrite (bind_ret _ _ _ _ _ (load_word _ L2)), (store_word _ _ L2), with_word_again.
  unfold with_word at 2. simpl_state. rewrite m64_write_same. pose proof (u8_range flags).
  by rewrite u64_small by lia.
Qed.

End Word.

(** What a walk that ends at a page of 2 MiB has met. *)
Lemma huge_walk m c page pa :
  0 <= page < 2 ^ 32 -> page_walk m c (page * PAGE_SIZE) = Some (pa, 2 ^ 21) ->
  links (ent4 m c (p4_index page)) = true /\ links (ent3 m c (p4_index page) (p3_index page)) = true
  /\ entry_present (ent2 m c (p4_index page) (p3_index page) (p2_index page)) = true
  /\ links (ent2 m c (p4_index page) (p3_index page) (p2_index page)) = false.
Proof.
  intros Hp. destruct (page_va_index page 0 Hp ltac:(lia)) as (I3 & I2 & I1 & _). rewrite Z.add_0_r in *.
  unfold page_walk. rewrite I3, I2, I1. unfold links, ent2, ent3, ent4.
  set (e4 := entry_at m c _). set (e3 := entry_at m (entry_addr e4) _). set (e2 := entry_at m (entry_addr e3) _).
  cbv zeta. destruct (entry_present e4), (entry_huge e4), (entry_present e3), (entry_huge e3); cbn [negb orb]; try done.
  destruct (entry_present e2), (entry_huge e2); cbn [negb]; try done. by case_match.
Qed.

Lemma map_huge_run fuel page frame flags pa s :
  recursive (mem s) (cr3 s) -> 0 <= page < 2 ^ 32 ->
  page_walk (mem s) (cr3 s) (page * PAGE_SIZE) = Some (pa, 2 ^ 21) -> low_page (mem s) (cr3 s) ->
  map_page_to_frame fuel page frame flags s = Ret tt (with_word (p1_index page) (Z.lor (u8 flags) 1) s).
Proof.
  intros R Hp Hw L. destruct (huge_walk _ _ _ _ Hp Hw) as (L4 & L3 & P2 & L2).
  destruct (page_indices page) as (H4 & H3 & H2 & H1). unfold map_page_to_frame.
  pose proof (links_present _ L4) as P4. pose proof (links_present _ L3) as P3.
  erewrite bind_ret; [|eapply create_existing; [eapply vload64_run; rewrite entry_ptr_p4 by done; by apply walk_p4|exact P4|]].
  2: { rewrite next_table_p4 by done. by rewrite L4. }
  erewrite bind_ret; [|eapply create_existing; [eapply vload64_run; rewrite entry_ptr_p3 by done; by apply walk_p3|exact P3|]].
  2: { rewrite next_table_p3 by done. by rewrite L3. }
  erewrite bind_ret; [|eapply create_existing; [eapply vload64_run; rewrite entry_ptr_p2 by done; by apply walk_p2|exact P2|]].
  2: { rewrite next_table_p2 by done. by rewrite L2. }
  by apply store_entry_word.
Qed.

(** ** Properties *)

(** Mapping a page that lies in a page of 2 MiB changes one word of low memory:
    the entry [p1_index] of the table that is not there. *)
Theorem map_page_in_huge_page fuel page frame flags pa s :
  recursive (mem s) (cr3 s) -> 0 <= page < 2 ^ 32 ->
  page_walk (mem s) (cr3 s) (page * PAGE_SIZE) = Some (pa, 2 ^ 21) -> low_page (mem s) (cr3 s) ->
  map_page_to_frame fuel page frame flags s = Ret tt (with_word (p1_index page) (Z.lor (u8 flags) 1) s).
Proof. apply map_huge_run. Qed.

Lemma map_page_in_huge_page_witness :
  map_page_to_frame 1 9 7 2 low_state = Ret tt (with_word 9 3 low_state).
Proof.
  apply (map_page_in_huge_page 1 9 7 2 0x9000 low_state).
  - repeat split; vm_compute; reflexivity.
  - lia.
  - vm_compute. reflexivity.
  - apply first_megabytes; [done|lia|lia|lia|]. intros b [].
Defined.
