(* ===== verification/DebugBuild.v ===== *)
(** * The debug build: the functions that print, with ENABLE_KERNEL_DEBUG

    The functions of core/boot.c, mmu/mmap.c and mmu/paging.c that contain
    [DEBUG] lines, once more with those lines, and what the lines do to them:
    nothing but output, except where [%d] or [%u] meets the number [2^31], which
    [itoa] negates as an [int].

    The functions take the expansion of the macro as a parameter: [sending] is
    the real one, [checking] only looks for that number.  [__LINE__] in a call
    over several lines is a line of that call, which one is the compiler's
    choice: the parameter [Lines] maps its first line to it. *)

From stdpp Require Import base numbers list gmap strings.
From S2P Require Import Prelude Machine Libk Screen Serial Printf Debug Boot PageWalk Mmap Multiboot Paging.

Class Lines := {
  line_of : Z -> Z;
  line_of_range : forall n, 0 <= n < 1000 -> 0 <= line_of n < 2 ^ 31
}.

Section DebugBuild.
Context {D : DebugMacro} {L : Lines}.

(** ** src/core/boot.c *)

Definition MULTIBOOT_TAG_TYPE_VBE : Z := 7.
Definition MULTIBOOT_TAG_TYPE_FRAMEBUFFER : Z := 8.
Definition MULTIBOOT_TAG_TYPE_APM : Z := 10.
Definition MULTIBOOT_TAG_TYPE_ACPI_OLD : Z := 14.
Definition MULTIBOOT_TAG_TYPE_ACPI_NEW : Z := 15.
Definition MULTIBOOT_TAG_TYPE_NETWORK : Z := 16.
Definition MULTIBOOT_TAG_TYPE_LOAD_BASE_ADDR : Z := 21.

(** The characters of the string at an address, which a [%s] prints one by one. *)
Fixpoint load_string (fuel : nat) (a : Z) : M (list Z) :=
  match fuel with
  | O => throw OutOfFuel
  | S fuel =>
      c ← load8 a;
      if c =? 0 then mret [] else s ← load_string fuel (u64 (a + 1)); mret (c :: s)
  end.

Definition DEBUG_boot (line : Z) (format : list Z) (args : list vararg) : M unit :=
  debug (str "src/core/boot.c") line (str "read_multiboot_info") format args.

Fixpoint mmap_entries_loop_debug (fuel : nat) (tag mmap : Z) : M unit :=
  match fuel with
  | O => throw OutOfFuel
  | S fuel =>
      size ← load32 (tag + 4);
      if mmap <? tag + size then
        addr ← load64 mmap;
        len ← load64 (mmap + 8);
        type ← load32 (mmap + 16);
        DEBUG_boot (line_of 93) (str "mmap base_addr = 0x%X, length = 0x%X, type = 0x%x")
          [VWord addr; VWord len; VWord type] ;;
        entry_size ← load32 (tag + 8);
        mmap_entries_loop_debug fuel tag (u64 (mmap + entry_size))
      else mret tt
  end.

Fixpoint elf_sections_loop_debug (fuel : nat) (tag i elf : Z) (reserved : reserved_areas_t)
  : M reserved_areas_t :=
  match fuel with
  | O => throw OutOfFuel
  | S fuel =>
      num ← load32 (tag + 8);
      if i <? num then
        type ← load32 (elf + 4);
        flags ← load64 (elf + 8);
        addr ← load64 (elf + 16);
        size ← load64 (elf + 32);
        DEBUG_boot (line_of 126)
          (str "elf section #%d addr = 0x%X, type = 0x%X, size = 0x%X, flags = 0x%X")
          [VWord i; VWord addr; VWord type; VWord size; VWord flags] ;;
        type ← load32 (elf + 4);
        reserved ←
          (if type =? MULTIBOOT_ELF_SECTION_TYPE_NULL then mret reserved
           else
             addr ← load64 (elf + 16);
             size ← load64 (elf + 32);
             mret (add_section addr size reserved));
        section_size ← load32 (tag + 12);
        elf_sections_loop_debug fuel tag (u32 (i + 1)) (u64 (elf + section_size)) reserved
      else mret reserved
  end.

(** The [switch] on the type of a tag that is not the end. *)
Definition tag_switch_debug (fuel : nat) (tag type : Z) (reserved : reserved_areas_t) : M reserved_areas_t :=
  if type =? MULTIBOOT_TAG_TYPE_CMDLINE then
    s ← load_string fuel (tag + 8);
    DEBUG_boot 57 (str "command line = %s") [VStr s] ;;
    mret reserved
  else if type =? MULTIBOOT_TAG_TYPE_BOOT_LOADER_NAME then
    s ← load_string fuel (tag + 8);
    DEBUG_boot 60 (str "boot loader name = %s") [VStr s] ;;
    mret reserved
  else if type =? MULTIBOOT_TAG_TYPE_MODULE then
    mod_start ← load32 (tag + 8);
    mod_end ← load32 (tag + 12);
    cmdline ← load_string fuel (tag + 16);
    DEBUG_boot (line_of 63) (str "module at 0x%x-0x%x. command line %s")
      [VWord mod_start; VWord mod_end; VStr cmdline] ;;
    mret reserved
  else if type =? MULTIBOOT_TAG_TYPE_BASIC_MEMINFO then
    mem_lower ← load32 (tag + 8);
    mem_upper ← load32 (tag + 12);
    DEBUG_boot (line_of 71) (str "mem_lower = %dKB, mem_upper = %dKB") [VWord mem_lower; VWord mem_upper] ;;
    mret reserved
  else if type =? MULTIBOOT_TAG_TYPE_BOOTDEV then
    biosdev ← load32 (tag + 8);
    slice ← load32 (tag + 12);
    part ← load32 (tag + 16);
    DEBUG_boot (line_of 78) (str "boot device 0x%x,%u,%u") [VWord biosdev; VWord slice; VWord part] ;;
    mret reserved
  else if type =? MULTIBOOT_TAG_TYPE_MMAP then
    mmap_entries_loop_debug fuel tag (tag + 16) ;;
    mret reserved
  else if type =? MULTIBOOT_TAG_TYPE_FRAMEBUFFER then
    DEBUG_boot 103 (str "%s") [VStr (str "framebuffer")] ;; mret reserved
  else if type =? MULTIBOOT_TAG_TYPE_APM then
    DEBUG_boot 106 (str "%s") [VStr (str "apm")] ;; mret reserved
  else if type =? MULTIBOOT_TAG_TYPE_ACPI_OLD then
    DEBUG_boot 109 (str "%s") [VStr (str "acpi old")] ;; mret reserved
  else if type =? MULTIBOOT_TAG_TYPE_ACPI_NEW then
    DEBUG_boot 112 (str "%s") [VStr (str "acpi new")] ;; mret reserved
  else if type =? MULTIBOOT_TAG_TYPE_ELF_SECTIONS then
    elf_sections_loop_debug fuel tag 0 (tag + 20) reserved
  else if type =? MULTIBOOT_TAG_TYPE_NETWORK then
    DEBUG_boot 151 (str "%s") [VStr (str "network")] ;; mret reserved
  else if type =? MULTIBOOT_TAG_TYPE_LOAD_BASE_ADDR then
    DEBUG_boot 154 (str "%s") [VStr (str "load base addr")] ;; mret reserved
  else
    size ← load32 (tag + 4);
    DEBUG_boot 158 (str "tag 0x%x, size 0x%x") [VWord type; VWord size] ;;
    mret reserved.

Fixpoint multiboot_tags_loop_debug (fuel : nat) (tag : Z) (reserved : reserved_areas_t)
  : M (Z * reserved_areas_t) :=
  match fuel with
  | O => throw OutOfFuel
  | S fuel' =>
      type ← load32 tag;
      if type =? MULTIBOOT_TAG_TYPE_END then mret (tag, reserved)
      else
        reserved ← tag_switch_debug fuel tag type reserved;
        tag ← next_tag tag;
        multiboot_tags_loop_debug fuel' tag reserved
  end.

Definition read_multiboot_info_debug (fuel : nat) (mbi : Z) : M reserved_areas_t :=
  size ← load32 mbi;
  DEBUG_boot 48 (str "announced MBI size 0x%x") [VWord size] ;;
  '(tag, r) ← multiboot_tags_loop_debug fuel (mbi + 8) (ReservedAreas (u64 (-1)) 0 (u64 mbi) 0);
  tag ← next_tag tag;
  DEBUG_boot 165 (str "total MBI size 0x%X") [VWord (u64 (tag - mbi))] ;;
  mret (ReservedAreas (ra_kernel_start r) (ra_kernel_end r) (ra_multiboot_start r) tag).

(** ** src/mmu/mmap.c *)

Definition DEBUG_mmap (line : Z) (func : string) (format : list Z) (args : list vararg) : M unit :=
  debug (str "src/mmu/mmap.c") line (str func) format args.

Definition mmap_init_debug (mmap : Z) (reserved : reserved_areas_t) : M unit :=
  mmap_init mmap reserved ;;
  m ← gets mm;
  DEBUG_mmap (line_of 20) "mmap_init"
    (str "Initialized MMAP with memory_area = 0x%x, multiboot_start = 0x%x, "
     ++ str "multiboot_end = 0x%x, next_free_frame = %d")
    [VWord (memory_area m); VWord (multiboot_start m); VWord (multiboot_end m); VWord (next_free_frame m)].

Definition mmap_read_debug (request mode : Z) : M Z :=
  if negb (mode =? MMAP_GET_NUM) && negb (mode =? MMAP_GET_ADDR) then mret 0 else
  DEBUG_mmap 37 "mmap_read" (str "request = %d, mode = %d") [VWord (u32 request); VWord mode] ;;
  area ← gets (fun s => memory_area (mm s));
  size ← load32 (area + 4);
  entry_loop (S (Z.to_nat size)) mode (area + 16) (u32 request) 0.

Fixpoint mmap_allocate_frame_debug (fuel : nat) : M Z :=
  match fuel with
  | O => throw OutOfFuel
  | S fuel =>
      next ← gets (fun s => next_free_frame (mm s));
      DEBUG_mmap 79 "mmap_allocate_frame" (str "start (next_free_frame = %d)") [VWord next] ;;
      current_addr ← mmap_read_debug next MMAP_GET_ADDR;
      DEBUG_mmap 84 "mmap_allocate_frame" (str "current_addr = 0x%x") [VWord current_addr] ;;
      m ← gets mm;
      if ((multiboot_start m <=? current_addr) && (current_addr <=? multiboot_end m))
         || ((kernel_start m <=? current_addr) && (current_addr <=? kernel_end m)) then
        set_next_free_frame (u32 (next + 1)) ;;
        mmap_allocate_frame_debug fuel
      else
        num ← mmap_read_debug current_addr MMAP_GET_NUM;
        let current_frame_num := u32 num in
        set_next_free_frame (u32 (current_frame_num + 1)) ;;
        next ← gets (fun s => next_free_frame (mm s));
        DEBUG_mmap 103 "mmap_allocate_frame" (str "return current_frame_num = %d (next_free_frame = %d)")
          [VWord current_frame_num; VWord next] ;;
        mret current_frame_num
  end.

(** ** src/mmu/paging.c *)

Definition DEBUG_paging (line : Z) (func : string) (format : list Z) (args : list vararg) : M unit :=
  debug (str "src/mmu/paging.c") line (str func) format args.

Definition next_table_create_debug (fuel : nat) (table index : Z) : M Z :=
  location ← vload64 (entry_ptr table index);
  DEBUG_paging 118 "next_table_create" (str "index = %L - start") [VWord index] ;;
  (if negb (entry_present location) then
     frame ← mmap_allocate_frame_debug fuel;
     addr ← mmap_read_debug frame MMAP_GET_ADDR;
     DEBUG_paging 124 "next_table_create" (str "index = %L, frame = %d, addr = 0x%X")
       [VWord index; VWord frame; VWord addr] ;;
     set_addr_mask (entry_ptr table index) addr ;;
     set_entry_bit (entry_ptr table index) 0 ;;
     set_entry_bit (entry_ptr table index) 1
   else mret tt) ;;
  next_table_address table index.

Definition map_page_to_frame_debug (fuel : nat) (page frame flags : Z) : M unit :=
  p3 ← next_table_create_debug fuel P4_TABLE (p4_index page);
  DEBUG_paging 58 "map_page_to_frame" (str "p3 = 0x%X") [VWord p3] ;;
  p2 ← next_table_create_debug fuel p3 (p3_index page);
  DEBUG_paging 61 "map_page_to_frame" (str "p2 = 0x%X") [VWord p2] ;;
  p1 ← next_table_create_debug fuel p2 (p2_index page);
  DEBUG_paging 64 "map_page_to_frame" (str "p1 = 0x%X") [VWord p1] ;;
  set_addr_mask (entry_ptr p1 (p1_index page)) frame ;;
  vstore64 (entry_ptr p1 (p1_index page)) (u8 flags) ;;
  set_entry_bit (entry_ptr p1 (p1_index page)) 0.

Definition unmap_debug (page : Z) : M unit :=
  p3 ← next_table_address P4_TABLE (p4_index page);
  p2 ← next_table_address p3 (p3_index page);
  p1 ← next_table_address p2 (p2_index page);
  entry ← vload64 (entry_ptr p1 (p1_index page));
  if negb (entry_present entry) then
    DEBUG_paging 94 "unmap" (str "%s") [VStr (str "ERROR")] ;;
    mret tt
  else
    clear_entry_bit (entry_ptr p1 (p1_index page)) 0 ;;
    mmap_deallocate_frame (pointed_frame entry) ;;
    log (Invlpg (page_starting_address page)).

End DebugBuild.

(** Replace a format by its directives. *)
Ltac known_format :=
  match goal with
  | |- context [parse_format ?f] =>
      let ds := eval vm_compute in (parse_format f) in
      replace (parse_format f) with ds by (vm_compute; reflexivity)
  end.

Section Agreement.
Context {E : Env} {L : Lines} {T : TxReady E}.

(** ** The same but for the serial port *)

(** The trace without the port's events. *)
Definition kernel_events (tr : list event) : list event :=
  filter (fun e => serial_event SERIAL_COM1 e = false) tr.

Definition same_but_serial (s s' : kstate) : Prop := set_trace kernel_events s = set_trace kernel_events s'.

#[global] Instance same_but_serial_equiv : Equivalence same_but_serial.
Proof using.
  split; [by intros s|by intros s s'|]. unfold same_but_serial. intros s1 s2 s3 H1 H2. by rewrite H1.
Qed.

Lemma same_but_serial_inv sd s : same_but_serial sd s -> sd = set_trace (fun _ => trace sd) s.
Proof using.
  destruct sd, s. unfold same_but_serial, set_trace. cbn. intros H. injection H. intros. by subst.
Qed.

Lemma same_but_serial_events sd s : same_but_serial sd s -> kernel_events (trace sd) = kernel_events (trace s).
Proof using. intros H. exact (f_equal trace H). Qed.

Lemma same_but_serial_set tr s :
  kernel_events tr = kernel_events (trace s) -> same_but_serial (set_trace (fun _ => tr) s) s.
Proof using. intros H. unfold same_but_serial, set_trace. destruct s. f_equal. exact H. Qed.

Lemma kernel_events_app evs tr : Forall on_port evs -> kernel_events (evs ++ tr) = kernel_events tr.
Proof using.
  unfold kernel_events. induction 1 as [|e evs He _ IH]; [done|]. cbn [app]. rewrite filter_cons_False; [done|].
  unfold on_port in He. by rewrite He.
Qed.

Lemma same_but_serial_app evs s : Forall on_port evs -> same_but_serial (set_trace (app evs) s) s.
Proof using. intros He. rewrite set_trace_const. by apply same_but_serial_set, kernel_events_app. Qed.

(** [md] does what [m] does from every state, the serial port apart. *)
Definition agrees {A} (md m : M A) : Prop := forall s sd, same_but_serial sd s ->
  match m s with
  | Ret a s' => exists sd', md sd = Ret a sd' /\ same_but_serial sd' s'
  | Halted s' => exists sd', md sd = Halted sd' /\ same_but_serial sd' s'
  | Fault f => md sd = Fault f
  end.

(** ** Lemmas: agreement follows the code *)

Lemma agrees_bind {A B} (md m : M A) (kd k : A -> M B) :
  agrees md m -> (forall a, agrees (kd a) (k a)) -> agrees (md ≫= kd) (m ≫= k).
Proof using.
  intros Hm Hk s sd Hs. specialize (Hm s sd Hs). unfold mbind, M_bind.
  destruct (m s) as [a s'|s'|f] eqn:E1.
  - destruct Hm as (sd' & -> & Hs'). by apply (Hk a s').
  - destruct Hm as (sd' & -> & Hs'). by exists sd'.
  - by rewrite Hm.
Qed.

Lemma agrees_ret {A} (a : A) : agrees (mret a) (mret a).
Proof using. intros s sd Hs. by exists sd. Qed.

Lemma agrees_throw {A} f : agrees (@throw A f) (throw f).
Proof using. by intros s sd Hs. Qed.

Lemma agrees_lift {A} (r : res A) : agrees (lift r) (lift r).
Proof using. intros s sd Hs. unfold lift. destruct r as [a|f]; [by exists sd|done]. Qed.

Lemma agrees_gets {A} (f : kstate -> A) :
  (forall tr s, f (set_trace (fun _ => tr) s) = f s) -> agrees (gets f) (gets f).
Proof using.
  intros Hf s sd Hs. exists sd. split; [|done]. unfold gets. f_equal.
  rewrite (same_but_serial_inv _ _ Hs). apply Hf.
Qed.

Lemma agrees_modify f :
  (forall tr s, f (set_trace (fun _ => tr) s) = set_trace (fun _ => tr) (f s)) -> agrees (modify f) (modify f).
Proof using.
  intros Hf s sd Hs. exists (f sd). split; [done|]. rewrite (same_but_serial_inv _ _ Hs), Hf.
  assert (Ht : trace (f s) = trace s).
  { pose proof (f_equal trace (Hf (trace s) s)) as H. replace (set_trace (fun _ => trace s) s) with s in H by (by destruct s).
    exact H. }
  apply same_but_serial_set. rewrite Ht. by apply same_but_serial_events.
Qed.

Lemma agrees_if {A} (b : bool) (md md' m m' : M A) :
  agrees md m -> agrees md' m' -> agrees (if b then md else md') (if b then m else m').
Proof using. by destruct b. Qed.

Lemma agrees_for_from n body : forall lo, (forall i, agrees (body i) (body i)) -> agrees (for_from lo n body) (for_from lo n body).
Proof using.
  induction n as [|n IH]; intros lo Hb; [apply agrees_ret|]. cbn [for_from]. apply agrees_bind; [apply Hb|].
  intros _. by apply IH.
Qed.

Lemma agrees_equiv_r {A} (md m m' : M A) : m ≡ m' -> agrees md m -> agrees md m'.
Proof using. intros He Hm s sd Hs. rewrite <- (He s). by apply Hm. Qed.

(** A line: the real [DEBUG] against the checking one. *)
Lemma agrees_line d dc : line_checked d dc -> agrees d dc.
Proof using.
  intros (b & Hd & ->) s sd Hs. destruct b; cbn [outcome] in Hd; [by rewrite Hd|].
  destruct (Hd sd) as ([] & evs & Hr & He & _). eexists. split; [exact Hr|]. by rewrite same_but_serial_app.
Qed.

Lemma agrees_load8 a : agrees (load8 a) (load8 a).
Proof using. by apply agrees_gets. Qed.
Lemma agrees_load32 a : agrees (load32 a) (load32 a).
Proof using. by apply agrees_gets. Qed.
Lemma agrees_load64 a : agrees (load64 a) (load64 a).
Proof using. by apply agrees_gets. Qed.
Lemma agrees_store64 a v : agrees (store64 a v) (store64 a v).
Proof using. by apply agrees_modify. Qed.
Lemma agrees_log e : agrees (log e) (log e).
Proof using.
  intros s sd Hs. eexists. split; [reflexivity|].
  pose proof (same_but_serial_events _ _ Hs) as He. rewrite (same_but_serial_inv _ _ Hs).
  apply (same_but_serial_set (e :: trace sd) (set_trace (cons e) s)). simpl_state.
  unfold kernel_events in *. by rewrite !filter_cons, He.
Qed.

Lemma agrees_translate va : agrees (translate_va va) (translate_va va).
Proof using.
  intros s sd Hs. rewrite (same_but_serial_inv _ _ Hs). unfold translate_va. cbn [mem cr3 set_trace].
  destruct (page_walk _ _ _) as [[pa n]|]; [|done]. eexists. split; [reflexivity|].
  by apply same_but_serial_set, same_but_serial_events.
Qed.

Create HintDb debug.
#[local] Hint Resolve agrees_ret agrees_throw agrees_lift agrees_translate agrees_load8 agrees_load32
  agrees_load64 agrees_store64 agrees_log : debug.

(** The format and the arguments of a [DEBUG] fit together. *)
Ltac debug_line :=
  unfold DEBUG_boot, DEBUG_mmap, DEBUG_paging, debug; apply agrees_line, DEBUG_checked; [vm_compute; reflexivity..].

(** Follow the two codes side by side. *)
Ltac agree :=
  repeat first
    [ progress intros
    | solve [auto with debug]
    | match goal with
      | |- agrees (_ ≫= _) (_ ≫= _) => apply agrees_bind
      | |- agrees (if _ then _ else _) (if _ then _ else _) => apply agrees_if
      | |- agrees (gets _) (gets _) => apply agrees_gets
      | |- agrees (modify _) (modify _) => apply agrees_modify
      | |- agrees (for_from _ _ _) (for_from _ _ _) => apply agrees_for_from
      | |- agrees (DEBUG_boot _ _ _) _ => debug_line
      | |- agrees (DEBUG_mmap _ _ _ _) _ => debug_line
      | |- agrees (DEBUG_paging _ _ _ _) _ => debug_line
      end
    | reflexivity ].

Lemma agrees_vload64 a : agrees (vload64 a) (vload64 a).
Proof using. unfold vload64. agree. Qed.
Lemma agrees_vstore64 a v : agrees (vstore64 a v) (vstore64 a v).
Proof using. unfold vstore64, translate_store. agree. Qed.
#[local] Hint Resolve agrees_vload64 agrees_vstore64 : debug.

Lemma agrees_set_addr_mask e a : agrees (set_addr_mask e a) (set_addr_mask e a).
Proof using. unfold set_addr_mask. agree. Qed.
Lemma agrees_set_entry_bit e b : agrees (set_entry_bit e b) (set_entry_bit e b).
Proof using. unfold set_entry_bit. agree. Qed.
Lemma agrees_clear_entry_bit e b : agrees (clear_entry_bit e b) (clear_entry_bit e b).
Proof using. unfold clear_entry_bit. agree. Qed.
Lemma agrees_next_table_address t i : agrees (next_table_address t i) (next_table_address t i).
Proof using. unfold next_table_address. agree. Qed.
Lemma agrees_deallocate f : agrees (mmap_deallocate_frame f) (mmap_deallocate_frame f).
Proof using. unfold mmap_deallocate_frame. cbv zeta. agree. Qed.
Lemma agrees_set_next f : agrees (set_next_free_frame f) (set_next_free_frame f).
Proof using. unfold set_next_free_frame. agree. Qed.
#[local] Hint Resolve agrees_set_addr_mask agrees_set_entry_bit agrees_clear_entry_bit agrees_next_table_address
  agrees_deallocate agrees_set_next : debug.

Lemma agrees_entry_loop fuel : forall mode entry request cur,
  agrees (entry_loop fuel mode entry request cur) (entry_loop fuel mode entry request cur).
Proof using.
  induction fuel as [|fuel IH]; intros mode entry request cur; cbn [entry_loop]; [auto with debug|].
  do 2 (apply agrees_bind; [agree|intros ?]). apply agrees_if; [|auto with debug].
  do 3 (apply agrees_bind; [agree|intros ?]). cbv zeta. apply agrees_bind; [agree|].
  intros [v|request' cur']; [auto with debug|]. apply agrees_bind; [agree|]. intros size. apply IH.
Qed.
#[local] Hint Resolve agrees_entry_loop : debug.

(** ** Lemmas: the debug build does what the checking one does *)

Lemma mmap_init_agrees mmap reserved :
  agrees (mmap_init_debug (D := sending) mmap reserved) (mmap_init_debug (D := checking) mmap reserved).
Proof using T. unfold mmap_init_debug, mmap_init. agree. Qed.

Lemma mmap_read_agrees request mode :
  agrees (mmap_read_debug (D := sending) request mode) (mmap_read_debug (D := checking) request mode).
Proof using T. unfold mmap_read_debug. agree. Qed.
#[local] Hint Resolve mmap_read_agrees : debug.

Lemma mmap_allocate_frame_agrees fuel :
  agrees (mmap_allocate_frame_debug (D := sending) fuel) (mmap_allocate_frame_debug (D := checking) fuel).
Proof using T.
  induction fuel as [|fuel IH]; cbn [mmap_allocate_frame_debug]; [auto with debug|].
  do 5 (apply agrees_bind; [agree|intros ?]). apply agrees_if; [apply agrees_bind; [agree|by intros _]|]. agree.
Qed.
#[local] Hint Resolve mmap_allocate_frame_agrees : debug.

Lemma index_accepts i rest :
  index_ok i -> conv_accepts 76 (VWord i :: rest) = Some rest.
Proof using.
  unfold index_ok. intros Hi. unfold conv_accepts. cbn [Z.eqb Pos.eqb orb].
  rewrite u64_small, (Z.mod_small i) by lia. by rewrite !(proj2 (Z.ltb_lt _ _)) by lia.
Qed.

Lemma accepts_s s rest : conv_accepts 115 (VStr s :: rest) = Some rest.
Proof using. reflexivity. Qed.
Lemma accepts_d w rest : conv_accepts 100 (VWord w :: rest) = Some rest.
Proof using. reflexivity. Qed.
Lemma accepts_X w rest : conv_accepts 88 (VWord w :: rest) = Some rest.
Proof using. reflexivity. Qed.

(** The same for a format with an index, which [%L] can print. *)
Ltac debug_index :=
  unfold DEBUG_paging, debug; apply agrees_line, DEBUG_checked; [vm_compute; reflexivity|vm_compute; reflexivity|];
  known_format; cbn [accepts];
  repeat (first [rewrite accepts_s | rewrite accepts_d | rewrite accepts_X | rewrite index_accepts by assumption];
          cbn [accepts]);
  reflexivity.

Lemma next_table_create_agrees fuel table index : index_ok index ->
  agrees (next_table_create_debug (D := sending) fuel table index) (next_table_create_debug (D := checking) fuel table index).
Proof using T.
  intros Hi. unfold next_table_create_debug.
  apply agrees_bind; [agree|]. intros location. apply agrees_bind; [debug_index|]. intros _.
  apply agrees_bind; [|intros _; auto with debug]. apply agrees_if; [|auto with debug].
  do 2 (apply agrees_bind; [auto with debug|]; intros ?). apply agrees_bind; [debug_index|]. agree.
Qed.

Lemma map_page_to_frame_agrees fuel page frame flags :
  agrees (map_page_to_frame_debug (D := sending) fuel page frame flags)
    (map_page_to_frame_debug (D := checking) fuel page frame flags).
Proof using T.
  destruct (page_indices page) as (H4 & H3 & H2 & _). unfold map_page_to_frame_debug.
  do 3 (apply agrees_bind; [by apply next_table_create_agrees|]; intros ?; apply agrees_bind; [debug_line|]; intros _).
  agree.
Qed.

Lemma unmap_agrees page : agrees (unmap_debug (D := sending) page) (unmap_debug (D := checking) page).
Proof using T. unfold unmap_debug. agree. Qed.

Lemma load_string_agrees fuel : forall a, agrees (load_string fuel a) (load_string fuel a).
Proof using.
  induction fuel as [|fuel IH]; intros a; cbn [load_string]; [auto with debug|].
  apply agrees_bind; [auto with debug|]. intros c. apply agrees_if; [auto with debug|].
  apply agrees_bind; [apply IH|auto with debug].
Qed.
#[local] Hint Resolve load_string_agrees : debug.

Lemma mmap_entries_agrees fuel : forall tag mmap,
  agrees (mmap_entries_loop_debug (D := sending) fuel tag mmap) (mmap_entries_loop_debug (D := checking) fuel tag mmap).
Proof using T.
  induction fuel as [|fuel IH]; intros tag mmap; cbn [mmap_entries_loop_debug]; [auto with debug|].
  apply agrees_bind; [auto with debug|]. intros size. apply agrees_if; [|auto with debug].
  do 5 (apply agrees_bind; [agree|intros ?]). apply IH.
Qed.

Lemma elf_sections_agrees fuel : forall tag i elf r,
  agrees (elf_sections_loop_debug (D := sending) fuel tag i elf r)
    (elf_sections_loop_debug (D := checking) fuel tag i elf r).
Proof using T.
  induction fuel as [|fuel IH]; intros tag i elf r; cbn [elf_sections_loop_debug]; [auto with debug|].
  apply agrees_bind; [auto with debug|]. intros num. apply agrees_if; [|auto with debug].
  do 8 (apply agrees_bind; [agree|intros ?]). apply IH.
Qed.
#[local] Hint Resolve mmap_entries_agrees elf_sections_agrees : debug.

Lemma tag_switch_agrees fuel tag type r :
  agrees (tag_switch_debug (D := sending) fuel tag type r) (tag_switch_debug (D := checking) fuel tag type r).
Proof using T. unfold tag_switch_debug. agree. Qed.

Lemma tags_loop_agrees fuel : forall tag r,
  agrees (multiboot_tags_loop_debug (D := sending) fuel tag r) (multiboot_tags_loop_debug (D := checking) fuel tag r).
Proof using T.
  induction fuel as [|fuel IH]; intros tag r; cbn [multiboot_tags_loop_debug]; [auto with debug|].
  apply agrees_bind; [auto with debug|]. intros type. apply agrees_if; [auto with debug|].
  apply agrees_bind; [apply tag_switch_agrees|]. intros r'. apply agrees_bind; [unfold next_tag; agree|]. intros a. apply IH.
Qed.

Lemma read_info_agrees fuel mbi :
  agrees (read_multiboot_info_debug (D := sending) fuel mbi) (read_multiboot_info_debug (D := checking) fuel mbi).
Proof using T.
  unfold read_multiboot_info_debug. do 2 (apply agrees_bind; [agree|intros ?]).
  apply agrees_bind; [apply tags_loop_agrees|]. intros [tag r]. unfold next_tag. agree.
Qed.

End Agreement.

(** ** The numbers of a boot information *)

(** The memory sizes, slices and partitions that [%d] and [%u] print. *)
Definition numbers_tag (m : gmap Z Z) (a type : Z) : bool :=
  if type =? MULTIBOOT_TAG_TYPE_BASIC_MEMINFO then
    negb (unprintable (m32 m (a + 8))) && negb (unprintable (m32 m (a + 12)))
  else if type =? MULTIBOOT_TAG_TYPE_BOOTDEV then
    negb (unprintable (m32 m (a + 12))) && negb (unprintable (m32 m (a + 16)))
  else true.

(** None of them is [2^31]. *)
Fixpoint numbers_at (m : gmap Z Z) (a : Z) (ts : list tag_t) : bool :=
  match ts with
  | [] => true
  | t :: ts => numbers_tag m a (tag_type t) && numbers_at m (a + align8 (tag_size t)) ts
  end.

(** A NUL ends the string at [a] before [n] characters. *)
Definition terminated (m : gmap Z Z) (n : nat) (a : Z) : Prop :=
  exists k : nat, (k < n)%nat /\ mem_get m (a + Z.of_nat k) = 0 /\ 0 <= a /\ a + Z.of_nat k < 2 ^ 64.

Definition strings_ok (m : gmap Z Z) (n : nat) (a type : Z) : Prop :=
  (type = MULTIBOOT_TAG_TYPE_CMDLINE \/ type = MULTIBOOT_TAG_TYPE_BOOT_LOADER_NAME -> terminated m n (a + 8))
  /\ (type = MULTIBOOT_TAG_TYPE_MODULE -> terminated m n (a + 16)).

Fixpoint strings_at (m : gmap Z Z) (n : nat) (a : Z) (ts : list tag_t) : Prop :=
  match ts with
  | [] => True
  | t :: ts => strings_ok m n a (tag_type t) /\ strings_at m n (a + align8 (tag_size t)) ts
  end.

Section Checks.
Context {L : Lines}.

(** ** Lemmas: the checks of the allocator and the page tables *)

(** [mc] does exactly what [m] does, or meets the number [2^31]. *)
Definition only_overflows {A} (mc m : M A) : Prop := forall s, mc s = m s \/ mc s = Fault SignedOverflow.

Lemma only_refl {A} (m : M A) : only_overflows m m.
Proof using. intros s. by left. Qed.

Lemma only_bind {A B} (mc m : M A) (kc k : A -> M B) :
  only_overflows mc m -> (forall a, only_overflows (kc a) (k a)) -> only_overflows (mc ≫= kc) (m ≫= k).
Proof using.
  intros Hm Hk s. unfold mbind, M_bind. destruct (Hm s) as [->| ->]; [|by right].
  destruct (m s) as [a s'|s'|f]; [apply Hk|by left|by left].
Qed.

Lemma only_if {A} (b : bool) (mc mc' m m' : M A) :
  only_overflows mc m -> only_overflows mc' m' -> only_overflows (if b then mc else mc') (if b then m else m').
Proof using. by destruct b. Qed.

Lemma only_line {A} file line func format args (mc m : M A) :
  only_overflows mc m -> only_overflows (checking file line func format args ;; mc) m.
Proof using. intros Hm s. unfold checking. destruct (overflows _ _); [by right|apply Hm]. Qed.

Ltac follow_checks :=
  repeat first
    [ progress intros
    | apply only_refl
    | match goal with
      | H : _ |- _ => apply H
      | |- only_overflows (DEBUG_mmap _ _ _ _ ;; _) _ => apply only_line
      | |- only_overflows (DEBUG_paging _ _ _ _ ;; _) _ => apply only_line
      | |- only_overflows (_ ≫= _) (_ ≫= _) => apply only_bind
      | |- only_overflows (if _ then _ else _) (if _ then _ else _) => apply only_if
      end ].

Lemma mmap_read_checks request mode : only_overflows (mmap_read_debug (D := checking) request mode) (mmap_read request mode).
Proof using. unfold mmap_read_debug, mmap_read. follow_checks. Qed.

Lemma mmap_allocate_frame_checks fuel :
  only_overflows (mmap_allocate_frame_debug (D := checking) fuel) (mmap_allocate_frame fuel).
Proof using.
  pose proof mmap_read_checks. induction fuel as [|fuel IH]; [apply only_refl|].
  cbn [mmap_allocate_frame_debug mmap_allocate_frame]. cbv zeta. follow_checks.
  intros s. step. apply (only_line _ _ _ _ _ _ _ (only_refl _)).
Qed.

Lemma next_table_create_checks fuel table index :
  only_overflows (next_table_create_debug (D := checking) fuel table index) (next_table_create fuel table index).
Proof using.
  pose proof mmap_read_checks. pose proof mmap_allocate_frame_checks.
  unfold next_table_create_debug, next_table_create. follow_checks.
Qed.

Lemma map_page_to_frame_checks fuel page frame flags :
  only_overflows (map_page_to_frame_debug (D := checking) fuel page frame flags) (map_page_to_frame fuel page frame flags).
Proof using.
  pose proof next_table_create_checks. unfold map_page_to_frame_debug, map_page_to_frame. follow_checks.
Qed.

(** ** Lemmas: the checks of the boot information *)

Lemma unprintable_small w : 0 <= w < 2 ^ 31 -> unprintable w = false.
Proof using. intros Hw. apply Z.eqb_neq. rewrite u32_small; lia. Qed.

(** The value of a check whose format is known. *)
Ltac check_line :=
  unfold DEBUG_boot, DEBUG_mmap, DEBUG_paging, debug, checking; repeat known_format;
  cbn [overflows conv_overflows conv_accepts Z.eqb Pos.eqb orb andb];
  rewrite ?unprintable_small by first [lia | apply line_of_range; lia]; cbn [orb];
  rewrite ?ret_bind.

Lemma mmap_init_checks mmap reserved s :
  mmap_init_debug (D := checking) mmap reserved s = mmap_init mmap reserved s.
Proof using L.
  unfold mmap_init_debug, mmap_init. erewrite bind_ret; [|reflexivity]. step. simpl_state. by check_line.
Qed.

Lemma unmap_checks page s : unmap_debug (D := checking) page s = unmap page s.
Proof using L.
  revert s. unfold unmap_debug, unmap. do 4 (apply M_bind_proper; [intros ?|reflexivity]).
  intros s. destruct (negb _); [by check_line|reflexivity].
Qed.

Lemma mmap_entries_checks fuel : forall tag mmap s,
  mmap_entries_loop_debug (D := checking) fuel tag mmap s = mmap_entries_loop fuel tag mmap s.
Proof using L.
  induction fuel as [|fuel IH]; intros tag mmap s; cbn [mmap_entries_loop_debug mmap_entries_loop]; [done|].
  step. rewrite load32_bind. destruct (mmap <? _); [|done]. do 3 step. check_line. do 2 step. apply IH.
Qed.

Lemma bind_cong {A B} (m : M A) (k k' : A -> M B) s :
  (forall a s', m s = Ret a s' -> k a s' = k' a s') -> (m ≫= k) s = (m ≫= k') s.
Proof using. intros Hk. unfold mbind, M_bind. destruct (m s); [by apply Hk|done..]. Qed.

Lemma elf_sections_checks n : forall fuel tag i elf r s,
  m32 (mem s) (tag + 8) = i + Z.of_nat n -> 0 <= i -> i + Z.of_nat n < 2 ^ 31 ->
  elf_sections_loop_debug (D := checking) fuel tag i elf r s = elf_sections_loop fuel tag i elf r s.
Proof using L.
  induction n as [|n IH]; intros [|fuel] tag i elf r s Hn Hi Hb; cbn [elf_sections_loop_debug elf_sections_loop];
    try done; rewrite !load32_bind, Hn.
  - by rewrite (proj2 (Z.ltb_ge _ _)) by lia.
  - rewrite (proj2 (Z.ltb_lt _ _)) by lia. do 4 step. check_line. apply bind_cong. intros type s' Hl.
    injection Hl as <- <-. apply bind_cong. intros r' s' Hr.
    assert (s' = s) as ->.
    { destruct (_ =? MULTIBOOT_ELF_SECTION_TYPE_NULL); [by injection Hr|]. by injection Hr. }
    rewrite !load32_bind, u32_small by lia. apply IH; lia.
Qed.

Lemma load_string_run k : forall fuel a s,
  mem_get (mem s) (a + Z.of_nat k) = 0 -> 0 <= a -> a + Z.of_nat k < 2 ^ 64 -> (k < fuel)%nat ->
  exists str, load_string fuel a s = Ret str s.
Proof using.
  induction k as [|k IH]; intros [|fuel] a s Hz Ha Hb Hf; try lia; cbn [load_string].
  - step. rewrite Z.add_0_r in Hz. rewrite Hz. by exists [].
  - step. destruct (_ =? 0); [by exists []|].
    rewrite u64_small by lia. destruct (IH fuel (a + 1) s) as (str & Hs); try lia.
    + by replace (a + 1 + Z.of_nat k) with (a + Z.of_nat (S k)) by lia.
    + rewrite (bind_ret _ _ _ _ _ Hs). by eexists.
Qed.

(** One tag, whatever its type. *)
Lemma tag_switch_checks n fuel a type r s :
  strings_ok (mem s) n a type -> (n <= fuel)%nat ->
  (type = MULTIBOOT_TAG_TYPE_ELF_SECTIONS -> 0 <= m32 (mem s) (a + 8) < 2 ^ 31) ->
  tag_switch_debug (D := checking) fuel a type r s =
    if numbers_tag (mem s) a type then
      (if type =? MULTIBOOT_TAG_TYPE_MMAP then mmap_entries_loop fuel a (a + 16) ;; mret r
       else if type =? MULTIBOOT_TAG_TYPE_ELF_SECTIONS then elf_sections_loop fuel a 0 (a + 20) r
       else mret r) s
    else Fault SignedOverflow.
Proof using L.
  intros [Hs Hm] Hn Helf. unfold tag_switch_debug, numbers_tag.
  assert (Hstr : forall b, terminated (mem s) n b -> exists str, load_string fuel b s = Ret str s).
  { intros b (i & Hi & Hz & H0 & Hb). apply (load_string_run i); (done || lia). }
  destruct (Z.eqb_spec type MULTIBOOT_TAG_TYPE_CMDLINE) as [->|].
  { destruct (Hstr (a + 8)) as (str & Hr); [auto|]. rewrite (bind_ret _ _ _ _ _ Hr). by check_line. }
  destruct (Z.eqb_spec type MULTIBOOT_TAG_TYPE_BOOT_LOADER_NAME) as [->|].
  { destruct (Hstr (a + 8)) as (str & Hr); [auto|]. rewrite (bind_ret _ _ _ _ _ Hr). by check_line. }
  destruct (Z.eqb_spec type MULTIBOOT_TAG_TYPE_MODULE) as [->|].
  { destruct (Hstr (a + 16)) as (str & Hr); [auto|]. do 2 step. rewrite (bind_ret _ _ _ _ _ Hr). by check_line. }
  destruct (Z.eqb_spec type MULTIBOOT_TAG_TYPE_BASIC_MEMINFO) as [->|].
  { rewrite !load32_bind. check_line. by destruct (unprintable _), (unprintable _). }
  destruct (Z.eqb_spec type MULTIBOOT_TAG_TYPE_BOOTDEV) as [->|].
  { rewrite !load32_bind. check_line. by destruct (unprintable _), (unprintable _). }
  destruct (Z.eqb_spec type MULTIBOOT_TAG_TYPE_MMAP) as [->|].
  { unfold mbind, M_bind. by rewrite mmap_entries_checks. }
  assert (Hother : forall line text, 0 <= line < 2 ^ 31 ->
    (DEBUG_boot (D := checking) line (str "%s") [VStr text] ;; mret r) s = Ret r s) by (intros; by check_line).
  destruct (Z.eqb_spec type MULTIBOOT_TAG_TYPE_ELF_SECTIONS) as [->|].
  { apply (elf_sections_checks (Z.to_nat (m32 (mem s) (a + 8)))); [|lia|]; specialize (Helf eq_refl); lia. }
  repeat (match goal with |- (if ?b then _ else _) _ = _ => destruct b end; [apply Hother; lia|]).
  rewrite load32_bind. by check_line.
Qed.

Lemma checked_bind {A B} (b : bool) (mc m : M A) (kc k : A -> M B) s :
  mc s = (if b then m s else Fault SignedOverflow) -> (forall a s', m s = Ret a s' -> kc a s' = k a s') ->
  (mc ≫= kc) s = if b then (m ≫= k) s else Fault SignedOverflow.
Proof using.
  intros Hm Hk. unfold mbind, M_bind. rewrite Hm. destruct b; [|done]. destruct (m s); [by apply Hk|done..].
Qed.

Lemma tags_loop_checks ts n : forall fuel a r s,
  tags_at (mem s) a ts -> strings_at (mem s) n a ts -> (steps_of ts + n < fuel)%nat ->
  multiboot_tags_loop_debug (D := checking) fuel a r s =
    if numbers_at (mem s) a ts then multiboot_tags_loop fuel a r s else Fault SignedOverflow.
Proof using L.
  induction ts as [|t ts IH]; intros [|fuel] a r s [Ha Hts] Hstr Hf; cbn [steps_of numbers_at] in *; try lia;
    cbn [multiboot_tags_loop_debug multiboot_tags_loop]; rewrite !load32_bind.
  - destruct Hts as [Ht _]. by rewrite Ht.
  - destruct Hts as [Ht Hts], Hstr as [Hs1 Hstr]. pose proof Ht as (Hty & Hsz & Hbd & Hbody).
    rewrite Hty. rewrite (proj2 (Z.eqb_neq _ MULTIBOOT_TAG_TYPE_END)) by (by apply (tag_type_not_end (mem s) a)).
    assert (Helf : tag_type t = MULTIBOOT_TAG_TYPE_ELF_SECTIONS -> 0 <= m32 (mem s) (a + 8) < 2 ^ 31).
    { destruct t; cbn in *; try done; [|by intros ->; destruct Hbody as (_ & _ & [])].
      destruct Hbody as (H1 & -> & _). intros _. nia. }
    unfold mbind at 1, M_bind at 1. rewrite (tag_switch_checks n) by (done || lia).
    destruct (numbers_tag _ _ _); [cbn [andb]|done]. rewrite (tag_body_run t (S fuel) a r s Ht Ha ltac:(lia)).
    rewrite (bind_ret _ _ _ _ _ (tag_body_run t (S fuel) a r s Ht Ha ltac:(lia))).
    rewrite !(bind_ret _ _ _ _ _ (next_tag_run a _ s Hsz Ha ltac:(lia))). apply IH; (done || lia).
Qed.

Lemma read_info_checks n fuel mbi ts s :
  tags_at (mem s) (mbi + 8) ts -> strings_at (mem s) n (mbi + 8) ts -> (steps_of ts + n < fuel)%nat ->
  read_multiboot_info_debug (D := checking) fuel mbi s =
    if numbers_at (mem s) (mbi + 8) ts then read_multiboot_info fuel mbi s else Fault SignedOverflow.
Proof using L.
  intros Ht Hs Hf. unfold read_multiboot_info_debug, read_multiboot_info. rewrite load32_bind. check_line.
  apply checked_bind; [by apply (tags_loop_checks ts n)|]. intros [tag r] s1 _.
  apply bind_cong. intros tag' s' _. by check_line.
Qed.

(** ** Lemmas: allocation below 2 GiB prints no such number *)

Lemma mmap_read_printable request mode s :
  0 <= u32 request < 2 ^ 31 -> mmap_read_debug (D := checking) request mode s = mmap_read request mode s.
Proof using.
  intros Hr. unfold mmap_read_debug, mmap_read. destruct (Z.eqb_spec mode MMAP_GET_NUM) as [->|]; [by check_line|].
  destruct (Z.eqb_spec mode MMAP_GET_ADDR) as [->|]; [by check_line|done].
Qed.

Definition below_2gib (rs : list region_t) : Prop :=
  Forall (fun c : Z * bool => 0 <= c.1 < 2 ^ 31) (chunks rs) /\ Z.of_nat (length (chunks rs)) < 2 ^ 31 - 2.

Lemma first_free_below rs k : below_2gib rs -> 0 <= default 0 (first_free k (chunks rs)) < 2 ^ 31.
Proof using.
  intros [Hc _]. destruct (first_free k (chunks rs)) as [a|] eqn:Hf; [|cbn; lia].
  apply first_free_spec in Hf as (j & _ & Hj & _). rewrite Forall_lookup in Hc. exact (Hc _ _ Hj).
Qed.

Lemma chunk_number_below rs a : below_2gib rs -> 0 <= chunk_number a (chunks rs) < 2 ^ 31 - 1.
Proof using.
  intros [_ Hl]. unfold chunk_number. destruct (list_find _ _) as [[k c]|] eqn:Hf; [|lia].
  apply list_find_Some in Hf as (Hk & _). apply lookup_lt_Some in Hk. lia.
Qed.

Lemma mmap_allocate_frame_printable rs fuel : forall s,
  mmap_ok rs s -> below_2gib rs -> 0 <= next_free_frame (mm s) ->
  next_free_frame (mm s) + Z.of_nat fuel <= 2 ^ 31 ->
  mmap_allocate_frame_debug (D := checking) fuel s = mmap_allocate_frame fuel s.
Proof using.
  induction fuel as [|fuel IH]; intros s Hok Hb Hn Hf; [done|].
  cbn [mmap_allocate_frame_debug mmap_allocate_frame].
  rewrite !(bind_ret (gets _) _ s (next_free_frame (mm s)) s) by done. check_line.
  pose proof (first_free_below rs (Z.to_nat (next_free_frame (mm s))) Hb) as Ha.
  pose proof (mmap_read_addr rs s (next_free_frame (mm s)) Hok ltac:(lia)) as Hr.
  rewrite (bind_ret _ _ _ _ _ Hr). rewrite <- (mmap_read_printable (next_free_frame (mm s))) in Hr by (rewrite u32_small; lia).
  rewrite (bind_ret _ _ _ _ _ Hr). set (a := default 0 _) in *. check_line. rewrite !(bind_ret (gets mm) _ s (mm s) s) by done.
  destruct (_ || _).
  - apply bind_cong. intros [] s' [= <-]. apply IH; simpl_state; try done; rewrite u32_small; lia.
  - pose proof (mmap_read_num rs s a Hok) as Hc. rewrite (bind_ret _ _ _ _ _ Hc).
    rewrite <- (mmap_read_printable a) in Hc by (rewrite u32_small; lia). rewrite (bind_ret _ _ _ _ _ Hc).
    pose proof (chunk_number_below rs (u32 a) Hb). cbv zeta. rewrite !(u32_small (chunk_number _ _)) by lia.
    apply bind_cong. intros [] s' [= <-]. step. simpl_state. check_line. by rewrite (u32_small (_ + 1)), unprintable_small by lia.
Qed.

End Checks.

(** ** Properties *)

(** C19: the debug build reads the same boot information.  Over any well-formed
    tag list whose strings end within [n] characters, tags of every type
    included, and with a transmitter that always becomes ready,
    [read_multiboot_info] with its [DEBUG] lines returns the areas it returns
    without them and does nothing but access the line status and the data of the
    serial port, exactly when no memory size, slice or partition number of the
    tags is [2^31]; at such a number it stops, because [itoa] cannot negate it.
    Fuel above the tags, entries, sections and characters is enough. *)
Theorem read_multiboot_info_debug_agrees {E : Env} {L : Lines} {T : TxReady E} n fuel mbi ts s :
  0 <= mbi -> tags_at (mem s) (mbi + 8) ts -> strings_at (mem s) n (mbi + 8) ts ->
  (steps_of ts + n < fuel)%nat ->
  exists r, read_multiboot_info fuel mbi s = Ret r s
    /\ if numbers_at (mem s) (mbi + 8) ts
       then exists s', read_multiboot_info_debug (D := sending) fuel mbi s = Ret r s' /\ same_but_serial s' s
       else read_multiboot_info_debug (D := sending) fuel mbi s = Fault SignedOverflow.
Proof.
  intros Hm Ht Hs Hf. pose proof (read_info_run fuel mbi ts s Hm Ht ltac:(lia)) as Hr. cbv zeta in Hr.
  eexists. split; [exact Hr|]. pose proof (read_info_agrees fuel mbi s s eq_refl) as Ha.
  rewrite (read_info_checks n fuel mbi ts s Ht Hs Hf) in Ha.
  destruct (numbers_at _ _ _); [by rewrite Hr in Ha|exact Ha].
Qed.

(** C18: the debug build allocates and maps the same memory.  With a transmitter
    that always becomes ready, the [DEBUG] lines of [mmap_init] and [unmap] change
    nothing: from every state they come to the same result, halt or fault, the
    same memory and variables, and the same accesses to every port but the serial
    line's.  The allocator and the mapping of a page, the lines of the functions
    they call included, do the same as with lines that only check whether a number printed with
    [%d] is [2^31]: what they do without lines, or the overflow at such a number.
    Below 2 GiB of memory the allocator meets none. *)
Theorem memory_debug_agrees {E : Env} {L : Lines} {T : TxReady E} :
  (forall mmap reserved, agrees (mmap_init_debug (D := sending) mmap reserved) (mmap_init mmap reserved))
  /\ (forall page, agrees (unmap_debug (D := sending) page) (unmap page))
  /\ (forall fuel,
        agrees (mmap_allocate_frame_debug (D := sending) fuel) (mmap_allocate_frame_debug (D := checking) fuel)
        /\ only_overflows (mmap_allocate_frame_debug (D := checking) fuel) (mmap_allocate_frame fuel)
        /\ forall rs s, mmap_ok rs s -> below_2gib rs -> 0 <= next_free_frame (mm s) ->
             next_free_frame (mm s) + Z.of_nat fuel <= 2 ^ 31 ->
             mmap_allocate_frame_debug (D := checking) fuel s = mmap_allocate_frame fuel s)
  /\ (forall fuel page frame flags,
        agrees (map_page_to_frame_debug (D := sending) fuel page frame flags)
          (map_page_to_frame_debug (D := checking) fuel page frame flags)
        /\ only_overflows (map_page_to_frame_debug (D := checking) fuel page frame flags)
             (map_page_to_frame fuel page frame flags)).
Proof.
  split; [|split; [|split; [|split]]].
  - intros mmap reserved. apply (agrees_equiv_r _ _ _ (mmap_init_checks mmap reserved)), mmap_init_agrees.
  - intros page. apply (agrees_equiv_r _ _ _ (unmap_checks page)), unmap_agrees.
  - intros fuel. split; [apply mmap_allocate_frame_agrees|]. split; [apply mmap_allocate_frame_checks|].
    intros rs s. apply mmap_allocate_frame_printable.
  - apply map_page_to_frame_agrees.
  - apply map_page_to_frame_checks.
Qed.

(** The lines as they are, for the instances. *)
#[local] Program Instance test_lines : Lines := {| line_of := fun n => n |}.
Next Obligation. lia. Qed.

Lemma test_strings_at : strings_at (mem test_mbi) 16 0x90008 test_tags.
Proof.
  split; [split|]; [intros _|intros [=]|].
  - exists 5%nat. split; [lia|]. split; [vm_compute; reflexivity|]. lia.
  - repeat split; intros H; try discriminate H; destruct H as [H|H]; discriminate H.
Qed.

Lemma read_multiboot_info_debug_agrees_witness :
  exists r s', @read_multiboot_info_debug sending test_lines 40 0x90000 test_mbi = Ret r s'
    /\ same_but_serial s' test_mbi /\ read_multiboot_info 40 0x90000 test_mbi = Ret r test_mbi.
Proof.
  destruct (@read_multiboot_info_debug_agrees ready_env test_lines ready_env_tx 16 40 0x90000 test_tags test_mbi)
    as (r & Hr & Hd).
  - lia.
  - exact test_tags_at.
  - exact test_strings_at.
  - cbn. lia.
  - assert (Hn : numbers_at (mem test_mbi) (0x90000 + 8) test_tags = true) by (vm_compute; reflexivity).
    rewrite Hn in Hd. destruct Hd as (s' & Hd & Hs). exists r, s'. split; [exact Hd|]. split; [exact Hs|exact Hr].
Defined.

Lemma memory_debug_agrees_witness :
  exists s', @mmap_allocate_frame_debug (@sending ready_env) 20 (pc_state 174) = Ret 187 s'
    /\ same_but_serial s' (with_next 188 (pc_state 174)).
Proof.
  destruct (@memory_debug_agrees ready_env test_lines ready_env_tx) as (_ & _ & Ha & _).
  destruct (Ha 20%nat) as (Hd & _ & Hc).
  assert (Hm : mmap_allocate_frame 20 (pc_state 174) = Ret 187 (with_next 188 (pc_state 174)))
    by (vm_compute; reflexivity).
  assert (Hb : below_2gib pc_regions).
  { split; [|vm_compute; reflexivity]. apply Forall_forall. intros c Hin.
    assert (Hb : forallb (fun c : Z * bool => (0 <=? c.1) && (c.1 <? 2 ^ 31)) (chunks pc_regions) = true)
      by (vm_compute; reflexivity).
    rewrite forallb_forall in Hb. specialize (Hb c (proj1 (list_elem_of_In _ _) Hin)). bools. lia. }
  specialize (Hd (pc_state 174) (pc_state 174) eq_refl).
  rewrite (Hc pc_regions (pc_state 174) (pc_mmap_ok 174) Hb), Hm in Hd; [exact Hd|..]; vm_compute; discriminate.
Defined.
