(* ===== verification/PageEntry.v ===== *)
(** * The fields of a page table entry: src/include/mmu/paging.h

    [page_entry_t] is a union of the packed 64-bit word and its bit-fields.
    [unpack] and [pack] are the two readings, by the rule of the x86-64 ABI: the
    fields follow one another from bit 0 up.  The operations of Paging.v work
    on the packed word; here they are shown to be assignments to the fields the
    C code names. *)

From stdpp Require Import base numbers list gmap.
From S2P Require Import Prelude Machine Boot PageWalk Mmap Paging.

Record page_entry_t := PageEntry {
  pe_present : Z;
  pe_writable : Z;
  pe_user_accessable : Z;
  pe_write_thru_cache : Z;
  pe_disable_cache : Z;
  pe_accessed : Z;
  pe_dirty : Z;
  pe_huge_page : Z;
  pe_global : Z;
  pe_OS_1 : Z;
  pe_OS_2 : Z;
  pe_OS_3 : Z;
  pe_addr_mask : Z;
  pe_OS_4 : Z;
  pe_OS_5 : Z;
  pe_OS_6 : Z;
  pe_OS_7 : Z;
  pe_OS_8 : Z;
  pe_OS_9 : Z;
  pe_OS_A : Z;
  pe_OS_B : Z;
  pe_OS_C : Z;
  pe_OS_D : Z;
  pe_OS_E : Z;
  pe_no_execute : Z
}.

(** ** Bit-fields *)

(** Consecutive fields of the given widths, the first in the lowest bits. *)
Fixpoint pack_fields (ws vs : list Z) : Z :=
  match ws, vs with
  | w :: ws, v :: vs => v + 2 ^ w * pack_fields ws vs
  | _, _ => 0
  end.

Fixpoint unpack_fields (ws : list Z) (word : Z) : list Z :=
  match ws with
  | [] => []
  | w :: ws => word `mod` 2 ^ w :: unpack_fields ws (word / 2 ^ w)
  end.

Definition total (ws : list Z) : Z := foldr Z.add 0 ws.

(** Every value fits its field. *)
Definition fields_ok (ws vs : list Z) : Prop := Forall2 (fun w v => 0 <= v < 2 ^ w) ws vs.

(** The declared widths. *)
Definition entry_widths : list Z := replicate 12 1 ++ [40] ++ replicate 12 1.

Definition entry_fields (e : page_entry_t) : list Z :=
  [pe_present e; pe_writable e; pe_user_accessable e; pe_write_thru_cache e; pe_disable_cache e;
   pe_accessed e; pe_dirty e; pe_huge_page e; pe_global e; pe_OS_1 e; pe_OS_2 e; pe_OS_3 e;
   pe_addr_mask e; pe_OS_4 e; pe_OS_5 e; pe_OS_6 e; pe_OS_7 e; pe_OS_8 e; pe_OS_9 e; pe_OS_A e;
   pe_OS_B e; pe_OS_C e; pe_OS_D e; pe_OS_E e; pe_no_execute e].

Definition entry_of_fields (vs : list Z) : page_entry_t :=
  let f i := nth i vs 0 in
  PageEntry (f 0%nat) (f 1%nat) (f 2%nat) (f 3%nat) (f 4%nat) (f 5%nat) (f 6%nat) (f 7%nat) (f 8%nat)
    (f 9%nat) (f 10%nat) (f 11%nat) (f 12%nat) (f 13%nat) (f 14%nat) (f 15%nat) (f 16%nat) (f 17%nat)
    (f 18%nat) (f 19%nat) (f 20%nat) (f 21%nat) (f 22%nat) (f 23%nat) (f 24%nat).

Definition pack (e : page_entry_t) : Z := pack_fields entry_widths (entry_fields e).
Definition unpack (word : Z) : page_entry_t := entry_of_fields (unpack_fields entry_widths word).
Definition entry_ok (e : page_entry_t) : Prop := fields_ok entry_widths (entry_fields e).

(** Assignment to the field of the given index. *)
Definition set_field (i : nat) (v : Z) (e : page_entry_t) : page_entry_t :=
  entry_of_fields (<[i := v]> (entry_fields e)).
Definition with_present (v : Z) : page_entry_t -> page_entry_t := set_field 0 v.
Definition with_writable (v : Z) : page_entry_t -> page_entry_t := set_field 1 v.
Definition with_addr_mask (v : Z) : page_entry_t -> page_entry_t := set_field 12 v.

(** ** Lemmas: fields *)

Lemma pow2_pos w : 0 <= w -> 0 < 2 ^ w.
Proof. intros. by apply Z.pow_pos_nonneg. Qed.

Lemma total_nonneg ws : Forall (Z.le 0) ws -> 0 <= total ws.
Proof. unfold total. induction 1; simpl; lia. Qed.

Lemma length_unpack ws : forall word, length (unpack_fields ws word) = length ws.
Proof. induction ws as [|w ws IH]; intros; simpl; auto. Qed.

Lemma unpack_ok ws : Forall (Z.le 0) ws -> forall word, fields_ok ws (unpack_fields ws word).
Proof.
  induction 1 as [|w ws Hw _ IH]; intros word; simpl; constructor; [|apply IH].
  apply Z.mod_pos_bound. by apply pow2_pos.
Qed.

Lemma pack_unpack_fields ws :
  Forall (Z.le 0) ws -> forall word, pack_fields ws (unpack_fields ws word) = word `mod` 2 ^ total ws.
Proof.
  induction 1 as [|w ws Hw Hws IH]; intros word; cbn [pack_fields unpack_fields total foldr].
  - by rewrite Z.mod_1_r.
  - pose proof (total_nonneg ws Hws) as Ht. pose proof (pow2_pos w Hw). pose proof (pow2_pos _ Ht).
    rewrite IH. fold (total ws). rewrite Z.pow_add_r by done. rewrite Z.rem_mul_r by lia. done.
Qed.

Lemma unpack_pack_fields ws vs :
  Forall (Z.le 0) ws -> fields_ok ws vs -> unpack_fields ws (pack_fields ws vs) = vs.
Proof.
  intros Hws Hf. revert Hws. induction Hf as [|w v ws vs Hv _ IH]; intros Hws; [done|].
  apply Forall_cons in Hws as [Hw Hws]. cbn [pack_fields unpack_fields]. pose proof (pow2_pos w Hw).
  rewrite (Z.mul_comm (2 ^ w)), Z.mod_add, Z.div_add, Z.mod_small, Z.div_small, Z.add_0_l by lia.
  by rewrite IH.
Qed.

Lemma pack_range ws vs : Forall (Z.le 0) ws -> fields_ok ws vs -> 0 <= pack_fields ws vs < 2 ^ total ws.
Proof.
  intros Hws Hf. revert Hws. induction Hf as [|w v ws vs Hv _ IH]; intros Hws; [cbn; lia|].
  apply Forall_cons in Hws as [Hw Hws]. cbn [pack_fields total foldr]. fold (total ws).
  pose proof (total_nonneg ws Hws) as Ht.
  specialize (IH Hws). rewrite Z.pow_add_r by done. pose proof (pow2_pos w Hw). nia.
Qed.

(** Bit [i] of a low and a high part put together. *)
Lemma testbit_cat p a b i :
  0 <= p -> 0 <= a < 2 ^ p -> 0 <= i ->
  Z.testbit (a + 2 ^ p * b) i = if i <? p then Z.testbit a i else Z.testbit b (i - p).
Proof.
  intros Hp Ha Hi. pose proof (pow2_pos p Hp). destruct (Z.ltb_spec i p).
  - rewrite <- (Z.mod_pow2_bits_low (a + 2 ^ p * b) p) by lia.
    by rewrite (Z.mul_comm (2 ^ p)), Z.mod_add, Z.mod_small by lia.
  - replace i with (i - p + p) at 1 by lia. rewrite <- Z.div_pow2_bits by lia.
    by rewrite (Z.mul_comm (2 ^ p)), Z.div_add, Z.div_small by lia.
Qed.

(** Clear a field in place, then or a value into it. *)
Definition assign (word p w v : Z) : Z := Z.lor (Z.ldiff word (Z.shiftl (Z.ones w) p)) (Z.shiftl v p).

Lemma testbit_assign word p w v i :
  0 <= p -> 0 <= w -> 0 <= v < 2 ^ w -> 0 <= i ->
  Z.testbit (assign word p w v) i =
    if (p <=? i) && (i <? p + w) then Z.testbit v (i - p) else Z.testbit word i.
Proof.
  intros Hp Hw Hv Hi. unfold assign. rewrite Z.lor_spec, Z.ldiff_spec, !Z.shiftl_spec by done.
  destruct (Z.leb_spec p i); cbn [andb].
  - rewrite Z.testbit_ones_nonneg by lia. destruct (Z.ltb_spec i (p + w)).
    + rewrite (proj2 (Z.ltb_lt _ _)) by lia. cbn [negb]. by rewrite andb_false_r.
    + rewrite (proj2 (Z.ltb_ge _ _)) by lia. cbn [negb]. rewrite andb_true_r.
      rewrite <- (Z.mod_small v (2 ^ w)), Z.mod_pow2_bits_high, orb_false_r by lia. done.
  - rewrite !(Z.testbit_neg_r _ (i - p)) by lia. cbn. by rewrite andb_true_r, orb_false_r.
Qed.

Lemma pack_assign ws1 w ws2 vs1 v0 vs2 v :
  Forall (Z.le 0) ws1 -> 0 <= w -> fields_ok ws1 vs1 -> 0 <= v0 < 2 ^ w -> 0 <= v < 2 ^ w ->
  pack_fields (ws1 ++ w :: ws2) (vs1 ++ v :: vs2) =
    assign (pack_fields (ws1 ++ w :: ws2) (vs1 ++ v0 :: vs2)) (total ws1) w v.
Proof.
  intros H1 Hw Hf H0 Hv.
  assert (Happ : forall x, pack_fields (ws1 ++ w :: ws2) (vs1 ++ x :: vs2) =
    pack_fields ws1 vs1 + 2 ^ total ws1 * (x + 2 ^ w * pack_fields ws2 vs2)).
  { intros x. clear H0 Hv. revert H1. induction Hf as [|k u ws vs Hu _ IH]; intros H1; [cbn; lia|].
    apply Forall_cons in H1 as [Hk H1]. cbn [app pack_fields total foldr]. rewrite (IH H1). fold (total ws).
    pose proof (total_nonneg ws H1) as Ht.
    rewrite Z.pow_add_r by done. ring. }
  pose proof (total_nonneg ws1 H1) as Ht.
  pose proof (pack_range ws1 vs1 H1 Hf) as Hr. rewrite !Happ.
  apply Z.bits_inj'. intros i Hi. rewrite testbit_assign, !(testbit_cat (total ws1)) by done.
  destruct (Z.ltb_spec i (total ws1)); [by rewrite (proj2 (Z.leb_gt _ _)) by lia|].
  rewrite !testbit_cat by lia. rewrite (proj2 (Z.leb_le _ _)) by lia. cbn [andb].
  destruct (Z.ltb_spec (i - total ws1) w); [by rewrite (proj2 (Z.ltb_lt _ _)) by lia|].
  by rewrite (proj2 (Z.ltb_ge _ _)) by lia.
Qed.

(** ** Lemmas: the record *)

Lemma entry_widths_ok : Forall (Z.le 0) entry_widths.
Proof. repeat constructor; lia. Qed.

Lemma fields_of_fields vs : length vs = 25%nat -> entry_fields (entry_of_fields vs) = vs.
Proof. intros H. do 26 (destruct vs as [|? vs]; try discriminate H). reflexivity. Qed.

Lemma fields_unpack word : entry_fields (unpack word) = unpack_fields entry_widths word.
Proof. apply fields_of_fields. by rewrite length_unpack. Qed.

Lemma pack_set_field (i : nat) v e w :
  entry_ok e -> entry_widths !! i = Some w -> 0 <= v < 2 ^ w ->
  pack (set_field i v e) = assign (pack e) (total (take i entry_widths)) w v.
Proof.
  intros He Hw Hv. unfold entry_ok, fields_ok in He. pose proof (Forall2_length _ _ _ He) as Hl.
  pose proof entry_widths_ok as Hok. destruct (Forall2_lookup_l _ _ _ i w He Hw) as (v0 & Hv0 & Hr).
  pose proof (Forall_lookup_1 _ _ _ _ Hok Hw) as Hw0. simpl in Hw0.
  unfold pack, set_field. rewrite fields_of_fields by (rewrite length_insert; by rewrite <- Hl).
  rewrite insert_take_drop by (by apply lookup_lt_Some in Hv0).
  rewrite <- (take_drop_middle entry_widths i w Hw) at 1.
  rewrite (pack_assign _ _ _ _ v0); [|by apply Forall_take|done|by apply Forall2_take|done|done].
  by rewrite (take_drop_middle entry_widths i w Hw), (take_drop_middle (entry_fields e) i v0 Hv0).
Qed.

Lemma unpack_entry_ok word : entry_ok (unpack word).
Proof. unfold entry_ok. rewrite fields_unpack. apply unpack_ok, entry_widths_ok. Qed.

Lemma pack_unpack word : 0 <= word < 2 ^ 64 -> pack (unpack word) = word.
Proof.
  intros H. unfold pack. rewrite fields_unpack, pack_unpack_fields by apply entry_widths_ok.
  apply Z.mod_small. exact H.
Qed.

Lemma unpack_pack e : entry_ok e -> unpack (pack e) = e.
Proof.
  intros H. unfold unpack, pack. rewrite unpack_pack_fields; [by destruct e|apply entry_widths_ok|done].
Qed.

(** The assignments as the code computes them. *)
Lemma assign_one word p : 0 <= p -> assign word p 1 1 = Z.lor word (Z.shiftl 1 p).
Proof.
  intros Hp. unfold assign. change (Z.ones 1) with 1. apply Z.bits_inj'. intros i Hi.
  rewrite !Z.lor_spec, Z.ldiff_spec. by destruct (Z.testbit word i), (Z.testbit (Z.shiftl 1 p) i).
Qed.

Lemma assign_zero word p : assign word p 1 0 = Z.ldiff word (Z.shiftl 1 p).
Proof. unfold assign. by rewrite Z.shiftl_0_l, Z.lor_0_r. Qed.

Lemma assign_addr word addr :
  0 <= word < 2 ^ 64 -> 0 <= addr < 2 ^ 40 ->
  assign word 12 40 addr = Z.lor (Z.land word 0xfff0000000000fff) (u64 (addr * PAGE_SIZE)).
Proof.
  intros Hw Ha. unfold assign, PAGE_SIZE. rewrite (u64_small (addr * 4096)) by lia.
  rewrite (Z.shiftl_mul_pow2 addr) by lia. change (2 ^ 12) with 4096. f_equal.
  apply Z.bits_inj'. intros i Hi. rewrite Z.ldiff_spec, Z.land_spec.
  destruct (Z.ltb_spec i 64) as [Hlt|Hge].
  - f_equal. assert (Hc : forallb (fun i => Bool.eqb (negb (Z.testbit (Z.shiftl (Z.ones 40) 12) i))
      (Z.testbit 0xfff0000000000fff i)) (seqZ 0 64) = true) by (vm_compute; reflexivity).
    apply forallb_forall with (x := i) in Hc; [by apply Bool.eqb_prop|].
    apply list_elem_of_In, elem_of_seqZ. lia.
  - rewrite <- (Z.mod_small word (2 ^ 64)), Z.mod_pow2_bits_high by lia. done.
Qed.

Lemma field_bit word p : 0 <= p -> (word / 2 ^ p) `mod` 2 ^ 1 = Z.b2z (Z.testbit word p).
Proof. intros Hp. by rewrite Z.testbit_spec'. Qed.

(** ** Properties *)

(** The bit-fields of [page_entry_t] are a faithful reading of the 64-bit
    word, in both directions, and [present], [huge_page] and [_addr_mask] are
    where the processor looks for them. *)
Theorem page_entry_roundtrip :
  (forall word, 0 <= word < 2 ^ 64 -> entry_ok (unpack word) /\ pack (unpack word) = word)
  /\ (forall e, entry_ok e -> unpack (pack e) = e)
  /\ (forall word, entry_present word = (pe_present (unpack word) =? 1)
       /\ entry_huge word = (pe_huge_page (unpack word) =? 1)
       /\ entry_addr word = pe_addr_mask (unpack word) * PAGE_SIZE).
Proof.
  split; [|split].
  - intros word Hw. split; [apply unpack_entry_ok|by apply pack_unpack].
  - apply unpack_pack.
  - intros word. unfold unpack, entry_widths, replicate, app, unpack_fields, entry_of_fields.
    cbn [nth pe_present pe_huge_page pe_addr_mask]. rewrite !Z.div_div by lia.
    split; [|split].
    + pose proof (field_bit word 0) as H. rewrite Z.div_1_r in H. rewrite H by lia.
      unfold entry_present. by destruct (Z.testbit word 0).
    + pose proof (field_bit word 7) as H. change (2 ^ 1 * (2 ^ 1 * (2 ^ 1 * (2 ^ 1 * (2 ^ 1 * (2 ^ 1 * 2 ^ 1)))))) with (2 ^ 7).
      change (2 ^ 1 * 2 ^ 1 * 2 ^ 1 * 2 ^ 1 * 2 ^ 1 * 2 ^ 1 * 2 ^ 1) with (2 ^ 7).
      rewrite H by lia. unfold entry_huge. by destruct (Z.testbit word 7).
    + rewrite entry_addr_field. reflexivity.
Qed.

(** C29: on the entry of a page, [set_entry_bit], [clear_entry_bit] and
    [set_addr_mask] are the assignments [present = 1], [writable = 1],
    [present = 0] and, for [addr] below [2^40], [_addr_mask = addr], and leave every
    other field alone.
    So [set_addr_mask] takes a frame's number, not its address. *)
Theorem entry_assignments page addr s :
  page_tables page s -> 0 <= page_entry page s < 2 ^ 64 -> 0 <= addr < 2 ^ 40 ->
  let e := unpack (page_entry page s) in
  let to e := Ret tt (with_entry page (pack e) s) in
  set_entry_bit (entry_va page) 0 s = to (with_present 1 e)
  /\ set_entry_bit (entry_va page) 1 s = to (with_writable 1 e)
  /\ clear_entry_bit (entry_va page) 0 s = to (with_present 0 e)
  /\ set_addr_mask (entry_va page) addr s = to (with_addr_mask addr e).
Proof.
  intros T Hw Ha e to. unfold to, e, with_present, with_writable, with_addr_mask.
  pose proof (unpack_entry_ok (page_entry page s)) as Hok.
  rewrite !(pack_set_field _ _ _ 1), (pack_set_field 12 _ _ 40), pack_unpack by (done || lia).
  change (total (take 0 entry_widths)) with 0. change (total (take 1 entry_widths)) with 1.
  change (total (take 12 entry_widths)) with 12.
  rewrite !assign_one, assign_zero, assign_addr by (done || lia). rewrite !set_entry_bit_run by done.
  split; [done|]. split; [done|]. split; [by rewrite clear_present_run|].
  unfold set_addr_mask. cbn zeta.
  rewrite (bind_ret _ _ _ _ _ (load_entry page s T)), (bind_ret _ _ _ _ _ (store_entry page _ s T)).
  pose proof (with_entry_tables page (Z.land (page_entry page s) 0xfff0000000000fff) s T) as T'.
  rewrite (bind_ret _ _ _ _ _ (load_entry page _ T')), (store_entry page _ _ T'), with_entry_again by done.
  rewrite page_entry_with, u64_small; [done| |done].
  replace (Z.land _ _) with (Z.land (page_entry page s) 0xfff0000000000fff `mod` 2 ^ 64);
    [by apply Z.mod_pos_bound|].
  by rewrite <- Z.land_ones, <- Z.land_assoc by lia.
Qed.

Lemma entry_assignments_witness :
  page_entry 5 paging_state = 0x9003
  /\ set_addr_mask (entry_va 5) 7 paging_state = Ret tt (with_entry 5 0x7003 paging_state).
Proof.
  split; [vm_compute; reflexivity|].
  destruct (entry_assignments 5 7 paging_state paging_state_tables) as (_ & _ & _ & H).
  - vm_compute. split; [discriminate|reflexivity].
  - lia.
  - rewrite H. f_equal. 
Defined.
