(* ===== verification/Start.v ===== *)
(** * The way into long mode: asm/boot.asm

    The loader jumps to [start] in 32-bit protected mode.  [start] checks that
    the loader was a multiboot2 one and that the processor has long mode, builds
    the first page tables and turns paging on.  The operations here are its
    subroutines: each returns, or stops at the [hlt] of [error].  The rest of
    the library assumes what they set up: the first gigabyte mapped to itself,
    and the recursive entry 511.

    The control registers, which no other code touches, are an argument.  The
    processor's answers ([cpuid], what [popfd] leaves) and where the linker puts
    the tables are parameters. *)

From stdpp Require Import base numbers list gmap strings.
From S2P Require Import Prelude Machine Boot PageWalk Mmap Paging.

(** ** Parameters *)

(** The processor: EFLAGS on entry and after writing a value to it, and EAX and
    EDX of CPUID. *)
Class Processor := {
  flags0 : Z;
  write_flags : Z -> Z -> Z;         (* the flags before, the value popped *)
  cpuid_eax : Z -> Z;
  cpuid_edx : Z -> Z
}.

(** Where section .bss is; it is aligned to 4096. *)
Class Image := {
  p4_table : Z;
  return_to : Z -> Z;                (* the return address of the n-th call *)
  p4_aligned : p4_table `mod` 4096 = 0;
  image_low : 0 < p4_table < 2 ^ 30 - 7 * 4096
}.

Section Start.
Context {P : Processor} {I : Image}.

Definition p3_table : Z := p4_table + 4096.
Definition p2_table : Z := p4_table + 2 * 4096.
Definition stack_bottom : Z := p4_table + 3 * 4096.
Definition stack_top : Z := stack_bottom + 4096 * 4.

(** The registers of [enable_paging] but for cr3, which is part of [kstate]. *)
Record control := Control { cr0 : Z; cr4 : Z; efer : Z }.

Definition store32 (a v : Z) : M unit :=
  modify (set_mem (fun m => write_bytes m a (le_bytes 4 v))).
Definition set_cr3 (v : Z) : M unit := modify (fun s =>
  K (mem s) (trace s) (iflag s) v (scr s) (idt s) (idt_reg s) (interrupt_handlers s) (tick s) (mm s)).
Definition hlt {A} : M A := fun s => Halted s.

(** ** The code *)

Definition error {A} (al : Z) : M A :=
  store32 0xb8000 0x4f524f45 ;;
  store32 0xb8004 0x4f3a4f52 ;;
  store32 0xb8008 0x4f204f20 ;;
  store8 0xb800a al ;;
  hlt.

Definition check_multiboot (eax : Z) : M unit :=
  if eax =? MULTIBOOT2_MAGIC_VALUE then mret tt else error 48.

(** The stack holds the return address, so the flags go below it; the same
    four bytes are used each time. *)
Definition check_cpuid : M unit :=
  let slot := stack_top - 8 in
  let ecx := flags0 in
  let eax := Z.lxor ecx (Z.shiftl 1 21) in
  store32 slot ecx ;;
  store32 slot eax ;;
  let eax := write_flags flags0 eax in
  store32 slot eax ;;
  store32 slot ecx ;;
  if u32 eax =? u32 ecx then error 49 else mret tt.

Definition check_long_mode : M unit :=
  if u32 (cpuid_eax 0x80000000) <? 0x80000001 then error 50
  else if Z.land (cpuid_edx 0x80000001) (Z.shiftl 1 29) =? 0 then error 50
  else mret tt.

Definition map_p2_entry (ecx : Z) : M unit :=
  let eax := u32 (0x200000 * ecx) in
  store32 (p2_table + ecx * 8) (Z.lor eax 131).

(** The loop counts ECX from 0 until it is 512. *)
Definition set_up_page_tables : M unit :=
  store32 (p4_table + 511 * 8) (Z.lor p4_table 3) ;;
  store32 (p4_table + 0) (Z.lor p3_table 3) ;;
  store32 (p3_table + 0) (Z.lor p2_table 3) ;;
  for_from 0 512 map_p2_entry.

(** EAX is the low half of each register. *)
Definition enable_paging (c : control) : M control :=
  set_cr3 p4_table ;;
  let cr4 := Z.lor (cr4 c) (Z.shiftl 1 5) in
  let efer := Z.lor (efer c) (Z.shiftl 1 8) in
  let cr0 := Z.lor (Z.lor (cr0 c) (Z.shiftl 1 31)) (Z.shiftl 1 16) in
  mret (Control cr0 cr4 efer).

(** [call]: the return address goes on the empty stack. *)
Definition call {A} (n : Z) (f : M A) : M A := store32 (stack_top - 4) (return_to n) ;; f.

(** The result is EDI, ESI and the control registers when [long_mode_start] is
    reached. *)
Definition start (eax ebx : Z) (c : control) : M (Z * Z * control) :=
  let esi := ebx in
  let edi := eax in
  call 0 (check_multiboot eax) ;;
  call 1 check_cpuid ;;
  call 2 check_long_mode ;;
  call 3 set_up_page_tables ;;
  c ← call 4 (enable_paging c);
  mret (edi, esi, c).

(** ** Lemmas: a 32-bit store into a zero entry *)

Lemma m64_halves m a : m64 m a = m32 m a + 2 ^ 32 * m32 m (a + 4).
Proof using.
  unfold m64, m32. replace (read_bytes m a 8) with (read_bytes m a 4 ++ read_bytes m (a + 4) 4).
  - cbn [read_bytes app le_val]. lia.
  - cbn [read_bytes app]. by rewrite <- !Z.add_assoc.
Qed.

Lemma m32_write_same m a v : m32 (write_bytes m a (le_bytes 4 v)) a = u32 v.
Proof using.
  pose proof (read_write_same m a (le_bytes 4 v)) as H. rewrite length_le_bytes in H.
  unfold m32. by rewrite H, le_val_bytes.
Qed.

Lemma write32_out m a v b : b < a \/ a + 4 <= b -> mem_get (write_bytes m a (le_bytes 4 v)) b = mem_get m b.
Proof using. intros H. apply mem_get_write_out. by rewrite length_le_bytes. Qed.

Lemma m32_zero m a : (forall b, a <= b < a + 4 -> mem_get m b = 0) -> m32 m a = 0.
Proof using. intros H. unfold m32. cbn [read_bytes le_val]. rewrite !H by lia. done. Qed.

Lemma entry_store m a v :
  (forall b, a + 4 <= b < a + 8 -> mem_get m b = 0) -> 0 <= v < 2 ^ 32 ->
  m64 (write_bytes m a (le_bytes 4 v)) a = v.
Proof using.
  intros H Hv. rewrite m64_halves, m32_write_same, u32_small by done.
  rewrite (m32_zero _ (a + 4)); [lia|]. intros b Hb. rewrite write32_out by lia. apply H. lia.
Qed.

(** ** Lemmas: the loop over the level 2 table *)

Definition p2_write (i : Z) (m : gmap Z Z) : gmap Z Z :=
  write_bytes m (p2_table + i * 8) (le_bytes 4 (Z.lor (u32 (0x200000 * i)) 131)).

Lemma p2_value i : index_ok i -> Z.lor (u32 (0x200000 * i)) 131 = i * 2 ^ 21 + 131.
Proof using.
  unfold index_ok. intros Hi. rewrite u32_small by lia. replace (0x200000 * i) with (i * 2 ^ 21) by lia.
  apply lor_disjoint; lia.
Qed.

Lemma p2_fold_out n : forall lo m b,
  b < p2_table + 8 * lo \/ p2_table + 8 * (lo + Z.of_nat n) <= b ->
  mem_get (fold_from p2_write lo n m) b = mem_get m b.
Proof using.
  induction n as [|n IH]; intros lo m b H; [done|]. rewrite fold_from_S, IH by lia.
  apply write32_out. lia.
Qed.

Lemma p2_fold_entry n : forall lo m i,
  lo <= i < lo + Z.of_nat n -> index_ok i ->
  (forall b, p2_table + 8 * i <= b < p2_table + 8 * i + 8 -> mem_get m b = 0) ->
  m64 (fold_from p2_write lo n m) (p2_table + 8 * i) = i * 2 ^ 21 + 131.
Proof using.
  induction n as [|n IH]; intros lo m i Hi Hok Hz; [lia|]. rewrite fold_from_S.
  destruct (Z.eq_dec lo i) as [->|Hne].
  - rewrite (m64_ext (p2_write i m)) by (intros b Hb; apply p2_fold_out; lia).
    unfold p2_write. rewrite (Z.mul_comm i 8), p2_value by done.
    unfold index_ok in Hok. apply entry_store; [intros b Hb; apply Hz; lia|lia].
  - apply IH; [lia|done|]. intros b Hb. unfold p2_write. rewrite write32_out by lia. by apply Hz.
Qed.

(** ** Lemmas: the tables as a whole *)

(** Memory after [set_up_page_tables]. *)
Definition upper_tables (m : gmap Z Z) : gmap Z Z :=
  write_bytes (write_bytes (write_bytes m (p4_table + 511 * 8) (le_bytes 4 (Z.lor p4_table 3)))
    (p4_table + 0) (le_bytes 4 (Z.lor p3_table 3))) (p3_table + 0) (le_bytes 4 (Z.lor p2_table 3)).
Definition tables_of (m : gmap Z Z) : gmap Z Z := fold_from p2_write 0 512 (upper_tables m).

Lemma set_up_run s : set_up_page_tables s = Ret tt (set_mem tables_of s).
Proof using.
  unfold set_up_page_tables, store32. steps. rewrite (for_from_mem _ p2_write); [done|]. done.
Qed.

Lemma table_value t k : t `mod` 4096 = 0 -> 0 <= k < 4096 -> Z.lor t k = t + k.
Proof using.
  intros Ht Hk. pose proof (lor_disjoint (t / 4096) k 12) as H. change (2 ^ 12) with 4096 in H.
  replace (t / 4096 * 4096) with t in H by (Z.div_mod_to_equations; lia). apply H; lia.
Qed.

(** What the walk needs of the tables. *)
Record boot_tables (m : gmap Z Z) : Prop := {
  bt_recursive : entry_at m p4_table 511 = p4_table + 3;
  bt_p4_first : entry_at m p4_table 0 = p3_table + 3;
  bt_p4_rest : forall i, 0 < i < 511 -> entry_at m p4_table i = 0;
  bt_p3_first : entry_at m p3_table 0 = p2_table + 3;
  bt_p3_rest : forall i, 0 < i < 512 -> entry_at m p3_table i = 0;
  bt_p2 : forall i, index_ok i -> entry_at m p2_table i = i * 2 ^ 21 + 131
}.

Definition tables_zero (m : gmap Z Z) : Prop :=
  forall b, p4_table <= b < stack_bottom -> mem_get m b = 0.

Ltac places := unfold stack_top, stack_bottom, p3_table, p2_table in *; pose proof p4_aligned; pose proof image_low.

Lemma tables_out m b : b < p4_table \/ stack_bottom <= b -> mem_get (tables_of m) b = mem_get m b.
Proof using.
  intros H. unfold tables_of, upper_tables. rewrite p2_fold_out by (places; lia).
  by rewrite !write32_out by (places; lia).
Qed.

Lemma upper_tables_zero m b :
  tables_zero m -> p4_table <= b < stack_bottom ->
  ~ (p4_table <= b < p4_table + 4) -> ~ (p4_table + 4088 <= b < p4_table + 4092) ->
  ~ (p3_table <= b < p3_table + 4) -> mem_get (upper_tables m) b = 0.
Proof using. intros Hz Hb H1 H2 H3. unfold upper_tables. rewrite !write32_out by lia. by apply Hz. Qed.

Lemma lower_entry m t i :
  t = p4_table \/ t = p3_table -> index_ok i ->
  entry_at (tables_of m) t i = entry_at (upper_tables m) t i.
Proof using.
  intros Ht Hi. unfold index_ok in Hi. unfold entry_at, tables_of. apply m64_ext. intros b Hb. apply p2_fold_out.
  places. lia.
Qed.

Lemma tables_built m : tables_zero m -> boot_tables (tables_of m).
Proof using.
  intros Hz.
  assert (Hzero : forall t i, (t = p4_table /\ 0 < i < 511) \/ (t = p3_table /\ 0 < i < 512) ->
    entry_at (tables_of m) t i = 0).
  { intros t i Ht. rewrite lower_entry by (unfold index_ok; lia). apply m64_zero. intros b Hb.
    apply upper_tables_zero; [done|places; lia..]. }
  split; try (intros; apply Hzero; auto; fail).
  - rewrite lower_entry by (unfold index_ok; auto; lia). unfold entry_at, upper_tables.
    rewrite (m64_ext (write_bytes m (p4_table + 511 * 8) (le_bytes 4 (Z.lor p4_table 3))))
      by (intros b Hb; rewrite !write32_out by (places; lia); done).
    replace (p4_table + 8 * 511) with (p4_table + 511 * 8) by lia.
    rewrite (table_value p4_table) by (places; lia). apply entry_store; [|places; lia].
    intros b Hb. apply Hz. places. lia.
  - rewrite lower_entry by (unfold index_ok; auto; lia). unfold entry_at, upper_tables.
    rewrite (m64_ext (write_bytes (write_bytes m (p4_table + 511 * 8) (le_bytes 4 (Z.lor p4_table 3)))
      (p4_table + 0) (le_bytes 4 (Z.lor p3_table 3))))
      by (intros b Hb; rewrite write32_out by (places; lia); done).
    replace (p4_table + 8 * 0) with (p4_table + 0) by lia.
    rewrite (table_value p3_table) by (places; (lia || (Z.div_mod_to_equations; lia))). apply entry_store; [|places; lia].
    intros b Hb. rewrite write32_out by lia. apply Hz. places. lia.
  - rewrite lower_entry by (unfold index_ok; auto; lia). unfold entry_at.
    replace (p3_table + 8 * 0) with (p3_table + 0) by lia. unfold upper_tables.
    rewrite (table_value p2_table) by (places; (lia || (Z.div_mod_to_equations; lia))). apply entry_store; [|places; lia].
    intros b Hb. rewrite !write32_out by (places; lia). apply Hz. places. lia.
  - intros i Hi. apply p2_fold_entry; [unfold index_ok in Hi; lia|done|]. unfold index_ok in Hi.
    intros b Hb. apply upper_tables_zero; [done|places; lia..].
Qed.

Lemma boot_tables_ext m m' :
  (forall b, p4_table <= b < stack_bottom -> mem_get m' b = mem_get m b) -> boot_tables m -> boot_tables m'.
Proof using.
  intros He.
  assert (Hi : forall t i, t = p4_table \/ t = p3_table \/ t = p2_table -> index_ok i ->
    entry_at m' t i = entry_at m t i).
  { intros t i Ht Hi. apply m64_ext. intros b Hb. apply He. unfold index_ok in Hi. places. lia. }
  intros []. split; intros; rewrite Hi by (auto; unfold index_ok; lia); auto.
Qed.

(** ** Lemmas: the walk of the first tables *)

Lemma table_writable t : t `mod` 4096 = 0 -> entry_writable (t + 3) = true.
Proof using.
  intros Ht. unfold entry_writable. rewrite <- (table_value t 3), Z.lor_spec by (done || lia). apply orb_true_r.
Qed.

Lemma table_entry t : t `mod` 4096 = 0 -> 0 <= t < 2 ^ 52 -> links (t + 3) = true /\ entry_addr (t + 3) = t.
Proof using.
  intros Ht Hr. split.
  - replace (t + 3) with (t / 4096 * PAGE_SIZE + 3) by (unfold PAGE_SIZE; Z.div_mod_to_equations; lia).
    apply new_entry_links. apply Z.div_pos; lia.
  - rewrite entry_addr_field. change (2 ^ 12) with 4096. rewrite Z.mod_small; Z.div_mod_to_equations; lia.
Qed.

Lemma large_entry i :
  index_ok i -> entry_present (i * 2 ^ 21 + 131) = true /\ entry_huge (i * 2 ^ 21 + 131) = true
  /\ entry_addr (i * 2 ^ 21 + 131) = i * 2 ^ 21.
Proof using.
  unfold index_ok. intros Hi. rewrite entry_addr_field. change (2 ^ 12) with 4096.
  rewrite Z.mod_small by (Z.div_mod_to_equations; lia). split_and!; [| |Z.div_mod_to_equations; lia].
  all: unfold entry_present, entry_huge; rewrite <- (lor_disjoint i 131 21), Z.lor_spec by lia.
  all: by rewrite Z.mul_pow2_bits_low by lia.
Qed.

Lemma large_writable i : index_ok i -> entry_writable (i * 2 ^ 21 + 131) = true.
Proof using.
  unfold index_ok. intros Hi. unfold entry_writable. rewrite <- (lor_disjoint i 131 21), Z.lor_spec by lia.
  apply orb_true_r.
Qed.

Lemma table_places : p4_table `mod` 4096 = 0 /\ p3_table `mod` 4096 = 0 /\ p2_table `mod` 4096 = 0
  /\ 0 <= p4_table < 2 ^ 52 /\ 0 <= p3_table < 2 ^ 52 /\ 0 <= p2_table < 2 ^ 52.
Proof using. places. Z.div_mod_to_equations. lia. Qed.

Lemma recursive_built m : boot_tables m -> recursive m p4_table.
Proof using.
  intros B. unfold recursive. cbn zeta. rewrite (bt_recursive m B).
  destruct table_places as (A4 & _ & _ & R4 & _). destruct (table_entry p4_table A4 R4) as [L A].
  unfold links in L. apply andb_true_iff in L as [Lp Lh]. apply negb_true_iff in Lh. done.
Qed.

(** The walk down to the level 2 table, for the addresses of the first entries. *)
Lemma walk_built m va :
  boot_tables m -> 0 <= va < 2 ^ 30 -> page_walk m p4_table va = Some (va, 2 ^ 21).
Proof using.
  intros B Hva. destruct table_places as (_ & A3 & A2 & _ & R3 & R2).
  assert (I3 : va_index va 3 = 0) by (unfold va_index; change (12 + 9 * 3) with 39; Z.div_mod_to_equations; lia).
  assert (I2 : va_index va 2 = 0) by (unfold va_index; change (12 + 9 * 2) with 30; Z.div_mod_to_equations; lia).
  assert (I1 : va_index va 1 = va / 2 ^ 21)
    by (unfold va_index; change (12 + 9 * 1) with 21; apply Z.mod_small; Z.div_mod_to_equations; lia).
  assert (Hi : index_ok (va / 2 ^ 21)) by (unfold index_ok; Z.div_mod_to_equations; lia).
  destruct (table_entry p3_table A3 R3) as [[P3 N3]%andb_true_iff E3].
  destruct (table_entry p2_table A2 R2) as [[P2 N2]%andb_true_iff E2].
  apply negb_true_iff in N3, N2. destruct (large_entry _ Hi) as (P1 & N1 & E1).
  unfold page_walk. cbv zeta. rewrite I3, (bt_p4_first m B), P3, N3, I2, E3. cbn [negb orb].
  rewrite (bt_p3_first m B), P2, N2, I1, E2. cbn [negb]. rewrite (bt_p2 m B) by done.
  rewrite P1, N1, E1. cbn [negb]. do 2 f_equal. Z.div_mod_to_equations. lia.
Qed.

Lemma writable_built m va :
  boot_tables m -> 0 <= va < 2 ^ 30 -> page_writable m p4_table va = true.
Proof using.
  intros B Hva. destruct table_places as (_ & A3 & A2 & _ & R3 & R2).
  assert (Hi : va_index va 3 = 0 /\ va_index va 2 = 0 /\ index_ok (va_index va 1)).
  { unfold va_index, index_ok. change (12 + 9 * 3) with 39. change (12 + 9 * 2) with 30. change (12 + 9 * 1) with 21.
    Z.div_mod_to_equations. lia. }
  destruct Hi as (I3 & I2 & I1). destruct (large_entry _ I1) as (_ & Hu & _).
  unfold page_writable. cbv zeta. rewrite I3, I2, (bt_p4_first m B), (proj2 (table_entry p3_table A3 R3)).
  rewrite (bt_p3_first m B), (proj2 (table_entry p2_table A2 R2)), (bt_p2 m B), Hu by done.
  rewrite !table_writable, large_writable by done. by rewrite !orb_true_r.
Qed.

Lemma recursive_writable_built m : boot_tables m -> recursive_writable m p4_table.
Proof using.
  intros B. split; [by apply recursive_built|]. rewrite (bt_recursive m B).
  apply table_writable, table_places.
Qed.

(** Ranges of the first gigabyte without the tables. *)
Lemma boot_self_mapped m lo hi (free : Z -> Prop) :
  boot_tables m -> 0 <= lo -> hi <= 2 ^ 30 ->
  (forall b, p4_table <= b < stack_bottom -> ~ lo <= b < hi /\ ~ free b) ->
  self_mapped m p4_table lo hi free.
Proof using.
  intros B Hlo Hhi Ht m' a Hm Ha. assert (B' : boot_tables m').
  { apply (boot_tables_ext m); [|done]. intros b Hb. destruct (Ht b Hb). by apply Hm. }
  exists (2 ^ 21). split; [apply walk_built|apply writable_built]; (done || lia).
Qed.

Lemma walk_unbuilt m va :
  boot_tables m -> 2 ^ 30 <= va < 511 * 2 ^ 39 -> page_walk m p4_table va = None.
Proof using.
  intros B Hva. destruct table_places as (_ & A3 & _ & _ & R3 & _).
  assert (I3 : va_index va 3 = va / 2 ^ 39)
    by (unfold va_index; change (12 + 9 * 3) with 39; apply Z.mod_small; Z.div_mod_to_equations; lia).
  unfold page_walk. cbv zeta. rewrite I3. destruct (Z.eq_dec (va / 2 ^ 39) 0) as [H0|H0].
  - destruct (table_entry p3_table A3 R3) as [[P3 N3]%andb_true_iff E3]. apply negb_true_iff in N3.
    rewrite H0, (bt_p4_first m B), P3, N3, E3. cbn [negb orb].
    rewrite (bt_p3_rest m B); [done|]. unfold va_index. change (12 + 9 * 2) with 30.
    Z.div_mod_to_equations. lia.
  - rewrite (bt_p4_rest m B); [done|]. Z.div_mod_to_equations. lia.
Qed.

(** ** Lemmas: the checks *)

(** The character [error] shows for the first check that fails. *)
Definition first_failure (eax : Z) : option Z :=
  if negb (eax =? MULTIBOOT2_MAGIC_VALUE) then Some 48
  else if u32 (write_flags flags0 (Z.lxor flags0 (Z.shiftl 1 21))) =? u32 flags0 then Some 49
  else if (u32 (cpuid_eax 0x80000000) <? 0x80000001)
    || (Z.land (cpuid_edx 0x80000001) (Z.shiftl 1 29) =? 0) then Some 50
  else None.

Definition in_stack (b : Z) : Prop := stack_top - 8 <= b < stack_top.

(** [m'] is [m] but for the two words of stack. *)
Definition stack_differs (m m' : gmap Z Z) : Prop := forall b, ~ in_stack b -> mem_get m' b = mem_get m b.

Lemma stack_differs_refl m : stack_differs m m.
Proof using. by intros b. Qed.

Lemma stack_differs_write m m' a v :
  stack_differs m m' -> a = stack_top - 8 \/ a = stack_top - 4 ->
  stack_differs m (write_bytes m' a (le_bytes 4 v)).
Proof using.
  intros H Ha b Hb. rewrite write32_out by (unfold in_stack in Hb; lia). by apply H.
Qed.

(** The checks pass, or the one that fails stops the machine. *)
Lemma check_multiboot_run n eax m s :
  stack_differs m (mem s) ->
  exists m1, stack_differs m m1 /\ call n (check_multiboot eax) s =
    (if eax =? MULTIBOOT2_MAGIC_VALUE then mret tt else error 48) (set_mem (fun _ => m1) s).
Proof using.
  intros H. eexists. split; [|unfold call, store32; step; unfold check_multiboot; reflexivity].
  apply stack_differs_write; auto.
Qed.

Lemma check_cpuid_run n m s :
  stack_differs m (mem s) ->
  exists m1, stack_differs m m1 /\ call n check_cpuid s =
    (if u32 (write_flags flags0 (Z.lxor flags0 (Z.shiftl 1 21))) =? u32 flags0 then error 49 else mret tt)
      (set_mem (fun _ => m1) s).
Proof using.
  intros H. eexists. split; [|unfold call, check_cpuid, store32; cbv zeta; do 5 step; reflexivity].
  repeat apply stack_differs_write; auto.
Qed.

Lemma check_long_mode_run n m s :
  stack_differs m (mem s) ->
  exists m1, stack_differs m m1 /\ call n check_long_mode s =
    (if (u32 (cpuid_eax 0x80000000) <? 0x80000001)
        || (Z.land (cpuid_edx 0x80000001) (Z.shiftl 1 29) =? 0) then error 50 else mret tt)
      (set_mem (fun _ => m1) s).
Proof using.
  intros H. eexists. split; [|unfold call, check_long_mode, store32; step; by destruct (_ <? _)].
  apply stack_differs_write; auto.
Qed.

(** "ERR: " and the character, white on red. *)
Definition error_cells (al : Z) : list Z := [69; 0x4f; 82; 0x4f; 82; 0x4f; 58; 0x4f; 32; 0x4f; al; 0x4f].

Lemma error_run {A} al s : exists s', error al s = @Halted A s'
  /\ read_bytes (mem s') 0xb8000 12 = error_cells (u8 al) /\ s' = set_mem (fun _ => mem s') s
  /\ forall b, ~ 0xb8000 <= b < 0xb8000 + 12 -> mem_get (mem s') b = mem_get (mem s) b.
Proof using.
  eexists. split; [unfold error, store32, store8; do 4 step; reflexivity|]. split; [|split; [done|]]; simpl_state.
  2: { intros b Hb. rewrite mem_get_insert, bool_decide_false by lia. rewrite !write32_out by lia. done. }
  set (m1 := write_bytes _ 0xb8000 _). set (m2 := write_bytes m1 _ _). set (m3 := write_bytes m2 _ _).
  unfold error_cells. cbn [read_bytes]. 
  rewrite !mem_get_insert. rewrite !bool_decide_false by lia. rewrite bool_decide_true by lia.
  unfold m3, m2, m1. cbn [write_bytes le_bytes]. rewrite !mem_get_insert.
  repeat (rewrite bool_decide_true by lia || rewrite bool_decide_false by lia). reflexivity.
Qed.

(** What [start] leaves: memory [m'] and the tables' address in cr3. *)
Definition started (m' : gmap Z Z) (s : kstate) : kstate :=
  K m' (trace s) (iflag s) p4_table (scr s) (idt s) (idt_reg s) (interrupt_handlers s) (tick s) (mm s).

Definition paging_on (c : control) : control :=
  Control (Z.lor (Z.lor (cr0 c) (Z.shiftl 1 31)) (Z.shiftl 1 16)) (Z.lor (cr4 c) (Z.shiftl 1 5))
    (Z.lor (efer c) (Z.shiftl 1 8)).

Lemma paging_on_bits c :
  Z.testbit (cr0 (paging_on c)) 31 = true /\ Z.testbit (cr4 (paging_on c)) 5 = true
  /\ Z.testbit (efer (paging_on c)) 8 = true.
Proof using. unfold paging_on. cbn [cr0 cr4 efer]. rewrite !Z.lor_spec. cbn. by rewrite !orb_true_r. Qed.

Lemma start_run eax ebx c s :
  first_failure eax = None -> tables_zero (mem s) ->
  exists m', start eax ebx c s = Ret (eax, ebx, paging_on c) (started m' s)
    /\ boot_tables m'
    /\ forall b, b < p4_table \/ stack_top <= b -> mem_get m' b = mem_get (mem s) b.
Proof using.
  intros Hf Hz. unfold first_failure in Hf.
  destruct (check_multiboot_run 0 eax (mem s) s) as (m1 & D1 & R1); [apply stack_differs_refl|].
  destruct (check_cpuid_run 1 (mem s) (set_mem (fun _ => m1) s) D1) as (m2 & D2 & R2).
  destruct (check_long_mode_run 2 (mem s) (set_mem (fun _ => m2) (set_mem (fun _ => m1) s)) D2) as (m3 & D3 & R3).
  destruct (eax =? _); [|done]. destruct (_ =? u32 flags0); [done|]. destruct (_ || _); [done|].
  set (m4 := tables_of (write_bytes m3 (stack_top - 4) (le_bytes 4 (return_to 3)))).
  set (m5 := write_bytes m4 (stack_top - 4) (le_bytes 4 (return_to 4))).
  assert (D4 : stack_differs (mem s) (write_bytes m3 (stack_top - 4) (le_bytes 4 (return_to 3))))
    by (apply stack_differs_write; auto).
  assert (Z4 : tables_zero (write_bytes m3 (stack_top - 4) (le_bytes 4 (return_to 3)))).
  { intros b Hb. rewrite D4 by (unfold in_stack; places; lia). by apply Hz. }
  exists m5. split; [|split].
  - unfold start. rewrite (bind_ret _ _ _ _ _ R1), (bind_ret _ _ _ _ _ R2), (bind_ret _ _ _ _ _ R3).
    erewrite bind_ret; [|unfold call, store32; step; apply set_up_run].
    unfold call, store32, enable_paging, set_cr3. repeat step. reflexivity.
  - apply (boot_tables_ext m4); [|by apply tables_built]. intros b Hb. apply write32_out. places. lia.
  - intros b Hb. unfold m5, m4. rewrite write32_out by (places; lia).
    rewrite tables_out by (places; lia). apply D4. unfold in_stack. places. lia.
Qed.

(** ** Properties *)

(** C9: under a multiboot2 loader, on a processor with long mode, [start] gets to
    [long_mode_start] with the loader's magic number and address still in EDI
    and ESI and the paging bits set, and with tables (over zeroed memory, as
    the loader leaves section .bss) that map the first gigabyte to itself, in
    writable 2 MiB pages, nothing between it and the last 512 GiB, and themselves
    through entry 511, which is what mmu/paging.c relies on.  Only the tables
    and the stack are written. *)
Theorem start_maps_first_gigabyte eax ebx c s :
  first_failure eax = None -> tables_zero (mem s) ->
  exists c' s', start eax ebx c s = Ret (eax, ebx, c') s'
    /\ cr3 s' = p4_table /\ recursive_writable (mem s') (cr3 s')
    /\ (forall va, 0 <= va < 2 ^ 30 ->
          page_walk (mem s') (cr3 s') va = Some (va, 2 ^ 21) /\ page_writable (mem s') (cr3 s') va = true)
    /\ (forall va, 2 ^ 30 <= va < 511 * 2 ^ 39 -> page_walk (mem s') (cr3 s') va = None)
    /\ Z.testbit (cr0 c') 31 = true /\ Z.testbit (cr4 c') 5 = true /\ Z.testbit (efer c') 8 = true
    /\ (forall b, b < p4_table \/ stack_top <= b -> mem_get (mem s') b = mem_get (mem s) b)
    /\ trace s' = trace s.
Proof.
  intros Hf Hz. destruct (start_run eax ebx c s Hf Hz) as (m' & Hrun & B & Hm).
  destruct (paging_on_bits c) as (B0 & B4 & Be).
  exists (paging_on c), (started m' s). split; [exact Hrun|]. cbn [started mem cr3 trace].
  split; [done|]. split; [by apply recursive_writable_built|].
  split; [intros va Hva; split; [by apply walk_built|by apply writable_built]|].
  split; [by intros; apply walk_unbuilt|]. by repeat split.
Qed.

(** C31: otherwise [start] stops the processor before it touches the tables, with
    "ERR: " and the number of the first check that fails in the top left corner
    of the screen: 0 for the loader, 1 for CPUID, 2 for long mode.  Those six
    cells and two words of the stack above the tables are all it has written, and
    no register of the kernel's state has changed. *)
Theorem start_reports_failure eax ebx c s code :
  first_failure eax = Some code ->
  exists s', start eax ebx c s = Halted s'
    /\ read_bytes (mem s') 0xb8000 12 = error_cells code
    /\ s' = set_mem (fun _ => mem s') s
    /\ forall b, ~ 0xb8000 <= b < 0xb8000 + 12 -> ~ stack_top - 8 <= b < stack_top ->
         mem_get (mem s') b = mem_get (mem s) b.
Proof.
  intros Hf. unfold first_failure in Hf.
  assert (Hend : forall A al m1, stack_differs (mem s) m1 -> exists s', error al (set_mem (fun _ => m1) s) = @Halted A s'
    /\ read_bytes (mem s') 0xb8000 12 = error_cells (u8 al) /\ s' = set_mem (fun _ => mem s') s
    /\ forall b, ~ 0xb8000 <= b < 0xb8000 + 12 -> ~ stack_top - 8 <= b < stack_top ->
         mem_get (mem s') b = mem_get (mem s) b).
  { intros A al m1 D. destruct (@error_run A al (set_mem (fun _ => m1) s)) as (s' & He & Hr & Hs & Hm).
    exists s'. split; [exact He|]. split; [exact Hr|]. split; [exact Hs|].
    intros b Hb1 Hb2. rewrite Hm by exact Hb1. by apply D. }
  destruct (check_multiboot_run 0 eax (mem s) s) as (m1 & D1 & R1); [apply stack_differs_refl|].
  destruct (check_cpuid_run 1 (mem s) (set_mem (fun _ => m1) s) D1) as (m2 & D2 & R2).
  destruct (check_long_mode_run 2 (mem s) (set_mem (fun _ => m2) (set_mem (fun _ => m1) s)) D2) as (m3 & D3 & R3).
  unfold start. change (set_mem (fun _ => m2) (set_mem (fun _ => m1) s)) with (set_mem (fun _ => m2) s) in *.
  change (set_mem (fun _ => m3) (set_mem (fun _ => m2) s)) with (set_mem (fun _ => m3) s) in *.
  destruct (eax =? _); [rewrite (bind_ret _ _ _ _ _ R1); destruct (_ =? u32 flags0);
    [|rewrite (bind_ret _ _ _ _ _ R2); destruct (_ || _)]|]; try done; injection Hf as <-.
  - destruct (Hend unit 49 m2 D2) as (s' & He & Hs). rewrite He in R2. rewrite (bind_halted _ _ _ _ R2). by exists s'.
  - destruct (Hend unit 50 m3 D3) as (s' & He & Hs). rewrite He in R3. rewrite (bind_halted _ _ _ _ R3). by exists s'.
  - destruct (Hend unit 48 m1 D1) as (s' & He & Hs). rewrite He in R1. rewrite (bind_halted _ _ _ _ R1). by exists s'.
Qed.

End Start.

(** A 64-bit processor, and the tables at 2 MiB, for the instances. *)
#[local] Instance test_processor : Processor :=
  {| flags0 := 2; write_flags := fun _ v => v; cpuid_eax := fun _ => 0x80000008; cpuid_edx := fun _ => 0x20000000 |}.
#[local] Instance test_image : Image :=
  {| p4_table := 0x200000; return_to := fun n => 0x100010 + 5 * n;
     p4_aligned := eq_refl; image_low := conj eq_refl eq_refl |}.

Lemma start_maps_first_gigabyte_witness :
  exists c' s', start MULTIBOOT2_MAGIC_VALUE 0x9000 (Control 0x11 0 0) (blank_state ∅)
      = Ret (MULTIBOOT2_MAGIC_VALUE, 0x9000, c') s'
    /\ cr3 s' = 0x200000 /\ page_walk (mem s') (cr3 s') 0xb8000 = Some (0xb8000, 2 ^ 21).
Proof.
  destruct (start_maps_first_gigabyte MULTIBOOT2_MAGIC_VALUE 0x9000 (Control 0x11 0 0) (blank_state ∅))
    as (c' & s' & Hs & H3 & _ & Hw & _).
  - vm_compute. reflexivity.
  - intros b _. reflexivity.
  - exists c', s'. split; [exact Hs|]. split; [exact H3|]. apply (Hw 0xb8000). lia.
Defined.

Lemma start_reports_failure_witness :
  exists s', start 0x2badb002 0x9000 (Control 0x11 0 0) (blank_state ∅) = Halted s'
    /\ read_bytes (mem s') 0xb8000 12 = error_cells 48.
Proof.
  destruct (start_reports_failure 0x2badb002 0x9000 (Control 0x11 0 0) (blank_state ∅) 48)
    as (s' & Hs & Hr & _).
  - vm_compute. reflexivity.
  - exists s'. split; [exact Hs|exact Hr].
Defined.
