(* ===== verification/LongMode.v ===== *)
(** * Segments: the rest of asm/boot.asm, and asm/long_mode_init.asm

    Paging alone leaves the processor in compatibility mode, with the loader's
    segments.  The end of [start] loads a descriptor table of its own and jumps
    through it; [long_mode_start] clears the data segments and calls [main].
    Here are the table, the instructions that use it with the processor's checks,
    and the whole path from the loader's jump to the call of [main].

    [main] is the program Crystal compiles from kernel/main.cr, an argument. *)

From stdpp Require Import base numbers list gmap strings.
From S2P Require Import Prelude Machine Boot PageWalk Mmap Multiboot Paging Idt Start.

(** ** Descriptors as the processor reads them *)

Record descriptor := Descriptor {
  d_type : Z;
  d_segment : bool;          (* code or data, not a system descriptor *)
  d_dpl : Z;
  d_present : bool;
  d_long : bool;
  d_big : bool
}.

Definition decode_descriptor (w : Z) : descriptor :=
  Descriptor (Z.land (Z.shiftr w 40) 15) (Z.testbit w 44) (Z.land (Z.shiftr w 45) 3)
    (Z.testbit w 47) (Z.testbit w 53) (Z.testbit w 54).

Definition is_code (d : descriptor) : bool := d_segment d && Z.testbit (d_type d) 3.
Definition is_writable (d : descriptor) : bool :=
  d_segment d && negb (Z.testbit (d_type d) 3) && Z.testbit (d_type d) 1.

(** The descriptor table register and the segment registers; of CS also the
    descriptor it was loaded from, which says what code runs. *)
Record segments := Segments {
  gdtr_base : Z;
  gdtr_limit : Z;
  seg_cs : Z;
  cs_desc : descriptor;
  seg_ss : Z;
  seg_ds : Z;
  seg_es : Z;
  seg_fs : Z;
  seg_gs : Z
}.

Inductive data_segment := SS | DS | ES | FS | GS.

Definition set_segment (r : data_segment) (v : Z) (g : segments) : segments :=
  let pick (q : data_segment) (old : Z) := match r, q with
    | SS, SS | DS, DS | ES, ES | FS, FS | GS, GS => v
    | _, _ => old
    end in
  Segments (gdtr_base g) (gdtr_limit g) (seg_cs g) (cs_desc g) (pick SS (seg_ss g)) (pick DS (seg_ds g))
    (pick ES (seg_es g)) (pick FS (seg_fs g)) (pick GS (seg_gs g)).

(** Long mode is active; then the code segment's descriptor chooses between
    64-bit and compatibility mode. *)
Definition long_mode_active (c : control) : bool :=
  Z.testbit (cr0 c) 31 && Z.testbit (cr4 c) 5 && Z.testbit (efer c) 8.
Definition mode64 (c : control) (g : segments) : bool := long_mode_active c && d_long (cs_desc g).

(** ** Instructions *)

Definition load16 (a : Z) : M Z := gets (fun s => le_val (read_bytes (mem s) a 2)).

(** The descriptor of a selector of the global table; the first is not to be used. *)
Definition load_descriptor (sel : Z) (g : segments) : M descriptor :=
  let offset := sel / 8 * 8 in
  if (offset =? 0) || (gdtr_limit g <? offset + 7) then throw ProtectionFault
  else w ← load64 (gdtr_base g + offset); mret (decode_descriptor w).

(** [lgdt] in 32-bit code: two bytes of limit, four of base. *)
Definition lgdt (a : Z) (g : segments) : M segments :=
  limit ← load16 a;
  base ← load32 (a + 2);
  mret (Segments base limit (seg_cs g) (cs_desc g) (seg_ss g) (seg_ds g) (seg_es g) (seg_fs g) (seg_gs g)).

(** A far jump, from privilege level 0. *)
Definition far_jump (sel : Z) (c : control) (g : segments) : M segments :=
  d ← load_descriptor sel g;
  if is_code d && negb (Z.testbit (d_type d) 2) && (d_dpl d =? 0) && d_present d
     && negb (long_mode_active c && d_long d && d_big d)
  then mret (Segments (gdtr_base g) (gdtr_limit g) sel d (seg_ss g) (seg_ds g) (seg_es g) (seg_fs g) (seg_gs g))
  else throw ProtectionFault.

(** [mov] to a data segment register, at level 0.  The null selector suits all
    of them, but the stack's in 64-bit mode only. *)
Definition mov_segment (r : data_segment) (sel : Z) (c : control) (g : segments) : M segments :=
  if sel =? 0 then
    match r with
    | SS => if mode64 c g then mret (set_segment r sel g) else throw ProtectionFault
    | _ => mret (set_segment r sel g)
    end
  else
    d ← load_descriptor sel g;
    if is_writable d && (d_dpl d =? 0) && d_present d then mret (set_segment r sel g) else throw ProtectionFault.

(** ** asm/boot.asm: the table *)

(** Where the linker puts it. *)
Class Rodata := gdt64 : Z.

Section LongMode.
Context {P : Processor} {I : Image} {R : Rodata}.

Definition code_descriptor : Z :=
  Z.lor (Z.lor (Z.lor (Z.lor (Z.shiftl 1 44) (Z.shiftl 1 47)) (Z.shiftl 1 41)) (Z.shiftl 1 43)) (Z.shiftl 1 53).
Definition data_descriptor : Z := Z.lor (Z.lor (Z.shiftl 1 44) (Z.shiftl 1 47)) (Z.shiftl 1 41).

Definition gdt64_code : Z := 8.
Definition gdt64_data : Z := 16.
Definition gdt64_pointer : Z := gdt64 + 24.

Definition gdt64_bytes : list Z :=
  uint64 0 ++ uint64 code_descriptor ++ uint64 data_descriptor
  ++ le_bytes 2 (gdt64_pointer - gdt64 - 1) ++ uint64 gdt64.

(** ** asm/long_mode_init.asm *)

(** [call main], on the empty stack.  [kmain] never returns to it, so the [hlt]
    after it is not reached. *)
Definition long_mode_start (main : Z -> Z -> M unit) (edi esi : Z) (c : control) (g : segments) : M segments :=
  let ax := 0 in
  if mode64 c g then
    g ← mov_segment SS ax c g;
    g ← mov_segment DS ax c g;
    g ← mov_segment ES ax c g;
    g ← mov_segment FS ax c g;
    g ← mov_segment GS ax c g;
    store64 (stack_top - 8) (return_to 5) ;;
    main edi esi ;;
    mret g
  else throw ProtectionFault.

(** [start] with its end: the processor from the loader's jump on. *)
Definition boot (main : Z -> Z -> M unit) (eax ebx : Z) (c : control) (g : segments) : M (control * segments) :=
  '(edi, esi, c) ← start eax ebx c;
  g ← lgdt gdt64_pointer g;
  g ← far_jump gdt64_code c g;
  g ← long_mode_start main edi esi c g;
  mret (c, g).

(** ** Lemmas *)

(** The table, where the loader has put section .rodata. *)
Definition gdt_at (m : gmap Z Z) : Prop := bytes_at m gdt64 gdt64_bytes.

(** It is in the first gigabyte, off the tables and the stack. *)
Definition gdt_place : Prop :=
  0 <= gdt64 /\ gdt64 + 34 <= 2 ^ 30 /\ (gdt64 + 34 <= p4_table \/ stack_top <= gdt64).

Lemma gdt_words m :
  gdt_at m -> m64 m (gdt64 + 8) = code_descriptor
    /\ le_val (read_bytes m gdt64_pointer 2) = 23 /\ bytes_at m (gdt64 + 26) (uint64 gdt64).
Proof using.
  unfold gdt_at, gdt64_bytes, gdt64_pointer. rewrite !bytes_at_app, !length_uint64, length_le_bytes.
  intros (_ & H2 & _ & H4 & H5). split; [|split].
  - apply bytes_at_64; [exact H2|]. by split.
  - unfold bytes_at in H4. rewrite length_le_bytes in H4. replace (gdt64 + 24 - gdt64 - 1) with 23 in H4 by lia.
    replace (gdt64 + 24) with (gdt64 + Z.of_nat 8 + Z.of_nat 8 + Z.of_nat 8) by lia. by rewrite H4.
  - by replace (gdt64 + 26) with (gdt64 + Z.of_nat 8 + Z.of_nat 8 + Z.of_nat 8 + Z.of_nat 2) by lia.
Qed.

Lemma bytes_at_ext m m' a bs :
  (forall b, a <= b < a + Z.of_nat (length bs) -> mem_get m' b = mem_get m b) ->
  bytes_at m a bs -> bytes_at m' a bs.
Proof using.
  unfold bytes_at. intros He Hb. rewrite <- Hb at 2. by apply read_bytes_ext.
Qed.

Lemma gdt_ext m m' :
  gdt_place -> (forall b, b < p4_table \/ stack_top <= b -> mem_get m' b = mem_get m b) ->
  gdt_at m -> gdt_at m'.
Proof using.
  intros (_ & _ & H) He. apply bytes_at_ext. change (Z.of_nat (length gdt64_bytes)) with 34.
  intros b Hb. apply He. lia.
Qed.

(** The descriptor the kernel runs under: present, 64-bit code of level 0. *)
Definition kernel_code : descriptor := Descriptor 10 true 0 true true false.

Lemma code_descriptor_decodes : decode_descriptor code_descriptor = kernel_code.
Proof using. reflexivity. Qed.

Definition with_gdt (g : segments) : segments :=
  Segments gdt64 23 (seg_cs g) (cs_desc g) (seg_ss g) (seg_ds g) (seg_es g) (seg_fs g) (seg_gs g).

Lemma lgdt_run g s :
  gdt_place -> gdt_at (mem s) -> lgdt gdt64_pointer g s = Ret (with_gdt g) s.
Proof using.
  intros (H0 & H1 & _) Hg. destruct (gdt_words _ Hg) as (_ & Hl & Hb).
  unfold lgdt, load16, load32. do 2 step. rewrite Hl.
  replace (gdt64_pointer + 2) with (gdt64 + 26) by (unfold gdt64_pointer; lia).
  replace (le_val (read_bytes (mem s) (gdt64 + 26) 4)) with gdt64; [done|].
  pose proof (bytes_at_64 _ _ _ Hb ltac:(unfold is_u64; lia)) as H.
  assert (Hs : bytes_at (mem s) (gdt64 + 26) (uint32 gdt64 ++ uint32 (gdt64 / 2 ^ 32))).
  { replace (uint32 gdt64 ++ uint32 (gdt64 / 2 ^ 32)) with (uint64 gdt64); [done|].
    unfold uint64, uint32. cbn [le_bytes app]. rewrite !Z.div_div by lia. done. }
  apply bytes_at_app in Hs as [Hs _].
  symmetry. by apply (bytes_at_32 _ _ _ Hs); unfold is_u32; lia.
Qed.

Lemma load_kernel_code g s :
  gdtr_base g = gdt64 -> gdtr_limit g = 23 -> gdt_at (mem s) ->
  load_descriptor gdt64_code g s = Ret kernel_code s.
Proof using.
  intros Hb Hl Hg. destruct (gdt_words _ Hg) as (Hw & _). unfold load_descriptor. rewrite Hb, Hl.
  change (gdt64_code / 8 * 8) with 8. cbv zeta. change ((8 =? 0) || (23 <? 8 + 7)) with false. cbn iota.
  by rewrite load64_bind, Hw.
Qed.

(** The segments [main] runs with. *)
Definition kernel_segments : segments := Segments gdt64 23 gdt64_code kernel_code 0 0 0 0 0.

Lemma long_mode_active_on c : long_mode_active (paging_on c) = true.
Proof using. destruct (paging_on_bits c) as (H0 & H4 & He). unfold long_mode_active. by rewrite H0, H4, He. Qed.

Lemma long_mode_start_run main edi esi c g s :
  long_mode_active c = true -> gdtr_base g = gdt64 -> gdtr_limit g = 23 ->
  seg_cs g = gdt64_code -> cs_desc g = kernel_code ->
  long_mode_start main edi esi c g s =
    (main edi esi ;; mret kernel_segments)
      (set_mem (fun m => write_bytes m (stack_top - 8) (le_bytes 8 (return_to 5))) s).
Proof using.
  intros Hc Hb Hl Hcs Hd.
  assert (H64 : mode64 c g = true) by (unfold mode64; by rewrite Hc, Hd).
  unfold long_mode_start. cbv zeta. rewrite H64.
  erewrite bind_ret; [|unfold mov_segment; rewrite H64; reflexivity].
  do 4 (erewrite bind_ret; [|reflexivity]). unfold store64. step.
  destruct g. cbn in Hb, Hl, Hcs, Hd. subst. reflexivity.
Qed.

(** Up to the call of [main], everything goes as it should. *)
Lemma boot_run eax ebx c g s :
  first_failure eax = None -> tables_zero (mem s) -> gdt_place -> gdt_at (mem s) ->
  exists m',
    (forall main, boot main eax ebx c g s = (main eax ebx ;; mret (paging_on c, kernel_segments)) (started m' s))
    /\ boot_tables m' /\ gdt_at m'
    /\ forall b, b < p4_table \/ stack_top <= b -> mem_get m' b = mem_get (mem s) b.
Proof using.
  intros Hf Hz Hp Hg. destruct (start_run eax ebx c s Hf Hz) as (m1 & Hrun & B & Hm).
  pose proof (gdt_ext _ _ Hp Hm Hg) as Hg1.
  set (m2 := write_bytes m1 (stack_top - 8) (le_bytes 8 (return_to 5))).
  assert (Hout : forall b, b < stack_top - 8 \/ stack_top <= b -> mem_get m2 b = mem_get m1 b).
  { intros b Hb. apply mem_get_write_out. rewrite length_le_bytes. lia. }
  assert (Hs : p4_table < stack_top - 8) by (unfold stack_top, stack_bottom; lia).
  assert (Hm2 : forall b, b < p4_table \/ stack_top <= b -> mem_get m2 b = mem_get (mem s) b).
  { intros b Hb. rewrite Hout by lia. by apply Hm. }
  exists m2. split; [|split; [|split; [by apply (gdt_ext (mem s))|done]]].
  - intros main. unfold boot. rewrite (bind_ret _ _ _ _ _ Hrun). cbn beta iota.
    rewrite (bind_ret _ _ _ _ _ (lgdt_run g (started m1 s) Hp Hg1)).
    erewrite bind_ret; [|unfold far_jump; erewrite bind_ret;
      [|by apply load_kernel_code; [reflexivity|reflexivity|exact Hg1]];
      cbn -[gdt64_code mret long_mode_active Z.add Z.sub];
      rewrite andb_false_r; reflexivity].
    unfold mbind, M_bind. rewrite long_mode_start_run by (done || apply long_mode_active_on).
    change (set_mem _ (started m1 s)) with (started m2 s). unfold mbind, M_bind. by destruct (main eax ebx _).
  - apply (boot_tables_ext m1); [|done]. intros b Hb. apply Hout. unfold stack_top in *. lia.
Qed.

(** ** Properties *)

(** C7: the way into long mode ends in [main], in 64-bit code of level 0.  Under a
    multiboot2 loader and on a processor with long mode, no segment is refused:
    the jump goes through the kernel's own code descriptor, the data segments
    are null, which only 64-bit mode allows of the stack's, and [main] gets the
    loader's magic number and address in EDI and ESI, over memory that differs
    from the loader's in the tables and the stack only.  The kernel's interrupt
    gates name the descriptor [main] runs under. *)
Theorem boot_calls_main eax ebx c g s :
  first_failure eax = None -> tables_zero (mem s) -> gdt_place -> gdt_at (mem s) ->
  exists c' g' m',
    (forall main, boot main eax ebx c g s = (main eax ebx ;; mret (c', g')) (started m' s))
    /\ mode64 c' g' = true /\ d_dpl (cs_desc g') = 0
    /\ (seg_ss g', seg_ds g', seg_es g', seg_fs g', seg_gs g') = (0, 0, 0, 0, 0)
    /\ (forall handler s', gdt_at (mem s') ->
          load_descriptor (hw_selector (kernel_gate handler)) g' s' = Ret (cs_desc g') s')
    /\ gdt_at m' /\ recursive m' p4_table
    /\ (forall b, b < p4_table \/ stack_top <= b -> mem_get m' b = mem_get (mem s) b).
Proof.
  intros Hf Hz Hp Hg. destruct (boot_run eax ebx c g s Hf Hz Hp Hg) as (m' & Hrun & B & Hg' & Hm).
  exists (paging_on c), kernel_segments, m'. split; [exact Hrun|].
  split; [unfold mode64; by rewrite long_mode_active_on|]. split; [done|]. split; [done|].
  split; [intros h s' Hs'; by apply load_kernel_code|].
  split; [done|]. split; [by apply recursive_built|done].
Qed.

End LongMode.

Definition test_gdt : Z := 0x110000.

Lemma boot_calls_main_witness :
  let s0 := blank_state (write_bytes ∅ 0x110000 (@gdt64_bytes test_gdt)) in
  let g0 := Segments 0 0 0x10 (Descriptor 10 true 0 true false true) 0x18 0x18 0x18 0x18 0x18 in
  exists c' g' s', @boot test_processor test_image test_gdt (fun _ _ => mret tt)
      MULTIBOOT2_MAGIC_VALUE 0x9000 (Control 0x11 0 0) g0 s0 = Ret (c', g') s'
    /\ mode64 c' g' = true /\ seg_ss g' = 0.
Proof.
  intros s0 g0.
  destruct (@boot_calls_main test_processor test_image test_gdt MULTIBOOT2_MAGIC_VALUE 0x9000
    (Control 0x11 0 0) g0 s0) as (c' & g' & m' & Hrun & Hm & _ & Hseg & _).
  - vm_compute. reflexivity.
  - intros b Hb. apply mem_get_write_out. right. change (0x110000 + 34 <= b).
    cbn [p4_table test_image] in Hb. lia.
  - split; [|split; [|left]]; vm_compute; discriminate.
  - vm_compute. reflexivity.
  - exists c', g', (@started test_image m' s0). split; [apply Hrun|]. split; [exact Hm|].
    exact (f_equal (fun p => p.1.1.1.1) Hseg).
Defined.
