(* ===== verification/Kernel.v ===== *)
(** * The kernel: src/kernel/kmain.c, src/core/check.c

    [kmain] composes every component: it takes the machine from the loader to
    the idle loop.  After that only interrupts run; [step] is one of them, and
    [reach] what any number of them leads to.

    Interrupts that arrive while [check_interrupts] waits are an argument of
    the model ([Irqs]): which lines are raised before which poll. *)

From stdpp Require Import base numbers list gmap strings.
From S2P Require Import Prelude Machine Libk Screen Serial Printf Idt Isr Timer Keyboard Cmos Boot PageWalk Mmap Paging.

(** ** Function pointers *)

#[global] Instance kernel_handlers {E : Env} : Handlers := fun h stack =>
  match h with
  | isr_null => throw PageFault
  | isr_breakpoint_handler => breakpoint_handler stack
  | isr_timer_callback => timer_callback stack
  | isr_keyboard_callback => keyboard_callback stack
  end.

(** ** src/core/check.c *)

(** The vectors raised before each poll, with the stack pointer their stub
    passes. *)
Class Irqs := arrivals : nat -> list (Z * Z).

Section Kernel.
Context {E : Env} {B : Build} {Q : Irqs}.

(** An interrupt is taken when RFLAGS.IF is set. *)
Definition interrupt (vs : Z * Z) : M unit :=
  enabled ← gets iflag;
  if (enabled : bool) then irq_handler (fst vs) (snd vs) else mret tt.

(** [while (tick == timer_tick()) ;], with the interrupts before each poll. *)
Fixpoint wait_tick (fuel : nat) (n : nat) (tick : Z) : M unit :=
  match fuel with
  | O => throw OutOfFuel
  | S fuel =>
      iterM interrupt (arrivals n) ;;
      t ← timer_tick;
      if tick =? t then wait_tick fuel (S n) tick else mret tt
  end.

Definition check_interrupts : M unit :=
  printfk (str "- checking interrupts... ") [] ;;
  tick ← timer_tick;
  wait_tick patience 0 tick ;;
  printfk (str "OK" ++ nl) [].

(** ** src/kernel/kmain.c *)

Definition KERNEL_ASCII : list Z :=
  str " _____ _____ _____ _____ _____ " ++ nl
  ++ str "|  |  |_   _|   __| __  |     |" ++ nl
  ++ str "|  |  | | | |   __|    -|  |  |" ++ nl
  ++ str "|_____| |_| |_____|__|__|_____|".
Definition KERNEL_NAME : list Z := str "utero-archive".
Definition KERNEL_VERSION : list Z := str "0.5.0".

(** The version is the build's. *)
Definition welcome_messge (version : list Z) : M unit :=
  printfk (str "%s" ++ nl) [VStr KERNEL_ASCII] ;;
  printfk (str "%s %s / Built on: %s at %s" ++ nl ++ nl)
    [VStr KERNEL_NAME; VStr version; VStr build_date; VStr build_time].
Definition print_welcome_messge : M unit := welcome_messge KERNEL_VERSION.

Definition hello_format : list Z :=
  nl ++ str "Hello Human, today's date and time is %2d/%2d/%2d %2d:%2d:%2d UTC" ++ nl.

(** Returning means that the idle loop [while (1) hlt] is reached. *)
Definition kmain (fuel : nat) (magic addr : Z) : M unit :=
  screen_init ;;
  screen_clear ;;
  valid ← multiboot_is_valid magic addr;
  (if (valid : bool) then mret tt
   else PANIC (str "src/kernel/kmain.c") 26 (str "kmain") (str "invalid multiboot") []) ;;
  reserved ← read_multiboot_info fuel addr;
  print_welcome_messge ;;
  printfk (str "- multiboot_start = 0x%X, multiboot_end = 0x%X" ++ nl)
    [VWord (ra_multiboot_start reserved); VWord (ra_multiboot_end reserved)] ;;
  printfk (str "- kernel_start    = 0x%X, kernel_end    = 0x%X" ++ nl)
    [VWord (ra_kernel_start reserved); VWord (ra_kernel_end reserved)] ;;
  isr_init ;;
  irq_init ;;
  printfk (str "- interruptions enabled" ++ nl) [] ;;
  timer_init 50 ;;
  printfk (str "- clock (timer) enabled" ++ nl) [] ;;
  check_interrupts ;;
  serial_init SERIAL_COM1 SERIAL_SPEED_115200 ;;
  keyboard_init ;;
  printfk (str "- keyboard routine enabled" ++ nl) [] ;;
  mmap ← find_multiboot_tag fuel (addr + 8) MULTIBOOT_TAG_TYPE_MMAP;
  mmu_init mmap reserved ;;
  printfk (str "- frame allocator and paging enabled" ++ nl) [] ;;
  rtc ← cmos_read_rtc;
  printfk hello_format
    [VWord (year rtc); VWord (month rtc); VWord (day rtc);
     VWord (hours rtc); VWord (minutes rtc); VWord (seconds rtc)] ;;
  printfk (str "$ ") [].

(** ** After boot *)

(** A hardware interrupt on one of the five lines that have a gate. *)
Inductive step : kstate -> Z -> kstate -> Prop :=
  | step_irq s v sp s' : 32 <= v < 37 -> irq_handler v sp s = Ret tt s' -> step s v s'.

(** What a machine comes to, and how many timer interrupts it had. *)
Inductive reach (s0 : kstate) : Z -> kstate -> Prop :=
  | reach_refl : reach s0 0 s0
  | reach_step n s v s' : reach s0 n s -> step s v s' -> reach s0 (if v =? 32 then n + 1 else n) s'.

End Kernel.

(** ** Lemmas: interrupts in the idle loop *)

(** Ready for interrupts: handlers in place, and the cursor on the page, not
    past the prompt. *)
Definition idle (s : kstate) : Prop :=
  interrupt_handlers s !! 32%nat = Some isr_timer_callback
  /\ interrupt_handlers s !! 33%nat = Some isr_keyboard_callback
  /\ (forall i, (34 <= i < 37)%nat -> interrupt_handlers s !! i = Some isr_null)
  /\ framebuffer (scr s) = VIDEO_ADDRESS
  /\ 0 <= screen_row (scr s) <= 24 /\ 0 <= screen_col (scr s) <= 2.

(** Everything but memory, the trace, the screen's variables and the tick
    count is the same. *)
Definition same_but_tick (s s' : kstate) : Prop :=
  iflag s' = iflag s /\ cr3 s' = cr3 s /\ idt s' = idt s /\ idt_reg s' = idt_reg s
  /\ interrupt_handlers s' = interrupt_handlers s /\ mm s' = mm s.

#[global] Instance same_but_tick_preorder : PreOrder same_but_tick.
Proof.
  split; [by intros s|]. intros s1 s2 s3 H1 H2. unfold same_but_tick in *.
  repeat split; intuition congruence.
Qed.

Section Idle.
Context {E : Env}.

(** A key press in the idle loop. *)
Lemma keyboard_idle stack s :
  framebuffer (scr s) = VIDEO_ADDRESS -> 0 <= screen_row (scr s) <= 24 -> 0 <= screen_col (scr s) <= 2 ->
  exists s', keyboard_callback stack s = Ret tt s'
    /\ framebuffer (scr s') = VIDEO_ADDRESS /\ 0 <= screen_row (scr s') <= 24
    /\ 0 <= screen_col (scr s') <= screen_col (scr s) /\ same_outside_page s s' /\ same_kernel s s'
    /\ exists evs, trace s' = evs ++ In8 KEYBOARD_DATA_PORT (scancode s) :: trace s /\ Forall crtc_out evs.
Proof.
  intros Hfb Hr Hc. pose proof (u8_range (dev_in (trace s) KEYBOARD_DATA_PORT)) as Hb.
  fold (scancode s) in Hb. set (s0 := set_trace (cons (In8 KEYBOARD_DATA_PORT (scancode s))) s).
  assert (Hin : port_byte_in KEYBOARD_DATA_PORT s = Ret (scancode s) s0) by done.
  unfold keyboard_callback. rewrite (bind_ret _ _ _ _ _ Hin).
  destruct (SCANCODE_MAX <? scancode s); [exists s0|].
  { do 3 (split; [done|]). split; [change (scr s0) with (scr s); lia|]. split; [done|].
    split; [by repeat split|by exists []]. }
  assert (Htext : scancode_text (scancode s) = (str "Received scancode: " ++ print_int (scancode s)) ++ [10])
    by (unfold scancode_text; by rewrite <- app_assoc).
  assert (Hlen : (length (print_int (scancode s)) <= 11)%nat) by (apply print_int_length; lia).
  destruct (screen_print_line (str "Received scancode: " ++ print_int (scancode s)) s0)
    as (s' & Hrun & Hcol & Hrow & Hm & Hk); try done.
  - simpl. lia.
  - rewrite length_app, length_str. cbn [String.length]. lia.
  - rewrite length_app, length_str. cbn [String.length]. simpl. lia.
  - apply Forall_app. split; [by apply str_printable|apply print_int_printable].
  - exists s'. destruct Hk as (Hk & Hfb' & _ & Hev). split; [|by repeat split; try lia; rewrite ?Hfb'; try apply Hk].
    rewrite <- Hrun, <- Htext.
    apply (vprintfk_screen (str "Received scancode: %d" ++ nl)); [by apply forallb_bytes|done|].
    by apply scancode_renders.
Qed.

Lemma idle_step v sp s :
  idle s -> 32 <= v < 37 ->
  exists s', irq_handler v sp s = Ret tt s' /\ idle s'
    /\ tick s' = (if v =? 32 then u32 (tick s + 1) else tick s)
    /\ same_outside_page s s' /\ same_but_tick s s'.
Proof.
  intros Hi Hv. pose proof Hi as (H32 & H33 & Hnull & Hfb & Hr & Hc).
  destruct (Z.eq_dec v 32) as [->|]; [|destruct (Z.eq_dec v 33) as [->|]].
  - rewrite (irq_handler_run 32 sp s _ H32). eexists. split; [reflexivity|].
    split; [exact Hi|]. by repeat split.
  - rewrite (irq_handler_run 33 sp s _ H33).
    set (s0 := set_trace (app (eoi_events 33)) s).
    destruct (keyboard_idle (get_stack 33 sp) s0) as (s' & Hrun & Hfb' & Hr' & Hc' & Hm & Hk & _); try done.
    change (scr s0) with (scr s) in Hc'.
    destruct Hk as (K1 & K2 & K3 & K4 & K5 & K6 & K7). exists s'. split; [exact Hrun|].
    split; [unfold idle; rewrite K5; repeat split; (done || apply Hnull || lia)|].
    split; [exact K6|]. split; [exact Hm|]. by repeat split.
  - assert (Hh : interrupt_handlers s !! Z.to_nat v = Some isr_null) by (apply Hnull; lia).
    rewrite (irq_handler_run v sp s _ Hh). eexists. split; [reflexivity|].
    rewrite (proj2 (Z.eqb_neq v 32)) by done. split; [exact Hi|]. by repeat split.
Qed.

Lemma reach_idle s0 n s :
  idle s0 -> 0 <= tick s0 < 2 ^ 32 -> reach s0 n s ->
  idle s /\ tick s = u32 (tick s0 + n) /\ same_outside_page s0 s /\ same_but_tick s0 s.
Proof.
  intros Hi Ht Hr. induction Hr as [|n s v s' _ IH Hstep].
  - rewrite Z.add_0_r, u32_small by done. split; [exact Hi|]. by repeat split.
  - destruct IH as (Hs & Htick & Hm & Hk). destruct Hstep as [s v sp s' Hv Hrun].
    destruct (idle_step v sp s Hs Hv) as (s'' & Hrun' & Hs' & Htick' & Hm' & Hk').
    assert (s'' = s') as -> by (rewrite Hrun' in Hrun; by injection Hrun).
    split; [done|]. split; [|by split; etransitivity].
    rewrite Htick', Htick. destruct (v =? 32); [|done]. word_lia.
Qed.

End Idle.

(** ** Lemmas: the way through kmain

    [at_stage s0 p v s]: since [s0] memory changed on the text page only, the
    cursor is at position [p], and the rest of the kernel's variables are [v]. *)

(** The devices the kernel programs: what their registers are set to. *)
Record devices := Devices {
  d_pic1 : pic_t;
  d_pic2 : pic_t;
  d_pit : pit_t;
  d_uart : uart_t
}.

(** The state they are in at power-on. *)
Class PowerOn := power_on : devices.

(** A controller's setup: everything but the lines in service. *)
Definition pic_setup (p : pic_t) : pic_t :=
  Pic (pic_icw1 p) (pic_next p) (pic_base p) (pic_cascade p) (pic_mode p) (pic_mask p) [].

Definition devices_after {P : PowerOn} (tr : list event) : devices :=
  Devices (pic_setup (pic_after PIC1 (d_pic1 power_on) tr))
    (pic_setup (pic_after PIC2 (d_pic2 power_on) tr))
    (pit_after (d_pit power_on) tr)
    (foldr (uart_step SERIAL_COM1) (d_uart power_on) tr).

Record view := View {
  v_iflag : bool;
  v_cr3 : Z;
  v_idt : list idt_gate_t;
  v_idt_reg : idt_register_t;
  v_handlers : list isr_t;
  v_tick : Z;
  v_mm : mmap_t;
  v_dev : devices
}.

Section Stages.
Context {P : PowerOn}.

(** An event that is none of these devices' business. *)
Definition dev_silent (e : event) : Prop :=
  match e with
  | Out8 p _ => ~ (p = PIC1 \/ p = PIC1_DATA \/ p = PIC2 \/ p = PIC2_DATA \/ p = 0x40 \/ p = 0x43
                   \/ SERIAL_COM1 <= p <= SERIAL_COM1 + 3)
  | _ => True
  end.

Lemma devices_silent evs tr : Forall dev_silent evs -> devices_after (evs ++ tr) = devices_after tr.
Proof.
  induction 1 as [|e evs He _ IH]; [done|]. rewrite <- IH. unfold devices_after.
  destruct e as [p d| | | | | | | ]; try done. cbn [app foldr pic_after pit_after].
  unfold pic_after, pit_after. cbn [foldr]. set (tr' := evs ++ tr). unfold dev_silent in He.
  change PIC1_DATA with (PIC1 + 1) in He. change PIC2_DATA with (PIC2 + 1) in He.
  unfold pic_step at 1 3, pit_step at 1, uart_step at 1.
  rewrite !(proj2 (Z.eqb_neq p _)) by lia. done.
Qed.

Lemma cmos_silent evs : Forall cmos_access evs -> Forall dev_silent evs.
Proof.
  intros H. eapply Forall_impl; [exact H|]. intros [] He; try done. cbn in *. subst.
  unfold CMOS_COMMAND_PORT, PIC1_DATA, PIC1, PIC2_DATA, PIC2, SERIAL_COM1. lia.
Qed.

Lemma crtc_silent evs : Forall crtc_out evs -> Forall dev_silent evs.
Proof.
  intros H. eapply Forall_impl; [exact H|]. intros [] He; try done. cbn in *.
  unfold PIC1_DATA, PIC1, PIC2_DATA, PIC2, SERIAL_COM1, FB_COMMAND_PORT, FB_DATA_PORT in *. lia.
Qed.

Lemma devices_eoi id tr : devices_after (eoi_events id ++ tr) = devices_after tr.
Proof. unfold eoi_events. by case_match. Qed.

(** What the three programming sequences of [kmain] set. *)
Lemma devices_isr_init a n tr :
  devices_after (Sti :: Lidt a n :: pic_init_events ++ tr)
  = Devices (Pic 0x11 0 32 4 1 0 []) (Pic 0x11 0 40 2 1 0 [])
      (d_pit (devices_after tr)) (d_uart (devices_after tr)).
Proof. unfold devices_after. f_equal. Qed.

Lemma devices_timer tr :
  devices_after (timer_events 50 ++ tr)
  = Devices (d_pic1 (devices_after tr)) (d_pic2 (devices_after tr)) (Pit 0x36 None 23863)
      (d_uart (devices_after tr)).
Proof. unfold devices_after. f_equal. Qed.

Definition serial_events : list event :=
  [Out8 0x3FC 0x0B; Out8 0x3FA 0xC7; Out8 0x3FB 3; Out8 0x3F8 1; Out8 0x3F8 0; Out8 0x3FB 0x80].

Lemma devices_serial tr :
  devices_after (serial_events ++ tr)
  = Devices (d_pic1 (devices_after tr)) (d_pic2 (devices_after tr)) (d_pit (devices_after tr))
      (let u := d_uart (devices_after tr) in Uart 3 (uart_dlm u) 1 (uart_tx u)).
Proof. unfold devices_after. f_equal. Qed.

Definition view_of (s : kstate) : view :=
  View (iflag s) (cr3 s) (idt s) (idt_reg s) (interrupt_handlers s) (tick s) (mm s)
    (devices_after (trace s)).

(** A view read field by field. *)
Lemma view_fields s v :
  view_of s = v ->
  iflag s = v_iflag v /\ cr3 s = v_cr3 v /\ idt s = v_idt v /\ idt_reg s = v_idt_reg v
  /\ interrupt_handlers s = v_handlers v /\ tick s = v_tick v /\ mm s = v_mm v
  /\ devices_after (trace s) = v_dev v.
Proof. by intros <-. Qed.

Definition at_stage (s0 : kstate) (p : Z) (v : view) (s : kstate) : Prop :=
  screen_at p s /\ same_outside_page s0 s /\ view_of s = v.

Lemma console_view s s' : console_step s s' -> view_of s' = view_of s.
Proof.
  intros ((K1 & K2 & K3 & K4 & K5 & K6 & K7) & _ & _ & evs & Ht & Hevs). unfold view_of.
  assert (Hd : devices_after (trace s') = devices_after (trace s)); [|congruence].
  rewrite Ht. by apply devices_silent, crtc_silent.
Qed.

(** Port accesses that leave the devices alone. *)
Lemma stage_trace s0 p v s evs :
  at_stage s0 p v s -> devices_after (evs ++ trace s) = devices_after (trace s) ->
  at_stage s0 p v (set_trace (app evs) s).
Proof.
  intros (Hat & Hm & <-) Hd. split; [done|]. split; [done|]. unfold view_of. simpl_state. by rewrite Hd.
Qed.

(** A step that leaves memory and the screen alone. *)
Lemma stage_view s0 p v s s' :
  at_stage s0 p v s -> mem s' = mem s -> scr s' = scr s -> at_stage s0 p (view_of s') s'.
Proof.
  intros (Hat & Hm & _) Em Es. unfold at_stage, screen_at, same_outside_page. rewrite Em, Es.
  by repeat split; try apply Hat.
Qed.

(** An account [I v s] of a state that follows its variables and devices, as
    long as memory and the screen stay. *)
Record tracks (I : view -> kstate -> Prop) : Prop := {
  tr_view : forall v s, I v s -> view_of s = v;
  tr_step : forall v s s', I v s -> mem s' = mem s -> scr s' = scr s -> I (view_of s') s'
}.

Lemma stage_tracks s0 p : tracks (at_stage s0 p).
Proof. split; [by intros v s (_ & _ & H)|]. intros v s s'. apply stage_view. Qed.

Lemma tracks_trace I v s evs :
  tracks I -> I v s -> devices_after (evs ++ trace s) = devices_after (trace s) -> I v (set_trace (app evs) s).
Proof.
  intros HI Hs Hd. rewrite <- (tr_view _ HI _ _ Hs). replace (view_of s) with (view_of (set_trace (app evs) s)).
  - by apply (tr_step _ HI v s).
  - unfold view_of. simpl_state. by rewrite Hd.
Qed.

End Stages.

(** The same stage, by computation. *)
Ltac stage_id Hs :=
  match goal with |- at_stage _ _ _ ?x => exact (stage_view _ _ _ _ x Hs eq_refl eq_refl) end.

Section Boot.
Context {P : PowerOn} {E : Env} {B : Build}.

Lemma stage_print s0 p v s (format : list Z) arg out :
  at_stage s0 p v s -> Forall is_byte format -> Z.of_nat (length format) < 2 ^ 31 ->
  render format arg = Some out -> 0 <= p -> advance p out <= 1920 -> Forall plain out ->
  wp (printfk format arg) (fun _ => at_stage s0 (advance p out) v) s.
Proof.
  intros (Hat & Hm & Hv) Hb Hl Hr Hp Ha Hpl.
  destruct (printfk_page format arg out p s Hb Hl Hr Hat Hp Ha Hpl) as (s' & Hrun & Hat' & Hm' & Hc).
  eapply wp_run; [exact Hrun|]. split; [done|]. split; [by etransitivity|].
  by rewrite (console_view _ _ Hc).
Qed.

(** Rows of text: [n] is where the cursor stands after a line begun at the left
    edge. *)
Lemma advance_line p l :
  Forall printable l -> Z.of_nat (length l) < 80 -> p `mod` 80 = 0 ->
  advance p (l ++ nl) = p + 80.
Proof.
  intros Hl Hlen Hp. rewrite advance_app, (advance_printable l) by done. cbn. unfold SCREEN_WIDTH.
  Z.div_mod_to_equations. lia.
Qed.

Lemma plain_line l : Forall printable l -> Forall plain (l ++ nl).
Proof.
  intros Hl. apply Forall_app. split; [|by repeat constructor].
  eapply Forall_impl; [exact Hl|]. by right.
Qed.

Lemma plain_text l :
  forallb (fun c => (c =? 10) || ((32 <=? c) && (c <? 127))) l = true -> Forall plain l.
Proof.
  intros H. apply Forall_forall. intros c Hc. rewrite forallb_forall in H.
  specialize (H c (proj1 (list_elem_of_In _ _) Hc)). apply orb_true_iff in H as [H|H]; bools.
  - by left.
  - right. unfold printable, is_byte. lia.
Qed.

Lemma stage_line s0 p v s (format : list Z) arg l :
  at_stage s0 p v s -> Forall is_byte format -> Z.of_nat (length format) < 2 ^ 31 ->
  render format arg = Some (l ++ nl) -> Forall printable l -> Z.of_nat (length l) < 80 ->
  p `mod` 80 = 0 -> 0 <= p <= 1840 ->
  wp (printfk format arg) (fun _ => at_stage s0 (p + 80) v) s.
Proof.
  intros Hs Hb Hlf Hr Hpr Hl Hp Hb'. rewrite <- (advance_line p l Hpr Hl Hp).
  apply stage_print; try done; [lia| |by apply plain_line]. rewrite advance_line by done. lia.
Qed.

(** A fixed line. *)
Lemma stage_text s0 p v s (text : list Z) :
  at_stage s0 p v s -> p `mod` 80 = 0 -> 0 <= p <= 1840 ->
  forallb (fun c => (32 <=? c) && (c <? 127) && negb (c =? 37)) text = true ->
  Z.of_nat (length text) < 80 ->
  wp (printfk (text ++ nl) []) (fun _ => at_stage s0 (p + 80) v) s.
Proof.
  intros Hs Hp Hb Ht Hl. assert (Hc : forall c, c ∈ text -> 32 <= c < 127 /\ c <> 37).
  { intros c Hc. rewrite forallb_forall in Ht. specialize (Ht c (proj1 (list_elem_of_In _ _) Hc)).
    apply andb_true_iff in Ht as [Ht Hn]. apply negb_true_iff, Z.eqb_neq in Hn. bools. lia. }
  apply (stage_line s0 p v s _ _ text); try done.
  - apply Forall_app. split; [|by repeat constructor]. apply Forall_forall. intros c Hc'.
    specialize (Hc c Hc'). unfold is_byte. lia.
  - rewrite length_app. cbn [nl length]. lia.
  - apply (render_literal (text ++ nl)). rewrite forallb_app. apply andb_true_iff. split; [|done].
    apply forallb_forall. intros c Hc'%list_elem_of_In. specialize (Hc c Hc').
    by rewrite (proj2 (Z.eqb_neq c 37)) by lia.
  - apply Forall_forall. intros c Hc'. specialize (Hc c Hc'). unfold printable, is_byte. lia.
Qed.

(** ** Lemmas: waiting for the timer *)

Definition set_v_tick (t : Z) (v : view) : view :=
  View (v_iflag v) (v_cr3 v) (v_idt v) (v_idt_reg v) (v_handlers v) t (v_mm v) (v_dev v).

Section Waiting.
Context {I : view -> kstate -> Prop} (HI : tracks I).

(** A line without a handler is only acknowledged. *)
Lemma stage_null v s id sp :
  I v s -> v_iflag v = true -> v_handlers v !! Z.to_nat id = Some isr_null ->
  wp (interrupt (id, sp)) (fun _ => I v) s.
Proof using HI.
  intros Hs Hi Hn. pose proof (tr_view _ HI _ _ Hs) as Hv. rewrite <- Hv in Hi, Hn. cbn in Hi, Hn.
  eapply wp_run.
  - unfold interrupt. step. rewrite Hi. cbn [fst snd]. rewrite (irq_handler_run id sp s _ Hn). reflexivity.
  - apply tracks_trace; [exact HI|exact Hs|apply devices_eoi].
Qed.

Lemma stage_nulls v l : forall s,
  I v s -> v_iflag v = true ->
  Forall (fun a : Z * Z => v_handlers v !! Z.to_nat a.1 = Some isr_null) l ->
  wp (iterM interrupt l) (fun _ => I v) s.
Proof using HI.
  induction l as [|[id sp] l IH]; intros s Hs Hi Hl; [done|]. apply Forall_cons in Hl as [Hn Hl].
  cbn [iterM]. apply wp_bind. eapply wp_mono; [by apply stage_null|]. intros [] s' Hs'. by apply IH.
Qed.

Lemma stage_tick v s sp :
  I v s -> v_iflag v = true -> v_handlers v !! 32%nat = Some isr_timer_callback ->
  wp (interrupt (32, sp)) (fun _ => I (set_v_tick (u32 (v_tick v + 1)) v)) s.
Proof using HI.
  intros Hs Hi Hn. pose proof (tr_view _ HI _ _ Hs) as Hv. rewrite <- Hv in Hi, Hn |- *. cbn in Hi, Hn.
  eapply wp_run.
  - unfold interrupt. step. rewrite Hi. cbn [fst snd]. rewrite (irq_handler_run 32 sp s _ Hn). reflexivity.
  - match goal with |- I _ ?x => assert (E1 : view_of x = set_v_tick (u32 (v_tick (view_of s) + 1)) (view_of s)) end.
    { unfold view_of, set_v_tick. simpl_state. by rewrite devices_eoi. }
    rewrite <- E1. by apply (tr_step _ HI v s).
Qed.

Context {Q : Irqs}.

Lemma stage_wait v sp m : forall fuel k s,
  I v s -> v_iflag v = true -> 0 <= v_tick v < 2 ^ 32 ->
  v_handlers v !! 32%nat = Some isr_timer_callback ->
  (forall j, (j < m)%nat ->
    Forall (fun a : Z * Z => v_handlers v !! Z.to_nat a.1 = Some isr_null) (arrivals (k + j))) ->
  arrivals (k + m) = [(32, sp)] -> (m < fuel)%nat ->
  wp (wait_tick fuel k (v_tick v)) (fun _ => I (set_v_tick (u32 (v_tick v + 1)) v)) s.
Proof using HI.
  induction m as [|m IH]; intros [|fuel] k s Hs Hi Ht H32 Hnull Hlast Hf; try lia; cbn [wait_tick].
  - rewrite Nat.add_0_r in Hlast. rewrite Hlast. apply wp_bind. cbn [iterM]. apply wp_bind.
    eapply wp_mono; [by apply stage_tick|]. intros [] s' Hs'. apply wp_ret. apply wp_bind.
    eapply wp_run; [reflexivity|]. pose proof (tr_view _ HI _ _ Hs') as Hv.
    assert (Et : tick s' = u32 (v_tick v + 1)) by (change (tick s') with (v_tick (view_of s')); by rewrite Hv).
    rewrite Et. rewrite (proj2 (Z.eqb_neq _ _)) by word_lia. exact Hs'.
  - apply wp_bind. eapply wp_mono.
    { apply stage_nulls; [done|done|]. specialize (Hnull 0%nat ltac:(lia)). by rewrite Nat.add_0_r in Hnull. }
    intros [] s' Hs'. apply wp_bind. eapply wp_run; [reflexivity|]. pose proof (tr_view _ HI _ _ Hs') as Hv.
    assert (Et : tick s' = v_tick v) by (change (tick s') with (v_tick (view_of s')); by rewrite Hv).
    rewrite Et, Z.eqb_refl. apply IH; try done; [|by replace (S k + m)%nat with (k + S m)%nat by lia|lia].
    intros j Hj. replace (S k + j)%nat with (k + S j)%nat by lia. apply Hnull. lia.
Qed.

End Waiting.

Context {Q : Irqs}.

(** ** Lemmas: the parts of kmain *)

Lemma stage_start s0 :
  wp (screen_init ;; screen_clear) (fun _ => at_stage s0 0 (view_of s0)) s0.
Proof.
  apply wp_bind. eapply wp_run; [reflexivity|].
  eapply wp_run; [apply screen_clear_run; [done|unfold in_range; simpl; lia]|].
  split; [by repeat split|]. split; [|done]. intros b Hb. simpl. rewrite blank_rows_get. cbn zeta.
  destruct (_ && _) eqn:Eq; [|done]. bools. lia.
Qed.

Lemma stage_welcome s0 v s version :
  at_stage s0 0 v s -> Forall printable version -> (length version <= 10)%nat ->
  Forall printable build_date -> Forall printable build_time ->
  (length build_date <= 16)%nat -> (length build_time <= 16)%nat ->
  wp (welcome_messge version) (fun _ => at_stage s0 480 v) s.
Proof.
  intros Hs Hver Lver Hd Ht Ld Lt. unfold welcome_messge. apply wp_bind.
  assert (Ha : advance 0 (KERNEL_ASCII ++ nl) = 320) by (vm_compute; reflexivity).
  eapply wp_mono.
  { apply (stage_print s0 0 v s _ _ (KERNEL_ASCII ++ nl) Hs).
    - by apply forallb_bytes.
    - vm_compute. reflexivity.
    - vm_compute. reflexivity.
    - lia.
    - rewrite Ha. lia.
    - apply plain_text. vm_compute. reflexivity. }
  rewrite Ha. intros [] s1 Hs1.
  set (l := str "utero-archive " ++ version ++ str " / Built on: " ++ build_date ++ str " at " ++ build_time).
  assert (Hpr : Forall printable l).
  { unfold l. repeat (apply Forall_app; split); first [assumption|apply str_printable; reflexivity]. }
  assert (Hlen : Z.of_nat (length l) < 80).
  { unfold l. rewrite !length_app, !length_str. cbn [String.length]. lia. }
  assert (Ha2 : advance 320 ((l ++ nl) ++ nl) = 480) by (rewrite advance_app, advance_line; done).
  rewrite <- Ha2. apply stage_print.
  - exact Hs1.
  - by apply forallb_bytes.
  - vm_compute. reflexivity.
  - rendering. unfold l. rewrite <- !app_assoc. reflexivity.
  - lia.
  - rewrite Ha2. lia.
  - apply Forall_app. split; [by apply plain_line|]. apply Forall_singleton. by left.
Qed.

(** The two lines with the reserved areas. *)
Lemma stage_hex s0 p v s (a b : list Z) x y :
  at_stage s0 p v s -> p `mod` 80 = 0 -> 0 <= p <= 1840 ->
  forallb (fun c => (32 <=? c) && (c <? 127) && negb (c =? 37)) (a ++ b) = true ->
  Z.of_nat (length (a ++ b)) < 48 ->
  render (a ++ [37; 88] ++ b ++ [37; 88] ++ nl) [VWord x; VWord y] =
    Some ((a ++ numeral 16 (u64 x) ++ b ++ numeral 16 (u64 y)) ++ nl) ->
  wp (printfk (a ++ [37; 88] ++ b ++ [37; 88] ++ nl) [VWord x; VWord y])
    (fun _ => at_stage s0 (p + 80) v) s.
Proof.
  intros Hs Hp Hb Hc Hl Hr. rewrite length_app in Hl.
  assert (Hpl : Forall (fun c => 32 <= c < 127) (a ++ b)).
  { apply Forall_forall. intros c Hin. rewrite forallb_forall in Hc.
    specialize (Hc c (proj1 (list_elem_of_In _ _) Hin)). bools. lia. }
  apply Forall_app in Hpl as [Hpa Hpb].
  assert (Hpr : forall l, Forall (fun c => 32 <= c < 127) l -> Forall printable l).
  { intros l Hf. eapply Forall_impl; [exact Hf|]. intros c Hin. unfold printable, is_byte. simpl in Hin. lia. }
  assert (Hby : forall l, Forall (fun c => 32 <= c < 127) l -> Forall is_byte l).
  { intros l Hf. eapply Forall_impl; [exact Hf|]. intros c Hin. unfold is_byte. simpl in Hin. lia. }
  assert (Hn : forall w, (length (numeral 16 (u64 w)) <= 16)%nat).
  { intros w. apply (numeral_length 16 _ 16); [lia|apply u64_range|lia]. }
  apply (stage_line s0 p v s _ _ (a ++ numeral 16 (u64 x) ++ b ++ numeral 16 (u64 y)) Hs);
    [| |exact Hr| | |exact Hp|exact Hb].
  - repeat (apply Forall_app; split); auto; apply forallb_bytes; reflexivity.
  - rewrite !length_app. cbn [length nl]. lia.
  - repeat (apply Forall_app; split); auto; apply numeral_printable; lia.
  - rewrite !length_app. pose proof (Hn x). pose proof (Hn y). lia.
Qed.

Lemma stage_check s0 p v s sp m :
  at_stage s0 p v s -> p `mod` 80 = 0 -> 0 <= p <= 1840 ->
  v_iflag v = true -> 0 <= v_tick v < 2 ^ 32 -> v_handlers v !! 32%nat = Some isr_timer_callback ->
  (forall j, (j < m)%nat ->
    Forall (fun a : Z * Z => v_handlers v !! Z.to_nat a.1 = Some isr_null) (arrivals j)) ->
  arrivals m = [(32, sp)] -> (m < patience)%nat ->
  wp check_interrupts (fun _ => at_stage s0 (p + 80) (set_v_tick (u32 (v_tick v + 1)) v)) s.
Proof.
  intros Hs Hp Hb Hi Ht H32 Hnull Hlast Hm. unfold check_interrupts. apply wp_bind.
  assert (Ha : advance p (str "- checking interrupts... ") = p + 25).
  { rewrite advance_printable by (by apply str_printable). rewrite length_str. cbn. lia. }
  eapply wp_mono.
  { apply (stage_print s0 p v s _ _ (str "- checking interrupts... ") Hs).
    - by apply forallb_bytes.
    - vm_compute. reflexivity.
    - vm_compute. reflexivity.
    - lia.
    - lia.
    - apply plain_text. vm_compute. reflexivity. }
  rewrite Ha. intros [] s1 Hs1. apply wp_bind. eapply wp_run; [reflexivity|].
  assert (Et : tick s1 = v_tick v) by (destruct Hs1 as (_ & _ & <-); done). rewrite Et.
  apply wp_bind. eapply wp_mono; [by apply (stage_wait (stage_tracks s0 (p + 25)) v sp m)|]. intros [] s2 Hs2.
  assert (Ha2 : advance (p + 25) (str "OK" ++ nl) = p + 80).
  { rewrite advance_app, (advance_printable (str "OK")) by (by apply str_printable).
    rewrite length_str. cbn. unfold SCREEN_WIDTH. Z.div_mod_to_equations. lia. }
  rewrite <- Ha2. apply stage_print.
  - exact Hs2.
  - by apply forallb_bytes.
  - vm_compute. reflexivity.
  - vm_compute. reflexivity.
  - lia.
  - lia.
  - apply plain_text. vm_compute. reflexivity.
Qed.

(** The line with date and time: numbers padded to two digits. *)
Definition two_digits (n : Z) : list Z :=
  replicate (2 - length (print_int n)) 48 ++ print_int n.

Definition hello_text (c : cmos_rtc_t) : list Z :=
  str "Hello Human, today's date and time is " ++ two_digits (year c) ++ str "/"
  ++ two_digits (month c) ++ str "/" ++ two_digits (day c) ++ str " " ++ two_digits (hours c)
  ++ str ":" ++ two_digits (minutes c) ++ str ":" ++ two_digits (seconds c) ++ str " UTC".

Lemma render_conv_2d w arg :
  - 2 ^ 31 < w < 2 ^ 31 -> render_conv 100 2 (VWord w :: arg) = Some (two_digits w, arg).
Proof.
  intros Hw. unfold render_conv. cbn [Z.eqb Pos.eqb orb]. rewrite s32_small by lia.
  by rewrite (proj2 (Z.eqb_neq w _)) by lia.
Qed.

Lemma two_digits_printable n : Forall printable (two_digits n).
Proof.
  apply Forall_app. split; [|apply print_int_printable]. apply Forall_replicate.
  unfold printable, is_byte. lia.
Qed.

Lemma two_digits_length n : 0 <= n < 10000 -> (length (two_digits n) <= 4)%nat.
Proof.
  intros Hn. unfold two_digits. rewrite length_app, length_replicate.
  assert (length (print_int n) <= 4)%nat; [|lia].
  unfold print_int. rewrite (proj2 (Z.ltb_ge n 0)) by lia. apply (numeral_length 10 _ 4); lia.
Qed.

Definition rtc_ok (c : cmos_rtc_t) : Prop :=
  Forall (fun n => 0 <= n < 10000) [year c; month c; day c; hours c; minutes c; seconds c].

Lemma hello_renders c :
  rtc_ok c ->
  render hello_format [VWord (year c); VWord (month c); VWord (day c);
     VWord (hours c); VWord (minutes c); VWord (seconds c)] = Some (nl ++ hello_text c ++ nl).
Proof.
  unfold rtc_ok. rewrite !Forall_cons. intros (? & ? & ? & ? & ? & ? & _). unfold render.
  let ds := eval vm_compute in (parse_format hello_format) in
  replace (parse_format hello_format) with ds by (vm_compute; reflexivity).
  cbn [render_all]. repeat (rewrite render_conv_2d by lia; cbn [mbind option_bind]).
  unfold hello_text. rewrite <- !app_assoc. reflexivity.
Qed.

Lemma hello_text_ok c :
  rtc_ok c -> Forall printable (hello_text c) /\ Z.of_nat (length (hello_text c)) < 80.
Proof.
  unfold rtc_ok. rewrite !Forall_cons. intros (Hy & Hmo & Hd & Hh & Hmi & Hse & _). split.
  - unfold hello_text. repeat (apply Forall_app; split; [first [apply two_digits_printable
      | apply str_printable; reflexivity]|]). apply str_printable; reflexivity.
  - unfold hello_text. rewrite !length_app, !length_str. cbn [String.length].
    pose proof (two_digits_length _ Hy). pose proof (two_digits_length _ Hmo).
    pose proof (two_digits_length _ Hd). pose proof (two_digits_length _ Hh).
    pose proof (two_digits_length _ Hmi). pose proof (two_digits_length _ Hse). lia.
Qed.

Lemma stage_hello s0 p v s c :
  at_stage s0 p v s -> p `mod` 80 = 0 -> 0 <= p <= 1760 -> rtc_ok c ->
  wp (printfk hello_format [VWord (year c); VWord (month c); VWord (day c);
        VWord (hours c); VWord (minutes c); VWord (seconds c)])
    (fun _ => at_stage s0 (p + 160) v) s.
Proof.
  intros Hs Hp Hb Hc. destruct (hello_text_ok c Hc) as [Hpr Hlen].
  assert (Ha : advance p (nl ++ hello_text c ++ nl) = p + 160).
  { rewrite advance_app. change (advance p nl) with ((p / 80 + 1) * 80).
    rewrite advance_line; [Z.div_mod_to_equations; lia|done|done|]. Z.div_mod_to_equations. lia. }
  rewrite <- Ha. apply stage_print.
  - exact Hs.
  - by apply forallb_bytes.
  - vm_compute. reflexivity.
  - by apply hello_renders.
  - lia.
  - lia.
  - apply Forall_app. split; [apply Forall_singleton; by left|by apply plain_line].
Qed.

Lemma stage_prompt s0 p v s :
  at_stage s0 p v s -> 0 <= p <= 1840 ->
  wp (printfk (str "$ ") []) (fun _ => at_stage s0 (p + 2) v) s.
Proof.
  intros Hs Hb. assert (Ha : advance p (str "$ ") = p + 2).
  { rewrite advance_printable by (by apply str_printable). reflexivity. }
  rewrite <- Ha. apply stage_print.
  - exact Hs.
  - by apply forallb_bytes.
  - vm_compute. reflexivity.
  - vm_compute. reflexivity.
  - lia.
  - lia.
  - apply plain_text. vm_compute. reflexivity.
Qed.

(** ** Lemmas: what the statements of kmain set up *)

Definition set_v_dev (d : devices) (v : view) : view :=
  View (v_iflag v) (v_cr3 v) (v_idt v) (v_idt_reg v) (v_handlers v) (v_tick v) (v_mm v) d.
Definition set_v_mm (mp : mmap_t) (v : view) : view :=
  View (v_iflag v) (v_cr3 v) (v_idt v) (v_idt_reg v) (v_handlers v) (v_tick v) mp (v_dev v).
Definition set_v_handler (i : nat) (h : isr_t) (v : view) : view :=
  View (v_iflag v) (v_cr3 v) (v_idt v) (v_idt_reg v) (<[i := h]> (v_handlers v)) (v_tick v) (v_mm v) (v_dev v).

(** Both controllers at their vectors with all lines enabled; the timer at 50 Hz;
    the serial port at 8N1 with 1 in the low byte of the divisor. *)
Definition irq_devices (d : devices) : devices :=
  Devices (Pic 0x11 0 32 4 1 0 []) (Pic 0x11 0 40 2 1 0 []) (d_pit d) (d_uart d).
Definition timer_devices (d : devices) : devices :=
  Devices (d_pic1 d) (d_pic2 d) (Pit 0x36 None 23863) (d_uart d).
Definition serial_devices (d : devices) : devices :=
  Devices (d_pic1 d) (d_pic2 d) (d_pit d) (Uart 3 (uart_dlm (d_uart d)) 1 (uart_tx (d_uart d))).

Definition irq_view (v : view) : view :=
  View true (v_cr3 v) (installed (v_idt v)) (IdtRegister 4095 (u64 idt_addr))
    (<[3%nat := isr_breakpoint_handler]> (v_handlers v)) (v_tick v) (v_mm v) (irq_devices (v_dev v)).

Definition mm_of (mmap : Z) (r : reserved_areas_t) : mmap_t :=
  Mmap mmap (ra_kernel_start r) (ra_kernel_end r) (ra_multiboot_start r) (ra_multiboot_end r) 1.

Section Programs.
Context {I : view -> kstate -> Prop} (HI : tracks I).

Lemma stage_set (c : M unit) v v' s s' :
  I v s -> c s = Ret tt s' -> mem s' = mem s -> scr s' = scr s -> view_of s' = v' -> wp c (fun _ => I v') s.
Proof using HI. intros Hs Hr Em Es <-. eapply wp_run; [exact Hr|]. by apply (tr_step _ HI v s). Qed.

Lemma stage_interrupts v s (K : unit -> kstate -> Prop) (rest : M unit) :
  I v s -> (forall s', I (irq_view v) s' -> wp rest K s') -> wp (isr_init ;; irq_init ;; rest) K s.
Proof using HI.
  intros Hs Hrest. pose proof (tr_view _ HI _ _ Hs) as Hv. apply wp_bind. eapply wp_run; [apply isr_init_run|].
  apply wp_bind. eapply wp_run; [reflexivity|]. apply Hrest. match goal with |- I _ ?x => set (s' := x) end.
  assert (E1 : view_of s' = irq_view v).
  { rewrite <- Hv. unfold s', view_of, irq_view. simpl_state. rewrite devices_isr_init. reflexivity. }
  rewrite <- E1. by apply (tr_step _ HI v s).
Qed.

Lemma stage_timer_init v s :
  I v s -> wp (timer_init 50) (fun _ => I (set_v_handler 32 isr_timer_callback (set_v_dev (timer_devices (v_dev v)) v))) s.
Proof using HI.
  intros Hs. pose proof (tr_view _ HI _ _ Hs) as Hv. eapply stage_set; [exact Hs|apply timer_init_run; lia|done|done|].
  rewrite <- Hv. unfold view_of. simpl_state. rewrite devices_timer. reflexivity.
Qed.

Lemma stage_serial_init v s :
  I v s -> wp (serial_init SERIAL_COM1 SERIAL_SPEED_115200) (fun _ => I (set_v_dev (serial_devices (v_dev v)) v)) s.
Proof using HI.
  intros Hs. pose proof (tr_view _ HI _ _ Hs) as Hv.
  eapply (stage_set _ _ _ s (set_trace (app serial_events) s)); [exact Hs|reflexivity|done|done|].
  rewrite <- Hv. unfold view_of. simpl_state. rewrite devices_serial. reflexivity.
Qed.

Lemma stage_keyboard_init v s :
  I v s -> wp keyboard_init (fun _ => I (set_v_handler 33 isr_keyboard_callback v)) s.
Proof using HI.
  intros Hs. pose proof (tr_view _ HI _ _ Hs) as Hv. eapply stage_set; [exact Hs|reflexivity|done|done|].
  rewrite <- Hv. reflexivity.
Qed.

Lemma stage_mmu_init v mmap r s : I v s -> wp (mmu_init mmap r) (fun _ => I (set_v_mm (mm_of mmap r) v)) s.
Proof using HI.
  intros Hs. pose proof (tr_view _ HI _ _ Hs) as Hv. eapply stage_set; [exact Hs|reflexivity|done|done|].
  rewrite <- Hv. reflexivity.
Qed.

Lemma stage_clock (binary : bool) c {R : Rtc (encode binary true c)} v s :
  clock_ok c -> I v s -> wp cmos_read_rtc (fun rtc s' => rtc = rtc_of c (clk_hour c) /\ I v s') s.
Proof using HI.
  intros Hc Hs. destruct (reads_rtc s) as [evs [Hrtc Hevs]].
  rewrite convert_encode, convert_hour_24 in Hrtc by (done || apply Hc).
  eapply wp_run; [exact Hrtc|]. split; [done|]. apply tracks_trace; [exact HI|exact Hs|].
  apply devices_silent. by apply cmos_silent.
Qed.

End Programs.

(** ** Lemmas: the whole of kmain *)

Definition boot_areas (addr : Z) (ts : list tag_t) : reserved_areas_t :=
  let r := add_sections (loaded ts) (ReservedAreas (2 ^ 64 - 1) 0 addr 0) in
  ReservedAreas (ra_kernel_start r) (ra_kernel_end r) (ra_multiboot_start r) (end_tag (addr + 8) ts + 8).

(** The devices when the interrupts are checked and when the idle loop is reached. *)
Definition clock_devices (d : devices) : devices := timer_devices (irq_devices d).
Definition booted_devices (d : devices) : devices := serial_devices (clock_devices d).

(** The kernel's variables when the idle loop is reached. *)
Definition booted_view (addr : Z) (ts : list tag_t) (v : view) : view :=
  View true (v_cr3 v) (installed (v_idt v)) (IdtRegister 4095 (u64 idt_addr))
    (<[33%nat := isr_keyboard_callback]> (<[32%nat := isr_timer_callback]>
       (<[3%nat := isr_breakpoint_handler]> (v_handlers v))))
    (u32 (v_tick v + 1)) (mm_of (first_tag (addr + 8) ts MULTIBOOT_TAG_TYPE_MMAP) (boot_areas addr ts))
    (booted_devices (v_dev v)).

(** What the loader and the devices provide. *)
Record boot_ok (fuel : nat) (addr : Z) (ts : list tag_t) (m : nat) (sp : Z) (s0 : kstate) : Prop := {
  bo_addr : 0 <= addr /\ addr `mod` 8 = 0;
  bo_tags : tags_at (mem s0) (addr + 8) ts;
  bo_fuel : (steps_of ts < fuel)%nat;
  bo_page : end_tag (addr + 8) ts + 8 <= VIDEO_ADDRESS \/ VIDEO_ADDRESS + 4000 <= addr;
  bo_idt : length (idt s0) = 256%nat;
  bo_handlers : interrupt_handlers s0 = replicate 256 isr_null;
  bo_tick : 0 <= tick s0 < 2 ^ 32;
  bo_date : Forall printable build_date /\ (length build_date <= 16)%nat;
  bo_time : Forall printable build_time /\ (length build_time <= 16)%nat;
  bo_early : forall j, (j < m)%nat -> Forall (fun a : Z * Z => 33 <= a.1 < 37) (arrivals j);
  bo_timer : arrivals m = [(32, sp)];
  bo_patience : (m < patience)%nat
}.

Lemma length_steps ts : (length ts <= steps_of ts)%nat.
Proof. induction ts; simpl; lia. Qed.

Lemma multiboot_valid_run addr s :
  0 <= addr < 2 ^ 63 -> addr `mod` 8 = 0 -> multiboot_is_valid MULTIBOOT2_MAGIC_VALUE addr s = Ret true s.
Proof.
  intros Ha Hm. unfold multiboot_is_valid.
  change (negb (u64 MULTIBOOT2_MAGIC_VALUE =? MULTIBOOT2_MAGIC_VALUE)) with false. cbn iota.
  rewrite u64_small, (land_low _ 7 3) by (done || lia). change (2 ^ 3) with 8. by rewrite Hm.
Qed.

Context {fuel m : nat} {addr sp : Z} {ts : list tag_t} {s0 : kstate}.
Context (Hok : boot_ok fuel addr ts m sp s0).

Lemma stage_tags p v s : at_stage s0 p v s -> tags_at (mem s) (addr + 8) ts.
Proof using Hok.
  intros (_ & Hm & _). apply (tags_at_ext ts (mem s0)); [apply Hok|]. intros b Hb. apply Hm.
  destruct (bo_page _ _ _ _ _ _ Hok); lia.
Qed.

Lemma stage_info p v s :
  at_stage s0 p v s -> read_multiboot_info fuel addr s = Ret (boot_areas addr ts) s.
Proof using Hok.
  intros Hs. rewrite (read_info_run fuel addr ts); [done|apply Hok|by eapply stage_tags|apply Hok].
Qed.

Lemma early_null j hs :
  hs = <[32%nat := isr_timer_callback]> (<[3%nat := isr_breakpoint_handler]> (interrupt_handlers s0)) ->
  (j < m)%nat ->
  Forall (fun a : Z * Z => hs !! Z.to_nat a.1 = Some isr_null) (arrivals j).
Proof using Hok.
  intros -> Hj. eapply Forall_impl; [by apply Hok|]. intros [v x] Hv. simpl in Hv.
  cbn [fst]. rewrite !list_lookup_insert_ne by lia. rewrite (bo_handlers _ _ _ _ _ _ Hok).
  apply lookup_replicate. split; [done|lia].
Qed.

(** The kernel's variables since the interrupts are on, with handlers [hs], tick
    [t] and devices [d]. *)
Definition open_view (hs : list isr_t) (t : Z) (mp : mmap_t) (d : devices) : view :=
  View true (cr3 s0) (installed (idt s0)) (IdtRegister 4095 (u64 idt_addr)) hs t mp d.

Definition breakpoint_handlers : list isr_t := <[3%nat := isr_breakpoint_handler]> (interrupt_handlers s0).
Definition timer_handlers : list isr_t := <[32%nat := isr_timer_callback]> breakpoint_handlers.

(** Everything between the welcome message and the interrupts. *)
Lemma kmain_to_irqs d (K : unit -> kstate -> Prop) (rest : M unit) :
  (forall s, at_stage s0 640 (open_view breakpoint_handlers (tick s0) (mm s0) (irq_devices d)) s -> wp rest K s) ->
  forall s, at_stage s0 480 (set_v_dev d (view_of s0)) s ->
  wp (printfk (str "- multiboot_start = 0x%X, multiboot_end = 0x%X" ++ nl)
        [VWord (ra_multiboot_start (boot_areas addr ts)); VWord (ra_multiboot_end (boot_areas addr ts))] ;;
      printfk (str "- kernel_start    = 0x%X, kernel_end    = 0x%X" ++ nl)
        [VWord (ra_kernel_start (boot_areas addr ts)); VWord (ra_kernel_end (boot_areas addr ts))] ;;
      isr_init ;;
      irq_init ;;
      rest) K s.
Proof using.
  clear Hok. intros Hrest s Hs. apply wp_bind. eapply wp_mono.
  { apply (stage_hex s0 480 _ s (str "- multiboot_start = 0x") (str ", multiboot_end = 0x") _ _ Hs);
      [done|lia|reflexivity|vm_compute; reflexivity|]. rendering. rewrite <- !app_assoc. reflexivity. }
  intros [] s1 H1. apply wp_bind. eapply wp_mono.
  { apply (stage_hex s0 560 _ s1 (str "- kernel_start    = 0x") (str ", kernel_end    = 0x") _ _ H1);
      [done|lia|reflexivity|vm_compute; reflexivity|]. rendering. rewrite <- !app_assoc. reflexivity. }
  intros [] s2 H2. apply (stage_interrupts (stage_tracks s0 640) _ _ _ _ H2). intros s3 H3. by apply Hrest.
Qed.

Lemma timer_line : timer_handlers !! 32%nat = Some isr_timer_callback.
Proof using Hok.
  unfold timer_handlers, breakpoint_handlers. rewrite list_lookup_insert_eq; [done|].
  rewrite length_insert, (bo_handlers _ _ _ _ _ _ Hok), length_replicate. lia.
Qed.

(** From the interrupts to the end of their check. *)
Lemma kmain_to_check d (K : unit -> kstate -> Prop) (rest : M unit) :
  (forall s, at_stage s0 880 (open_view timer_handlers (u32 (tick s0 + 1)) (mm s0) (clock_devices d)) s -> wp rest K s) ->
  forall s, at_stage s0 640 (open_view breakpoint_handlers (tick s0) (mm s0) (irq_devices d)) s ->
  wp (printfk (str "- interruptions enabled" ++ nl) [] ;;
      timer_init 50 ;;
      printfk (str "- clock (timer) enabled" ++ nl) [] ;;
      check_interrupts ;;
      rest) K s.
Proof using Hok.
  intros Hrest s Hs.
  apply wp_bind. eapply wp_mono; [apply (stage_text s0 640 _ s _ Hs); [done|lia|done|done]|].
  intros [] s1 H1. apply wp_bind. eapply wp_mono; [exact (stage_timer_init (stage_tracks s0 720) _ _ H1)|].
  intros [] s2 H2. apply wp_bind. eapply wp_mono; [apply (stage_text s0 720 _ s2 _ H2); [done|lia|done|done]|].
  intros [] s3 H3. apply wp_bind. eapply wp_mono.
  { eapply (stage_check s0 800 _ s3 sp m H3); [done|lia|done|apply Hok|exact timer_line| |apply Hok|apply Hok].
    intros j Hj. by apply early_null. }
  intros [] s4 H4. apply Hrest. exact H4.
Qed.

Lemma rtc_of_ok c : clock_ok c -> rtc_ok (rtc_of c (clk_hour c)).
Proof using.
  unfold clock_ok. intros Hc. unfold rtc_ok, rtc_of.
  cbn [year month day hours minutes seconds]. repeat constructor; lia.
Qed.

Lemma stage_find p v s :
  at_stage s0 p v s ->
  find_multiboot_tag fuel (addr + 8) MULTIBOOT_TAG_TYPE_MMAP s = Ret (first_tag (addr + 8) ts MULTIBOOT_TAG_TYPE_MMAP) s.
Proof using Hok.
  intros Hs. change MULTIBOOT_TAG_TYPE_MMAP with (u16 MULTIBOOT_TAG_TYPE_MMAP) at 2.
  apply (find_run ts); [by eapply stage_tags|].
  pose proof (length_steps ts). pose proof (bo_fuel _ _ _ _ _ _ Hok). lia.
Qed.

(** The variables and devices when [kmain] has set up the rest. *)
Definition final_view (t : Z) (d : devices) : view :=
  open_view (<[33%nat := isr_keyboard_callback]> timer_handlers) t
    (mm_of (first_tag (addr + 8) ts MULTIBOOT_TAG_TYPE_MMAP) (boot_areas addr ts)) (serial_devices (clock_devices d)).

(** From the interrupt check to the prompt. *)
Lemma kmain_second_half (binary : bool) c {R : Rtc (encode binary true c)} t d s :
  clock_ok c -> at_stage s0 880 (open_view timer_handlers t (mm s0) (clock_devices d)) s ->
  wp (serial_init SERIAL_COM1 SERIAL_SPEED_115200 ;;
      keyboard_init ;;
      printfk (str "- keyboard routine enabled" ++ nl) [] ;;
      mmap ← find_multiboot_tag fuel (addr + 8) MULTIBOOT_TAG_TYPE_MMAP;
      mmu_init mmap (boot_areas addr ts) ;;
      printfk (str "- frame allocator and paging enabled" ++ nl) [] ;;
      rtc ← cmos_read_rtc;
      printfk hello_format
        [VWord (year rtc); VWord (month rtc); VWord (day rtc);
         VWord (hours rtc); VWord (minutes rtc); VWord (seconds rtc)] ;;
      printfk (str "$ ") [])
    (fun _ => at_stage s0 1202 (final_view t d)) s.
Proof using Hok.
  intros Hc Hs. apply wp_bind. eapply wp_mono; [exact (stage_serial_init (stage_tracks s0 880) _ _ Hs)|]. intros [] s1 H1.
  apply wp_bind. eapply wp_mono; [exact (stage_keyboard_init (stage_tracks s0 880) _ _ H1)|]. intros [] s2 H2.
  apply wp_bind. eapply wp_mono; [apply (stage_text s0 880 _ s2 _ H2); [done|lia|done|done]|].
  intros [] s3 H3. apply wp_bind. eapply wp_run; [exact (stage_find _ _ _ H3)|].
  apply wp_bind. eapply wp_mono; [exact (stage_mmu_init (stage_tracks s0 960) _ _ _ _ H3)|]. intros [] s4 H4.
  apply wp_bind. eapply wp_mono; [apply (stage_text s0 960 _ s4 _ H4); [done|lia|done|done]|].
  intros [] s5 H5. apply wp_bind. eapply wp_mono; [exact (stage_clock (stage_tracks s0 1040) binary c _ _ Hc H5)|].
  intros rtc s6 [-> H6].
  apply wp_bind. eapply wp_mono; [apply (stage_hello s0 1040 _ s6 _ H6); [done|lia|by apply rtc_of_ok]|].
  intros [] s7 H7. eapply wp_mono; [apply (stage_prompt s0 1200 _ s7 H7); lia|].
  intros [] s8 H8. exact H8.
Qed.

(** Everything before the boot information. *)
Lemma kmain_valid :
  exists s1, at_stage s0 0 (view_of s0) s1 /\ forall rest : M unit,
    (screen_init ;;
     screen_clear ;;
     valid ← multiboot_is_valid MULTIBOOT2_MAGIC_VALUE addr;
     (if (valid : bool) then mret tt
      else PANIC (str "src/kernel/kmain.c") 26 (str "kmain") (str "invalid multiboot") []) ;;
     rest) s0 = rest s1.
Proof using Hok.
  destruct (bo_addr _ _ _ _ _ _ Hok) as [Ha Hal].
  assert (Hb : 0 <= addr + 8 < 2 ^ 63) by (pose proof (bo_tags _ _ _ _ _ _ Hok) as Ht; by destruct ts, Ht).
  pose proof (stage_start s0) as Hst. apply wp_inv in Hst as ([] & s1 & Hrun & H1).
  exists s1. split; [exact H1|]. intros rest.
  rewrite <- (bind_assoc screen_init (fun _ => screen_clear) _ s0), (bind_ret _ _ _ _ _ Hrun).
  rewrite (bind_ret _ _ _ _ _ (multiboot_valid_run addr s1 ltac:(lia) Hal)).
  by rewrite (bind_ret _ _ _ tt s1).
Qed.

(** Run [tac] with the calls of [kmain] compared by name, not by definition. *)
Local Ltac kmain_calls tac :=
  with_strategy opaque
    [mbind M_bind print_welcome_messge printfk isr_init irq_init timer_init check_interrupts serial_init
     keyboard_init find_multiboot_tag mmu_init cmos_read_rtc str] tac.

(** Everything before the interrupts, in front of the rest. *)
Lemma kmain_start (K : unit -> kstate -> Prop) (rest : reserved_areas_t -> M unit) :
  (forall s, at_stage s0 640 (open_view breakpoint_handlers (tick s0) (mm s0)
                                (irq_devices (devices_after (trace s0)))) s -> wp (rest (boot_areas addr ts)) K s) ->
  wp (screen_init ;;
      screen_clear ;;
      valid ← multiboot_is_valid MULTIBOOT2_MAGIC_VALUE addr;
      (if (valid : bool) then mret tt
       else PANIC (str "src/kernel/kmain.c") 26 (str "kmain") (str "invalid multiboot") []) ;;
      reserved ← read_multiboot_info fuel addr;
      print_welcome_messge ;;
      printfk (str "- multiboot_start = 0x%X, multiboot_end = 0x%X" ++ nl)
        [VWord (ra_multiboot_start reserved); VWord (ra_multiboot_end reserved)] ;;
      printfk (str "- kernel_start    = 0x%X, kernel_end    = 0x%X" ++ nl)
        [VWord (ra_kernel_start reserved); VWord (ra_kernel_end reserved)] ;;
      isr_init ;;
      irq_init ;;
      rest reserved) K s0.
Proof using Hok.
  intros Hrest. destruct kmain_valid as (s1 & H1 & Hpre). unfold wp. rewrite Hpre.
  rewrite (bind_ret _ _ _ _ _ (stage_info _ _ _ H1)).
  destruct (bo_date _ _ _ _ _ _ Hok) as [Hd Ld]. destruct (bo_time _ _ _ _ _ _ Hok) as [Ht Lt].
  kmain_calls ltac:(apply wp_bind). eapply wp_mono.
  { apply (stage_welcome s0 (view_of s0) s1 KERNEL_VERSION); try assumption;
      [by apply str_printable|apply Nat.leb_le; reflexivity]. }
  intros [] s2 H2.
  by apply (kmain_to_irqs (devices_after (trace s0))).
Qed.

Lemma kmain_run (binary : bool) c {R : Rtc (encode binary true c)} :
  clock_ok c ->
  wp (kmain fuel MULTIBOOT2_MAGIC_VALUE addr)
    (fun _ => at_stage s0 1202 (booted_view addr ts (view_of s0))) s0.
Proof using Hok.
  intros Hc. unfold kmain. kmain_calls ltac:(apply kmain_start). intros s1 H1.
  kmain_calls ltac:(eapply kmain_to_check); [|exact H1]. intros s2 H2.
  eapply wp_mono; [by kmain_calls ltac:(eapply (kmain_second_half binary c))|].
  intros [] s3 H3. exact H3.
Qed.

End Boot.

(** ** Lemmas: a refused boot *)

Lemma kmain_panic_renders :
  render (nl ++ str "PANIC in %s:%d:%s(): " ++ str "invalid multiboot" ++ nl ++ str "%s")
    ([VStr (str "src/kernel/kmain.c"); VWord 26; VStr (str "kmain")] ++ [] ++ [VStr []])
  = Some (panic_text (str "src/kernel/kmain.c") 26 (str "kmain") (str "invalid multiboot")).
Proof. vm_compute. reflexivity. Qed.

Lemma kmain_panic_run {E : Env} s k :
  screen_within k s -> 80 <= k < 2 ^ 18 ->
  exists s', PANIC (str "src/kernel/kmain.c") 26 (str "kmain") (str "invalid multiboot") [] s = Halted (stopped s')
    /\ screen_print (panic_text (str "src/kernel/kmain.c") 26 (str "kmain") (str "invalid multiboot")
                      ++ halted_text) s = Ret tt s'
    /\ console_step s s'.
Proof.
  intros Hw Hk.
  assert (Hb : Forall is_byte (nl ++ str "PANIC in %s:%d:%s(): " ++ str "invalid multiboot" ++ nl ++ str "%s"))
    by (apply forallb_bytes; reflexivity).
  assert (Hl : (length (panic_text (str "src/kernel/kmain.c") 26 (str "kmain") (str "invalid multiboot")) <= 100)%nat)
    by (vm_compute; lia).
  exact (kernel_panic_run _ _ _ s k Hb ltac:(vm_compute; reflexivity) kmain_panic_renders Hw
    ltac:(lia) ltac:(lia)).
Qed.

Lemma waits_forever {E : Env} {Q : Irqs} fuel : forall k s,
  iflag s = false -> wait_tick fuel k (tick s) s = Fault OutOfFuel.
Proof.
  induction fuel as [|fuel IH]; intros k s Hi; [done|]. cbn [wait_tick].
  assert (Hnone : forall l, iterM interrupt l s = Ret tt s).
  { induction l as [|a l IHl]; [done|]. cbn [iterM]. rewrite (bind_ret _ _ _ tt s); [done|].
    unfold interrupt. step. by rewrite Hi. }
  rewrite (bind_ret _ _ _ _ _ (Hnone _)). erewrite bind_ret; [|reflexivity].
  rewrite Z.eqb_refl. by apply IH.
Qed.

(** Where boot ends, the kernel is ready for interrupts. *)
Definition boot_handlers : list isr_t :=
  <[33%nat := isr_keyboard_callback]> (<[32%nat := isr_timer_callback]>
    (<[3%nat := isr_breakpoint_handler]> (replicate 256 isr_null))).

(** A cursor on the page, not past the prompt. *)
Definition at_prompt (s : kstate) : Prop :=
  framebuffer (scr s) = VIDEO_ADDRESS /\ 0 <= screen_row (scr s) <= 24 /\ 0 <= screen_col (scr s) <= 2.

Lemma prompt_after_boot s : screen_at 1202 s -> at_prompt s.
Proof. intros (Hfb & Hr & Hcol). unfold at_prompt. rewrite Hfb, Hr, Hcol. vm_compute. by repeat split. Qed.

Lemma booted_idle s : interrupt_handlers s = boot_handlers -> at_prompt s -> idle s.
Proof.
  intros Hh Hp. unfold idle. rewrite Hh.
  split; [vm_compute; reflexivity|]. split; [vm_compute; reflexivity|]. split; [|exact Hp].
  intros i Hb. assert (i = 34 \/ i = 35 \/ i = 36)%nat as [-> |[-> | ->]] by lia; vm_compute; reflexivity.
Qed.

(** ** Properties *)

(** C2: the kernel boots.  Given the loader's magic number, a well-formed boot
    information outside the text page, a clock in 24-hour mode and a timer
    interrupt while [check_interrupts] waits (other lines may interrupt
    before it), [kmain] reaches its idle loop without fault or panic.  Then
    interrupts are on, every exception and IRQ 0 to 4 have their gates, the
    timer and the keyboard have their handlers, the allocator has the loader's
    memory map and the kernel's and boot information's areas, the prompt is on
    row 15, and outside the text page no memory has changed.  The devices,
    whatever state they had at power-on, are programmed: both interrupt
    controllers at their vectors, the timer at 50 Hz, the serial port at 8N1
    with nothing sent. *)
Theorem kmain_boots {P : PowerOn} {E : Env} {B : Build} {Q : Irqs} fuel addr ts m sp s0
    (binary : bool) c {R : Rtc (encode binary true c)} :
  boot_ok fuel addr ts m sp s0 -> clock_ok c ->
  exists s', kmain fuel MULTIBOOT2_MAGIC_VALUE addr s0 = Ret tt s'
    /\ idle s' /\ iflag s' = true /\ tick s' = u32 (tick s0 + 1)
    /\ (forall v, 0 <= v < 32 -> hw_gate s' v = Some (kernel_gate (u64 (isr_stub v))))
    /\ (forall i, 0 <= i < 5 -> hw_gate s' (32 + i) = Some (kernel_gate (u64 (irq_stub i))))
    /\ interrupt_handlers s' !! 3%nat = Some isr_breakpoint_handler
    /\ mm s' = mm_of (first_tag (addr + 8) ts MULTIBOOT_TAG_TYPE_MMAP) (boot_areas addr ts)
    /\ screen_at (15 * 80 + 2) s' /\ same_outside_page s0 s'
    /\ devices_after (trace s') = booted_devices (devices_after (trace s0)).
Proof.
  intros Hok Hc. pose proof (kmain_run Hok binary c Hc) as Hrun.
  apply wp_inv in Hrun as ([] & s' & Hrun & Hat & Hm & Hv). exists s'. split; [exact Hrun|].
  apply view_fields in Hv as (Hi & _ & Hidt & Hreg & Hh & Ht & Hmm & Hdev).
  unfold booted_view, view_of in *. cbn [v_cr3 v_idt v_idt_reg v_handlers v_tick v_mm v_dev v_iflag] in *.
  rewrite (bo_handlers _ _ _ _ _ _ Hok) in Hh.
  destruct (installed_gates (idt s0) s' (bo_idt _ _ _ _ _ _ Hok) Hidt ltac:(by rewrite Hreg)) as (Hexc & Hirq & _).
  pose proof (booted_idle s' Hh (prompt_after_boot s' Hat)) as Hidle.
  split; [exact Hidle|].
  split; [done|]. split; [done|]. split; [exact Hexc|]. split; [exact Hirq|].
  split; [rewrite Hh; vm_compute; reflexivity|]. split; [exact Hmm|].
  split; [exact Hat|]. split; [exact Hm|exact Hdev].
Qed.

(** A timer interrupt before the first poll, for the instances. *)
#[local] Instance timer_irqs : Irqs := fun _ => [(32, 0x80000)].

#[local] Instance reset_devices : PowerOn :=
  Devices (Pic 0 0 0 0 0 0 []) (Pic 0 0 0 0 0 0 []) (Pit 0 None 0) (Uart 0 0 0 []).

Lemma test_boot_ok (E : Env) : (0 < patience)%nat -> @boot_ok E test_build timer_irqs 8 0x90000 test_tags 0 0x80000 test_mbi.
Proof.
  intros Hp. constructor.
  - by split.
  - exact test_tags_at.
  - simpl. lia.
  - left. vm_compute. discriminate.
  - reflexivity.
  - reflexivity.
  - simpl. lia.
  - split; [by apply str_printable|simpl; lia].
  - split; [by apply str_printable|simpl; lia].
  - intros j Hj. lia.
  - reflexivity.
  - exact Hp.
Defined.

Lemma kmain_boots_witness :
  let c := Clock 58 30 23 4 31 12 2018 in
  exists s', @kmain (rtc_env (encode false true c)) test_build timer_irqs 8 MULTIBOOT2_MAGIC_VALUE 0x90000 test_mbi
      = Ret tt s'
    /\ idle s' /\ iflag s' = true
    /\ mm s' = Mmap 0x900F0 0x100000 0x106345 0x90000 0x90120 1.
Proof.
  set (c := Clock 58 30 23 4 31 12 2018).
  assert (Hc : clock_ok c) by (unfold clock_ok, c; simpl; lia).
  destruct (@kmain_boots reset_devices (rtc_env (encode false true c)) test_build timer_irqs 8 0x90000 test_tags 0 0x80000
    test_mbi false c (rtc_env_rtc _ (fun r => encode_byte false true c r Hc) eq_refl)
    (test_boot_ok (rtc_env (encode false true c)) ltac:(cbn; lia)) Hc)
    as (s' & Hrun & Hi & Hf & _ & _ & _ & _ & Hmm & _).
  exists s'. split; [exact Hrun|]. split; [exact Hi|]. split; [exact Hf|exact Hmm].
Defined.

Lemma panic_tail_page k :
  0 <= k < 80 ->
  advance k (panic_text (str "src/kernel/kmain.c") 26 (str "kmain") (str "invalid multiboot") ++ halted_text) = 320.
Proof.
  intros Hk. unfold panic_text at 1, nl at 1. cbn [app advance Z.eqb Pos.eqb].
  replace ((k / SCREEN_WIDTH + 1) * SCREEN_WIDTH) with 80 by (unfold SCREEN_WIDTH; Z.div_mod_to_equations; lia).
  vm_compute. reflexivity.
Qed.

Lemma panic_tail_plain :
  Forall plain (panic_text (str "src/kernel/kmain.c") 26 (str "kmain") (str "invalid multiboot") ++ halted_text).
Proof. apply plain_text. vm_compute. reflexivity. Qed.

(** What [multiboot_is_valid] says before. *)
Definition reject_reason (magic addr : Z) : list Z :=
  if magic =? MULTIBOOT2_MAGIC_VALUE then str "Unaligned MBI: 0x" ++ numeral 16 (u32 addr)
  else str "Invalid magic value: 0x" ++ numeral 16 (u32 magic).

Lemma reject_reason_page magic addr :
  Forall printable (reject_reason magic addr) /\ (length (reject_reason magic addr) <= 40)%nat.
Proof.
  assert (Hl : forall w, (length (numeral 16 (u32 w)) <= 8)%nat)
    by (intros w; apply (numeral_length 16 _ 8); [lia|apply u32_range|lia]).
  unfold reject_reason. destruct (_ =? _); rewrite Forall_app, length_app, length_str;
    (split; [split; [by apply str_printable|by apply numeral_printable]|]);
    [pose proof (Hl addr)|pose proof (Hl magic)]; cbn [String.length]; lia.
Qed.

(** C30: a wrong magic number or an unaligned boot information stops the kernel
    before it touches anything but the screen (for numbers whose low 32 bits are
    below [2^31], where [%x] works): over the cleared screen [kmain] says which
    of the two it was and panics with the place in kmain.c, turns interrupts off
    and halts; memory outside the text page, the interrupt table, the handlers,
    the allocator and the programmed devices are as they were. *)
Theorem kmain_rejects {P : PowerOn} {E : Env} {B : Build} {Q : Irqs} fuel magic addr s0 :
  0 <= magic < 2 ^ 64 -> 0 <= addr < 2 ^ 64 -> u32 magic < 2 ^ 31 -> u32 addr < 2 ^ 31 ->
  magic <> MULTIBOOT2_MAGIC_VALUE \/ addr `mod` 8 <> 0 ->
  exists s1 s', (screen_init ;; screen_clear) s0 = Ret tt s1
    /\ kmain fuel magic addr s0 = Halted (stopped s')
    /\ screen_print (reject_reason magic addr
         ++ panic_text (str "src/kernel/kmain.c") 26 (str "kmain") (str "invalid multiboot")
         ++ halted_text) s1 = Ret tt s'
    /\ same_outside_page s0 s' /\ view_of s' = view_of s0.
Proof.
  intros Hm Ha Hm32 Ha32 Hbad. pose proof (stage_start s0) as Hst.
  apply wp_inv in Hst as ([] & s1 & Hrun & Hat & Hm1 & Hv).
  assert (Hpre : forall rest : M unit, (screen_init ;; screen_clear ;; rest) s0 = rest s1).
  { intros rest. rewrite <- (bind_assoc screen_init (fun _ => screen_clear) (fun _ => rest) s0).
    by rewrite (bind_ret _ _ _ _ _ Hrun). }
  pose proof Hat as (_ & Hrow & Hcol).
  assert (Hw : screen_within 80 s1) by (unfold screen_within; rewrite Hrow, Hcol; vm_compute; split; discriminate).
  destruct (is_valid_run magic addr s1 80 Hm Ha Hm32 Ha32 Hw ltac:(lia)) as (s2 & Hval & Hc2 & Hp2).
  assert (Hfalse : (magic =? MULTIBOOT2_MAGIC_VALUE) && (addr `mod` 8 =? 0) = false).
  { apply andb_false_iff. rewrite !Z.eqb_neq. exact Hbad. }
  rewrite Hfalse in Hval. destruct (reject_reason_page magic addr) as [Hpr Hlen].
  assert (Hr : screen_print (reject_reason magic addr) s1 = Ret tt s2).
  { rewrite <- Hp2. unfold reject_reason. destruct (_ =? _); [|reflexivity].
    cbn [andb] in Hfalse. by rewrite Hfalse. }
  destruct (screen_print_total (reject_reason magic addr) s1 80 Hw ltac:(lia) ltac:(lia)) as (s2' & Hp2' & _ & Hw2).
  rewrite Hr in Hp2'. injection Hp2' as <-.
  destruct (kmain_panic_run s2 _ Hw2 ltac:(lia)) as (s3 & Hp3 & Hs3 & Hc3).
  assert (Hall : screen_print (reject_reason magic addr
    ++ panic_text (str "src/kernel/kmain.c") 26 (str "kmain") (str "invalid multiboot") ++ halted_text) s1 = Ret tt s3).
  { unfold screen_print in *. by rewrite (iterM_app screen_write _ _ s1), (bind_ret _ _ _ _ _ Hr). }
  exists s1, s3. split; [exact Hrun|]. split; [|split; [exact Hall|split]].
  - unfold kmain. rewrite Hpre, (bind_ret _ _ _ _ _ Hval). by rewrite (bind_halted _ _ _ _ Hp3).
  - assert (Hadv : advance 0 (reject_reason magic addr) = Z.of_nat (length (reject_reason magic addr)))
      by by rewrite advance_printable.
    match type of Hall with screen_print ?out s1 = _ => destruct (screen_print_page out 0 s1 Hat) as (s' & Hs' & _ & Hm' & _) end.
    + done.
    + rewrite advance_app, Hadv, panic_tail_page; lia.
    + apply Forall_app. split; [|exact panic_tail_plain]. eapply Forall_impl; [exact Hpr|]. by right.
    + rewrite Hall in Hs'. injection Hs' as <-. by etransitivity.
  - by rewrite (console_view _ _ Hc3), (console_view _ _ Hc2).
Qed.

Lemma kmain_rejects_witness :
  exists s', @kmain ready_env test_build timer_irqs 8 0x2BADB002 0x90000 (blank_state ∅) = Halted (stopped s')
    /\ same_outside_page (blank_state ∅) s'.
Proof.
  destruct (@kmain_rejects reset_devices ready_env test_build timer_irqs 8 0x2BADB002 0x90000 (blank_state ∅))
    as (s1 & s' & _ & Hk & _ & Hm & _).
  - lia.
  - lia.
  - reflexivity.
  - reflexivity.
  - left. discriminate.
  - exists s'. split; [exact Hk|exact Hm].
Defined.

(** The idle loop is safe.  Whatever sequence of timer, keyboard and
    handler-less interrupts has run since boot, each further one is handled
    and returns, without panic or fault; the tick counter counts the timer
    interrupts modulo [2^32], memory outside the text page and all other
    kernel state stay as boot left them. *)
Theorem idle_interrupts_safe {E : Env} s0 n s :
  idle s0 -> 0 <= tick s0 < 2 ^ 32 -> reach s0 n s ->
  (forall v sp, 32 <= v < 37 -> exists s', irq_handler v sp s = Ret tt s')
  /\ tick s = u32 (tick s0 + n) /\ same_outside_page s0 s /\ same_but_tick s0 s.
Proof.
  intros Hi Ht Hr. destruct (reach_idle s0 n s Hi Ht Hr) as (Hs & H).
  split; [|exact H]. intros v sp Hv. destruct (idle_step v sp s Hs Hv) as (s' & Hrun & _). by exists s'.
Qed.

(** The handlers of boot over a fresh screen. *)
Definition idle_state : kstate :=
  set_handlers (fun hs => <[33%nat := isr_keyboard_callback]> (<[32%nat := isr_timer_callback]> hs))
    (fresh_screen 2 15).

Lemma idle_state_idle : idle idle_state.
Proof.
  unfold idle. split; [vm_compute; reflexivity|]. split; [vm_compute; reflexivity|]. split.
  - intros i Hb. assert (i = 34 \/ i = 35 \/ i = 36)%nat as [-> |[-> | ->]] by lia; vm_compute; reflexivity.
  - split; [reflexivity|]. vm_compute. split; split; discriminate.
Defined.

Lemma idle_interrupts_safe_witness :
  exists s, reach idle_state 1 s /\ tick s = 1
    /\ forall v sp, 32 <= v < 37 -> exists s', irq_handler v sp s = Ret tt s'.
Proof.
  destruct (irq_handler 32 0x80000 idle_state) as [[] s1| |] eqn:H1; [|discriminate H1|discriminate H1].
  assert (Hr : reach idle_state 1 s1).
  { apply (reach_step idle_state 0 idle_state 32 s1); [apply reach_refl|].
    apply (step_irq _ 32 0x80000); [lia|exact H1]. }
  destruct (idle_interrupts_safe idle_state 1 s1 idle_state_idle ltac:(simpl; lia) Hr) as (Hp & Ht & _).
  exists s1. split; [exact Hr|]. split; [exact Ht|exact Hp].
Defined.

(** The interrupt check really waits for an interrupt: with interrupts
    disabled [wait_tick], the loop of [check_interrupts], never ends, whatever
    lines are raised and however long it polls. *)
Theorem check_interrupts_hangs_disabled {E : Env} {Q : Irqs} fuel s :
  iflag s = false -> wait_tick fuel 0 (tick s) s = Fault OutOfFuel.
Proof. apply waits_forever. Qed.

