(* ===== verification/DebugKernel.v ===== *)
(** * The debug build: kmain

    [kmain] as the debug build compiles it: with its two [DEBUG] lines, the
    debug version in its welcome, and the functions of DebugBuild.v that it
    calls.  It boots like the default build, and the lines it sends after
    [serial_init] arrive. *)

From stdpp Require Import base numbers list gmap strings.
From S2P Require Import Prelude Machine Libk Screen Serial Printf Debug Idt Isr Timer Keyboard Cmos Boot PageWalk Mmap.
From S2P Require Import Multiboot Paging DebugBuild Kernel.

#[local] Existing Instance sending.

Section DebugKernel.
Context {E : Env} {B : Build} {Q : Irqs} {L : Lines}.

(** ** src/include/kernel/kmain.h, src/mmu/mmu.c, src/kernel/kmain.c *)

Definition KERNEL_VERSION_debug : list Z := str "DEBUG MODE".

Definition print_welcome_messge_debug : M unit := welcome_messge KERNEL_VERSION_debug.

Definition mmu_init_debug (mmap : Z) (reserved : reserved_areas_t) : M unit :=
  mmap_init_debug mmap reserved ;;
  paging_init.

Definition DEBUG_kmain (line : Z) (format : list Z) (args : list vararg) : M unit :=
  DEBUG (str "src/kernel/kmain.c") line (str "kmain") format args.

Definition kmain_debug (fuel : nat) (magic addr : Z) : M unit :=
  screen_init ;;
  screen_clear ;;
  valid ← multiboot_is_valid magic addr;
  (if (valid : bool) then mret tt
   else PANIC (str "src/kernel/kmain.c") 26 (str "kmain") (str "invalid multiboot") []) ;;
  reserved ← read_multiboot_info_debug fuel addr;
  print_welcome_messge_debug ;;
  printfk (str "- multiboot_start = 0x%X, multiboot_end = 0x%X" ++ nl)
    [VWord (ra_multiboot_start reserved); VWord (ra_multiboot_end reserved)] ;;
  printfk (str "- kernel_start    = 0x%X, kernel_end    = 0x%X" ++ nl)
    [VWord (ra_kernel_start reserved); VWord (ra_kernel_end reserved)] ;;
  isr_init ;;
  irq_init ;;
  printfk (str "- interruptions enabled" ++ nl) [] ;;
  timer_init 50 ;;
  printfk (str "- clock (timer) enabled" ++ nl) [] ;;
  check_interrupts ;;
  serial_init SERIAL_COM1 SERIAL_SPEED_115200 ;;
  DEBUG_kmain 49 (str "%s has started") [VStr KERNEL_NAME] ;;
  keyboard_init ;;
  printfk (str "- keyboard routine enabled" ++ nl) [] ;;
  mmap ← find_multiboot_tag fuel (addr + 8) MULTIBOOT_TAG_TYPE_MMAP;
  mmu_init_debug mmap reserved ;;
  printfk (str "- frame allocator and paging enabled" ++ nl) [] ;;
  rtc ← cmos_read_rtc;
  printfk hello_format
    [VWord (year rtc); VWord (month rtc); VWord (day rtc);
     VWord (hours rtc); VWord (minutes rtc); VWord (seconds rtc)] ;;
  DEBUG_kmain (line_of 66) hello_format
    [VWord (year rtc); VWord (month rtc); VWord (day rtc);
     VWord (hours rtc); VWord (minutes rtc); VWord (seconds rtc)] ;;
  printfk (str "$ ") [].

(** ** What it sends once the port is set up *)

Definition mmap_text (m : mmap_t) : list Z :=
  str "Initialized MMAP with memory_area = 0x" ++ numeral 16 (memory_area m)
  ++ str ", multiboot_start = 0x" ++ numeral 16 (multiboot_start m)
  ++ str ", multiboot_end = 0x" ++ numeral 16 (multiboot_end m)
  ++ str ", next_free_frame = " ++ print_int (next_free_frame m) ++ nl.

Definition started_line : list Z :=
  debug_line (str "src/kernel/kmain.c") 49 (str "kmain") (str "utero-archive has started" ++ nl).
Definition mmap_line (m : mmap_t) : list Z :=
  debug_line (str "src/mmu/mmap.c") (line_of 20) (str "mmap_init") (mmap_text m).
Definition hello_line (c : cmos_rtc_t) : list Z :=
  debug_line (str "src/kernel/kmain.c") (line_of 66) (str "kmain") (nl ++ hello_text c ++ nl ++ nl).

Definition kernel_log (m : mmap_t) (c : cmos_rtc_t) : list Z := started_line ++ mmap_line m ++ hello_line c.

(** The strings of command lines, loader names and modules end in their tags,
    padding included, and the numbers of memory sizes and boot devices lie in
    theirs. *)
Fixpoint fields_inside (m : gmap Z Z) (a : Z) (ts : list tag_t) : Prop :=
  match ts with
  | [] => True
  | t :: ts =>
      (tag_type t = MULTIBOOT_TAG_TYPE_CMDLINE \/ tag_type t = MULTIBOOT_TAG_TYPE_BOOT_LOADER_NAME ->
         terminated m (Z.to_nat (align8 (tag_size t) - 8)) (a + 8))
      /\ (tag_type t = MULTIBOOT_TAG_TYPE_MODULE -> terminated m (Z.to_nat (align8 (tag_size t) - 16)) (a + 16))
      /\ (tag_type t = MULTIBOOT_TAG_TYPE_BASIC_MEMINFO -> 16 <= tag_size t)
      /\ (tag_type t = MULTIBOOT_TAG_TYPE_BOOTDEV -> 20 <= tag_size t)
      /\ fields_inside m (a + align8 (tag_size t)) ts
  end.

(** ** Lemmas: strings *)

Lemma terminated_ext m m' n n' a :
  terminated m n a -> (n <= n')%nat -> (forall b, a <= b < a + Z.of_nat n -> mem_get m' b = mem_get m b) ->
  terminated m' n' a.
Proof using.
  intros (k & Hk & Hz & Hb) Hn Hm. exists k. split; [lia|]. split; [|done]. rewrite Hm; [done|lia].
Qed.

Lemma strings_inside_at ts : forall m m' n a,
  tags_at m a ts -> fields_inside m a ts -> end_tag a ts - a <= Z.of_nat n ->
  (forall b, a <= b < end_tag a ts + 8 -> mem_get m' b = mem_get m b) -> strings_at m' n a ts.
Proof using.
  induction ts as [|t ts IH]; intros m m' n a [Ha Hts] Hs Hn Hm; cbn [end_tag strings_at fields_inside] in *; [done|].
  destruct Hts as [Ht Hts], Hs as (H1 & H2 & _ & _ & Hs). pose proof Ht as (_ & _ & Hsz & _).
  pose proof (align8_bounds (tag_size t)). pose proof (end_tag_after _ _ _ Hts).
  split; [split; intros Hty|].
  - apply (terminated_ext m _ _ n _ (H1 Hty)); [lia|]. intros b Hb. apply Hm. lia.
  - apply (terminated_ext m _ _ n _ (H2 Hty)); [lia|]. intros b Hb. apply Hm. lia.
  - apply (IH m); [done|done|lia|]. intros b Hb. apply Hm. lia.
Qed.

Lemma numbers_ext ts : forall m m' a,
  tags_at m a ts -> fields_inside m a ts -> (forall b, a <= b < end_tag a ts + 8 -> mem_get m' b = mem_get m b) ->
  numbers_at m' a ts = numbers_at m a ts.
Proof using.
  induction ts as [|t ts IH]; intros m m' a [Ha Hts] Hs Hm; cbn [end_tag numbers_at fields_inside] in *; [done|].
  destruct Hts as [Ht Hts], Hs as (_ & _ & H1 & H2 & Hs). pose proof Ht as (_ & _ & Hsz & _).
  pose proof (align8_bounds (tag_size t)). pose proof (end_tag_after _ _ _ Hts).
  f_equal; [|apply IH; [done|done|]; intros b Hb; apply Hm; lia]. unfold numbers_tag.
  destruct (Z.eqb_spec (tag_type t) MULTIBOOT_TAG_TYPE_BASIC_MEMINFO) as [Hty|_].
  { specialize (H1 Hty). rewrite !(m32_ext m m') by (intros b Hb; apply Hm; lia). done. }
  destruct (Z.eqb_spec (tag_type t) MULTIBOOT_TAG_TYPE_BOOTDEV) as [Hty|_]; [|done].
  specialize (H2 Hty). rewrite !(m32_ext m m') by (intros b Hb; apply Hm; lia). done.
Qed.

Lemma first_tag_bounds ts : forall m a type,
  tags_at m a ts -> 0 <= first_tag a ts type <= end_tag a ts.
Proof using.
  induction ts as [|t ts IH]; intros m a type [Ha Hts]; cbn [first_tag end_tag]; [lia|].
  destruct Hts as [Ht Hts]. pose proof Ht as (_ & _ & Hsz & _). pose proof (align8_bounds (tag_size t)).
  pose proof (end_tag_after _ _ _ Hts). case_match; [lia|]. by eapply IH.
Qed.

(** ** Lemmas: the devices and the serial port *)

Context {P : PowerOn}.

Definition with_uart (u : uart_t) (d : devices) : devices := Devices (d_pic1 d) (d_pic2 d) (d_pit d) u.

(** The other devices do not see the port's events. *)
Lemma devices_kernel_events tr :
  devices_after tr = with_uart (d_uart (devices_after tr)) (devices_after (kernel_events tr)).
Proof using.
  unfold devices_after, with_uart. cbn [d_pic1 d_pic2 d_pit d_uart].
  assert (H : pic_after PIC1 (d_pic1 power_on) tr = pic_after PIC1 (d_pic1 power_on) (kernel_events tr)
    /\ pic_after PIC2 (d_pic2 power_on) tr = pic_after PIC2 (d_pic2 power_on) (kernel_events tr)
    /\ pit_after (d_pit power_on) tr = pit_after (d_pit power_on) (kernel_events tr)); [|by destruct H as (-> & -> & ->)].
  unfold pic_after, pit_after, kernel_events.
  induction tr as [|e tr (IH1 & IH2 & IH3)]; [done|]. rewrite filter_cons. cbn [foldr]. rewrite IH1, IH2, IH3.
  case_decide as He; [done|]. destruct e as [p d|p d| | | | | | ]; try done.
  cbn in He. destruct (Z.eqb_spec p SERIAL_COM1) as [->|]; [done|by destruct He].
Qed.

Lemma devices_on_port evs tr :
  Forall on_port evs ->
  devices_after (evs ++ tr) = with_uart (d_uart (devices_after (evs ++ tr))) (devices_after tr).
Proof using.
  intros He. rewrite (devices_kernel_events (evs ++ tr)) at 1. rewrite kernel_events_app by done.
  by rewrite (devices_kernel_events tr).
Qed.

Definition set_v_uart (u : uart_t) (v : view) : view := set_v_dev (with_uart u (v_dev v)) v.

(** A state that differs by the port's events only. *)
Lemma serial_view s s' :
  same_but_serial s' s -> view_of s' = set_v_uart (d_uart (devices_after (trace s'))) (view_of s).
Proof using.
  intros Hs. pose proof (same_but_serial_events _ _ Hs) as He. pose proof (same_but_serial_inv _ _ Hs) as Ei.
  assert (Hd : devices_after (trace s') = with_uart (d_uart (devices_after (trace s'))) (devices_after (trace s))).
  { rewrite (devices_kernel_events (trace s')) at 1. rewrite He. by rewrite (devices_kernel_events (trace s)). }
  unfold view_of at 1. rewrite Hd at 1. rewrite Ei at 1 2 3 4 5 6 7. reflexivity.
Qed.

(** The devices after [text] went over the port. *)
Definition says (text : list Z) (v : view) : view :=
  set_v_uart (sent (reverse (u8 <$> text)) (d_uart (v_dev v))) v.

Context {T : TxReady E}.
Context {I : view -> kstate -> Prop} (HI : tracks I).

Lemma stage_debug v s file line func (format : list Z) args text :
  I v s -> uart_dlab (d_uart (v_dev v)) = false ->
  Forall is_byte format -> Z.of_nat (length format) < 2 ^ 31 - 32 -> 0 <= line < 2 ^ 31 ->
  render (format ++ [10]) args = Some text ->
  wp (DEBUG file line func format args) (fun _ => I (says (debug_line file line func text) v)) s.
Proof using HI T.
  intros Hs Hd Hb Hlen Hl Hr. pose proof (tr_view _ HI _ _ Hs) as Hv.
  destruct (serial_print_sends SERIAL_COM1 (debug_line file line func text) s) as (evs & Hp & He & Hn);
    [vm_compute; split; [discriminate|reflexivity]|].
  eapply (stage_set HI _ v); [exact Hs|rewrite (DEBUG_run _ _ _ _ _ _ s Hb Hlen Hl Hr); exact Hp|done|done|].
  rewrite (serial_view s) by (by apply same_but_serial_app). unfold says. rewrite <- Hv in *. f_equal.
  unfold devices_after. cbn [d_uart trace set_trace]. rewrite <- Hn. by apply uart_sends.
Qed.

(** [mmap_init] prints its four variables. *)
Definition small (m : mmap_t) : Prop :=
  Forall (fun w => 0 <= w < 2 ^ 31) [memory_area m; multiboot_start m; multiboot_end m; next_free_frame m].

Lemma mmap_renders m :
  small m ->
  render ((str "Initialized MMAP with memory_area = 0x%x, multiboot_start = 0x%x, "
           ++ str "multiboot_end = 0x%x, next_free_frame = %d") ++ [10])
    [VWord (memory_area m); VWord (multiboot_start m); VWord (multiboot_end m); VWord (next_free_frame m)]
  = Some (mmap_text m).
Proof using.
  clear. unfold small. rewrite !Forall_cons. intros (H1 & H2 & H3 & H4 & _).
  assert (Hx : forall w arg, 0 <= w < 2 ^ 31 -> render_conv 120 0 (VWord w :: arg) = Some (numeral 16 w, arg)).
  { intros w arg Hw. unfold render_conv. cbn [Z.eqb Pos.eqb orb]. rewrite u32_small by lia.
    by rewrite (proj2 (Z.ltb_lt w (2 ^ 31))) by lia. }
  rendering. repeat (rewrite Hx by done; cbn [mbind option_bind]). rewrite render_conv_d by lia.
  cbn [mbind option_bind]. reflexivity.
Qed.

Lemma stage_mmu_init_debug v s mmap r :
  I v s -> uart_dlab (d_uart (v_dev v)) = false -> small (mm_of mmap r) ->
  wp (mmu_init_debug mmap r) (fun _ => I (says (mmap_line (mm_of mmap r)) (set_v_mm (mm_of mmap r) v))) s.
Proof using HI T.
  intros Hs Hd Hm. unfold mmu_init_debug, mmap_init_debug. apply wp_bind, wp_bind.
  eapply wp_mono; [exact (stage_mmu_init HI v mmap r s Hs)|]. intros [] s1 H1.
  apply wp_bind. eapply wp_run; [reflexivity|].
  assert (Em : mm s1 = mm_of mmap r) by (change (mm s1) with (v_mm (view_of s1)); by rewrite (tr_view _ HI _ _ H1)).
  rewrite Em. unfold DEBUG_mmap. eapply wp_mono.
  { eapply stage_debug; [exact H1|exact Hd|by apply forallb_bytes|vm_compute; reflexivity|apply line_of_range; lia|].
    by apply mmap_renders. }
  by intros [] s2 H2.
Qed.

Lemma stage_hello_debug v s c :
  I v s -> uart_dlab (d_uart (v_dev v)) = false -> rtc_ok c ->
  wp (DEBUG_kmain (line_of 66) hello_format
        [VWord (year c); VWord (month c); VWord (day c); VWord (hours c); VWord (minutes c); VWord (seconds c)])
    (fun _ => I (says (hello_line c) v)) s.
Proof using HI T.
  intros Hs Hd Hc. unfold DEBUG_kmain, hello_line.
  eapply stage_debug; [exact Hs|exact Hd|by apply forallb_bytes|vm_compute; reflexivity|apply line_of_range; lia|].
  revert Hc. unfold rtc_ok. rewrite !Forall_cons. intros (? & ? & ? & ? & ? & ? & _). unfold render.
  match goal with |- context [parse_format ?f] =>
    let ds := eval vm_compute in (parse_format f) in replace (parse_format f) with ds by (vm_compute; reflexivity)
  end.
  cbn [render_all]. repeat (rewrite render_conv_2d by lia; cbn [mbind option_bind]).
  unfold hello_text. rewrite <- !app_assoc. reflexivity.
Qed.

End DebugKernel.

(** ** Lemmas: the whole of kmain_debug *)

Section Whole.
Context {P : PowerOn} {E : Env} {B : Build} {Q : Irqs} {L : Lines} {T : TxReady E}.
Context {fuel m : nat} {addr sp : Z} {ts : list tag_t} {s0 : kstate}.
Context (Hok : boot_ok fuel addr ts m sp s0).
Context (Hstrings : fields_inside (mem s0) (addr + 8) ts).
Context (Hnumbers : numbers_at (mem s0) (addr + 8) ts = true).
Context (Hfuel : (steps_of ts + Z.to_nat (end_tag (addr + 8) ts - addr) < fuel)%nat).
Context (Hlow : end_tag (addr + 8) ts + 8 < 2 ^ 31).

Lemma says_says a b v : says b (says a v) = says (a ++ b) v.
Proof using.
  unfold says, set_v_uart, set_v_dev, with_uart, sent.
  cbn [v_iflag v_cr3 v_idt v_idt_reg v_handlers v_tick v_mm v_dev d_pic1 d_pic2 d_pit d_uart
       uart_lcr uart_dlm uart_dll uart_tx].
  by rewrite fmap_app, reverse_app, app_assoc.
Qed.

Definition boot_map : mmap_t := mm_of (first_tag (addr + 8) ts MULTIBOOT_TAG_TYPE_MMAP) (boot_areas addr ts).

Lemma add_sections_start secs : forall r, ra_multiboot_start (add_sections secs r) = ra_multiboot_start r.
Proof using. induction secs as [|c secs IH]; intros r; [done|]. unfold add_sections in *. cbn [foldl]. by rewrite IH. Qed.

Lemma boot_map_small : small boot_map.
Proof using Hok Hlow.
  clear Hfuel Hstrings.
  pose proof (bo_tags _ _ _ _ _ _ Hok) as Ht. destruct (bo_addr _ _ _ _ _ _ Hok) as [Ha _].
  pose proof (first_tag_bounds ts _ _ MULTIBOOT_TAG_TYPE_MMAP Ht). pose proof (end_tag_after _ _ _ Ht).
  unfold small, boot_map, mm_of, boot_areas.
  cbn [memory_area multiboot_start multiboot_end next_free_frame ra_multiboot_start ra_multiboot_end].
  rewrite add_sections_start. cbn [ra_multiboot_start]. repeat constructor; lia.
Qed.

(** Reading the boot information. *)
Lemma debug_info v s :
  at_stage s0 0 v s ->
  exists u s', read_multiboot_info_debug fuel addr s = Ret (boot_areas addr ts) s' /\ at_stage s0 0 (set_v_uart u v) s'.
Proof using Hok Hstrings Hnumbers Hfuel T.
  clear Hlow.
  intros Hs. pose proof Hs as (_ & Hm & Hv).
  assert (Hstr : strings_at (mem s) (Z.to_nat (end_tag (addr + 8) ts - addr)) (addr + 8) ts).
  { apply (strings_inside_at ts (mem s0)); [apply Hok|exact Hstrings|lia|]. intros b Hb. apply Hm.
    destruct (bo_page _ _ _ _ _ _ Hok); lia. }
  pose proof (read_info_agrees fuel addr s s eq_refl) as Hd.
  rewrite (read_info_checks _ fuel addr ts s (stage_tags Hok _ _ _ Hs) Hstr Hfuel) in Hd.
  rewrite (numbers_ext ts (mem s0)), Hnumbers in Hd; [|apply Hok|exact Hstrings|intros b Hb; apply Hm; destruct (bo_page _ _ _ _ _ _ Hok); lia].
  rewrite (stage_info Hok _ _ _ Hs) in Hd. destruct Hd as (s' & Hr & Hsame).
  exists (d_uart (devices_after (trace s'))), s'. split; [exact Hr|].
  rewrite <- Hv, <- (serial_view _ _ Hsame). pose proof (same_but_serial_inv _ _ Hsame) as Ei.
  apply (stage_view s0 0 v s); [done|by rewrite Ei|by rewrite Ei].
Qed.

(** From the interrupt check to the prompt. *)
Lemma debug_second_half (binary : bool) c {R : Rtc (encode binary true c)} t d s :
  clock_ok c -> at_stage s0 880 (open_view (s0 := s0) (timer_handlers (s0 := s0)) t (mm s0) (clock_devices d)) s ->
  wp (serial_init SERIAL_COM1 SERIAL_SPEED_115200 ;;
      DEBUG_kmain 49 (str "%s has started") [VStr KERNEL_NAME] ;;
      keyboard_init ;;
      printfk (str "- keyboard routine enabled" ++ nl) [] ;;
      mmap ← find_multiboot_tag fuel (addr + 8) MULTIBOOT_TAG_TYPE_MMAP;
      mmu_init_debug mmap (boot_areas addr ts) ;;
      printfk (str "- frame allocator and paging enabled" ++ nl) [] ;;
      rtc ← cmos_read_rtc;
      printfk hello_format
        [VWord (year rtc); VWord (month rtc); VWord (day rtc);
         VWord (hours rtc); VWord (minutes rtc); VWord (seconds rtc)] ;;
      DEBUG_kmain (line_of 66) hello_format
        [VWord (year rtc); VWord (month rtc); VWord (day rtc);
         VWord (hours rtc); VWord (minutes rtc); VWord (seconds rtc)] ;;
      printfk (str "$ ") [])
    (fun _ => at_stage s0 1202 (says (kernel_log boot_map (rtc_of c (clk_hour c)))
       (final_view (addr := addr) (ts := ts) (s0 := s0) t d))) s.
Proof using Hok Hlow T.
  clear Hfuel Hstrings. intros Hc Hs. apply wp_bind. eapply wp_mono; [exact (stage_serial_init (stage_tracks s0 880) _ _ Hs)|].
  intros [] s1 H1.
  apply wp_bind. eapply wp_mono.
  { unfold DEBUG_kmain. eapply (stage_debug (stage_tracks s0 880)); [exact H1|reflexivity|by apply forallb_bytes| |lia|];
      [vm_compute; reflexivity|vm_compute; reflexivity]. }
  intros [] s2 H2.
  apply wp_bind. eapply wp_mono; [exact (stage_keyboard_init (stage_tracks s0 880) _ _ H2)|]. intros [] s3 H3.
  apply wp_bind. eapply wp_mono; [apply (stage_text s0 880 _ s3 _ H3); [done|lia|done|done]|].
  intros [] s4 H4. apply wp_bind. eapply wp_run; [exact (stage_find Hok _ _ _ H4)|].
  apply wp_bind. eapply wp_mono.
  { apply (stage_mmu_init_debug (stage_tracks s0 960) _ _ _ _ H4); [reflexivity|exact boot_map_small]. }
  intros [] s5 H5.
  apply wp_bind. eapply wp_mono; [apply (stage_text s0 960 _ s5 _ H5); [done|lia|done|done]|].
  intros [] s6 H6. apply wp_bind. eapply wp_mono; [exact (stage_clock (stage_tracks s0 1040) binary c _ _ Hc H6)|].
  intros rtc s7 [-> H7].
  apply wp_bind. eapply wp_mono; [apply (stage_hello s0 1040 _ s7 _ H7); [done|lia|by apply rtc_of_ok]|].
  intros [] s8 H8. apply wp_bind. eapply wp_mono.
  { apply (stage_hello_debug (stage_tracks s0 1200) _ _ _ H8); [reflexivity|by apply rtc_of_ok]. }
  intros [] s9 H9. eapply wp_mono; [apply (stage_prompt s0 1200 _ s9 H9); lia|]. intros [] s10 H10.
  unfold kernel_log. rewrite <- !says_says. exact H10.
Qed.

(** Run [tac] with the calls of [kmain_debug] compared by name. *)
Local Ltac calls tac :=
  with_strategy opaque
    [mbind M_bind print_welcome_messge_debug printfk isr_init irq_init timer_init check_interrupts serial_init
     DEBUG_kmain keyboard_init find_multiboot_tag mmu_init_debug cmos_read_rtc str] tac.

(** After the boot information, whatever the port has sent meanwhile. *)
Lemma debug_rest (binary : bool) c {R : Rtc (encode binary true c)} d s :
  clock_ok c -> at_stage s0 0 (set_v_dev d (view_of s0)) s ->
  wp (print_welcome_messge_debug ;;
      printfk (str "- multiboot_start = 0x%X, multiboot_end = 0x%X" ++ nl)
        [VWord (ra_multiboot_start (boot_areas addr ts)); VWord (ra_multiboot_end (boot_areas addr ts))] ;;
      printfk (str "- kernel_start    = 0x%X, kernel_end    = 0x%X" ++ nl)
        [VWord (ra_kernel_start (boot_areas addr ts)); VWord (ra_kernel_end (boot_areas addr ts))] ;;
      isr_init ;;
      irq_init ;;
      printfk (str "- interruptions enabled" ++ nl) [] ;;
      timer_init 50 ;;
      printfk (str "- clock (timer) enabled" ++ nl) [] ;;
      check_interrupts ;;
      serial_init SERIAL_COM1 SERIAL_SPEED_115200 ;;
      DEBUG_kmain 49 (str "%s has started") [VStr KERNEL_NAME] ;;
      keyboard_init ;;
      printfk (str "- keyboard routine enabled" ++ nl) [] ;;
      mmap ← find_multiboot_tag fuel (addr + 8) MULTIBOOT_TAG_TYPE_MMAP;
      mmu_init_debug mmap (boot_areas addr ts) ;;
      printfk (str "- frame allocator and paging enabled" ++ nl) [] ;;
      rtc ← cmos_read_rtc;
      printfk hello_format
        [VWord (year rtc); VWord (month rtc); VWord (day rtc);
         VWord (hours rtc); VWord (minutes rtc); VWord (seconds rtc)] ;;
      DEBUG_kmain (line_of 66) hello_format
        [VWord (year rtc); VWord (month rtc); VWord (day rtc);
         VWord (hours rtc); VWord (minutes rtc); VWord (seconds rtc)] ;;
      printfk (str "$ ") [])
    (fun _ => at_stage s0 1202 (says (kernel_log boot_map (rtc_of c (clk_hour c)))
       (final_view (addr := addr) (ts := ts) (s0 := s0) (u32 (tick s0 + 1)) d))) s.
Proof using Hok Hlow T.
  clear Hfuel Hstrings. intros Hc Hs.
  destruct (bo_date _ _ _ _ _ _ Hok) as [Hd Ld]. destruct (bo_time _ _ _ _ _ _ Hok) as [Ht Lt].
  calls ltac:(apply wp_bind). eapply wp_mono.
  { assert (Hv : Forall printable KERNEL_VERSION_debug) by (by apply str_printable).
    assert (Hl : (length KERNEL_VERSION_debug <= 10)%nat) by (vm_compute; lia).
    exact (stage_welcome s0 _ s KERNEL_VERSION_debug Hs Hv Hl Hd Ht Ld Lt). }
  intros [] s1 H1. revert s1 H1. calls ltac:(apply (kmain_to_irqs d)). intros s2 H2.
  calls ltac:(eapply kmain_to_check; [exact Hok| |exact H2]). intros s3 H3.
  by calls ltac:(apply (debug_second_half binary c)).
Qed.

Lemma kmain_debug_run (binary : bool) c {R : Rtc (encode binary true c)} :
  clock_ok c ->
  exists u, wp (kmain_debug fuel MULTIBOOT2_MAGIC_VALUE addr)
       (fun _ => at_stage s0 1202 (says (kernel_log boot_map (rtc_of c (clk_hour c)))
          (final_view (addr := addr) (ts := ts) (s0 := s0) (u32 (tick s0 + 1)) (with_uart u (devices_after (trace s0)))))) s0.
Proof using Hok Hstrings Hnumbers Hfuel Hlow T.
  intros Hc. destruct (kmain_valid Hok) as (s1 & H1 & Hpre). unfold kmain_debug, wp.
  destruct (debug_info _ _ H1) as (u & s2 & Hr & H2). exists u. rewrite Hpre.
  rewrite (bind_ret _ _ _ _ _ Hr). by apply (debug_rest binary c).
Qed.

End Whole.

(** ** Properties *)


(** The instance: a clock and a transmitter that is ready at every other poll. *)
#[local] Existing Instance test_lines.
#[local] Instance timer_irqs : Irqs := fun _ => [(32, 0x80000)].
#[local] Instance reset_devices : PowerOn :=
  Devices (Pic 0 0 0 0 0 0 []) (Pic 0 0 0 0 0 0 []) (Pit 0 None 0) (Uart 0 0 0 []).
Definition noon : clock_t := Clock 0 0 12 5 1 1 2019.
#[local] Instance noon_env : Env := {|
  dev_in := fun tr p =>
    match tr with Out8 _ d :: _ => if p =? CMOS_DATA_PORT then encode false true noon (d `mod` 128) else 0x20 | _ => 0x20 end;
  patience := 2 |}.

Lemma noon_ok : clock_ok noon.
Proof. unfold clock_ok, noon. simpl. lia. Defined.

#[local] Instance noon_rtc : Rtc (encode false true noon).
Proof.
  split; [cbn; lia|intros r; apply encode_byte, noon_ok| |done|done].
  intros r tr Hr. cbn. do 2 f_equal. Z.div_mod_to_equations. lia.
Defined.

#[local] Instance noon_tx : TxReady noon_env.
Proof.
  split. intros tr port. destruct (decide (Z.land (u8 (dev_in tr port)) 0x20 = 0)) as [Hz|Hn].
  - exists 1%nat. split; [cbn; lia|]. cbn [ready_after]. split; [exact Hz|]. done.
  - exists 0%nat. split; [cbn; lia|]. exact Hn.
Defined.

