(* ===== verification/Preempt.v ===== *)
(** * Interrupts between the statements of kmain

    From [irq_init] on the lines are open, not only while [check_interrupts]
    waits.  Here [kmain] is taken statement by statement, with any interrupts
    before each statement, and compared with the undisturbed [kmain] of Kernel.v.

    An interrupt inside a statement is not modelled; the handlers touch no
    variable that [kmain] uses but the tick and the screen's cursor. *)

From stdpp Require Import base numbers list gmap strings.
From S2P Require Import Prelude Machine Libk Screen Serial Printf Idt Isr Timer Keyboard Cmos Boot PageWalk Mmap Paging Kernel.

(** The vectors raised before each statement, with the stack pointer their stub
    passes. *)
Class Schedule := taken : nat -> list (Z * Z).

Section Preempt.
Context {E : Env} {B : Build} {Q : Irqs} {T : Schedule}.

Definition pause (k : nat) : M unit := iterM interrupt (taken k).

(** [kmain], with a pause after each statement since [irq_init]. *)
Definition kmain_preempted (fuel : nat) (magic addr : Z) : M unit :=
  screen_init ;;
  screen_clear ;;
  valid ← multiboot_is_valid magic addr;
  (if (valid : bool) then mret tt
   else PANIC (str "src/kernel/kmain.c") 26 (str "kmain") (str "invalid multiboot") []) ;;
  reserved ← read_multiboot_info fuel addr;
  print_welcome_messge ;;
  printfk (str "- multiboot_start = 0x%X, multiboot_end = 0x%X" ++ nl)
    [VWord (ra_multiboot_start reserved); VWord (ra_multiboot_end reserved)] ;;
  printfk (str "- kernel_start    = 0x%X, kernel_end    = 0x%X" ++ nl)
    [VWord (ra_kernel_start reserved); VWord (ra_kernel_end reserved)] ;;
  isr_init ;;
  irq_init ;;
  pause 0 ;;
  printfk (str "- interruptions enabled" ++ nl) [] ;;
  pause 1 ;;
  timer_init 50 ;;
  pause 2 ;;
  printfk (str "- clock (timer) enabled" ++ nl) [] ;;
  pause 3 ;;
  check_interrupts ;;
  pause 4 ;;
  serial_init SERIAL_COM1 SERIAL_SPEED_115200 ;;
  pause 5 ;;
  keyboard_init ;;
  pause 6 ;;
  printfk (str "- keyboard routine enabled" ++ nl) [] ;;
  pause 7 ;;
  mmap ← find_multiboot_tag fuel (addr + 8) MULTIBOOT_TAG_TYPE_MMAP;
  pause 8 ;;
  mmu_init mmap reserved ;;
  pause 9 ;;
  printfk (str "- frame allocator and paging enabled" ++ nl) [] ;;
  pause 10 ;;
  rtc ← cmos_read_rtc;
  pause 11 ;;
  printfk hello_format
    [VWord (year rtc); VWord (month rtc); VWord (day rtc);
     VWord (hours rtc); VWord (minutes rtc); VWord (seconds rtc)] ;;
  pause 12 ;;
  printfk (str "$ ") [].

(** The timer's interrupts among the ones taken from pause [k] to pause [k + n]. *)
Fixpoint timers (l : list (Z * Z)) : Z :=
  match l with [] => 0 | a :: l => (if a.1 =? 32 then 1 else 0) + timers l end.
Fixpoint timers_taken (k n : nat) : Z :=
  timers (taken k) + match n with O => 0 | S n => timers_taken (S k) n end.

(** Memory outside the first [n] bytes of video memory. *)
Definition same_outside (n : Z) (s s' : kstate) : Prop :=
  forall b, b < VIDEO_ADDRESS \/ VIDEO_ADDRESS + n <= b -> mem_get (mem s') b = mem_get (mem s) b.

End Preempt.

(** ** Lemmas: between two statements

    [calm s0 n w v s]: since [s0] memory changed in the first [n] bytes of video
    memory only, the cursor is on the page, at column [w] at most, and the rest
    of the kernel's variables are [v]. *)

#[global] Instance same_outside_preorder n : PreOrder (same_outside n).
Proof. split; [by intros s b|]. intros s1 s2 s3 H1 H2 b Hb. by rewrite H2, H1. Qed.

Lemma same_outside_mono n n' s s' : n <= n' -> same_outside n s s' -> same_outside n' s s'.
Proof. intros Hn H b Hb. apply H. lia. Qed.

Section Calm.
Context {P : PowerOn} {E : Env} {B : Build}.

Definition calm (s0 : kstate) (n w : Z) (v : view) (s : kstate) : Prop :=
  framebuffer (scr s) = VIDEO_ADDRESS /\ 0 <= screen_row (scr s) <= 24 /\ 0 <= screen_col (scr s) <= w
  /\ same_outside n s0 s /\ view_of s = v.

Lemma calm_tracks s0 n w : tracks (calm s0 n w).
Proof.
  split; [by intros v s (_ & _ & _ & _ & H)|]. intros v s s' (H1 & H2 & H3 & H4 & _) Em Es.
  unfold calm, same_outside in *. by rewrite Em, Es.
Qed.

Lemma calm_stage s0 p v s : at_stage s0 p v s -> p `mod` 80 = 0 -> 0 <= p < 2000 -> calm s0 4000 0 v s.
Proof.
  intros ((Hfb & Hr & Hc) & Hm & Hv) Hp Hb. unfold SCREEN_WIDTH in *.
  split; [done|]. split; [rewrite Hr; Z.div_mod_to_equations; lia|]. split; [lia|]. by split.
Qed.

Lemma calm_mono s0 n n' w w' v s : calm s0 n w v s -> n <= n' -> w <= w' -> calm s0 n' w' v s.
Proof.
  intros (H1 & H2 & H3 & H4 & H5) Hn Hw. split; [done|]. split; [done|]. split; [lia|].
  split; [by eapply same_outside_mono|done].
Qed.

(** *** Printing *)

Lemma calm_print s0 n w v s (format : list Z) arg out s' w' :
  calm s0 n w v s -> Forall is_byte format -> Z.of_nat (length format) < 2 ^ 31 ->
  render format arg = Some out -> screen_print out s = Ret tt s' ->
  0 <= screen_col (scr s') <= w' -> 0 <= screen_row (scr s') <= 24 -> same_outside n s s' -> console_step s s' ->
  wp (printfk format arg) (fun _ => calm s0 n w' v) s.
Proof.
  intros (Hfb & _ & _ & Hm & Hv) Hb Hl Hr Hrun Hc Hrow Hm' Hs. eapply wp_run.
  - unfold printfk. rewrite (vprintfk_screen _ _ _ Hb Hl Hr s). exact Hrun.
  - pose proof Hs as (_ & Hfb' & _). split; [by rewrite Hfb'|]. split; [done|]. split; [done|].
    split; [by etransitivity|]. by rewrite (console_view _ _ Hs).
Qed.

(** Text without conversions. *)
Lemma plain_renders (text : list Z) :
  forallb (fun c => (32 <=? c) && (c <? 127) && negb (c =? 37)) text = true ->
  Forall printable text /\ Forall is_byte (text ++ nl) /\ Forall is_byte text
  /\ render text [] = Some text /\ render (text ++ nl) [] = Some (text ++ nl).
Proof.
  intros Ht. assert (Hc : forall c, c ∈ text -> 32 <= c < 127 /\ c <> 37).
  { intros c Hc. rewrite forallb_forall in Ht. specialize (Ht c (proj1 (list_elem_of_In _ _) Hc)).
    apply andb_true_iff in Ht as [Ht Hn]. apply negb_true_iff, Z.eqb_neq in Hn. bools. lia. }
  assert (Hb : Forall is_byte text).
  { apply Forall_forall. intros c Hin. specialize (Hc c Hin). unfold is_byte. lia. }
  assert (Hl : forallb (fun c => negb (c =? 37)) text = true).
  { apply forallb_forall. intros c Hin%list_elem_of_In. specialize (Hc c Hin).
    by rewrite (proj2 (Z.eqb_neq c 37)) by lia. }
  split; [|split; [|split; [done|split]]].
  - apply Forall_forall. intros c Hin. specialize (Hc c Hin). unfold printable, is_byte. lia.
  - apply Forall_app. split; [done|by repeat constructor].
  - by apply render_literal.
  - apply render_literal. rewrite forallb_app. by apply andb_true_iff.
Qed.

Lemma calm_text s0 n w v s (text : list Z) :
  calm s0 n w v s -> 4000 <= n ->
  forallb (fun c => (32 <=? c) && (c <? 127) && negb (c =? 37)) text = true ->
  2 <= Z.of_nat (length text) -> w + Z.of_nat (length text) < 80 ->
  wp (printfk (text ++ nl) []) (fun _ => calm s0 n 0 v) s.
Proof.
  intros Hs Hn Ht H2 Hl. destruct (plain_renders text Ht) as (Hp & Hb & _ & _ & Hr).
  pose proof Hs as (Hfb & Hrow & Hc & _).
  destruct (screen_print_line text s Hfb Hrow ltac:(lia) H2 ltac:(lia) Hp) as (s' & Hrun & Hc' & Hr' & Hm & Hk).
  eapply calm_print; try eassumption; [rewrite length_app; cbn [length nl]; lia|lia|].
  by apply (same_outside_mono 4000).
Qed.

Lemma calm_words s0 n w v s (text : list Z) :
  calm s0 n w v s -> 4000 <= n ->
  forallb (fun c => (32 <=? c) && (c <? 127) && negb (c =? 37)) text = true ->
  w + Z.of_nat (length text) < 80 ->
  wp (printfk text []) (fun _ => calm s0 n (w + Z.of_nat (length text)) v) s.
Proof.
  intros Hs Hn Ht Hl. destruct (plain_renders text Ht) as (Hp & _ & Hb & Hr & _).
  pose proof Hs as (Hfb & Hrow & Hc & _).
  destruct (screen_print_row text s Hfb Hrow ltac:(lia) ltac:(lia) Hp) as (s' & Hrun & Hc' & Hr' & _ & _ & Hm & Hk).
  eapply calm_print; try eassumption; [lia|lia|]. by apply (same_outside_mono 4000).
Qed.

(** A line on the row after the last one: the first cell is past the page. *)
Lemma screen_print_below (str : list Z) c s :
  framebuffer (scr s) = VIDEO_ADDRESS -> screen_row (scr s) = 25 -> screen_col (scr s) = 0 ->
  (2 <= length str)%nat -> 1 + Z.of_nat (length str) < 80 -> Forall printable (c :: str) ->
  exists s', screen_print ((c :: str) ++ [10]) s = Ret tt s' /\ screen_col (scr s') = 0
    /\ 0 <= screen_row (scr s') <= 24 /\ same_outside 4002 s s' /\ console_step s s'.
Proof.
  intros Hfb Hr Hc H2 Hl Hpr. apply Forall_cons in Hpr as [Hpc Hpr].
  assert (Ho : char_offset s = 4000) by (unfold char_offset; lia).
  pose proof (screen_write_char c s Hpc ltac:(unfold in_range; lia)) as Hw. cbv zeta in Hw.
  rewrite Hc, Ho in Hw. change (0 + 1 =? 80) with false in Hw. cbv iota in Hw.
  set (s1 := at_cursor _ _ _) in Hw.
  assert (Hrow : cell_row s 4000 = 24) by (unfold cell_row; rewrite Hr; reflexivity).
  destruct (screen_print_line str s1) as (s' & Hrun & Hc' & Hr' & Hm & Hk); try done.
  - unfold s1. cbn [at_cursor scr set_trace set_scr screen_row]. rewrite Hrow. lia.
  - lia.
  - exists s'. split; [unfold screen_print in *; cbn [app iterM]; by rewrite (bind_ret _ _ _ _ _ Hw)|].
    split; [done|]. split; [done|]. split.
    + transitivity s1; [|by apply (same_outside_mono 4000)]. intros b Hb.
      change (mem s1) with (cell_mem s 4000 c (mem s)).
      unfold cell_mem. rewrite Hfb. change (3840 <? 4000) with true. cbv iota.
      rewrite scroll_get, !put_cell_get. split_tests; simpl; (done || lia).
    + etransitivity; [apply at_cursor_console|exact Hk].
Qed.

Lemma calm_hello s0 v s c :
  calm s0 4000 0 v s -> rtc_ok c ->
  wp (printfk hello_format [VWord (year c); VWord (month c); VWord (day c);
        VWord (hours c); VWord (minutes c); VWord (seconds c)]) (fun _ => calm s0 4002 0 v) s.
Proof.
  intros Hs Hc. destruct (hello_text_ok c Hc) as [Hp Hl]. pose proof Hs as (Hfb & Hrow & Hcol & _).
  pose proof (screen_write_newline s ltac:(unfold in_range; lia)) as Hn.
  set (s1 := at_cursor _ _ _) in Hn.
  assert (H3 : (10 <= length (hello_text c))%nat).
  { unfold hello_text. rewrite length_app, length_str. cbn [String.length]. lia. }
  assert (Hline : exists s', screen_print (hello_text c ++ [10]) s1 = Ret tt s' /\ screen_col (scr s') = 0
    /\ 0 <= screen_row (scr s') <= 24 /\ same_outside 4002 s1 s' /\ console_step s1 s').
  { assert (E1 : screen_row (scr s1) = screen_row (scr s) + 1 /\ screen_col (scr s1) = 0) by done.
    destruct (decide (screen_row (scr s) = 24)) as [E2|].
    - destruct (hello_text c) as [|h rest]; [cbn [length] in *; lia|]. cbn [length] in *.
      apply screen_print_below; (done || lia).
    - destruct (screen_print_line (hello_text c) s1) as (s' & R1 & R2 & R3 & R4 & R5); try (done || lia).
      exists s'. do 3 (split; [done|]). split; [by apply (same_outside_mono 4000)|done]. }
  destruct Hline as (s' & Hrun & Hc' & Hr' & Hm & Hk).
  apply (calm_print s0 4002 0 v s _ _ (nl ++ hello_text c ++ nl) s'); try (done || lia).
  - by apply (calm_mono s0 4000 4002 0 0).
  - by apply forallb_bytes.
  - by apply hello_renders.
  - unfold screen_print in *. cbn [nl app iterM]. by rewrite (bind_ret _ _ _ _ _ Hn).
  - etransitivity; [apply at_cursor_move|exact Hk].
Qed.

(** *** Interrupts *)

(** Which handlers the five lines have: the timer's if [on], the keyboard's if
    [key]. *)
Record lines_open (on key : bool) (hs : list isr_t) : Prop := {
  lo_timer : hs !! 32%nat = Some (if on then isr_timer_callback else isr_null);
  lo_keyboard : hs !! 33%nat = Some (if key then isr_keyboard_callback else isr_null);
  lo_rest : forall i, (34 <= i < 37)%nat -> hs !! i = Some isr_null
}.

Context {s0 : kstate} {mp : mmap_t} {d : devices}.

Notation calm_at n hs t := (calm s0 n 0 (open_view (s0 := s0) hs t mp d)).

Lemma calm_key n hs t sp s :
  calm_at n hs t s -> 4000 <= n -> hs !! 33%nat = Some isr_keyboard_callback ->
  wp (interrupt (33, sp)) (fun _ => calm_at n hs t) s.
Proof.
  intros Hs Hn Hk. pose proof Hs as (Hfb & Hr & Hc & Hm & (V1 & V2 & V3 & V4 & V5 & V6 & V7 & V8)%view_fields).
  cbn [open_view v_cr3 v_idt v_idt_reg v_handlers v_tick v_mm v_dev v_iflag] in *.
  set (s1 := set_trace (app (eoi_events 33)) s).
  destruct (keyboard_idle (get_stack 33 sp) s1) as (s' & Hrun & Hfb' & Hr' & Hc' & Hm' & Hk' & evs & Htr & Hevs);
    [done|done|change (scr s1) with (scr s); lia|].
  change (scr s1) with (scr s) in Hc'. destruct Hk' as (K1 & K2 & K3 & K4 & K5 & K6 & K7).
  eapply wp_run.
  - unfold interrupt. step. rewrite V1. cbn [fst snd].
    rewrite (irq_handler_run 33 sp s isr_keyboard_callback) by (by rewrite V5). exact Hrun.
  - split; [done|]. split; [done|]. split; [lia|]. split.
    + etransitivity; [exact Hm|]. by apply (same_outside_mono 4000).
    + assert (Hd : devices_after (trace s') = d).
      { rewrite Htr, devices_silent by (by apply crtc_silent).
        match goal with |- context [?e :: trace s1] => change (e :: trace s1) with ([e] ++ trace s1) end.
        rewrite devices_silent by (by apply Forall_singleton).
        unfold s1. simpl_state. by rewrite devices_eoi. }
      unfold view_of. rewrite Hd, K1, K2, K3, K4, K5, K6, K7. unfold s1. simpl_state.
      by rewrite V1, V2, V3, V4, V5, V6, V7.
Qed.

Lemma calm_interrupt n hs x a s on key :
  calm_at n hs (u32 x) s -> 4000 <= n -> lines_open on key hs -> 32 <= a.1 < 37 ->
  wp (interrupt a) (fun _ => calm_at n hs (u32 (x + if (on : bool) then if a.1 =? 32 then 1 else 0 else 0))) s.
Proof.
  intros Hs Hn Hl Ha. destruct a as [id sp]. cbn [fst] in *.
  assert (Hnull : hs !! Z.to_nat id = Some isr_null -> wp (interrupt (id, sp)) (fun _ => calm_at n hs (u32 x)) s).
  { intros Hh. by apply (stage_null (calm_tracks s0 n 0)). }
  destruct (Z.eqb_spec id 32) as [->|].
  - pose proof (lo_timer _ _ _ Hl) as H32. destruct on; [|rewrite Z.add_0_r; by apply Hnull].
    eapply wp_mono; [by apply (stage_tick (calm_tracks s0 n 0) _ s sp Hs)|]. intros [] s' Hs'.
    unfold set_v_tick, open_view in Hs'. cbn [v_cr3 v_idt v_idt_reg v_handlers v_tick v_mm v_dev v_iflag] in Hs'.
    unfold u32 in Hs' at 1. unfold u32 in Hs' at 1. by rewrite Zplus_mod_idemp_l in Hs'.
  - assert (E1 : (if on then 0 else 0) = 0) by (by destruct on). rewrite E1, Z.add_0_r. clear E1.
    destruct (Z.eq_dec id 33) as [->|].
    + pose proof (lo_keyboard _ _ _ Hl) as H33. destruct key; [by apply calm_key|by apply Hnull].
    + apply Hnull, (lo_rest _ _ _ Hl). lia.
Qed.

Lemma calm_interrupts n hs on key l : forall x s,
  calm_at n hs (u32 x) s -> 4000 <= n -> lines_open on key hs -> Forall (fun a : Z * Z => 32 <= a.1 < 37) l ->
  wp (iterM interrupt l) (fun _ => calm_at n hs (u32 (x + if (on : bool) then timers l else 0))) s.
Proof.
  induction l as [|a l IH]; intros x s Hs Hn Hl Ha.
  - cbn [iterM timers]. replace (x + _) with x by (destruct on; lia). done.
  - apply Forall_cons in Ha as [Ha Hla]. cbn [iterM timers]. apply wp_bind.
    eapply wp_mono; [by apply (calm_interrupt n hs x a s on key)|]. intros [] s' Hs'.
    eapply wp_mono; [by apply (IH _ s' Hs')|]. intros [] s'' Hs''.
    replace (x + _) with (x + (if on then if a.1 =? 32 then 1 else 0 else 0) + (if on then timers l else 0))
      by (destruct on; lia). done.
Qed.

End Calm.

(** ** Lemmas: the whole way *)

Section Whole.
Context {P : PowerOn} {E : Env} {B : Build} {Q : Irqs} {T : Schedule}.
Context {fuel m : nat} {addr sp : Z} {ts : list tag_t} {s0 : kstate}.
Context (Hok : boot_ok fuel addr ts m sp s0).
Context (Htaken : forall k, Forall (fun a : Z * Z => 32 <= a.1 < 37) (taken k)).

Notation calm_at n hs t mp d := (calm s0 n 0 (open_view (s0 := s0) hs t mp d)).

Definition keyboard_handlers : list isr_t :=
  <[33%nat := isr_keyboard_callback]> (timer_handlers (s0 := s0)).

Lemma lines_before i : (32 <= i < 37)%nat -> breakpoint_handlers (s0 := s0) !! i = Some isr_null.
Proof using Hok.
  intros Hi. unfold breakpoint_handlers. rewrite list_lookup_insert_ne, (bo_handlers _ _ _ _ _ _ Hok) by lia.
  apply lookup_replicate. split; [done|lia].
Qed.

Lemma lines_null : lines_open false false (breakpoint_handlers (s0 := s0)).
Proof using Hok. split; intros; apply lines_before; lia. Qed.

Lemma lines_timer : lines_open true false (timer_handlers (s0 := s0)).
Proof using Hok.
  split; [exact (timer_line Hok)|..]; intros; unfold timer_handlers;
    rewrite list_lookup_insert_ne by lia; apply lines_before; lia.
Qed.

Lemma lines_keyboard : lines_open true true keyboard_handlers.
Proof using Hok.
  unfold keyboard_handlers. split; intros; rewrite ?list_lookup_insert_ne by lia.
  - exact (timer_line Hok).
  - apply list_lookup_insert_eq. unfold timer_handlers, breakpoint_handlers.
    rewrite !length_insert, (bo_handlers _ _ _ _ _ _ Hok), length_replicate. lia.
  - by apply lines_timer.
Qed.

Lemma calm_pause on key n hs x mp d k s :
  calm_at n hs (u32 x) mp d s -> 4000 <= n -> lines_open on key hs ->
  wp (pause k) (fun _ => calm_at n hs (u32 (x + if (on : bool) then timers (taken k) else 0)) mp d) s.
Proof using Htaken. intros Hs Hn Hl. by apply (calm_interrupts n hs on key). Qed.

Lemma calm_check x mp d s :
  calm_at 4000 (timer_handlers (s0 := s0)) (u32 x) mp d s ->
  wp check_interrupts (fun _ => calm_at 4000 (timer_handlers (s0 := s0)) (u32 (x + 1)) mp d) s.
Proof using Hok.
  intros Hs. unfold check_interrupts. apply wp_bind.
  eapply wp_mono; [by apply (calm_words s0 4000 0 _ s (str "- checking interrupts... ") Hs)|]. intros [] s1 H1.
  apply wp_bind. eapply wp_run; [reflexivity|].
  assert (Et : tick s1 = u32 x) by (destruct H1 as (_ & _ & _ & _ & H1); by apply view_fields in H1 as (_ & _ & _ & _ & _ & -> & _)).
  rewrite Et. apply wp_bind. eapply wp_mono.
  { apply (stage_wait (calm_tracks s0 4000 _) _ sp m patience 0 s1 H1).
    - done.
    - apply u32_range.
    - exact (timer_line Hok).
    - intros j Hj. by apply (early_null Hok).
    - apply Hok.
    - apply Hok. }
  intros [] s2 H2. unfold set_v_tick, open_view in H2.
  cbn [v_cr3 v_idt v_idt_reg v_handlers v_tick v_mm v_dev v_iflag] in H2.
  unfold u32 in H2 at 1. unfold u32 in H2 at 1. rewrite Zplus_mod_idemp_l in H2.
  by apply (calm_text s0 4000 _ _ s2 (str "OK") H2).
Qed.

(** [find_multiboot_tag], with interrupts before it. *)
Lemma calm_tags n w v s : n <= 4000 -> calm s0 n w v s -> tags_at (mem s) (addr + 8) ts.
Proof using Hok.
  intros Hn (_ & _ & _ & Hm & _). apply (tags_at_ext ts (mem s0)); [apply Hok|]. intros b Hb. apply Hm.
  destruct (bo_page _ _ _ _ _ _ Hok); lia.
Qed.

Lemma calm_find n w v s :
  n <= 4000 -> calm s0 n w v s ->
  find_multiboot_tag fuel (addr + 8) MULTIBOOT_TAG_TYPE_MMAP s
    = Ret (first_tag (addr + 8) ts MULTIBOOT_TAG_TYPE_MMAP) s.
Proof using Hok.
  intros Hn Hs. change MULTIBOOT_TAG_TYPE_MMAP with (u16 MULTIBOOT_TAG_TYPE_MMAP) at 2.
  apply (find_run ts); [by eapply calm_tags|]. pose proof (length_steps ts). pose proof (bo_fuel _ _ _ _ _ _ Hok). lia.
Qed.

(** From [irq_init] to the interrupt check, from there to the memory, and on to
    the prompt. *)
Ltac paused on key H := apply wp_bind; eapply wp_mono; [eapply (calm_pause on key); [exact H|lia|assumption]|].
Ltac statement tac := apply wp_bind; eapply wp_mono; [tac|].

Lemma preempted_last (binary : bool) c {R : Rtc (encode binary true c)} x s mp :
  clock_ok c -> calm_at 4000 keyboard_handlers (u32 x) mp (booted_devices (devices_after (trace s0))) s ->
  wp (printfk (str "- keyboard routine enabled" ++ nl) [] ;;
      pause 7 ;;
      mmap ← find_multiboot_tag fuel (addr + 8) MULTIBOOT_TAG_TYPE_MMAP;
      pause 8 ;;
      mmu_init mmap (boot_areas addr ts) ;;
      pause 9 ;;
      printfk (str "- frame allocator and paging enabled" ++ nl) [] ;;
      pause 10 ;;
      rtc ← cmos_read_rtc;
      pause 11 ;;
      printfk hello_format
        [VWord (year rtc); VWord (month rtc); VWord (day rtc);
         VWord (hours rtc); VWord (minutes rtc); VWord (seconds rtc)] ;;
      pause 12 ;;
      printfk (str "$ ") []) (fun _ => calm s0 4002 2
      (final_view (addr := addr) (ts := ts) (s0 := s0) (u32 (x + timers_taken 7 5)) (devices_after (trace s0)))) s.
Proof using Hok Htaken.
  intros Hc H0. pose proof lines_keyboard as Hl.
  statement ltac:(by apply (calm_text _ _ _ _ _ (str "- keyboard routine enabled") H0)). intros [] s1 H1.
  paused true true H1. intros [] s2 H2. apply wp_bind. eapply wp_run; [by eapply calm_find|].
  paused true true H2. intros [] s3 H3. statement ltac:(exact (stage_mmu_init (calm_tracks s0 4000 0) _ _ _ _ H3)).
  intros [] s4 H4.
  paused true true H4. intros [] s5 H5.
  statement ltac:(by apply (calm_text _ _ _ _ _ (str "- frame allocator and paging enabled") H5)). intros [] s6 H6.
  paused true true H6. intros [] s7 H7. statement ltac:(exact (stage_clock (calm_tracks s0 4000 0) binary c _ _ Hc H7)).
  intros rtc s8 [-> H8].
  paused true true H8. intros [] s9 H9. statement ltac:(apply (calm_hello _ _ _ _ H9); by apply (rtc_of_ok c)).
  intros [] s10 H10. paused true true H10. intros [] s11 H11.
  eapply wp_mono; [by apply (calm_words _ _ _ _ _ (str "$ ") H11)|]. intros [] s12 H12.
  unfold final_view. cbn [timers_taken].
  match type of H12 with calm _ _ _ (open_view _ (u32 ?y) _ _) _ =>
    replace (x + _) with y by lia end.
  exact H12.
Qed.

Lemma preempted_first (K : unit -> kstate -> Prop) (rest : M unit) s :
  (forall s, calm_at 4000 keyboard_handlers (u32 (tick s0 + 1 + timers_taken 2 4)) (mm s0)
     (booted_devices (devices_after (trace s0))) s -> wp rest K s) ->
  at_stage s0 640 (open_view (s0 := s0) (breakpoint_handlers (s0 := s0)) (tick s0) (mm s0)
                     (irq_devices (devices_after (trace s0)))) s ->
  wp (pause 0 ;;
      printfk (str "- interruptions enabled" ++ nl) [] ;;
      pause 1 ;;
      timer_init 50 ;;
      pause 2 ;;
      printfk (str "- clock (timer) enabled" ++ nl) [] ;;
      pause 3 ;;
      check_interrupts ;;
      pause 4 ;;
      serial_init SERIAL_COM1 SERIAL_SPEED_115200 ;;
      pause 5 ;;
      keyboard_init ;;
      pause 6 ;;
      rest) K s.
Proof using Hok Htaken.
  intros Hrest Hs. pose proof lines_null as L0. pose proof lines_timer as L1. pose proof lines_keyboard as L2.
  apply calm_stage in Hs; [|done|lia].
  rewrite <- (u32_small (tick s0)) in Hs by apply Hok.
  paused false false Hs. intros [] s1 H1. rewrite Z.add_0_r in H1.
  statement ltac:(by apply (calm_text _ _ _ _ _ (str "- interruptions enabled") H1)). intros [] s2 H2.
  paused false false H2. intros [] s3 H3. rewrite Z.add_0_r in H3.
  statement ltac:(exact (stage_timer_init (calm_tracks s0 4000 0) _ _ H3)). intros [] s4 H4.
  paused true false H4. intros [] s5 H5.
  statement ltac:(by apply (calm_text _ _ _ _ _ (str "- clock (timer) enabled") H5)). intros [] s6 H6.
  paused true false H6. intros [] s7 H7. statement ltac:(by eapply calm_check). intros [] s8 H8.
  paused true false H8. intros [] s9 H9. statement ltac:(exact (stage_serial_init (calm_tracks s0 4000 0) _ _ H9)).
  intros [] s10 H10.
  paused true false H10. intros [] s11 H11. statement ltac:(exact (stage_keyboard_init (calm_tracks s0 4000 0) _ _ H11)).
  intros [] s12 H12.
  paused true true H12. intros [] s13 H13. apply Hrest. cbn [timers_taken].
  match type of H13 with calm _ _ _ (open_view _ (u32 ?y) _ _) _ =>
    replace (tick s0 + 1 + _) with y by lia end.
  exact H13.
Qed.

Lemma preempted_run (binary : bool) c {R : Rtc (encode binary true c)} :
  clock_ok c ->
  wp (kmain_preempted fuel MULTIBOOT2_MAGIC_VALUE addr)
    (fun _ => calm s0 4002 2
      (final_view (addr := addr) (ts := ts) (s0 := s0) (u32 (tick s0 + 1 + timers_taken 2 10)) (devices_after (trace s0)))) s0.
Proof using Hok Htaken.
  intros Hc. unfold kmain_preempted. apply (kmain_start Hok). intros s2 H2.
  apply preempted_first; [|exact H2]. intros s3 H3.
  eapply wp_mono; [by apply (preempted_last binary c _ s3 _ Hc H3)|]. intros [] s4 H4.
  replace (tick s0 + 1 + timers_taken 2 10) with (tick s0 + 1 + timers_taken 2 4 + timers_taken 7 5)
    by (cbn [timers_taken]; lia).
  exact H4.
Qed.

End Whole.

(** Without interrupts it is [kmain]. *)
Lemma pause_none {A} {E : Env} {Q : Irqs} {T : Schedule} k (c d : M A) :
  (forall k, taken k = []) -> c ≡ d -> (pause k ;; c) ≡ d.
Proof. intros Hk Hc s. unfold pause. rewrite Hk. exact (Hc s). Qed.

Lemma kmain_undisturbed {E : Env} {B : Build} {Q : Irqs} {T : Schedule} fuel magic addr :
  (forall k, taken k = []) -> kmain_preempted fuel magic addr ≡ kmain fuel magic addr.
Proof.
  intros Hk. unfold kmain_preempted, kmain.
  repeat lazymatch goal with
    | |- (pause _ ≫= _) ≡ _ => apply pause_none; [exact Hk|]
    | |- (_ ≫= _) ≡ (_ ≫= _) => refine (M_bind_proper _ _ _ _ _ _ _ (reflexivity _)); intros ?; cbv beta
    | |- _ ≡ _ => reflexivity
    end.
Qed.

(** ** Properties *)

(** C3: interrupts do not disturb the boot.  Whatever interrupts on lines 0 to 4 are
    taken between the statements of [kmain] after [irq_init], each run to its end
    by [irq_handler], [kmain] reaches its idle loop as it does without them: the
    same interrupt table, handlers, allocator and devices, every timer interrupt
    since [timer_init] registered the handler counted modulo [2^32] (those before
    are acknowledged only), and the prompt on the
    page, ready for more.  Memory differs in video memory only, though a key
    press that moves the cursor to the last row makes the greeting, which begins
    with a newline, write one cell past the 4000 bytes of the page. *)
Theorem kmain_preempted_boots {P : PowerOn} {E : Env} {B : Build} {Q : Irqs} {T : Schedule} fuel addr ts m sp s0
    (binary : bool) c {R : Rtc (encode binary true c)} :
  boot_ok fuel addr ts m sp s0 -> clock_ok c -> (forall k, Forall (fun a : Z * Z => 32 <= a.1 < 37) (taken k)) ->
  exists s s', kmain fuel MULTIBOOT2_MAGIC_VALUE addr s0 = Ret tt s
    /\ kmain_preempted fuel MULTIBOOT2_MAGIC_VALUE addr s0 = Ret tt s'
    /\ idle s' /\ same_but_tick s s' /\ tick s' = u32 (tick s + timers_taken 2 10)
    /\ devices_after (trace s') = devices_after (trace s)
    /\ same_outside 4002 s0 s'.
Proof.
  intros Hok Hc Ht. pose proof (kmain_run Hok binary c Hc) as H1. apply wp_inv in H1 as ([] & s & Hrun & _ & _ & Hv).
  pose proof (preempted_run Hok Ht binary c Hc) as H2.
  apply wp_inv in H2 as ([] & s' & Hrun' & Hfb & Hr & Hcol & Hm & Hv').
  exists s, s'. split; [exact Hrun|]. split; [exact Hrun'|].
  apply view_fields in Hv as (V1 & V2 & V3 & V4 & V5 & V6 & V7 & V8).
  apply view_fields in Hv' as (W1 & W2 & W3 & W4 & W5 & W6 & W7 & W8).
  unfold booted_view, booted_devices, final_view, open_view, view_of in *.
  cbn [v_cr3 v_idt v_idt_reg v_handlers v_tick v_mm v_dev v_iflag] in *.
  split; [|split; [|split; [|split; [|exact Hm]]]].
  - pose proof (lines_keyboard Hok) as L. unfold idle. rewrite W5.
    split; [exact (lo_timer _ _ _ L)|]. split; [exact (lo_keyboard _ _ _ L)|]. split; [exact (lo_rest _ _ _ L)|].
    split; [exact Hfb|]. split; assumption.
  - unfold keyboard_handlers, timer_handlers, breakpoint_handlers in W5. repeat split; congruence.
  - rewrite W6, V6. unfold u32. by rewrite Zplus_mod_idemp_l.
  - congruence.
Qed.

(** The instance: a key while the boot information is in use, timer interrupts
    before and after the check. *)
#[local] Instance timer_irqs : Irqs := fun _ => [(32, 0x80000)].
#[local] Instance test_schedule : Schedule := fun k =>
  match k with
  | 1%nat | 3%nat => [(32, 0x80000); (34, 0x80000)]
  | 7%nat => [(33, 0x80000); (32, 0x80000); (33, 0x80000)]
  | _ => []
  end.
#[local] Instance reset_devices : PowerOn :=
  Devices (Pic 0 0 0 0 0 0 []) (Pic 0 0 0 0 0 0 []) (Pit 0 None 0) (Uart 0 0 0 []).
Definition evening : clock_t := Clock 58 30 23 4 31 12 2018.
#[local] Instance evening_env : Env := rtc_env (encode false true evening).

Lemma evening_ok : clock_ok evening.
Proof. unfold clock_ok, evening. simpl. lia. Defined.

Lemma kmain_preempted_boots_witness :
  exists s s', kmain 8 MULTIBOOT2_MAGIC_VALUE 0x90000 test_mbi = Ret tt s
    /\ kmain_preempted 8 MULTIBOOT2_MAGIC_VALUE 0x90000 test_mbi = Ret tt s' /\ tick s' = u32 (tick s + 2).
Proof.
  destruct (@kmain_preempted_boots reset_devices evening_env test_build timer_irqs test_schedule
    8 0x90000 test_tags 0 0x80000 test_mbi false evening
    (rtc_env_rtc _ (fun r => encode_byte false true evening r evening_ok) eq_refl)
    (test_boot_ok evening_env ltac:(cbn; lia)) evening_ok) as (s & s' & H1 & H2 & _ & _ & Ht & _).
  - intros k. do 8 (destruct k as [|k]; [repeat constructor; cbn; lia|]). by apply Forall_nil.
  - exists s, s'. split; [exact H1|]. split; [exact H2|exact Ht].
Defined.
