(* ===== verification/Stubs.v ===== *)
(** * The interrupt stubs: asm/interrupt.asm

    The entry points of the interrupt table are in assembly.  This file gives
    the instructions they consist of an executable meaning, writes the stubs
    down instruction for instruction, and composes them with what the processor
    does before them: [dispatch] is a whole interrupt, from the interrupted
    instruction back to it.

    The code is straight-line, so [rip] matters only on entry and at [iretq].  The
    stack is virtual memory: a push is a store the processor translates, and
    faults where the page tables do not let it.  A called C function keeps the
    registers the calling convention lets it keep, leaves anything in the others
    and anything in its part of the stack ([Calls]).  Its own accesses to its
    part of the stack are not modelled further. *)

From stdpp Require Import base numbers list gmap strings.
From S2P Require Import Prelude Machine Libk Screen Serial Printf Idt Isr Timer Keyboard Cmos Boot PageWalk Mmap Paging Kernel.

(** ** Registers *)

Inductive reg :=
  | Rax | Rbx | Rcx | Rdx | Rsi | Rdi | Rbp | Rsp
  | R8 | R9 | R10 | R11 | R12 | R13 | R14 | R15.

#[global] Instance reg_eq_dec : EqDecision reg.
Proof. solve_decision. Defined.

Record cpu := Cpu {
  gpr : reg -> Z;
  rip : Z;
  cs : Z;
  rflags : Z;
  ss : Z
}.

Definition set_gpr (r : reg) (v : Z) (c : cpu) : cpu :=
  Cpu (fun q => if decide (q = r) then v else gpr c q) (rip c) (cs c) (rflags c) (ss c).

Lemma gpr_set_same r v c : gpr (set_gpr r v c) r = v.
Proof. cbn. by rewrite decide_True. Qed.
Lemma gpr_set_other r q v c : q <> r -> gpr (set_gpr r v c) q = gpr c q.
Proof. intros H. cbn. by rewrite decide_False. Qed.

(** ** Instructions *)

Inductive instr :=
  | Push (r : reg)
  | Pop (r : reg)
  | MovImm (r : reg) (v : Z)
  | Mov (dst src : reg)
  | CliI
  | StiI
  | Call (f : Z -> Z -> M unit)       (* a C function of [rdi] and [rsi] *)
  | Iretq.

(** The return address a call pushes, what a C function leaves in the registers
    it need not keep, and the words it and the functions it calls leave below
    the return address, from there down. *)
Class Calls := {
  return_address : Z;
  clobbered : reg -> Z;
  frame_words : list Z
}.

Definition callee_saved (r : reg) : bool :=
  match r with Rbx | Rbp | Rsp | R12 | R13 | R14 | R15 => true | _ => false end.

Definition push_word (v : Z) (c : cpu) : M cpu :=
  let sp := u64 (gpr c Rsp - 8) in
  vstore64 sp v ;; mret (set_gpr Rsp sp c).

Fixpoint push_words (vs : list Z) (c : cpu) : M cpu :=
  match vs with
  | [] => mret c
  | v :: vs => c ← push_word v c; push_words vs c
  end.

Definition pop_word (c : cpu) : M (Z * cpu) :=
  v ← vload64 (gpr c Rsp);
  mret (v, set_gpr Rsp (u64 (gpr c Rsp + 8)) c).

Section Exec.
Context {C : Calls}.

Definition after_call (c : cpu) : cpu :=
  Cpu (fun r => if callee_saved r then gpr c r else clobbered r) (rip c) (cs c) (rflags c) (ss c).

Definition exec (i : instr) (c : cpu) : M cpu :=
  match i with
  | Push r => push_word (gpr c r) c
  | Pop r => '(v, c) ← pop_word c; mret (set_gpr r v c)
  | MovImm r v => mret (set_gpr r (u64 v) c)
  | Mov dst src => mret (set_gpr dst (gpr c src) c)
  | CliI => irq_disable ;; mret c
  | StiI => irq_init ;; mret c
  | Call f =>
      push_words (return_address :: frame_words) c ;;
      f (gpr c Rdi) (gpr c Rsi) ;;
      mret (after_call c)
  | Iretq =>
      '(rip, c) ← pop_word c;
      '(cs, c) ← pop_word c;
      '(rflags, c) ← pop_word c;
      '(rsp, c) ← pop_word c;
      '(ss, c) ← pop_word c;
      modify (set_iflag (Z.testbit rflags 9)) ;;
      mret (Cpu (gpr (set_gpr Rsp rsp c)) rip cs rflags ss)
  end.

Fixpoint run (code : list instr) (c : cpu) : M cpu :=
  match code with
  | [] => mret c
  | i :: code => c ← exec i c; run code c
  end.

(** ** The stubs *)

Definition saved_regs : list reg :=
  [Rax; Rbx; Rcx; Rdx; Rsi; Rdi; Rbp; R8; R9; R10; R11; R12; R13; R14; R15].

(** [isr_common_stub] and [irq_common_stub] differ in the function called. *)
Definition common_stub (f : Z -> Z -> M unit) : list instr :=
  (Push <$> saved_regs) ++ [Mov Rsi Rsp; Call f] ++ (Pop <$> reverse saved_regs) ++ [StiI; Iretq].

Definition def_isr_handler (f : Z -> Z -> M unit) (n : Z) : list instr :=
  [CliI; MovImm Rdi n] ++ common_stub f.
Definition def_irq_handler (f : Z -> Z -> M unit) (n : Z) : list instr :=
  [CliI; MovImm Rdi (32 + n)] ++ common_stub f.

(** ** The processor *)

(** Taking an interrupt through one of the kernel's gates, which are trap gates
    and leave the interrupt flag alone: the stack is aligned, the context and
    for some exceptions an error code are pushed, through the page tables like
    any store. *)
Definition enter (id err : Z) (c : cpu) : M cpu :=
  let frame := [ss c; gpr c Rsp; rflags c; cs c; rip c]
    ++ (if bool_decide (id ∈ error_code_vectors) then [err] else []) in
  let rsp := gpr c Rsp in
  c ← push_words frame (set_gpr Rsp (rsp - rsp `mod` 16) c);
  mret (Cpu (gpr c) (rip c) 0x08 (rflags c) (ss c)).

Definition dispatch (id err : Z) (stub : list instr) (c : cpu) : M cpu :=
  c ← enter id err c; run stub c.

End Exec.

(** ** Lemmas: pushing and popping *)

Section Lemmas.
Context {C : Calls}.

Definition gpr_eq (c1 c2 : cpu) : Prop :=
  (forall r, gpr c1 r = gpr c2 r) /\ rip c1 = rip c2 /\ cs c1 = cs c2 /\ rflags c1 = rflags c2 /\ ss c1 = ss c2.

Lemma run_app code1 code2 c : run (code1 ++ code2) c ≡ (run code1 c ≫= run code2).
Proof.
  revert c; induction code1 as [|i code1 IH]; intros c; [by intros s|].
  cbn [app run]. rewrite bind_assoc. apply M_bind_proper; [|done]. intros c'. apply IH.
Qed.

Definition pushed (vs : list Z) (sp : Z) (m : gmap Z Z) : gmap Z Z :=
  (foldl (fun st v => push64 v st) (m, sp) vs).1.

Lemma pushed_cons v vs sp m :
  pushed (v :: vs) sp m = pushed vs (sp - 8) (write_bytes m (sp - 8) (le_bytes 8 v)).
Proof. done. Qed.

(** The words [vs] are in memory from [a] on. *)
Definition words_at (m : gmap Z Z) (a : Z) (vs : list Z) : Prop :=
  forall (i : nat) v, vs !! i = Some v -> m64 m (a + 8 * Z.of_nat i) = v.

Lemma words_at_cons m a v vs : words_at m a (v :: vs) -> m64 m a = v /\ words_at m (a + 8) vs.
Proof.
  intros H. split; [rewrite <- (H 0%nat v eq_refl); f_equal; lia|].
  intros i w Hi. rewrite <- (H (S i) w Hi). f_equal. lia.
Qed.

Lemma words_at_app m a vs ws :
  words_at m a (vs ++ ws) -> words_at m a vs /\ words_at m (a + 8 * Z.of_nat (length vs)) ws.
Proof.
  intros H. split; intros i v Hi.
  - apply H. by apply lookup_app_l_Some.
  - rewrite <- (H (length vs + i)%nat v); [f_equal; lia|]. rewrite lookup_app_r by lia.
    by replace (length vs + i - length vs)%nat with i by lia.
Qed.

(** The stack lies between [lo] and [hi], mapped to itself. *)
Section Stack.
Context (lo hi : Z) (free : Z -> Prop) (Hlo : 0 <= lo) (Hhi : hi < 2 ^ 64).

Definition stack_mapped (s : kstate) : Prop := self_mapped (mem s) (cr3 s) lo hi free.

Lemma push_word_run v c s :
  stack_mapped s -> lo + 8 <= gpr c Rsp <= hi ->
  push_word v c s = Ret (set_gpr Rsp (gpr c Rsp - 8) c)
    (set_mem (fun m => write_bytes m (gpr c Rsp - 8) (le_bytes 8 v)) s)
  /\ stack_mapped (set_mem (fun m => write_bytes m (gpr c Rsp - 8) (le_bytes 8 v)) s).
Proof using Hlo Hhi.
  intros M H. split; [|apply self_mapped_write; [lia..|exact M]]. unfold push_word. rewrite u64_small by lia.
  by rewrite (bind_ret _ _ _ _ _ (self_store (gpr c Rsp - 8) v lo hi free s M ltac:(lia))).
Qed.

Lemma push_words_run vs : forall c s,
  stack_mapped s -> lo + 8 * Z.of_nat (length vs) <= gpr c Rsp <= hi ->
  exists c', push_words vs c s = Ret c' (set_mem (pushed vs (gpr c Rsp)) s)
    /\ gpr_eq c' (set_gpr Rsp (gpr c Rsp - 8 * Z.of_nat (length vs)) c).
Proof using Hlo Hhi.
  induction vs as [|v vs IH]; intros c s M H; cbn [push_words length] in *.
  - exists c. split; [by destruct s|]. repeat split. intros r. cbn. case_decide; [subst; cbn; lia|done].
  - destruct (push_word_run v c s M ltac:(lia)) as [Hp M']. rewrite (bind_ret _ _ _ _ _ Hp).
    destruct (IH (set_gpr Rsp (gpr c Rsp - 8) c) _ M') as (c' & Hr & Hg).
    { rewrite gpr_set_same. lia. }
    rewrite gpr_set_same in Hr, Hg. exists c'. rewrite Hr. split; [done|]. destruct Hg as (Hg & ? & ? & ? & ?). repeat split; try done.
    intros r. rewrite Hg. cbn. case_decide; [lia|done].
Qed.

Lemma run_pushes rs : forall c s,
  Rsp ∉ rs -> stack_mapped s -> lo + 8 * Z.of_nat (length rs) <= gpr c Rsp <= hi ->
  exists c', run (Push <$> rs) c s = Ret c' (set_mem (pushed (gpr c <$> rs) (gpr c Rsp)) s)
    /\ gpr_eq c' (set_gpr Rsp (gpr c Rsp - 8 * Z.of_nat (length rs)) c).
Proof using Hlo Hhi.
  induction rs as [|r rs IH]; intros c s Hn M H; cbn [run fmap list_fmap length] in *.
  - exists c. split; [by destruct s|]. repeat split. intros r. cbn. case_decide; [subst; cbn; lia|done].
  - apply not_elem_of_cons in Hn as [Hr Hn]. cbn [exec].
    destruct (push_word_run (gpr c r) c s M ltac:(lia)) as [Hp M']. rewrite (bind_ret _ _ _ _ _ Hp).
    destruct (IH (set_gpr Rsp (gpr c Rsp - 8) c) _ Hn M') as (c' & Hrun & Hg);
      [rewrite gpr_set_same; lia|].
    rewrite gpr_set_same in Hrun, Hg.
    exists c'. split.
    + rewrite Hrun. f_equal. rewrite set_mem_set_mem. apply set_mem_ext. rewrite pushed_cons. f_equal.
      apply list_fmap_ext. intros i q Hq. apply gpr_set_other.
      intros ->. by apply Hn, list_elem_of_lookup_2 with i.
    + destruct Hg as (Hg & ? & ? & ? & ?). repeat split; try done.
      intros q. rewrite Hg. cbn. case_decide; [lia|done].
Qed.

Lemma pop_word_run v c s :
  stack_mapped s -> m64 (mem s) (gpr c Rsp) = v -> lo <= gpr c Rsp <= hi - 8 ->
  pop_word c s = Ret (v, set_gpr Rsp (gpr c Rsp + 8) c) s.
Proof using Hlo Hhi.
  intros M Hv H. unfold pop_word. rewrite (bind_ret _ _ _ _ _ (self_load (gpr c Rsp) lo hi free s M ltac:(lia))), Hv.
  by rewrite u64_small by lia.
Qed.

Lemma exec_pop r v c s :
  stack_mapped s -> m64 (mem s) (gpr c Rsp) = v -> lo <= gpr c Rsp <= hi - 8 ->
  exec (Pop r) c s = Ret (set_gpr r v (set_gpr Rsp (gpr c Rsp + 8) c)) s.
Proof using Hlo Hhi. intros M Hv H. cbn [exec]. by rewrite (bind_ret _ _ _ _ _ (pop_word_run v c s M Hv H)). Qed.

Lemma run_pops rs : forall vs c s,
  stack_mapped s -> NoDup rs -> Rsp ∉ rs -> length vs = length rs -> words_at (mem s) (gpr c Rsp) vs ->
  lo <= gpr c Rsp -> gpr c Rsp + 8 * Z.of_nat (length rs) <= hi ->
  exists c', run (Pop <$> rs) c s = Ret c' s
    /\ gpr c' Rsp = gpr c Rsp + 8 * Z.of_nat (length rs)
    /\ (forall i r v, rs !! i = Some r -> vs !! i = Some v -> gpr c' r = v)
    /\ (forall r, r ∉ rs -> r <> Rsp -> gpr c' r = gpr c r)
    /\ rip c' = rip c /\ cs c' = cs c /\ rflags c' = rflags c /\ ss c' = ss c.
Proof using Hlo Hhi.
  induction rs as [|r rs IH]; intros [|v vs] c s M Hnd Hn Hl Hw H0 Hb; try done;
    cbn [run fmap list_fmap length] in *.
  - exists c. repeat split; try done. lia.
  - apply NoDup_cons in Hnd as [Hr Hnd]. apply not_elem_of_cons in Hn as [Hrsp Hn].
    apply words_at_cons in Hw as [Hv Hw]. rewrite (bind_ret _ _ _ _ _ (exec_pop r v c s M Hv ltac:(lia))).
    assert (Hsp' : gpr (set_gpr r v (set_gpr Rsp (gpr c Rsp + 8) c)) Rsp = gpr c Rsp + 8)
      by (rewrite gpr_set_other by done; apply gpr_set_same).
    destruct (IH vs (set_gpr r v (set_gpr Rsp (gpr c Rsp + 8) c)) s) as (c' & Hrun & Hsp & Hin & Hout & Hrest);
      rewrite ?Hsp'; try done; try lia.
    rewrite Hsp' in Hsp.
    exists c'. split; [done|]. split; [lia|]. split; [|split; [|done]].
    + intros [|i] q w Hq Hw'; cbn in Hq, Hw'; [|by eapply Hin].
      injection Hq as <-. injection Hw' as <-. rewrite Hout by done. apply gpr_set_same.
    + intros q [Hq1 Hq2]%not_elem_of_cons Hq3. rewrite Hout by done.
      by rewrite !gpr_set_other.
Qed.

Lemma exec_iretq c s a b d e f :
  stack_mapped s -> words_at (mem s) (gpr c Rsp) [a; b; d; e; f] -> lo <= gpr c Rsp -> gpr c Rsp + 40 <= hi ->
  exists c', exec Iretq c s = Ret c' (set_iflag (Z.testbit d 9) s)
    /\ rip c' = a /\ cs c' = b /\ rflags c' = d /\ ss c' = f /\ gpr c' Rsp = e
    /\ forall r, r <> Rsp -> gpr c' r = gpr c r.
Proof using Hlo Hhi.
  intros M Hw H0 Hb. do 5 (apply words_at_cons in Hw as [?W Hw]). cbn [exec].
  set (c1 := set_gpr Rsp (gpr c Rsp + 8) c). set (c2 := set_gpr Rsp (gpr c1 Rsp + 8) c1).
  set (c3 := set_gpr Rsp (gpr c2 Rsp + 8) c2). set (c4 := set_gpr Rsp (gpr c3 Rsp + 8) c3).
  set (c5 := set_gpr Rsp (gpr c4 Rsp + 8) c4).
  assert (S1 : gpr c1 Rsp = gpr c Rsp + 8) by apply gpr_set_same.
  assert (S2 : gpr c2 Rsp = gpr c Rsp + 8 + 8) by (unfold c2; rewrite gpr_set_same; lia).
  assert (S3 : gpr c3 Rsp = gpr c Rsp + 8 + 8 + 8) by (unfold c3; rewrite gpr_set_same; lia).
  assert (S4 : gpr c4 Rsp = gpr c Rsp + 8 + 8 + 8 + 8) by (unfold c4; rewrite gpr_set_same; lia).
  rewrite (bind_ret _ _ _ _ _ (pop_word_run a c s M W ltac:(lia))). fold c1.
  rewrite <- S1 in W0. rewrite (bind_ret _ _ _ _ _ (pop_word_run b c1 s M W0 ltac:(lia))). fold c2.
  rewrite <- S2 in W1. rewrite (bind_ret _ _ _ _ _ (pop_word_run d c2 s M W1 ltac:(lia))). fold c3.
  rewrite <- S3 in W2. rewrite (bind_ret _ _ _ _ _ (pop_word_run e c3 s M W2 ltac:(lia))). fold c4.
  rewrite <- S4 in W3. rewrite (bind_ret _ _ _ _ _ (pop_word_run f c4 s M W3 ltac:(lia))). fold c5.
  eexists. split; [reflexivity|]. do 4 (split; [reflexivity|]). split; [apply gpr_set_same|].
  intros r Hr. cbn [gpr]. rewrite gpr_set_other by done. unfold c5, c4, c3, c2, c1. by rewrite !gpr_set_other.
Qed.

End Stack.

(** *** The memory an interrupt's pushes leave *)

Lemma pushed_app vs ws sp m :
  pushed (vs ++ ws) sp m = pushed ws (sp - 8 * Z.of_nat (length vs)) (pushed vs sp m).
Proof.
  unfold pushed. rewrite foldl_app. pose proof (pushes_sp vs (m, sp)) as H. cbn [snd] in H.
  rewrite <- H. by destruct (foldl _ _ vs).
Qed.

Lemma pushed_outside vs : forall sp m b,
  b < sp - 8 * Z.of_nat (length vs) \/ sp <= b -> mem_get (pushed vs sp m) b = mem_get m b.
Proof.
  induction vs as [|v vs IH]; intros sp m b H; [done|]. cbn [length] in H.
  rewrite pushed_cons, IH by lia. apply mem_get_write_out. rewrite length_le_bytes. lia.
Qed.

Lemma pushed_words vs sp m : words_at (pushed vs sp m) (sp - 8 * Z.of_nat (length vs)) (reverse (u64 <$> vs)).
Proof.
  intros i v Hi. pose proof (lookup_lt_Some _ _ _ Hi) as Hl. rewrite length_reverse, length_fmap in Hl.
  rewrite reverse_lookup in Hi by (by rewrite length_fmap). rewrite length_fmap in Hi.
  rewrite list_lookup_fmap in Hi. destruct (vs !! _) as [w|] eqn:Hw; [|done]. injection Hi as <-.
  pose proof (pushes_lookup vs (m, sp) _ w Hw) as H. cbn [snd] in H. unfold m64, pushed. rewrite <- H.
  f_equal. f_equal. lia.
Qed.

Lemma words_at_ext m m' a vs :
  (forall b, a <= b < a + 8 * Z.of_nat (length vs) -> mem_get m' b = mem_get m b) ->
  words_at m a vs -> words_at m' a vs.
Proof.
  intros He Hw i v Hi. rewrite <- (Hw i v Hi). pose proof (lookup_lt_Some _ _ _ Hi).
  apply m64_ext. intros b Hb. apply He. lia.
Qed.

(** *** A whole stub *)

(** What the processor pushes, and the values of the registers the stub pushes
    after it has loaded [rdi] with the vector. *)
Definition frame_of (id err : Z) (c : cpu) : list Z :=
  [ss c; gpr c Rsp; rflags c; cs c; rip c] ++ (if bool_decide (id ∈ error_code_vectors) then [err] else []).
Definition saved_of (n : Z) (c : cpu) : list Z := gpr (set_gpr Rdi (u64 n) c) <$> saved_regs.

Definition aligned_sp (c : cpu) : Z := gpr c Rsp - gpr c Rsp `mod` 16.
Definition stub_sp (id err : Z) (c : cpu) : Z :=
  aligned_sp c - 8 * Z.of_nat (length (frame_of id err c) + 15).

Lemma frame_length id err c : (length (frame_of id err c) <= 6)%nat.
Proof. unfold frame_of. case_bool_decide; simpl; lia. Qed.

Lemma rsp_not_saved : Rsp ∉ saved_regs.
Proof. by apply (bool_decide_unpack _). Qed.

(** All that is on the stack when the C function runs, and how far down it can
    reach. *)
Definition call_words (id err n : Z) (c : cpu) : list Z :=
  frame_of id err c ++ saved_of n c ++ return_address :: frame_words.
Definition stack_depth : Z := 8 * Z.of_nat (22 + length frame_words).

(** What a sequence of interrupts needs of the stack: room below the pointer,
    mapped to itself whatever is there and on the text page. *)
Definition text_page (b : Z) : Prop := VIDEO_ADDRESS <= b < VIDEO_ADDRESS + 4002.

Record stack_room (c : cpu) (s : kstate) : Prop := {
  sr_room : stack_depth <= aligned_sp c <= 2 ^ 47;
  sr_mapped : self_mapped (mem s) (cr3 s) (aligned_sp c - stack_depth) (aligned_sp c) text_page
}.

Lemma room_mapped c s : stack_room c s -> stack_mapped (aligned_sp c - stack_depth) (aligned_sp c) text_page s.
Proof. by intros []. Qed.

(** Up to the call: the frame is complete, and C gets the vector and its address. *)
Lemma prologue_run id err n c s :
  stack_room c s ->
  exists c2,
    (c ← enter id err c; run ([CliI; MovImm Rdi n] ++ (Push <$> saved_regs) ++ [Mov Rsi Rsp]) c) s
      = Ret c2 (set_mem (pushed (frame_of id err c ++ saved_of n c) (aligned_sp c)) (stopped s))
    /\ gpr c2 Rsp = stub_sp id err c /\ gpr c2 Rsi = stub_sp id err c /\ gpr c2 Rdi = u64 n.
Proof.
  intros [Hsp Hmap]. pose proof (frame_length id err c) as Hlen. unfold stack_depth in *.
  set (lo := aligned_sp c - _) in Hmap. set (c0 := set_gpr Rsp (aligned_sp c) c).
  assert (E0 : gpr c0 Rsp = aligned_sp c) by apply gpr_set_same.
  destruct (push_words_run lo (aligned_sp c) text_page ltac:(lia) ltac:(lia) (frame_of id err c) c0 s Hmap)
    as (c1 & H1 & G1 & _); [lia|].
  rewrite E0 in H1, G1. set (sp1 := aligned_sp c - 8 * Z.of_nat (length (frame_of id err c))) in *.
  set (c1' := Cpu (gpr c1) (rip c1) 0x08 (rflags c1) (ss c1)).
  assert (He : enter id err c s = Ret c1' (set_mem (pushed (frame_of id err c) (aligned_sp c)) s))
    by (unfold enter; by rewrite (bind_ret _ _ _ _ _ H1)).
  rewrite (bind_ret _ _ _ _ _ He). set (s1 := set_mem _ s).
  assert (Hmap1 : stack_mapped lo (aligned_sp c) text_page s1).
  { eapply self_mapped_ext; [|exact Hmap]. intros b Hb _. apply pushed_outside. lia. }
  cbn [app run]. erewrite bind_ret; [|reflexivity]. erewrite bind_ret; [|reflexivity].
  set (c2 := set_gpr Rdi (u64 n) c1').
  assert (E2 : gpr c2 Rsp = sp1).
  { unfold c2. rewrite gpr_set_other by done. cbn [gpr c1']. rewrite G1. apply gpr_set_same. }
  assert (Hsaved : gpr c2 <$> saved_regs = saved_of n c).
  { apply list_fmap_ext. intros i r Hr. unfold c2. cbn [set_gpr gpr c1'].
    case_decide; [done|]. assert (r <> Rsp) by (intros ->; by apply rsp_not_saved, list_elem_of_lookup_2 with i).
    rewrite G1. unfold c0. by rewrite !gpr_set_other. }
  rewrite (run_app (Push <$> saved_regs) [Mov Rsi Rsp] c2 _).
  destruct (run_pushes lo (aligned_sp c) text_page ltac:(lia) ltac:(lia) saved_regs c2 (stopped s1)) as (c3 & H3 & G3 & _);
    [apply rsp_not_saved|exact Hmap1|cbn [length saved_regs]; rewrite E2; lia|].
  match goal with |- context [?f ?st] => match type of st with kstate => change st with (stopped s1) end end.
  rewrite (bind_ret _ _ _ _ _ H3). rewrite E2 in G3.
  assert (E3 : gpr c3 Rsp = stub_sp id err c).
  { rewrite G3, gpr_set_same. unfold stub_sp, sp1. cbn [length saved_regs]. lia. }
  cbn [run exec]. erewrite bind_ret; [|reflexivity]. eexists. split; [|split; [|split]].
  - unfold mret, M_ret, s1, stopped, set_iflag, set_trace, set_mem. simpl_state.
    rewrite E2, Hsaved, pushed_app. fold sp1. reflexivity.
  - rewrite gpr_set_other by done. exact E3.
  - rewrite gpr_set_same. exact E3.
  - rewrite gpr_set_other by done. rewrite G3, gpr_set_other by done. unfold c2. apply gpr_set_same.
Qed.

(** After the call: the saved registers and the context come back from the frame. *)
Lemma epilogue_run lo hi free c s vs a b d e f :
  0 <= lo -> hi < 2 ^ 64 -> stack_mapped lo hi free s ->
  length vs = 15%nat -> lo <= gpr c Rsp -> gpr c Rsp + 160 <= hi ->
  words_at (mem s) (gpr c Rsp) (reverse vs ++ [a; b; d; e; f]) ->
  exists c',
    run ((Pop <$> reverse saved_regs) ++ [StiI; Iretq]) c s
      = Ret c' (set_iflag (Z.testbit d 9) (set_trace (cons Sti) s))
    /\ rip c' = a /\ cs c' = b /\ rflags c' = d /\ ss c' = f /\ gpr c' Rsp = e
    /\ forall i r v, saved_regs !! i = Some r -> vs !! i = Some v -> gpr c' r = v.
Proof.
  intros Hlo Hhi M Hl H0 Hb Hw. apply words_at_app in Hw as [Hw1 Hw2]. rewrite length_reverse, Hl in Hw2.
  edestruct (run_pops lo hi free Hlo Hhi (reverse saved_regs) (reverse vs) c s) as (c1 & H1 & Hsp & Hin & _ & _).
  - exact M.
  - rewrite reverse_Permutation. by apply (bool_decide_unpack _).
  - rewrite elem_of_reverse. apply rsp_not_saved.
  - rewrite !length_reverse. done.
  - done.
  - done.
  - rewrite length_reverse. cbn [length saved_regs]. lia.
  - rewrite length_reverse in Hsp. cbn [length saved_regs] in Hsp.
    set (s1 := set_trace (cons Sti) s).
    destruct (exec_iretq lo hi free Hlo Hhi c1 (set_iflag true s1) a b d e f)
      as (c' & H2 & R1 & R2 & R3 & R4 & R5 & Hr).
    { exact M. }
    { rewrite Hsp. exact Hw2. }
    { lia. }
    { lia. }
    exists c'. rewrite (run_app _ _ c s), (bind_ret _ _ _ _ _ H1). cbn [run exec].
    erewrite bind_ret; [|reflexivity]. rewrite (bind_ret _ _ _ _ _ H2). split; [done|].
    repeat (split; [done|]). intros i r v Hi Hv.
    pose proof (lookup_lt_Some _ _ _ Hi) as Hi'. cbn [length saved_regs] in Hi'.
    rewrite Hr.
    + apply (Hin (15 - S i)%nat).
      * rewrite reverse_lookup by (cbn [length saved_regs]; lia). cbn [length saved_regs].
        rewrite <- Hi. f_equal. lia.
      * rewrite reverse_lookup by lia. rewrite Hl, <- Hv. f_equal. lia.
    + intros ->. by apply rsp_not_saved, list_elem_of_lookup_2 with i.
Qed.

(** The state in which the stub's C function runs. *)
Definition at_call (id err n : Z) (c : cpu) (s : kstate) : kstate :=
  set_mem (pushed (call_words id err n c) (aligned_sp c)) (stopped s).

Lemma call_words_length id err n c :
  8 * Z.of_nat (length (call_words id err n c)) = aligned_sp c - stub_sp id err c + 8 * Z.of_nat (1 + length frame_words)
  /\ 8 * Z.of_nat (length (call_words id err n c)) <= stack_depth.
Proof.
  pose proof (frame_length id err c). unfold call_words, stub_sp, stack_depth.
  rewrite !length_app. change (length (saved_of n c)) with 15%nat. cbn [length]. lia.
Qed.

Lemma at_call_kept id err n c s b :
  b < aligned_sp c - stack_depth \/ aligned_sp c <= b -> mem_get (mem (at_call id err n c s)) b = mem_get (mem s) b.
Proof.
  intros Hb. destruct (call_words_length id err n c) as [_ Hl]. cbn [at_call mem set_mem stopped].
  apply pushed_outside. lia.
Qed.

Lemma at_call_mapped id err n c s : stack_room c s -> stack_room c (at_call id err n c s).
Proof.
  intros [Hr Hm]. split; [exact Hr|]. eapply self_mapped_ext; [|exact Hm].
  intros b Hb _. apply at_call_kept. lia.
Qed.

Lemma saved_all r : r <> Rsp -> r ∈ saved_regs.
Proof. intros H. apply (bool_decide_unpack _). by destruct r. Qed.

Lemma words_on_stack id err n c m :
  words_at (pushed (call_words id err n c) (aligned_sp c) m) (stub_sp id err c)
    (reverse (u64 <$> saved_of n c) ++ reverse (u64 <$> frame_of id err c)).
Proof.
  pose proof (pushed_words (call_words id err n c) (aligned_sp c) m) as H. destruct (call_words_length id err n c) as [Hl _].
  unfold call_words in H at 3. rewrite !fmap_app, !reverse_app, <- app_assoc in H. apply words_at_app in H as [_ H].
  rewrite length_reverse, length_fmap in H. cbn [length] in H.
  replace (stub_sp id err c) with
    (aligned_sp c - 8 * Z.of_nat (length (call_words id err n c)) + 8 * Z.of_nat (S (length frame_words))); [exact H|].
  lia.
Qed.

Lemma saved_length n c : length (saved_of n c) = 15%nat.
Proof. done. Qed.

Lemma run_after id err code1 code2 c s c2 s2 :
  (c ← enter id err c; run code1 c) s = Ret c2 s2 ->
  dispatch id err (code1 ++ code2) c s = run code2 c2 s2.
Proof.
  intros H. unfold dispatch.
  assert (E : (c0 ← enter id err c; run (code1 ++ code2) c0)
    ≡ ((c0 ← enter id err c; run code1 c0) ≫= run code2)).
  { rewrite bind_assoc. apply M_bind_proper; [|done]. intros c0. apply run_app. }
  by rewrite (E s), (bind_ret _ _ _ _ _ H).
Qed.

(** The call: what is pushed, and what the C function does over it. *)
Lemma call_pushes id err n c c2 s :
  stack_room c s -> gpr c2 Rsp = stub_sp id err c ->
  exists c3, push_words (return_address :: frame_words) c2
      (set_mem (pushed (frame_of id err c ++ saved_of n c) (aligned_sp c)) (stopped s))
    = Ret c3 (at_call id err n c s).
Proof.
  intros [Hr Hm] Esp. pose proof (frame_length id err c) as Hlen.
  set (s1 := set_mem _ _). assert (Hm1 : stack_mapped (aligned_sp c - stack_depth) (aligned_sp c) text_page s1).
  { eapply self_mapped_ext; [|exact Hm]. intros b Hb _. apply pushed_outside.
    rewrite length_app. change (length (saved_of n c)) with 15%nat. unfold stack_depth in *. lia. }
  unfold stub_sp in Esp. destruct (push_words_run (aligned_sp c - stack_depth) (aligned_sp c) text_page ltac:(lia) ltac:(lia)
    (return_address :: frame_words) c2 s1 Hm1)
    as (c3 & Hp & _); [rewrite Esp; cbn [length]; unfold stack_depth in *; lia|].
  exists c3. rewrite Hp. unfold at_call, s1. rewrite set_mem_set_mem. f_equal. apply set_mem_ext.
  rewrite Esp. unfold call_words. rewrite !pushed_app, saved_length. f_equal. lia.
Qed.

Lemma run_call f code c c3 s s1 s2 :
  push_words (return_address :: frame_words) c s = Ret c3 s1 ->
  f (gpr c Rdi) (gpr c Rsi) s1 = Ret tt s2 ->
  run (Call f :: code) c s = run code (after_call c) s2.
Proof.
  intros H1 H2. cbn [run exec]. apply bind_ret.
  by rewrite (bind_ret _ _ _ _ _ H1), (bind_ret _ _ _ _ _ H2).
Qed.

Lemma stub_split f n : [CliI; MovImm Rdi n] ++ common_stub f =
  ([CliI; MovImm Rdi n] ++ (Push <$> saved_regs) ++ [Mov Rsi Rsp])
  ++ Call f :: (Pop <$> reverse saved_regs) ++ [StiI; Iretq].
Proof. done. Qed.

(** A whole interrupt around a C function that returns and leaves the frame alone. *)
Lemma dispatch_run id err n f c s s3 a b d e g rest :
  stack_room c s ->
  f (u64 n) (stub_sp id err c) (at_call id err n c s) = Ret tt s3 -> stack_room c s3 ->
  (forall x, stub_sp id err c <= x < aligned_sp c ->
     mem_get (mem s3) x = mem_get (mem (at_call id err n c s)) x) ->
  reverse (u64 <$> frame_of id err c) = [a; b; d; e; g] ++ rest ->
  exists c',
    dispatch id err ([CliI; MovImm Rdi n] ++ common_stub f) c s
      = Ret c' (set_iflag (Z.testbit d 9) (set_trace (cons Sti) s3))
    /\ rip c' = a /\ cs c' = b /\ rflags c' = d /\ ss c' = g /\ gpr c' Rsp = e
    /\ forall r, r <> Rsp -> gpr c' r = u64 (gpr (set_gpr Rdi (u64 n) c) r).
Proof.
  intros R Hf R3 Hm Hframe. pose proof (frame_length id err c) as Hlen.
  destruct (prologue_run id err n c s R) as (c2 & H2 & Esp & Esi & Edi).
  destruct (call_pushes id err n c c2 s R Esp) as (c4 & Hpush).
  set (c3 := after_call c2). assert (E3 : gpr c3 Rsp = stub_sp id err c) by exact Esp.
  assert (Hw : words_at (mem s3) (stub_sp id err c)
    (reverse (u64 <$> saved_of n c) ++ reverse (u64 <$> frame_of id err c))).
  { eapply words_at_ext; [|apply (words_on_stack id err n c (mem s))]. intros x Hx.
    rewrite length_app, !length_reverse, !length_fmap, saved_length in Hx.
    apply Hm. unfold stub_sp in *. lia. }
  rewrite Hframe, app_assoc in Hw. apply words_at_app in Hw as [Hw _].
  pose proof (f_equal length Hframe) as Hl. rewrite length_reverse, length_fmap, length_app in Hl. cbn [length] in Hl.
  destruct R3 as [Hr3 Hm3]. unfold stack_depth in Hr3.
  destruct (epilogue_run (aligned_sp c - stack_depth) (aligned_sp c) text_page c3 s3 (u64 <$> saved_of n c) a b d e g)
    as (c' & H4 & F1 & F2 & F3 & F4 & F5 & Hr); rewrite ?E3; try (unfold stub_sp, stack_depth in *; lia).
  { exact Hm3. } { done. } { exact Hw. }
  exists c'. split; [|do 5 (split; [done|]); intros r Hrsp].
  - rewrite stub_split, (run_after _ _ _ _ _ _ _ _ H2), (run_call _ _ _ _ _ _ s3 Hpush); [exact H4|by rewrite Edi, Esi].
  - destruct (list_elem_of_lookup_1 _ _ (saved_all r Hrsp)) as [i Hi].
    rewrite (Hr i r (u64 (gpr (set_gpr Rdi (u64 n) c) r)) Hi); [done|].
    unfold saved_of. by rewrite !list_lookup_fmap, Hi.
Qed.

Lemma run_call_halts f code c c3 s s1 s2 :
  push_words (return_address :: frame_words) c s = Ret c3 s1 ->
  f (gpr c Rdi) (gpr c Rsi) s1 = Halted s2 ->
  run (Call f :: code) c s = Halted s2.
Proof.
  intros H1 H2. cbn [run exec]. apply bind_halted. rewrite (bind_ret _ _ _ _ _ H1). by apply bind_halted.
Qed.

(** And around one that stops the machine. *)
Lemma dispatch_halts id err n f c s s3 :
  stack_room c s ->
  f (u64 n) (stub_sp id err c) (at_call id err n c s) = Halted s3 ->
  dispatch id err ([CliI; MovImm Rdi n] ++ common_stub f) c s = Halted s3.
Proof.
  intros R Hf. destruct (prologue_run id err n c s R) as (c2 & H2 & Esp & Esi & Edi).
  destruct (call_pushes id err n c c2 s R Esp) as (c4 & Hpush).
  rewrite stub_split, (run_after _ _ _ _ _ _ _ _ H2), (run_call_halts _ _ _ _ _ _ s3 Hpush); [done|by rewrite Edi, Esi].
Qed.

(** Where the stack is not mapped, taking the interrupt faults. *)
Lemma enter_faults id err c s :
  8 <= aligned_sp c < 2 ^ 64 -> page_walk (mem s) (cr3 s) (aligned_sp c - 8) = None ->
  enter id err c s = Fault PageFault.
Proof.
  intros Hsp Hw. unfold enter, push_word. cbn [app push_words]. apply bind_fault, bind_fault. unfold push_word.
  rewrite gpr_set_same. fold (aligned_sp c). rewrite u64_small by lia. apply bind_fault, vstore64_faults. by left.
Qed.

End Lemmas.

(** ** Lemmas: a hardware interrupt *)

(** A processor whose registers hold 64-bit values. *)
Definition cpu_ok (c : cpu) : Prop :=
  (forall r, 0 <= gpr c r < 2 ^ 64) /\ 0 <= rip c < 2 ^ 64 /\ 0 <= cs c < 2 ^ 64
  /\ 0 <= rflags c < 2 ^ 64 /\ 0 <= ss c < 2 ^ 64.

(** Room for interrupts below the stack pointer, off the text page. *)
Definition stack_ok `{Calls} (c : cpu) (s : kstate) : Prop :=
  stack_room c s
  /\ (aligned_sp c <= VIDEO_ADDRESS \/ VIDEO_ADDRESS + 4000 <= aligned_sp c - stack_depth).

(** Memory off the text page and the bytes below the stack pointer. *)
Definition memory_kept `{Calls} (c : cpu) (s s' : kstate) : Prop :=
  forall b, b < VIDEO_ADDRESS \/ VIDEO_ADDRESS + 4000 <= b ->
    b < aligned_sp c - stack_depth \/ aligned_sp c <= b -> mem_get (mem s') b = mem_get (mem s) b.

(** Room for one interrupt is room for the next. *)
Lemma stack_room_kept `{Calls} c c' s s' :
  aligned_sp c' = aligned_sp c -> cr3 s' = cr3 s -> memory_kept c s s' -> stack_room c s -> stack_room c' s'.
Proof.
  intros Ea E3 Hk [Hr Hm]. split; rewrite Ea; [exact Hr|]. rewrite E3. eapply self_mapped_ext; [|exact Hm].
  unfold text_page. intros b Hb1 Hb2. apply Hk; lia.
Qed.

Lemma stack_ok_kept `{Calls} c c' s s' :
  aligned_sp c' = aligned_sp c -> cr3 s' = cr3 s -> memory_kept c s s' -> stack_ok c s -> stack_ok c' s'.
Proof. intros Ea E3 Hk [Hr Hp]. split; [by eapply stack_room_kept|by rewrite Ea]. Qed.

(** It survives changes on the text page and the cell after it. *)
Lemma stack_ok_boot `{Calls} c s s' :
  (forall b, b < VIDEO_ADDRESS \/ VIDEO_ADDRESS + 4002 <= b -> mem_get (mem s') b = mem_get (mem s) b) ->
  cr3 s' = cr3 s -> stack_ok c s -> stack_ok c s'.
Proof.
  intros Hb E3 [[Hr Hm] Hp]. split; [|exact Hp]. split; [exact Hr|]. rewrite E3. eapply self_mapped_ext; [|exact Hm].
  unfold text_page. intros b _ Hb2. apply Hb. lia.
Qed.

Lemma irq_frame v err c : 32 <= v -> frame_of v err c = [ss c; gpr c Rsp; rflags c; cs c; rip c].
Proof.
  intros Hv. unfold frame_of. rewrite bool_decide_false; [done|].
  unfold error_code_vectors. rewrite !elem_of_cons, elem_of_nil. lia.
Qed.

Section Irq.
Context {C : Calls} {E : Env}.

(** An interrupt in the idle loop is invisible to the interrupted program,
    except in one register.  The whole path (processor, stub, [irq_handler], the
    line's handler, stub, [iretq]) comes back to the interrupted instruction
    with its code segment, flags, stack and stack segment, whichever registers
    the C code clobbers; every general register has its old value but [rdi],
    which the stub overwrites with the vector before saving it.  Interrupts are
    enabled again if they were, the kernel is ready for the next one, and memory
    changed only on the text page and in the bytes below the stack pointer. *)
Lemma irq_round_trip i c s :
  idle s -> 0 <= i < 5 -> cpu_ok c -> stack_ok c s ->
  exists c' s',
    dispatch (32 + i) 0 (def_irq_handler irq_handler i) c s = Ret c' s'
    /\ (rip c' = rip c /\ cs c' = cs c /\ rflags c' = rflags c /\ ss c' = ss c)
    /\ (forall r, gpr c' r = if decide (r = Rdi) then 32 + i else gpr c r)
    /\ idle s' /\ iflag s' = Z.testbit (rflags c) 9
    /\ tick s' = (if 32 + i =? 32 then u32 (tick s + 1) else tick s)
    /\ memory_kept c s s' /\ cr3 s' = cr3 s
    /\ idt s' = idt s /\ idt_reg s' = idt_reg s /\ interrupt_handlers s' = interrupt_handlers s.
Proof.
  intros Hidle Hi (Hg & Hip & Hcs & Hfl & Hss) [Hroom Hpage].
  set (s1 := at_call (32 + i) 0 (32 + i) c s).
  destruct (idle_step (32 + i) (stub_sp (32 + i) 0 c) s1) as (s3 & Hrun & Hidle' & Ht & Hm & Hsame); [done|lia|].
  assert (Hlow : stub_sp (32 + i) 0 c = aligned_sp c - 160).
  { unfold stub_sp. rewrite irq_frame by lia. cbn [length Nat.add]. lia. }
  destruct (dispatch_run (32 + i) 0 (32 + i) irq_handler c s s3
    (rip c) (cs c) (rflags c) (gpr c Rsp) (ss c) []) as (c' & Hd & R1 & R2 & R3 & R4 & R5 & Hr).
  - exact Hroom.
  - rewrite u64_small by lia. exact Hrun.
  - apply (stack_room_kept c c s1); [done|by apply Hsame| |by apply at_call_mapped]. intros b Hb _. by apply Hm.
  - intros x Hx. apply Hm. rewrite Hlow in Hx. unfold stack_depth in Hpage. lia.
  - rewrite irq_frame by lia. cbn [fmap list_fmap]. pose proof (Hg Rsp). by rewrite !u64_small by done.
  - exists c'. eexists. split; [exact Hd|]. split; [done|]. split; [|split; [|split; [|split; [|split; [|split]]]]].
    + intros r. destruct (decide (r = Rsp)) as [->|Hrsp]; [done|]. rewrite (Hr r Hrsp).
      cbn [gpr set_gpr]. case_decide; [by rewrite (u64_small (32 + i)), u64_small by lia|by apply u64_small].
    + exact Hidle'.
    + done.
    + exact Ht.
    + intros b Hb1 Hb2. simpl_state. rewrite (Hm b Hb1). by apply at_call_kept.
    + by apply Hsame.
    + destruct Hsame as (_ & _ & H3 & H4 & H5 & _). done.
Qed.

End Irq.

(** ** Properties *)

(** The stub of an exception with an error code cannot return.  It does not
    take the error code off the stack, so after any C handler that returns,
    [iretq] takes the error code for the instruction pointer, the instruction
    pointer for the code segment, and so on, each word one place too early.
    (The kernel registers a handler for the breakpoint only, which has no
    error code; for the others [isr_handler] stops the machine.) *)
Theorem isr_keeps_error_code {C : Calls} id err f c s s' :
  id ∈ error_code_vectors -> 0 <= err < 2 ^ 64 -> cpu_ok c -> stack_room c s -> stack_room c s' ->
  f id (aligned_sp c - 168) (at_call id err id c s) = Ret tt s' ->
  (forall b, aligned_sp c - 168 <= b < aligned_sp c ->
     mem_get (mem s') b = mem_get (mem (at_call id err id c s)) b) ->
  exists c' s2, dispatch id err (def_isr_handler f id) c s = Ret c' s2
    /\ rip c' = err /\ cs c' = rip c /\ rflags c' = cs c
    /\ gpr c' Rsp = rflags c /\ ss c' = gpr c Rsp.
Proof.
  intros Hid Herr (Hg & Hip & Hcs & Hfl & Hss) Hsp Hsp' Hf Hm.
  assert (Hid64 : u64 id = id).
  { apply u64_small. unfold error_code_vectors in Hid. rewrite !elem_of_cons, elem_of_nil in Hid. lia. }
  assert (Hframe : frame_of id err c = [ss c; gpr c Rsp; rflags c; cs c; rip c; err])
    by (unfold frame_of; by rewrite bool_decide_true).
  assert (Hlow : stub_sp id err c = aligned_sp c - 168)
    by (unfold stub_sp; rewrite Hframe; cbn [length Nat.add]; lia).
  destruct (dispatch_run id err id f c s s' err (rip c) (cs c) (rflags c) (gpr c Rsp) [ss c])
    as (c' & Hd & R1 & R2 & R3 & R4 & R5 & _).
  - exact Hsp.
  - by rewrite Hid64, Hlow.
  - exact Hsp'.
  - by rewrite Hlow.
  - rewrite Hframe. cbn [fmap list_fmap]. pose proof (Hg Rsp). by rewrite !u64_small by done.
  - exists c'. eexists. split; [exact Hd|]. by repeat split.
Qed.

(** The instances: a return address, C functions that leave 40 words of stack,
    an idle loop with its stack at 512 KiB, and the tables of Paging.v. *)
#[local] Instance test_calls : Calls :=
  {| return_address := 0x101000; clobbered := fun _ => 0xDEAD; frame_words := replicate 40 0xBEEF |}.
Definition idle_cpu : cpu := Cpu (fun r => if decide (r = Rsp) then 0x80004 else 7) 0x102000 8 0x202 0.

Lemma idle_cpu_ok : cpu_ok idle_cpu.
Proof. split; [|unfold idle_cpu; simpl; lia]. intros r. unfold idle_cpu. cbn. case_decide; lia. Defined.

Lemma idle_cpu_stack : aligned_sp idle_cpu = 0x80000.
Proof. reflexivity. Defined.

Lemma idle_cpu_stack_ok s :
  (forall b, 0x1000 <= b < 0x5000 -> mem_get (mem s) b = mem_get (mem low_state) b) -> cr3 s = 0x1000 ->
  stack_ok idle_cpu s.
Proof.
  intros Hm H3. split; [split|]; rewrite ?idle_cpu_stack; change stack_depth with 496.
  - lia.
  - rewrite H3. apply first_megabytes; [exact Hm|lia..|]. unfold text_page, VIDEO_ADDRESS. lia.
  - unfold VIDEO_ADDRESS. lia.
Defined.

Lemma isr_keeps_error_code_witness :
  exists c' s2, @dispatch test_calls 13 0x18 (def_isr_handler (fun _ => timer_callback) 13) idle_cpu low_state = Ret c' s2
    /\ rip c' = 0x18 /\ cs c' = 0x102000.
Proof.
  destruct (@isr_keeps_error_code test_calls 13 0x18 (fun _ => timer_callback) idle_cpu low_state
    (set_tick (u32 (tick (@at_call test_calls 13 0x18 13 idle_cpu low_state) + 1))
       (@at_call test_calls 13 0x18 13 idle_cpu low_state))) as (c' & s2 & Hd & R1 & R2 & _).
  - apply (bool_decide_unpack _). reflexivity.
  - lia.
  - exact idle_cpu_ok.
  - apply (idle_cpu_stack_ok low_state); done.
  - destruct (at_call_mapped 13 0x18 13 idle_cpu low_state) as [Hr Hm]; [by apply (idle_cpu_stack_ok low_state)|].
    split; [exact Hr|exact Hm].
  - reflexivity.
  - reflexivity.
  - exists c', s2. split; [exact Hd|]. split; [exact R1|exact R2].
Defined.

(** With a stack the tables do not map, no interrupt gets as far as its stub. *)
Theorem unmapped_stack_faults {C : Calls} id err c s code :
  8 <= aligned_sp c < 2 ^ 64 -> page_walk (mem s) (cr3 s) (aligned_sp c - 8) = None ->
  dispatch id err code c s = Fault PageFault.
Proof. intros Hsp Hw. unfold dispatch. by apply bind_fault, enter_faults. Qed.

Lemma unmapped_stack_faults_witness :
  @dispatch test_calls 32 0 [] (set_gpr Rsp 0x40000000 idle_cpu) low_state = Fault PageFault.
Proof.
  apply (@unmapped_stack_faults test_calls 32 0 (set_gpr Rsp 0x40000000 idle_cpu) low_state []).
  - unfold aligned_sp. rewrite gpr_set_same. vm_compute. split; [discriminate|reflexivity].
  - unfold aligned_sp. rewrite gpr_set_same. vm_compute. reflexivity.
Defined.
