(* ===== verification/System.v ===== *)
(** * The running system

    After [kmain] the machine is its processor, the interrupt table the kernel
    has built and the stubs its gates lead to.  [deliver] is an interrupt as the
    processor takes it: the vector's gate from the table in memory, the stub at
    the gate's address, and through it the C handler.  The theorems here start
    where the machine starts, at [kmain], and follow it through any sequence of
    interrupts.

    An interrupt between a gate's entry and the stub's [cli], which a trap gate
    allows, is not modelled; [sti] right before [iretq] allows none. *)

From stdpp Require Import base numbers list gmap strings.
From S2P Require Import Prelude Machine Libk Screen Serial Printf Idt Isr Timer Keyboard Cmos Boot PageWalk Mmap Paging Kernel Preempt Stubs.

Section System.
Context {C : Calls} {E : Env} {B : Build}.

(** ** Operations *)

(** The entry points of asm/interrupt.asm, [isr0] to [isr31] and [irq0] to
    [irq4], by their addresses. *)
Definition stub_table : list (Z * list instr) :=
  ((fun v => (u64 (isr_stub v), def_isr_handler isr_handler v)) <$> seqZ 0 32)
  ++ ((fun i => (u64 (irq_stub i), def_irq_handler irq_handler i)) <$> seqZ 0 5).

Definition stub_at (addr : Z) : option (list instr) :=
  (list_to_map stub_table : gmap Z (list instr)) !! addr.

(** The linker puts different entry points at different addresses. *)
Class StubsDistinct : Prop := stubs_nodup : NoDup (stub_table.*1).

Definition through_gate (v err : Z) (g : hw_gate_t) (c : cpu) : M cpu :=
  match stub_at (hw_offset g) with
  | Some code => dispatch v err code c
  | None => throw OutOfBounds
  end.

(** What the processor finds at a vector: a gate it can go through, or an
    exception to raise.  The type is tested before the present bit: beyond the
    table, or where there is no interrupt or trap gate, it is a general
    protection fault (13), with a gate that is not present a segment-not-present
    fault (11). *)
Definition check_gate (gate : option hw_gate_t) : hw_gate_t + Z :=
  match gate with
  | None => inr 13
  | Some g =>
      if negb ((hw_type g =? 0x0E) || (hw_type g =? 0x0F)) then inr 13
      else if negb (hw_present g) then inr 11
      else inl g
  end.

(** The exception's error code names the gate: its index, that it is in the
    interrupt table and that the cause was external.  (An exception that cannot
    be delivered either is a double fault, which is not modelled.) *)
Definition deliver (v err : Z) (c : cpu) : M cpu :=
  gate ← gets (fun s => hw_gate s v);
  match check_gate gate with
  | inl g => through_gate v err g c
  | inr x =>
      gate ← gets (fun s => hw_gate s x);
      match check_gate gate with
      | inl g => through_gate x (8 * v + 3) g c
      | inr _ => throw OutOfBounds
      end
  end.

(** Hardware interrupts on these lines, one after the other. *)
Fixpoint deliver_all (lines : list Z) (c : cpu) : M cpu :=
  match lines with
  | [] => mret c
  | i :: lines => c ← deliver (32 + i) 0 c; deliver_all lines c
  end.

(** ** The state boot leaves *)

Record ready (s : kstate) : Prop := {
  rd_idle : idle s;
  rd_isr : forall v, 0 <= v < 32 -> hw_gate s v = Some (kernel_gate (u64 (isr_stub v)));
  rd_irq : forall i, 0 <= i < 5 -> hw_gate s (32 + i) = Some (kernel_gate (u64 (irq_stub i)))
}.

(** Lines whose vectors have no gate, but an entry of zeros. *)
Definition no_gates (s : kstate) : Prop :=
  forall i, 5 <= i < 16 -> exists g, hw_gate s (32 + i) = Some g /\ hw_type g = 0.

(** ** Lemmas *)

Context {D : StubsDistinct}.

Lemma stub_isr v : 0 <= v < 32 -> stub_at (u64 (isr_stub v)) = Some (def_isr_handler isr_handler v).
Proof.
  intros Hv. apply elem_of_list_to_map_1; [apply stubs_nodup|]. apply elem_of_app. left.
  apply list_elem_of_fmap. exists v. split; [done|]. apply elem_of_seqZ. lia.
Qed.

Lemma stub_irq i : 0 <= i < 5 -> stub_at (u64 (irq_stub i)) = Some (def_irq_handler irq_handler i).
Proof.
  intros Hi. apply elem_of_list_to_map_1; [apply stubs_nodup|]. apply elem_of_app. right.
  apply list_elem_of_fmap. exists i. split; [done|]. apply elem_of_seqZ. lia.
Qed.

Lemma check_kernel_gate handler : check_gate (Some (kernel_gate handler)) = inl (kernel_gate handler).
Proof. done. Qed.

(** A line with a gate runs its stub. *)
Lemma deliver_irq i c s :
  ready s -> 0 <= i < 5 ->
  deliver (32 + i) 0 c s = dispatch (32 + i) 0 (def_irq_handler irq_handler i) c s.
Proof.
  intros R Hi. unfold deliver. step. rewrite (rd_irq s R i Hi), check_kernel_gate.
  unfold through_gate. cbn [hw_offset kernel_gate]. by rewrite stub_irq.
Qed.

(** One without a gate runs the stub of exception 13. *)
Lemma deliver_missing i c s :
  ready s -> no_gates s -> 5 <= i < 16 ->
  deliver (32 + i) 0 c s = dispatch 13 (8 * (32 + i) + 3) (def_isr_handler isr_handler 13) c s.
Proof.
  intros R N Hi. destruct (N i Hi) as (g & Hg & Ht). unfold deliver. step.
  rewrite Hg. unfold check_gate at 1. rewrite Ht. cbn [negb orb Z.eqb]. step.
  rewrite (rd_isr s R 13), check_kernel_gate by lia. unfold through_gate.
  cbn [hw_offset kernel_gate]. by rewrite stub_isr by lia.
Qed.

Lemma ready_same s s' :
  ready s -> idle s' -> idt s' = idt s -> idt_reg s' = idt_reg s -> ready s'.
Proof.
  intros [_ H1 H2] Hi Ht Hr.
  assert (Hg : forall v, hw_gate s' v = hw_gate s v) by (intros v; unfold hw_gate; by rewrite Ht, Hr).
  split; [done|intros v Hv; rewrite Hg; by apply H1|intros i Hb; rewrite Hg; by apply H2].
Qed.

Definition timer_count (lines : list Z) : Z := Z.of_nat (length (filter (fun i => i = 0) lines)).

(** The context of the interrupted program, [rdi] apart. *)
Definition same_context (c c' : cpu) : Prop :=
  rip c' = rip c /\ cs c' = cs c /\ rflags c' = rflags c /\ ss c' = ss c
  /\ forall r, r <> Rdi -> gpr c' r = gpr c r.

Lemma deliver_all_run lines : forall c s,
  Forall (fun i => 0 <= i < 5) lines -> ready s -> 0 <= tick s < 2 ^ 32 -> cpu_ok c -> stack_ok c s ->
  exists c' s', deliver_all lines c s = Ret c' s' /\ same_context c c' /\ ready s'
    /\ tick s' = u32 (tick s + timer_count lines)
    /\ (lines <> [] -> iflag s' = Z.testbit (rflags c) 9) /\ memory_kept c s s'.
Proof.
  induction lines as [|i lines IH]; intros c s Hl R Ht Hc Hs.
  - exists c, s. split; [done|]. split; [by repeat split|]. split; [done|].
    unfold timer_count. cbn. rewrite Z.add_0_r, u32_small by done. split; [done|]. split; [done|by intros b _ _].
  - apply Forall_cons in Hl as [Hi Hl].
    destruct (irq_round_trip i c s (rd_idle s R) Hi Hc Hs)
      as (c1 & s1 & Hrun & (E1 & E2 & E3 & E4) & Hg & Hidle & Hif & Htick & Hmem & H3 & Hidt & Hreg & _).
    rewrite <- (deliver_irq i c s R Hi) in Hrun.
    assert (Hc1 : cpu_ok c1).
    { destruct Hc as (G1 & G2 & G3 & G4 & G5). split; [|by rewrite E1, E2, E3, E4].
      intros r. rewrite Hg. case_decide; [lia|apply G1]. }
    assert (Hsp : gpr c1 Rsp = gpr c Rsp) by (rewrite Hg; by rewrite decide_False).
    assert (Ea : aligned_sp c1 = aligned_sp c) by (unfold aligned_sp; by rewrite Hsp).
    assert (Hs1 : stack_ok c1 s1) by (eapply stack_ok_kept; [exact Ea|exact H3|exact Hmem|exact Hs]).
    assert (Ht1 : 0 <= tick s1 < 2 ^ 32) by (rewrite Htick; destruct (_ =? _); [apply u32_range|done]).
    destruct (IH c1 s1 Hl (ready_same s s1 R Hidle Hidt Hreg) Ht1 Hc1 Hs1)
      as (c2 & s2 & Hrun2 & (F1 & F2 & F3 & F4 & F5) & R2 & Htick2 & Hif2 & Hmem2).
    exists c2, s2. cbn [deliver_all]. rewrite (bind_ret _ _ _ _ _ Hrun). split; [done|].
    split; [|split; [done|split; [|split]]].
    + split; [by rewrite F1|]. split; [by rewrite F2|]. split; [by rewrite F3|]. split; [by rewrite F4|].
      intros r Hr. rewrite F5, Hg by done. by rewrite decide_False.
    + rewrite Htick2, Htick. unfold timer_count. rewrite filter_cons. destruct (Z.eqb_spec (32 + i) 32).
      * rewrite decide_True by lia. cbn [length]. unfold u32. rewrite Zplus_mod_idemp_l. f_equal. lia.
      * by rewrite decide_False by lia.
    + intros _. destruct lines as [|j lines]; [|by rewrite Hif2, E3].
      cbn in Hrun2. injection Hrun2 as <- <-. done.
    + intros b H1 H2. unfold memory_kept in Hmem2. rewrite Ea in Hmem2. by rewrite Hmem2, Hmem.
Qed.

(** An unhandled line ends in the panic of exception 13. *)
Lemma deliver_missing_halts i c s :
  ready s -> no_gates s -> interrupt_handlers s !! 13%nat = Some isr_null -> screen_within 80 s ->
  0 <= isr_panic_line < 2 ^ 31 -> 5 <= i < 16 -> stack_room c s ->
  let s1 := at_call 13 (8 * (32 + i) + 3) 13 c s in
  exists s2, deliver (32 + i) 0 c s = Halted (stopped s2)
    /\ screen_print (panic_text (str "src/core/isr.c") isr_panic_line (str "isr_handler")
                       (isr_text 13 s1 (get_stack 13 (aligned_sp c - 168))) ++ halted_text) s1 = Ret tt s2
    /\ iflag (stopped s2) = false.
Proof.
  intros R N Hh Hw Hline Hi Hsp s1.
  assert (Hstub : stub_sp 13 (8 * (32 + i) + 3) c = aligned_sp c - 168).
  { unfold stub_sp, frame_of. rewrite bool_decide_true by (apply (bool_decide_unpack _); reflexivity).
    cbn [app length Nat.add]. lia. }
  destruct (isr_handler_halts 13 (aligned_sp c - 168) s1 80) as (s2 & Hrun & Hs & _ & Hif);
    [lia|exact Hh|done|exact Hw|lia|].
  exists s2. split; [|by split].
  rewrite deliver_missing by done. apply dispatch_halts; [done|].
  rewrite Hstub. exact Hrun.
Qed.

End System.

(** ** Lemmas: from [kmain] on *)

Section Booted.
Context {C : Calls} {E : Env} {B : Build} {Q : Irqs} {T : Schedule} {D : StubsDistinct}.
Context {fuel m : nat} {addr sp : Z} {ts : list tag_t} {s0 : kstate}.
Context (Hok : boot_ok fuel addr ts m sp s0) (binary : bool) (c : clock_t) {R : Rtc (encode binary true c)}.
Context (Hc : clock_ok c).

(** The devices' state at power-on does not matter here. *)
#[local] Instance any_power_on : PowerOn :=
  Devices (Pic 0 0 0 0 0 0 []) (Pic 0 0 0 0 0 0 []) (Pit 0 None 0) (Uart 0 0 0 []).

(** The kernel as the rest of the machine finds it in the idle loop, with the
    tick at [t]. *)
Record in_service (t : Z) (s : kstate) : Prop := {
  sv_ready : ready s;
  sv_tick : tick s = t;
  sv_handlers : interrupt_handlers s = boot_handlers;
  sv_screen : screen_within 80 s;
  sv_gates : idt s0 = replicate 256 null_gate -> no_gates s;
  sv_iflag : iflag s = true;
  sv_cr3 : cr3 s = cr3 s0;
  sv_mm : mm s = mm_of (first_tag (addr + 8) ts MULTIBOOT_TAG_TYPE_MMAP) (boot_areas addr ts)
}.

Lemma view_in_service t d s :
  at_prompt s -> view_of s = final_view (addr := addr) (ts := ts) (s0 := s0) t d -> in_service t s.
Proof using Hok.
  clear Hc R. intros Hp (Hi & H3 & Hidt & Hreg & Hh & Ht & Hmm & _)%view_fields.
  unfold final_view, open_view, timer_handlers, breakpoint_handlers in *.
  cbn [v_iflag v_cr3 v_idt v_idt_reg v_handlers v_tick v_mm] in *.
  rewrite (bo_handlers _ _ _ _ _ _ Hok) in Hh.
  destruct (installed_gates (idt s0) s (bo_idt _ _ _ _ _ _ Hok) Hidt ltac:(by rewrite Hreg)) as (Hexc & Hirq & Hrest).
  split; try assumption.
  - split; [by apply booted_idle|done|done].
  - destruct Hp as (_ & Hr & Hcol). unfold screen_within. lia.
  - intros Hnull i Hib. exists (decode_gate (gate_bytes null_gate)). split; [|reflexivity].
    apply Hrest; [lia|]. rewrite Hnull. apply lookup_replicate. split; [done|lia].
Qed.

Lemma kmain_ready :
  exists s, kmain fuel MULTIBOOT2_MAGIC_VALUE addr s0 = Ret tt s /\ in_service (u32 (tick s0 + 1)) s
    /\ same_outside_page s0 s.
Proof using Hok Hc R.
  pose proof (kmain_run Hok binary c Hc) as Hrun. apply wp_inv in Hrun as ([] & s & Hrun & Hat & Hm & Hv).
  exists s. split; [done|]. split; [|exact Hm]. apply (view_in_service _ (devices_after (trace s0))); [by apply prompt_after_boot|exact Hv].
Qed.

(** The same with interrupts between the statements of [kmain]. *)
Lemma preempted_ready :
  (forall k, Forall (fun a : Z * Z => 32 <= a.1 < 37) (taken k)) ->
  exists s, kmain_preempted fuel MULTIBOOT2_MAGIC_VALUE addr s0 = Ret tt s
    /\ in_service (u32 (tick s0 + 1 + timers_taken 2 10)) s /\ same_outside 4002 s0 s.
Proof using Hok Hc R.
  intros Ht. pose proof (preempted_run Hok Ht binary c Hc) as Hrun.
  apply wp_inv in Hrun as ([] & s & Hrun & Hfb & Hr & Hcol & Hm & Hv).
  exists s. split; [done|]. split; [|exact Hm].
  apply (view_in_service _ (devices_after (trace s0))); [split; [exact Hfb|split; [exact Hr|exact Hcol]]|exact Hv].
Qed.

End Booted.

(** ** Properties *)

(** The booted kernel serves its interrupts.  From [kmain] on, any sequence of
    interrupts on lines 0 to 4, each taken through the table in memory, the
    stub, the C handler and [iretq], comes back every time to the interrupted
    program: instruction pointer, segments, flags, stack and every register but
    [rdi], which the stubs lose, are as they were; the tick counter has counted
    the timer's interrupts modulo [2^32], memory has changed only on the text
    page and right below the stack pointer, and the kernel is as ready as
    before. *)
Theorem booted_kernel_serves_irqs {C : Calls} {E : Env} {B : Build} {Q : Irqs} {D : StubsDistinct}
    fuel addr ts m sp s0 (binary : bool) t {R : Rtc (encode binary true t)} :
  boot_ok fuel addr ts m sp s0 -> clock_ok t ->
  exists s, kmain fuel MULTIBOOT2_MAGIC_VALUE addr s0 = Ret tt s /\ same_outside_page s0 s /\ cr3 s = cr3 s0
    /\ forall lines c, Forall (fun i => 0 <= i < 5) lines -> cpu_ok c -> stack_ok c s ->
       exists c' s', deliver_all lines c s = Ret c' s' /\ same_context c c' /\ ready s'
         /\ tick s' = u32 (tick s0 + 1 + timer_count lines)
         /\ (lines <> [] -> iflag s' = Z.testbit (rflags c) 9) /\ memory_kept c s s'.
Proof.
  intros Hok Hc. destruct (kmain_ready Hok binary t Hc) as (s & Hrun & V & Hm). pose proof V as [Hr Ht _ _ _ _ H3 _].
  exists s. split; [exact Hrun|]. split; [exact Hm|]. split; [exact H3|]. intros lines c Hl Hcpu Hs.
  destruct (deliver_all_run lines c s Hl Hr ltac:(rewrite Ht; apply u32_range) Hcpu Hs)
    as (c' & s' & H1 & H2 & H4 & H5 & H6).
  exists c', s'. do 3 (split; [done|]). split; [|exact H6].
  rewrite H5, Ht. unfold u32. by rewrite Zplus_mod_idemp_l.
Qed.

(** C22: lines 5 to 15, which [isr_init] unmasks too although it installs no gates
    for them, stop the booted kernel: the entries are zeros, so the processor
    raises a general protection fault (13) in place of such an interrupt, nobody
    handles it, and [isr_handler] prints the panic, turns interrupts off and
    halts, if there is room on the stack that the page tables map to itself
    ([stack_room]). *)
Theorem unhandled_line_panics {C : Calls} {E : Env} {B : Build} {Q : Irqs} {D : StubsDistinct}
    fuel addr ts m sp s0 (binary : bool) t {R : Rtc (encode binary true t)} :
  boot_ok fuel addr ts m sp s0 -> clock_ok t ->
  idt s0 = replicate 256 null_gate -> 0 <= isr_panic_line < 2 ^ 31 ->
  exists s, kmain fuel MULTIBOOT2_MAGIC_VALUE addr s0 = Ret tt s /\ same_outside_page s0 s /\ cr3 s = cr3 s0
    /\ forall i c, 5 <= i < 16 -> stack_room c s ->
       let s1 := at_call 13 (8 * (32 + i) + 3) 13 c s in
       exists s2, deliver (32 + i) 0 c s = Halted (stopped s2)
         /\ screen_print (panic_text (str "src/core/isr.c") isr_panic_line (str "isr_handler")
                            (isr_text 13 s1 (get_stack 13 (aligned_sp c - 168))) ++ halted_text) s1 = Ret tt s2
         /\ iflag (stopped s2) = false.
Proof.
  intros Hok Hc Hnull Hline. destruct (kmain_ready Hok binary t Hc) as (s & Hrun & V & Hm).
  pose proof V as [Hr _ Hh Hw Hn _ H3 _].
  assert (Hnp : interrupt_handlers s !! 13%nat = Some isr_null) by (rewrite Hh; vm_compute; reflexivity).
  exists s. split; [exact Hrun|]. split; [exact Hm|]. split; [exact H3|]. intros i c Hi Hsp.
  exact (deliver_missing_halts i c s Hr (Hn Hnull) Hnp Hw Hline Hi Hsp).
Qed.

(** The instances: the boot of Kernel.v with the tables of Paging.v. *)
#[local] Instance timer_irqs : Irqs := fun _ => [(32, 0x80000)].
#[local] Existing Instance test_calls.
Definition paged_mbi : kstate := set_mem (fun m => write_bytes m 0x90000 test_mbi_bytes) low_state.

Lemma paged_tags_at : tags_at (mem paged_mbi) 0x90008 test_tags.
Proof. unfold test_tags. repeat split; try (vm_compute; (reflexivity || discriminate)). Defined.

Lemma paged_boot_ok (E : Env) : (0 < patience)%nat -> @boot_ok E test_build timer_irqs 8 0x90000 test_tags 0 0x80000 paged_mbi.
Proof.
  intros Hp. destruct (test_boot_ok E Hp) as [H1 _ H3 H4 H5 H6 H7 H8 H9 H10 H11 H12].
  constructor; try assumption; [exact paged_tags_at|reflexivity..].
Defined.

Lemma paged_stack_ok s : same_outside_page paged_mbi s -> cr3 s = 0x1000 -> stack_ok idle_cpu s.
Proof.
  intros Hm H3. apply idle_cpu_stack_ok; [|exact H3]. intros b Hb.
  rewrite Hm by (unfold VIDEO_ADDRESS; lia). apply mem_get_write_out. left. lia.
Defined.
Definition test_clock : clock_t := Clock 58 30 23 4 31 12 2018.
#[local] Instance test_clock_env : Env := rtc_env (encode false true test_clock).
Lemma test_clock_ok : clock_ok test_clock.
Proof. unfold clock_ok, test_clock. simpl. lia. Defined.

#[local] Instance test_clock_rtc : Rtc (encode false true test_clock) :=
  rtc_env_rtc _ (fun r => encode_byte false true test_clock r test_clock_ok) eq_refl.

Lemma test_stubs_distinct : StubsDistinct.
Proof.
  unfold StubsDistinct. replace (stub_table.*1) with
    (((fun v => 0x101000 + 16 * v) <$> seqZ 0 32) ++ ((fun i => 0x102000 + 16 * i) <$> seqZ 0 5))
    by (vm_compute; reflexivity).
  apply (bool_decide_unpack _). vm_compute. exact I.
Defined.

Lemma booted_kernel_serves_irqs_witness :
  exists s c' s', kmain 8 MULTIBOOT2_MAGIC_VALUE 0x90000 paged_mbi = Ret tt s
    /\ deliver_all [0; 1; 4; 0] idle_cpu s = Ret c' s' /\ rip c' = 0x102000 /\ gpr c' Rax = 7 /\ tick s' = 3.
Proof.
  destruct (booted_kernel_serves_irqs (D := test_stubs_distinct) 8 0x90000 test_tags 0 0x80000 paged_mbi false test_clock
    (paged_boot_ok test_clock_env ltac:(cbn; lia)) test_clock_ok) as (s & Hrun & Hm & H3 & Hall).
  destruct (Hall [0; 1; 4; 0] idle_cpu) as (c' & s' & Hd & (Hip & _ & _ & _ & Hg) & _ & Ht & _).
  - repeat constructor; lia.
  - exact idle_cpu_ok.
  - by apply paged_stack_ok.
  - exists s, c', s'. split; [exact Hrun|]. split; [exact Hd|]. split; [exact Hip|].
    split; [exact (Hg Rax ltac:(discriminate))|exact Ht].
Defined.

Lemma unhandled_line_panics_witness :
  exists s s2, kmain 8 MULTIBOOT2_MAGIC_VALUE 0x90000 paged_mbi = Ret tt s
    /\ deliver (32 + 7) 0 idle_cpu s = Halted (stopped s2) /\ iflag (stopped s2) = false.
Proof.
  destruct (unhandled_line_panics (D := test_stubs_distinct) 8 0x90000 test_tags 0 0x80000 paged_mbi false test_clock
    (paged_boot_ok test_clock_env ltac:(cbn; lia)) test_clock_ok eq_refl ltac:(cbn; lia)) as (s & Hrun & Hm & H3 & Hall).
  destruct (Hall 7 idle_cpu) as (s2 & Hd & _ & Hi).
  - lia.
  - by apply paged_stack_ok.
  - exists s, s2. split; [exact Hrun|]. split; [exact Hd|exact Hi].
Defined.
