(* ===== verification/Exceptions.v ===== *)
(** * Exceptions of the running kernel

    An exception takes the same path as an interrupt: gate, stub, [isr_handler].
    The breakpoint has a handler, which prints the interrupted context and comes
    back to it; every other exception ends in a panic that prints it, or for the
    three whose error code [get_stack] does not know words next to it.  Both are
    followed here from the processor's pushes to the text on the screen, at any
    time after [kmain], in any sequence with the interrupts of System.v. *)

From stdpp Require Import base numbers list gmap strings.
From S2P Require Import Prelude Machine Libk Screen Serial Printf Idt Isr Timer Keyboard Cmos Boot PageWalk Mmap.
From S2P Require Import Paging Kernel Stubs System.

(** ** Operations *)

(** What happens to a program between two instructions: an interrupt on a line
    with a gate, or a breakpoint of its own. *)
Inductive happening :=
  | Line (i : Z)
  | Breakpoint.

#[global] Instance happening_eq_dec : EqDecision happening.
Proof. solve_decision. Defined.

Definition happening_ok (h : happening) : Prop :=
  match h with Line i => 0 <= i < 5 | Breakpoint => True end.

Section Exceptions.
Context {C : Calls} {E : Env} {B : Build}.

Definition happen (h : happening) (c : cpu) : M cpu :=
  match h with
  | Line i => deliver (32 + i) 0 c
  | Breakpoint => deliver EXCEPTION_BP 0 c
  end.

Fixpoint happen_all (hs : list happening) (c : cpu) : M cpu :=
  match hs with
  | [] => mret c
  | h :: hs => c ← happen h c; happen_all hs c
  end.

(** ** The interrupted context, as the kernel prints it *)

Definition context_text (c : cpu) : list Z :=
  str "  instruction_pointer = 0x" ++ numeral 16 (rip c) ++ nl
  ++ str "  code_segment        = 0x" ++ numeral 16 (cs c) ++ nl
  ++ str "  cpu_flags           = 0x" ++ numeral 16 (rflags c) ++ nl
  ++ str "  stack_pointer       = 0x" ++ numeral 16 (gpr c Rsp) ++ nl
  ++ str "  stack_segment       = 0x" ++ numeral 16 (ss c).

Definition breakpoint_text (c : cpu) : list Z := str "Exception: BREAKPOINT" ++ nl ++ context_text c ++ nl.

Definition exception_text (v : Z) (c : cpu) : list Z :=
  str "Received interrupt: " ++ print_int v ++ str " - "
  ++ nth (Z.to_nat v) exception_messages [] ++ nl ++ nl ++ context_text c.

(** What the panic takes for the interrupted context: the context, or for the
    exceptions whose error code [get_stack] does not know the error code and the
    context's words one place too late. *)
Definition seen_context (v err : Z) (c : cpu) : cpu :=
  if bool_decide (v ∈ missed_vectors)
  then Cpu (fun r => if decide (r = Rsp) then rflags c else gpr c r) (u64 err) (rip c) (cs c) (gpr c Rsp)
  else c.

Lemma seen_context_cases v err c :
  (if decide (v = 21 \/ v = 29 \/ v = 30)
   then Cpu (fun r => if decide (r = Rsp) then rflags c else gpr c r) (u64 err) (rip c) (cs c) (gpr c Rsp)
   else c) = seen_context v err c.
Proof.
  assert (Hv : v ∈ missed_vectors <-> v = 21 \/ v = 29 \/ v = 30)
    by (unfold missed_vectors; rewrite !elem_of_cons, elem_of_nil; tauto).
  unfold seen_context. destruct (decide _) as [H|H].
  - by rewrite bool_decide_true by (by apply Hv).
  - by rewrite bool_decide_false by (by rewrite Hv).
Qed.

(** ** Lemmas: the context on the stack *)

Lemma stub_sp_context v err c s :
  stack_room c s ->
  get_stack v (stub_sp v err c) = aligned_sp c - (if bool_decide (v ∈ missed_vectors) then 48 else 40).
Proof.
  intros [Hsp _]. unfold stack_depth in Hsp. rewrite get_stack_skips. unfold stub_sp, frame_of. rewrite length_app.
  destruct (bool_decide_reflect (v ∈ missed_vectors)) as [Hm|Hm].
  - rewrite (bool_decide_true _ (missed_pushes _ Hm)). cbn [andb negb length Nat.add]. rewrite u64_small; lia.
  - rewrite andb_true_r. case_bool_decide; cbn [length Nat.add];
      rewrite ?(u64_small (_ + 8)) by lia; rewrite u64_small by lia; lia.
Qed.

(** The words of [stack_t] where [get_stack] looks for it. *)
Lemma context_words v err n c s :
  cpu_ok c -> stack_room c s ->
  let c1 := seen_context v err c in
  words_at (mem (at_call v err n c s)) (get_stack v (stub_sp v err c)) [rip c1; cs c1; rflags c1; gpr c1 Rsp; ss c1].
Proof.
  intros (Hg & Hip & Hcs & Hfl & Hss) R c1. rewrite (stub_sp_context v err c s R).
  pose proof (words_on_stack v err n c (mem s)) as Hw. apply words_at_app in Hw as [_ Hw].
  rewrite length_reverse, length_fmap, saved_length in Hw. pose proof (Hg Rsp) as Hgr.
  unfold c1, seen_context, stub_sp, frame_of in *. rewrite length_app in Hw.
  destruct (bool_decide_reflect (v ∈ missed_vectors)) as [Hm|Hm].
  - rewrite (bool_decide_true _ (missed_pushes _ Hm)) in Hw.
    cbn [app fmap list_fmap length Nat.add rip cs rflags ss gpr] in *. rewrite decide_True by done.
    replace (aligned_sp c - 48) with (aligned_sp c - 8 * Z.of_nat 21 + 8 * Z.of_nat 15) by lia.
    rewrite !(u64_small (rip c)), !(u64_small (cs c)), !(u64_small (rflags c)), !(u64_small (gpr c Rsp)) in Hw by done.
    apply (words_at_app _ _ _ [u64 (ss c)]). exact Hw.
  - assert (Hf : exists l, reverse (u64 <$> [ss c; gpr c Rsp; rflags c; cs c; rip c]
        ++ (if bool_decide (v ∈ error_code_vectors) then [err] else [])) = l ++ [rip c; cs c; rflags c; gpr c Rsp; ss c]
      /\ length l = length (if bool_decide (v ∈ error_code_vectors) then [err] else [])).
    { destruct (bool_decide (v ∈ error_code_vectors)); [exists [u64 err]|exists []]; (split; [|done]).
      all: cbn [app fmap list_fmap].
      all: rewrite !(u64_small (rip c)), !(u64_small (cs c)), !(u64_small (rflags c)), !(u64_small (gpr c Rsp)),
        !(u64_small (ss c)) by done; reflexivity. }
    destruct Hf as (l & El & Hl). rewrite El in Hw. apply words_at_app in Hw as [_ Hw]. rewrite Hl in Hw.
    replace (aligned_sp c - 40) with (aligned_sp c - 8 * Z.of_nat (length [ss c; gpr c Rsp; rflags c; cs c; rip c]
      + length (if bool_decide (v ∈ error_code_vectors) then [err] else []) + 15) + 8 * Z.of_nat 15
      + 8 * Z.of_nat (length (if bool_decide (v ∈ error_code_vectors) then [err] else []))) by (cbn [length]; lia).
    exact Hw.
Qed.

Lemma seen_context_ok v err c : cpu_ok c -> cpu_ok (seen_context v err c).
Proof.
  intros (Hg & Hip & Hcs & Hfl & Hss). pose proof (Hg Rsp). unfold seen_context. case_bool_decide; [|done].
  split; cbn [gpr rip cs rflags ss]; [intros r; by case_decide|]. pose proof (u64_range err). tauto.
Qed.

Lemma context_read v err n c s :
  cpu_ok c -> stack_room c s ->
  stack_text (at_call v err n c s) (get_stack v (stub_sp v err c)) = context_text (seen_context v err c).
Proof.
  intros Hc R. pose proof (context_words v err n c s Hc R) as Hw. cbv zeta in Hw.
  set (a := get_stack v (stub_sp v err c)) in *. apply (seen_context_ok v err) in Hc.
  set (c1 := seen_context v err c) in *. destruct Hc as (Hg & Hip & Hcs & Hfl & Hss). pose proof (Hg Rsp) as Hr.
  do 5 (apply words_at_cons in Hw as [?W Hw]). unfold stack_text, word, m64 in *.
  replace (a + 16) with (a + 8 + 8) by lia. replace (a + 24) with (a + 8 + 8 + 8) by lia.
  replace (a + 32) with (a + 8 + 8 + 8 + 8) by lia. rewrite W, W0, W1, W2, W3, !u64_small by done. reflexivity.
Qed.

(** ** Lemmas: lines on the screen *)

(** Lines that do not reach the right edge keep the text on the page. *)
Lemma screen_print_lines ls : forall s,
  framebuffer (scr s) = VIDEO_ADDRESS -> 0 <= screen_row (scr s) <= 24 -> 0 <= screen_col (scr s) <= 2 ->
  Forall (fun l => 2 <= Z.of_nat (length l) < 78 /\ Forall printable l) ls ->
  exists s', screen_print (concat ((fun l => l ++ [10]) <$> ls)) s = Ret tt s'
    /\ 0 <= screen_row (scr s') <= 24 /\ 0 <= screen_col (scr s') <= 2
    /\ same_outside_page s s' /\ console_step s s'.
Proof.
  induction ls as [|l ls IH]; intros s Hfb Hr Hc Hl.
  { exists s. split; [done|]. split; [done|]. split; [done|]. by split. }
  apply Forall_cons in Hl as [[Hlen Hp] Hl].
  destruct (screen_print_line l s Hfb Hr ltac:(lia) ltac:(lia) ltac:(lia) Hp)
    as (s1 & H1 & Hcol & Hr1 & Hm1 & Hc1).
  destruct (IH s1) as (s2 & H2 & Hr2 & Hcol2 & Hm2 & Hc2); [|done|lia|done|].
  { destruct Hc1 as (_ & -> & _). exact Hfb. }
  exists s2. cbn [fmap list_fmap concat]. unfold screen_print in *.
  rewrite (iterM_app screen_write _ _ s), (bind_ret _ _ _ _ _ H1). split; [exact H2|].
  split; [done|]. split; [done|]. by split; etransitivity.
Qed.

(** The lines of [stack_text]. *)
Definition stack_lines (s : kstate) (stack : Z) : list (list Z) :=
  [str "  instruction_pointer = 0x" ++ numeral 16 (word s stack);
   str "  code_segment        = 0x" ++ numeral 16 (word s (stack + 8));
   str "  cpu_flags           = 0x" ++ numeral 16 (word s (stack + 16));
   str "  stack_pointer       = 0x" ++ numeral 16 (word s (stack + 24));
   str "  stack_segment       = 0x" ++ numeral 16 (word s (stack + 32))].

Lemma stack_lines_ok s stack :
  Forall (fun l => 2 <= Z.of_nat (length l) < 78 /\ Forall printable l) (stack_lines s stack).
Proof.
  assert (Hline : forall (label : string) a, (4 <= String.length label <= 40)%nat ->
    Forall printable (str label) ->
    2 <= Z.of_nat (length (str label ++ numeral 16 (word s a))) < 78
    /\ Forall printable (str label ++ numeral 16 (word s a))).
  { intros label a Hl Hp. rewrite length_app, length_str. pose proof (numeral_word_length s a).
    split; [lia|]. apply Forall_app. split; [done|]. apply numeral_printable. lia. }
  unfold stack_lines. repeat apply Forall_cons_2; [..|by apply Forall_nil_2].
  all: apply Hline; [cbn; lia|by apply str_printable].
Qed.

(** [breakpoint_handler] in the idle loop: the message goes to the screen, on the
    page, and the cursor is where the idle loop can go on. *)
Lemma breakpoint_idle stack s :
  framebuffer (scr s) = VIDEO_ADDRESS -> 0 <= screen_row (scr s) <= 24 -> 0 <= screen_col (scr s) <= 2 ->
  exists s', breakpoint_handler stack s = Ret tt s'
    /\ screen_print (str "Exception: BREAKPOINT" ++ nl ++ stack_text s stack ++ nl) s = Ret tt s'
    /\ framebuffer (scr s') = VIDEO_ADDRESS /\ 0 <= screen_row (scr s') <= 24
    /\ 0 <= screen_col (scr s') <= 2 /\ same_outside_page s s' /\ same_kernel s s'.
Proof.
  intros Hfb Hr Hc.
  destruct (screen_print_lines (str "Exception: BREAKPOINT" :: stack_lines s stack) s Hfb Hr Hc)
    as (s' & Hp & Hr' & Hc' & Hm & Hk).
  { apply Forall_cons_2; [|apply stack_lines_ok]. split; [rewrite length_str; cbn; lia|by apply str_printable]. }
  assert (Et : concat ((fun l => l ++ [10]) <$> (str "Exception: BREAKPOINT" :: stack_lines s stack))
    = str "Exception: BREAKPOINT" ++ nl ++ stack_text s stack ++ nl).
  { unfold stack_lines, stack_text, nl. cbn [fmap list_fmap concat]. by rewrite <- !app_assoc, app_nil_r. }
  rewrite Et in Hp. exists s'. destruct Hk as (Hk & Hfb' & _).
  split; [|split; [exact Hp|split; [by rewrite Hfb'|by repeat split; try lia; try apply Hk]]].
  unfold breakpoint_handler. erewrite bind_ret; [|reflexivity]. rewrite <- Hp. apply vprintfk_screen.
  - by apply forallb_bytes.
  - vm_compute. reflexivity.
  - rendering. unfold stack_text, word. rewrite <- !app_assoc. reflexivity.
Qed.

(** ** Lemmas: a breakpoint *)

Context {D : StubsDistinct}.

(** The kernel as boot left it, handlers included. *)
Definition settled (s : kstate) : Prop := ready s /\ interrupt_handlers s = boot_handlers.

Lemma deliver_isr v err c s :
  ready s -> 0 <= v < 32 -> deliver v err c s = dispatch v err (def_isr_handler isr_handler v) c s.
Proof.
  intros R Hv. unfold deliver. step. rewrite (rd_isr s R v Hv), check_kernel_gate.
  unfold through_gate. cbn [hw_offset kernel_gate]. by rewrite stub_isr.
Qed.

Lemma breakpoint_handled stack s :
  settled s -> isr_handler EXCEPTION_BP stack s = breakpoint_handler (get_stack EXCEPTION_BP stack) s.
Proof.
  intros [_ Hh]. unfold isr_handler. cbv zeta. erewrite bind_ret; [|unfold get_handler; step; rewrite Hh; reflexivity].
  reflexivity.
Qed.

Lemma at_call_settled v err n c s : settled s -> settled (at_call v err n c s).
Proof.
  intros [R Hh]. split; [|exact Hh]. apply (ready_same s); try done. exact (rd_idle s R).
Qed.

(** A breakpoint's whole path. *)
Lemma breakpoint_round_trip c s :
  settled s -> cpu_ok c -> stack_ok c s ->
  exists c' s' s3, deliver EXCEPTION_BP 0 c s = Ret c' s'
    /\ screen_print (breakpoint_text c) (at_call EXCEPTION_BP 0 EXCEPTION_BP c s) = Ret tt s3
    /\ s' = set_iflag (Z.testbit (rflags c) 9) (set_trace (cons Sti) s3)
    /\ (rip c' = rip c /\ cs c' = cs c /\ rflags c' = rflags c /\ ss c' = ss c)
    /\ (forall r, gpr c' r = if decide (r = Rdi) then EXCEPTION_BP else gpr c r)
    /\ settled s' /\ tick s' = tick s /\ memory_kept c s s' /\ cr3 s' = cr3 s.
Proof.
  intros S Hc [Hroom Hpage]. set (s1 := at_call EXCEPTION_BP 0 EXCEPTION_BP c s).
  assert (Hframe : frame_of EXCEPTION_BP 0 c = [ss c; gpr c Rsp; rflags c; cs c; rip c]) by reflexivity.
  assert (Hlow : stub_sp EXCEPTION_BP 0 c = aligned_sp c - 160)
    by (unfold stub_sp; rewrite Hframe; cbn [length Nat.add]; lia).
  pose proof (at_call_settled EXCEPTION_BP 0 EXCEPTION_BP c s S) as S1. fold s1 in S1.
  pose proof S1 as [[(_ & _ & _ & Hfb & Hr & Hcol) _ _] _].
  destruct (breakpoint_idle (get_stack EXCEPTION_BP (stub_sp EXCEPTION_BP 0 c)) s1 Hfb Hr Hcol)
    as (s3 & Hrun & Hp & Hfb3 & Hr3 & Hcol3 & Hm & Hk).
  rewrite <- (breakpoint_handled _ s1 S1) in Hrun. unfold s1 in Hp. rewrite context_read in Hp by done.
  change (seen_context EXCEPTION_BP 0 c) with c in Hp. destruct Hk as (K1 & K2 & K3 & K4 & K5 & K6 & K7).
  pose proof Hc as (Hg & Hip & Hcs & Hfl & Hss). pose proof (Hg Rsp) as Hgsp.
  destruct (dispatch_run EXCEPTION_BP 0 EXCEPTION_BP isr_handler c s s3
    (rip c) (cs c) (rflags c) (gpr c Rsp) (ss c) []) as (c' & Hd & R1 & R2 & R3 & R4 & R5 & Hregs).
  - exact Hroom.
  - exact Hrun.
  - apply (stack_room_kept c c s1); [done|exact K2| |by apply at_call_mapped]. intros b Hb _. by apply Hm.
  - intros x Hx. apply Hm. rewrite Hlow in Hx. unfold stack_depth in Hpage. lia.
  - rewrite Hframe. cbn [fmap list_fmap]. by rewrite !u64_small by done.
  - exists c'. eexists. exists s3. split.
    { rewrite (deliver_isr EXCEPTION_BP 0 c s (proj1 S)) by (unfold EXCEPTION_BP; lia). exact Hd. }
    split; [exact Hp|]. split; [reflexivity|]. split; [exact (conj R1 (conj R2 (conj R3 R4)))|].
    split; [|split; [|split; [exact K6|split; [|exact K2]]]].
    + intros r. destruct (decide (r = Rsp)) as [->|Hrsp]; [exact R5|]. rewrite (Hregs r Hrsp).
      cbn [gpr set_gpr]. case_decide; [reflexivity|by apply u64_small].
    + destruct S1 as [[I1 G1 G2] H1]. split; [|simpl_state; rewrite K5; exact H1].
      apply (ready_same s1); [by split| |exact K3|exact K4].
      destruct I1 as (J1 & J2 & J3 & _). unfold idle. simpl_state. rewrite K5.
      exact (conj J1 (conj J2 (conj J3 (conj Hfb3 (conj Hr3 Hcol3))))).
    + intros b Hb1 Hb2. simpl_state. rewrite Hm by done. by apply at_call_kept.
Qed.

(** ** Lemmas: sequences *)

Definition ticks (hs : list happening) : Z :=
  Z.of_nat (length (filter (fun h => h = Line 0) hs)).

(** One happening: the program and the kernel are ready for the next. *)
Lemma happen_run h c s :
  happening_ok h -> settled s -> cpu_ok c -> stack_ok c s ->
  exists c' s', happen h c s = Ret c' s' /\ same_context c c' /\ cpu_ok c' /\ settled s'
    /\ iflag s' = Z.testbit (rflags c) 9
    /\ tick s' = (if decide (ticks [h] = 0) then tick s else u32 (tick s + 1)) /\ memory_kept c s s'
    /\ cr3 s' = cr3 s.
Proof.
  intros Hh S Hc Hs.
  assert (Hok : forall c', rip c' = rip c /\ cs c' = cs c /\ rflags c' = rflags c /\ ss c' = ss c ->
    forall w, 0 <= w < 2 ^ 64 -> (forall r, gpr c' r = if decide (r = Rdi) then w else gpr c r) ->
    same_context c c' /\ cpu_ok c').
  { intros c' (E1 & E2 & E3 & E4) w Hw Hg. destruct Hc as (H1 & H2 & H3 & H4 & H5).
    split; [|split; [|by rewrite E1, E2, E3, E4]].
    - do 4 (split; [assumption|]). intros r Hr. rewrite Hg. by rewrite decide_False.
    - intros r. rewrite Hg. case_decide; [exact Hw|apply H1]. }
  destruct h as [i|]; cbn [happening_ok happen] in *.
  - destruct (irq_round_trip i c s (rd_idle s (proj1 S)) Hh Hc Hs)
      as (c' & s' & Hrun & Hctx & Hg & Hidle & Hif & Htick & Hmem & H3 & Hidt & Hreg & Hhs).
    rewrite <- (deliver_irq i c s (proj1 S) Hh) in Hrun.
    destruct (Hok c' Hctx (32 + i) ltac:(lia) Hg) as [K1 K2].
    exists c', s'. split; [exact Hrun|]. split; [exact K1|]. split; [exact K2|]. split; [|split; [exact Hif|split; [|exact (conj Hmem H3)]]].
    + split; [|rewrite Hhs; exact (proj2 S)]. exact (ready_same s s' (proj1 S) Hidle Hidt Hreg).
    + rewrite Htick. unfold ticks. rewrite filter_cons. destruct (Z.eqb_spec (32 + i) 32).
      * assert (i = 0) as -> by lia. by rewrite (decide_True (P := Line 0 = Line 0)).
      * rewrite (decide_False (P := Line i = Line 0)) by (intros [= ->]; lia). reflexivity.
  - destruct (breakpoint_round_trip c s S Hc Hs) as (c' & s' & s3 & Hrun & _ & Es & Hctx & Hg & S' & Ht & Hmem & H3).
    destruct (Hok c' Hctx EXCEPTION_BP ltac:(unfold EXCEPTION_BP; lia) Hg) as [K1 K2].
    exists c', s'. split; [exact Hrun|]. split; [exact K1|]. split; [exact K2|]. split; [exact S'|].
    split; [by rewrite Es|]. split; [exact Ht|exact (conj Hmem H3)].
Qed.

Lemma same_context_sp c c' : same_context c c' -> aligned_sp c' = aligned_sp c.
Proof. intros (_ & _ & _ & _ & Hg). unfold aligned_sp. by rewrite Hg. Qed.

Lemma ticks_cons h hs : ticks (h :: hs) = ticks [h] + ticks hs.
Proof. unfold ticks. rewrite !filter_cons. cbn [filter list_filter]. destruct (decide _); cbn [length]; lia. Qed.

Lemma ticks_one h : ticks [h] = 0 \/ ticks [h] = 1.
Proof. unfold ticks. rewrite filter_cons. destruct (decide _); cbn; lia. Qed.

Lemma happen_all_run hs : forall c s,
  Forall happening_ok hs -> settled s -> 0 <= tick s < 2 ^ 32 -> cpu_ok c -> stack_ok c s ->
  exists c' s', happen_all hs c s = Ret c' s' /\ same_context c c' /\ cpu_ok c' /\ settled s'
    /\ tick s' = u32 (tick s + ticks hs)
    /\ (hs <> [] -> iflag s' = Z.testbit (rflags c) 9) /\ memory_kept c s s'.
Proof.
  induction hs as [|h hs IH]; intros c s Hhs S Ht Hc Hs.
  - exists c, s. split; [done|]. split; [by repeat split|]. split; [exact Hc|]. split; [exact S|].
    rewrite Z.add_0_r, u32_small by done. split; [done|]. split; [done|by intros b _ _].
  - apply Forall_cons in Hhs as [Hh Hhs].
    destruct (happen_run h c s Hh S Hc Hs) as (c1 & s1 & Hrun & Hctx & Hc1 & S1 & Hif & Ht1 & Hm1 & H3).
    pose proof (same_context_sp _ _ Hctx) as Hsp.
    assert (Ht1' : tick s1 = u32 (tick s + ticks [h])).
    { rewrite Ht1. destruct (ticks_one h) as [E1|E1]; rewrite E1; [|by rewrite decide_False by lia].
      by rewrite decide_True, Z.add_0_r, u32_small. }
    destruct (IH c1 s1 Hhs S1) as (c2 & s2 & Hrun2 & Hctx2 & Hc2 & S2 & Ht2 & Hif2 & Hm2);
      [rewrite Ht1'; apply u32_range|exact Hc1|by eapply stack_ok_kept|].
    destruct Hctx as (F1 & F2 & F3 & F4 & F5). destruct Hctx2 as (G1 & G2 & G3 & G4 & G5).
    exists c2, s2. cbn [happen_all]. rewrite (bind_ret _ _ _ _ _ Hrun). split; [exact Hrun2|].
    split; [|split; [exact Hc2|split; [exact S2|split; [|split]]]].
    + do 4 (split; [congruence|]). intros r Hr. by rewrite G5, F5.
    + rewrite Ht2, Ht1', (ticks_cons h hs). unfold u32. rewrite Zplus_mod_idemp_l. f_equal. lia.
    + intros _. destruct hs as [|h' hs]; [|by rewrite Hif2, F3].
      cbn in Hrun2. by injection Hrun2 as <- <-.
    + intros b Hb1 Hb2. rewrite Hm2, Hm1; [done..|]. by rewrite Hsp.
Qed.

(** ** Lemmas: the other exceptions *)

Lemma exception_halts v err c s :
  settled s -> 0 <= v < 32 -> v <> EXCEPTION_BP -> cpu_ok c -> stack_room c s ->
  0 <= isr_panic_line < 2 ^ 31 ->
  exists s', deliver v err c s = Halted (stopped s')
    /\ screen_print (panic_text (str "src/core/isr.c") isr_panic_line (str "isr_handler")
                         (exception_text v (seen_context v err c)) ++ halted_text) (at_call v err v c s) = Ret tt s'
    /\ iflag (stopped s') = false.
Proof.
  intros S Hv Hne Hc Hsp Hline. set (s1 := at_call v err v c s).
  pose proof (at_call_settled v err v c s S) as S1. fold s1 in S1. destruct S1 as [R1 Hh].
  assert (Hnull : interrupt_handlers s1 !! Z.to_nat v = Some isr_null).
  { rewrite Hh. unfold boot_handlers, EXCEPTION_BP in *. rewrite !list_lookup_insert_ne by lia.
    apply lookup_replicate. split; [reflexivity|lia]. }
  assert (Hw : screen_within 80 s1).
  { destruct (rd_idle s1 R1) as (_ & _ & _ & _ & Hr & Hcol). unfold screen_within. lia. }
  destruct (isr_handler_halts v (stub_sp v err c) s1 80) as (s' & Hrun & Hs & _ & Hif);
    [lia|exact Hnull|exact Hline|exact Hw|lia|].
  assert (Et : isr_text v s1 (get_stack v (stub_sp v err c)) = exception_text v (seen_context v err c)).
  { unfold isr_text. unfold s1. by rewrite context_read. }
  rewrite Et in Hs. exists s'. split; [|by split].
  rewrite (deliver_isr v err c s (proj1 S) Hv). apply dispatch_halts; [exact Hsp|].
  rewrite u64_small by lia. exact Hrun.
Qed.

End Exceptions.

Section Booted.
Context {C : Calls} {E : Env} {B : Build} {Q : Irqs} {D : StubsDistinct}.
Context {fuel m : nat} {addr sp : Z} {ts : list tag_t} {s0 : kstate}.
Context (Hok : boot_ok fuel addr ts m sp s0) (binary : bool) (t : clock_t) {R : Rtc (encode binary true t)}.
Context (Ht : clock_ok t).

(** Boot leaves the kernel settled, and so does whatever happens after it. *)
Lemma kmain_settled :
  exists s, kmain fuel MULTIBOOT2_MAGIC_VALUE addr s0 = Ret tt s
    /\ settled s /\ tick s = u32 (tick s0 + 1) /\ same_outside_page s0 s /\ cr3 s = cr3 s0
    /\ forall hs c, Forall happening_ok hs -> cpu_ok c -> stack_ok c s ->
       exists c' s', happen_all hs c s = Ret c' s' /\ same_context c c' /\ settled s'
         /\ tick s' = u32 (tick s0 + 1 + ticks hs)
         /\ (hs <> [] -> iflag s' = Z.testbit (rflags c) 9) /\ memory_kept c s s'.
Proof using D Hok Ht R.
  destruct (kmain_ready Hok binary t Ht) as (s & Hrun & [Hr Htick Hh _ _ _ H3 _] & Hm0).
  exists s. split; [exact Hrun|]. assert (S : settled s) by (split; [exact Hr|exact Hh]).
  split; [exact S|]. split; [exact Htick|]. split; [exact Hm0|]. split; [exact H3|]. intros hs c Hhs Hc Hs.
  destruct (happen_all_run hs c s Hhs S ltac:(rewrite Htick; apply u32_range) Hc Hs)
    as (c' & s' & H1 & H2 & _ & H4 & H5 & H6).
  exists c', s'. do 3 (split; [assumption|]). split; [|exact H6].
  rewrite H5, Htick. unfold u32. by rewrite Zplus_mod_idemp_l.
Qed.

End Booted.

(** ** Properties *)

(** C4: interrupts and breakpoints are invisible to the program.  From [kmain] on,
    any sequence of interrupts on lines 0 to 4 and breakpoints, each through the
    table in memory, the stub, the C handler and [iretq], comes back every time
    to the interrupted context, every register but [rdi] included, if there is
    room below the program's stack pointer that the page tables map to itself
    and that is not on the text page ([stack_ok]); the tick counter counts the
    timer's modulo [2^32], memory changes on the text page and in that room only;
    and a breakpoint after them shows on the screen exactly the context it
    interrupted. *)
Theorem booted_kernel_comes_back {C : Calls} {E : Env} {B : Build} {Q : Irqs} {D : StubsDistinct}
    fuel addr ts m sp s0 (binary : bool) t {R : Rtc (encode binary true t)} :
  boot_ok fuel addr ts m sp s0 -> clock_ok t ->
  exists s, kmain fuel MULTIBOOT2_MAGIC_VALUE addr s0 = Ret tt s /\ same_outside_page s0 s /\ cr3 s = cr3 s0
    /\ forall hs c, Forall happening_ok hs -> cpu_ok c -> stack_ok c s ->
       exists c' s', happen_all hs c s = Ret c' s' /\ same_context c c'
         /\ tick s' = u32 (tick s0 + 1 + ticks hs)
         /\ (hs <> [] -> iflag s' = Z.testbit (rflags c) 9) /\ memory_kept c s s'
         /\ forall c1, cpu_ok c1 -> stack_ok c1 s' ->
            exists c2 s2 s3, happen Breakpoint c1 s' = Ret c2 s2 /\ same_context c1 c2
              /\ screen_print (breakpoint_text c1) (at_call EXCEPTION_BP 0 EXCEPTION_BP c1 s') = Ret tt s3
              /\ mem s2 = mem s3 /\ scr s2 = scr s3.
Proof.
  intros Hok Ht. destruct (kmain_settled Hok binary t Ht) as (s & Hrun & _ & _ & Hm & H3 & Hall).
  exists s. split; [exact Hrun|]. split; [exact Hm|]. split; [exact H3|]. intros hs c Hhs Hc Hs.
  destruct (Hall hs c Hhs Hc Hs) as (c' & s' & H1 & H2 & S & H4 & H5 & H6).
  exists c', s'. do 5 (split; [assumption|]). intros c1 Hc1 Hs1.
  destruct (breakpoint_round_trip c1 s' S Hc1 Hs1) as (c2 & s2 & s3 & Hd & Hp & Es & (F1 & F2 & F3 & F4) & Hg & _).
  exists c2, s2, s3. split; [exact Hd|]. split; [|split; [exact Hp|rewrite Es; split; reflexivity]].
  do 4 (split; [assumption|]). intros r Hr. rewrite Hg. by rewrite decide_False.
Qed.

(** C5: any other exception stops the booted kernel with a panic on the screen.
    At any time after [kmain], with room on the stack that the page tables map to
    itself ([stack_room]), for every vector from 0 to 31 but the
    breakpoint's, with the error code the processor pushes for it or without,
    [isr_handler] prints the exception's number and name and the interrupted
    instruction pointer, code segment, flags, stack pointer and stack segment,
    says that the system is halted, turns interrupts off and stays there.  For
    exceptions 21, 29 and 30, whose error code [get_stack] does not know, what it
    prints under these names is the error code, the instruction pointer, the
    code segment, the flags and the stack pointer ([seen_context]). *)
Theorem exceptions_panic {C : Calls} {E : Env} {B : Build} {Q : Irqs} {D : StubsDistinct}
    fuel addr ts m sp s0 (binary : bool) t {R : Rtc (encode binary true t)} :
  boot_ok fuel addr ts m sp s0 -> clock_ok t -> 0 <= isr_panic_line < 2 ^ 31 ->
  exists s, kmain fuel MULTIBOOT2_MAGIC_VALUE addr s0 = Ret tt s /\ same_outside_page s0 s /\ cr3 s = cr3 s0
    /\ forall hs c, Forall happening_ok hs -> cpu_ok c -> stack_ok c s ->
       exists c' s', happen_all hs c s = Ret c' s'
         /\ forall v err c1, 0 <= v < 32 -> v <> EXCEPTION_BP -> cpu_ok c1 -> stack_room c1 s' ->
            let seen := if decide (v = 21 \/ v = 29 \/ v = 30)
              then Cpu (fun r => if decide (r = Rsp) then rflags c1 else gpr c1 r) (u64 err) (rip c1) (cs c1) (gpr c1 Rsp)
              else c1 in
            exists s2, deliver v err c1 s' = Halted (stopped s2)
              /\ screen_print (panic_text (str "src/core/isr.c") isr_panic_line (str "isr_handler")
                                 (exception_text v seen) ++ halted_text) (at_call v err v c1 s') = Ret tt s2
              /\ iflag (stopped s2) = false.
Proof.
  intros Hok Ht Hline. destruct (kmain_settled Hok binary t Ht) as (s & Hrun & _ & _ & Hm & H3 & Hall).
  exists s. split; [exact Hrun|]. split; [exact Hm|]. split; [exact H3|]. intros hs c Hhs Hc Hs.
  destruct (Hall hs c Hhs Hc Hs) as (c' & s' & H1 & _ & S & _).
  exists c', s'. split; [exact H1|]. intros v err c1 Hv Hne Hc1 Hsp1 seen.
  unfold seen. rewrite seen_context_cases. exact (exception_halts v err c1 s' S Hv Hne Hc1 Hsp1 Hline).
Qed.

(** The instances of System.v. *)
#[local] Instance timer_irqs : Irqs := fun _ => [(32, 0x80000)].
#[local] Existing Instance test_calls.

Lemma booted_kernel_comes_back_witness :
  exists s c' s', @kmain test_clock_env test_build timer_irqs 8 MULTIBOOT2_MAGIC_VALUE 0x90000 paged_mbi = Ret tt s
    /\ @happen_all test_calls test_clock_env test_build [Line 0; Breakpoint; Line 1; Line 0] idle_cpu s = Ret c' s'
    /\ rip c' = 0x102000 /\ tick s' = 3.
Proof.
  destruct (@booted_kernel_comes_back test_calls test_clock_env test_build timer_irqs test_stubs_distinct
    8 0x90000 test_tags 0 0x80000 paged_mbi false test_clock test_clock_rtc
    (paged_boot_ok test_clock_env ltac:(cbn; lia)) test_clock_ok) as (s & Hrun & Hm & H3 & Hall).
  destruct (Hall [Line 0; Breakpoint; Line 1; Line 0] idle_cpu) as (c' & s' & Hd & (Hip & _) & Ht & _).
  - repeat constructor; cbn; lia.
  - exact idle_cpu_ok.
  - by apply paged_stack_ok.
  - exists s, c', s'. split; [exact Hrun|]. split; [exact Hd|]. split; [exact Hip|exact Ht].
Defined.

Lemma exceptions_panic_witness :
  exists s s2 s3, @kmain test_clock_env test_build timer_irqs 8 MULTIBOOT2_MAGIC_VALUE 0x90000 paged_mbi = Ret tt s
    /\ @deliver test_calls test_clock_env test_build 13 0x18 idle_cpu s = Halted (stopped s2)
    /\ @deliver test_calls test_clock_env test_build 21 2 idle_cpu s = Halted (stopped s3).
Proof.
  destruct (@exceptions_panic test_calls test_clock_env test_build timer_irqs test_stubs_distinct
    8 0x90000 test_tags 0 0x80000 paged_mbi false test_clock test_clock_rtc
    (paged_boot_ok test_clock_env ltac:(cbn; lia)) test_clock_ok ltac:(cbn; lia)) as (s & Hrun & Hm & H3 & Hall).
  pose proof (paged_stack_ok s Hm H3) as Hs.
  destruct (Hall [] idle_cpu (Forall_nil_2 _) idle_cpu_ok Hs) as (c' & s' & Hd & Hex).
  cbn [happen_all] in Hd. injection Hd as _ <-.
  destruct (Hex 13 0x18 idle_cpu) as (s2 & Hh & _ & _); [lia|discriminate|exact idle_cpu_ok|exact (proj1 Hs)|].
  destruct (Hex 21 2 idle_cpu) as (s3 & Hh3 & _ & _); [lia|discriminate|exact idle_cpu_ok|exact (proj1 Hs)|].
  exists s, s2, s3. split; [exact Hrun|]. split; [exact Hh|exact Hh3].
Defined.
