(* ===== verification/Loader.v ===== *)
(** * From the loader to the idle loop

    The loader searches the kernel's file for the header of
    asm/multiboot_header.asm, puts the kernel and the boot information in memory
    and jumps to [start].  Here the parts are put together: the header is one a
    loader accepts, and over the structures of boot.h, as a loader writes them,
    [boot] goes through asm/boot.asm and asm/long_mode_init.asm to [kmain], its
    idle loop and the interrupts after it, with an allocator that gives away the
    memory of the loader's map.

    That [main] passes EDI and ESI on to [kmain] is a hypothesis: kernel/main.cr
    calls [kmain] without arguments. *)

From stdpp Require Import base numbers list gmap strings sorting.
From S2P Require Import Prelude Machine Libk Screen Serial Printf Idt Isr Timer Keyboard Cmos Boot PageWalk Mmap Frames Multiboot Paging.
From S2P Require Import HugePage Start LongMode Kernel Preempt Stubs System Exceptions.

(** ** asm/multiboot_header.asm *)

Definition MULTIBOOT2_MAGIC_NUMBER : Z := 0xe85250d6.
Definition PROTECTED_MODE_CODE : Z := 0.
Definition header_length : Z := 24.        (* header_end - header_start *)

Definition multiboot_header : list Z :=
  uint32 MULTIBOOT2_MAGIC_NUMBER ++ uint32 PROTECTED_MODE_CODE ++ uint32 header_length
  ++ uint32 (0x100000000 - (MULTIBOOT2_MAGIC_NUMBER + 0 + header_length))
  ++ le_bytes 2 0 ++ le_bytes 2 0 ++ uint32 8.

(** ** The loader's side *)

Definition word_at (image : list Z) (i : nat) : Z := le_val (take 4 (drop i image)).

(** A header: the magic number, four words that add up to zero, all of it in the
    first 32 KiB. *)
Definition header_at (image : list Z) (i : nat) : bool :=
  (word_at image i =? 0xe85250d6)
  && ((word_at image i + word_at image (i + 4) + word_at image (i + 8) + word_at image (i + 12)) `mod` 2 ^ 32 =? 0)
  && (Z.of_nat i + word_at image (i + 8) <=? 32768).

(** The first one at a multiple of eight, from [i] on. *)
Fixpoint find_header (n : nat) (image : list Z) (i : nat) : option nat :=
  match n with
  | O => None
  | S n => if header_at image i then Some i else find_header n image (i + 8)
  end.

(** The types of the tags from [i] to the end tag. *)
Fixpoint header_tags (fuel : nat) (image : list Z) (i : nat) : option (list Z) :=
  match fuel with
  | O => None
  | S fuel =>
      let type := word_at image i `mod` 2 ^ 16 in
      if type =? 0 then if word_at image (i + 4) =? 8 then Some [] else None
      else cons type <$> header_tags fuel image (i + Z.to_nat (align8 (word_at image (i + 4))))
  end.

Lemma word_at_app pre image i j :
  length pre = i -> word_at (pre ++ image) (i + j) = word_at image j.
Proof. intros <-. unfold word_at. rewrite drop_app_ge by lia. do 3 f_equal. lia. Qed.

Lemma header_words rest i :
  (i <= 20)%nat -> word_at (multiboot_header ++ rest) i = word_at multiboot_header i.
Proof.
  intros Hi. unfold word_at. rewrite drop_app_le by (cbn; lia). rewrite take_app_le; [done|].
  rewrite length_drop. cbn. lia.
Qed.

Lemma find_header_skips image k : forall n i,
  (k < n)%nat -> (forall j, (j < k)%nat -> header_at image (i + 8 * j) = false) ->
  header_at image (i + 8 * k) = true -> find_header n image i = Some (i + 8 * k)%nat.
Proof.
  induction k as [|k IH]; intros [|n] i Hn Hno Hyes; try lia; cbn [find_header].
  - rewrite Nat.mul_0_r, Nat.add_0_r in *. by rewrite Hyes.
  - pose proof (Hno 0%nat ltac:(lia)) as H0. rewrite Nat.mul_0_r, Nat.add_0_r in H0. rewrite H0.
    rewrite (IH n (i + 8)%nat); [f_equal; lia|lia| |].
    + intros j Hj. rewrite <- (Hno (S j)) by lia. f_equal. lia.
    + rewrite <- Hyes. f_equal. lia.
Qed.

(** C32: a multiboot2 loader accepts the kernel.  Wherever in the first 32 KiB of
    the file the linker puts the header, at a multiple of eight after bytes that
    do not look like one, the loader's search ends there: magic number, length
    and checksum are right.  It asks for the 32-bit protected mode entry, and
    its tag list is the end tag alone. *)
Theorem loader_finds_header pre rest k :
  length pre = (8 * k)%nat -> Z.of_nat (8 * k) + 24 <= 32768 ->
  (forall j, (j < k)%nat -> word_at (pre ++ multiboot_header ++ rest) (8 * j) <> 0xe85250d6) ->
  let image := pre ++ multiboot_header ++ rest in
  find_header 4096 image 0 = Some (8 * k)%nat
  /\ word_at image (8 * k + 4) = PROTECTED_MODE_CODE
  /\ word_at image (8 * k + 8) = Z.of_nat (length multiboot_header)
  /\ header_tags 1 image (8 * k + 16) = Some [].
Proof.
  intros Hl Hk Hno image.
  assert (Hw : forall i, (i <= 20)%nat -> word_at image (8 * k + i) = word_at multiboot_header i).
  { intros i Hi. unfold image. rewrite word_at_app by done. by apply header_words. }
  split; [|split; [|split]].
  - apply (find_header_skips image k 4096 0); [lia| |].
    + intros j Hj. unfold header_at. rewrite Nat.add_0_l.
      by rewrite (proj2 (Z.eqb_neq (word_at image (8 * j)) _) (Hno j Hj)).
    + rewrite Nat.add_0_l. unfold header_at. pose proof (Hw 0%nat) as H0. rewrite Nat.add_0_r in H0.
      rewrite H0, !Hw by lia. apply andb_true_iff. split; [reflexivity|]. apply Z.leb_le.
      change (word_at multiboot_header 8) with 24. lia.
  - by rewrite Hw by lia.
  - by rewrite Hw by lia.
  - cbn [header_tags]. rewrite <- Nat.add_assoc, !Hw by lia. reflexivity.
Qed.

Lemma loader_finds_header_witness :
  find_header 4096 (replicate 4096 0 ++ multiboot_header ++ []) 0 = Some 4096%nat.
Proof.
  refine (proj1 (loader_finds_header (replicate 4096 0) [] 512 _ _ _)).
  - apply length_replicate.
  - vm_compute. discriminate.
  - intros j Hj. assert (H : forallb (fun j => negb (word_at (replicate 4096 0 ++ multiboot_header ++ []) (8 * j) =? 0xe85250d6))
      (seq 0 512) = true) by (vm_compute; reflexivity).
    rewrite forallb_forall in H. specialize (H j (proj2 (in_seq 512 0 j) (conj (Nat.le_0_l j) Hj))).
    by apply negb_true_iff, Z.eqb_neq in H.
Defined.

(** ** The machine as the loader hands it over *)

Definition apart (lo hi lo' hi' : Z) : Prop := hi <= lo' \/ hi' <= lo.

Section Handover.
Context {P : Processor} {I : Image} {G : Rodata} {E : Env} {B : Build} {Q : Irqs} {T : Schedule}.

(** The boot information is in memory, the segment table too and section .bss is
    zero; none of them is on the text page (or the cell after it) or on another.
    The rest is [boot_ok]'s: the build's date and the first interrupts; what
    interrupts [kmain] between its statements is on lines 0 to 4. *)
Record handed_over (i : multiboot_info_t) (mbi : Z) (m : nat) (sp : Z) (s : kstate) : Prop := {
  ho_info : info_at (mem s) mbi i;
  ho_aligned : mbi `mod` 8 = 0;
  ho_info_tables : apart mbi (mbi + info_size i) p4_table stack_top;
  ho_info_page : apart mbi (mbi + info_size i) VIDEO_ADDRESS (VIDEO_ADDRESS + 4002);
  ho_tables_page : apart p4_table stack_top VIDEO_ADDRESS (VIDEO_ADDRESS + 4002);
  ho_tables : tables_zero (mem s);
  ho_idt : idt s = replicate 256 null_gate;
  ho_handlers : interrupt_handlers s = replicate 256 isr_null;
  ho_tick : tick s = 0;
  ho_gdt_place : gdt_place;
  ho_gdt : gdt_at (mem s);
  ho_gdt_page : apart gdt64 (gdt64 + 34) VIDEO_ADDRESS (VIDEO_ADDRESS + 4002);
  ho_processor : first_failure MULTIBOOT2_MAGIC_VALUE = None;
  ho_sections : Forall (fun e => es_addr e + es_size e < 2 ^ 64) (loaded_sections (info_tags i));
  ho_date : Forall printable build_date /\ (length build_date <= 16)%nat;
  ho_time : Forall printable build_time /\ (length build_time <= 16)%nat;
  ho_early : forall j, (j < m)%nat -> Forall (fun a : Z * Z => 33 <= a.1 < 37) (arrivals j);
  ho_timer : arrivals m = [(32, sp)];
  ho_patience : (m < patience)%nat;
  ho_taken : forall k, Forall (fun a : Z * Z => 32 <= a.1 < 37) (taken k)
}.

Context {i : multiboot_info_t} {mbi sp : Z} {m : nat} {s0 : kstate}.
Context (H : handed_over i mbi m sp s0).

Definition info_fuel : nat := Z.to_nat (info_size i).

(** Memory outside the tables, the stack and the text page with the cell after it. *)
Definition kept (mem1 mem2 : gmap Z Z) : Prop :=
  forall b, b < p4_table \/ stack_top <= b -> b < VIDEO_ADDRESS \/ VIDEO_ADDRESS + 4002 <= b ->
    mem_get mem2 b = mem_get mem1 b.

Lemma info_kept mem1 mem2 : kept mem1 mem2 -> info_at mem1 mbi i -> info_at mem2 mbi i.
Proof using H.
  intros Hk (Hok & Hs & Hb & H0). split; [done|]. split; [done|]. split; [|done].
  apply (bytes_at_ext mem1); [|done]. intros b Hr. rewrite <- Hs in Hr.
  pose proof (ho_info_tables _ _ _ _ _ H) as Ht. pose proof (ho_info_page _ _ _ _ _ H) as Hp.
  unfold apart in *. apply Hk; lia.
Qed.

Lemma gdt_kept mem1 mem2 : kept mem1 mem2 -> gdt_at mem1 -> gdt_at mem2.
Proof using H.
  intros Hk. apply bytes_at_ext. change (Z.of_nat (length gdt64_bytes)) with 34. intros b Hr.
  pose proof (ho_gdt_place _ _ _ _ _ H) as (_ & _ & Ht). pose proof (ho_gdt_page _ _ _ _ _ H) as Hp.
  unfold apart in *. apply Hk; lia.
Qed.

Lemma info_end : end_tag (mbi + 8) (abs_tag <$> info_tags i) + 8 = mbi + info_size i.
Proof using H.
  destruct (ho_info _ _ _ _ _ H) as (Hok & Hs & _). rewrite end_tag_bytes_at by done.
  rewrite Hs, length_info. lia.
Qed.

(** What [kmain] needs when it is called. *)
Lemma handed_boot_ok mem1 :
  (forall b, b < p4_table \/ stack_top <= b -> mem_get mem1 b = mem_get (mem s0) b) ->
  boot_ok info_fuel mbi (abs_tag <$> info_tags i) m sp (started mem1 s0).
Proof using H.
  intros Hm. assert (Hi : info_at mem1 mbi i).
  { apply (info_kept (mem s0)); [intros b Hb _; by apply Hm|by destruct H]. }
  pose proof Hi as (_ & Hs & _ & H0 & _). pose proof (steps_bytes (info_tags i)). pose proof (length_info i).
  pose proof info_end as He. destruct H.
  split; cbn [started mem idt interrupt_handlers tick]; try assumption.
  - by split.
  - by apply info_tags_at.
  - unfold info_fuel. lia.
  - rewrite He. unfold apart in *. lia.
  - rewrite ho_idt0. reflexivity.
  - lia.
Qed.

(** What the allocator knows after boot, in the loader's terms. *)
Record allocator_ready (s : kstate) : Prop := {
  ar_next : next_free_frame (mm s) = 1;
  ar_info : multiboot_start (mm s) = mbi /\ multiboot_end (mm s) = mbi + info_size i;
  ar_kernel : forall e, e ∈ loaded_sections (info_tags i) ->
    kernel_start (mm s) <= es_addr e /\ es_addr e + es_size e <= kernel_end (mm s);
  ar_tight : loaded_sections (info_tags i) <> [] ->
    exists e, e ∈ loaded_sections (info_tags i) /\ kernel_start (mm s) = es_addr e;
  ar_map : match first_map (info_tags i) with
    | None => memory_area (mm s) = 0
    | Some t => 0 <= memory_area (mm s) < 2 ^ 63 /\ tag_ok (BMmap t)
        /\ bytes_at (mem s) (memory_area (mm s)) (tag_bytes (BMmap t))
    end
}.

Lemma areas_cover :
  let r := boot_areas mbi (abs_tag <$> info_tags i) in
  ra_multiboot_start r = mbi /\ ra_multiboot_end r = mbi + info_size i
  /\ (forall e, e ∈ loaded_sections (info_tags i) ->
        ra_kernel_start r <= es_addr e /\ es_addr e + es_size e <= ra_kernel_end r)
  /\ (loaded_sections (info_tags i) <> [] ->
        exists e, e ∈ loaded_sections (info_tags i) /\ ra_kernel_start r = es_addr e).
Proof using H.
  pose proof (ho_info _ _ _ _ _ H) as Hi. pose proof Hi as (Hok & Hs & _ & H0 & _).
  pose proof (length_info i) as Hlen. pose proof (steps_bytes (info_tags i)) as Hsteps.
  assert (Hf : (steps_of (abs_tag <$> info_tags i) < info_fuel)%nat) by (unfold info_fuel; lia).
  pose proof (info_tags_at _ _ _ Hi) as Ht. pose proof (ho_sections _ _ _ _ _ H) as Hb.
  destruct (read_info_covers info_fuel mbi (abs_tag <$> info_tags i) s0 H0 Ht Hf)
    as (r & Hr & Hst & Hend & Hall & Hmin).
  { rewrite loaded_abs, Forall_fmap. rewrite Forall_forall in Hb. apply Forall_forall. intros e He.
    destruct (loaded_ok _ e Hok He). specialize (Hb e He). unfold is_u64 in *. cbn. lia. }
  rewrite (read_info_run info_fuel mbi _ s0 H0 Ht Hf) in Hr.
  apply (f_equal (fun o => match o with Ret x _ => x | _ => r end)) in Hr. fold (boot_areas mbi (abs_tag <$> info_tags i)) in Hr.
  cbv beta iota zeta in Hr. change (boot_areas mbi (abs_tag <$> info_tags i) = r) in Hr. cbv zeta. rewrite Hr.
  split; [done|]. split; [by rewrite Hend, info_end|]. rewrite loaded_abs in Hall, Hmin. split.
  - intros e He. apply (Hall (section_of e)). by apply list_elem_of_fmap_2.
  - intros Hne. destruct Hmin as ((c1 & Hc1 & E1) & _); [by destruct (loaded_sections _)|].
    apply list_elem_of_fmap in Hc1 as (e1 & -> & ?). by exists e1.
Qed.

Lemma allocator_set_up s :
  info_at (mem s) mbi i ->
  mm s = mm_of (first_tag (mbi + 8) (abs_tag <$> info_tags i) MULTIBOOT_TAG_TYPE_MMAP)
           (boot_areas mbi (abs_tag <$> info_tags i)) ->
  allocator_ready s.
Proof using H.
  intros Hi Hmm. destruct areas_cover as (A1 & A2 & A3 & A4).
  split; rewrite ?Hmm; cbn [mm_of next_free_frame multiboot_start multiboot_end kernel_start kernel_end memory_area];
    try done.
  destruct Hi as (Hok & Hs & Hb & H0 & Hm). pose proof (length_info i) as Hl.
  destruct (first_map (info_tags i)) as [t|] eqn:Hf; [|by apply first_map_none].
  unfold info_bytes in Hb. rewrite !bytes_at_app, !length_uint32 in Hb. destruct Hb as (_ & _ & Hb).
  replace (mbi + Z.of_nat 4 + Z.of_nat 4) with (mbi + 8) in Hb by lia.
  destruct (first_map_at (mem s) t _ (mbi + 8) Hok Hb Hf) as (B1 & B2 & B3 & B4).
  split; [lia|done].
Qed.

(** The tables of boot and the segment table stay as they are. *)
Record kernel_tables (g : segments) (s : kstate) : Prop := {
  kt_cr3 : cr3 s = p4_table;
  kt_recursive : recursive_writable (mem s) (cr3 s);
  kt_identity : forall va, 0 <= va < 2 ^ 30 ->
    page_walk (mem s) (cr3 s) va = Some (va, 2 ^ 21) /\ page_writable (mem s) (cr3 s) va = true;
  kt_gates : forall handler, load_descriptor (hw_selector (kernel_gate handler)) g s = Ret (cs_desc g) s
}.

Lemma kernel_tables_kept s :
  boot_tables (mem s) -> gdt_at (mem s) -> cr3 s = p4_table -> kernel_tables kernel_segments s.
Proof using.
  clear H. intros Hb Hg H3. split; rewrite ?H3; [reflexivity| | |].
  - by apply recursive_writable_built.
  - intros va Hva. split; [by apply walk_built|by apply writable_built].
  - intros h. by apply load_kernel_code.
Qed.

(** The areas [kmain] reads from the boot information. *)
Definition reserved_by_boot : mmap_t := mm_of 0 (boot_areas mbi (abs_tag <$> info_tags i)).

Lemma boots_run (binary : bool) t {R : Rtc (encode binary true t)} {D : StubsDistinct} main c g :
  clock_ok t -> (forall rdi rsi s, main rdi rsi s = kmain_preempted info_fuel rdi rsi s) ->
  exists s, boot main MULTIBOOT2_MAGIC_VALUE mbi c g s0 = Ret (paging_on c, kernel_segments) s
    /\ settled s /\ no_gates s /\ iflag s = true /\ tick s = u32 (1 + timers_taken 2 10)
    /\ kernel_tables kernel_segments s /\ allocator_ready s
    /\ (forall a, in_reserved (mm s) a <-> in_reserved reserved_by_boot a) /\ boot_tables (mem s).
Proof using H.
  intros Hc Hmain. pose proof (ho_tables_page _ _ _ _ _ H) as Htp.
  destruct (boot_run MULTIBOOT2_MAGIC_VALUE mbi c g s0 (ho_processor _ _ _ _ _ H) (ho_tables _ _ _ _ _ H)
    (ho_gdt_place _ _ _ _ _ H) (ho_gdt _ _ _ _ _ H)) as (m1 & Hboot & Bt & Hg & Hm1).
  pose proof (handed_boot_ok m1 Hm1) as Hok.
  destruct (preempted_ready Hok binary t Hc (ho_taken _ _ _ _ _ H)) as (s & Hrun & [Hr Ht Hh _ Hn Hi H3 Hmm] & Hm2).
  assert (Hk : kept m1 (mem s)) by (intros b _ Hb2; by apply Hm2).
  assert (Hbt : boot_tables (mem s))
    by (apply (boot_tables_ext m1); [intros b Hb; apply Hm2; unfold apart, stack_top in *; lia|done]).
  exists s. split; [|split; [split; [exact Hr|exact Hh]|split; [|split; [done|split; [|split; [|split]]]]]].
  - rewrite Hboot. rewrite <- (Hmain MULTIBOOT2_MAGIC_VALUE mbi) in Hrun. by rewrite (bind_ret _ _ _ _ _ Hrun).
  - apply Hn. exact (ho_idt _ _ _ _ _ H).
  - rewrite Ht. cbn [started tick]. by rewrite (ho_tick _ _ _ _ _ H).
  - by apply kernel_tables_kept; [|apply (gdt_kept m1)|].
  - apply allocator_set_up; [|exact Hmm]. apply (info_kept m1); [done|].
    apply (info_kept (mem s0)); [|by destruct H]. intros b Hb _. by apply Hm1.
  - split; [|exact Hbt]. intros a. unfold in_reserved. by rewrite Hmm.
Qed.

(** The tables of boot lie above the first page. *)
Lemma boot_low_page mem1 : boot_tables mem1 -> low_page mem1 p4_table.
Proof using.
  clear H. intros Hb. apply boot_self_mapped; [done|lia|lia|]. intros b Hr. split; [|intros []].
  pose proof p4_aligned. pose proof image_low. Z.div_mod_to_equations. lia.
Qed.

(** A stack in the first gigabyte, off the tables and the text page. *)
Definition low_stack `{Calls} (c : cpu) : Prop :=
  stack_depth <= aligned_sp c <= 2 ^ 30 /\ apart (aligned_sp c - stack_depth) (aligned_sp c) p4_table stack_bottom
  /\ apart (aligned_sp c - stack_depth) (aligned_sp c) VIDEO_ADDRESS (VIDEO_ADDRESS + 4000).

Lemma boot_stack_ok `{Calls} c s : boot_tables (mem s) -> cr3 s = p4_table -> low_stack c -> stack_ok c s.
Proof using H.
  intros Hb H3 (Hr & Ht & Hp). pose proof (ho_tables_page _ _ _ _ _ H) as Htp. unfold apart, stack_top in *.
  split; [split|exact Hp].
  - lia.
  - rewrite H3. apply boot_self_mapped; [done|lia|lia|]. unfold text_page. intros b Hr'. lia.
Qed.

(** Nothing below the recursive entry's addresses depends on the first page. *)
Lemma boot_walks mem1 mem2 va :
  boot_tables mem1 -> (forall b, 4096 <= b -> mem_get mem2 b = mem_get mem1 b) -> 0 <= va < 511 * 2 ^ 39 ->
  page_walk mem2 p4_table va = page_walk mem1 p4_table va.
Proof using.
  clear H. intros Hb Hm Hva. assert (Hb2 : boot_tables mem2).
  { apply (boot_tables_ext mem1); [|done]. intros b Hr. apply Hm.
    pose proof p4_aligned. pose proof image_low. Z.div_mod_to_equations. lia. }
  destruct (decide (va < 2 ^ 30)); [by rewrite !walk_built by (done || lia)|by rewrite !walk_unbuilt by (done || lia)].
Qed.

(** A chunk the allocator may give away lies in an entry of the loader's map
    that is not reserved. *)
Definition in_map (t : multiboot_tag_mmap_t) (a : Z) : Prop :=
  exists e, e ∈ mm_entries t /\ me_type e <> MULTIBOOT_MEMORY_RESERVED
    /\ me_addr e <= a /\ a + PAGE_SIZE <= me_addr e + me_len e.

Definition page_aligned (a : Z) : Prop := a `mod` PAGE_SIZE = 0.

(** The loader's map as the allocator can use it, and everything on page
    boundaries. *)
Record map_ok (t : multiboot_tag_mmap_t) : Prop := {
  mo_regions : Forall region_ok (region_of <$> mm_entries t);
  mo_sorted : regions_sorted (region_of <$> mm_entries t);
  mo_low : Forall (fun c : Z * bool => 0 <= c.1 < 2 ^ 32) (chunks (region_of <$> mm_entries t));
  mo_count : Z.of_nat (length (chunks (region_of <$> mm_entries t))) + 2 < 2 ^ 32;
  mo_pages : Forall (fun e => page_aligned (me_addr e)) (mm_entries t)
}.

Lemma chunk_in_map t j a :
  chunks (region_of <$> mm_entries t) !! j = Some (a, false) ->
  Forall (fun e => page_aligned (me_addr e)) (mm_entries t) -> in_map t a /\ page_aligned a.
Proof using.
  clear H. unfold in_map. revert j. induction (mm_entries t) as [|e es IH]; intros j Hj Hp; [done|].
  apply Forall_cons in Hp as [He Hp]. cbn [fmap list_fmap] in Hj. rewrite chunks_cons in Hj.
  apply lookup_app_Some in Hj as [Hj|[_ Hj]].
  - apply region_chunks_lookup in Hj as (Ha & Ht & Hb). cbn [region_of reg_addr reg_len reg_type fst snd] in *.
    split.
    + exists e. split; [by left|]. split; [by symmetry in Ht; apply Z.eqb_neq in Ht|]. unfold PAGE_SIZE in *. lia.
    + unfold page_aligned in *. rewrite Ha, Z.mul_comm, Z_mod_plus_full. exact He.
  - destruct (IH _ Hj Hp) as [(e' & He' & Hr) Ha]. split; [|done]. exists e'. split; [by right|done].
Qed.

(** On page boundaries, a page that does not start in an area below whose start
    it cannot reach does not meet it. *)
Lemma page_apart a lo hi : page_aligned a -> page_aligned lo -> ~ lo <= a <= hi -> apart a (a + PAGE_SIZE) lo hi.
Proof using. clear H. unfold page_aligned, apart, PAGE_SIZE. intros. Z.div_mod_to_equations. lia. Qed.

(** What the allocator gives away after boot. *)
Definition spared (t : multiboot_tag_mmap_t) (a : Z) : Prop :=
  in_map t a /\ apart a (a + PAGE_SIZE) mbi (mbi + info_size i)
  /\ forall e, e ∈ loaded_sections (info_tags i) -> apart a (a + PAGE_SIZE) (es_addr e) (es_addr e + es_size e).

Lemma granted_spared t s p :
  allocator_ready s -> map_ok t -> page_aligned mbi ->
  Forall (fun e => page_aligned (es_addr e)) (loaded_sections (info_tags i)) ->
  granted (region_of <$> mm_entries t) (mm s) (next_free_frame (mm s)) p -> spared t p.2.
Proof using.
  clear H. intros Ha Ht Hmbi Hsec (_ & Hj & Hres).
  destruct (chunk_in_map t _ p.2 Hj (mo_pages _ Ht)) as [Hin Hp].
  destruct (ar_info _ Ha) as [E1 E2]. unfold in_reserved in Hres. rewrite E1, E2 in Hres.
  split; [done|]. split; [apply page_apart; [done|done|lia]|]. intros e He.
  destruct (ar_tight _ Ha) as (e0 & He0 & Hks); [by intros Hnil; rewrite Hnil in He; apply elem_of_nil in He|].
  destruct (ar_kernel _ Ha e He) as [K1 K2]. rewrite Forall_forall in Hsec.
  assert (apart p.2 (p.2 + PAGE_SIZE) (kernel_start (mm s)) (kernel_end (mm s))) as Hap.
  { apply page_apart; [done|rewrite Hks; by apply Hsec|lia]. }
  unfold apart in *. lia.
Qed.

End Handover.

Arguments info_fuel : clear implicits.
Arguments allocator_ready : clear implicits.
Arguments spared : clear implicits.
Arguments reserved_by_boot : clear implicits.
Arguments low_stack : clear implicits.

(** ** Properties *)

(** C1: from the loader's jump to the idle loop and on.  Given what a multiboot2
    loader hands over (its magic number, a boot information of the structures of
    boot.h, section .bss zero), [boot] goes through the start-up code and
    [kmain], with any interrupts on lines 0 to 4 between its statements, without a
    fault or a panic: the processor is in 64-bit mode and the interrupt gates
    lead to its code segment; the first gigabyte is mapped to itself and the
    tables to themselves; interrupts are on, and they and breakpoints come back
    in any sequence to an interrupted program with its stack in the first
    gigabyte, off the tables and the text page; and the allocator has the
    loader's memory map, its own information's area and an area that covers
    every section the loader loaded.  ([main] is assumed to hand EDI and ESI on
    to [kmain].) *)
Theorem machine_boots {P : Processor} {I : Image} {G : Rodata} {C : Calls} {E : Env} {B : Build} {Q : Irqs}
    {T : Schedule} {D : StubsDistinct} i mbi m sp s0 (binary : bool) t {R : Rtc (encode binary true t)} main c g :
  handed_over i mbi m sp s0 -> clock_ok t ->
  (forall rdi rsi s, main rdi rsi s = kmain_preempted (info_fuel i) rdi rsi s) ->
  exists c' g' s, boot main MULTIBOOT2_MAGIC_VALUE mbi c g s0 = Ret (c', g') s
    /\ mode64 c' g' = true /\ kernel_tables g' s /\ settled s /\ no_gates s /\ iflag s = true
    /\ allocator_ready i mbi s
    /\ forall hs cpu, Forall happening_ok hs -> cpu_ok cpu -> low_stack _ _ cpu ->
         exists cpu' s', happen_all hs cpu s = Ret cpu' s' /\ same_context cpu cpu' /\ settled s'
           /\ tick s' = u32 (1 + timers_taken 2 10 + ticks hs).
Proof.
  intros H Hc Hmain. destruct (boots_run H binary t main c g Hc Hmain) as (s & Hb & Hr & Hn & Hi & Ht & Hk & Ha & _ & Hbt).
  exists (paging_on c), kernel_segments, s. split; [exact Hb|].
  split; [unfold mode64; by rewrite long_mode_active_on|]. do 5 (split; [assumption|]).
  intros hs cpu Hl Hcpu Hs.
  destruct (happen_all_run hs cpu s Hl Hr ltac:(rewrite Ht; apply u32_range) Hcpu (boot_stack_ok H cpu s Hbt (kt_cr3 _ _ Hk) Hs))
    as (cpu' & s' & H1 & H2 & _ & H3 & H4 & _).
  exists cpu', s'. do 3 (split; [assumption|]). rewrite H4, Ht. unfold u32. by rewrite Zplus_mod_idemp_l.
Qed.


(** C27: on the booted kernel [identity_map] maps nothing.  For every frame of the
    first gigabyte, which the start-up code maps with pages of 2 MiB, it returns
    and leaves every translation below the recursive entry's addresses as it
    was; what it writes, the byte of flags with the present bit, goes to the
    word of low memory at eight times the frame's number modulo 512.  ([main] is
    assumed to hand EDI and ESI on to [kmain].) *)
Theorem booted_identity_map_misses {P : Processor} {I : Image} {G : Rodata} {E : Env} {B : Build} {Q : Irqs}
    {T : Schedule} {D : StubsDistinct} i mbi m sp s0 (binary : bool) clk {R : Rtc (encode binary true clk)} main c g :
  handed_over i mbi m sp s0 -> clock_ok clk ->
  (forall rdi rsi s, main rdi rsi s = kmain_preempted (info_fuel i) rdi rsi s) ->
  exists c' s, boot main MULTIBOOT2_MAGIC_VALUE mbi c g s0 = Ret c' s
    /\ forall fuel frame flags, 0 <= frame < 2 ^ 18 ->
       exists s', identity_map fuel frame flags s = Ret tt s'
         /\ s' = with_word (frame `mod` 512) (Z.lor (u8 flags) 1) s
         /\ forall va, 0 <= va < 511 * 2 ^ 39 -> page_walk (mem s') (cr3 s') va = page_walk (mem s) (cr3 s) va.
Proof.
  intros H Hc Hmain.
  destruct (boots_run H binary clk main c g Hc Hmain) as (s & Hb & _ & _ & _ & _ & Hk & _ & _ & Ht).
  exists (paging_on c, kernel_segments), s. split; [exact Hb|]. intros fuel frame flags Hf.
  pose proof (kt_cr3 _ _ Hk) as H3. pose proof (page_indices frame) as (_ & _ & _ & H1).
  assert (E1 : p1_index frame = frame `mod` 512).
  { unfold p1_index. rewrite index_bits, u32_small by lia. change (2 ^ 0) with 1. by rewrite Z.div_1_r. }
  exists (with_word (p1_index frame) (Z.lor (u8 flags) 1) s). split; [|split; [by rewrite E1|]].
  - unfold identity_map. cbv zeta.
    assert (Ep : page_containing_address (frame_starting_address frame) = frame).
    { unfold page_containing_address, frame_starting_address, PAGE_SIZE. rewrite u32_small by lia.
      by rewrite Z.div_mul. }
    rewrite Ep. apply (map_huge_run _ _ _ _ (frame * PAGE_SIZE)); rewrite ?H3.
    + by apply recursive_built.
    + lia.
    + apply walk_built; [done|]. unfold PAGE_SIZE. lia.
    + by apply boot_low_page.
  - intros va Hva. change (cr3 (with_word _ _ s)) with (cr3 s). rewrite H3. apply boot_walks; [done| |done].
    intros b Hb2. apply mem_get_write_out. rewrite length_le_bytes. unfold index_ok in H1. lia.
Qed.

(** The loader's structures of Multiboot.v at 576 KiB, the tables at 2 MiB and
    the segment table in the kernel, for the instances. *)
#[local] Instance timer_irqs : Irqs := fun _ => [(32, 0x80000)].
#[local] Existing Instance test_calls.
(** A key press and a timer interrupt before the allocator is set up. *)
#[local] Instance test_schedule : Schedule := fun k => if decide (k = 8%nat) then [(33, 0x80000); (32, 0x80000)] else [].

Definition handed_state : kstate :=
  blank_state (write_bytes (write_bytes ∅ 0x90000 (info_bytes sample_info)) 0x110000 (@gdt64_bytes test_gdt)).

Lemma handed_state_ok :
  @handed_over test_processor test_image test_gdt test_clock_env test_build timer_irqs test_schedule
    sample_info 0x90000 0 0x80000 handed_state.
Proof.
  split.
  - split; [exact sample_tags_ok|]. split; [reflexivity|]. split; [vm_compute; reflexivity|]. cbn. lia.
  - reflexivity.
  - left. vm_compute. discriminate.
  - left. vm_compute. discriminate.
  - right. vm_compute. discriminate.
  - intros b Hb. cbn [p4_table test_image] in Hb. unfold handed_state, blank_state. cbn [mem].
    rewrite !mem_get_write_out; [reflexivity| |]; right;
      [change (0x90000 + 312 <= b)|change (0x110000 + 34 <= b)]; lia.
  - reflexivity.
  - reflexivity.
  - reflexivity.
  - split; [|split; [|left]]; vm_compute; discriminate.
  - vm_compute. reflexivity.
  - right. vm_compute. discriminate.
  - vm_compute. reflexivity.
  - change (loaded_sections (info_tags sample_info)) with
      [sample_section 1 0x100000 0x4000; sample_section 1 0x104000 0x2345]. repeat constructor.
  - split; [by apply str_printable|simpl; lia].
  - split; [by apply str_printable|simpl; lia].
  - intros j Hj. lia.
  - reflexivity.
  - cbn. lia.
  - intros k. unfold taken, test_schedule. case_decide; repeat constructor; cbn; lia.
Defined.

Lemma machine_boots_witness :
  let g0 := Segments 0 0 0x10 (Descriptor 10 true 0 true false true) 0x18 0x18 0x18 0x18 0x18 in
  exists c' g' s, @boot test_processor test_image test_gdt
      (@kmain_preempted test_clock_env test_build timer_irqs test_schedule (info_fuel sample_info))
      MULTIBOOT2_MAGIC_VALUE 0x90000 (Control 0x11 0 0) g0 handed_state = Ret (c', g') s
    /\ mode64 c' g' = true /\ iflag s = true /\ multiboot_end (mm s) = 0x90138
    /\ exists cpu' s', @happen_all test_calls test_clock_env test_build [Line 0; Breakpoint] idle_cpu s = Ret cpu' s'
         /\ rip cpu' = 0x102000.
Proof.
  intros g0.
  destruct (@machine_boots test_processor test_image test_gdt test_calls test_clock_env test_build timer_irqs
    test_schedule test_stubs_distinct sample_info 0x90000 0 0x80000 handed_state false test_clock test_clock_rtc
    (@kmain_preempted test_clock_env test_build timer_irqs test_schedule (info_fuel sample_info)) (Control 0x11 0 0) g0
    handed_state_ok test_clock_ok (fun _ _ _ => eq_refl))
    as (c' & g' & s & Hb & Hm & _ & _ & _ & Hi & Ha & Hall).
  exists c', g', s. split; [exact Hb|]. split; [exact Hm|]. split; [exact Hi|].
  split; [exact (proj2 (ar_info _ Ha))|].
  destruct (Hall [Line 0; Breakpoint] idle_cpu) as (cpu' & s' & Hd & (Hip & _) & _).
  - repeat constructor; cbn; lia.
  - exact idle_cpu_ok.
  - unfold low_stack, apart. rewrite idle_cpu_stack. change (@stack_depth test_calls) with 496.
    change (@p4_table test_image) with 0x200000. unfold VIDEO_ADDRESS. lia.
  - exists cpu', s'. split; [exact Hd|exact Hip].
Defined.

Lemma sample_map_ok : map_ok sample_map.
Proof.
  split.
  - repeat constructor; vm_compute; (reflexivity || discriminate).
  - repeat constructor. vm_compute. discriminate.
  - apply Forall_forall. intros c Hc.
    assert (Hb : forallb (fun c : Z * bool => (0 <=? c.1) && (c.1 <? 2 ^ 32))
      (chunks (region_of <$> mm_entries sample_map)) = true) by (vm_compute; reflexivity).
    rewrite forallb_forall in Hb. specialize (Hb c (proj1 (list_elem_of_In _ _) Hc)). bools. lia.
  - vm_compute. reflexivity.
  - repeat constructor.
Defined.

(** The kernel starts the run of chunks above 1 MiB. *)
Lemma sample_runs_ok : runs_ok (region_of <$> mm_entries sample_map) (reserved_by_boot sample_info 0x90000) 1.
Proof.
  intros j a Hj [Ha Hres] Hp. exfalso. apply Hres.
  destruct (run_start _ _ _ Ha Hp) as (r & Hr & Er). cbn [fst] in Er. subst a.
  destruct (lookup_lt_is_Some_2 (chunks (region_of <$> mm_entries sample_map)) 0%nat) as [c Hc];
    [apply lookup_lt_Some in Ha; lia|].
  pose proof (chunks_sorted_regions _ (mo_sorted _ sample_map_ok) 0%nat j c _ ltac:(lia) Hc Ha) as Hpos. cbn [fst] in Hpos.
  assert (H0 : 0 <= c.1) by (apply (chunks_bound (region_of <$> mm_entries sample_map) 0 0%nat c); [repeat constructor; vm_compute; discriminate|exact Hc]).
  repeat (apply elem_of_cons in Hr as [->|Hr]); [| |by apply elem_of_nil in Hr].
  - exfalso. revert Hpos. cbn [region_of reg_addr fst snd me_addr]. unfold PAGE_SIZE. lia.
  - right. vm_compute. split; discriminate.
Defined.


Lemma booted_identity_map_misses_witness :
  let g0 := Segments 0 0 0x10 (Descriptor 10 true 0 true false true) 0x18 0x18 0x18 0x18 0x18 in
  exists c' s s', @boot test_processor test_image test_gdt
      (@kmain_preempted test_clock_env test_build timer_irqs test_schedule (info_fuel sample_info))
      MULTIBOOT2_MAGIC_VALUE 0x90000 (Control 0x11 0 0) g0 handed_state = Ret c' s
    /\ identity_map 1 0x301 2 s = Ret tt s' /\ s' = with_word 257 3 s.
Proof.
  intros g0.
  destruct (@booted_identity_map_misses test_processor test_image test_gdt test_clock_env test_build timer_irqs
    test_schedule test_stubs_distinct sample_info 0x90000 0 0x80000 handed_state false test_clock test_clock_rtc
    (@kmain_preempted test_clock_env test_build timer_irqs test_schedule (info_fuel sample_info)) (Control 0x11 0 0) g0
    handed_state_ok test_clock_ok (fun _ _ _ => eq_refl)) as (c' & s & Hb & Hall).
  destruct (Hall 1%nat 0x301 2 ltac:(lia)) as (s' & Hm & Hs & _).
  exists c', s, s'. split; [exact Hb|]. split; [exact Hm|exact Hs].
Defined.
